(* ===== verification/_CoqProject ===== *)
-Q . S2P
Prelude.v
Clib.v
Screen.v
FileSystem.v
Pic.v
Rtc.v
MemOps.v
Paging.v
Kernel.v
Scheduler.v
Terminal.v
Syscall.v
Exec.v
Process.v
Keyboard.v
Typing.v
Descriptors.v
Exceptions.v
Interrupts.v
Dispatch.v
FileCalls.v
Boot.v
Startup.v
Types.v
Safety.v
Progress.v
Calls.v
UserLib.v
Service.v
KernelCalls.v
Blink.v
BlinkBytes.v
Vidmap.v
Fish.v
Programs.v
Emulate.v
Console.v
Syserr.v
Grep.v
Pingpong.v
Utilities.v
FishKernel.v
Sigtest.v
Jobs.v
Sessions.v
Shell.v
System.v
