(* ===== verification/Prelude.v ===== *)
(** * Verification of the ECE 391 teaching kernel

    The repository is a small 32-bit x86 operating system ([src/student-distrib]): a
    kernel that the boot loader starts, with a read-only file system in a boot module,
    three text terminals on the VGA text page, a keyboard, a real-time clock, paging with
    one address space per process, up to six processes, eight system calls. This library
    models its C code and the assembly that connects it, and proves what makes each part
    correct.

    ** The parts, and the files that model them

    - [Prelude]: integers of the machine ([u8], [u32], [s32], ...) with their wrap-around
      written out; objects as lists of bytes, with [load] and [store] that have no result
      outside the object; the state monad [M] of the kernel, its weakest precondition
      [wp] and the rules of its loops; lenses ([Lens], [zoom]) that run a component on
      its part of the kernel; port accesses as a history ([inb], [outb], [cli], [sti] of
      lib.h) that the class [Device] answers from; busy waits ([spin]), whose argument is
      the list of interrupts that arrive while the code waits.
    - [Clib], [Screen], [MemOps]: lib.c. Strings and itoa; the text page, the cursor and
      printf; memset, memcpy and memmove with their inline assembly.
    - [FileSystem]: file_system.c on the bytes of the image. [wf_image] says when an
      image is well formed; [check_image] decides it.
    - [Pic], [Rtc]: i8259.c (the controllers and the timer) and rtc.c, with the chips
      that the ports belong to as abstract state machines.
    - [Paging]: paging.c, and [translate], the processor's translation of an address. The
      class [Layout] gives the addresses of the tables.
    - [Kernel]: all global variables in one record [kernel], one lens per component, and
      the lookups find_programid, find_terminal. A pointer to a terminal, a task or a
      control block is its number.
    - [Scheduler]: scheduler.c. [Terminal]: terminal.c without its keyboard handler.
      [Keyboard]: terminal_key_pressed and terminal_switch; the class [Overread] stands
      for the bytes behind the key tables.
    - [Syscall]: open, close, read, write, getargs, vidmap of systemcall.c with the
      tables of operations, and read_file. [Exec]: execute and halt. The type [control]
      says how code leaves the kernel: it returns, or enters a program by iret, or goes
      on from saved stack registers.
    - [Descriptors], [Exceptions], [Interrupts], [Dispatch]: the interrupt table and the
      segments (x86_desc.h, x86_desc.S, idt_initialize), the exception handlers (idt.c),
      irq_handler with its three handlers and their wrappers (i8259.c, idt_linkage.S),
      the wrapper of interrupt 0x80.
    - [Boot]: entry of kernel.c.
    - [Process], [Typing], [FileCalls], [Startup] have no code of their own: they hold the
      properties of execute and halt, of the keyboard, of sequences of file system calls,
      and of entry.
    - [Types], [Safety]: the types of the kernel's variables as an invariant, the
      computations that keep it ([keeps]), and the states of the running system
      ([Safety.running]): from entry on, any interrupts, stores of programs, and system
      calls with pointers into the program's own page. [Progress]: the system calls with
      valid arguments ([valid_syscall]), the interrupts of the keyboard and the clock and
      the stores of a program that a working kernel carries out to their return.
    - [Calls], [UserLib]: the programs of [src/syscalls] as interaction trees over the
      system calls ([prog]), the wrappers of ece391syscall.S and the library
      ece391support.c. A handler gives the calls a meaning; [runs] says that a program
      ends in a postcondition, [exec] runs one with fuel.
    - [Service]: what the kernel promises a program, as a handler on an abstract [world]:
      a volume of named files, six channels, a terminal, the lines that the user will type.
      [KernelCalls]: the handler that runs the kernel's own code, and the representation
      of a world by a kernel.
    - [Programs] (cat, ls), [Console] (hello, counter, testprint), [Syserr] (syserr),
      [Grep] (grep), [Pingpong] (pingpong), [Utilities] (these on the kernel). [Sigtest]
      (sigtest, up to the page fault that it asks for).
    - [Blink], [BlinkBytes], [Vidmap], [Fish], [FishKernel]: [src/fish]. [Blink] is
      blink.S and the storage functions of fish.c, a linked list in an array of
      structures, on a state of its own; [BlinkBytes] their copies byte by byte. [Vidmap]
      adds to the service of [Service] the call vidmap and the stores of a program on its
      text page, which are events of [Calls] ([Sys_poke]) that the processor answers
      through its page tables. [Fish] is the program over this service, [FishKernel] the
      program on the kernel.
    - [Emulate]: ece391emulate.c, the calls on top of Linux's. A record [linux] of
      functions stands for Linux and its C library; the emulation is a handler of the
      same calls, so the same programs run over it.
    - [Jobs]: the service of processes, in which a program may execute another one.
      [Sessions]: execute and halt of [Exec] implement it. [Shell]: the shell, and what a
      session of commands does. [System]: both together, from the boot loader on.

    The parts interact as in the code: an interrupt runs [irq_handler], which calls the
    handlers of the keyboard (and through it terminal_switch, execute), the clock and the
    scheduler; interrupt 0x80 runs the system calls, which call the drivers by the
    operation table of the descriptor; all of them work on the state [kernel].

    ** Errors and divergence

    A computation of [M] ends in [Ret] with a value and a state, in [Hang] (an endless
    loop of the code, such as that of an exception handler), or in [Undef]: an access
    outside an object, a call through an empty table, a use of something the model has no
    meaning for. The theorems state that the code returns, with its result and its state,
    under hypotheses which the witnesses show to hold for concrete states; where the code
    hangs or is undefined, a theorem says so. [Safety] is about the states that runs lead
    to as far as C defines them: [Undef] has no state there. What rules [Undef] out is
    [Progress].

    ** What the theorems show

    - Safety: the address spaces of two processes never share a page but the video memory
      in any state of the running system, as long as the programs pass pointers into their
      own pages and the kernel stays inside its objects ([Safety.running_isolated], from
      [Paging.tasks_isolated] and [Paging.paging_address_spaces]); in any sequence of valid
      calls, interrupts of the keyboard and the clock and stores of the program, the kernel
      does stay inside them and carries each out to its return, and each variable has a
      value of its type ([Progress.system_progresses]); a redirected screen comes back
      ([Paging.screen_redirection]).
    - Processes: execute enters the program at its entry point, in a new process whose
      descriptors are fresh but the last, or refuses and changes nothing; halt returns to the parent with the status, and closes
      the wrong files ([Process]).
    - Start: the report on the boot loader's information ends; from power-on entry runs the
      shell ([Boot], [Startup]).
    - Terminals: the keyboard handler refines an abstract line editor
      ([Typing.keyboard_refines_session]); what is typed is what a waiting read delivers
      ([Interrupts.terminal_read_typed_line]); terminal_write refines an abstract terminal
      ([Terminal.terminal_write_refines_tty]); printf prints the rendering of its format.
    - Files: read_data refines a list of bytes; lookup, directory listing, and their
      overruns on long names ([FileSystem]); open, read, close ([Syscall]); a read through
      interrupt 0x80 stores the file's bytes in the program and nothing else
      ([Dispatch]); any sequence of valid file calls keeps the descriptors served
      ([FileCalls.file_calls_keep_descriptors]).
    - Scheduling: switch_task is round robin over the runnable terminals and comes back with
      what it stored of a terminal: the stack pointers are those of the last keyboard
      interrupt, which alone sets them ([Scheduler]).
    - Devices and tables: the mask bytes implement a set of lines, interrupts are
      acknowledged, the clock's rate, the timer's divisor, the gates and segments as the
      processor reads them ([Pic], [Rtc], [Interrupts], [Descriptors]).
    - Library routines: itoa, and the optimised memory routines against the naive ones
      ([Clib], [MemOps]).
    - fish: the linked list of blinking characters behaves like a list of characters,
      for any requests and ticks ([Blink.blink_list_refines]), unless a character is at
      location 0 ([Blink.zero_location_endless]); two pictures blink
      ([Fish.pictures_blink]); fish draws what the list draws, on the kernel
      ([FishKernel.fish_shows]).
    - Linux: the arguments of a command arrive ([Emulate.execute_passes_arguments]), or
      overrun the buffer ([Emulate.getargs_overruns]); ls shows a directory
      ([Emulate.ls_on_linux]).
    - Programs: a program that ends over the service ends on the kernel with the same
      result and the state that represents the same world
      ([Utilities.kernel_refines_service]); so cat prints the file, ls the directory, grep
      the lines with the pattern, pingpong bounces between the walls for as long as the
      clock ticks, syserr passes its tests ([Utilities]), and sigtest stops at its fault
      ([Sigtest.sigtest_faults]). The same with processes that execute
      others ([System.kernel_refines_processes]); the shell carries out the user's session
      ([System.shell_runs_session]), from the boot loader on ([System.boot_to_session]).

    ** Fuel and bounds

    enable_irq recurses once, so two units are enough. The loop of rtc_write shifts a
    32-bit mask, 33 rounds end it. itoa's loop has 32 digits at most, memory loops run
    over the number of bytes. The loop over the boot loader's memory map runs at most
    once per byte of the map ([Boot.print_mmap_ok]). A busy wait runs over the list of
    interrupts that arrive; [None] is the caller still waiting. Interaction trees have no fuel of their
    own; [processes] has fuel for the tree that a handled call starts, and the theorems
    about sessions state that some fuel is enough (more gives the same,
    [Calls.processes_below]). A walk along the links of [Blink] has 2000 steps, as the
    array has 2000 nodes; a longer walk is endless ([Blink.circular_endless]). The loops of
    [Emulate] pass one byte of their array in a round.

    ** Not modelled

    The translation look-aside buffer: a change of a page table takes effect at once.
    Pointers that a program passes to a call and that do not point into its own page: the
    kernel checks none, and reads or writes through them whatever its tables map, its own
    variables and page tables too; the model has these as records without addresses, so
    the object behind such a pointer is empty ([Dispatch.user_object]), a store through it
    is [Undef] ([put_program]), and each theorem on such calls asks for the pointer's range.
    Interrupts in the middle of kernel code, other than in the busy waits. The register
    contents that pusha and popa keep, and the shared variable returnValue. The
    instructions of a user program: [code] and [text], the meaning of a loaded program
    file, are parameters ([System.loads]), and so are the stack registers of its system
    calls ([frame_of]); between its calls a program changes its own objects only. The file
    system's memory is read at its own address, not through the page tables. [boot.S] (it
    loads the segment registers and calls entry), [debug.h], the macros of
    lib.h for words of ports and for saved flags, which nothing uses, the tests in
    comments. Of the library of the programs the call halt: a program ends with its
    result. Linux, under the emulation, is a parameter.

    ** The prelude

    This file holds what the components share: machine integers, objects, the state
    monad with its rules, lenses, port accesses, loops and busy waits. *)
From stdpp Require Export base tactics option list list_numbers numbers strings.
From Stdlib Require Export ZArith Lia.
#[global] Open Scope Z_scope.

(** ** Machine integers

    A C integer of w bits is a [Z]; a conversion to the type writes the
    wrap-around out. *)

Definition u8 (x : Z) : Z := x `mod` 256.
Definition u16 (x : Z) : Z := x `mod` 65536.
Definition u32 (x : Z) : Z := x `mod` 4294967296.
Definition s8 (x : Z) : Z := (x + 128) `mod` 256 - 128.
Definition s32 (x : Z) : Z := (x + 2147483648) `mod` 4294967296 - 2147483648.

(** A byte value, and lists of them. *)
Definition byte (x : Z) : Prop := 0 <= x < 256.
Abbreviation bytes l := (Forall byte l).

Create Rewrite HintDb word.
Create Rewrite HintDb len.
Create Rewrite HintDb wp.
Create HintDb range.

Lemma u8_range x : 0 <= u8 x < 256.
Proof. apply Z.mod_pos_bound; lia. Qed.
Lemma u16_range x : 0 <= u16 x < 65536.
Proof. apply Z.mod_pos_bound; lia. Qed.
Lemma u32_range x : 0 <= u32 x < 4294967296.
Proof. apply Z.mod_pos_bound; lia. Qed.
Lemma s8_range x : -128 <= s8 x < 128.
Proof. unfold s8. pose proof (Z.mod_pos_bound (x + 128) 256). lia. Qed.
Lemma s32_range x : -2147483648 <= s32 x < 2147483648.
Proof. unfold s32. pose proof (Z.mod_pos_bound (x + 2147483648) 4294967296). lia. Qed.

Lemma u8_small x : 0 <= x < 256 -> u8 x = x.
Proof. apply Z.mod_small. Qed.
Lemma u16_small x : 0 <= x < 65536 -> u16 x = x.
Proof. apply Z.mod_small. Qed.
Lemma u32_small x : 0 <= x < 4294967296 -> u32 x = x.
Proof. apply Z.mod_small. Qed.
Lemma s32_small x : -2147483648 <= x < 2147483648 -> s32 x = x.
Proof. intros. unfold s32. rewrite Z.mod_small; lia. Qed.
Lemma s8_small x : -128 <= x < 128 -> s8 x = x.
Proof. intros. unfold s8. rewrite Z.mod_small; lia. Qed.

(** On bytes the signed view is injective, so comparing [int8_t] values is
    comparing bytes. *)
Lemma s8_inj x y : byte x -> byte y -> s8 x = s8 y -> x = y.
Proof.
  unfold byte, s8. intros Hx Hy H.
  pose proof (Z.div_mod (x + 128) 256). pose proof (Z.div_mod (y + 128) 256).
  pose proof (Z.mod_pos_bound (x + 128) 256). lia.
Qed.

#[export] Hint Resolve u8_range u16_range u32_range s8_range s32_range : range.
#[export] Hint Rewrite u8_small u16_small u32_small s32_small s8_small using lia : word.

(** ** C objects

    An array is the list of its elements; an access is by a [Z] index and is
    [None] outside the object, where C gives no meaning (on this machine: a
    page fault, or a neighbouring object). *)

Definition load {A} (l : list A) (i : Z) : option A :=
  if bool_decide (0 <= i) then l !! Z.to_nat i else None.

Definition store {A} (l : list A) (i : Z) (v : A) : option (list A) :=
  if bool_decide (0 <= i < Z.of_nat (length l)) then Some (<[Z.to_nat i := v]> l) else None.

Abbreviation len l := (Z.of_nat (length l)).

Section Objects.
Context {A : Type}.
Implicit Types (l : list A) (v w : A) (i j : Z).

Lemma load_inv l i v : load l i = Some v -> 0 <= i < len l /\ l !! Z.to_nat i = Some v.
Proof.
  unfold load. case_bool_decide; [|done]. intros Hl.
  pose proof (lookup_lt_Some _ _ _ Hl). split; [lia|done].
Qed.

Lemma load_Some l i : 0 <= i < len l -> is_Some (load l i).
Proof.
  intros. unfold load. rewrite bool_decide_true by lia.
  apply lookup_lt_is_Some_2. lia.
Qed.

Lemma load_lookup l (n : nat) : load l (Z.of_nat n) = l !! n.
Proof. unfold load. rewrite bool_decide_true by lia. by rewrite Nat2Z.id. Qed.

Lemma load_nonneg l i : 0 <= i -> load l i = l !! Z.to_nat i.
Proof. intros. unfold load. by rewrite bool_decide_true by lia. Qed.

Lemma load_oob l i : i < 0 \/ len l <= i -> load l i = None.
Proof.
  intros. unfold load. case_bool_decide; [|done]. apply lookup_ge_None_2. lia.
Qed.

Lemma store_in l i v : 0 <= i < len l -> store l i v = Some (<[Z.to_nat i := v]> l).
Proof. intros. unfold store. by rewrite bool_decide_true. Qed.

Lemma store_oob l i v : i < 0 \/ len l <= i -> store l i v = None.
Proof. intros. unfold store. rewrite bool_decide_false; [done|lia]. Qed.

Lemma store_inv l i v l' :
  store l i v = Some l' -> 0 <= i < len l /\ l' = <[Z.to_nat i := v]> l.
Proof. unfold store. case_bool_decide; naive_solver. Qed.

Lemma store_length l i v l' : store l i v = Some l' -> length l' = length l.
Proof. intros [_ ->]%store_inv. apply length_insert. Qed.

Lemma load_insert_eq l i v : 0 <= i < len l -> load (<[Z.to_nat i := v]> l) i = Some v.
Proof. intros. rewrite load_nonneg by lia. apply list_lookup_insert_eq. lia. Qed.

Lemma load_insert_ne l i j v :
  0 <= i -> i <> j -> load (<[Z.to_nat i := v]> l) j = load l j.
Proof.
  intros. unfold load. case_bool_decide; [|done]. apply list_lookup_insert_ne. lia.
Qed.

Lemma load_app_l l k i : i < len l -> load (l ++ k) i = load l i.
Proof. intros. unfold load. case_bool_decide; [|done]. apply lookup_app_l. lia. Qed.

Lemma load_app_r l k i : len l <= i -> load (l ++ k) i = load k (i - len l).
Proof.
  intros. rewrite !load_nonneg by lia. rewrite lookup_app_r by lia. f_equal. lia.
Qed.

Lemma load_middle l1 v l2 i : i = len l1 -> load (l1 ++ v :: l2) i = Some v.
Proof. intros ->. rewrite load_lookup. by rewrite lookup_app_r, Nat.sub_diag by lia. Qed.

Lemma store_middle l1 v l2 i w :
  i = len l1 -> store (l1 ++ v :: l2) i w = Some (l1 ++ w :: l2).
Proof.
  intros ->. rewrite store_in by (rewrite length_app; simpl; lia).
  rewrite Nat2Z.id. f_equal. by rewrite insert_app_r_alt, Nat.sub_diag by lia.
Qed.

Lemma load_Forall (P : A -> Prop) l i v : Forall P l -> load l i = Some v -> P v.
Proof. intros HP [_ Hl]%load_inv. by eapply Forall_lookup_1. Qed.

Lemma load_head v l : load (v :: l) 0 = Some v.
Proof. done. Qed.

Lemma load_replicate (n : nat) v i : 0 <= i < Z.of_nat n -> load (replicate n v) i = Some v.
Proof. intros. rewrite load_nonneg by lia. apply lookup_replicate_2. lia. Qed.

Lemma load_drop l (n : nat) i : 0 <= i -> load (drop n l) i = load l (i + Z.of_nat n).
Proof. intros. rewrite !load_nonneg by lia. rewrite lookup_drop. f_equal. lia. Qed.
End Objects.

#[export] Hint Rewrite @length_insert @length_app @length_take @length_drop
  @length_replicate @length_rev @length_fmap @length_cons @length_nil : len.
Ltac lens := repeat first [progress autorewrite with len in * | progress simpl length in *]; try lia.

(** ** Port input and output

    The history of the CPU's port accesses and interrupt-flag writes, newest
    first. A device is a function of this history, so [outb] needs no device
    and [inb] takes the byte the device answers with. *)

Inductive ioev :=
| Out (port val : Z)
| In (port val : Z)
| Cli
| Sti.

#[export] Instance ioev_eq_dec : EqDecision ioev.
Proof. solve_decision. Defined.

(** ** Stateful code

    [Ret a s]: the code returned [a] in state [s]. [Hang s]: it entered one of
    the source's [while(1);] in state [s]. [Undef]: it left the objects it may
    access (C gives it no meaning). *)

Inductive res (S A : Type) :=
| Ret (a : A) (s : S)
| Hang (s : S)
| Undef.
Arguments Ret {S A} a s.
Arguments Hang {S A} s.
Arguments Undef {S A}.

Definition M (S A : Type) : Type := S -> res S A.

(** The state a computation ends in, for evaluating examples. *)
Definition final {S A} (r : res S A) (d : S) : S :=
  match r with Ret _ s | Hang s => s | Undef => d end.

#[export] Instance M_ret S : MRet (M S) := fun A a s => Ret a s.
#[export] Instance M_bind S : MBind (M S) := fun A B f m s =>
  match m s with
  | Ret a s' => f a s'
  | Hang s' => Hang s'
  | Undef => Undef
  end.

Section Primitives.
Context {S : Type}.
Definition get : M S S := fun s => Ret s s.
Definition gets {A} (f : S -> A) : M S A := fun s => Ret (f s) s.
Definition modify (f : S -> S) : M S unit := fun s => Ret tt (f s).
Definition undef {A} : M S A := fun _ => Undef.
Definition hang {A} : M S A := fun s => Hang s.
(** A computation on objects: [None] is an access outside them. *)
Definition lift {A} (o : option A) : M S A := fun s =>
  match o with Some a => Ret a s | None => Undef end.
Definition when (b : bool) (m : M S unit) : M S unit := if b then m else mret tt.

(** [for(i = lo; i < lo + n; i++) body(i)] *)
Fixpoint for_ (n : nat) (lo : Z) (body : Z -> M S unit) : M S unit :=
  match n with
  | O => mret tt
  | Datatypes.S n' => body lo ;; for_ n' (lo + 1) body
  end.

(** Total correctness: the code returns, and the result satisfies [Q]. *)
Definition wp {A} (m : M S A) (Q : A -> S -> Prop) (s : S) : Prop :=
  match m s with Ret a s' => Q a s' | Hang _ | Undef => False end.
End Primitives.

(** [for(i = lo; i < hi; i++)] *)
Abbreviation for_range lo hi body := (for_ (Z.to_nat (hi - lo)) lo body).

Section Wp.
Context {S : Type}.
Implicit Types (s : S).

Lemma wp_ret {A} (a : A) (Q : A -> S -> Prop) s : wp (mret a) Q s <-> Q a s.
Proof. done. Qed.
Lemma wp_bind {A B} (m : M S A) (f : A -> M S B) Q s :
  wp (m ≫= f) Q s <-> wp m (fun a => wp (f a) Q) s.
Proof. unfold wp, mbind, M_bind. by destruct (m s). Qed.
Lemma wp_get (Q : S -> S -> Prop) s : wp get Q s <-> Q s s.
Proof. done. Qed.
Lemma wp_gets {A} (f : S -> A) (Q : A -> S -> Prop) s : wp (gets f) Q s <-> Q (f s) s.
Proof. done. Qed.
Lemma wp_modify (f : S -> S) (Q : unit -> S -> Prop) s : wp (modify f) Q s <-> Q tt (f s).
Proof. done. Qed.
Lemma wp_lift {A} (o : option A) (Q : A -> S -> Prop) s :
  wp (lift o) Q s <-> exists a, o = Some a /\ Q a s.
Proof. unfold wp, lift. destruct o; naive_solver. Qed.
Lemma wp_when b (m : M S unit) Q s :
  wp (when b m) Q s <-> (if b then wp m Q s else Q tt s).
Proof. by destruct b. Qed.

Lemma wp_mono {A} (m : M S A) (Q Q' : A -> S -> Prop) s :
  wp m Q s -> (forall a s', Q a s' -> Q' a s') -> wp m Q' s.
Proof. unfold wp. destruct (m s); naive_solver. Qed.

Lemma wp_Ret {A} (m : M S A) (Q : A -> S -> Prop) s :
  wp m Q s <-> exists a s', m s = Ret a s' /\ Q a s'.
Proof. unfold wp. destruct (m s); naive_solver. Qed.

Lemma wp_eq {A} (m : M S A) a s s' : m s = Ret a s' <-> wp m (fun b t => b = a /\ t = s') s.
Proof. unfold wp. destruct (m s); naive_solver. Qed.

Lemma wp_for (I : Z -> S -> Prop) (n : nat) lo body s :
  I lo s ->
  (forall i t, lo <= i < lo + Z.of_nat n -> I i t -> wp (body i) (fun _ => I (i + 1)) t) ->
  wp (for_ n lo body) (fun _ => I (lo + Z.of_nat n)) s.
Proof.
  revert lo s. induction n as [|n IH]; intros lo s H0 Hstep; simpl.
  - rewrite wp_ret. by replace (lo + Z.of_nat 0) with lo by lia.
  - rewrite wp_bind. eapply wp_mono; [apply Hstep; [lia|done]|].
    intros ? t Ht. replace (lo + Z.of_nat (Datatypes.S n)) with ((lo + 1) + Z.of_nat n) by lia.
    apply IH; [done|]. intros. apply Hstep; [lia|done].
Qed.

Lemma wp_unit (m : M S unit) (P : S -> Prop) s :
  wp m (fun _ => P) s -> exists t, m s = Ret tt t /\ P t.
Proof. rewrite wp_Ret. intros ([] & t & ? & ?). eauto. Qed.

Lemma bind_Ret {A B} (m : M S A) (f : A -> M S B) s a s' :
  m s = Ret a s' -> (m ≫= f) s = f a s'.
Proof. unfold mbind, M_bind. by intros ->. Qed.

Lemma bind_inv {A B} (m : M S A) (f : A -> M S B) s b s'' :
  (m ≫= f) s = Ret b s'' -> exists a s', m s = Ret a s' /\ f a s' = Ret b s''.
Proof. unfold mbind, M_bind. destruct (m s) as [a s'| |] eqn:E; [|done|done]. intros H. by exists a, s'. Qed.

Lemma bind_bind {A B C} (m : M S A) (f : A -> M S B) (g : B -> M S C) s :
  ((m ≫= f) ≫= g) s = (m ≫= fun a => f a ≫= g) s.
Proof. unfold mbind, M_bind. by destruct (m s). Qed.
End Wp.

#[global] Arguments for_ : simpl never.
#[export] Hint Rewrite @wp_ret @wp_bind @wp_get @wp_gets @wp_modify @wp_lift @wp_when : wp.
Ltac wps := autorewrite with wp; cbv beta.

(** Running a component of a larger state. *)
Class Lens (S T : Type) := {
  lget : S -> T;
  lset : T -> S -> S;
  lget_lset t s : lget (lset t s) = t;
  lset_lget s : lset (lget s) s = s;
  lset_lset t t' s : lset t (lset t' s) = lset t s;
}.

Definition zoom {S T A} `{!Lens S T} (m : M T A) : M S A := fun s =>
  match m (lget s) with
  | Ret a t => Ret a (lset t s)
  | Hang t => Hang (lset t s)
  | Undef => Undef
  end.

Lemma wp_zoom {S T A} `{!Lens S T} (m : M T A) (Q : A -> S -> Prop) s :
  wp (zoom m) Q s <-> wp m (fun a t => Q a (lset t s)) (lget s).
Proof. unfold wp, zoom. by destruct (m (lget s)). Qed.
#[export] Hint Rewrite @wp_zoom : wp.

Lemma zoom_Ret {S T A} `{!Lens S T} (f : M T A) (s : S) a t : f (lget s) = Ret a t -> zoom f s = Ret a (lset t s).
Proof. unfold zoom. by intros ->. Qed.
Lemma zoom_inv {S T A} `{!Lens S T} (f : M T A) (s : S) a s' :
  zoom f s = Ret a s' -> exists t, f (lget s) = Ret a t /\ s' = lset t s.
Proof. unfold zoom. destruct (f (lget s)) as [b t| |]; intros [= <- <-]. by exists t. Qed.

(** *** Port accesses of a component that has the history *)

(** What the devices answer: a function of the accesses so far, newest first,
    and the port. *)
Class Device := device_read : list ioev -> Z -> Z.

Section Ports.
Context {S : Type} `{!Lens S (list ioev)}.

Definition emit (e : ioev) : M S unit := modify (fun s => lset (e :: lget s) s).
(** The [outb] macro: the low byte of [data] goes to the port. *)
Definition outb (data port : Z) : M S unit := emit (Out port (u8 data)).
(** [inb]: a byte, zero-extended. *)
Definition inb `{!Device} (port : Z) : M S Z :=
  s ← get;
  let v := u8 (device_read (lget s) port) in
  emit (In port v) ;;
  mret v.
Definition cli : M S unit := emit Cli.
Definition sti : M S unit := emit Sti.

Lemma wp_emit e Q s : wp (emit e) Q s <-> Q tt (lset (e :: lget s) s).
Proof. done. Qed.
Lemma wp_outb data port Q s :
  wp (outb data port) Q s <-> Q tt (lset (Out port (u8 data) :: lget s) s).
Proof. done. Qed.
Lemma wp_inb `{!Device} port (Q : Z -> S -> Prop) s :
  wp (inb port) Q s <->
  Q (u8 (device_read (lget s) port))
    (lset (In port (u8 (device_read (lget s) port)) :: lget s) s).
Proof. done. Qed.
End Ports.
#[export] Hint Rewrite @wp_emit @wp_outb @wp_inb : wp.

(** *** Busy waiting

    [while(!cond);] with the interrupts that arrive between two evaluations of
    the condition, in order. [None]: the condition is still false when the
    interrupts are used up, the code is still in the loop. *)
Fixpoint spin {S} (cond : S -> bool) (env : list (M S unit)) : M S (option (list (M S unit))) :=
  s ← get;
  if cond s then mret (Some env)
  else match env with
       | [] => mret None
       | e :: env' => e ;; spin cond env'
       end.

(** ** Strings of the source, as bytes *)
Fixpoint bytes_of_string (s : string) : list Z :=
  match s with
  | EmptyString => []
  | String c s' => Z.of_N (Ascii.N_of_ascii c) :: bytes_of_string s'
  end.

(** A string literal is an array that ends in a NUL. *)
Definition cstring (s : string) : list Z := bytes_of_string s ++ [0].

Lemma bytes_of_string_bytes s : bytes (bytes_of_string s).
Proof.
  induction s as [|c s IH]; simpl; constructor; [|done].
  unfold byte. pose proof (Ascii.N_ascii_bounded c). lia.
Qed.

Lemma cstring_bytes s : bytes (cstring s).
Proof.
  apply Forall_app. split; [apply bytes_of_string_bytes|].
  repeat constructor; unfold byte; lia.
Qed.

(** Objects are equal when they hold the same elements. *)
Lemma load_ext {A} (l k : list A) :
  length l = length k -> (forall i, 0 <= i < len l -> load l i = load k i) -> l = k.
Proof.
  intros Hlen H. apply list_eq. intros i. destruct (decide (i < length l)%nat).
  - rewrite <-!load_lookup. apply H. lia.
  - rewrite !lookup_ge_None_2 by lia. done.
Qed.

Lemma filter_ext_in {A} (P P' : A -> Prop) `{!forall x, Decision (P x), !forall x, Decision (P' x)} (l : list A) :
  (forall x, x ∈ l -> P x <-> P' x) -> filter P l = filter P' l.
Proof.
  induction l as [|x l IH]; [done|]. intros HP. rewrite !filter_cons, IH by (intros; apply HP; by right).
  pose proof (HP x ltac:(left)). by repeat case_decide; try tauto.
Qed.

(** One element less satisfies the predicate. *)
Lemma filter_less {A} `{!EqDecision A} (P P' : A -> Prop) `{!forall x, Decision (P x), !forall x, Decision (P' x)} (l : list A) x :
  NoDup l -> x ∈ l -> P x -> (forall y, P' y <-> P y /\ y <> x) -> length (filter P l) = S (length (filter P' l)).
Proof.
  intros Hnd. induction Hnd as [|y l Hy Hnd IH]; [by intros ?%elem_of_nil|]. intros Hx HP HP'. rewrite !filter_cons.
  apply elem_of_cons in Hx as [->|Hx].
  - rewrite decide_True by done. rewrite decide_False by (intros [_ ?]%HP'; done). cbn [length]. do 2 f_equal.
    apply filter_ext_in. intros z Hz. rewrite HP'. split; [|by intros [? _]]. intros Hz'. split; [done|]. by intros ->.
  - assert (y <> x) as Hne by (intros ->; done). destruct (decide (P y)) as [HPy|HPy].
    + rewrite decide_True by (by apply HP'). cbn [length]. f_equal. by apply IH.
    + rewrite decide_False by (by intros [? _]%HP'). by apply IH.
Qed.

(** The head of a filtered range is its first element with the property. *)
Lemma filter_head_first (P : Z -> Prop) `{!forall x, Decision (P x)} lo (n : nat) i l :
  filter P (seqZ lo (Z.of_nat n)) = i :: l ->
  lo <= i < lo + Z.of_nat n /\ P i /\ forall j, lo <= j < i -> ~ P j.
Proof.
  revert lo. induction n as [|n IH]; intros lo; [done|].
  rewrite seqZ_cons, filter_cons by lia.
  replace (Z.pred (Z.of_nat (Datatypes.S n))) with (Z.of_nat n) by lia.
  case_decide as Hlo.
  - intros [= <- _]. split; [lia|]. split; [done|]. lia.
  - intros (Hi & HP & Hj)%IH. split; [lia|]. split; [done|]. intros j ? HPj.
    destruct (decide (j = lo)) as [->|]; [done|]. apply (Hj j); [lia|done].
Qed.

Lemma filter_first_head (P : Z -> Prop) `{!forall x, Decision (P x)} lo (n : nat) i :
  lo <= i < lo + Z.of_nat n -> P i -> (forall j, lo <= j < i -> ~ P j) ->
  head (filter P (seqZ lo (Z.of_nat n))) = Some i.
Proof.
  revert lo. induction n as [|n IH]; intros lo Hi HP Hj; [lia|].
  rewrite seqZ_cons, filter_cons by lia.
  replace (Z.pred (Z.of_nat (Datatypes.S n))) with (Z.of_nat n) by lia.
  case_decide as Hlo.
  - destruct (decide (i = lo)) as [->|]; [done|]. destruct (Hj lo); [lia|done].
  - destruct (decide (i = lo)) as [->|]; [done|]. apply IH; [lia|done|]. intros. apply Hj. lia.
Qed.
