(* ===== verification/Clib.v ===== *)
(** * Strings and conversions of the kernel's library

    [src/student-distrib/lib.c]: strlen, strcpy, strncpy, strncmp, strrev and
    itoa. A [char *] is the list of the object's bytes from the pointer on, so
    an access behind the object's end is [None]. The source and the destination
    of a copy are different objects, as in every call of the kernel. *)
From S2P Require Import Prelude.

(** ** The code *)

(** [while(s[len] != '\0') len++;] *)
Fixpoint strlen (s : list Z) : option Z :=
  match s with
  | [] => None
  | c :: s' => if bool_decide (c = 0) then Some 0 else n ← strlen s'; Some (n + 1)
  end.

(** [while(src[i] != '\0') { dest[i] = src[i]; i++; } dest[i] = '\0';] *)
Fixpoint strcpy (dest src : list Z) {struct src} : option (list Z) :=
  match src with
  | [] => None
  | c :: src' =>
      match dest with
      | [] => None
      | _ :: dest' =>
          if bool_decide (c = 0) then Some (0 :: dest')
          else d ← strcpy dest' src'; Some (c :: d)
      end
  end.

(** The second loop of strncpy: [while(i < n) { dest[i] = '\0'; i++; }] *)
Fixpoint strncpy_pad (dest : list Z) (n : nat) {struct n} : option (list Z) :=
  match n with
  | O => Some dest
  | S n' =>
      match dest with
      | [] => None
      | _ :: dest' => d ← strncpy_pad dest' n'; Some (0 :: d)
      end
  end.

(** [while(src[i] != '\0' && i < n)]: the byte is read before the bound is
    tested. *)
Fixpoint strncpy (dest src : list Z) (n : nat) {struct src} : option (list Z) :=
  match src with
  | [] => None
  | c :: src' =>
      if bool_decide (c = 0) then strncpy_pad dest n
      else match n with
           | O => Some dest
           | S n' =>
               match dest with
               | [] => None
               | _ :: dest' => d ← strncpy dest' src' n'; Some (c :: d)
               end
           end
  end.

(** [int8_t] is a signed char: the result is the signed difference. *)
Fixpoint strncmp (s1 s2 : list Z) (n : nat) {struct n} : option Z :=
  match n with
  | O => Some 0
  | S n' =>
      match s1, s2 with
      | a :: s1', b :: s2' =>
          if bool_decide (a <> b) || bool_decide (a = 0) then Some (s8 a - s8 b)
          else strncmp s1' s2' n'
      | _, _ => None
      end
  end.

(** [while(beg < end) { swap s[beg], s[end]; beg++; end--; }]; [fuel] bounds
    the iterations, and the string's length is always enough. *)
Fixpoint strrev_loop (fuel : nat) (s : list Z) (beg end_ : Z) : option (list Z) :=
  if bool_decide (beg < end_) then
    match fuel with
    | O => None
    | S fuel' =>
        tmp ← load s end_;
        b ← load s beg;
        s1 ← store s end_ b;
        s2 ← store s1 beg tmp;
        strrev_loop fuel' s2 (beg + 1) (end_ - 1)
    end
  else Some s.

Definition strrev (s : list Z) : option (list Z) :=
  n ← strlen s;
  strrev_loop (length s) s 0 (s32 n - 1).

(** [static int8_t lookup[]] of itoa, with its NUL. *)
Definition lookup_digits : list Z := cstring "0123456789ABCDEFGHIJKLMNOPQRSTUVWXYZ".

(** [while(newval > 0) { i = newval % radix; *newbuf = lookup[i]; newbuf++;
    newval /= radix; }]: [pos] is [newbuf - buf]. Every iteration stores one
    byte, so [fuel = length buf + 1] is never used up: the store fails first.
    The division is unsigned (uint32_t by int32_t). *)
Fixpoint itoa_loop (fuel : nat) (newval radix : Z) (buf : list Z) (pos : Z) :
    option (list Z * Z) :=
  if bool_decide (newval > 0) then
    match fuel with
    | O => None
    | S fuel' =>
        if bool_decide (u32 radix = 0) then None
        else
          c ← load lookup_digits (newval `mod` u32 radix);
          buf' ← store buf pos c;
          itoa_loop fuel' (newval `div` u32 radix) radix buf' (pos + 1)
    end
  else Some (buf, pos).

Definition itoa (value : Z) (buf : list Z) (radix : Z) : option (list Z) :=
  if bool_decide (value = 0) then
    buf1 ← store buf 0 48;
    store buf1 1 0
  else
    '(buf1, pos) ← itoa_loop (S (length buf)) value radix buf 0;
    buf2 ← store buf1 pos 0;
    strrev buf2.

(** ** The C string at a pointer *)

(** The bytes before the first NUL; [None] when the object holds none. *)
Fixpoint until0 (s : list Z) : option (list Z) :=
  match s with
  | [] => None
  | c :: s' => if bool_decide (c = 0) then Some [] else l ← until0 s'; Some (c :: l)
  end.

Lemma until0_spec s l :
  until0 s = Some l <-> exists r, s = l ++ 0 :: r /\ Forall (fun c => c <> 0) l.
Proof.
  revert l. induction s as [|c s IH]; intros l; simpl.
  - split; [done|]. intros (r & Hr & _). by destruct l.
  - case_bool_decide as Hc.
    + subst. split; [intros [= <-]; by exists s|].
      intros (r & Hr & Hl). destruct l as [|d l]; [done|].
      simplify_eq/=. by inv Hl.
    + rewrite bind_Some. setoid_rewrite IH. split.
      * intros (l' & (r & -> & Hl) & [= <-]). exists r. by auto.
      * intros (r & Hr & Hl). destruct l as [|d l]; simplify_eq/=. inv Hl. eauto 10.
Qed.

Lemma until0_app l r : Forall (fun c => c <> 0) l -> until0 (l ++ 0 :: r) = Some l.
Proof. intros. apply until0_spec. eauto. Qed.

Lemma until0_length s l : until0 s = Some l -> (length l < length s)%nat.
Proof. intros (r & -> & _)%until0_spec. lens. Qed.

Lemma until0_prefix s l : until0 s = Some l -> take (length l) s = l.
Proof. intros (r & -> & _)%until0_spec. by rewrite take_app_length. Qed.

Lemma strlen_until0 s : strlen s = (fun l => len l) <$> until0 s.
Proof.
  induction s as [|c s IH]; simpl; [done|]. case_bool_decide; [done|].
  rewrite IH. destruct (until0 s); simpl; [|done]. f_equal. lia.
Qed.

Lemma strlen_Some s l : until0 s = Some l -> strlen s = Some (len l).
Proof. intros H. by rewrite strlen_until0, H. Qed.

(** strcpy copies the string with its NUL when the destination has room, and
    runs out of the destination otherwise. *)
Lemma strcpy_fits dest src str :
  until0 src = Some str -> (length str < length dest)%nat ->
  strcpy dest src = Some (str ++ 0 :: drop (S (length str)) dest).
Proof.
  revert dest str. induction src as [|c src IH]; intros [|d dest] str; simpl; try done;
    case_bool_decide.
  1, 2: intros _; lia.
  - by intros [= <-].
  - rewrite bind_Some. intros (l & Hl & [= <-]) Hlen. simpl in *.
    by rewrite (IH _ l) by (done || lia).
Qed.

Lemma strcpy_overflow dest src str :
  until0 src = Some str -> (length dest <= length str)%nat -> strcpy dest src = None.
Proof.
  revert dest str. induction src as [|c src IH]; intros [|d dest] str; simpl; try done;
    case_bool_decide.
  - intros [= <-]; simpl; lia.
  - rewrite bind_Some. intros (l & Hl & [= <-]) Hlen. simpl in *.
    by rewrite (IH _ l) by (done || lia).
Qed.

Lemma strcpy_until0 dest src d str :
  until0 src = Some str -> strcpy dest src = Some d ->
  until0 d = Some str /\ length d = length dest.
Proof.
  intros Hs Hd. destruct (decide (length str < length dest)%nat) as [Hl|Hl].
  - rewrite (strcpy_fits _ _ _ Hs Hl) in Hd. injection Hd as <-.
    apply until0_spec in Hs as (r & -> & Hz). split; [by apply until0_app|]. lens.
  - rewrite (strcpy_overflow _ _ _ Hs) in Hd by lia. done.
Qed.

Lemma strncpy_pad_spec dest n :
  (n <= length dest)%nat -> strncpy_pad dest n = Some (replicate n 0 ++ drop n dest).
Proof.
  revert dest. induction n as [|n IH]; intros dest Hn; simpl; [done|].
  destruct dest as [|d dest]; lens. simpl. by rewrite IH by lia.
Qed.

Lemma strncpy_spec dest src str n :
  until0 src = Some str -> (n <= length dest)%nat ->
  strncpy dest src n = Some (take n (str ++ replicate n 0) ++ drop n dest).
Proof.
  revert dest str n. induction src as [|c src IH]; intros dest str n; simpl; [done|].
  case_bool_decide.
  - intros [= <-] Hn. rewrite strncpy_pad_spec by done. simpl.
    by rewrite take_ge by (rewrite length_replicate; lia).
  - rewrite bind_Some. intros (l & Hl & [= <-]) Hn.
    destruct n as [|n]; [done|]. destruct dest as [|d dest]; lens.
    rewrite (IH _ l) by (done || lia). simpl.
    replace (take n (l ++ 0 :: replicate n 0)) with (take n (l ++ replicate n 0)); [done|].
    rewrite !take_app. f_equal. change (0 :: replicate n 0) with (replicate (S n) 0).
    rewrite !take_replicate. f_equal. lia.
Qed.

(** The C string at [s], cut at [n] bytes. *)
Fixpoint cstrn (n : nat) (s : list Z) : list Z :=
  match n, s with
  | S n', c :: s' => if bool_decide (c = 0) then [] else c :: cstrn n' s'
  | _, _ => []
  end.

Lemma cstrn_until0 n s l : until0 s = Some l -> cstrn n s = take n l.
Proof.
  revert s l. induction n as [|n IH]; intros [|c s] l; simpl; try done.
  case_bool_decide; [by intros [= <-]|].
  rewrite bind_Some. intros (l' & Hl & [= <-]). simpl. f_equal. by apply IH.
Qed.

(** strncmp decides whether the two strings agree when cut at [n] bytes. *)
Lemma strncmp_spec s1 s2 n :
  bytes s1 -> bytes s2 -> (n <= length s1)%nat -> (n <= length s2)%nat ->
  exists r, strncmp s1 s2 n = Some r /\ (r = 0 <-> cstrn n s1 = cstrn n s2).
Proof.
  revert s1 s2. induction n as [|n IH]; intros [|x s1] [|y s2] H1 H2 L1 L2; simpl in *;
    try lia; try (by exists 0).
  inv H1. inv H2. destruct (decide (x = y)) as [->|Hne].
  - rewrite (bool_decide_false (y <> y)) by auto. simpl. case_bool_decide.
    + exists 0. split; [f_equal; lia|done].
    + destruct (IH s1 s2) as (r & Hr & Hiff); [done..|lia|lia|].
      exists r. split; [done|]. rewrite Hiff. split; congruence.
  - rewrite bool_decide_true by done. simpl. eexists; split; [done|].
    assert (s8 x <> s8 y) by (intros ?; by apply Hne, s8_inj).
    split; [lia|]. repeat case_bool_decide; congruence.
Qed.

(** ** strrev reverses the string in place *)

Lemma strrev_loop_spec fuel pre mid post :
  (length mid <= fuel)%nat ->
  strrev_loop fuel (pre ++ mid ++ post) (len pre) (len pre + len mid - 1)
  = Some (pre ++ reverse mid ++ post).
Proof.
  revert pre mid post. induction fuel as [|fuel IH]; intros pre mid post Hf.
  - destruct mid; [|simpl in Hf; lia]. simpl. by rewrite bool_decide_false by lia.
  - destruct mid as [|x mid]; [simpl; by rewrite bool_decide_false by lia|].
    destruct mid as [|y mid _] using rev_ind; [simpl; by rewrite bool_decide_false by lia|].
    cbn [strrev_loop]. rewrite bool_decide_true by lens.
    replace (pre ++ (x :: mid ++ [y]) ++ post) with ((pre ++ x :: mid) ++ y :: post)
      by (simpl; rewrite <-!app_assoc; done).
    rewrite (load_middle _ _ _ (len pre + len (x :: mid ++ [y]) - 1)) by lens. simpl.
    rewrite <-app_assoc, <-app_comm_cons. rewrite load_middle by done. simpl.
    rewrite app_comm_cons, app_assoc, store_middle by lens. simpl.
    rewrite <-app_assoc, <-app_comm_cons, store_middle by done. simpl.
    replace (len pre + 1) with (len (pre ++ [y])) by lens.
    replace (len pre + Z.of_nat (S (length (mid ++ [y]))) - 1 - 1)
      with (len (pre ++ [y]) + len mid - 1) by lens.
    replace (pre ++ y :: mid ++ x :: post) with ((pre ++ [y]) ++ mid ++ x :: post)
      by (by rewrite <-app_assoc).
    rewrite IH by lens. f_equal. rewrite reverse_cons, reverse_app, <-!app_assoc. done.
Qed.

Lemma strrev_spec s str :
  until0 s = Some str -> len str < 2147483648 ->
  strrev s = Some (reverse str ++ drop (length str) s).
Proof.
  intros Hs Hl. unfold strrev. rewrite (strlen_Some _ _ Hs). simpl.
  rewrite s32_small by lia.
  apply until0_spec in Hs as (r & -> & _).
  rewrite drop_app_length. 
  apply (strrev_loop_spec _ [] str (0 :: r)). lens.
Qed.

(** ** itoa writes the digits, most significant first *)

(** The character of a digit, and its inverse. *)
Definition digit_char (d : Z) : Z := if bool_decide (d < 10) then 48 + d else 55 + d.
Definition char_digit (c : Z) : Z := if bool_decide (c < 65) then c - 48 else c - 55.

Lemma lookup_digit_char d : 0 <= d < 36 -> load lookup_digits d = Some (digit_char d).
Proof.
  intros. rewrite load_nonneg by lia.
  assert (Forall (fun n => lookup_digits !! n = Some (digit_char (Z.of_nat n))) (seq 0 36))
    as HF by (repeat constructor).
  rewrite Forall_forall in HF. rewrite (HF (Z.to_nat d)).
  - f_equal. f_equal. lia.
  - apply elem_of_seq. lia.
Qed.

Lemma char_digit_char d : 0 <= d < 36 -> char_digit (digit_char d) = d.
Proof. intros. unfold char_digit, digit_char. repeat case_bool_decide; lia. Qed.

Lemma digit_char_nonzero d : 0 <= d -> digit_char d <> 0.
Proof. intros. unfold digit_char. case_bool_decide; lia. Qed.

(** The digits of a number, least significant first, and its value. *)
Fixpoint digits (fuel : nat) (r v : Z) : list Z :=
  match fuel with
  | O => []
  | S fuel' => if bool_decide (v > 0) then v `mod` r :: digits fuel' r (v `div` r) else []
  end.

Definition number (r : Z) (ds : list Z) : Z := foldr (fun d acc => d + r * acc) 0 ds.

Lemma div_pow_bound r v (n : nat) :
  1 < r -> 0 <= v < r ^ Z.of_nat (S n) -> 0 <= v `div` r < r ^ Z.of_nat n.
Proof.
  intros Hr Hv. rewrite Nat2Z.inj_succ, Z.pow_succ_r in Hv by lia.
  split; [apply Z.div_pos; lia|]. apply Z.div_lt_upper_bound; lia.
Qed.

Lemma digits_number fuel r v :
  1 < r -> 0 <= v < r ^ Z.of_nat fuel -> number r (digits fuel r v) = v.
Proof.
  intros Hr. revert v. induction fuel as [|fuel IH]; intros v Hv; simpl; [lia|].
  case_bool_decide; [|simpl; lia]. simpl. rewrite IH by (by apply div_pow_bound).
  pose proof (Z.div_mod v r). lia.
Qed.

Lemma digits_range fuel r v : 1 < r -> Forall (fun d => 0 <= d < r) (digits fuel r v).
Proof.
  intros Hr. revert v. induction fuel as [|fuel IH]; intros v; simpl; [constructor|].
  case_bool_decide; constructor; [|apply IH]. apply Z.mod_pos_bound. lia.
Qed.

(** The most significant digit is not zero. *)
Lemma digits_last fuel r v d :
  1 < r -> 0 <= v < r ^ Z.of_nat fuel -> last (digits fuel r v) = Some d -> 0 < d.
Proof.
  intros Hr. revert v. induction fuel as [|fuel IH]; intros v Hv; simpl; [done|].
  case_bool_decide; [|done]. intros Hl.
  pose proof (div_pow_bound r v fuel Hr Hv) as Hd.
  destruct (digits fuel r (v `div` r)) as [|e l] eqn:E.
  - injection Hl as <-. pose proof (digits_number _ _ _ Hr Hd) as Hn. rewrite E in Hn.
    simpl in Hn. pose proof (Z.div_mod v r). pose proof (Z.mod_pos_bound v r). lia.
  - rewrite last_cons_cons in Hl. rewrite <-E in Hl. by apply (IH _ Hd).
Qed.

Lemma digits_length fuel r v k :
  1 < r -> 0 <= v < r ^ Z.of_nat k -> (length (digits fuel r v) <= k)%nat.
Proof.
  intros Hr. revert v k. induction fuel as [|fuel IH]; intros v k Hv; simpl; [lia|].
  case_bool_decide; [|simpl; lia]. destruct k as [|k]; [simpl in Hv; lia|].
  simpl. by apply le_n_S, IH, div_pow_bound.
Qed.

(** The loop appends the characters of the digits. *)
Lemma itoa_loop_spec fuel v radix pre rest :
  2 <= radix <= 36 -> 0 <= v ->
  (length (digits fuel radix v) <= length rest)%nat ->
  v < radix ^ Z.of_nat fuel ->
  itoa_loop (S fuel) v radix (pre ++ rest) (len pre)
  = Some (pre ++ map digit_char (digits fuel radix v)
              ++ drop (length (digits fuel radix v)) rest,
          len pre + len (digits fuel radix v)).
Proof.
  intros Hr. revert v pre rest. induction fuel as [|fuel IH]; intros v pre rest Hv Hl Hb.
  - simpl. rewrite bool_decide_false by (simpl in Hb; lia). by rewrite Z.add_0_r.
  - cbn [digits] in *. remember (S fuel) as f eqn:Hf. cbn [itoa_loop]. case_bool_decide.
    2: { simpl. by rewrite Z.add_0_r. }
    rewrite u32_small by lia. rewrite bool_decide_false by lia.
    pose proof (Z.mod_pos_bound v radix). rewrite lookup_digit_char by lia. simpl.
    destruct rest as [|c rest]; [simpl in Hl; lia|].
    rewrite store_middle by done. simpl.
    replace (pre ++ digit_char (v `mod` radix) :: rest)
      with ((pre ++ [digit_char (v `mod` radix)]) ++ rest) by (by rewrite <-app_assoc).
    replace (len pre + 1) with (len (pre ++ [digit_char (v `mod` radix)])) by lens.
    subst f. pose proof (div_pow_bound radix v fuel ltac:(lia) ltac:(lia)).
    rewrite IH by (simpl in Hl; lia). simpl.
    rewrite <-!app_assoc. f_equal. f_equal. lens.
Qed.

(** More fuel than the digits need does not change the digits. *)
Lemma digits_fuel fuel fuel' r v :
  1 < r -> 0 <= v < r ^ Z.of_nat fuel -> (fuel <= fuel')%nat ->
  digits fuel' r v = digits fuel r v.
Proof.
  intros Hr. revert fuel' v. induction fuel as [|fuel IH]; intros fuel' v Hv Hle; simpl.
  - destruct fuel'; simpl; [done|]. simpl in Hv. by rewrite bool_decide_false by lia.
  - destruct fuel' as [|fuel']; [lia|]. simpl. case_bool_decide; [|done].
    f_equal. apply IH; [by apply div_pow_bound|lia].
Qed.

Lemma itoa_digits v buf radix k :
  2 <= radix <= 36 -> 0 < v < radix ^ Z.of_nat k -> (k < length buf)%nat ->
  len buf < 2147483648 ->
  itoa v buf radix
  = Some (reverse (map digit_char (digits k radix v))
          ++ 0 :: drop (S (length (digits k radix v))) buf).
Proof.
  intros Hr Hv Hk Hm. unfold itoa. rewrite bool_decide_false by lia.
  pose proof (digits_length (length buf) radix v k ltac:(lia) ltac:(lia)) as Hd.
  assert (v < radix ^ len buf) as Hb.
  { eapply Z.lt_le_trans; [apply Hv|]. apply Z.pow_le_mono_r; lia. }
  pose proof (itoa_loop_spec (length buf) v radix [] buf ltac:(lia) ltac:(lia)
                ltac:(lia) Hb) as E.
  cbn [app length] in E. change (Z.of_nat 0) with 0 in E.
  rewrite (digits_fuel k) in E by lia. rewrite (digits_fuel k) in Hd by lia.
  set (ds := digits k radix v) in *. rewrite E, Z.add_0_l. simpl. clear E.
  destruct (drop (length ds) buf) as [|c rest] eqn:Hdr.
  { apply (f_equal length) in Hdr. lens. }
  rewrite store_middle by lens. simpl.
  assert (Forall (fun c => c <> 0) (map digit_char ds)) as Hz.
  { apply Forall_map. eapply Forall_impl; [apply (digits_range k radix v); lia|].
    simpl. intros d ?. apply digit_char_nonzero. lia. }
  rewrite (strrev_spec _ (map digit_char ds)) by (done || by apply until0_app || lens).
  f_equal. rewrite drop_app_length. f_equal. f_equal.
  replace (S (length ds)) with (length ds + 1)%nat by lia.
  by rewrite <-drop_drop, Hdr.
Qed.

(** ** Properties *)

(** The number a string denotes in a radix, most significant digit first. *)
Definition denotes (radix : Z) (str : list Z) : Z := number radix (reverse (char_digit <$> str)).

Lemma denotes_digits radix k v :
  2 <= radix <= 36 -> 0 <= v < radix ^ Z.of_nat k ->
  denotes radix (reverse (map digit_char (digits k radix v))) = v.
Proof.
  intros Hr Hv. unfold denotes.
  change (@map Z Z) with (@fmap list _ Z Z).
  rewrite fmap_reverse, reverse_involutive, <-list_fmap_compose.
  rewrite (Forall_fmap_ext_1 _ id), list_fmap_id.
  - apply digits_number; lia.
  - eapply Forall_impl; [apply digits_range; lia|]. simpl. intros d ?. apply char_digit_char. lia.
Qed.

Lemma digits_pos k radix v :
  1 < radix -> 0 < v < radix ^ Z.of_nat k -> (0 < length (digits k radix v))%nat.
Proof.
  intros Hr Hv. destruct k; simpl in *; [lia|]. rewrite bool_decide_true by lia. simpl. lia.
Qed.

(** The numeral that itoa prints. *)
Definition numeral (radix v : Z) : list Z :=
  if bool_decide (v = 0) then [48] else reverse (map digit_char (digits 32 radix v)).

Lemma pow_32 v radix : 2 <= radix -> v < 4294967296 -> v < radix ^ Z.of_nat 32.
Proof. intros. apply Z.lt_le_trans with (2 ^ 32); [lia|]. apply Z.pow_le_mono_l. lia. Qed.

Lemma numeral_length radix v k :
  1 < radix -> 0 <= v < radix ^ Z.of_nat k -> (1 <= k)%nat -> (length (numeral radix v) <= k)%nat.
Proof.
  intros Hr Hv Hk. unfold numeral. case_bool_decide; [simpl; lia|].
  rewrite length_reverse, length_map. apply digits_length; lia.
Qed.

Lemma numeral_nonzero radix v :
  2 <= radix -> Forall (fun c => c <> 0) (numeral radix v).
Proof.
  intros Hr. unfold numeral. case_bool_decide; [by repeat constructor|].
  apply Forall_reverse, Forall_map. eapply Forall_impl; [apply digits_range; lia|].
  simpl. intros d ?. apply digit_char_nonzero. lia.
Qed.

Lemma denotes_numeral radix v :
  2 <= radix <= 36 -> 0 <= v < 4294967296 -> denotes radix (numeral radix v) = v.
Proof.
  intros Hr Hv. unfold numeral. case_bool_decide.
  - subst. change (denotes radix [48]) with (0 + radix * 0). lia.
  - apply denotes_digits; [done|]. pose proof (pow_32 v radix). lia.
Qed.

Lemma itoa_numeral v buf radix :
  2 <= radix <= 36 -> 0 <= v < 4294967296 -> 33 <= len buf < 2147483648 ->
  itoa v buf radix = Some (numeral radix v ++ 0 :: drop (S (length (numeral radix v))) buf).
Proof.
  intros Hr Hv Hb. unfold numeral. case_bool_decide as Hz.
  - subst. unfold itoa. rewrite bool_decide_true, store_in by lia. simpl.
    rewrite store_in by lens. by destruct buf as [|b0 [|b1 buf]]; [simpl in Hb; lia..|].
  - rewrite length_reverse, length_map.
    pose proof (pow_32 v radix). apply itoa_digits; lia.
Qed.

(** C37: itoa prints and the digits read back: for a radix from 2 to 36 and any
    32-bit value the buffer afterwards holds a NUL-terminated string of at least
    one digit character, which denotes the value in that radix and has no leading
    zero (other than the string "0"); 33 bytes are enough for every radix, and
    nothing beyond the buffer is written. *)
Theorem itoa_roundtrip v buf radix :
  2 <= radix <= 36 -> 0 <= v < 4294967296 -> 33 <= len buf < 2147483648 ->
  exists out str, itoa v buf radix = Some out /\ length out = length buf /\
    until0 out = Some str /\ denotes radix str = v /\
    (str = [48] \/ exists d ds, str = digit_char d :: ds /\ 0 < d < radix).
Proof.
  intros Hr Hv Hb. rewrite itoa_numeral by done. eexists _, (numeral radix v). split; [done|].
  assert (v < radix ^ Z.of_nat 32) as Hp by (apply pow_32; lia).
  pose proof (numeral_length radix v 32 ltac:(lia) ltac:(lia) ltac:(lia)).
  split; [lens|]. split; [apply until0_app, numeral_nonzero; lia|].
  split; [by apply denotes_numeral|]. unfold numeral. case_bool_decide; [by left|right].
  pose proof (digits_pos 32 radix v ltac:(lia) ltac:(lia)) as Hpos.
  pose proof (digits_range 32 radix v ltac:(lia)) as HF.
  pose proof (fun d => digits_last 32 radix v d ltac:(lia) ltac:(lia)) as Hlast.
  destruct (digits 32 radix v) as [|d ds _] using rev_ind; [simpl in Hpos; lia|].
  exists d, (reverse (map digit_char ds)). rewrite map_app, reverse_app. split; [done|].
  split; [apply Hlast; by rewrite last_snoc|].
  apply Forall_app in HF as [_ HF]. inv HF. lia.
Qed.

Lemma itoa_roundtrip_witness :
  exists out str, itoa 4294967295 (replicate 33 7) 2 = Some out /\ length out = 33%nat /\
    until0 out = Some str /\ denotes 2 str = 4294967295 /\
    (str = [48] \/ exists d ds, str = digit_char d :: ds /\ 0 < d < 2).
Proof. apply (itoa_roundtrip 4294967295 (replicate 33 7) 2); simpl; lia. Defined.

(** strncmp on two NUL-terminated strings returns 0 exactly when they agree
    on their first [n] bytes; it stops at the NUL, so it never reads outside the
    objects, however large [n] is. *)
Theorem strncmp_decides s1 s2 l1 l2 n :
  bytes s1 -> bytes s2 -> until0 s1 = Some l1 -> until0 s2 = Some l2 ->
  exists r, strncmp s1 s2 n = Some r /\ (r = 0 <-> take n l1 = take n l2).
Proof.
  intros H1 H2 U1 U2. rewrite <-(cstrn_until0 _ _ _ U1), <-(cstrn_until0 _ _ _ U2).
  revert s1 s2 l1 l2 H1 H2 U1 U2.
  induction n as [|n IH]; intros [|x s1] [|y s2] l1 l2 H1 H2 U1 U2; try done; [by exists 0|].
  inv H1. inv H2. simpl in *. destruct (decide (x = y)) as [->|Hne].
  - rewrite (bool_decide_false (y <> y)) by auto. simpl. case_bool_decide.
    + exists 0. split; [f_equal; lia|done].
    + apply bind_Some in U1 as (k1 & U1 & _), U2 as (k2 & U2 & _).
      destruct (IH s1 s2 k1 k2) as (r & -> & Hiff); [done..|].
      exists r. split; [done|]. rewrite Hiff. split; congruence.
  - rewrite bool_decide_true by done. simpl. eexists; split; [done|].
    assert (s8 x <> s8 y) by (intros ?; by apply Hne, s8_inj).
    split; [lia|]. repeat case_bool_decide; congruence.
Qed.

Lemma strncmp_decides_witness :
  exists r, strncmp (cstring "exit") (cstring "exam") 30 = Some r /\
    (r = 0 <-> take 30 (bytes_of_string "exit") = take 30 (bytes_of_string "exam")).
Proof. apply strncmp_decides; try apply cstring_bytes; reflexivity. Defined.
