(* ===== verification/Screen.v ===== *)
(** * The text screen

    [src/student-distrib/lib.c]: clear, putc, puts, printf, pressed_enter,
    set_cursor, move_back, update_cursor and the copies between the screen and a
    buffer, with the software cursor [screen_x], [screen_y]. The video memory is
    the one 4 KB page mapped at 0xB8000 (the pages beside it are not mapped, so
    an access outside it faults). *)
From S2P Require Import Prelude Clib.

Definition NUM_COLS : Z := 80.
Definition NUM_ROWS : Z := 25.
Definition ATTRIB : Z := 7.

Record screen := Screen {
  screen_x : Z;
  screen_y : Z;
  video : list Z;
  io : list ioev;
}.

#[export] Program Instance screen_io : Lens screen (list ioev) := {|
  lget := io;
  lset h s := Screen (screen_x s) (screen_y s) (video s) h;
|}.
Solve Obligations with (by intros; try destruct s).

(** ** The code *)

Section Code.
Let M := M screen.

Definition set_screen_x (x : Z) : M unit :=
  modify (fun s => Screen x (screen_y s) (video s) (io s)).
Definition set_screen_y (y : Z) : M unit :=
  modify (fun s => Screen (screen_x s) y (video s) (io s)).

(** [*(uint8_t * )(video_mem + off) = v] and the read of the same byte *)
Definition vput (off v : Z) : M unit :=
  s ← get;
  v' ← lift (store (video s) off (u8 v));
  modify (fun s => Screen (screen_x s) (screen_y s) v' (io s)).
Definition vget (off : Z) : M Z := s ← get; lift (load (video s) off).

Definition VGA_CURSOR_ADDR : Z := 0x3D4.
Definition VGA_CURSOR_DATA : Z := 0x3D5.
Definition VGA_CURSOR_UPPER : Z := 0x0F.
Definition VGA_CURSOR_LOWER : Z := 0x0E.

Definition update_cursor (row col : Z) : M unit :=
  let pos := u16 (row * NUM_COLS + col) in
  outb VGA_CURSOR_UPPER VGA_CURSOR_ADDR ;;
  outb (Z.land pos 0xFF) VGA_CURSOR_DATA ;;
  outb VGA_CURSOR_LOWER VGA_CURSOR_ADDR ;;
  outb (Z.land (Z.shiftr pos 8) 0xFF) VGA_CURSOR_DATA.

Definition get_cursor_x : M Z := gets screen_x.
Definition get_cursor_y : M Z := gets screen_y.

Definition set_cursor (x y : Z) : M unit :=
  set_screen_x x ;;
  set_screen_y y ;;
  cy ← get_cursor_y;
  cx ← get_cursor_x;
  update_cursor cy cx.

Definition clear : M unit :=
  for_range 0 (NUM_ROWS * NUM_COLS) (fun i =>
    vput (Z.shiftl i 1) 32 ;;
    vput (Z.shiftl i 1 + 1) ATTRIB) ;;
  update_cursor 0 0.

(** C's [/] and [%] on int truncate: [Z.quot], [Z.rem]. *)
Definition putc (c : Z) : M unit :=
  (if bool_decide (c = 10) || bool_decide (c = 13) then
     y ← gets screen_y;
     set_screen_y (y + 1) ;;
     set_screen_x 0
   else
     x ← gets screen_x;
     y ← gets screen_y;
     vput (Z.shiftl (NUM_COLS * y + x) 1) c ;;
     vput (Z.shiftl (NUM_COLS * y + x) 1 + 1) ATTRIB ;;
     let x1 := Z.rem (x + 1) NUM_COLS in
     set_screen_x x1 ;;
     set_screen_y (Z.rem (y + Z.quot x1 NUM_COLS) NUM_ROWS)) ;;
  y ← gets screen_y;
  x ← gets screen_x;
  update_cursor y x.

(** [while(s[index] != '\0') { putc(s[index]); index++; } return index;] *)
Fixpoint puts (s : list Z) : M Z :=
  match s with
  | [] => undef
  | c :: s' => if bool_decide (c = 0) then mret 0
               else putc (u8 c) ;; n ← puts s'; mret (n + 1)
  end.

Definition pressed_enter : M unit :=
  for_range 0 (NUM_ROWS * NUM_COLS - 80) (fun i =>
    c ← vget (Z.shiftl (i + 80) 1);
    vput (Z.shiftl i 1) c ;;
    vput (Z.shiftl i 1 + 1) ATTRIB) ;;
  for_range (NUM_ROWS * NUM_COLS - 80) (NUM_ROWS * NUM_COLS) (fun i =>
    vput (Z.shiftl i 1) 32) ;;
  (* the statement after the brace-less loop, with i = NUM_ROWS * NUM_COLS *)
  vput (Z.shiftl (NUM_ROWS * NUM_COLS) 1 + 1) ATTRIB.

Definition move_back : M unit :=
  x ← gets screen_x;
  y ← gets screen_y;
  (if bool_decide (x > 0) then
     set_screen_x (x - 1) ;;
     vput (Z.shiftl (NUM_COLS * y + (x - 1)) 1) 32 ;;
     vput (Z.shiftl (NUM_COLS * y + (x - 1)) 1 + 1) ATTRIB
   else
     set_screen_y (y - 1) ;;
     set_screen_x (NUM_COLS - 1) ;;
     vput (Z.shiftl (NUM_COLS * (y - 1) + (NUM_COLS - 1)) 1) 32 ;;
     vput (Z.shiftl (NUM_COLS * (y - 1) + (NUM_COLS - 1)) 1 + 1) ATTRIB) ;;
  cy ← get_cursor_y;
  cx ← get_cursor_x;
  update_cursor cy cx.

Definition copy_buffer_to_video (src : list Z) : M unit :=
  for_range 0 (NUM_ROWS * NUM_COLS) (fun i =>
    c ← lift (load src i);
    vput (Z.shiftl i 1) c ;;
    vput (Z.shiftl i 1 + 1) ATTRIB).

(** [dst[i] = video_mem[i << 1]] for i = lo, ..., lo + n - 1 *)
Fixpoint copy_video_loop (n : nat) (lo : Z) (dst : list Z) : M (list Z) :=
  match n with
  | O => mret dst
  | S n' =>
      c ← vget (Z.shiftl lo 1);
      dst' ← lift (store dst lo c);
      copy_video_loop n' (lo + 1) dst'
  end.
Definition copy_video_to_buffer (dst : list Z) : M (list Z) :=
  copy_video_loop (Z.to_nat (NUM_ROWS * NUM_COLS)) 0 dst.

Definition test_interrupts : M unit :=
  for_range 0 (NUM_ROWS * NUM_COLS) (fun i =>
    c ← vget (Z.shiftl i 1);
    vput (Z.shiftl i 1) (c + 1)).
End Code.

(** *** printf *)

(** One 32-bit word of the argument area: a number, or a pointer to a string. *)
Inductive arg :=
| AInt (w : Z)
| AStr (s : list Z).

(** The conversion buffer is not initialised; every byte printed was written
    before, so its first contents do not matter. *)
Definition conv_buf (n : nat) : list Z := replicate n 0.

(** [while(i < 8) { conv_buf[i] = '0'; i++; }]: at most 8 iterations *)
Fixpoint pad_zeros (fuel : nat) (i : Z) (buf : list Z) : option (list Z) :=
  if bool_decide (i < 8) then
    match fuel with
    | O => None
    | S fuel' => buf' ← store buf i 48; pad_zeros fuel' (i + 1) buf'
    end
  else Some buf.

(** The string that the [%x], [%#x], [%u] and [%d] cases hand to puts. *)
Definition conv_x (w : Z) : option (list Z) := itoa (u32 w) (conv_buf 64) 16.
Definition conv_alt_x (w : Z) : option (list Z) :=
  digits ← itoa (u32 w) (drop 8 (conv_buf 64)) 16;
  starting_index ← strlen digits;
  buf ← pad_zeros 8 starting_index (take 8 (conv_buf 64) ++ digits);
  Some (drop (Z.to_nat starting_index) buf).
Definition conv_u (w : Z) : option (list Z) := itoa (u32 w) (conv_buf 36) 10.
Definition conv_d (w : Z) : option (list Z) :=
  let value := s32 w in
  if bool_decide (value < 0) then
    buf ← store (conv_buf 36) 0 45;
    rest ← itoa (u32 (- value)) (drop 1 buf) 10;
    Some (take 1 buf ++ rest)
  else itoa value (conv_buf 36) 10.

(** Where the loop is in the format: at the top of the while loop (which
    tests for the NUL), or behind a percent sign (at the label
    format_char_switch) with [alternate]. *)
Inductive fmode := Plain | Conv (alternate : bool).

Section Printf.
Let M := M screen.

Definition next_int (args : list arg) (k : Z -> list arg -> M Z) : M Z :=
  match args with AInt w :: args' => k w args' | _ => undef end.
Definition next_str (args : list arg) (k : list Z -> list arg -> M Z) : M Z :=
  match args with AStr s :: args' => k s args' | _ => undef end.

(** One character of the format per call; [n] is [buf - format]. *)
Fixpoint printf_loop (fmt : list Z) (mode : fmode) (args : list arg) (n : Z) : M Z :=
  match fmt with
  | [] => undef
  | c :: fmt' =>
      match mode with
      | Plain =>
          if bool_decide (c = 0) then mret n
          else if bool_decide (c = 37) then printf_loop fmt' (Conv false) args (n + 1)
          else putc (u8 c) ;; printf_loop fmt' Plain args (n + 1)
      | Conv alternate =>
          if bool_decide (c = 37) then                               (* '%' *)
            putc 37 ;; printf_loop fmt' Plain args (n + 1)
          else if bool_decide (c = 35) then                          (* '#' *)
            printf_loop fmt' (Conv true) args (n + 1)
          else if bool_decide (c = 120) then                         (* 'x' *)
            next_int args (fun w args' =>
              s ← lift (if alternate then conv_alt_x w else conv_x w);
              puts s ;; printf_loop fmt' Plain args' (n + 1))
          else if bool_decide (c = 117) then                         (* 'u' *)
            next_int args (fun w args' =>
              s ← lift (conv_u w);
              puts s ;; printf_loop fmt' Plain args' (n + 1))
          else if bool_decide (c = 100) then                         (* 'd' *)
            next_int args (fun w args' =>
              s ← lift (conv_d w);
              puts s ;; printf_loop fmt' Plain args' (n + 1))
          else if bool_decide (c = 99) then                          (* 'c' *)
            next_int args (fun w args' =>
              putc (u8 w) ;; printf_loop fmt' Plain args' (n + 1))
          else if bool_decide (c = 115) then                         (* 's' *)
            next_str args (fun s args' =>
              puts s ;; printf_loop fmt' Plain args' (n + 1))
          else printf_loop fmt' Plain args (n + 1)
      end
  end.

Definition printf (fmt : list Z) (args : list arg) : M Z := printf_loop fmt Plain args 0.
End Printf.

(** ** Proof rules *)

Definition set_video (v : list Z) (s : screen) : screen :=
  Screen (screen_x s) (screen_y s) v (io s).
Definition set_xy (x y : Z) (s : screen) : screen := Screen x y (video s) (io s).
Definition add_io (es : list ioev) (s : screen) : screen :=
  Screen (screen_x s) (screen_y s) (video s) (es ++ io s).

(** The fields of an updated screen. *)
Ltac fields := cbn [screen_x screen_y video io set_xy set_video add_io].

(** The four port writes of update_cursor, newest first. *)
Definition cursor_events (row col : Z) : list ioev :=
  let pos := u16 (row * NUM_COLS + col) in
  [Out 0x3D5 (pos `div` 256); Out 0x3D4 0x0E; Out 0x3D5 (pos `mod` 256); Out 0x3D4 0x0F].

Section Rules.
Implicit Types (s : screen) (Q : unit -> screen -> Prop).

Lemma wp_set_screen_x x Q s : wp (set_screen_x x) Q s <-> Q tt (set_xy x (screen_y s) s).
Proof. done. Qed.
Lemma wp_set_screen_y y Q s : wp (set_screen_y y) Q s <-> Q tt (set_xy (screen_x s) y s).
Proof. done. Qed.

Lemma wp_vput off v Q s :
  wp (vput off v) Q s <->
  0 <= off < len (video s) /\ Q tt (set_video (<[Z.to_nat off := u8 v]> (video s)) s).
Proof.
  unfold vput. wps. unfold store. case_bool_decide; naive_solver.
Qed.

Lemma wp_vget off (Q : Z -> screen -> Prop) s :
  wp (vget off) Q s <-> exists c, load (video s) off = Some c /\ Q c s.
Proof. unfold vget. by wps. Qed.

Lemma wp_get_cursor_x (Q : Z -> screen -> Prop) s : wp get_cursor_x Q s <-> Q (screen_x s) s.
Proof. done. Qed.
Lemma wp_get_cursor_y (Q : Z -> screen -> Prop) s : wp get_cursor_y Q s <-> Q (screen_y s) s.
Proof. done. Qed.

Lemma update_cursor_eq row col s :
  update_cursor row col s = Ret tt (add_io (cursor_events row col) s).
Proof.
  unfold update_cursor, outb, emit, mbind, M_bind, modify, add_io, cursor_events. simpl.
  set (pos := u16 (row * NUM_COLS + col)).
  assert (0 <= pos < 65536) as Hp by apply u16_range.
  change 255 with (Z.ones 8). rewrite !Z.land_ones by lia.
  rewrite Z.shiftr_div_pow2 by lia. change (2 ^ 8) with 256.
  assert (0 <= pos `div` 256 < 256).
  { split; [apply Z.div_pos; lia|apply Z.div_lt_upper_bound; lia]. }
  unfold u8. rewrite !Zmod_mod, (Z.mod_small (pos `div` 256)) by done. done.
Qed.

Lemma wp_update_cursor row col Q s :
  wp (update_cursor row col) Q s <-> Q tt (add_io (cursor_events row col) s).
Proof. unfold wp. by rewrite update_cursor_eq. Qed.
End Rules.

#[export] Hint Rewrite wp_set_screen_x wp_set_screen_y wp_vput wp_vget wp_get_cursor_x
  wp_get_cursor_y wp_update_cursor : wp.

Lemma wp_set_cursor x y Q s :
  wp (set_cursor x y) Q s <-> Q tt (add_io (cursor_events y x) (set_xy x y s)).
Proof. unfold set_cursor. by wps. Qed.
#[export] Hint Rewrite wp_set_cursor : wp.

Lemma shiftl_1 x : Z.shiftl x 1 = 2 * x.
Proof. rewrite Z.shiftl_mul_pow2; lia. Qed.

(** *** The loops over the cells *)

(** The page's bytes, computed by position. *)
Definition page_map (f : Z -> Z -> Z) (v : list Z) : list Z :=
  imap (fun i c => f (Z.of_nat i) c) v.

Lemma page_map_length f v : length (page_map f v) = length v.
Proof. apply length_imap. Qed.
#[export] Hint Rewrite page_map_length : len.

Lemma load_page_map f v i : load (page_map f v) i = f i <$> load v i.
Proof.
  unfold load, page_map. case_bool_decide; [|done]. rewrite list_lookup_imap.
  by rewrite Z2Nat.id by lia.
Qed.

(** clear: every cell a space with the default attribute. *)
Definition clear_byte (i c : Z) : Z :=
  if bool_decide (i < 4000) then if bool_decide (i `mod` 2 = 0) then 32 else ATTRIB else c.

(** pressed_enter: the rows move up by one and the last row's characters become
    spaces, its attributes stay; the byte 4001 is the stray attribute write. *)
Definition scroll_byte (v : list Z) (i c : Z) : Z :=
  if bool_decide (i < 3840) then
    if bool_decide (i `mod` 2 = 0) then default 0 (load v (i + 160)) else ATTRIB
  else if bool_decide (i < 4000) then if bool_decide (i `mod` 2 = 0) then 32 else c
  else if bool_decide (i = 4001) then ATTRIB else c.

Definition clear_video (v : list Z) : list Z := page_map clear_byte v.
Definition scroll_video (v : list Z) : list Z := page_map (scroll_byte v) v.

Lemma page_map_ext f g v :
  (forall i c, load v i = Some c -> f i c = g i c) -> page_map f v = page_map g v.
Proof.
  intros H. apply load_ext; [lens|]. intros i Hi. rewrite !load_page_map.
  destruct (load v i) eqn:E; simpl; [|done]. f_equal. by apply H.
Qed.

Lemma page_map_id v : page_map (fun _ c => c) v = v.
Proof.
  apply load_ext; [lens|]. intros i Hi. rewrite load_page_map. by destruct (load v i).
Qed.

Lemma insert_page_map f v off c :
  0 <= off < len v ->
  <[Z.to_nat off := c]> (page_map f v)
  = page_map (fun i b => if bool_decide (i = off) then c else f i b) v.
Proof.
  intros Hoff. apply load_ext; [lens|]. intros i Hi. rewrite load_page_map.
  case_bool_decide as Hio.
  - subst. rewrite load_insert_eq by lens. destruct (load_Some v off) as [b ->]; [lia|done].
  - rewrite load_insert_ne by lia. apply load_page_map.
Qed.

(** A loop over the cells that turns, for each [i], the page [page_map (f i) v]
    into [page_map (f (i + 1)) v] leaves the page of the last index. *)
Lemma wp_page_loop (f : Z -> Z -> Z -> Z) n lo body v s (Q : unit -> screen -> Prop) :
  video s = page_map (f lo) v ->
  (forall i t, lo <= i < lo + Z.of_nat n -> video t = page_map (f i) v ->
     wp (body i) (fun _ t' => t' = set_video (page_map (f (i + 1)) v) t) t) ->
  Q tt (set_video (page_map (f (lo + Z.of_nat n)) v) s) ->
  wp (for_ n lo body) Q s.
Proof.
  intros Hv Hbody HQ. eapply wp_mono.
  - apply (wp_for (fun i t => t = set_video (page_map (f i) v) s)).
    + rewrite <-Hv. by destruct s.
    + intros i t Hi ->. eapply wp_mono; [by apply Hbody|]. by intros ? ? ->.
  - by intros [] t ->.
Qed.

(** Case analysis on the byte's position. *)
Ltac page_cases :=
  unfold clear_byte, scroll_byte, ATTRIB, u8; repeat case_bool_decide;
  try done; try (exfalso; Z.to_euclidean_division_equations; lia).

Lemma wp_clear s Q :
  length (video s) = 4096%nat ->
  Q tt (add_io (cursor_events 0 0) (set_video (clear_video (video s)) s)) ->
  wp clear Q s.
Proof.
  intros Hlen HQ. unfold clear. rewrite wp_bind.
  eapply (wp_page_loop (fun i k c => if bool_decide (k < 2 * i) then clear_byte k c else c)
            _ _ _ (video s)).
  - symmetry. rewrite <-(page_map_id (video s)) at 2. apply page_map_ext.
    intros i c [? _]%load_inv. by rewrite bool_decide_false by lia.
  - intros i t Hi Ht. change (NUM_ROWS * NUM_COLS) with 2000 in Hi. wps. simpl.
    rewrite !shiftl_1, Ht. split; [lens|]. split; [lens|]. unfold set_video. f_equal. simpl.
    rewrite !insert_page_map by lens.
    apply page_map_ext. intros k c [? _]%load_inv. page_cases.
  - rewrite wp_update_cursor. erewrite page_map_ext; [apply HQ|].
    intros k c [? _]%load_inv. page_cases.
Qed.

Lemma wp_pressed_enter s Q :
  length (video s) = 4096%nat -> bytes (video s) ->
  Q tt (set_video (scroll_video (video s)) s) ->
  wp pressed_enter Q s.
Proof.
  intros Hlen Hb HQ. set (v := video s) in *. unfold pressed_enter. rewrite wp_bind.
  set (f1 i k c := if bool_decide (k < 2 * i) then
         if bool_decide (k `mod` 2 = 0) then default 0 (load v (k + 160)) else ATTRIB else c).
  set (f2 i k c := if bool_decide (k < 3840) then f1 1920 k c
         else if bool_decide (k < 2 * i) then if bool_decide (k `mod` 2 = 0) then 32 else c
         else c).
  apply (wp_page_loop f1 _ _ _ v).
  - symmetry. rewrite <-(page_map_id (video s)). apply page_map_ext.
    intros i c [? _]%load_inv. unfold f1. by rewrite bool_decide_false by lia.
  - intros i t Hi Ht. change (NUM_ROWS * NUM_COLS) with 2000 in Hi.
    destruct (load_Some v (2 * (i + 80))) as [c Hc]; [lia|].
    wps. simpl. rewrite !shiftl_1, Ht. exists c. split.
    { rewrite load_page_map, Hc. unfold f1. simpl. by rewrite bool_decide_false by lia. }
    assert (byte c) as Hcb by (by eapply load_Forall).
    unfold byte in Hcb. wps. simpl. rewrite Ht. split; [lens|]. split; [lens|].
    unfold set_video. f_equal. simpl.
    rewrite !insert_page_map by lens.
    apply page_map_ext. intros k d [? _]%load_inv. unfold f1. page_cases.
    subst k. replace (2 * i + 160) with (2 * (i + 80)) by lia. rewrite Hc. simpl.
    by rewrite Z.mod_small by lia.
  - rewrite wp_bind. apply (wp_page_loop f2 _ _ _ v).
    + simpl. apply page_map_ext. intros k c [? _]%load_inv. unfold f2, f1. page_cases.
    + intros i t Hi Ht. change (NUM_ROWS * NUM_COLS) with 2000 in Hi. wps. simpl.
      rewrite shiftl_1, Ht. split; [lens|]. unfold set_video. f_equal. simpl.
      rewrite insert_page_map by lens.
      apply page_map_ext. intros k c [? _]%load_inv. unfold f2, f1. page_cases.
    + change (NUM_ROWS * NUM_COLS - 80 + Z.of_nat _) with 2000.
      wps. change (Z.shiftl (NUM_ROWS * NUM_COLS) 1 + 1) with 4001. simpl.
      split; [lens|]. rewrite insert_page_map by lens.
      erewrite page_map_ext; [apply HQ|].
      intros k c [? _]%load_inv. unfold f2, f1. page_cases.
Qed.

(** *** Single characters *)

Definition put_cell (off c : Z) (v : list Z) : list Z :=
  <[Z.to_nat (2 * off + 1) := ATTRIB]> (<[Z.to_nat (2 * off) := u8 c]> v).

Lemma put_cell_length off c v : length (put_cell off c v) = length v.
Proof. unfold put_cell. by rewrite !length_insert. Qed.
#[export] Hint Rewrite put_cell_length : len.

Lemma wp_putc_newline c Q s :
  c = 10 \/ c = 13 ->
  wp (putc c) Q s <->
  Q tt (add_io (cursor_events (screen_y s + 1) 0) (set_xy 0 (screen_y s + 1) s)).
Proof.
  intros Hc. unfold putc.
  replace (bool_decide (c = 10) || bool_decide (c = 13)) with true
    by (by destruct Hc as [-> | ->]). by wps.
Qed.

(** A character that is not a line break, at a place inside the page. *)
Lemma wp_putc_char c x y Q s :
  c <> 10 -> c <> 13 -> screen_x s = x -> screen_y s = y ->
  0 <= x < 80 -> 0 <= y -> 2 * (80 * y + x) + 1 < len (video s) ->
  let x' := Z.rem (x + 1) 80 in
  let y' := Z.rem y 25 in
  wp (putc c) Q s <->
  Q tt (add_io (cursor_events y' x')
          (set_xy x' y' (set_video (put_cell (80 * y + x) c (video s)) s))).
Proof.
  intros H1 H2 Hx Hy Hxr Hyr Hv. unfold putc.
  rewrite !bool_decide_false by done. cbn [orb]. wps. simpl.
  rewrite Hx, Hy, !shiftl_1. unfold NUM_COLS, NUM_ROWS.
  assert (0 <= Z.rem (x + 1) 80 < 80) by (apply Z.rem_bound_pos; lia).
  rewrite (Z.quot_small (Z.rem (x + 1) 80) 80), Z.add_0_r by done.
  unfold put_cell. rewrite length_insert. unfold set_xy, set_video, add_io. simpl.
  replace (u8 ATTRIB) with ATTRIB by done.
  split; [naive_solver|]. intros HQ. split; [lia|]. split; [lia|]. done.
Qed.

(** ** The screen as text

    The abstract screen: the 2000 characters, row by row, their attributes, and
    the place where the hardware shows the cursor. *)

Definition text (v : list Z) : list Z := (fun i => default 0 (load v (2 * i))) <$> seqZ 0 2000.
Definition attributes (v : list Z) : list Z :=
  (fun i => default 0 (load v (2 * i + 1))) <$> seqZ 0 2000.

(** The VGA controller's cursor position after the port writes of a history
    (newest first): port 0x3D4 selects a register, 0x3D5 writes it; register
    0x0E holds the high byte and 0x0F the low byte. *)
Record crtc := Crtc { crtc_index : Z; crtc_high : Z; crtc_low : Z }.
Definition crtc_step (e : ioev) (c : crtc) : crtc :=
  match e with
  | Out 0x3D4 v => Crtc v (crtc_high c) (crtc_low c)
  | Out 0x3D5 v =>
      if crtc_index c =? 0x0E then Crtc (crtc_index c) v (crtc_low c)
      else if crtc_index c =? 0x0F then Crtc (crtc_index c) (crtc_high c) v
      else c
  | _ => c
  end.
Definition crtc_of (h : list ioev) : crtc := foldr crtc_step (Crtc 0 0 0) h.
Definition hw_cursor (h : list ioev) : Z := 256 * crtc_high (crtc_of h) + crtc_low (crtc_of h).

Lemma hw_cursor_events y x h : hw_cursor (cursor_events y x ++ h) = u16 (y * 80 + x).
Proof.
  unfold hw_cursor, crtc_of, cursor_events. cbn [app foldr crtc_step].
  cbn [crtc_index crtc_high crtc_low Z.eqb Pos.eqb].
  unfold NUM_COLS. pose proof (Z.div_mod (u16 (y * 80 + x)) 256). lia.
Qed.

Lemma text_length v : length (text v) = 2000%nat.
Proof. unfold text. by rewrite length_fmap, length_seqZ. Qed.
Lemma attributes_length v : length (attributes v) = 2000%nat.
Proof. unfold attributes. by rewrite length_fmap, length_seqZ. Qed.
#[export] Hint Rewrite text_length attributes_length : len.

Lemma load_cells (f : Z -> Z) i :
  0 <= i < 2000 -> load (f <$> seqZ 0 2000) i = Some (f i).
Proof.
  intros Hi. rewrite load_nonneg, list_lookup_fmap by lia.
  rewrite lookup_seqZ_lt by lia. simpl. f_equal. f_equal. lia.
Qed.

Lemma load_text v i : 0 <= i < 2000 -> load (text v) i = Some (default 0 (load v (2 * i))).
Proof. apply load_cells. Qed.
Lemma load_attributes v i :
  0 <= i < 2000 -> load (attributes v) i = Some (default 0 (load v (2 * i + 1))).
Proof. apply load_cells. Qed.

Lemma text_put_cell off c v :
  length v = 4096%nat -> 0 <= off < 2000 ->
  text (put_cell off c v) = <[Z.to_nat off := u8 c]> (text v).
Proof.
  intros Hl Ho. apply load_ext; [lens|]. intros i Hi. rewrite text_length in Hi.
  rewrite load_text by lia. unfold put_cell. rewrite load_insert_ne by lia.
  destruct (decide (i = off)) as [->|].
  - rewrite !load_insert_eq by lens. done.
  - rewrite !load_insert_ne by lia. by rewrite load_text by lia.
Qed.

Lemma attributes_put_cell off c v :
  length v = 4096%nat -> 0 <= off < 2000 ->
  attributes (put_cell off c v) = <[Z.to_nat off := ATTRIB]> (attributes v).
Proof.
  intros Hl Ho. apply load_ext; [lens|]. intros i Hi. rewrite attributes_length in Hi.
  rewrite load_attributes by lia. unfold put_cell.
  destruct (decide (i = off)) as [->|].
  - rewrite !load_insert_eq by lens. done.
  - rewrite !load_insert_ne by lia. by rewrite load_attributes by lia.
Qed.

Lemma put_cell_bytes off c v : bytes v -> bytes (put_cell off c v).
Proof.
  intros Hv. unfold put_cell. repeat apply Forall_insert; [done|apply u8_range|].
  unfold byte, ATTRIB. lia.
Qed.

(** Characters put in cells of a text. *)
Definition put_chars (ps : list (Z * Z)) (t : list Z) : list Z :=
  foldl (fun t p => <[Z.to_nat (fst p) := snd p]> t) t ps.

Lemma put_chars_app ps qs t : put_chars (ps ++ qs) t = put_chars qs (put_chars ps t).
Proof. apply foldl_app. Qed.
Lemma put_chars_length ps t : length (put_chars ps t) = length t.
Proof.
  revert t. induction ps as [|p ps IH]; intros t; [done|]. cbn [put_chars foldl]. etrans; [apply IH|apply length_insert].
Qed.
Lemma put_chars_other ps t j : Forall (fun p => 0 <= fst p /\ fst p <> j) ps -> load (put_chars ps t) j = load t j.
Proof.
  intros H. revert t. induction H as [|p ps [Hp Hne] _ IH]; intros t; [done|]. cbn [put_chars foldl].
  etrans; [apply IH|by apply load_insert_ne].
Qed.
Lemma text_store page c v :
  length page = 4096%nat -> 0 <= c < 2000 -> text (<[Z.to_nat (2 * c) := v]> page) = <[Z.to_nat c := v]> (text page).
Proof.
  intros Hl Hc. apply load_ext; [lens|]. intros i Hi. rewrite text_length in Hi. rewrite load_text by lia.
  destruct (decide (i = c)) as [->|Hne].
  - rewrite !load_insert_eq by (rewrite ?text_length; lia). done.
  - rewrite !load_insert_ne, load_text by lia. done.
Qed.

(** The page's bytes, which the text and the attributes do not show. *)
Definition page_ok (s : screen) : Prop := length (video s) = 4096%nat /\ bytes (video s).

Lemma put_string_text off str (t : list Z) c :
  (off < length t)%nat ->
  take (S off) (<[off := c]> t) ++ str ++ drop (S off + length str) (<[off := c]> t)
  = take off t ++ (c :: str) ++ drop (off + S (length str)) t.
Proof.
  intros Hl. rewrite (take_S_r _ _ c) by (by apply list_lookup_insert_eq).
  rewrite take_insert_ge, drop_insert_lt by lia. rewrite <-app_assoc. simpl.
  by rewrite Nat.add_succ_r.
Qed.

(** A character at a place on the screen. *)
Lemma putc_text c x y s :
  page_ok s -> c <> 10 -> c <> 13 -> screen_x s = x -> screen_y s = y ->
  0 <= x < 80 -> 0 <= y < 25 ->
  wp (putc c) (fun _ t =>
    page_ok t /\ screen_x t = (x + 1) `mod` 80 /\ screen_y t = y /\
    text (video t) = <[Z.to_nat (80 * y + x) := u8 c]> (text (video s)) /\
    attributes (video t) = <[Z.to_nat (80 * y + x) := ATTRIB]> (attributes (video s)) /\
    hw_cursor (io t) = y * 80 + (x + 1) `mod` 80) s.
Proof.
  intros [Hl Hb] H1 H2 Hx Hy Hxr Hyr.
  rewrite (wp_putc_char c x y) by (done || lia). cbv zeta. fields.
  rewrite (Z.rem_mod_nonneg (x + 1)), (Z.rem_small y) by lia.
  pose proof (Z.mod_pos_bound (x + 1) 80).
  split; [split; [lens|by apply put_cell_bytes]|].
  rewrite text_put_cell, attributes_put_cell by lia.
  rewrite hw_cursor_events, u16_small by lia. done.
Qed.

(** A string without line breaks that fits on the rest of the row. *)
Lemma puts_row s str t x y :
  until0 s = Some str -> bytes str -> Forall (fun c => c <> 10 /\ c <> 13) str ->
  page_ok t -> screen_x t = x -> screen_y t = y -> 0 <= x -> 0 <= y < 25 ->
  x + len str <= 80 -> x < 80 ->
  wp (puts s) (fun n t' =>
    n = len str /\ page_ok t' /\ screen_x t' = (x + len str) `mod` 80 /\ screen_y t' = y /\
    text (video t')
    = take (Z.to_nat (80 * y + x)) (text (video t)) ++ str
        ++ drop (Z.to_nat (80 * y + x) + length str) (text (video t)) /\
    (str <> [] -> hw_cursor (io t') = y * 80 + screen_x t')) t.
Proof.
  revert str t x. induction s as [|c s IH]; intros str t x Hs Hb Hn Hok Hx Hy Hx0 Hyr Hfit Hx80;
    [done|]. simpl in Hs. cbn [puts]. case_bool_decide.
  { injection Hs as <-. wps. simpl. rewrite Nat.add_0_r, take_drop, Z.add_0_r.
    rewrite Z.mod_small by lia. done. }
  apply bind_Some in Hs as (l & Hl & [= <-]).
  apply Forall_cons in Hb as [Hbc Hbl], Hn as [[Hc1 Hc2] Hnl].
  rewrite u8_small by done. wps.
  eapply wp_mono; [by apply (putc_text c x y)|].
  intros [] t1 (Hok1 & Hx1 & Hy1 & Htxt1 & _ & Hhw). wps. simpl in Hfit.
  rewrite u8_small in Htxt1 by done.
  destruct l as [|c' l'].
  { destruct s as [|c' s]; [done|]. simpl in Hl. cbn [puts]. case_bool_decide.
    2: { apply bind_Some in Hl as (? & _ & [=]). }
    wps. rewrite Htxt1.
    rewrite <-(put_string_text _ []) by lens.
    rewrite app_nil_l, Nat.add_0_r, take_drop, Hx1, Hy1, Hhw.
    cbn [length]. replace (Z.of_nat 1) with 1 by lia. auto 10. }
  simpl in Hfit. rewrite Z.mod_small in Hx1 by lia.
  eapply wp_mono; [by apply (IH (c' :: l') t1 (x + 1)); simpl in *; try done; lia|].
  intros n t2 (-> & Hok2 & Hx2 & Hy2 & Htxt2 & Hhw2). wps.
  split_and!; [lens|done| |done| |intros _; by apply Hhw2].
  - rewrite Hx2. f_equal. lens.
  - rewrite Htxt2, Htxt1.
    replace (Z.to_nat (80 * y + (x + 1))) with (S (Z.to_nat (80 * y + x))) by lia.
    apply put_string_text. lens.
Qed.

(** *** What printf prints *)

Fixpoint putcs (l : list Z) : M screen unit :=
  match l with
  | [] => mret tt
  | c :: l' => putc (u8 c) ;; putcs l'
  end.

Lemma M_assoc {A B C} (m : M screen A) (f : A -> M screen B) (g : B -> M screen C) s :
  ((m ≫= f) ≫= g) s = (m ≫= fun a => f a ≫= g) s.
Proof. unfold mbind, M_bind. by destruct (m s). Qed.

Lemma bind_ext {A B} (m : M screen A) (f g : A -> M screen B) s :
  (forall a t, f a t = g a t) -> (m ≫= f) s = (m ≫= g) s.
Proof. intros H. unfold mbind, M_bind. by destruct (m s). Qed.

Lemma putcs_app l k s : putcs (l ++ k) s = (putcs l ;; putcs k) s.
Proof.
  revert s. induction l as [|c l IH]; intros s; [done|]. simpl. rewrite M_assoc.
  by apply bind_ext.
Qed.

Lemma puts_putcs s str t : until0 s = Some str -> puts s t = (putcs str ;; mret (len str)) t.
Proof.
  revert str t. induction s as [|c s IH]; intros str t; simpl; [done|]. case_bool_decide.
  - by intros [= <-].
  - intros (l & Hl & [= <-])%bind_Some. simpl. rewrite M_assoc. apply bind_ext. intros [] t'.
    unfold mbind at 1, M_bind at 1. rewrite (IH l) by done. unfold mbind, M_bind.
    destruct (putcs l t'); try done. simpl. unfold mret, M_ret. f_equal. lia.
Qed.

(** The text a conversion stands for: [%d] the signed decimal, [%u] the unsigned
    one, [%x] the hexadecimal digits, [%#x] those padded to eight. *)
Definition signed_decimal (w : Z) : list Z :=
  if bool_decide (s32 w < 0) then 45 :: numeral 10 (- s32 w) else numeral 10 (s32 w).
Definition hex8 (w : Z) : list Z :=
  replicate (8 - length (numeral 16 (u32 w))) 48 ++ numeral 16 (u32 w).

(** The expansion of a format (without its NUL): [None] when the format ends
    behind a percent sign or an argument is missing or of the wrong kind. *)
Fixpoint render (fmt : list Z) (mode : fmode) (args : list arg) : option (list Z) :=
  match fmt, mode with
  | [], Plain => Some []
  | [], Conv _ => None
  | c :: fmt', Plain =>
      if bool_decide (c = 37) then render fmt' (Conv false) args
      else out ← render fmt' Plain args; Some (c :: out)
  | c :: fmt', Conv alternate =>
      if bool_decide (c = 35) then render fmt' (Conv true) args
      else
        let after text args' := out ← render fmt' Plain args'; Some (text ++ out) in
        match bool_decide (c = 37), bool_decide (c = 120), bool_decide (c = 117),
              bool_decide (c = 100), bool_decide (c = 99), bool_decide (c = 115), args with
        | true, _, _, _, _, _, _ => after [37] args
        | _, true, _, _, _, _, AInt w :: args' =>
            after (if alternate then hex8 w else numeral 16 (u32 w)) args'
        | _, _, true, _, _, _, AInt w :: args' => after (numeral 10 (u32 w)) args'
        | _, _, _, true, _, _, AInt w :: args' => after (signed_decimal w) args'
        | _, _, _, _, true, _, AInt w :: args' => after [u8 w] args'
        | _, _, _, _, _, true, AStr s :: args' => str ← until0 s; after str args'
        | _, false, false, false, false, false, _ => after [] args
        | _, _, _, _, _, _, _ => None
        end
  end.

Lemma pad_zeros_spec fuel i buf :
  0 <= i <= 8 -> 8 - i <= Z.of_nat fuel -> 8 <= len buf ->
  pad_zeros fuel i buf
  = Some (take (Z.to_nat i) buf ++ replicate (Z.to_nat (8 - i)) 48 ++ drop 8 buf).
Proof.
  revert i buf. induction fuel as [|fuel IH]; intros i buf Hi Hf Hl; simpl.
  - rewrite bool_decide_false by lia. replace i with 8 by lia. simpl. by rewrite take_drop.
  - case_bool_decide.
    + rewrite store_in by lia. simpl. rewrite IH by lens. f_equal.
      replace (Z.to_nat (i + 1)) with (S (Z.to_nat i)) by lia.
      rewrite (take_S_r _ _ 48) by (apply list_lookup_insert_eq; lia).
      rewrite take_insert_ge, drop_insert_lt, <-app_assoc by lia. simpl.
      by replace (Z.to_nat (8 - i)) with (S (Z.to_nat (8 - (i + 1)))) by lia.
    + replace i with 8 by lia. simpl. by rewrite take_drop.
Qed.

Lemma numeral_16_length w : (length (numeral 16 (u32 w)) <= 8)%nat.
Proof. pose proof (u32_range w). apply numeral_length; lia. Qed.

Lemma conv_x_spec w : (conv_x w ≫= until0) = Some (numeral 16 (u32 w)).
Proof.
  pose proof (u32_range w). unfold conv_x, conv_buf. rewrite itoa_numeral by lens. simpl.
  apply until0_app, numeral_nonzero. lia.
Qed.

Lemma conv_u_spec w : (conv_u w ≫= until0) = Some (numeral 10 (u32 w)).
Proof.
  pose proof (u32_range w). unfold conv_u, conv_buf. rewrite itoa_numeral by lens. simpl.
  apply until0_app, numeral_nonzero. lia.
Qed.

Lemma conv_d_spec w : (conv_d w ≫= until0) = Some (signed_decimal w).
Proof.
  pose proof (s32_range w). unfold conv_d, signed_decimal, conv_buf. case_bool_decide.
  - rewrite u32_small by lia. rewrite store_in by lens. cbn [mbind option_bind].
    rewrite itoa_numeral by lens. cbn [mbind option_bind]. simpl take. cbn [app until0].
    rewrite bool_decide_false by done. rewrite until0_app; [done|]. apply numeral_nonzero. lia.
  - rewrite itoa_numeral by lens. cbn [mbind option_bind].
    apply until0_app, numeral_nonzero. lia.
Qed.

Lemma conv_alt_x_spec w : (conv_alt_x w ≫= until0) = Some (hex8 w).
Proof.
  pose proof (u32_range w). pose proof (numeral_16_length w) as Hl.
  assert (Forall (fun c => c <> 0) (numeral 16 (u32 w))) as Hz by (apply numeral_nonzero; lia).
  unfold conv_alt_x, conv_buf, hex8. change (drop 8 (replicate 64 0)) with (replicate 56 0).
  rewrite itoa_numeral by lens. cbn [mbind option_bind].
  set (ds := numeral 16 (u32 w)) in *.
  rewrite (strlen_Some _ ds) by by apply until0_app. cbn [mbind option_bind].
  rewrite pad_zeros_spec by lens. cbn [mbind option_bind].
  rewrite drop_app_length' by (rewrite length_take; lens).
  rewrite drop_app_length' by by rewrite length_take.
  replace (Z.to_nat (8 - len ds)) with (8 - length ds)%nat by lia.
  rewrite app_assoc. apply until0_app, Forall_app. split; [|done].
  by apply Forall_replicate.
Qed.

Lemma conv_hex_spec (alternate : bool) w :
  ((if alternate then conv_alt_x w else conv_x w) ≫= until0)
  = Some (if alternate then hex8 w else numeral 16 (u32 w)).
Proof. destruct alternate; [apply conv_alt_x_spec|apply conv_x_spec]. Qed.

Lemma puts_conv {A} (o : option (list Z)) str (k : M screen A) t :
  (o ≫= until0) = Some str ->
  (s ← lift o; puts s ;; k) t = (putcs str ;; k) t.
Proof.
  destruct o as [s|]; [|done]. simpl. intros Hs. unfold mbind, M_bind. simpl.
  rewrite (puts_putcs _ _ _ Hs). unfold mbind, M_bind. by destruct (putcs str t).
Qed.

Lemma putcs_one c (k : M screen Z) t : (putcs [u8 c] ;; k) t = (putc (u8 c) ;; k) t.
Proof.
  cbn [putcs]. rewrite (u8_small (u8 c)) by apply u8_range. unfold mbind, M_bind.
  by destruct (putc (u8 c) t).
Qed.

Lemma putcs_then l m (k : M screen Z) t :
  (putcs l ;; putcs m ;; k) t = (putcs (l ++ m) ;; k) t.
Proof.
  unfold mbind at 3, M_bind at 3. rewrite putcs_app. unfold mbind, M_bind.
  by destruct (putcs l t).
Qed.

(** A step of printf that prints [l] before the rest of the format prints [m]. *)
Lemma printf_step l m n k (rest : M screen Z) t :
  (forall t', rest t' = (putcs m ;; mret (n + 1 + k)) t') ->
  (putcs l ;; rest) t = (putcs (l ++ m) ;; mret (n + (k + 1))) t.
Proof.
  intros H. rewrite <-putcs_then. apply bind_ext. intros [] t'. rewrite H.
  by replace (n + (k + 1)) with (n + 1 + k) by lia.
Qed.

Lemma puts_then s str (k : M screen Z) t :
  until0 s = Some str -> (puts s ;; k) t = (putcs str ;; k) t.
Proof.
  intros Hs. unfold mbind, M_bind. rewrite (puts_putcs _ _ _ Hs). unfold mbind, M_bind.
  by destruct (putcs str t).
Qed.

Lemma printf_loop_renders fmt f mode args n out t :
  until0 fmt = Some f -> bytes f -> render f mode args = Some out ->
  printf_loop fmt mode args n t = (putcs out ;; mret (n + len f)) t.
Proof.
  revert f mode args n out t.
  induction fmt as [|c fmt IH]; intros f mode args n out t Hf Hb Hr; [done|].
  simpl in Hf. cbn [printf_loop]. case_bool_decide.
  { injection Hf as <-. destruct mode; [|done]. injection Hr as <-. simpl.
    by rewrite Z.add_0_r. }
  apply bind_Some in Hf as (f' & Hf & [= <-]). apply Forall_cons in Hb as [Hc Hb].
  replace (len (c :: f')) with (len f' + 1) by lens.
  destruct mode as [|alt]; cbn [render] in Hr.
  - case_bool_decide.
    + rewrite (IH _ _ _ _ _ _ Hf Hb Hr). by replace (n + 1 + len f') with (n + (len f' + 1)) by lia.
    + apply bind_Some in Hr as (m & Hm & [= <-]).
      rewrite <-putcs_one, u8_small by done. apply (printf_step [c]).
      intros t'. by apply IH.
  - repeat case_bool_decide; subst; try done; cbn [next_int next_str] in *;
      try (destruct args as [|[w|s] args]; try discriminate Hr);
      try (apply bind_Some in Hr as (str & Hstr & Hr));
      try (apply bind_Some in Hr as (m & Hm & [= <-]));
      try (injection Hr as <-).
    all: cbn [next_int next_str]; try (change (putc 37) with (putc (u8 37)));
      rewrite <-?putcs_one.
    all: try (erewrite puts_conv by
                (apply conv_u_spec || apply conv_d_spec ||
                 apply conv_hex_spec)).
    all: try (rewrite (puts_then s str) by done).
    all: try (apply (printf_step [_]); intros t'; by apply IH).
    all: try (apply printf_step; intros t'; by apply IH).
    all: replace (n + (len f' + 1)) with (n + 1 + len f') by lia; by apply IH.
Qed.

(** *** Text of the cleared, scrolled and restored page *)

Lemma text_clear v : length v = 4096%nat -> text (clear_video v) = replicate 2000 32.
Proof.
  intros Hl. apply load_ext; [lens|]. intros i Hi. rewrite text_length in Hi.
  rewrite load_text by lia. unfold clear_video. rewrite load_page_map.
  destruct (load_Some v (2 * i)) as [c ->]; [lia|].
  rewrite load_replicate by lia. cbn. f_equal. page_cases.
Qed.

Lemma attributes_clear v :
  length v = 4096%nat -> attributes (clear_video v) = replicate 2000 ATTRIB.
Proof.
  intros Hl. apply load_ext; [lens|]. intros i Hi. rewrite attributes_length in Hi.
  rewrite load_attributes by lia. unfold clear_video. rewrite load_page_map.
  destruct (load_Some v (2 * i + 1)) as [c ->]; [lia|].
  rewrite load_replicate by lia. cbn. f_equal. page_cases.
Qed.

Lemma text_scroll v :
  length v = 4096%nat -> text (scroll_video v) = drop 80 (text v) ++ replicate 80 32.
Proof.
  intros Hl. apply load_ext; [lens|]. intros i Hi. rewrite text_length in Hi.
  rewrite load_text by lia. unfold scroll_video. rewrite load_page_map.
  destruct (load_Some v (2 * i)) as [c Hc]; [lia|]. rewrite Hc.
  cbn [fmap option_fmap option_map default]. destruct (decide (i < 1920)).
  - rewrite load_app_l, load_drop, load_text by lens. unfold scroll_byte.
    rewrite !bool_decide_true by (Z.to_euclidean_division_equations; lia).
    by replace (2 * (i + Z.of_nat 80)) with (2 * i + 160) by lia.
  - rewrite load_app_r, load_replicate by lens. f_equal. page_cases.
Qed.

Lemma page_map_bytes f v :
  (forall i c, byte c -> byte (f i c)) -> bytes v -> bytes (page_map f v).
Proof.
  intros Hf Hv. apply Forall_lookup. intros i x. unfold page_map.
  rewrite list_lookup_imap, fmap_Some. intros (c & Hc & ->). apply Hf.
  by eapply Forall_lookup_1.
Qed.

Lemma byte_const c : 0 <= c < 256 -> byte c.
Proof. done. Qed.
#[export] Hint Resolve byte_const : range.

Lemma clear_bytes v : bytes v -> bytes (clear_video v).
Proof.
  apply page_map_bytes. intros i c Hc. unfold clear_byte, ATTRIB, byte in *.
  repeat case_bool_decide; lia.
Qed.

Lemma scroll_bytes v : bytes v -> bytes (scroll_video v).
Proof.
  intros Hv. apply page_map_bytes; [|done]. intros i c Hc. unfold scroll_byte, ATTRIB, byte in *.
  repeat case_bool_decide; try lia. destruct (load v (i + 160)) as [d|] eqn:E; simpl; [|lia].
  by eapply (load_Forall byte).
Qed.

(** copy_buffer_to_video: the characters of a saved screen, default attributes. *)
Definition restore_byte (src : list Z) (i c : Z) : Z :=
  if bool_decide (i < 4000) then
    if bool_decide (i `mod` 2 = 0) then default 0 (load src (i `div` 2)) else ATTRIB
  else c.

Lemma wp_copy_buffer_to_video src s Q :
  length (video s) = 4096%nat -> 2000 <= len src -> bytes src ->
  Q tt (set_video (page_map (restore_byte src) (video s)) s) ->
  wp (copy_buffer_to_video src) Q s.
Proof.
  intros Hlen Hsrc Hb HQ. unfold copy_buffer_to_video.
  eapply (wp_page_loop (fun i k c => if bool_decide (k < 2 * i) then restore_byte src k c else c)
            _ _ _ (video s)).
  - symmetry. rewrite <-(page_map_id (video s)) at 2. apply page_map_ext.
    intros i c [? _]%load_inv. by rewrite bool_decide_false by lia.
  - intros i t Hi Ht. change (NUM_ROWS * NUM_COLS) with 2000 in Hi.
    destruct (load_Some src i) as [c Hc]; [lia|].
    assert (byte c) as Hcb by (by eapply load_Forall). unfold byte in Hcb.
    wps. exists c. split; [done|]. wps. simpl.
    rewrite !shiftl_1, Ht. split; [lens|]. split; [lens|]. unfold set_video. f_equal. simpl.
    rewrite !insert_page_map by lens.
    apply page_map_ext. intros k d [? _]%load_inv. unfold restore_byte. page_cases.
    subst k. replace ((2 * i) `div` 2) with i by (Z.to_euclidean_division_equations; lia).
    rewrite Hc. simpl. by rewrite Z.mod_small by lia.
  - erewrite page_map_ext; [apply HQ|]. intros k c [? _]%load_inv. unfold restore_byte. page_cases.
Qed.

Lemma text_restore src v :
  length v = 4096%nat -> 2000 <= len src ->
  text (page_map (restore_byte src) v) = take 2000 src.
Proof.
  intros Hl Hs. apply load_ext; [lens|]. intros i Hi. rewrite text_length in Hi.
  rewrite load_text by lia. rewrite load_page_map.
  destruct (load_Some v (2 * i)) as [c ->]; [lia|].
  cbn [fmap option_fmap option_map default]. unfold restore_byte.
  rewrite !bool_decide_true by (Z.to_euclidean_division_equations; lia).
  replace ((2 * i) `div` 2) with i by (Z.to_euclidean_division_equations; lia).
  destruct (load_Some src i) as [d Hd]; [lia|]. rewrite Hd.
  rewrite load_nonneg, lookup_take_lt by lia. rewrite load_nonneg in Hd by lia. done.
Qed.

(** copy_video_to_buffer stores the text, the rest of the buffer stays. *)
Lemma copy_video_loop_spec n lo dst s :
  length (video s) = 4096%nat -> 0 <= lo -> lo + Z.of_nat n <= 2000 -> 2000 <= len dst ->
  copy_video_loop n lo dst s
  = Ret (take (Z.to_nat lo) dst ++ take n (drop (Z.to_nat lo) (text (video s)))
           ++ drop (Z.to_nat lo + n) dst) s.
Proof.
  intros Hl. revert lo dst. induction n as [|n IH]; intros lo dst H0 Hn Hd; cbn [copy_video_loop].
  - simpl. by rewrite Nat.add_0_r, take_drop.
  - destruct (load_Some (video s) (2 * lo)) as [c Hc]; [lia|].
    unfold mbind, M_bind, vget, get, lift. simpl. unfold mbind, M_bind.
    rewrite shiftl_1, Hc, store_in by lia. rewrite IH by lens. f_equal.
    replace (Z.to_nat (lo + 1)) with (S (Z.to_nat lo)) by lia.
    assert (text (video s) !! Z.to_nat lo = Some c) as Ht.
    { rewrite <-load_nonneg, load_text, Hc by lia. done. }
    rewrite (take_S_r _ _ c) by (apply list_lookup_insert_eq; lia).
    rewrite take_insert_ge, drop_insert_lt, (drop_S _ _ _ Ht), <-app_assoc by lia. simpl.
    by rewrite Nat.add_succ_r.
Qed.

Lemma copy_video_to_buffer_spec dst s :
  length (video s) = 4096%nat -> 2000 <= len dst ->
  copy_video_to_buffer dst s = Ret (text (video s) ++ drop 2000 dst) s.
Proof.
  intros Hl Hd. unfold copy_video_to_buffer. rewrite copy_video_loop_spec by done.
  change (Z.to_nat (NUM_ROWS * NUM_COLS)) with 2000%nat. change (Z.to_nat 0) with 0%nat.
  rewrite take_0, drop_0, take_ge by lens. done.
Qed.

Lemma text_bytes v : bytes v -> bytes (text v).
Proof.
  intros Hv. apply Forall_fmap, Forall_forall. intros i _. simpl.
  destruct (load v (2 * i)) as [c|] eqn:E; simpl; [by eapply load_Forall|unfold byte; lia].
Qed.

(** ** Properties *)

(** A page of bytes, for the examples. *)
Definition blank_page : list Z := replicate 4096 0.
Definition blank_screen (x y : Z) : screen := Screen x y blank_page [].

Lemma blank_ok x y : page_ok (blank_screen x y).
Proof. split; [done|]. apply Forall_replicate. unfold byte. lia. Qed.

(** puts writes a string without line breaks that fits on the rest of its row
    cell by cell: the screen's text changes in exactly those cells, the call
    returns the length, and software and hardware cursor stand behind the string.
    A string that ends in the last column leaves the cursor at the start of the
    SAME row: putc reduces screen_x before it divides it, so the row never
    advances. *)
Theorem puts_writes_row s str t x y :
  until0 s = Some str -> bytes str -> Forall (fun c => c <> 10 /\ c <> 13) str ->
  page_ok t -> screen_x t = x -> screen_y t = y -> 0 <= x < 80 -> 0 <= y < 25 ->
  x + len str <= 80 ->
  exists t', puts s t = Ret (len str) t' /\ page_ok t' /\
    screen_x t' = (if bool_decide (x + len str = 80) then 0 else x + len str) /\
    screen_y t' = y /\
    text (video t')
    = take (Z.to_nat (80 * y + x)) (text (video t)) ++ str
        ++ drop (Z.to_nat (80 * y + x) + length str) (text (video t)) /\
    (str <> [] -> hw_cursor (io t') = 80 * screen_y t' + screen_x t').
Proof.
  intros Hs Hb Hn Hok Hx Hy Hxr Hyr Hfit.
  pose proof (puts_row s str t x y Hs Hb Hn Hok Hx Hy ltac:(lia) Hyr Hfit ltac:(lia)) as H.
  apply wp_Ret in H as (n & t' & Hr & -> & Hok' & Hx' & Hy' & Htxt & Hhw).
  exists t'. split_and!; try done.
  - rewrite Hx'. case_bool_decide as E; [by rewrite E|]. apply Z.mod_small. lia.
  - intros Hne. rewrite (Hhw Hne), Hy'. lia.
Qed.

Lemma puts_writes_row_witness :
  exists t', puts (cstring "ece391") (blank_screen 74 3) = Ret 6 t' /\ page_ok t' /\
    screen_x t' = (if bool_decide (74 + 6 = 80) then 0 else 74 + 6) /\ screen_y t' = 3 /\
    text (video t')
    = take (Z.to_nat (80 * 3 + 74)) (text blank_page) ++ bytes_of_string "ece391"
        ++ drop (Z.to_nat (80 * 3 + 74) + 6) (text blank_page) /\
    (bytes_of_string "ece391" <> [] -> hw_cursor (io t') = 80 * screen_y t' + screen_x t').
Proof.
  apply (puts_writes_row _ (bytes_of_string "ece391")).
  - reflexivity.
  - apply bytes_of_string_bytes.
  - repeat (constructor; [split; discriminate|]). constructor.
  - apply blank_ok.
  - reflexivity.
  - reflexivity.
  - lia.
  - lia.
  - simpl. lia.
Defined.

(** C38: printf expands its format: when the format (bytes before its NUL) renders
    to [out] with the given arguments - literal text, %%, %c, %s, %u, %d (signed,
    down to -2^31), %x, and %#x as exactly eight hexadecimal digits - running
    printf is running putc over [out] in order, and it returns the number of
    format bytes consumed. *)
Theorem printf_prints_rendering fmt f args out t :
  until0 fmt = Some f -> bytes f -> render f Plain args = Some out ->
  printf fmt args t = (putcs out ;; mret (len f)) t.
Proof. intros Hf Hb Hr. unfold printf. by rewrite (printf_loop_renders _ _ _ _ _ _ _ Hf Hb Hr). Qed.

Lemma printf_prints_rendering_witness :
  printf (cstring "%d=%#x") [AInt 4294967254; AInt 48879] (blank_screen 0 0)
  = (putcs (bytes_of_string "-42=0000BEEF") ;; mret 6) (blank_screen 0 0).
Proof.
  apply (printf_prints_rendering _ (bytes_of_string "%d=%#x")).
  - reflexivity.
  - apply bytes_of_string_bytes.
  - vm_compute. reflexivity.
Defined.

(** pressed_enter scrolls: the text moves up by one row and a row of spaces
    enters at the bottom, whatever is on the page; the cursor and the ports are
    not touched, and no access leaves the page. *)
Theorem pressed_enter_scrolls s :
  page_ok s ->
  exists v, pressed_enter s = Ret tt (set_video v s) /\
    text v = drop 80 (text (video s)) ++ replicate 80 32 /\ page_ok (set_video v s).
Proof.
  intros [Hl Hb]. exists (scroll_video (video s)). split.
  - apply wp_eq, wp_pressed_enter; done.
  - split; [by apply text_scroll|]. split; [|by apply scroll_bytes]. simpl.
    unfold scroll_video. by rewrite page_map_length.
Qed.

Lemma pressed_enter_scrolls_witness :
  exists v, pressed_enter (blank_screen 0 25) = Ret tt (set_video v (blank_screen 0 25)) /\
    text v = drop 80 (text blank_page) ++ replicate 80 32 /\
    page_ok (set_video v (blank_screen 0 25)).
Proof. apply (pressed_enter_scrolls (blank_screen 0 25)). apply blank_ok. Defined.

(** clear blanks every cell with the default attribute and puts the hardware
    cursor at the top left, but leaves the software cursor where it was (its
    callers reset it with set_cursor). *)
Theorem clear_blanks s :
  page_ok s ->
  exists t, clear s = Ret tt t /\ page_ok t /\
    text (video t) = replicate 2000 32 /\ attributes (video t) = replicate 2000 ATTRIB /\
    hw_cursor (io t) = 0 /\ screen_x t = screen_x s /\ screen_y t = screen_y s.
Proof.
  intros [Hl Hb].
  exists (add_io (cursor_events 0 0) (set_video (clear_video (video s)) s)). split.
  - by apply wp_eq, wp_clear.
  - split; [split; [by unfold clear_video; simpl; rewrite page_map_length|by apply clear_bytes]|].
    fields. rewrite text_clear, attributes_clear, hw_cursor_events by done. done.
Qed.

Lemma clear_blanks_witness :
  exists t, clear (blank_screen 5 7) = Ret tt t /\ page_ok t /\
    text (video t) = replicate 2000 32 /\ attributes (video t) = replicate 2000 ATTRIB /\
    hw_cursor (io t) = 0 /\ screen_x t = 5 /\ screen_y t = 7.
Proof. apply (clear_blanks (blank_screen 5 7)). apply blank_ok. Defined.

(** backspace undoes a character: putc of any character but a line break,
    before the last column, followed by move_back returns to the same software and
    hardware cursor, with a space in that cell and every other cell as before. *)
Theorem move_back_undoes_putc c x y s :
  page_ok s -> c <> 10 -> c <> 13 -> screen_x s = x -> screen_y s = y ->
  0 <= x < 79 -> 0 <= y < 25 ->
  exists t, (putc c ;; move_back) s = Ret tt t /\ page_ok t /\
    screen_x t = x /\ screen_y t = y /\ hw_cursor (io t) = 80 * y + x /\
    text (video t) = <[Z.to_nat (80 * y + x) := 32]> (text (video s)) /\
    attributes (video t) = <[Z.to_nat (80 * y + x) := ATTRIB]> (attributes (video s)).
Proof.
  intros Hok H1 H2 Hx Hy Hxr Hyr.
  apply wp_unit. wps. eapply wp_mono; [apply (putc_text c x y); done || lia|].
  intros [] t ([Hl Hb] & Hxt & Hyt & Htxt & Hattr & _). rewrite Z.mod_small in Hxt by lia.
  unfold move_back. wps. rewrite bool_decide_true by lia. wps. fields.
  rewrite Hxt, Hyt, !shiftl_1. unfold NUM_COLS. replace (x + 1 - 1) with x by lia.
  split; [lia|]. split; [lens|].
  change (<[Z.to_nat (2 * (80 * y + x) + 1) := u8 ATTRIB]> _)
    with (put_cell (80 * y + x) 32 (video t)).
  rewrite hw_cursor_events, text_put_cell, attributes_put_cell, Htxt, Hattr by lia.
  rewrite !list_insert_insert_eq, u16_small by lia.
  split; [split; fields; [lens|by apply put_cell_bytes]|]. repeat split; done || lia.
Qed.

Lemma move_back_undoes_putc_witness :
  exists t, (putc 97 ;; move_back) (blank_screen 10 24) = Ret tt t /\ page_ok t /\
    screen_x t = 10 /\ screen_y t = 24 /\ hw_cursor (io t) = 80 * 24 + 10 /\
    text (video t) = <[Z.to_nat (80 * 24 + 10) := 32]> (text blank_page) /\
    attributes (video t) = <[Z.to_nat (80 * 24 + 10) := ATTRIB]> (attributes blank_page).
Proof.
  apply (move_back_undoes_putc 97 10 24 (blank_screen 10 24)).
  - apply blank_ok.
  - discriminate.
  - discriminate.
  - reflexivity.
  - reflexivity.
  - lia.
  - lia.
Defined.

(** saving and restoring the screen: the text that copy_video_to_buffer stores
    in a buffer of at least 2000 bytes is the text that copy_buffer_to_video
    brings back later, whatever the page held in between. *)
Theorem save_restore_text dst s s2 :
  page_ok s -> page_ok s2 -> 2000 <= len dst -> bytes dst ->
  exists buf t, copy_video_to_buffer dst s = Ret buf s /\ length buf = length dst /\
    copy_buffer_to_video buf s2 = Ret tt t /\ text (video t) = text (video s).
Proof.
  intros [Hl Hb] [Hl2 Hb2] Hd Hbd. rewrite copy_video_to_buffer_spec by done.
  exists (text (video s) ++ drop 2000 dst). 
  exists (set_video (page_map (restore_byte (text (video s) ++ drop 2000 dst)) (video s2)) s2).
  split; [done|]. split; [lens|].
  assert (2000 <= len (text (video s) ++ drop 2000 dst)) by lens. split.
  - apply wp_eq, wp_copy_buffer_to_video; try done. apply Forall_app.
    split; [by apply text_bytes|by apply Forall_drop].
  - fields. rewrite text_restore by done. rewrite take_app_length' by lens. done.
Qed.

Lemma save_restore_text_witness :
  exists buf t, copy_video_to_buffer (replicate 4096 7) (blank_screen 0 0) = Ret buf (blank_screen 0 0) /\
    length buf = 4096%nat /\
    copy_buffer_to_video buf (Screen 0 0 (replicate 4096 66) []) = Ret tt t /\
    text (video t) = text (video (blank_screen 0 0)).
Proof.
  apply (save_restore_text (replicate 4096 7)).
  - apply blank_ok.
  - split; [reflexivity|]. apply Forall_replicate. unfold byte. lia.
  - rewrite length_replicate. lia.
  - apply Forall_replicate. unfold byte. lia.
Defined.
