(* ===== verification/FileSystem.v ===== *)
(** * The read-only file system

    [src/student-distrib/file_system.c] and [file_system.h]. The file system
    image is a module the boot loader placed in memory: one 4 KB boot block (the
    counts and 63 directory entries of 64 bytes), then the inodes, then the data
    blocks, 4 KB each. The model keeps the image's bytes, [bootHead[k]] is the
    4096 bytes from [4096 * k] on, and an access outside the image has no
    meaning. *)
From S2P Require Import Prelude Clib.

Definition CHAR_LENGTH : Z := 32.
Definition NUM_DIR_ENTRIES : nat := 63.
Definition NUM_DATA_BLOCK : Z := 1023.
Definition FOUR_KILOBYTES : Z := 4096.

(** ** The data *)

Record dentry := Dentry {
  d_fileName : list Z;
  d_fileType : Z;
  d_inodeNum : Z;
  d_reserved : list Z;
}.

(** The static variables of the file, and the memory [bootHead] points to. *)
Record fs := Fs {
  bootHead : Z;
  image : list Z;
  currentDirIndex : Z;
}.

(** A little-endian int32_t. *)
Definition ld32 (m : list Z) (off : Z) : option Z :=
  b0 ← load m off;
  b1 ← load m (off + 1);
  b2 ← load m (off + 2);
  b3 ← load m (off + 3);
  Some (s32 (b0 + 256 * b1 + 65536 * b2 + 16777216 * b3)).

(** The bytes from [off] on, [None] when the object is shorter. *)
Definition ldbytes (m : list Z) (off : Z) (n : nat) : option (list Z) :=
  if bool_decide (0 <= off /\ off + Z.of_nat n <= len m)
  then Some (take n (drop (Z.to_nat off) m)) else None.

Definition numDirectory (img : list Z) : option Z := ld32 img 0.
Definition numInode (img : list Z) : option Z := ld32 img 4.
Definition numDataBlock (img : list Z) : option Z := ld32 img 8.

(** [&bootHead->dir_Entries[i]] as an offset, and the pointer to its name. *)
Definition dir_entry (i : Z) : Z := 64 + 64 * i.
Definition entry_name (img : list Z) (i : Z) : list Z := drop (Z.to_nat (dir_entry i)) img.

Definition ld_dentry (img : list Z) (i : Z) : option dentry :=
  name ← ldbytes img (dir_entry i) 32;
  ty ← ld32 img (dir_entry i + 32);
  ino ← ld32 img (dir_entry i + 36);
  rsv ← ldbytes img (dir_entry i + 40) 24;
  Some (Dentry name ty ino rsv).

(** ** The code *)

Definition init_bootBlock_address (address : Z) : M fs Z :=
  modify (fun s => Fs address (image s) 0) ;;
  mret 0.

(** [for(i = strlen(fname); i < CHAR_LENGTH; i++) tempString[i] = 0x0;] *)
Fixpoint pad_name (n : nat) (i : Z) (t : list Z) : option (list Z) :=
  match n with
  | O => Some t
  | S n' => t' ← store t i 0; pad_name n' (i + 1) t'
  end.

(** The search loop over all 63 entries, from [i] on. *)
Fixpoint find_entry (img tempString : list Z) (n : nat) (i : Z) : option (Z * option dentry) :=
  match n with
  | O => Some (-1, None)
  | S n' =>
      r ← strncmp tempString (entry_name img i) (Z.to_nat (CHAR_LENGTH - 1));
      if bool_decide (r = 0) then
        d ← ld_dentry img i;
        Some (0, Some d)
      else find_entry img tempString n' (i + 1)
  end.

(** The result, and the entry stored through [dentry]. The local array
    [tempString] starts with no defined contents ([replicate]: every byte the
    search reads was written before). *)
Definition read_dentry_by_name (img fname : list Z) : option (Z * option dentry) :=
  t1 ← strcpy (replicate 32 0) fname;
  length ← strlen fname;
  t2 ← pad_name (Z.to_nat (CHAR_LENGTH - s32 length)) (s32 length) t1;
  t3 ← (if bool_decide (s32 length >= CHAR_LENGTH) then store t2 CHAR_LENGTH 0 else Some t2);
  find_entry img t3 NUM_DIR_ENTRIES 0.

(** [dentry_ptr] is [false] for the NULL pointer. The comparison is unsigned. *)
Definition read_dentry_by_index (img : list Z) (index : Z) (dentry_ptr : bool) :
    option (Z * option dentry) :=
  n ← numDirectory img;
  if bool_decide (u32 index >= u32 n) || negb dentry_ptr then Some (-1, None)
  else d ← ld_dentry img (u32 index); Some (0, Some d).

(** [inode_ptr->dataBlock[blockNUM] + bootHead->numInode + 1] *)
Definition block_index (img : list Z) (inode_ptr blockNUM : Z) : option Z :=
  b ← ld32 img (inode_ptr + 4 + 4 * blockNUM);
  n ← numInode img;
  Some (s32 (b + n + 1)).

(** The copy loop: [n] iterations are left. *)
Fixpoint read_loop (img : list Z) (inode_ptr : Z) (n : nat)
    (i blockNUM data_ptr data_end : Z) (buf : list Z) : option (list Z) :=
  match n with
  | O => Some buf
  | S n' =>
      c ← load img data_ptr;
      buf' ← store buf i c;
      if bool_decide (data_ptr = data_end) then
        let blockNUM' := blockNUM + 1 in
        blockIndex ← block_index img inode_ptr blockNUM';
        let data_ptr' := blockIndex * FOUR_KILOBYTES in
        read_loop img inode_ptr n' (i + 1) blockNUM' data_ptr'
          (data_ptr' + FOUR_KILOBYTES - 1) buf'
      else read_loop img inode_ptr n' (i + 1) blockNUM (data_ptr + 1) data_end buf'
  end.

(** [inode], [offset] and [length] are uint32_t; [buf] is [None] for NULL. The
    result is the return value and the buffer's contents. *)
Definition read_data (img : list Z) (inode offset : Z) (buf : option (list Z)) (length : Z) :
    option (Z * list Z) :=
  let blockNUM := offset `div` FOUR_KILOBYTES in
  let blockOffset := offset `mod` FOUR_KILOBYTES in
  let inode_ptr := u32 (inode + 1) * FOUR_KILOBYTES in
  data_length ← ld32 img inode_ptr;
  if bool_decide (offset = u32 data_length) then Some (0, default [] buf)
  else
    n_inode ← numInode img;
    match buf with
    | Some buf =>
        if bool_decide (inode >= u32 n_inode) || bool_decide (length <= 0) then Some (-1, buf)
        else
          let length' := if bool_decide (length >= u32 (data_length - offset))
                         then u32 (data_length - offset) else length in
          blockIndex ← block_index img inode_ptr blockNUM;
          let data_ptr := blockIndex * FOUR_KILOBYTES + blockOffset in
          let data_end := data_ptr + FOUR_KILOBYTES - blockOffset - 1 in
          buf' ← read_loop img inode_ptr (Z.to_nat length') 0 blockNUM data_ptr data_end buf;
          Some (s32 length', buf')
    | None => Some (-1, [])
    end.

Definition open_file (img filename : list Z) : option Z :=
  '(r, _) ← read_dentry_by_name img filename;
  Some r.

Definition close_file (fd : Z) : Z := 0.
Definition write_file (fd : Z) (nbytes : Z) : Z := -1.
Definition open_directory (filename : list Z) : Z := 0.
Definition close_directory (fd : Z) : Z := 0.
Definition write_directory (fd : Z) (nbytes : Z) : Z := -1.

(** The result of the call, and the buffer. *)
Definition read_file_sys_helper (img filename buf : list Z) (nbytes : Z) :
    option (Z * list Z) :=
  r ← read_dentry_by_name img filename;
  match r with
  | (rv, d) =>
      if bool_decide (rv = -1) then Some (-1, buf)
      else
        d ← d;
        '(byteRead, buf') ← read_data img (u32 (d_inodeNum d)) 0 (Some buf) (u32 nbytes);
        if bool_decide (byteRead = -1) then Some (-1, buf')
        else if bool_decide (byteRead = 0) then
          l ← ld32 img (s32 (d_inodeNum d + 1) * FOUR_KILOBYTES);
          Some (l, buf')
        else Some (byteRead, buf')
  end.

(** The file descriptor and [nbytes] are not used. *)
Definition read_directory (buf : list Z) : M fs (Z * list Z) :=
  s ← get;
  n ← lift (numDirectory (image s));
  if bool_decide (currentDirIndex s + 1 > n) then
    modify (fun s => Fs (bootHead s) (image s) 0) ;;
    mret (0, buf)
  else
    buf' ← lift (strcpy buf (entry_name (image s) (currentDirIndex s)));
    modify (fun s => Fs (bootHead s) (image s) (currentDirIndex s + 1)) ;;
    n ← lift (strlen buf');
    mret (s32 n, buf').

Definition get_inodeptr (boot inodeNum : Z) : Z :=
  u32 (boot + s32 (inodeNum + 1) * FOUR_KILOBYTES).

(** ** The abstract file system

    A well-formed image: [n] directory entries, [N] inodes, [D] data blocks, and
    every file's blocks are data blocks. *)

Definition wf_inode (img : list Z) (D ino : Z) : Prop :=
  exists L, ld32 img ((ino + 1) * FOUR_KILOBYTES) = Some L /\
    0 <= L <= NUM_DATA_BLOCK * FOUR_KILOBYTES /\
    forall k, 0 <= k -> k * FOUR_KILOBYTES < L ->
      exists b, ld32 img ((ino + 1) * FOUR_KILOBYTES + 4 + 4 * k) = Some b /\ 0 <= b < D.

Record wf_image (img : list Z) (n N D : Z) : Prop := {
  wf_bytes : bytes img;
  wf_dirs : numDirectory img = Some n /\ 0 <= n <= 63;
  wf_inodes : numInode img = Some N /\ 0 <= N;
  wf_blocks : 0 <= D;
  wf_length : len img = (1 + N + D) * FOUR_KILOBYTES;
  wf_fits : len img < 2147483648;
  wf_files ino : 0 <= ino < N -> wf_inode img D ino;
}.

(** An executable check of the same. *)
Definition check_inode (img : list Z) (D ino : Z) : bool :=
  match ld32 img ((ino + 1) * FOUR_KILOBYTES) with
  | Some L =>
      bool_decide (0 <= L <= NUM_DATA_BLOCK * FOUR_KILOBYTES) &&
      forallb (fun k =>
        match ld32 img ((ino + 1) * FOUR_KILOBYTES + 4 + 4 * k) with
        | Some b => bool_decide (0 <= b < D)
        | None => false
        end) (seqZ 0 ((L + 4095) `div` 4096))
  | None => false
  end.

Definition check_image (img : list Z) (n N D : Z) : bool :=
  forallb (fun b => bool_decide (0 <= b < 256)) img &&
  bool_decide (numDirectory img = Some n /\ 0 <= n <= 63) &&
  bool_decide (numInode img = Some N /\ 0 <= N) &&
  bool_decide (0 <= D /\ len img = (1 + N + D) * FOUR_KILOBYTES /\ len img < 2147483648) &&
  forallb (check_inode img D) (seqZ 0 N).

Lemma check_inode_sound img D ino : check_inode img D ino = true -> wf_inode img D ino.
Proof.
  unfold check_inode, wf_inode. destruct (ld32 _ _) as [L|]; [|done].
  rewrite andb_true_iff, bool_decide_eq_true, forallb_forall. intros [HL Hk].
  exists L. split; [done|]. split; [done|]. intros k Hk0 Hkl.
  specialize (Hk k). destruct (ld32 img _) as [b|].
  - exists b. split; [done|]. rewrite bool_decide_eq_true in Hk. apply Hk.
    apply list_elem_of_In, elem_of_seqZ. unfold FOUR_KILOBYTES in Hkl.
    split; [lia|]. Z.to_euclidean_division_equations. lia.
  - discriminate Hk. apply list_elem_of_In, elem_of_seqZ. unfold FOUR_KILOBYTES in Hkl.
    split; [lia|]. Z.to_euclidean_division_equations. lia.
Qed.

Lemma check_image_sound img n N D : check_image img n N D = true -> wf_image img n N D.
Proof.
  unfold check_image. rewrite !andb_true_iff, !bool_decide_eq_true, !forallb_forall.
  intros ((((Hb & Hn) & HN) & HD & Hl & Hf) & Hi). split; try done.
  - apply Forall_forall. intros x Hx. apply list_elem_of_In, Hb in Hx.
    by apply bool_decide_eq_true in Hx.
  - intros ino Hino. apply check_inode_sound, Hi, list_elem_of_In, elem_of_seqZ. lia.
Qed.

(** A file's length and its byte at a position. *)
Definition file_length (img : list Z) (ino : Z) : option Z :=
  ld32 img ((ino + 1) * FOUR_KILOBYTES).

Definition file_byte (img : list Z) (ino p : Z) : option Z :=
  bi ← block_index img ((ino + 1) * FOUR_KILOBYTES) (p `div` FOUR_KILOBYTES);
  load img (bi * FOUR_KILOBYTES + p `mod` FOUR_KILOBYTES).

(** The contents of a file: the abstract value that a read is a slice of. *)
Definition file_contents (img : list Z) (ino : Z) : list Z :=
  match file_length img ino with
  | Some L => (fun p => default 0 (file_byte img ino p)) <$> seqZ 0 L
  | None => []
  end.

Lemma ld32_Some m off : 0 <= off -> off + 4 <= len m -> is_Some (ld32 m off).
Proof.
  intros. unfold ld32.
  destruct (load_Some m off) as [? ->]; [lia|]. destruct (load_Some m (off + 1)) as [? ->]; [lia|].
  destruct (load_Some m (off + 2)) as [? ->]; [lia|].
  destruct (load_Some m (off + 3)) as [? ->]; [lia|]. by eexists.
Qed.

Lemma ld32_range m off v : ld32 m off = Some v -> -2147483648 <= v < 2147483648.
Proof.
  unfold ld32. intros H. repeat (apply bind_Some in H as (? & _ & H)).
  simplify_eq. apply s32_range.
Qed.

Section WellFormed.
Context (img : list Z) (n N D : Z) (Hwf : wf_image img n N D).

Lemma wf_small : (1 + N + D) * 4096 < 2147483648 /\ 0 <= N /\ 0 <= D.
Proof.
  destruct Hwf as [_ _ [_ HN] HD Hl Hf _]. unfold FOUR_KILOBYTES in Hl. lia.
Qed.

Lemma wf_block_index ino L k :
  0 <= ino < N -> file_length img ino = Some L -> 0 <= k -> k * 4096 < L ->
  exists b, block_index img ((ino + 1) * FOUR_KILOBYTES) k = Some (b + N + 1) /\ 0 <= b < D.
Proof.
  intros Hino HL Hk HkL. destruct (wf_files _ _ _ _ Hwf ino Hino) as (L' & HL' & _ & Hb).
  unfold file_length in HL. rewrite HL in HL'. injection HL' as <-.
  destruct (Hb k Hk) as (b & Hld & Hbr); [done|]. exists b. split; [|done].
  unfold block_index. rewrite Hld. simpl. destruct (wf_inodes _ _ _ _ Hwf) as [-> _]. simpl.
  pose proof wf_small. rewrite s32_small; [done|lia].
Qed.

(** The inode's next entry can be read even when the file ends there. *)
Lemma wf_block_index_Some ino k :
  0 <= ino < N -> 0 < D -> 0 <= k <= 1023 ->
  is_Some (block_index img ((ino + 1) * FOUR_KILOBYTES) k).
Proof.
  intros Hino HD Hk. unfold block_index.
  pose proof (wf_length _ _ _ _ Hwf) as Hl. unfold FOUR_KILOBYTES in *.
  destruct (ld32_Some img ((ino + 1) * 4096 + 4 + 4 * k)) as [b ->]; [lia..|]. simpl.
  destruct (wf_inodes _ _ _ _ Hwf) as [-> _]. simpl. by eexists.
Qed.

Lemma wf_file_byte ino L p :
  0 <= ino < N -> file_length img ino = Some L -> 0 <= p < L ->
  is_Some (file_byte img ino p).
Proof.
  intros Hino HL Hp. unfold file_byte.
  destruct (wf_block_index ino L (p `div` FOUR_KILOBYTES)) as (b & -> & Hb); [done|done|..].
  - unfold FOUR_KILOBYTES. Z.to_euclidean_division_equations. lia.
  - unfold FOUR_KILOBYTES. Z.to_euclidean_division_equations. lia.
  - simpl. apply load_Some. rewrite (wf_length _ _ _ _ Hwf). unfold FOUR_KILOBYTES.
    pose proof (Z.mod_pos_bound p 4096). pose proof wf_small. lia.
Qed.

Lemma wf_file_length ino :
  0 <= ino < N -> exists L, file_length img ino = Some L /\ 0 <= L <= 1023 * 4096.
Proof. intros Hino. destruct (wf_files _ _ _ _ Hwf ino Hino) as (L & ? & ? & _). eauto. Qed.

Lemma file_contents_length ino L :
  file_length img ino = Some L -> 0 <= L -> len (file_contents img ino) = L.
Proof. intros HL ?. unfold file_contents. rewrite HL, length_fmap, length_seqZ. lia. Qed.
End WellFormed.

(** ** The copy loop *)

(** The loop stores the bytes [p, p + n) of the file at [buf[i, i + n)]. *)
Lemma read_loop_spec img ino n i p bi buf :
  let ip := (ino + 1) * FOUR_KILOBYTES in
  0 <= p -> 0 <= i -> i + Z.of_nat n <= len buf ->
  block_index img ip (p `div` FOUR_KILOBYTES) = Some bi ->
  (forall q, p <= q < p + Z.of_nat n -> is_Some (file_byte img ino q)) ->
  (forall k, p `div` FOUR_KILOBYTES <= k <= (p + Z.of_nat n) `div` FOUR_KILOBYTES ->
     is_Some (block_index img ip k)) ->
  read_loop img ip n i (p `div` FOUR_KILOBYTES)
    (bi * FOUR_KILOBYTES + p `mod` FOUR_KILOBYTES)
    (bi * FOUR_KILOBYTES + FOUR_KILOBYTES - 1) buf
  = Some (take (Z.to_nat i) buf
          ++ ((fun q => default 0 (file_byte img ino q)) <$> seqZ p (Z.of_nat n))
          ++ drop (Z.to_nat i + n) buf).
Proof.
  intros ip. revert i p bi buf. induction n as [|n IH]; intros i p bi buf Hp Hi Hlen Hbi Hb Hk.
  - simpl. rewrite Nat.add_0_r. by rewrite take_drop.
  - cbn [read_loop]. destruct (Hb p) as [c Hc]; [lia|].
    assert (load img (bi * FOUR_KILOBYTES + p `mod` FOUR_KILOBYTES) = Some c) as Hld.
    { unfold file_byte in Hc. fold ip in Hc. by rewrite Hbi in Hc. }
    rewrite Hld. simpl. rewrite store_in by lia. simpl.
    assert (forall tl, take (Z.to_nat (i + 1)) (<[Z.to_nat i:=c]> buf) ++ tl
      = take (Z.to_nat i) buf ++ c :: tl) as Htake.
    { intros tl. rewrite Z2Nat.inj_add, Nat.add_comm by lia. simpl.
      rewrite (take_S_r _ _ c) by (apply list_lookup_insert_eq; lia).
      rewrite take_insert_ge, <-app_assoc by lia. done. }
    assert (seqZ p (Z.of_nat (S n)) = p :: seqZ (p + 1) (Z.of_nat n)) as ->.
    { rewrite seqZ_cons by lia. f_equal. f_equal; lia. }
    rewrite fmap_cons, Hc. simpl.
    replace (Z.to_nat i + S n)%nat with (Z.to_nat (i + 1) + n)%nat by lia.
    rewrite <-(drop_insert_lt buf (Z.to_nat (i + 1) + n) (Z.to_nat i) c) by lia.
    rewrite <-Htake.
    assert (Hpos : forall q, p + 1 <= q < p + 1 + Z.of_nat n -> is_Some (file_byte img ino q))
      by (intros; apply Hb; lia).
    unfold FOUR_KILOBYTES in *. case_bool_decide as Hend.
    + assert ((p + 1) `div` 4096 = p `div` 4096 + 1 /\ (p + 1) `mod` 4096 = 0) as [Hd Hm].
      { Z.to_euclidean_division_equations. lia. }
      destruct (Hk (p `div` 4096 + 1)) as [bi' Hbi'].
      { rewrite <-Hd. split; [apply Z.div_le_mono; lia|apply Z.div_le_mono; lia]. }
      rewrite Hbi'. simpl. rewrite <-Hd in Hbi' |- *.
      rewrite <-(Z.add_0_r (bi' * 4096)) at 1.
      replace (bi' * 4096 + 0) with (bi' * 4096 + (p + 1) `mod` 4096) by lia.
      apply IH; try lia; try done.
      * lens.
      * intros k Hkr. apply Hk. pose proof (Z.div_le_mono p (p + 1) 4096).
        replace (p + Z.of_nat (S n)) with (p + 1 + Z.of_nat n) by lia. lia.
    + assert ((p + 1) `div` 4096 = p `div` 4096 /\ (p + 1) `mod` 4096 = p `mod` 4096 + 1)
        as [Hd Hm] by (Z.to_euclidean_division_equations; lia).
      rewrite <-Z.add_assoc, <-Hm, <-Hd. apply IH; try lia; try done.
      * lens.
      * by rewrite Hd.
      * intros k Hkr. apply Hk. rewrite Hd in Hkr.
        replace (p + Z.of_nat (S n)) with (p + 1 + Z.of_nat n) by lia. apply Hkr.
Qed.

Lemma slice_seqZ {A} (f : Z -> A) o k L :
  0 <= o -> 0 <= k -> o + k <= L ->
  take (Z.to_nat k) (drop (Z.to_nat o) (f <$> seqZ 0 L)) = f <$> seqZ o k.
Proof.
  intros. replace L with (o + (k + (L - o - k))) by lia.
  rewrite seqZ_app, (seqZ_app (0 + o)), !fmap_app by lia.
  rewrite drop_app_length' by (rewrite length_fmap, length_seqZ; lia).
  rewrite take_app_length' by (rewrite length_fmap, length_seqZ; lia). done.
Qed.

(** read_data returns the slice of the file that was asked for, cut at the end
    of the file, and stores exactly those bytes. *)
Lemma read_data_spec img n N D ino L offset buf length :
  wf_image img n N D -> 0 <= ino < N -> file_length img ino = Some L ->
  0 <= offset <= L -> 0 < length < 4294967296 ->
  let k := Z.min length (L - offset) in
  k <= len buf ->
  read_data img ino offset (Some buf) length
  = Some (k, take (Z.to_nat k) (drop (Z.to_nat offset) (file_contents img ino))
             ++ drop (Z.to_nat k) buf).
Proof.
  intros Hwf Hino HL Hoff Hlen k Hk.
  pose proof (wf_small _ _ _ _ Hwf) as Hsm.
  destruct (wf_file_length _ _ _ _ Hwf ino Hino) as (L' & HL' & HLr).
  rewrite HL in HL'. injection HL' as <-.
  unfold read_data. rewrite (u32_small (ino + 1)) by lia.
  unfold file_length in HL. rewrite HL. fold (file_length img ino) in HL. simpl.
  rewrite (u32_small L) by lia. case_bool_decide as Heq.
  { subst offset. subst k. replace (Z.to_nat (Z.min length (L - L))) with 0%nat by lia.
    simpl. f_equal. f_equal. lia. }
  destruct (wf_inodes _ _ _ _ Hwf) as [HN _]. rewrite HN. simpl.
  rewrite (u32_small N) by lia. rewrite (bool_decide_false (ino >= N)) by lia.
  rewrite (bool_decide_false (length <= 0)) by lia. simpl.
  rewrite (u32_small (L - offset)) by lia.
  replace (if bool_decide (length >= L - offset) then L - offset else length) with k
    by (subst k; case_bool_decide; lia).
  assert (Hdiv : 0 <= offset `div` FOUR_KILOBYTES /\ offset `div` FOUR_KILOBYTES * 4096 < L).
  { unfold FOUR_KILOBYTES. Z.to_euclidean_division_equations. lia. }
  destruct (wf_block_index _ _ _ _ Hwf ino L (offset `div` FOUR_KILOBYTES))
    as (b & Hb & HbD); [done..|lia|lia|].
  rewrite Hb. simpl.
  replace ((b + N + 1) * FOUR_KILOBYTES + offset `mod` FOUR_KILOBYTES + FOUR_KILOBYTES
           - offset `mod` FOUR_KILOBYTES - 1)
    with ((b + N + 1) * FOUR_KILOBYTES + FOUR_KILOBYTES - 1) by lia.
  rewrite (read_loop_spec img ino (Z.to_nat k) 0 offset (b + N + 1) buf);
    [|lia|lia|lia|done|..].
  - simpl. rewrite s32_small by lia. f_equal. f_equal. f_equal.
    rewrite Z2Nat.id by lia. unfold file_contents. rewrite HL.
    by rewrite slice_seqZ by lia.
  - intros q Hq. apply (wf_file_byte _ _ _ _ Hwf ino L q Hino HL). lia.
  - intros j Hj. apply (wf_block_index_Some _ _ _ _ Hwf ino j Hino); [lia|].
    split; [lia|]. etrans; [apply Hj|]. unfold FOUR_KILOBYTES.
    Z.to_euclidean_division_equations. lia.
Qed.

(** ** Searching the directory *)

Lemma pad_name_spec n i t :
  0 <= i -> i + Z.of_nat n <= len t ->
  pad_name n i t = Some (take (Z.to_nat i) t ++ replicate n 0 ++ drop (Z.to_nat i + n) t).
Proof.
  revert i t. induction n as [|n IH]; intros i t Hi Hn; simpl.
  - by rewrite Nat.add_0_r, take_drop.
  - rewrite store_in by lia. simpl. rewrite IH by lens.
    replace (Z.to_nat (i + 1)) with (S (Z.to_nat i)) by lia.
    rewrite (take_S_r _ _ 0) by (apply list_lookup_insert_eq; lia).
    rewrite take_insert_ge, drop_insert_lt, <-app_assoc by lia.
    by rewrite Nat.add_succ_comm.
Qed.

(** The name of entry [i], as the search sees it: at most 31 bytes. *)
Definition dir_name (img : list Z) (i : Z) : list Z := cstrn 31 (entry_name img i).

(** The first entry with a name. *)
Definition dir_lookup (img name : list Z) : option Z :=
  head (filter (fun i => dir_name img i = name) (seqZ 0 63)).

Lemma cstrn_app n a s :
  Forall (fun c => c <> 0) a -> (length a <= n)%nat -> cstrn n (a ++ 0 :: s) = a.
Proof. intros. rewrite (cstrn_until0 _ _ a) by by apply until0_app. by rewrite take_ge. Qed.

Lemma bytes_drop (l : list Z) k : bytes l -> bytes (drop k l).
Proof. apply Forall_drop. Qed.

Section Directory.
Context (img : list Z) (n N D : Z) (Hwf : wf_image img n N D).

Lemma wf_image_long : 4096 <= len img.
Proof.
  rewrite (wf_length _ _ _ _ Hwf). unfold FOUR_KILOBYTES.
  pose proof (wf_small _ _ _ _ Hwf). lia.
Qed.

Lemma ld_dentry_Some i : 0 <= i < 63 -> is_Some (ld_dentry img i).
Proof.
  intros Hi. pose proof wf_image_long. unfold ld_dentry, ldbytes, dir_entry.
  rewrite bool_decide_true by lia. simpl.
  destruct (ld32_Some img (64 + 64 * i + 32)) as [? ->]; [lia..|].
  destruct (ld32_Some img (64 + 64 * i + 36)) as [? ->]; [lia..|]. simpl.
  rewrite bool_decide_true by lia. by eexists.
Qed.

Lemma find_entry_spec t k i :
  bytes t -> length t = 32%nat -> 0 <= i -> i + Z.of_nat k = 63 ->
  find_entry img t k i =
  match head (filter (fun j => dir_name img j = cstrn 31 t) (seqZ i (Z.of_nat k))) with
  | Some j => d ← ld_dentry img j; Some (0, Some d)
  | None => Some (-1, None)
  end.
Proof.
  intros Ht Hl. revert i. induction k as [|k IH]; intros i Hi Hk; [done|].
  cbn [find_entry]. rewrite seqZ_cons by lia. rewrite filter_cons.
  pose proof wf_image_long.
  destruct (strncmp_spec t (entry_name img i) 31) as (r & Hr & Hiff).
  { done. } { apply bytes_drop, (wf_bytes _ _ _ _ Hwf). } { lia. }
  { unfold entry_name, dir_entry. lens. }
  change (Z.to_nat (CHAR_LENGTH - 1)) with 31%nat. rewrite Hr. simpl.
  unfold dir_name at 1. case_bool_decide as H0.
  - rewrite decide_True; [done|]. symmetry. by apply Hiff.
  - rewrite decide_False by (intros ?; apply H0, Hiff; done).
    replace (Z.pred (Z.of_nat (S k))) with (Z.of_nat k) by lia.
    apply IH; lia.
Qed.

Lemma read_dentry_by_name_spec fname name :
  bytes fname -> until0 fname = Some name -> (length name <= 31)%nat ->
  read_dentry_by_name img fname =
  match dir_lookup img name with
  | Some i => d ← ld_dentry img i; Some (0, Some d)
  | None => Some (-1, None)
  end.
Proof.
  intros Hb Hn Hl. unfold read_dentry_by_name.
  rewrite (strcpy_fits _ _ name) by (done || lens). rewrite (strlen_Some _ name) by done.
  cbn [mbind option_bind]. rewrite s32_small by lia.
  rewrite pad_name_spec by (unfold CHAR_LENGTH; lens). cbn [mbind option_bind].
  rewrite bool_decide_false by (unfold CHAR_LENGTH; lia).
  rewrite Nat2Z.id, take_app_length. cbn [mbind option_bind].
  assert (bytes name /\ Forall (fun c => c <> 0) name) as [Hbn Hz].
  { apply until0_spec in Hn as (r & -> & Hz). by apply Forall_app in Hb as [? _]. }
  set (k := Z.to_nat (CHAR_LENGTH - len name)).
  assert (k = S (31 - length name)) as Hk by (subst k; unfold CHAR_LENGTH; lia).
  rewrite drop_ge by (unfold CHAR_LENGTH in *; lens).
  rewrite app_nil_r, find_entry_spec.
  - by rewrite Hk, replicate_S, cstrn_app.
  - apply Forall_app. split; [done|]. apply Forall_replicate. unfold byte. lia.
  - lens.
  - lia.
  - done.
Qed.
End Directory.

(** A longer name runs over the local buffer. *)
Lemma read_dentry_by_name_overflow img fname name :
  until0 fname = Some name -> (32 <= length name)%nat -> read_dentry_by_name img fname = None.
Proof.
  intros Hn Hl. unfold read_dentry_by_name. by rewrite (strcpy_overflow _ _ name) by (done || lens).
Qed.

(** ** Listing the directory *)

Lemma ldbytes_drop m off n l :
  0 <= off -> ldbytes m off n = Some l ->
  drop (Z.to_nat off) m = l ++ drop (Z.to_nat off + n) m /\ length l = n.
Proof.
  unfold ldbytes. intros Hoff. case_bool_decide; [|done]. intros [= <-].
  rewrite <-drop_drop, take_drop. split; [done|]. lens.
Qed.

Section Listing.
Context (s : fs) (n N D : Z) (Hwf : wf_image (image s) n N D).

Definition at_index (i : Z) (s : fs) : fs := Fs (bootHead s) (image s) i.

Lemma read_directory_next i name buf :
  0 <= i < n -> until0 (entry_name (image s) i) = Some name -> (length name < length buf)%nat ->
  len buf < 2147483648 ->
  read_directory buf (at_index i s)
  = Ret (len name, name ++ 0 :: drop (S (length name)) buf) (at_index (i + 1) s).
Proof.
  intros Hi Hn Hl Hb. unfold read_directory, mbind, M_bind, get, lift, modify. simpl.
  destruct (wf_dirs _ _ _ _ Hwf) as [-> _]. rewrite bool_decide_false by lia.
  rewrite (strcpy_fits _ _ name) by done.
  assert (Forall (fun c => c <> 0) name) by (apply until0_spec in Hn; naive_solver).
  erewrite strlen_Some by by apply until0_app.
  rewrite s32_small by lia. done.
Qed.

Lemma read_directory_end buf : read_directory buf (at_index n s) = Ret (0, buf) (at_index 0 s).
Proof.
  unfold read_directory, mbind, M_bind, get, lift, modify. simpl.
  destruct (wf_dirs _ _ _ _ Hwf) as [-> _]. by rewrite bool_decide_true by lia.
Qed.
End Listing.

(** The strings that [k] calls of read_directory deliver, each into a fresh
    buffer. *)
Fixpoint list_directory (k : nat) (buf : list Z) : M fs (list (list Z)) :=
  match k with
  | O => mret []
  | S k' =>
      '(cnt, buf') ← read_directory buf;
      rest ← list_directory k' buf;
      mret (take (Z.to_nat cnt) buf' :: rest)
  end.

Lemma list_directory_names s n N D k i buf names :
  wf_image (image s) n N D -> 0 <= i -> i + Z.of_nat k = n ->
  len buf < 2147483648 ->
  Forall2 (fun j name => until0 (entry_name (image s) j) = Some name /\
                         (length name < length buf)%nat) (seqZ i (Z.of_nat k)) names ->
  list_directory k buf (at_index i s) = Ret names (at_index n s).
Proof.
  intros Hwf. revert i names. induction k as [|k IH]; intros i names Hi Hk Hb Hn.
  - inv Hn. simpl. rewrite Z.add_0_r. done.
  - rewrite seqZ_cons in Hn by lia. inv Hn as [|? name ? names' [Hname Hl] Hn'].
    cbn [list_directory]. unfold mbind at 1, M_bind at 1.
    erewrite read_directory_next by (done || lia).
    replace (Z.pred (Z.of_nat (S k))) with (Z.of_nat k) in Hn' by lia.
    unfold mbind, M_bind. rewrite (IH (i + 1) names') by (done || lia).
    simpl. by rewrite Nat2Z.id, take_app_length.
Qed.

(** ** A small image, for the examples *)

Definition enc32 (v : Z) : list Z :=
  [v `mod` 256; v `div` 256 `mod` 256; v `div` 65536 `mod` 256; v `div` 16777216 `mod` 256].
Definition pad_to (n : nat) (l : list Z) : list Z := take n (l ++ replicate n 0).
Definition mk_dentry (name : string) (ty ino : Z) : list Z :=
  pad_to 32 (bytes_of_string name) ++ enc32 ty ++ enc32 ino ++ replicate 24 0.
Definition mk_boot (entries : list (list Z)) (N D : Z) : list Z :=
  pad_to 4096 (enc32 (len entries) ++ enc32 N ++ enc32 D ++ replicate 52 0 ++ concat entries).
Definition mk_inode (L : Z) (blocks : list Z) : list Z :=
  pad_to 4096 (enc32 L ++ concat (enc32 <$> blocks)).

(** Two files: [hello] has 4100 bytes in the data blocks 2 and 0, [note] is
    empty; the names cover the three file types and a 32-byte name. *)
Definition demo_image : list Z :=
  mk_boot [mk_dentry "." 1 0; mk_dentry "hello" 2 0; mk_dentry "rtc" 0 1;
           mk_dentry "verylargetxtwithverylongname.txt" 2 1] 2 3
  ++ mk_inode 4100 [2; 0] ++ mk_inode 0 []
  ++ pad_to 4096 [101; 110; 100; 33] ++ replicate 4096 1
  ++ replicate 4096 7.

Lemma demo_image_wf : wf_image demo_image 4 2 3.
Proof. apply check_image_sound. vm_compute. reflexivity. Qed.

Definition demo_fs : fs := Fs 0x500000 demo_image 0.

(** ** Properties *)

(** C13: read_data refines the abstract file. On a well-formed image, reading at
    an offset inside the file returns min(length, bytes left), stores exactly
    that slice of the file's contents in the buffer, leaves the rest of the
    buffer alone, and never leaves the image. *)
Theorem read_data_correct img n N D ino L offset buf length :
  wf_image img n N D -> 0 <= ino < N -> file_length img ino = Some L ->
  0 <= offset <= L -> 0 < length < 4294967296 -> Z.min length (L - offset) <= len buf ->
  exists k out, read_data img ino offset (Some buf) length = Some (k, out) /\
    k = Z.min length (L - offset) /\ List.length out = List.length buf /\
    take (Z.to_nat k) out = take (Z.to_nat k) (drop (Z.to_nat offset) (file_contents img ino)) /\
    drop (Z.to_nat k) out = drop (Z.to_nat k) buf.
Proof.
  intros Hwf Hino HL Ho Hlen Hk. pose proof (file_contents_length _ _ _ HL ltac:(lia)) as Hc.
  rewrite (read_data_spec _ _ _ _ _ _ _ _ _ Hwf Hino HL Ho Hlen Hk).
  set (k := Z.min length (L - offset)) in *. eexists k, _. split; [done|]. split; [done|].
  assert (List.length (take (Z.to_nat k) (drop (Z.to_nat offset) (file_contents img ino)))
          = Z.to_nat k) as Hl by lens.
  split; [lens|]. split.
  - by rewrite take_app_length'.
  - by rewrite drop_app_length'.
Qed.

(** The read crosses from block 2 to block 0, at the end of the file. *)
Lemma read_data_correct_witness :
  exists k out, read_data demo_image 0 4094 (Some (replicate 8 9)) 8 = Some (k, out) /\
    k = Z.min 8 (4100 - 4094) /\ length out = length (replicate 8 9) /\
    take (Z.to_nat k) out = take (Z.to_nat k) (drop (Z.to_nat 4094) (file_contents demo_image 0)) /\
    drop (Z.to_nat k) out = drop (Z.to_nat k) (replicate 8 9).
Proof.
  apply (read_data_correct demo_image 4 2 3 0 4100 4094 (replicate 8 9) 8).
  - exact demo_image_wf.
  - lia.
  - vm_compute. reflexivity.
  - lia.
  - lia.
  - simpl. lia.
Defined.

Example read_data_value :
  read_data demo_image 0 4094 (Some (replicate 8 9)) 8 = Some (6, [7; 7; 101; 110; 100; 33; 9; 9]).
Proof. vm_compute. reflexivity. Qed.

(** read_dentry_by_name finds the first of the 63 entries whose name, cut at
    31 bytes, is the requested name, and returns -1 exactly when there is none;
    for names of at most 31 bytes it never leaves the image. *)
Theorem read_dentry_by_name_correct img n N D fname name :
  wf_image img n N D -> bytes fname -> until0 fname = Some name -> (length name <= 31)%nat ->
  (exists i d, 0 <= i < 63 /\ dir_name img i = name /\
     (forall j, 0 <= j < i -> dir_name img j <> name) /\
     ld_dentry img i = Some d /\ read_dentry_by_name img fname = Some (0, Some d)) \/
  ((forall j, 0 <= j < 63 -> dir_name img j <> name) /\
     read_dentry_by_name img fname = Some (-1, None)).
Proof.
  intros Hwf Hb Hn Hl. rewrite (read_dentry_by_name_spec _ _ _ _ Hwf _ _ Hb Hn Hl).
  unfold dir_lookup.
  destruct (filter (fun i => dir_name img i = name) (seqZ 0 63)) as [|i l] eqn:E; simpl.
  - right. split; [|done]. intros j Hj Hname.
    apply (filter_nil_not_elem_of (fun i => dir_name img i = name) _ j E); [done|].
    apply elem_of_seqZ. lia.
  - left. apply (filter_head_first _ 0 63) in E as (Hi & Hname & Hfirst).
    destruct (ld_dentry_Some _ _ _ _ Hwf i Hi) as [d Hd].
    exists i, d. rewrite Hd. simpl. repeat split; try done; lia.
Qed.

Lemma read_dentry_by_name_correct_witness :
  (exists i d, 0 <= i < 63 /\ dir_name demo_image i = bytes_of_string "rtc" /\
     (forall j, 0 <= j < i -> dir_name demo_image j <> bytes_of_string "rtc") /\
     ld_dentry demo_image i = Some d /\
     read_dentry_by_name demo_image (cstring "rtc") = Some (0, Some d)) \/
  ((forall j, 0 <= j < 63 -> dir_name demo_image j <> bytes_of_string "rtc") /\
     read_dentry_by_name demo_image (cstring "rtc") = Some (-1, None)).
Proof.
  apply (read_dentry_by_name_correct demo_image 4 2 3).
  - exact demo_image_wf.
  - apply cstring_bytes.
  - reflexivity.
  - simpl. lia.
Defined.

(** C35: a name of 32 bytes or more is not truncated, as a comment of the file
    says it is: the copy into the local 32-byte array runs over its end, on any
    image, so opening such a file has no defined result. *)
Theorem long_name_overflows img fname name :
  until0 fname = Some name -> (32 <= length name)%nat ->
  read_dentry_by_name img fname = None /\ open_file img fname = None.
Proof.
  intros Hn Hl. unfold open_file. by rewrite (read_dentry_by_name_overflow _ _ _ Hn Hl).
Qed.

Lemma long_name_overflows_witness :
  read_dentry_by_name demo_image (cstring "verylargetxtwithverylongname.txt") = None /\
  open_file demo_image (cstring "verylargetxtwithverylongname.txt") = None.
Proof.
  apply (long_name_overflows _ _ (bytes_of_string "verylargetxtwithverylongname.txt")).
  - reflexivity.
  - simpl. lia.
Defined.

(** reading the directory from its start delivers the names of all entries
    in order, one per call, each with its NUL in the caller's buffer; the call
    after the last one returns 0, leaves the buffer alone and starts over. *)
Theorem directory_listing img n N D names buf boot :
  wf_image img n N D -> len buf < 2147483648 ->
  Forall2 (fun j name => until0 (entry_name img j) = Some name /\
                         (length name < length buf)%nat) (seqZ 0 n) names ->
  exists s, list_directory (Z.to_nat n) buf (Fs boot img 0) = Ret names s /\
    read_directory buf s = Ret (0, buf) (Fs boot img 0).
Proof.
  intros Hwf Hb Hn. exists (Fs boot img n).
  destruct (wf_dirs _ _ _ _ Hwf) as [Hd Hnr]. split.
  - apply (list_directory_names (Fs boot img 0) n N D _ 0); [done|lia|lia|done|].
    by rewrite Z2Nat.id by lia.
  - by apply (read_directory_end (Fs boot img 0) n N D).
Qed.

Lemma directory_listing_witness :
  exists s, list_directory 4 (replicate 40 0) demo_fs
    = Ret [[46]; bytes_of_string "hello"; bytes_of_string "rtc";
           bytes_of_string "verylargetxtwithverylongname.txt" ++ [2]] s /\
    read_directory (replicate 40 0) s = Ret (0, replicate 40 0) demo_fs.
Proof.
  apply (directory_listing demo_image 4 2 3).
  - exact demo_image_wf.
  - simpl. lia.
  - repeat (constructor; [split; [vm_compute; reflexivity|simpl; lia]|]). constructor.
Defined.

(** an entry whose name fills its 32 bytes has no NUL of its own, so reading
    it also delivers the file type's bytes: a regular file (type 2) reads as 33
    characters, and a buffer of 33 bytes (the one ls passes) is overrun. *)
Theorem full_name_overruns s n N D i buf name :
  wf_image (image s) n N D -> 0 <= i < n -> currentDirIndex s = i ->
  ldbytes (image s) (dir_entry i) 32 = Some name -> Forall (fun c => c <> 0) name ->
  ldbytes (image s) (dir_entry i + 32) 2 = Some [2; 0] -> len buf < 2147483648 ->
  if bool_decide (34 <= length buf)%nat
  then exists s' out, read_directory buf s = Ret (33, out) s' /\ until0 out = Some (name ++ [2])
  else read_directory buf s = Undef.
Proof.
  intros Hwf Hi Hcur Hname Hz Hty Hb.
  apply ldbytes_drop in Hname as (Hd & Hl), Hty as (Hd2 & _); [|unfold dir_entry; lia..].
  assert (until0 (entry_name (image s) i) = Some (name ++ [2])) as Hu.
  { apply until0_spec. unfold entry_name. rewrite Hd.
    replace (Z.to_nat (dir_entry i) + 32)%nat with (Z.to_nat (dir_entry i + 32))
      by (unfold dir_entry; lia).
    rewrite Hd2. exists (drop (Z.to_nat (dir_entry i + 32) + 2) (image s)).
    rewrite <-app_assoc. split; [done|]. apply Forall_app. by repeat constructor. }
  assert (length (name ++ [2]) = 33%nat) as Hl33 by lens.
  case_bool_decide as Hbuf.
  - pose proof (read_directory_next s n N D Hwf i (name ++ [2]) buf Hi Hu
                  ltac:(lia) Hb) as E.
    replace (at_index i s) with s in E by (destruct s; by simplify_eq/=).
    rewrite Hl33 in E. eexists _, _. split; [exact E|].
    apply until0_app. apply until0_spec in Hu. naive_solver.
  - unfold read_directory, mbind, M_bind, get, lift. 
    destruct (wf_dirs _ _ _ _ Hwf) as [-> _]. rewrite bool_decide_false by lia.
    by rewrite Hcur, (strcpy_overflow _ _ _ Hu) by lia.
Qed.

Lemma full_name_overruns_witness :
  read_directory (replicate 33 0) (Fs 0 demo_image 3) = Undef.
Proof.
  apply (full_name_overruns (Fs 0 demo_image 3) 4 2 3 3 (replicate 33 0)
           (bytes_of_string "verylargetxtwithverylongname.txt")).
  - exact demo_image_wf.
  - lia.
  - reflexivity.
  - vm_compute. reflexivity.
  - repeat constructor; discriminate.
  - vm_compute. reflexivity.
  - simpl. lia.
Defined.
