(* ===== verification/Pic.v ===== *)
(** * The interrupt controllers and the timer

    [src/student-distrib/i8259.c]: i8259_init, enable_irq, disable_irq, send_eoi
    and init_PIT. The controllers are two cascaded 8259 chips behind the ports
    0x20/0x21 and 0xA0/0xA1, the timer is behind 0x40/0x43. The handlers irq0,
    irq1, irq8 and irq_handler call the other drivers and are in Interrupts.v. *)
From S2P Require Import Prelude.

Definition PIC1_COMMAND : Z := 0x20.
Definition PIC1_DATA : Z := 0x21.
Definition PIC2_COMMAND : Z := 0xA0.
Definition PIC2_DATA : Z := 0xA1.
Definition ICW1 : Z := 0x11.
Definition ICW2_MASTER : Z := 0x20.
Definition ICW2_SLAVE : Z := 0x28.
Definition ICW3_MASTER : Z := 0x04.
Definition ICW3_SLAVE : Z := 0x02.
Definition ICW4 : Z := 0x01.
Definition EOI : Z := 0x60.
Definition MAXPITFREQ : Z := 1193180.

(** The static variables of the file, and the port history. *)
Record pic := Pic {
  master_mask : Z;
  slave_mask : Z;
  pic_io : list ioev;
}.

#[export] Program Instance pic_io_lens : Lens pic (list ioev) := {|
  lget := pic_io;
  lset h s := Pic (master_mask s) (slave_mask s) h;
|}.
Solve Obligations with (by intros; try destruct s).

(** ** The code *)

Definition i8259_init : M pic unit :=
  outb ICW1 PIC1_COMMAND ;;
  outb ICW1 PIC2_COMMAND ;;
  outb ICW2_MASTER PIC1_DATA ;;
  outb ICW2_SLAVE PIC2_DATA ;;
  outb ICW3_MASTER PIC1_DATA ;;
  outb ICW3_SLAVE PIC2_DATA ;;
  outb ICW4 PIC1_DATA ;;
  outb ICW4 PIC2_DATA ;;
  modify (fun s => Pic 0xFF (slave_mask s) (pic_io s)) ;;
  modify (fun s => Pic (master_mask s) 0xFF (pic_io s)) ;;
  s ← get;
  outb (master_mask s) PIC1_DATA ;;
  outb (slave_mask s) PIC2_DATA.

(** [irq_num] is a uint32_t. The call for the slave's lines recurses once, with
    line 2: two units of fuel are enough. *)
Fixpoint enable_irq_rec `{!Device} (fuel : nat) (irq_num : Z) : M pic unit :=
  match fuel with
  | O => undef
  | S fuel' =>
      '(port, irq_num) ←
        (if bool_decide (irq_num < 8) then mret (PIC1_DATA, irq_num)
         else enable_irq_rec fuel' 2 ;; mret (PIC2_DATA, u32 (irq_num - 8)));
      v ← inb port;
      outb (u8 (Z.land v (Z.lnot (Z.shiftl 1 irq_num)))) port
  end.
Definition enable_irq `{!Device} (irq_num : Z) : M pic unit := enable_irq_rec 2 irq_num.

Definition disable_irq `{!Device} (irq_num : Z) : M pic unit :=
  let '(port, irq_num) :=
    if bool_decide (irq_num < 8) then (PIC1_DATA, irq_num)
    else (PIC2_DATA, u32 (irq_num - 8)) in
  v ← inb port;
  outb (u8 (Z.lor v (Z.shiftl 1 irq_num))) port.

Definition send_eoi (irq_num : Z) : M pic unit :=
  if bool_decide (irq_num >= 8) then
    outb (Z.lor EOI (irq_num - 8)) PIC2_COMMAND ;;
    outb (Z.lor EOI 2) PIC1_COMMAND
  else outb (Z.lor EOI irq_num) PIC1_COMMAND.

Definition init_PIT (hertz : Z) : M pic unit :=
  when (bool_decide (hertz > 0) && bool_decide (hertz <= MAXPITFREQ)) (
    let divisor := Z.quot MAXPITFREQ hertz in
    outb 0x36 0x43 ;;
    let lower := u8 (Z.land divisor 0xFF) in
    let upper := u8 (Z.land (Z.shiftr divisor 8) 0xFF) in
    outb lower 0x40 ;;
    outb upper 0x40).

(** ** The chips

    What an 8259 makes of the bytes it is sent (Intel's data sheet): a command
    byte with bit 4 set starts the initialisation, the next data bytes are then
    ICW2, ICW3 and, when bit 0 was set, ICW4; any other data byte is the
    interrupt mask. A command 011xxnnn ends the service of line nnn. *)
Record chip := Chip {
  icw_left : nat;         (** initialisation bytes the chip waits for *)
  vector : Z;             (** ICW2, the first interrupt vector *)
  imr : Z;                (** the interrupt mask *)
  in_service : list Z;    (** lines not yet acknowledged *)
}.

Definition chip_write (cmd : bool) (v : Z) (c : chip) : chip :=
  if cmd then
    if Z.testbit v 4 then Chip (if Z.testbit v 0 then 3 else 2) (vector c) 0 []
    else if Z.shiftr v 5 =? 3
    then Chip (icw_left c) (vector c) (imr c) (filter (fun l => l <> Z.land v 7) (in_service c))
    else c
  else
    match icw_left c with
    | 3%nat => Chip 2 v (imr c) (in_service c)
    | S n => Chip n (vector c) (imr c) (in_service c)
    | O => Chip 0 (vector c) v (in_service c)
    end.

(** The chip whose command port is [port], after a history (newest first), from
    the state [c] before it. *)
Definition chip_step (port : Z) (e : ioev) (c : chip) : chip :=
  match e with
  | Out p v => if p =? port then chip_write true v c
               else if p =? port + 1 then chip_write false v c else c
  | _ => c
  end.
Definition chip_after (port : Z) (c : chip) (h : list ioev) : chip :=
  foldr (chip_step port) c h.

(** The pair of chips, powered up in an unknown state. *)
Record pics := Pics { chip1 : chip; chip2 : chip }.
Definition pics_after (p : pics) (h : list ioev) : pics :=
  Pics (chip_after PIC1_COMMAND (chip1 p) h) (chip_after PIC2_COMMAND (chip2 p) h).

(** Line [n] of the pair is not masked. *)
Definition line_enabled (p : pics) (n : Z) : bool :=
  if bool_decide (n < 8) then negb (Z.testbit (imr (chip1 p)) n)
  else negb (Z.testbit (imr (chip2 p)) (n - 8)).

(** The chips take masks, and reading a data port gives the mask. *)
Definition pics_ready (p : pics) : Prop :=
  icw_left (chip1 p) = 0%nat /\ icw_left (chip2 p) = 0%nat /\
  byte (imr (chip1 p)) /\ byte (imr (chip2 p)).

Class PicDevice (p0 : pics) `{!Device} : Prop := {
  read_pic1 h : pics_ready (pics_after p0 h) ->
    device_read h PIC1_DATA = imr (chip1 (pics_after p0 h));
  read_pic2 h : pics_ready (pics_after p0 h) ->
    device_read h PIC2_DATA = imr (chip2 (pics_after p0 h));
}.

(** ** The mask bytes *)

Lemma u8_testbit x i : 0 <= i < 8 -> Z.testbit (u8 x) i = Z.testbit x i.
Proof. intros. unfold u8. change 256 with (2 ^ 8). apply Z.mod_pow2_bits_low. lia. Qed.

Lemma clear_bit_testbit v n i :
  0 <= n -> 0 <= i < 8 ->
  Z.testbit (u8 (Z.land v (Z.lnot (Z.shiftl 1 n)))) i = Z.testbit v i && negb (i =? n).
Proof.
  intros. rewrite u8_testbit, Z.land_spec, Z.lnot_spec, Z.shiftl_1_l, Z.pow2_bits_eqb by lia.
  by rewrite Z.eqb_sym.
Qed.

Lemma set_bit_testbit v n i :
  0 <= n -> 0 <= i < 8 ->
  Z.testbit (u8 (Z.lor v (Z.shiftl 1 n))) i = Z.testbit v i || (i =? n).
Proof.
  intros. rewrite u8_testbit, Z.lor_spec, Z.shiftl_1_l, Z.pow2_bits_eqb by lia.
  by rewrite Z.eqb_sym.
Qed.

(** Writing a mask to one of the ready chips. *)
Definition set_imr1 (v : Z) (p : pics) : pics :=
  Pics (Chip 0 (vector (chip1 p)) v (in_service (chip1 p))) (chip2 p).
Definition set_imr2 (v : Z) (p : pics) : pics :=
  Pics (chip1 p) (Chip 0 (vector (chip2 p)) v (in_service (chip2 p))).

Definition set_io (h : list ioev) (s : pic) : pic := Pic (master_mask s) (slave_mask s) h.

Section Masks.
Context (p0 : pics) `{HD : !Device} `{HP : !PicDevice p0}.
Implicit Types (s : pic) (h : list ioev).

Lemma pics_after_in p x v h : pics_after p (In x v :: h) = pics_after p h.
Proof. done. Qed.

Lemma pics_after_mask1 v h :
  pics_ready (pics_after p0 h) ->
  pics_after p0 (Out PIC1_DATA v :: h) = set_imr1 v (pics_after p0 h).
Proof.
  intros [Hr _]. unfold pics_after, set_imr1 in *. simpl in *. f_equal.
  unfold chip_write. by rewrite Hr.
Qed.

Lemma pics_after_mask2 v h :
  pics_ready (pics_after p0 h) ->
  pics_after p0 (Out PIC2_DATA v :: h) = set_imr2 v (pics_after p0 h).
Proof.
  intros (_ & Hr & _). unfold pics_after, set_imr2 in *. simpl in *. f_equal.
  unfold chip_write. by rewrite Hr.
Qed.

(** Read a mask, change it, write it back. *)
Lemma wp_change_mask1 (f : Z -> Z) Q s :
  let p := pics_after p0 (pic_io s) in
  pics_ready p ->
  (forall h, pics_after p0 h = set_imr1 (u8 (f (imr (chip1 p)))) p -> Q tt (set_io h s)) ->
  wp (v ← inb PIC1_DATA; outb (u8 (f v)) PIC1_DATA) Q s.
Proof.
  intros p Hr HQ. wps. cbn [lget lset pic_io_lens pic_io].
  rewrite (read_pic1 _ Hr). destruct Hr as (Hr1 & Hr2 & Hb1 & Hb2) eqn:E. clear E.
  rewrite u8_small by done. apply HQ. rewrite pics_after_mask1.
  - by rewrite pics_after_in, (u8_small (u8 _)) by apply u8_range.
  - done.
Qed.

Lemma wp_change_mask2 (f : Z -> Z) Q s :
  let p := pics_after p0 (pic_io s) in
  pics_ready p ->
  (forall h, pics_after p0 h = set_imr2 (u8 (f (imr (chip2 p)))) p -> Q tt (set_io h s)) ->
  wp (v ← inb PIC2_DATA; outb (u8 (f v)) PIC2_DATA) Q s.
Proof.
  intros p Hr HQ. wps. cbn [lget lset pic_io_lens pic_io].
  rewrite (read_pic2 _ Hr). destruct Hr as (Hr1 & Hr2 & Hb1 & Hb2) eqn:E. clear E.
  rewrite u8_small by done. apply HQ. rewrite pics_after_mask2.
  - by rewrite pics_after_in, (u8_small (u8 _)) by apply u8_range.
  - done.
Qed.

Lemma set_imr1_ready v p : pics_ready p -> pics_ready (set_imr1 (u8 v) p).
Proof. intros (? & ? & ? & ?). split_and!; try done. apply u8_range. Qed.
Lemma set_imr2_ready v p : pics_ready p -> pics_ready (set_imr2 (u8 v) p).
Proof. intros (? & ? & ? & ?). split_and!; try done. apply u8_range. Qed.

(** The abstract operation: the set of enabled lines. *)
Definition enabled_after_enable (n m : Z) (old : bool) : bool :=
  old || (m =? n) || (bool_decide (n >= 8) && (m =? 2)).

(** What the operations preserve: the chips are ready, and only masks change. *)
Definition same_but_masks (p p' : pics) : Prop :=
  pics_ready p' /\ vector (chip1 p') = vector (chip1 p) /\ vector (chip2 p') = vector (chip2 p) /\
  in_service (chip1 p') = in_service (chip1 p) /\ in_service (chip2 p') = in_service (chip2 p).

Lemma enable_irq_spec n s :
  let p := pics_after p0 (pic_io s) in
  pics_ready p -> 0 <= n < 16 ->
  exists h, enable_irq n s = Ret tt (set_io h s) /\ same_but_masks p (pics_after p0 h) /\
    forall m, 0 <= m < 16 ->
      line_enabled (pics_after p0 h) m = enabled_after_enable n m (line_enabled p m).
Proof.
  intros p Hr Hn.
  enough (wp (enable_irq n) (fun _ s' => exists h, s' = set_io h s /\
            same_but_masks p (pics_after p0 h) /\
            forall m, 0 <= m < 16 ->
              line_enabled (pics_after p0 h) m = enabled_after_enable n m (line_enabled p m)) s)
    as H by (apply wp_unit in H as (t & Ht & h & -> & ? & ?); eauto).
  unfold enable_irq. cbn [enable_irq_rec]. case_bool_decide as Hn8.
  - apply (wp_change_mask1 (fun v => Z.land v (Z.lnot (Z.shiftl 1 n)))); [done|].
    intros h Hh. exists h. rewrite Hh. split; [done|].
    split; [split; [by apply set_imr1_ready|done]|].
    intros m Hm. unfold line_enabled, enabled_after_enable. rewrite (bool_decide_false (n >= 8)) by lia.
    rewrite orb_false_r. case_bool_decide; simpl.
    + rewrite clear_bit_testbit by lia. by rewrite negb_andb, negb_involutive.
    + replace (m =? n) with false by lia. by rewrite orb_false_r.
  - rewrite bool_decide_true by lia. rewrite wp_bind, wp_bind.
    apply (wp_change_mask1 (fun v => Z.land v (Z.lnot (Z.shiftl 1 2)))); [done|].
    intros h1 Hh1. rewrite wp_ret, u32_small by lia.
    apply (wp_change_mask2 (fun v => Z.land v (Z.lnot (Z.shiftl 1 (n - 8))))).
    { simpl. rewrite Hh1. by apply set_imr1_ready. }
    cbn [set_io pic_io]. rewrite Hh1. intros h Hh. exists h. rewrite Hh. split; [done|].
    split; [split; [by apply set_imr2_ready, set_imr1_ready|done]|].
    intros m Hm. unfold line_enabled, enabled_after_enable. rewrite (bool_decide_true (n >= 8)) by lia.
    case_bool_decide; cbn [andb chip1 chip2 set_imr1 set_imr2 imr].
    + replace (m =? n) with false by lia. rewrite orb_false_r.
      rewrite clear_bit_testbit by lia. by rewrite negb_andb, negb_involutive.
    + replace (m =? 2) with false by lia. rewrite orb_false_r, clear_bit_testbit by lia.
      rewrite negb_andb, negb_involutive. f_equal. lia.
Qed.

Lemma disable_irq_spec n s :
  let p := pics_after p0 (pic_io s) in
  pics_ready p -> 0 <= n < 16 ->
  exists h, disable_irq n s = Ret tt (set_io h s) /\ same_but_masks p (pics_after p0 h) /\
    forall m, 0 <= m < 16 ->
      line_enabled (pics_after p0 h) m = line_enabled p m && negb (m =? n).
Proof.
  intros p Hr Hn.
  enough (wp (disable_irq n) (fun _ s' => exists h, s' = set_io h s /\
            same_but_masks p (pics_after p0 h) /\
            forall m, 0 <= m < 16 ->
              line_enabled (pics_after p0 h) m = line_enabled p m && negb (m =? n)) s)
    as H by (apply wp_unit in H as (t & Ht & h & -> & ? & ?); eauto).
  unfold disable_irq. case_bool_decide as Hn8.
  - apply (wp_change_mask1 (fun v => Z.lor v (Z.shiftl 1 n))); [done|].
    intros h Hh. exists h. rewrite Hh. split; [done|].
    split; [split; [by apply set_imr1_ready|done]|].
    intros m Hm. unfold line_enabled. case_bool_decide; simpl.
    + rewrite set_bit_testbit by lia. by rewrite negb_orb.
    + replace (m =? n) with false by lia. by rewrite andb_true_r.
  - rewrite u32_small by lia.
    apply (wp_change_mask2 (fun v => Z.lor v (Z.shiftl 1 (n - 8)))); [done|].
    intros h Hh. exists h. rewrite Hh. split; [done|].
    split; [split; [by apply set_imr2_ready|done]|].
    intros m Hm. unfold line_enabled. case_bool_decide; simpl.
    + replace (m =? n) with false by lia. by rewrite andb_true_r.
    + rewrite set_bit_testbit, negb_orb by lia. f_equal. f_equal. lia.
Qed.
End Masks.

(** ** Initialisation, acknowledgement, timer *)

Lemma i8259_init_spec p0 s :
  exists h, i8259_init s = Ret tt (Pic 0xFF 0xFF h) /\
    pics_after p0 h = Pics (Chip 0 0x20 0xFF []) (Chip 0 0x28 0xFF []).
Proof.
  eexists. split; [reflexivity|]. unfold pics_after. f_equal; simpl.
Qed.

Lemma send_eoi_spec p0 n s :
  0 <= n < 16 ->
  exists h, send_eoi n s = Ret tt (set_io h s) /\
    let p := pics_after p0 (pic_io s) in
    imr (chip1 (pics_after p0 h)) = imr (chip1 p) /\ imr (chip2 (pics_after p0 h)) = imr (chip2 p) /\
    in_service (chip1 (pics_after p0 h))
    = filter (fun l => l <> if bool_decide (n < 8) then n else 2) (in_service (chip1 p)) /\
    in_service (chip2 (pics_after p0 h))
    = (if bool_decide (n < 8) then in_service (chip2 p)
       else filter (fun l => l <> n - 8) (in_service (chip2 p))).
Proof.
  intros Hn. assert (n ∈ seqZ 0 16) as Hin by (apply elem_of_seqZ; lia).
  unfold send_eoi. simpl in Hin.
  repeat (apply elem_of_cons in Hin as [->|Hin]; [eexists; split; [reflexivity|]; done|]).
  by apply not_elem_of_nil in Hin.
Qed.

(** The timer's reload value after a history: mode byte 0x36 (channel 0, low byte
    then high byte, square wave) and the two bytes; a reload of 0 counts as
    65536. *)
Definition pit_reload (h : list ioev) : option Z :=
  match h with
  | Out 0x40 hi :: Out 0x40 lo :: Out 0x43 0x36 :: _ => Some (256 * hi + lo)
  | _ => None
  end.

Lemma init_PIT_spec hertz s :
  0 < hertz <= MAXPITFREQ ->
  exists h, init_PIT hertz s = Ret tt (set_io h s) /\
    pit_reload h = Some (u16 (MAXPITFREQ `div` hertz)).
Proof.
  intros Hh. unfold init_PIT. rewrite !bool_decide_true by lia. unfold MAXPITFREQ in *.
  rewrite Z.quot_div_nonneg by lia. set (d := 1193180 `div` hertz).
  assert (0 <= d) by (apply Z.div_pos; lia).
  eexists. split; [reflexivity|]. cbn [pit_reload lget lset pic_io_lens pic_io].
  change (u8 0x36) with 0x36. cbn [pit_reload]. f_equal.
  change 255 with (Z.ones 8). rewrite !Z.land_ones, Z.shiftr_div_pow2 by lia.
  unfold u8, u16. change (2 ^ 8) with 256. rewrite !Zmod_mod.
  change 65536 with (256 * 256). rewrite Z.rem_mul_r by lia. lia.
Qed.

(** ** Properties *)

(** A computer whose chips answer with their masks, for the examples. *)
Definition demo_pics : pics := Pics (Chip 0 0 0 [1]) (Chip 0 0 0 []).
#[local] Instance demo_device : Device := fun h port =>
  if port =? PIC1_DATA then imr (chip1 (pics_after demo_pics h))
  else if port =? PIC2_DATA then imr (chip2 (pics_after demo_pics h)) else 0.
#[local] Instance demo_pic_device : PicDevice demo_pics.
Proof. by split. Qed.

(** What the drivers ask for: enabling and disabling single lines. *)
Inductive pic_op := Enable (n : Z) | Disable (n : Z).

Definition run_op `{!Device} (op : pic_op) : M pic unit :=
  match op with Enable n => enable_irq n | Disable n => disable_irq n end.
Fixpoint run_ops `{!Device} (ops : list pic_op) : M pic unit :=
  match ops with [] => mret tt | op :: ops' => run_op op ;; run_ops ops' end.

(** The specification: a set of lines, as its characteristic function. Enabling a
    line of the slave also enables the cascade line 2. *)
Definition spec_op (op : pic_op) (enabled : Z -> bool) (m : Z) : bool :=
  match op with
  | Enable n => enabled_after_enable n m (enabled m)
  | Disable n => enabled m && negb (m =? n)
  end.
Definition valid_op (op : pic_op) : Prop :=
  match op with Enable n | Disable n => 0 <= n < 16 end.

Lemma run_op_refines p0 `{!Device} `{!PicDevice p0} op s :
  pics_ready (pics_after p0 (pic_io s)) -> valid_op op ->
  exists h, run_op op s = Ret tt (set_io h s) /\
    same_but_masks (pics_after p0 (pic_io s)) (pics_after p0 h) /\
    forall m, 0 <= m < 16 ->
      line_enabled (pics_after p0 h) m
      = spec_op op (line_enabled (pics_after p0 (pic_io s))) m.
Proof. intros Hr Hv. destruct op; [by apply enable_irq_spec|by apply disable_irq_spec]. Qed.

Lemma run_ops_refines p0 `{!Device} `{!PicDevice p0} ops s (enabled : Z -> bool) :
  pics_ready (pics_after p0 (pic_io s)) -> Forall valid_op ops ->
  (forall m, 0 <= m < 16 -> line_enabled (pics_after p0 (pic_io s)) m = enabled m) ->
  exists h, run_ops ops s = Ret tt (set_io h s) /\
    same_but_masks (pics_after p0 (pic_io s)) (pics_after p0 h) /\
    forall m, 0 <= m < 16 ->
      line_enabled (pics_after p0 h) m = foldl (fun e op => spec_op op e) enabled ops m.
Proof.
  revert s enabled. induction ops as [|op ops IH]; intros s enabled Hr Hv He.
  - exists (pic_io s). split; [by destruct s|]. done.
  - apply Forall_cons in Hv as [Hv Hvs].
    destruct (run_op_refines p0 op s Hr Hv) as (h1 & Hrun & Hsame1 & He1).
    destruct (IH (set_io h1 s) (spec_op op enabled)) as (h & Hruns & Hsame & Henb); [by apply Hsame1|done|..].
    { intros m Hm. cbn [set_io pic_io]. rewrite He1 by done. unfold spec_op, enabled_after_enable.
      destruct op; by rewrite He by done. }
    exists h. split; [|split; [|done]].
    + simpl. by rewrite (bind_Ret _ _ _ _ _ Hrun).
    + destruct Hsame as (? & ? & ? & ? & ?), Hsame1 as (? & ? & ? & ? & ?).
      split_and!; [done|..]; by etrans.
Qed.

(** C27: the two mask bytes implement a set of interrupt lines: after i8259_init,
    from any power-on state of the chips, the vectors are 0x20 and 0x28 and no
    line is enabled, and every sequence of enable_irq and disable_irq calls then
    enables exactly the lines the set specification says, without disturbing the
    vectors or the master's lines in service. *)
Theorem pic_refines_line_set p0 `{!Device} `{!PicDevice p0} ops s :
  Forall valid_op ops ->
  exists h, (i8259_init ;; run_ops ops) s = Ret tt (Pic 0xFF 0xFF h) /\
    vector (chip1 (pics_after p0 h)) = 0x20 /\ vector (chip2 (pics_after p0 h)) = 0x28 /\
    in_service (chip1 (pics_after p0 h)) = [] /\
    forall m, 0 <= m < 16 ->
      line_enabled (pics_after p0 h) m = foldl (fun e op => spec_op op e) (fun _ => false) ops m.
Proof.
  intros Hv. destruct (i8259_init_spec p0 s) as (h0 & Hinit & Hp).
  destruct (run_ops_refines p0 ops (Pic 0xFF 0xFF h0) (fun _ => false))
    as (h & Hrun & Hsame & He); [..|].
  - simpl. rewrite Hp. split_and!; done.
  - done.
  - intros m Hm. simpl. rewrite Hp.
    assert (m ∈ seqZ 0 16) as Hin by (apply elem_of_seqZ; lia). simpl in Hin.
    repeat (apply elem_of_cons in Hin as [->|Hin]; [done|]). by apply not_elem_of_nil in Hin.
  - exists h. rewrite (bind_Ret _ _ _ _ _ Hinit), Hrun. destruct Hsame as (_ & H1 & H2 & H3 & _).
    cbn [pic_io] in H1, H2, H3. rewrite Hp in H1, H2, H3. done.
Qed.

Lemma pic_refines_line_set_witness :
  exists h, (i8259_init ;; run_ops [Enable 1; Enable 8; Disable 2; Enable 0]) (Pic 0 0 [])
            = Ret tt (Pic 0xFF 0xFF h) /\
    vector (chip1 (pics_after demo_pics h)) = 0x20 /\
    vector (chip2 (pics_after demo_pics h)) = 0x28 /\
    in_service (chip1 (pics_after demo_pics h)) = [] /\
    forall m, 0 <= m < 16 ->
      line_enabled (pics_after demo_pics h) m
      = foldl (fun e op => spec_op op e) (fun _ => false) [Enable 1; Enable 8; Disable 2; Enable 0] m.
Proof.
  apply (pic_refines_line_set demo_pics [Enable 1; Enable 8; Disable 2; Enable 0] (Pic 0 0 [])).
  repeat (constructor; [simpl; lia|]). constructor.
Defined.

(** send_eoi acknowledges exactly the line that interrupted: its chip takes it
    out of service, for a line of the slave the master's cascade line 2 as well,
    and no mask changes. *)
Theorem send_eoi_acknowledges p0 n s :
  0 <= n < 16 ->
  exists h, send_eoi n s = Ret tt (set_io h s) /\
    let p := pics_after p0 (pic_io s) in
    let p' := pics_after p0 h in
    imr (chip1 p') = imr (chip1 p) /\ imr (chip2 p') = imr (chip2 p) /\
    (forall l, l ∈ in_service (chip1 p') <->
       l ∈ in_service (chip1 p) /\ l <> (if bool_decide (n < 8) then n else 2)) /\
    (forall l, l ∈ in_service (chip2 p') <->
       l ∈ in_service (chip2 p) /\ (8 <= n -> l <> n - 8)).
Proof.
  intros Hn. destruct (send_eoi_spec p0 n s Hn) as (h & Hr & H1 & H2 & H3 & H4).
  exists h. split; [done|]. cbv zeta. split; [done|]. split; [done|]. rewrite H3, H4. split.
  - intros l. rewrite list_elem_of_filter. tauto.
  - intros l. case_bool_decide; [|rewrite list_elem_of_filter]; intuition lia.
Qed.

Lemma send_eoi_acknowledges_witness :
  exists h, send_eoi 8 (Pic 0 0 []) = Ret tt (set_io h (Pic 0 0 [])) /\
    let p := pics_after (Pics (Chip 0 32 0 [1; 2]) (Chip 0 40 0 [0])) [] in
    let p' := pics_after (Pics (Chip 0 32 0 [1; 2]) (Chip 0 40 0 [0])) h in
    imr (chip1 p') = imr (chip1 p) /\ imr (chip2 p') = imr (chip2 p) /\
    (forall l, l ∈ in_service (chip1 p') <->
       l ∈ in_service (chip1 p) /\ l <> (if bool_decide (8 < 8) then 8 else 2)) /\
    (forall l, l ∈ in_service (chip2 p') <->
       l ∈ in_service (chip2 p) /\ (8 <= 8 -> l <> 8 - 8)).
Proof.
  apply (send_eoi_acknowledges (Pics (Chip 0 32 0 [1; 2]) (Chip 0 40 0 [0])) 8 (Pic 0 0 [])). lia.
Defined.

(** C36: init_PIT programs the divisor it computed, 1193180 / hertz, exactly for
    19 Hz and above; from 1 to 18 Hz, which its description allows, the divisor
    does not fit in 16 bits and a different one is programmed; any other value
    touches no port. *)
Theorem init_PIT_divisor hertz s :
  (19 <= hertz <= MAXPITFREQ ->
     exists h, init_PIT hertz s = Ret tt (set_io h s) /\
       pit_reload h = Some (MAXPITFREQ `div` hertz) /\ 0 < MAXPITFREQ `div` hertz) /\
  (1 <= hertz <= 18 ->
     exists h r, init_PIT hertz s = Ret tt (set_io h s) /\
       pit_reload h = Some r /\ r <> MAXPITFREQ `div` hertz) /\
  (hertz <= 0 \/ MAXPITFREQ < hertz -> init_PIT hertz s = Ret tt s).
Proof.
  unfold MAXPITFREQ. split_and!.
  - intros Hh. destruct (init_PIT_spec hertz s) as (h & Hr & Hd); [unfold MAXPITFREQ; lia|].
    exists h. split; [done|]. rewrite Hd.
    assert (0 < MAXPITFREQ `div` hertz < 65536) as Hlt.
    { unfold MAXPITFREQ. split; [apply Z.div_str_pos; lia|apply Z.div_lt_upper_bound; lia]. }
    rewrite u16_small by lia. split; [done|apply Hlt].
  - intros Hh. destruct (init_PIT_spec hertz s) as (h & Hr & Hd); [unfold MAXPITFREQ; lia|].
    exists h, (u16 (MAXPITFREQ `div` hertz)). split; [done|]. split; [done|].
    pose proof (u16_range (MAXPITFREQ `div` hertz)).
    assert (65536 <= 1193180 `div` hertz) by (apply Z.div_le_lower_bound; lia).
    unfold MAXPITFREQ in *. lia.
  - intros Hh. unfold init_PIT.
    replace (bool_decide (hertz > 0) && bool_decide (hertz <= MAXPITFREQ)) with false; [done|].
    unfold MAXPITFREQ. symmetry. repeat case_bool_decide; try done; lia.
Qed.
