(* ===== verification/Rtc.v ===== *)
(** * The real-time clock

    [src/student-distrib/rtc.c]: rtc_open, rtc_close, rtc_read, rtc_write,
    rtc_interrupt. The clock's registers are behind the ports 0x70 (select) and
    0x71 (data). *)
From S2P Require Import Prelude.

Definition RTC_ADDR : Z := 0x70.
Definition CMOS_ADDR : Z := 0x71.
Definition SEL_REGA : Z := 0x8A.
Definition SEL_REGB : Z := 0x8B.
Definition SEL_REGC : Z := 0x8C.
Definition MASK_L4 : Z := 0xF0.
Definition BIT7 : Z := 0x40.

Record rtc := Rtc {
  rtc_interrupt_flag : Z;
  rtc_io : list ioev;
}.

#[export] Program Instance rtc_io_lens : Lens rtc (list ioev) := {|
  lget := rtc_io;
  lset h s := Rtc (rtc_interrupt_flag s) h;
|}.
Solve Obligations with (by intros; try destruct s).

Definition set_flag (v : Z) : M rtc unit := modify (fun s => Rtc v (rtc_io s)).

(** ** The code *)

(** [for(mask = 1; mask != 0; mask = mask << 1) { divd--; if(mask == freq) break; }]
    on uint32_t: the mask is 0 after 32 shifts, 33 tests are enough. *)
Fixpoint rtc_scan (fuel : nat) (mask divd freq : Z) : option (Z * Z) :=
  match fuel with
  | O => None
  | S fuel' =>
      if bool_decide (mask = 0) then Some (mask, divd)
      else
        let divd' := u32 (divd - 1) in
        if bool_decide (mask = u32 freq) then Some (mask, divd')
        else rtc_scan fuel' (u32 (Z.shiftl mask 1)) divd' freq
  end.

Section Code.
Context `{!Device}.

(** [prev] is a char: signed. *)
Definition rtc_write (freq : Z) : M rtc Z :=
  if bool_decide (freq > 1024) || bool_decide (freq <= 0) then mret (-1)
  else
    '(mask, divd) ← lift (rtc_scan 33 1 16 freq);
    if bool_decide (mask <> u32 freq) then mret (-1)
    else
      cli ;;
      outb SEL_REGA RTC_ADDR ;;
      prev ← inb CMOS_ADDR;
      outb SEL_REGA RTC_ADDR ;;
      outb (Z.lor (s8 (Z.land (s8 prev) MASK_L4)) (u32 (divd - 1))) CMOS_ADDR ;;
      outb SEL_REGB RTC_ADDR ;;
      prev ← inb CMOS_ADDR;
      outb SEL_REGB RTC_ADDR ;;
      outb (Z.lor (s8 prev) BIT7) CMOS_ADDR ;;
      sti ;;
      mret 0.

Definition rtc_open : M rtc Z := rtc_write 2.
Definition rtc_close (fd : Z) : Z := 0.

Definition rtc_interrupt : M rtc unit :=
  outb SEL_REGC RTC_ADDR ;;
  _ ← inb CMOS_ADDR;
  set_flag 1.

(** The loop's condition. *)
Definition flagged {S} `{!Lens S rtc} (s : S) : bool :=
  bool_decide (rtc_interrupt_flag (lget s) <> 0).

(** The busy wait on the flag, on the state [S] of the whole kernel: [env] are the
    interrupts that arrive while it runs. The result is the return value and the
    interrupts that are left, [None] when the caller is still waiting. *)
Definition rtc_read {S} `{!Lens S rtc} (env : list (M S unit)) :
    M S (option (Z * list (M S unit))) :=
  r ← spin flagged env;
  match r with
  | None => mret None
  | Some env' => zoom (set_flag 0) ;; mret (Some (0, env'))
  end.
End Code.

(** ** The clock's registers

    The MC146818 keeps registers A (low four bits: the rate) and B (bit 6: the
    periodic interrupt); the select port's bit 7 is not part of the index. *)
Record cmos := Cmos { selected : Z; reg_a : Z; reg_b : Z }.

Definition cmos_step (e : ioev) (c : cmos) : cmos :=
  match e with
  | Out p v =>
      if p =? RTC_ADDR then Cmos (Z.land v 0x7F) (reg_a c) (reg_b c)
      else if p =? CMOS_ADDR then
        if selected c =? 0x0A then Cmos (selected c) (u8 v) (reg_b c)
        else if selected c =? 0x0B then Cmos (selected c) (reg_a c) (u8 v)
        else c
      else c
  | _ => c
  end.
Definition cmos_after (c : cmos) (h : list ioev) : cmos := foldr cmos_step c h.

(** The interrupt frequency of a rate: 32768 Hz, halved rate - 1 times. *)
Definition rate_hz (a : Z) : Z := Z.shiftr 32768 (Z.land a 15 - 1).

Class RtcDevice (c0 : cmos) `{!Device} : Prop := {
  read_reg_a h : selected (cmos_after c0 h) = 0x0A ->
    device_read h CMOS_ADDR = reg_a (cmos_after c0 h);
  read_reg_b h : selected (cmos_after c0 h) = 0x0B ->
    device_read h CMOS_ADDR = reg_b (cmos_after c0 h);
  initial_regs : byte (reg_a c0) /\ byte (reg_b c0);
}.

(** ** Lemmas *)

Lemma rtc_scan_finds (k : nat) freq :
  (k <= 10)%nat -> freq = 2 ^ Z.of_nat k ->
  rtc_scan 33 1 16 freq = Some (freq, 15 - Z.of_nat k).
Proof.
  intros Hk ->. do 11 (destruct k as [|k]; [vm_compute; reflexivity|]). lia.
Qed.

(** Every frequency that is not a power of two runs the mask out to 0. *)
Lemma rtc_scan_fails fuel (j : nat) divd freq :
  (j <= 32)%nat -> (33 <= fuel + j)%nat -> 0 < freq < 4294967296 ->
  (forall i : nat, (j <= i < 32)%nat -> freq <> 2 ^ Z.of_nat i) ->
  exists d, rtc_scan fuel (u32 (2 ^ Z.of_nat j)) divd freq = Some (0, d).
Proof.
  revert j divd. induction fuel as [|fuel IH]; intros j divd Hj Hf Hfr Hi; [lia|].
  cbn [rtc_scan]. destruct (decide (j = 32%nat)) as [->|].
  - rewrite bool_decide_true by done. eauto.
  - assert (2 ^ Z.of_nat j <= 2 ^ 31) as Hp by (apply Z.pow_le_mono_r; lia).
    assert (0 < 2 ^ Z.of_nat j) by (apply Z.pow_pos_nonneg; lia).
    rewrite !u32_small by lia. rewrite bool_decide_false by lia.
    rewrite bool_decide_false by (intros E; by apply (Hi j); [lia|]).
    rewrite Z.shiftl_mul_pow2, Z.pow_1_r, Z.mul_comm, <-Z.pow_succ_r by lia.
    rewrite <-Nat2Z.inj_succ. apply IH; [lia..|done|]. intros i ?. apply Hi. lia.
Qed.

Section Spec.
Context (c0 : cmos) `{HD : !Device} `{HR : !RtcDevice c0}.

(** The history up to the read of register B, then to the end, newest first: [a]
    and [b] are the register values it reads, [d] is the rate. *)
Definition after_reg_a (a d : Z) (h : list ioev) : list ioev :=
  [Out RTC_ADDR (u8 SEL_REGB); Out CMOS_ADDR (u8 (Z.lor (s8 (Z.land (s8 a) MASK_L4)) d));
   Out RTC_ADDR (u8 SEL_REGA); In CMOS_ADDR a; Out RTC_ADDR (u8 SEL_REGA); Cli] ++ h.
Definition after_reg_b (b : Z) (h : list ioev) : list ioev :=
  [Sti; Out CMOS_ADDR (u8 (Z.lor (s8 b) BIT7)); Out RTC_ADDR (u8 SEL_REGB); In CMOS_ADDR b] ++ h.

Lemma rtc_write_run (k : nat) s :
  (k <= 10)%nat ->
  let a := u8 (device_read (Out RTC_ADDR (u8 SEL_REGA) :: Cli :: rtc_io s) CMOS_ADDR) in
  let ha := after_reg_a a (14 - Z.of_nat k) (rtc_io s) in
  let b := u8 (device_read ha CMOS_ADDR) in
  rtc_write (2 ^ Z.of_nat k) s = Ret 0 (Rtc (rtc_interrupt_flag s) (after_reg_b b ha)).
Proof.
  intros Hk. unfold rtc_write.
  assert (1 <= 2 ^ Z.of_nat k <= 2 ^ 10) as Hp.
  { split; [pose proof (Z.pow_pos_nonneg 2 (Z.of_nat k)); lia|apply Z.pow_le_mono_r; lia]. }
  rewrite !bool_decide_false by lia. cbn [orb].
  rewrite (rtc_scan_finds k) by done. unfold mbind at 1, M_bind at 1, lift.
  rewrite u32_small by lia. rewrite bool_decide_false by auto.
  rewrite u32_small by lia. replace (15 - Z.of_nat k - 1) with (14 - Z.of_nat k) by lia.
  reflexivity.
Qed.

(** The rate and the other bits of register A. *)
Lemma new_reg_a a d :
  byte a -> 0 <= d < 16 ->
  Z.land (u8 (Z.lor (s8 (Z.land (s8 a) 0xF0)) d)) 15 = d /\
  Z.land (u8 (Z.lor (s8 (Z.land (s8 a) 0xF0)) d)) 0xF0 = Z.land a 0xF0.
Proof.
  intros Ha Hd. unfold byte in Ha.
  assert (Forall (fun a => Forall (fun d =>
            Z.land (u8 (Z.lor (s8 (Z.land (s8 a) 0xF0)) d)) 15 = d /\
            Z.land (u8 (Z.lor (s8 (Z.land (s8 a) 0xF0)) d)) 0xF0 = Z.land a 0xF0) (seqZ 0 16)) (seqZ 0 256)) as H.
  { apply (bool_decide_unpack _). vm_compute. exact I. }
  rewrite Forall_forall in H. specialize (H a). rewrite Forall_forall in H.
  apply H; apply elem_of_seqZ; lia.
Qed.

Lemma new_reg_b b : byte b -> u8 (Z.lor (s8 b) 0x40) = Z.lor b 0x40.
Proof.
  intros Hb. unfold byte in Hb.
  assert (Forall (fun b => u8 (Z.lor (s8 b) 0x40) = Z.lor b 0x40) (seqZ 0 256)) as H.
  { apply (bool_decide_unpack _). vm_compute. exact I. }
  rewrite Forall_forall in H. apply H, elem_of_seqZ. lia.
Qed.
End Spec.

(** ** Properties *)

(** A clock that answers with its registers, for the examples. *)
Definition demo_cmos : cmos := Cmos 0 0x26 0x02.
#[local] Instance demo_device : Device := fun h port =>
  let c := cmos_after demo_cmos h in
  if selected c =? 0x0A then reg_a c else if selected c =? 0x0B then reg_b c else 0.
#[local] Instance demo_rtc_device : RtcDevice demo_cmos.
Proof.
  split.
  - intros h Hs. unfold device_read, demo_device. by rewrite Hs.
  - intros h Hs. unfold device_read, demo_device. by rewrite Hs.
  - unfold byte. simpl. lia.
Qed.

Section Write.
Context (c0 : cmos) `{HD : !Device} `{HR : !RtcDevice c0}.

Lemma regs_bytes h : byte (reg_a (cmos_after c0 h)) /\ byte (reg_b (cmos_after c0 h)).
Proof.
  induction h as [|e h [IHa IHb]]; [apply initial_regs|]. cbn [cmos_after foldr].
  fold (cmos_after c0 h). unfold cmos_step. destruct e; try done.
  repeat case_match; simpl; split; try done; apply u8_range.
Qed.

Lemma rtc_write_power (k : nat) s :
  (k <= 10)%nat ->
  exists h, rtc_write (2 ^ Z.of_nat k) s
            = Ret 0 (Rtc (rtc_interrupt_flag s) (Sti :: h ++ Cli :: rtc_io s)) /\
    let c := cmos_after c0 (rtc_io s) in
    let c' := cmos_after c0 (Sti :: h ++ Cli :: rtc_io s) in
    rate_hz (reg_a c') = 4 * 2 ^ Z.of_nat k /\
    Z.land (reg_a c') 0xF0 = Z.land (reg_a c) 0xF0 /\ reg_b c' = Z.lor (reg_b c) 0x40.
Proof.
  intros Hk. rewrite (rtc_write_run k) by done. destruct (regs_bytes (rtc_io s)) as [Ha Hb].
  rewrite (read_reg_a (c0 := c0) (Out RTC_ADDR _ :: _)) by done.
  change (cmos_after c0 (Out RTC_ADDR _ :: Cli :: rtc_io s))
    with (Cmos 0x0A (reg_a (cmos_after c0 (rtc_io s))) (reg_b (cmos_after c0 (rtc_io s)))).
  cbn [reg_a]. rewrite (u8_small (reg_a _)) by done.
  set (a := reg_a (cmos_after c0 (rtc_io s))) in *.
  set (b := reg_b (cmos_after c0 (rtc_io s))) in *.
  rewrite read_reg_b by done.
  change (reg_b (cmos_after c0 (after_reg_a a _ (rtc_io s)))) with b.
  rewrite (u8_small b) by done.
  exists [Out CMOS_ADDR (u8 (Z.lor (s8 b) BIT7)); Out RTC_ADDR (u8 SEL_REGB); In CMOS_ADDR b;
     Out RTC_ADDR (u8 SEL_REGB);
     Out CMOS_ADDR (u8 (Z.lor (s8 (Z.land (s8 a) MASK_L4)) (14 - Z.of_nat k)));
     Out RTC_ADDR (u8 SEL_REGA); In CMOS_ADDR a; Out RTC_ADDR (u8 SEL_REGA)].
  split; [done|]. cbv zeta.
  change (reg_a (cmos_after c0 (Sti :: _ ++ _)))
    with (u8 (u8 (Z.lor (s8 (Z.land (s8 a) MASK_L4)) (14 - Z.of_nat k)))).
  change (reg_b (cmos_after c0 (Sti :: _ ++ _))) with (u8 (u8 (Z.lor (s8 b) BIT7))).
  rewrite !(u8_small (u8 _)) by apply u8_range. unfold rate_hz.
  change MASK_L4 with 0xF0. change BIT7 with 0x40.
  destruct (new_reg_a a (14 - Z.of_nat k)) as [E1 E2]; [done|lia|].
  rewrite E1, E2. split_and!; [|done|by apply new_reg_b].
  clear - Hk. do 11 (destruct k as [|k]; [done|]). lia.
Qed.

Lemma rtc_write_rejects freq s :
  -2147483648 <= freq < 2147483648 ->
  (forall k : nat, (k <= 10)%nat -> freq <> 2 ^ Z.of_nat k) ->
  rtc_write freq s = Ret (-1) s.
Proof.
  intros Hf Hne. unfold rtc_write.
  destruct (decide (1 <= freq <= 1024)).
  - rewrite !bool_decide_false by lia. cbn [orb].
    destruct (rtc_scan_fails 33 0 16 freq) as [d Hd]; [lia..| |].
    { intros i Hi. destruct (decide (i <= 10)%nat); [by apply Hne|].
      assert (2 ^ 11 <= 2 ^ Z.of_nat i) by (apply Z.pow_le_mono_r; lia). lia. }
    change (u32 (2 ^ Z.of_nat 0)) with 1 in Hd. rewrite Hd.
    unfold mbind at 1, M_bind at 1, lift. rewrite u32_small by lia.
    by rewrite bool_decide_true by lia.
  - replace (bool_decide (freq > 1024) || bool_decide (freq <= 0)) with true; [done|].
    symmetry. repeat case_bool_decide; try done; lia.
Qed.
End Write.

(** rtc_write accepts exactly the powers of two from 1 to 1024: for 2^k it
    returns 0, with the periodic interrupt switched on, the upper half of register
    A and the other bits of register B kept, interrupts masked before the register
    accesses and enabled after them; the rate it programs interrupts FOUR times
    as often as the frequency that was asked for. Every other argument returns -1
    and touches no port. *)
Theorem rtc_write_rate c0 `{!Device} `{!RtcDevice c0} freq s :
  -2147483648 <= freq < 2147483648 ->
  (exists k : nat, (k <= 10)%nat /\ freq = 2 ^ Z.of_nat k /\
    exists h, rtc_write freq s = Ret 0 (Rtc (rtc_interrupt_flag s) (Sti :: h ++ Cli :: rtc_io s)) /\
      let c := cmos_after c0 (rtc_io s) in
      let c' := cmos_after c0 (Sti :: h ++ Cli :: rtc_io s) in
      rate_hz (reg_a c') = 4 * freq /\ Z.land (reg_a c') 0xF0 = Z.land (reg_a c) 0xF0 /\
      reg_b c' = Z.lor (reg_b c) 0x40) \/
  ((forall k : nat, (k <= 10)%nat -> freq <> 2 ^ Z.of_nat k) /\ rtc_write freq s = Ret (-1) s).
Proof.
  intros Hf. destruct (decide (Exists (fun k => freq = 2 ^ Z.of_nat k) (seq 0 11))) as [Hk|Hk].
  - left. apply Exists_exists in Hk as (k & Hk%elem_of_seq & ->). exists k.
    split; [lia|]. split; [done|]. by apply rtc_write_power; [done|lia].
  - right. assert (forall k : nat, (k <= 10)%nat -> freq <> 2 ^ Z.of_nat k) as Hne.
    { intros k Hkr ->. apply Hk, Exists_exists. exists k. split; [apply elem_of_seq; lia|done]. }
    split; [done|]. by apply rtc_write_rejects.
Qed.

Lemma rtc_write_rate_witness :
  (exists k : nat, (k <= 10)%nat /\ 1024 = 2 ^ Z.of_nat k /\
    exists h, rtc_write 1024 (Rtc 0 []) = Ret 0 (Rtc 0 (Sti :: h ++ [Cli])) /\
      let c := demo_cmos in
      let c' := cmos_after demo_cmos (Sti :: h ++ [Cli]) in
      rate_hz (reg_a c') = 4 * 1024 /\ Z.land (reg_a c') 0xF0 = Z.land (reg_a c) 0xF0 /\
      reg_b c' = Z.lor (reg_b c) 0x40) \/
  ((forall k : nat, (k <= 10)%nat -> 1024 <> 2 ^ Z.of_nat k) /\
   rtc_write 1024 (Rtc 0 []) = Ret (-1) (Rtc 0 [])).
Proof. apply (rtc_write_rate demo_cmos 1024 (Rtc 0 [])). lia. Defined.

(** An interrupt handler that leaves the clock's flag alone. *)
Definition keeps_flag {S} `{!Lens S rtc} (e : M S unit) : Prop :=
  forall s, exists s', e s = Ret tt s' /\ rtc_interrupt_flag (lget s') = rtc_interrupt_flag (lget s).

Section Read.
Context {S : Type} `{HL : !Lens S rtc} `{HD : !Device}.
Implicit Types (s : S) (env : list (M S unit)).

(** The other interrupts run, in order, and the loop is where it was. *)
Lemma spin_quiet others s :
  Forall keeps_flag others -> rtc_interrupt_flag (lget s) = 0 ->
  exists s0, spin flagged others s = Ret None s0 /\ rtc_interrupt_flag (lget s0) = 0 /\
    forall env, spin flagged (others ++ env) s = spin flagged env s0.
Proof.
  intros Ho. revert s. induction Ho as [|e others He _ IH]; intros s Hf.
  - exists s. simpl. unfold mbind, M_bind, get, flagged.
    by rewrite bool_decide_false by congruence.
  - destruct (He s) as (s1 & Hs1 & Hf1). destruct (IH s1) as (s0 & H1 & H2 & H3); [congruence|].
    exists s0. simpl. unfold mbind, M_bind, get, flagged in *.
    rewrite bool_decide_false by congruence. by rewrite Hs1.
Qed.

Lemma spin_tick env s :
  rtc_interrupt_flag (lget s) = 0 ->
  exists s', spin flagged (zoom rtc_interrupt :: env) s = Ret (Some env) s'.
Proof.
  intros Hf. eexists. simpl. unfold mbind at 1, M_bind at 1, get, flagged.
  rewrite bool_decide_false by congruence. unfold mbind at 1, M_bind at 1, zoom at 1.
  unfold rtc_interrupt, outb, emit, inb, set_flag, mbind, M_bind, modify, get, mret, M_ret.
  cbn [lget]. destruct env; simpl; unfold mbind, M_bind, get;
    (rewrite bool_decide_true by by rewrite lget_lset); done.
Qed.
End Read.

(** rtc_read waits for the next clock interrupt and no longer: when no
    interrupt is pending, it returns 0 behind the first rtc_interrupt, whatever
    other interrupts come before it, with the flag reset for the next call, and is
    still waiting when no clock interrupt comes. But the flag is not reset when the
    wait starts: a clock interrupt since the last call makes it return at once. *)
Theorem rtc_read_waits {S} `{!Device} `{!Lens S rtc} (others env : list (M S unit)) s :
  Forall keeps_flag others ->
  (rtc_interrupt_flag (lget s) <> 0 ->
     rtc_read env s = Ret (Some (0, env)) (lset (Rtc 0 (rtc_io (lget s))) s)) /\
  (rtc_interrupt_flag (lget s) = 0 ->
     exists s',
       (exists s0, rtc_read others s = Ret None s0) /\
       rtc_read (others ++ zoom rtc_interrupt :: env) s = Ret (Some (0, env)) s' /\
       rtc_interrupt_flag (lget s') = 0).
Proof.
  intros Ho. split.
  - intros Hf. assert (flagged s = true) as E by (unfold flagged; by apply bool_decide_true).
    unfold rtc_read, mbind, M_bind. destruct env; simpl;
      unfold mbind, M_bind, get; by rewrite E.
  - intros Hf. unfold rtc_read.
    destruct (spin_quiet others s Ho Hf) as (s0 & Hs0 & Hf0 & Hspin).
    destruct (spin_tick env s0 Hf0) as (s1 & Htick).
    eexists. split_and!.
    + exists s0. unfold mbind, M_bind. by rewrite Hs0.
    + unfold mbind at 1, M_bind at 1. rewrite Hspin, Htick. done.
    + by rewrite lget_lset.
Qed.

#[local] Program Instance rtc_id_lens : Lens rtc rtc := {| lget s := s; lset t s := t |}.
Solve Obligations with done.

Lemma rtc_read_waits_witness :
  (rtc_interrupt_flag (Rtc 0 []) <> 0 ->
     rtc_read [zoom rtc_interrupt] (Rtc 0 [])
     = Ret (Some (0, [zoom rtc_interrupt])) (Rtc 0 (rtc_io (Rtc 0 [])))) /\
  (rtc_interrupt_flag (Rtc 0 []) = 0 ->
     exists s' : rtc,
       (exists s0 : rtc, rtc_read [outb 0x61 0x20] (Rtc 0 []) = Ret None s0) /\
       rtc_read ([outb 0x61 0x20] ++ zoom rtc_interrupt :: [zoom rtc_interrupt]) (Rtc 0 [])
       = Ret (Some (0, [zoom rtc_interrupt])) s' /\
       rtc_interrupt_flag s' = 0).
Proof.
  apply (@rtc_read_waits rtc demo_device rtc_id_lens [outb 0x61 0x20] [zoom rtc_interrupt] (Rtc 0 [])).
  repeat (constructor; [intros s; eexists; split; reflexivity|]). constructor.
Defined.
