(* ===== verification/MemOps.v ===== *)
(** * The memory routines

    [src/student-distrib/lib.c]: memset, memset_word, memset_dword, memcpy and
    memmove, which are inline assembly over the flat 32-bit address space: bytes up
    to an aligned destination, then the string instructions on whole words, then
    the remaining bytes. Memory is a function from addresses to bytes. *)
From S2P Require Import Prelude.

(** ** The machine *)

Definition mem : Type := Z -> Z.

(** Two memories are the same when they hold the same bytes. *)
#[export] Instance mem_equiv : Equiv mem := fun m1 m2 => forall a, m1 a = m2 a.
#[export] Instance mem_equivalence : Equivalence (≡@{mem}).
Proof.
  split.
  - intros m a. done.
  - intros m1 m2 H a. by rewrite H.
  - intros m1 m2 m3 H1 H2 a. by rewrite H1, H2.
Qed.

Definition write8 (m : mem) (a v : Z) : mem := fun x => if bool_decide (x = u32 a) then u8 v else m x.
Definition write16 (m : mem) (a v : Z) : mem :=
  write8 (write8 m a v) (a + 1) (Z.shiftr v 8).
Definition write32 (m : mem) (a v : Z) : mem :=
  write16 (write16 m a v) (a + 2) (Z.shiftr v 16).
Definition read8 (m : mem) (a : Z) : Z := m (u32 a).
Definition read32 (m : mem) (a : Z) : Z :=
  read8 m a + 256 * read8 m (a + 1) + 65536 * read8 m (a + 2) + 16777216 * read8 m (a + 3).

#[export] Instance write8_proper : Proper ((≡) ==> eq ==> eq ==> (≡)) write8.
Proof. intros m1 m2 H a ? <- v ? <- x. unfold write8. by case_bool_decide. Qed.

(** The registers the routines use. *)
Record cpu := Cpu {
  eax : Z; ecx : Z; edx : Z; esi : Z; edi : Z;
  df : bool;              (** the direction flag *)
  memory : mem;
}.

Definition set_df (b : bool) (s : cpu) : cpu :=
  Cpu (eax s) (ecx s) (edx s) (esi s) (edi s) b (memory s).
Definition set_mem (m : mem) (s : cpu) : cpu :=
  Cpu (eax s) (ecx s) (edx s) (esi s) (edi s) (df s) m.
Definition set_cd (c d : Z) (s : cpu) : cpu :=
  Cpu (eax s) c d (esi s) (edi s) (df s) (memory s).
Definition set_si_di (si di : Z) (s : cpu) : cpu :=
  Cpu (eax s) (ecx s) (edx s) si di (df s) (memory s).
Definition set_al (v : Z) (s : cpu) : cpu :=
  Cpu (eax s - eax s `mod` 256 + v) (ecx s) (edx s) (esi s) (edi s) (df s) (memory s).

(** [movb %al, (%edi)] *)
Definition movb_al_edi (s : cpu) : cpu := set_mem (write8 (memory s) (edi s) (eax s)) s.
(** [movb (%esi), %al] *)
Definition movb_esi_al (s : cpu) : cpu := set_al (read8 (memory s) (esi s)) s.

(** The distance a string instruction moves its pointers by. *)
Definition stride (w : Z) (s : cpu) : Z := if df s then - w else w.

Definition stosw (s : cpu) : cpu :=
  set_si_di (esi s) (u32 (edi s + stride 2 s)) (set_mem (write16 (memory s) (edi s) (eax s)) s).
Definition stosl (s : cpu) : cpu :=
  set_si_di (esi s) (u32 (edi s + stride 4 s)) (set_mem (write32 (memory s) (edi s) (eax s)) s).
Definition movsb (s : cpu) : cpu :=
  set_si_di (u32 (esi s + stride 1 s)) (u32 (edi s + stride 1 s))
    (set_mem (write8 (memory s) (edi s) (read8 (memory s) (esi s))) s).
Definition movsl (s : cpu) : cpu :=
  set_si_di (u32 (esi s + stride 4 s)) (u32 (edi s + stride 4 s))
    (set_mem (write32 (memory s) (edi s) (read32 (memory s) (esi s))) s).

(** [rep]: as often as %ecx says, which is 0 afterwards. *)
Definition rep (instr : cpu -> cpu) (s : cpu) : cpu :=
  set_cd 0 (edx s) (Nat.iter (Z.to_nat (ecx s)) instr s).

(** ** The code *)

(** The loop .memset_top: bytes until %edi is aligned or %ecx is 0. Four tests are
    enough to reach an aligned address. *)
Fixpoint memset_top (fuel : nat) (s : cpu) : option cpu :=
  if bool_decide (ecx s = 0) then Some s
  else if bool_decide (Z.land (edi s) 3 = 0) then Some s
  else match fuel with
       | O => None
       | S fuel' =>
           let s := movb_al_edi s in
           memset_top fuel'
             (set_cd (u32 (ecx s - 1)) (edx s) (set_si_di (esi s) (u32 (edi s + 1)) s))
       end.

(** The loop .memset_bottom: %edx is at most 3. *)
Fixpoint memset_bottom (fuel : nat) (s : cpu) : option cpu :=
  if bool_decide (edx s = 0) then Some s
  else match fuel with
       | O => None
       | S fuel' =>
           let s := movb_al_edi s in
           memset_bottom fuel'
             (set_cd (ecx s) (u32 (edx s - 1)) (set_si_di (esi s) (u32 (edi s + 1)) s))
       end.

(** [.memset_aligned]: %edx = %ecx & 3, %ecx >>= 2, cld, rep stosl *)
Definition memset_asm (s : cpu) : option cpu :=
  s ← memset_top 4 s;
  if bool_decide (ecx s = 0) then Some s
  else memset_bottom 4
         (rep stosl (set_df false (set_cd (Z.shiftr (ecx s) 2) (Z.land (ecx s) 3) s))).

Definition memset (cpu0 : cpu) (s c n : Z) : option (Z * cpu) :=
  let c := Z.land c 0xFF in
  let eax := u32 (Z.lor (Z.lor (Z.lor (Z.shiftl c 24) (Z.shiftl c 16)) (Z.shiftl c 8)) c) in
  t ← memset_asm (Cpu eax n (edx cpu0) (esi cpu0) s (df cpu0) (memory cpu0));
  Some (s, t).

Definition memset_word (cpu0 : cpu) (s c n : Z) : Z * cpu :=
  (s, rep stosw (set_df false (Cpu (u32 c) n (edx cpu0) (esi cpu0) s (df cpu0) (memory cpu0)))).

Definition memset_dword (cpu0 : cpu) (s c n : Z) : Z * cpu :=
  (s, rep stosl (set_df false (Cpu (u32 c) n (edx cpu0) (esi cpu0) s (df cpu0) (memory cpu0)))).

Fixpoint memcpy_top (fuel : nat) (s : cpu) : option cpu :=
  if bool_decide (ecx s = 0) then Some s
  else if bool_decide (Z.land (edi s) 3 = 0) then Some s
  else match fuel with
       | O => None
       | S fuel' =>
           let s := movb_al_edi (movb_esi_al s) in
           memcpy_top fuel'
             (set_cd (u32 (ecx s - 1)) (edx s)
                (set_si_di (u32 (esi s + 1)) (u32 (edi s + 1)) s))
       end.

Fixpoint memcpy_bottom (fuel : nat) (s : cpu) : option cpu :=
  if bool_decide (edx s = 0) then Some s
  else match fuel with
       | O => None
       | S fuel' =>
           let s := movb_al_edi (movb_esi_al s) in
           memcpy_bottom fuel'
             (set_cd (ecx s) (u32 (edx s - 1))
                (set_si_di (u32 (esi s + 1)) (u32 (edi s + 1)) s))
       end.

Definition memcpy_asm (s : cpu) : option cpu :=
  s ← memcpy_top 4 s;
  if bool_decide (ecx s = 0) then Some s
  else memcpy_bottom 4
         (rep movsl (set_df false (set_cd (Z.shiftr (ecx s) 2) (Z.land (ecx s) 3) s))).

Definition memcpy (cpu0 : cpu) (dest src n : Z) : option (Z * cpu) :=
  t ← memcpy_asm (Cpu (eax cpu0) n (edx cpu0) src dest (df cpu0) (memory cpu0));
  Some (dest, t).

(** [cmp %edi, %esi; jae]: forward when %esi >= %edi, unsigned. *)
Definition memmove (cpu0 : cpu) (dest src n : Z) : Z * cpu :=
  let s := set_df false (Cpu (eax cpu0) n (edx cpu0) src dest (df cpu0) (memory cpu0)) in
  let s :=
    if bool_decide (esi s >= edi s) then s
    else
      let si := u32 (esi s + ecx s - 1) in
      let di := u32 (edi s + ecx s - 1) in
      set_df true (set_si_di si di s) in
  (dest, rep movsb s).

(** ** The specification: a range of memory, filled *)

Definition fill (m : mem) (s n : Z) (f : Z -> Z) : mem :=
  fun a => if bool_decide (s <= a < s + n) then f (a - s) else m a.

(** memset: every byte of the range is [c]; memcpy and memmove: the bytes that were
    at [src] when the call was made. *)
Definition set_bytes (m : mem) (s n c : Z) : mem := fill m s n (fun _ => c).
Definition copied (m : mem) (d s n : Z) : mem := fill m d n (fun i => m (s + i)).

#[export] Instance fill_proper : Proper ((≡) ==> eq ==> eq ==> eq ==> (≡)) fill.
Proof. intros m1 m2 H s ? <- n ? <- f ? <- a. unfold fill. by case_bool_decide. Qed.
#[export] Instance set_bytes_proper : Proper ((≡) ==> eq ==> eq ==> eq ==> (≡)) set_bytes.
Proof. intros m1 m2 H s ? <- n ? <- c ? <-. unfold set_bytes. by rewrite H. Qed.

(** Case analysis on an address. *)
Ltac addr :=
  intros ?x; unfold set_bytes, copied, fill, write32, write16, write8;
  rewrite ?u32_small by lia; repeat case_bool_decide; subst; try done; try lia;
  repeat (f_equal; try lia).

Lemma fill_0 m s f : fill m s 0 f ≡ m.
Proof. addr. Qed.

Lemma fill_fill m s n k f :
  0 <= n -> 0 <= k -> fill (fill m s n f) (s + n) k (fun i => f (n + i)) ≡ fill m s (n + k) f.
Proof. intros. addr. Qed.

Lemma set_bytes_app m s n k c :
  0 <= n -> 0 <= k -> set_bytes (set_bytes m s n c) (s + n) k c ≡ set_bytes m s (n + k) c.
Proof. intros. addr. Qed.

Lemma write8_set_bytes m a v c :
  0 <= a < 4294967296 -> u8 v = c -> write8 m a v ≡ set_bytes m a 1 c.
Proof. intros. addr. Qed.

(** The four bytes of a word. *)
Definition word_of (c : Z) : Z :=
  u32 (Z.lor (Z.lor (Z.lor (Z.shiftl c 24) (Z.shiftl c 16)) (Z.shiftl c 8)) c).

Lemma word_of_bytes c :
  byte c ->
  u8 (word_of c) = c /\ u8 (Z.shiftr (word_of c) 8) = c /\
  u8 (Z.shiftr (word_of c) 16) = c /\ u8 (Z.shiftr (Z.shiftr (word_of c) 16) 8) = c.
Proof.
  intros Hc. unfold byte in Hc.
  assert (Forall (fun c => u8 (word_of c) = c /\ u8 (Z.shiftr (word_of c) 8) = c /\
            u8 (Z.shiftr (word_of c) 16) = c /\ u8 (Z.shiftr (Z.shiftr (word_of c) 16) 8) = c)
            (seqZ 0 256)) as H.
  { apply (bool_decide_unpack _). vm_compute. exact I. }
  rewrite Forall_forall in H. apply H, elem_of_seqZ. lia.
Qed.

(** The bytes of the value a string instruction stores, over and over. *)
Definition pattern (w v i : Z) : Z := u8 (Z.shiftr v (8 * (i `mod` w))).

Lemma write16_pattern m a v :
  0 <= a -> a + 2 <= 4294967296 -> write16 m a v ≡ fill m a 2 (pattern 2 v).
Proof.
  intros Ha Hb x. unfold write16, write8, fill, pattern. rewrite !u32_small by lia.
  repeat case_bool_decide; try lia; subst.
  - by replace (a + 1 - a) with 1 by lia.
  - by rewrite Z.sub_diag.
Qed.

Lemma write32_pattern m a v :
  0 <= a -> a + 4 <= 4294967296 -> write32 m a v ≡ fill m a 4 (pattern 4 v).
Proof.
  intros Ha Hb x. unfold write32. rewrite (write16_pattern _ (a + 2)) by lia.
  unfold fill at 1. case_bool_decide.
  - unfold fill, pattern. rewrite bool_decide_true by lia. rewrite Z.shiftr_shiftr by
      (pose proof (Z.mod_pos_bound (x - (a + 2)) 2); lia).
    f_equal. f_equal. assert (x = a + 2 \/ x = a + 3) as [->| ->] by lia.
    + replace (a + 2 - (a + 2)) with 0 by lia. by replace (a + 2 - a) with 2 by lia.
    + replace (a + 3 - (a + 2)) with 1 by lia. by replace (a + 3 - a) with 3 by lia.
  - rewrite write16_pattern by lia. unfold fill, pattern.
    repeat case_bool_decide; try done; try lia.
    f_equal. f_equal. assert (x = a \/ x = a + 1) as [->| ->] by lia.
    + by replace (a - a) with 0 by lia.
    + by replace (a + 1 - a) with 1 by lia.
Qed.

Lemma pattern_word_of c i : byte c -> pattern 4 (word_of c) i = c.
Proof.
  intros Hc. destruct (word_of_bytes c Hc) as (E0 & E1 & E2 & E3).
  rewrite Z.shiftr_shiftr in E3 by lia.
  unfold pattern. pose proof (Z.mod_pos_bound i 4).
  assert (i `mod` 4 = 0 \/ i `mod` 4 = 1 \/ i `mod` 4 = 2 \/ i `mod` 4 = 3) as Hi by lia.
  by destruct Hi as [-> | [-> | [-> | ->]]].
Qed.

(** ** The string instructions *)

(** [n] stores of [w] bytes each: the range holds the pattern. *)
Lemma iter_stos (w : Z) (stos : cpu -> cpu) (wr : mem -> Z -> Z -> mem) (n : nat) s :
  0 < w ->
  (forall s, stos s = set_si_di (esi s) (u32 (edi s + stride w s))
                        (set_mem (wr (memory s) (edi s) (eax s)) s)) ->
  (forall m a v, 0 <= a -> a + w <= 4294967296 -> wr m a v ≡ fill m a w (pattern w v)) ->
  df s = false -> 0 <= edi s -> edi s + w * Z.of_nat n < 4294967296 ->
  let t := Nat.iter n stos s in
  edi t = edi s + w * Z.of_nat n /\ eax t = eax s /\ edx t = edx s /\ df t = false /\
  memory t ≡ fill (memory s) (edi s) (w * Z.of_nat n) (pattern w (eax s)).
Proof.
  intros Hw Hstos Hwr Hdf Hdi. induction n as [|n IH]; intros Hn.
  - change (Z.of_nat 0) with 0. rewrite Z.mul_0_r, Z.add_0_r. split_and!; try done.
    by rewrite fill_0.
  - destruct IH as (E1 & E2 & E3 & E4 & E5); [lia|].
    change (Nat.iter (S n) stos s) with (stos (Nat.iter n stos s)). rewrite Hstos.
    unfold stride. rewrite E4. cbn [edi eax edx df memory set_si_di set_mem].
    rewrite E1, E2. split_and!; try done.
    + rewrite u32_small; lia.
    + rewrite Hwr by lia. rewrite E5.
      replace (w * Z.of_nat (S n)) with (w * Z.of_nat n + w) by lia.
      intros x. unfold fill. repeat case_bool_decide; try done; try lia.
      unfold pattern. do 3 f_equal.
      replace (x - edi s) with (x - (edi s + w * Z.of_nat n) + Z.of_nat n * w) by lia.
      by rewrite Z_mod_plus_full.
Qed.

Lemma rep_stosl s :
  df s = false -> 0 <= edi s -> 0 <= ecx s -> edi s + 4 * ecx s < 4294967296 ->
  let t := rep stosl s in
  edi t = edi s + 4 * ecx s /\ ecx t = 0 /\ eax t = eax s /\ edx t = edx s /\
  memory t ≡ fill (memory s) (edi s) (4 * ecx s) (pattern 4 (eax s)).
Proof.
  intros Hdf Hdi Hcx Hr.
  destruct (iter_stos 4 stosl write32 (Z.to_nat (ecx s)) s) as (E1 & E2 & E3 & E4 & E5);
    try done; try lia; [apply write32_pattern|].
  rewrite Z2Nat.id in * by lia. done.
Qed.

Lemma rep_stosw s :
  df s = false -> 0 <= edi s -> 0 <= ecx s -> edi s + 2 * ecx s < 4294967296 ->
  let t := rep stosw s in
  edi t = edi s + 2 * ecx s /\ ecx t = 0 /\ eax t = eax s /\ edx t = edx s /\
  memory t ≡ fill (memory s) (edi s) (2 * ecx s) (pattern 2 (eax s)).
Proof.
  intros Hdf Hdi Hcx Hr.
  destruct (iter_stos 2 stosw write16 (Z.to_nat (ecx s)) s) as (E1 & E2 & E3 & E4 & E5);
    try done; try lia; [apply write16_pattern|].
  rewrite Z2Nat.id in * by lia. done.
Qed.

(** ** memset *)

Lemma land_3 x : Z.land x 3 = x `mod` 4.
Proof. change 3 with (Z.ones 2). by rewrite Z.land_ones. Qed.

Lemma memset_top_spec fuel s c :
  byte c -> eax s = word_of c -> 0 <= edi s -> 0 <= ecx s -> edi s + ecx s < 4294967296 ->
  (- edi s) `mod` 4 <= Z.of_nat fuel ->
  exists k t, memset_top fuel s = Some t /\ 0 <= k <= ecx s /\
    edi t = edi s + k /\ ecx t = ecx s - k /\ eax t = eax s /\ df t = df s /\
    memory t ≡ set_bytes (memory s) (edi s) k c /\ (ecx t = 0 \/ edi t `mod` 4 = 0).
Proof.
  intros Hc. revert s. induction fuel as [|fuel IH]; intros s Hax Hdi Hcx Hr Hf;
    cbn [memset_top]; case_bool_decide as E1.
  1,3: exists 0, s; split_and!; try done; [lia..| |by left];
    unfold set_bytes; by rewrite fill_0.
  all: rewrite land_3; case_bool_decide as E2.
  1,3: exists 0, s; split_and!; try done; [lia..| |right; lia];
    unfold set_bytes; by rewrite fill_0.
  { exfalso. Z.to_euclidean_division_equations. lia. }
  destruct (IH (set_cd (u32 (ecx s - 1)) (edx s) (set_si_di (esi s) (u32 (edi s + 1))
                  (movb_al_edi s)))) as (k & t & Ht & Hk & T1 & T2 & T3 & T4 & T5 & T6);
    cbn [edi ecx eax edx df memory set_cd set_si_di movb_al_edi set_mem] in *;
    rewrite ?u32_small in * by lia; try done; try lia.
  { Z.to_euclidean_division_equations. lia. }
  exists (k + 1), t. split_and!; try done; try lia.
  rewrite T5, (write8_set_bytes _ _ _ c), set_bytes_app; [|lia..|].
  - by replace (1 + k) with (k + 1) by lia.
  - rewrite Hax. by apply word_of_bytes.
Qed.

Lemma memset_bottom_spec fuel s c :
  byte c -> eax s = word_of c -> 0 <= edi s -> 0 <= edx s <= Z.of_nat fuel ->
  edi s + edx s < 4294967296 ->
  exists t, memset_bottom fuel s = Some t /\
    memory t ≡ set_bytes (memory s) (edi s) (edx s) c.
Proof.
  intros Hc. revert s. induction fuel as [|fuel IH]; intros s Hax Hdi Hdx Hr;
    cbn [memset_bottom]; case_bool_decide as E1.
  1,3: exists s; split; [done|]; rewrite E1; unfold set_bytes; by rewrite fill_0.
  { lia. }
  destruct (IH (set_cd (ecx s) (u32 (edx s - 1)) (set_si_di (esi s) (u32 (edi s + 1))
                  (movb_al_edi s)))) as (t & Ht & Hm);
    cbn [edi ecx eax edx df memory set_cd set_si_di movb_al_edi set_mem] in *;
    rewrite ?u32_small in * by lia; try done; try lia.
  exists t. split; [done|].
  rewrite Hm, (write8_set_bytes _ _ _ c), set_bytes_app; [|lia..|].
  - by replace (1 + (edx s - 1)) with (edx s) by lia.
  - rewrite Hax. by apply word_of_bytes.
Qed.

Lemma memset_asm_spec s c :
  byte c -> eax s = word_of c -> 0 <= edi s -> 0 <= ecx s -> edi s + ecx s < 4294967296 ->
  exists t, memset_asm s = Some t /\ memory t ≡ set_bytes (memory s) (edi s) (ecx s) c.
Proof.
  intros Hc Hax Hdi Hcx Hr. unfold memset_asm.
  destruct (memset_top_spec 4 s c) as (k & t & Ht & Hk & T1 & T2 & T3 & T4 & T5 & T6); try done.
  { pose proof (Z.mod_pos_bound (- edi s) 4). lia. }
  rewrite Ht. cbn [mbind option_bind]. case_bool_decide as E.
  { exists t. split; [done|]. rewrite T5. by replace (ecx s) with k by lia. }
  rewrite land_3, Z.shiftr_div_pow2 by lia. change (2 ^ 2) with 4.
  set (u := set_df false _).
  pose proof (Z.div_mod (ecx t) 4). pose proof (Z.mod_pos_bound (ecx t) 4).
  assert (0 <= ecx t `div` 4) by (apply Z.div_pos; lia).
  destruct (rep_stosl u) as (R1 & R2 & R3 & R4 & R5);
    try (subst u; cbn [edi ecx eax edx df memory set_cd set_df]; done || lia).
  subst u. cbn [edi ecx eax edx df memory set_cd set_df] in *.
  destruct (memset_bottom_spec 4 (rep stosl (set_df false
              (set_cd (ecx t `div` 4) (ecx t `mod` 4) t))) c) as (v & Hv & Hmv);
    rewrite ?R1, ?R3, ?R4; try done; try lia.
  exists v. split; [done|]. rewrite Hmv, R1, R4, R5.
  assert (fill (memory t) (edi t) (4 * (ecx t `div` 4)) (pattern 4 (eax t))
          ≡ set_bytes (memory t) (edi t) (4 * (ecx t `div` 4)) c) as ->.
  { intros x. unfold set_bytes, fill. case_bool_decide; [|done].
    rewrite T3, Hax. by apply pattern_word_of. }
  rewrite T5, T1, <-Z.add_assoc. rewrite (Z.add_assoc (edi s)), !set_bytes_app by lia.
  by replace (k + (4 * (ecx t `div` 4) + ecx t `mod` 4)) with (ecx s) by lia.
Qed.

(** ** memcpy

    The forward copy is right when the destination does not start inside the
    source's range. *)
Definition no_clobber (d s n : Z) : Prop := d <= s \/ s + n <= d.

Lemma copied_0 m d s : copied m d s 0 ≡ m.
Proof. apply fill_0. Qed.

(** One more byte, read from the memory as it is by then. *)
Lemma copied_read m d s n k i :
  0 <= k -> 0 <= i -> k + i < n -> no_clobber d s n -> 0 <= s -> s + n <= 4294967296 ->
  forall m', m' ≡ copied m d s k -> read8 m' (s + k + i) = m (s + k + i).
Proof.
  intros Hk Hi Hn Hc Hs Hr m' Hm. unfold read8. rewrite Hm, u32_small by lia.
  unfold copied, fill. unfold no_clobber in Hc. by rewrite bool_decide_false by lia.
Qed.

Lemma copied_read_next m d s n k m' :
  0 <= k < n -> no_clobber d s n -> 0 <= s -> s + n <= 4294967296 ->
  m' ≡ copied m d s k -> read8 m' (s + k) = m (s + k).
Proof.
  intros Hk Hc Hs Hr Hm. pose proof (copied_read m d s n k 0) as H.
  rewrite (Z.add_0_r (s + k)) in H. apply H; done || lia.
Qed.

Lemma copied_extend m d s k w (f : Z -> Z) m' :
  0 <= k -> 0 <= w -> m' ≡ copied m d s k ->
  (forall i, 0 <= i < w -> f i = m (s + k + i)) ->
  fill m' (d + k) w f ≡ copied m d s (k + w).
Proof.
  intros Hk Hw Hm Hf x. unfold fill at 1. rewrite Hm.
  unfold copied, fill. repeat case_bool_decide; try done; try lia.
  rewrite Hf by lia. f_equal. lia.
Qed.

Lemma read8_byte m a : (forall x, byte (m x)) -> byte (read8 m a).
Proof. intros H. apply H. Qed.

(** The word that is read, byte by byte. *)
Lemma pattern_read32 m a i :
  (forall x, byte (m x)) -> 0 <= i < 4 -> pattern 4 (read32 m a) i = read8 m (a + i).
Proof.
  intros Hb Hi. unfold pattern, read32, u8. rewrite (Z.mod_small i) by lia.
  rewrite Z.shiftr_div_pow2 by lia.
  assert (byte (read8 m a)) as B0 by apply Hb.
  assert (byte (read8 m (a + 1))) as B1 by apply Hb.
  assert (byte (read8 m (a + 2))) as B2 by apply Hb.
  assert (byte (read8 m (a + 3))) as B3 by apply Hb. unfold byte in *.
  assert (i = 0 \/ i = 1 \/ i = 2 \/ i = 3) as [-> | [-> | [-> | ->]]] by lia;
    rewrite ?Z.add_0_r; generalize dependent (read8 m a); generalize dependent (read8 m (a + 1));
    generalize dependent (read8 m (a + 2)); generalize dependent (read8 m (a + 3));
    intros; cbn [Z.mul Pos.mul Z.pow Z.pow_pos Pos.iter];
    Z.to_euclidean_division_equations; lia.
Qed.

Lemma write8_extend m d s k m' v :
  0 <= k -> 0 <= d + k < 4294967296 -> m' ≡ copied m d s k -> u8 v = m (s + k) ->
  write8 m' (d + k) v ≡ copied m d s (k + 1).
Proof.
  intros Hk Hr Hm Hv.
  assert (write8 m' (d + k) v ≡ fill m' (d + k) 1 (fun _ => u8 v)) as ->.
  { intros x. unfold write8, fill. rewrite u32_small by lia. repeat case_bool_decide; done || lia. }
  apply copied_extend; [lia|lia|done|]. intros i Hi. by replace (s + k + i) with (s + k) by lia.
Qed.

Section Copy.
Context (m : mem) (d s n : Z).
Context (Hb : forall x, byte (m x)) (Hd : 0 <= d /\ d + n < 4294967296)
        (Hs : 0 <= s /\ s + n < 4294967296).

Ltac cpu_fields :=
  cbn [eax edi esi ecx edx df memory set_cd set_si_di set_mem movb_al_edi movb_esi_al set_al].

(** [k] bytes are copied and the pointers are behind them. *)
Definition copying (k : Z) (t : cpu) : Prop :=
  edi t = d + k /\ esi t = s + k /\ memory t ≡ copied m d s k.

Lemma copied_bytes k m' : m' ≡ copied m d s k -> forall x, byte (m' x).
Proof. intros H x. rewrite H. unfold copied, fill. case_bool_decide; apply Hb. Qed.

Lemma copy_byte k t :
  no_clobber d s n -> 0 <= k < n -> copying k t ->
  write8 (memory (movb_esi_al t)) (edi (movb_esi_al t)) (eax (movb_esi_al t)) ≡ copied m d s (k + 1).
Proof.
  intros Hc Hk (E1 & E2 & E3). cbn [memory edi movb_esi_al set_al]. rewrite E1. apply write8_extend; try done; [lia..|].
  unfold movb_esi_al, set_al. cbn [eax]. rewrite E2.
  rewrite (copied_read_next m d s n) by (done || lia). unfold u8.
  replace (eax t - eax t `mod` 256 + m (s + k)) with (m (s + k) + (eax t `div` 256) * 256)
    by (pose proof (Z.div_mod (eax t) 256); lia).
  rewrite Z_mod_plus_full. apply Z.mod_small, Hb.
Qed.

Lemma memcpy_top_spec fuel k t :
  no_clobber d s n -> copying k t -> 0 <= k -> ecx t = n - k -> k <= n ->
  (- edi t) `mod` 4 <= Z.of_nat fuel ->
  exists k' t', memcpy_top fuel t = Some t' /\ copying k' t' /\ k <= k' <= n /\
    ecx t' = n - k' /\ (k' = n \/ edi t' `mod` 4 = 0).
Proof.
  intros Hc. revert k t. induction fuel as [|fuel IH]; intros k t Hcp Hk Hcx Hkn Hf;
    cbn [memcpy_top]; case_bool_decide as E1.
  1,3: exists k, t; split_and!; try done; lia.
  all: rewrite ?land_3; case_bool_decide as E2.
  1,3: exists k, t; split_and!; try done; by right || lia.
  { exfalso. Z.to_euclidean_division_equations. lia. }
  destruct Hcp as (H1 & H2 & H3).
  destruct (IH (k + 1) (set_cd (u32 (ecx t - 1)) (edx t) (set_si_di (u32 (esi t + 1))
              (u32 (edi t + 1)) (movb_al_edi (movb_esi_al t))))) as (k' & t' & Q1 & Q2 & Q3 & Q4 & Q5);
    cpu_fields; rewrite ?u32_small by lia; try lia.
  - split_and!; cpu_fields; rewrite ?u32_small by lia; try lia. apply (copy_byte k t); done || lia.
  - Z.to_euclidean_division_equations. lia.
  - rewrite !u32_small in Q1 by lia. exists k', t'. split_and!; done || lia.
Qed.

Lemma memcpy_bottom_spec fuel k t :
  no_clobber d s n -> copying k t -> 0 <= k -> edx t = n - k -> 0 <= n - k <= Z.of_nat fuel ->
  exists t', memcpy_bottom fuel t = Some t' /\ copying n t'.
Proof.
  intros Hc. revert k t. induction fuel as [|fuel IH]; intros k t Hcp Hk Hdx Hf;
    cbn [memcpy_bottom]; case_bool_decide as E1.
  1,3: exists t; split; [done|]; by replace n with k by lia.
  { lia. }
  destruct Hcp as (H1 & H2 & H3).
  apply (IH (k + 1)); cpu_fields; rewrite ?u32_small by lia; try lia.
  split_and!; cpu_fields; rewrite ?u32_small by lia; try lia. apply (copy_byte k t); done || lia.
Qed.

Lemma iter_movsl (j : nat) k t :
  no_clobber d s n -> copying k t -> df t = false -> 0 <= k -> k + 4 * Z.of_nat j <= n ->
  let t' := Nat.iter j movsl t in
  copying (k + 4 * Z.of_nat j) t' /\ edx t' = edx t /\ df t' = false.
Proof.
  intros Hc Hcp Hdf Hk. induction j as [|j IH]; intros Hj.
  - by replace (k + 4 * Z.of_nat 0) with k by lia.
  - destruct IH as ((E1 & E2 & E3) & E4 & E5); [lia|].
    change (Nat.iter (S j) movsl t) with (movsl (Nat.iter j movsl t)).
    set (u := Nat.iter j movsl t) in *. unfold movsl, stride. rewrite E5.
    replace (k + 4 * Z.of_nat (S j)) with (k + 4 * Z.of_nat j + 4) by lia.
    set (kj := k + 4 * Z.of_nat j) in *. split_and!; try done. split_and!.
    + cbn. rewrite u32_small; lia.
    + cbn. rewrite u32_small; lia.
    + cbn [memory set_si_di set_mem]. rewrite E1, write32_pattern by lia.
      apply copied_extend; try done; [lia..|]. intros i Hi.
      rewrite pattern_read32 by (done || by eapply copied_bytes).
      rewrite E2. by apply (copied_read m d s n); try done; lia.
Qed.

Lemma memcpy_asm_spec t :
  no_clobber d s n -> edi t = d -> esi t = s -> ecx t = n -> 0 <= n -> memory t ≡ m ->
  exists t', memcpy_asm t = Some t' /\ memory t' ≡ copied m d s n.
Proof.
  intros Hc Hdi Hsi Hcx Hn Hm. unfold memcpy_asm.
  destruct (memcpy_top_spec 4 0 t) as (k & u & Hu & Hcp & Hk & Hucx & Hend); try done; try lia.
  { split_and!; [lia..|]. by rewrite copied_0. }
  { pose proof (Z.mod_pos_bound (- edi t) 4). lia. }
  rewrite Hu. cbn [mbind option_bind]. case_bool_decide as E.
  { exists u. split; [done|]. destruct Hcp as (_ & _ & H). by replace n with k by lia. }
  rewrite land_3, Z.shiftr_div_pow2 by lia. change (2 ^ 2) with 4.
  pose proof (Z.div_mod (ecx u) 4). pose proof (Z.mod_pos_bound (ecx u) 4).
  assert (0 <= ecx u `div` 4) by (apply Z.div_pos; lia).
  set (v := set_df false _).
  destruct (iter_movsl (Z.to_nat (ecx v)) k v) as (Hcp' & Hdx & _); try done; [lia|cbn; lia|].
  destruct (memcpy_bottom_spec 4 (k + 4 * Z.of_nat (Z.to_nat (ecx v))) (rep movsl v))
    as (w & Hw & Hcpw); try done; cbn [ecx edx rep set_cd v set_df] in *; try lia.
  exists w. split; [done|]. apply Hcpw.
Qed.

(** memmove, forward: any overlap with the destination first. *)
Lemma iter_movsb_forward (j : nat) t :
  d <= s -> copying 0 t -> df t = false -> Z.of_nat j <= n ->
  copying (Z.of_nat j) (Nat.iter j movsb t) /\ df (Nat.iter j movsb t) = false.
Proof.
  intros Hds Hcp Hdf. induction j as [|j IH]; intros Hj; [done|].
  destruct IH as ((E1 & E2 & E3) & E5); [lia|].
  change (Nat.iter (S j) movsb t) with (movsb (Nat.iter j movsb t)).
  set (u := Nat.iter j movsb t) in *. unfold movsb, stride. rewrite E5.
  replace (Z.of_nat (S j)) with (Z.of_nat j + 1) by lia. split; [|done]. split_and!.
  - cbn. rewrite u32_small; lia.
  - cbn. rewrite u32_small; lia.
  - cbn [memory set_si_di set_mem]. rewrite E1, E2. apply write8_extend; try done; [lia..|].
    rewrite (copied_read_next m d s n) by (done || lia || by left). apply u8_small, Hb.
Qed.

(** memmove, backward: the last [j] bytes are copied. *)
Definition copied_end (j : Z) : mem := fill m (d + n - j) j (fun i => m (s + n - j + i)).

Lemma iter_movsb_backward (j : nat) t :
  s < d -> 0 < n -> edi t = d + n - 1 -> esi t = s + n - 1 -> memory t ≡ m -> df t = true ->
  Z.of_nat j <= n ->
  let t' := Nat.iter j movsb t in
  edi t' = u32 (d + n - 1 - Z.of_nat j) /\ esi t' = u32 (s + n - 1 - Z.of_nat j) /\
  df t' = true /\ memory t' ≡ copied_end (Z.of_nat j).
Proof.
  intros Hsd Hn Hdi Hsi Hm Hdf. induction j as [|j IH]; intros Hj.
  - split_and!; [cbn; rewrite u32_small; lia..|done|]. unfold copied_end.
    cbn. rewrite Hm. by rewrite fill_0.
  - destruct IH as (E1 & E2 & E3 & E4); [lia|].
    change (Nat.iter (S j) movsb t) with (movsb (Nat.iter j movsb t)).
    set (u := Nat.iter j movsb t) in *. unfold movsb, stride. rewrite E3.
    rewrite (u32_small (d + n - 1 - _)) in E1 by lia.
    rewrite (u32_small (s + n - 1 - _)) in E2 by lia. split_and!; try done.
    + cbn. f_equal. lia.
    + cbn. f_equal. lia.
    + cbn [memory set_si_di set_mem]. intros x. unfold write8, read8. rewrite E1, E2.
      rewrite !u32_small, !E4 by lia. unfold copied_end, fill.
      repeat case_bool_decide; try lia; try done; subst.
      * rewrite u8_small by apply Hb. f_equal. lia.
      * f_equal. lia.
Qed.
End Copy.

Lemma memmove_spec cpu0 d s n :
  (forall x, byte (memory cpu0 x)) -> 0 <= d -> d + n < 4294967296 -> 0 <= s ->
  s + n < 4294967296 -> 0 < n ->
  exists t, memmove cpu0 d s n = (d, t) /\ memory t ≡ copied (memory cpu0) d s n /\
    df t = bool_decide (s < d).
Proof.
  intros Hb Hd Hdn Hs Hsn Hn. eexists. split; [done|]. cbn [esi edi ecx set_df].
  case_bool_decide as E.
  - rewrite (bool_decide_false (s < d)) by lia.
    set (t := set_df false _).
    destruct (iter_movsb_forward (memory cpu0) d s n Hb ltac:(lia) ltac:(lia)
                (Z.to_nat n) t) as ((_ & _ & Hm) & Hdf); try done; [lia| |lia|].
    { split_and!; cbn; [lia..|]. by rewrite copied_0. }
    rewrite Z2Nat.id in Hm by lia. split; [exact Hm|exact Hdf].
  - rewrite (bool_decide_true (s < d)) by lia. rewrite !u32_small by lia.
    set (t := set_df true _).
    destruct (iter_movsb_backward (memory cpu0) d s n Hb ltac:(lia) ltac:(lia)
                (Z.to_nat n) t) as (_ & _ & Hdf & Hm); try done; try lia.
    rewrite Z2Nat.id in Hm by lia. split; [|exact Hdf].
    intros x. etrans; [exact (Hm x)|]. unfold copied_end, copied, fill.
    repeat case_bool_decide; try done; try lia. f_equal. lia.
Qed.

Lemma memmove_0 cpu0 d s :
  exists t, memmove cpu0 d s 0 = (d, t) /\ memory t = memory cpu0 /\ df t = bool_decide (s < d).
Proof.
  unfold memmove. eexists. split; [done|]. cbn. repeat case_bool_decide; try lia; done.
Qed.

(** ** Properties *)

(** A machine for the examples: the byte at an address is its low byte. *)
Definition demo_cpu : cpu := Cpu 0 0 0 0 0 false (fun a => a `mod` 256).
Lemma demo_bytes x : byte (memory demo_cpu x).
Proof. unfold byte. simpl. apply Z.mod_pos_bound. lia. Qed.

(** the optimised fills are the naive ones: when the range does not wrap around
    the address space, memset leaves the low byte of [c] in exactly the bytes
    [s, s + n), for every alignment of [s] and every [n]; memset_word and
    memset_dword leave [n] copies of the low 16 and of all 32 bits of [c], low byte
    first; each returns [s]. *)
Theorem memset_fills cpu0 s c n :
  0 <= s -> 0 <= n -> s + 4 * n < 4294967296 ->
  (exists t, memset cpu0 s c n = Some (s, t) /\ memory t ≡ set_bytes (memory cpu0) s n (u8 c)) /\
  (exists t, memset_word cpu0 s c n = (s, t) /\
     memory t ≡ fill (memory cpu0) s (2 * n) (pattern 2 (u32 c))) /\
  (exists t, memset_dword cpu0 s c n = (s, t) /\
     memory t ≡ fill (memory cpu0) s (4 * n) (pattern 4 (u32 c))).
Proof.
  intros Hs Hn Hr. split_and!.
  - unfold memset. fold (word_of (Z.land c 255)).
    assert (Z.land c 255 = u8 c) as -> by (change 255 with (Z.ones 8); by rewrite Z.land_ones).
    set (t0 := Cpu _ _ _ _ _ _ _).
    destruct (memset_asm_spec t0 (u8 c)) as (t & Ht & Hm); try done; [apply u8_range|cbn; lia|].
    exists t. by rewrite Ht.
  - eexists. split; [done|]. apply rep_stosw; cbn; done || lia.
  - eexists. split; [done|]. apply rep_stosl; cbn; done || lia.
Qed.

(** 11 bytes from an address that is 3 short of aligned. *)
Lemma memset_fills_witness :
  (exists t, memset demo_cpu 0x1001 (-1) 11 = Some (0x1001, t) /\
     memory t ≡ set_bytes (memory demo_cpu) 0x1001 11 (u8 (-1))) /\
  (exists t, memset_word demo_cpu 0x1001 (-1) 11 = (0x1001, t) /\
     memory t ≡ fill (memory demo_cpu) 0x1001 (2 * 11) (pattern 2 (u32 (-1)))) /\
  (exists t, memset_dword demo_cpu 0x1001 (-1) 11 = (0x1001, t) /\
     memory t ≡ fill (memory demo_cpu) 0x1001 (4 * 11) (pattern 4 (u32 (-1)))).
Proof. apply (memset_fills demo_cpu 0x1001 (-1) 11); lia. Defined.

(** memcpy copies: the destination range holds, afterwards, the bytes the source
    range held before, and no other byte changes, whenever the destination does not
    start inside the source range (so also for an overlap with the destination
    first), for every alignment and length; it returns [dest]. *)
Theorem memcpy_copies cpu0 d s n :
  (forall x, byte (memory cpu0 x)) -> 0 <= d -> d + n < 4294967296 -> 0 <= s ->
  s + n < 4294967296 -> 0 <= n -> no_clobber d s n ->
  exists t, memcpy cpu0 d s n = Some (d, t) /\ memory t ≡ copied (memory cpu0) d s n.
Proof.
  intros Hb Hd Hdn Hs Hsn Hn Hc. unfold memcpy. set (t0 := Cpu _ _ _ _ _ _ _).
  destruct (memcpy_asm_spec (memory cpu0) d s n Hb ltac:(lia) ltac:(lia) t0)
    as (t & Ht & Hm); try done.
  exists t. by rewrite Ht.
Qed.

(** The two ranges overlap, the destination starts 2 bytes before the source. *)
Lemma memcpy_copies_witness :
  exists t, memcpy demo_cpu 0x1003 0x1005 13 = Some (0x1003, t) /\
    memory t ≡ copied (memory demo_cpu) 0x1003 0x1005 13.
Proof.
  apply (memcpy_copies demo_cpu 0x1003 0x1005 13); try lia.
  - apply demo_bytes.
  - left. lia.
Defined.

(** C39: memmove copies for every overlap of the two ranges: the destination holds the
    bytes the source range held before the call, whether the copy runs forwards or
    backwards. But after a backward copy the direction flag stays set, which C code
    does not expect: the calling convention has it clear. *)
Theorem memmove_copies cpu0 d s n :
  (forall x, byte (memory cpu0 x)) -> 0 <= d -> d + n < 4294967296 -> 0 <= s ->
  s + n < 4294967296 -> 0 <= n ->
  exists t, memmove cpu0 d s n = (d, t) /\ memory t ≡ copied (memory cpu0) d s n /\
    df t = bool_decide (s < d).
Proof.
  intros Hb Hd Hdn Hs Hsn Hn. destruct (decide (n = 0)) as [->|].
  - destruct (memmove_0 cpu0 d s) as (t & Ht & Hm & Hdf). exists t.
    split_and!; [done| |done]. by rewrite copied_0, Hm.
  - apply memmove_spec; done || lia.
Qed.

Lemma memmove_copies_witness :
  exists t, memmove demo_cpu 0x1005 0x1003 13 = (0x1005, t) /\
    memory t ≡ copied (memory demo_cpu) 0x1005 0x1003 13 /\ df t = bool_decide (0x1003 < 0x1005).
Proof. apply (memmove_copies demo_cpu 0x1005 0x1003 13); try lia. apply demo_bytes. Defined.
