(* ===== verification/Paging.v ===== *)
(** * Paging

    [src/student-distrib/paging.c]: paging_initialize, video_mapping and
    non_video_mapping, which fill the page directories and tables of the kernel
    (number 0) and of the tasks 1 to 6. The MMU's translation is the processor
    manual's, for 32-bit paging with 4 MB pages enabled. *)
From S2P Require Import Prelude.

Definition VIDEO_MEM : Z := 0xB8000.
Definition KERNEL_MEM : Z := 0x400000.
Definition VIDEO_PAGE : Z := 184.
Definition PSE_EN : Z := 0x10.
Definition PAGING_EN : Z := 0x80000000.
Definition PAGE_1 : Z := 0.
Definition KERNEL_PAGE : Z := 1.
Definition PRESENT : Z := 0x01.
Definition READ_WRITE : Z := 0x02.
Definition USER_SV : Z := 0x04.
Definition SIZE_4MB : Z := 0x80.
Definition term0_buffer : Z := 0x600000.
Definition term1_buffer : Z := 0x601000.
Definition term2_buffer : Z := 0x602000.

(** The seven arrays [page_directory], [task1_page_directory], ... and the seven
    [page1_table], [task1_page1_table], ... of 1024 entries each: a function of the
    task's number and the index. And the control registers. *)
Definition arrays : Type := Z -> Z -> Z.
Definition in_arrays (t i : Z) : bool := bool_decide (0 <= t < 7 /\ 0 <= i < 1024).
Definition update (f : arrays) (t i v : Z) : arrays :=
  fun t' i' => if bool_decide (t' = t /\ i' = i) then v else f t' i'.

Record paging := Paging {
  dirs : arrays;
  tables : arrays;
  cr0 : Z;
  cr3 : Z;
  cr4 : Z;
}.

(** Where the linker puts the arrays: in the kernel's 4 MB page, aligned to 4 KB
    (their attribute), one after the other. *)
Class Layout := {
  dir_addr : Z -> Z;
  table_addr : Z -> Z;
  dir_addr_range t : 0 <= t < 7 -> 0x400000 <= dir_addr t < 0x800000 /\ dir_addr t `mod` 4096 = 0;
  table_addr_range t :
    0 <= t < 7 -> 0x400000 <= table_addr t < 0x800000 /\ table_addr t `mod` 4096 = 0;
  dir_addr_inj t u : 0 <= t < 7 -> 0 <= u < 7 -> dir_addr t = dir_addr u -> t = u;
  table_addr_inj t u : 0 <= t < 7 -> 0 <= u < 7 -> table_addr t = table_addr u -> t = u;
}.

(** ** The code *)

Section Code.
Context `{!Layout}.

Definition set_dir (t i v : Z) : M paging unit :=
  if in_arrays t i
  then modify (fun s => Paging (update (dirs s) t i v) (tables s) (cr0 s) (cr3 s) (cr4 s))
  else undef.
Definition set_table (t i v : Z) : M paging unit :=
  if in_arrays t i
  then modify (fun s => Paging (dirs s) (update (tables s) t i v) (cr0 s) (cr3 s) (cr4 s))
  else undef.
Definition write_cr0 (v : Z) : M paging unit :=
  modify (fun s => Paging (dirs s) (tables s) v (cr3 s) (cr4 s)).
Definition write_cr3 (v : Z) : M paging unit :=
  modify (fun s => Paging (dirs s) (tables s) (cr0 s) v (cr4 s)).
Definition write_cr4 (v : Z) : M paging unit :=
  modify (fun s => Paging (dirs s) (tables s) (cr0 s) (cr3 s) v).

Definition orl (l : list Z) : Z := foldr Z.lor 0 l.

(** The four statements that set up task [t] with its program's frame. *)
Definition task_entries (t frame : Z) : M paging unit :=
  set_dir t PAGE_1 (orl [table_addr t; PRESENT; READ_WRITE; USER_SV]) ;;
  set_dir t KERNEL_PAGE (orl [KERNEL_MEM; SIZE_4MB; PRESENT]) ;;
  set_table t VIDEO_PAGE (orl [VIDEO_MEM; PRESENT; USER_SV; READ_WRITE]) ;;
  set_dir t 32 (orl [frame; SIZE_4MB; PRESENT; USER_SV; READ_WRITE]).

(** The loop's 14 assignments are written as a loop over the tables. *)
Definition paging_initialize : M paging unit :=
  s ← get;
  write_cr4 (Z.lor (cr4 s) PSE_EN) ;;
  for_range 0 1024 (fun i =>
    for_range 0 7 (fun t => set_dir t i 0 ;; set_table t i 0)) ;;
  set_dir 0 PAGE_1 (orl [table_addr 0; PRESENT; READ_WRITE; USER_SV]) ;;
  set_dir 0 KERNEL_PAGE (orl [KERNEL_MEM; SIZE_4MB; PRESENT]) ;;
  set_table 0 VIDEO_PAGE (orl [VIDEO_MEM; PRESENT; USER_SV]) ;;
  task_entries 1 0x800000 ;;
  task_entries 2 0xC00000 ;;
  task_entries 3 0x1000000 ;;
  task_entries 4 0x1400000 ;;
  task_entries 5 0x1800000 ;;
  task_entries 6 0x1C00000 ;;
  write_cr3 (dir_addr 0) ;;
  s ← get;
  write_cr0 (Z.lor (cr0 s) PAGING_EN).

(** [switch(program_id)]: the cases 1 to 6, all others return. *)
Definition video_mapping (program_id : Z) : M paging unit :=
  when (bool_decide (1 <= program_id <= 6))
    (set_table program_id VIDEO_PAGE (orl [VIDEO_MEM; PRESENT; USER_SV; READ_WRITE])).

Definition non_video_mapping (program_id terminal : Z) : M paging unit :=
  when (bool_decide (1 <= program_id <= 6))
    (if bool_decide (terminal = 0) then
       set_table program_id VIDEO_PAGE (orl [term0_buffer; PRESENT; USER_SV; READ_WRITE])
     else if bool_decide (terminal = 1) then
       set_table program_id VIDEO_PAGE (orl [term1_buffer; PRESENT; USER_SV; READ_WRITE])
     else if bool_decide (terminal = 2) then
       set_table program_id VIDEO_PAGE (orl [term2_buffer; PRESENT; USER_SV; READ_WRITE])
     else mret tt).

(** ** The MMU

    The number of the array that starts at a physical address (the kernel's page is
    mapped to itself). *)
Definition array_at (addr : Z -> Z) (a : Z) : option Z :=
  head (filter (fun t => addr t = a) (seqZ 0 7)).

(** The access rights of an entry: a user access needs bit 2, a user write bit 1
    as well (the kernel writes anywhere, CR0.WP is clear). *)
Definition allowed (user wr : bool) (e : Z) : bool :=
  Z.testbit e 0 && (negb user || Z.testbit e 2) && (negb (user && wr) || Z.testbit e 1).

Definition translate (s : paging) (user wr : bool) (va : Z) : option Z :=
  d ← array_at dir_addr (cr3 s);
  let pde := dirs s d (va `div` 0x400000) in
  if allowed user wr pde then
    if Z.testbit pde 7 then Some (pde - pde `mod` 0x400000 + va `mod` 0x400000)
    else
      tb ← array_at table_addr (pde - pde `mod` 4096);
      let pte := tables s tb (va `div` 4096 `mod` 1024) in
      if allowed user wr pte then Some (pte - pte `mod` 4096 + va `mod` 4096) else None
  else None.
End Code.

(** ** Rules *)

Section Rules.
Implicit Types (s : paging) (Q : unit -> paging -> Prop).

Definition with_dirs (f : arrays) s : paging := Paging f (tables s) (cr0 s) (cr3 s) (cr4 s).
Definition with_tables (f : arrays) s : paging := Paging (dirs s) f (cr0 s) (cr3 s) (cr4 s).

Lemma wp_set_dir t i v Q s :
  0 <= t < 7 -> 0 <= i < 1024 ->
  wp (set_dir t i v) Q s <-> Q tt (with_dirs (update (dirs s) t i v) s).
Proof. intros. unfold set_dir, in_arrays. by rewrite bool_decide_true by lia. Qed.
Lemma wp_set_table t i v Q s :
  0 <= t < 7 -> 0 <= i < 1024 ->
  wp (set_table t i v) Q s <-> Q tt (with_tables (update (tables s) t i v) s).
Proof. intros. unfold set_table, in_arrays. by rewrite bool_decide_true by lia. Qed.

Lemma update_eq f t i v : update f t i v t i = v.
Proof. unfold update. by rewrite bool_decide_true. Qed.
Lemma update_ne f t i v t' i' : t' <> t \/ i' <> i -> update f t i v t' i' = f t' i'.
Proof. intros. unfold update. rewrite bool_decide_false; [done|lia]. Qed.

(** The double loop clears every entry. *)
Lemma wp_clear_tables Q s :
  (forall ds ts, (forall t i, 0 <= t < 7 -> 0 <= i < 1024 -> ds t i = 0 /\ ts t i = 0) ->
     Q tt (Paging ds ts (cr0 s) (cr3 s) (cr4 s))) ->
  wp (for_range 0 1024 (fun i =>
        for_range 0 7 (fun t => set_dir t i 0 ;; set_table t i 0))) Q s.
Proof.
  intros HQ. eapply wp_mono.
  - apply (wp_for (fun i u => cr0 u = cr0 s /\ cr3 u = cr3 s /\ cr4 u = cr4 s /\
      forall t j, 0 <= t < 7 -> 0 <= j < i -> dirs u t j = 0 /\ tables u t j = 0)).
    + split_and!; try done. lia.
    + intros i u Hi (E0 & E3 & E4 & Hz). eapply wp_mono.
      * apply (wp_for (fun t w => cr0 w = cr0 s /\ cr3 w = cr3 s /\ cr4 w = cr4 s /\
          forall t' j, 0 <= t' < 7 -> 0 <= j < i \/ j = i /\ t' < t ->
            dirs w t' j = 0 /\ tables w t' j = 0)).
        -- split_and!; try done. intros t' j Ht [Hj|Hj]; [by apply Hz|lia].
        -- intros t w Ht (F0 & F3 & F4 & Hw). rewrite wp_bind, wp_set_dir, wp_set_table by lia.
           split_and!; try done. intros t' j Ht' Hj. simpl. unfold update.
           case_bool_decide; [done|]. apply Hw; lia.
      * intros [] w (F0 & F3 & F4 & Hw). split_and!; try done.
        intros t j Ht Hj. apply Hw; lia.
  - intros [] [ds ts c0 c3 c4] (E0 & E3 & E4 & Hz). simpl in *. subst. apply HQ.
    intros t i Ht Hi. apply Hz; lia.
Qed.
End Rules.

(** ** Entries *)

Lemma lor_aligned a f : a `mod` 4096 = 0 -> 0 <= f < 4096 -> Z.lor a f = a + f.
Proof.
  intros Ha Hf. assert (Z.land a f = 0) as Hl.
  { apply Z.bits_inj'. intros n Hn. rewrite Z.land_spec, Z.bits_0.
    destruct (Z_lt_le_dec n 12).
    - rewrite <-(Z.mod_pow2_bits_low a 12 n) by lia. change (2 ^ 12) with 4096.
      by rewrite Ha, Z.bits_0.
    - rewrite <-(Z.mod_small f (2 ^ 12)) by (change (2 ^ 12) with 4096; lia).
      rewrite Z.mod_pow2_bits_high by lia. apply andb_false_r. }
  by rewrite Z.add_nocarry_lxor, Z.lxor_lor by done.
Qed.

Lemma testbit_low x f n : x `mod` 4096 = f -> n < 12 -> Z.testbit x n = Z.testbit f n.
Proof.
  intros <- Hn. change 4096 with (2 ^ 12). symmetry. apply Z.mod_pow2_bits_low. lia.
Qed.

Lemma allowed_low user wr x f : x `mod` 4096 = f -> allowed user wr x = allowed user wr f.
Proof. intros H. unfold allowed. by rewrite !(testbit_low x f) by done. Qed.
Lemma allowed_7 user wr : allowed user wr 7 = true.
Proof. by destruct user, wr. Qed.
Lemma allowed_87 user wr : allowed user wr 0x87 = true.
Proof. by destruct user, wr. Qed.

Lemma head_filter_unique {A} (P : A -> Prop) `{!forall x, Decision (P x)} l t :
  t ∈ l -> P t -> (forall u, u ∈ l -> P u -> u = t) -> head (filter P l) = Some t.
Proof.
  intros Ht HP Hu. destruct (filter P l) as [|u k] eqn:E.
  - by destruct (filter_nil_not_elem_of P l t E HP).
  - assert (u ∈ filter P l) as Hin by (rewrite E; left).
    apply list_elem_of_filter in Hin as [HPu Hul]. simpl. f_equal. by apply Hu.
Qed.

Section Views.
Context `{HL : !Layout}.

Lemma array_at_dir t : 0 <= t < 7 -> array_at dir_addr (dir_addr t) = Some t.
Proof.
  intros Ht. apply head_filter_unique; [apply elem_of_seqZ; lia|done|].
  intros u Hu%elem_of_seqZ E. apply dir_addr_inj; done || lia.
Qed.
Lemma array_at_table t : 0 <= t < 7 -> array_at table_addr (table_addr t) = Some t.
Proof.
  intros Ht. apply head_filter_unique; [apply elem_of_seqZ; lia|done|].
  intros u Hu%elem_of_seqZ E. apply table_addr_inj; done || lia.
Qed.

(** The physical frame of task [t]'s program. *)
Definition program_frame (t : Z) : Z := 0x800000 + (t - 1) * 0x400000.

(** What the entries of task [t] are, with the video page at [frame] (the flags
    are bits 0 to 2, and bit 7 for a 4 MB page). *)
Definition task_dir (t i : Z) : Z :=
  if bool_decide (i = 0) then table_addr t + 7
  else if bool_decide (i = 1) then 0x400081
  else if bool_decide (i = 32) then program_frame t + 0x87
  else 0.
Definition task_table (frame i : Z) : Z := if bool_decide (i = 184) then frame + 7 else 0.

Definition maps (s : paging) (t frame : Z) : Prop :=
  frame `mod` 4096 = 0 /\
  forall i, 0 <= i < 1024 -> dirs s t i = task_dir t i /\ tables s t i = task_table frame i.

(** The address space of a task. *)
Definition task_space (t frame : Z) (user : bool) (va : Z) : option Z :=
  if bool_decide (0x8000000 <= va < 0x8400000) then Some (program_frame t + (va - 0x8000000))
  else if bool_decide (0xB8000 <= va < 0xB9000) then Some (frame + (va - 0xB8000))
  else if bool_decide (0x400000 <= va < 0x800000) then if user then None else Some va
  else None.

Lemma translate_task s t frame user wr va :
  maps s t frame -> cr3 s = dir_addr t -> 1 <= t <= 6 -> 0 <= va < 4294967296 ->
  translate s user wr va = task_space t frame user va.
Proof.
  intros [Hf Hm] Hcr Ht Hva. unfold translate. rewrite Hcr, array_at_dir by lia.
  cbn [mbind option_bind].
  destruct (Hm (va `div` 0x400000)) as [-> _].
  { Z.to_euclidean_division_equations. lia. }
  unfold task_dir, task_space.
  destruct (table_addr_range t) as [Hr Ha]; [lia|].
  repeat case_bool_decide; try (exfalso; Z.to_euclidean_division_equations; lia).
  - rewrite (allowed_low user wr _ 7), (testbit_low _ 7) by (done || Z.to_euclidean_division_equations; lia).
    rewrite allowed_7. change (Z.testbit 7 7) with false.
    replace (table_addr t + 7 - (table_addr t + 7) `mod` 4096) with (table_addr t)
      by (Z.to_euclidean_division_equations; lia).
    rewrite array_at_table by lia. cbn [mbind option_bind].
    destruct (Hm (va `div` 4096 `mod` 1024)) as [_ ->]; [apply Z.mod_pos_bound; lia|].
    unfold task_table. rewrite bool_decide_true by (Z.to_euclidean_division_equations; lia).
    rewrite (allowed_low user wr _ 7) by (Z.to_euclidean_division_equations; lia). rewrite allowed_7.
    f_equal. Z.to_euclidean_division_equations. lia.
  - rewrite (allowed_low user wr _ 7), (testbit_low _ 7) by (done || Z.to_euclidean_division_equations; lia).
    rewrite allowed_7. change (Z.testbit 7 7) with false.
    replace (table_addr t + 7 - (table_addr t + 7) `mod` 4096) with (table_addr t)
      by (Z.to_euclidean_division_equations; lia).
    rewrite array_at_table by lia. cbn [mbind option_bind].
    destruct (Hm (va `div` 4096 `mod` 1024)) as [_ ->]; [apply Z.mod_pos_bound; lia|].
    unfold task_table. rewrite bool_decide_false by (Z.to_euclidean_division_equations; lia). done.
  - destruct user, wr; try done; unfold allowed; simpl Z.testbit; simpl;
      f_equal; Z.to_euclidean_division_equations; lia.
  - rewrite (allowed_low user wr _ 0x87), (testbit_low _ 0x87)
      by (done || unfold program_frame; Z.to_euclidean_division_equations; lia).
    rewrite allowed_87. change (Z.testbit 0x87 7) with true. f_equal.
    unfold program_frame. Z.to_euclidean_division_equations. lia.
  - done.
Qed.
(** *** The initial tables *)

Lemma orl_flags a f l : a `mod` 4096 = 0 -> orl l = f -> 0 <= f < 4096 -> orl (a :: l) = a + f.
Proof. intros Ha <- Hf. simpl. by apply lor_aligned. Qed.

(** The kernel's own directory maps the video page. *)
Definition kernel_video (s : paging) : Prop := dirs s 0 0 = table_addr 0 + 7 /\ tables s 0 184 = VIDEO_MEM + 5.

(** The tasks before [n] are set up, the others have empty tables. *)
Definition set_up (c0 c3 c4 n : Z) (s : paging) : Prop :=
  cr0 s = c0 /\ cr3 s = c3 /\ cr4 s = c4 /\ kernel_video s /\
  forall t i, 1 <= t <= 6 -> 0 <= i < 1024 ->
    dirs s t i = (if bool_decide (t < n) then task_dir t i else 0) /\
    tables s t i = (if bool_decide (t < n) then task_table VIDEO_MEM i else 0).

Lemma wp_task_entries c0 c3 c4 t frame (Q : unit -> paging -> Prop) s :
  1 <= t <= 6 -> frame = program_frame t -> set_up c0 c3 c4 t s ->
  (forall s', set_up c0 c3 c4 (t + 1) s' -> Q tt s') ->
  wp (task_entries t frame) Q s.
Proof.
  intros Ht -> (E0 & E3 & E4 & [Hk1 Hk2] & Hs) HQ. unfold task_entries.
  destruct (table_addr_range t) as [_ Ha]; [lia|].
  rewrite (orl_flags (table_addr t) 7) by done.
  rewrite (orl_flags (program_frame t) 0x87)
    by (done || unfold program_frame; Z.to_euclidean_division_equations; lia).
  rewrite !wp_bind, wp_set_dir by (unfold PAGE_1; lia).
  rewrite wp_bind, wp_set_dir by (unfold KERNEL_PAGE; lia).
  rewrite wp_bind, wp_set_table by (unfold VIDEO_PAGE; lia).
  rewrite wp_set_dir by lia. apply HQ. split_and!; try done.
  { unfold kernel_video, with_dirs, with_tables, PAGE_1, KERNEL_PAGE, VIDEO_PAGE. cbn [dirs tables].
    rewrite !update_ne by lia. by split. }
  intros u i Hu Hi. destruct (Hs u i Hu Hi) as [Hd Htb].
  unfold with_dirs, with_tables, PAGE_1, KERNEL_PAGE, VIDEO_PAGE, update. cbn [dirs tables].
  rewrite Hd, Htb. unfold task_dir, task_table.
  destruct (decide (u = t)) as [->|].
  - rewrite (bool_decide_false (t < t)), (bool_decide_true (t < t + 1)) by lia.
    split; repeat case_bool_decide; try done; try (exfalso; lia).
  - rewrite !(bool_decide_false (u = t /\ _)) by naive_solver.
    by replace (bool_decide (u < t + 1)) with (bool_decide (u < t))
      by (repeat case_bool_decide; done || lia).
Qed.

(** Every task has its address space, and the kernel's directory is loaded. *)
Lemma paging_initialize_spec s :
  exists s', paging_initialize s = Ret tt s' /\ cr3 s' = dir_addr 0 /\
    Z.testbit (cr0 s') 31 = true /\ Z.testbit (cr4 s') 4 = true /\
    (forall t, 1 <= t <= 6 -> maps s' t VIDEO_MEM) /\ kernel_video s'.
Proof.
  apply wp_unit. unfold paging_initialize. rewrite wp_bind, wp_get, wp_bind.
  unfold write_cr4. rewrite wp_modify, wp_bind.
  apply wp_clear_tables. intros ds ts Hz.
  rewrite wp_bind, wp_set_dir by (unfold PAGE_1; lia).
  rewrite wp_bind, wp_set_dir by (unfold KERNEL_PAGE; lia).
  rewrite wp_bind, wp_set_table by (unfold VIDEO_PAGE; lia).
  rewrite wp_bind. eapply (wp_task_entries (cr0 s) (cr3 s) (Z.lor (cr4 s) PSE_EN));
    [lia|done| |].
  { split_and!; try done.
    { destruct (table_addr_range 0) as [_ Ha]; [lia|]. unfold kernel_video, with_dirs, with_tables, PAGE_1, KERNEL_PAGE, VIDEO_PAGE.
      rewrite (orl_flags (table_addr 0) 7) by done. cbn [dirs tables]. split; [|by rewrite update_eq].
      rewrite update_ne by lia. by rewrite update_eq. }
    intros t i Ht Hi. rewrite !bool_decide_false by lia.
    unfold with_tables, with_dirs. cbn [dirs tables]. rewrite !update_ne by lia. apply Hz; lia. }
  do 5 (intros ? Hprev; rewrite wp_bind; eapply wp_task_entries; [lia|done|exact Hprev|];
        clear Hprev).
  intros s2 (E0 & E3 & E4 & Hk & Hs). unfold write_cr3, write_cr0.
  rewrite wp_bind, wp_modify, wp_bind, wp_get, wp_modify. cbn [cr0 cr3 cr4 dirs tables].
  split_and!; [done|rewrite Z.lor_spec; apply orb_true_r| | |exact Hk].
  - rewrite E4, Z.lor_spec. apply orb_true_r.
  - intros t Ht. split; [done|]. intros i Hi. cbn [dirs tables].
    destruct (Hs t i Ht Hi) as [-> ->]. by rewrite !bool_decide_true by lia.
Qed.

(** With the kernel's directory loaded, the kernel's accesses to VIDEO reach it. *)
Lemma translate_kernel_video s wr :
  kernel_video s -> cr3 s = dir_addr 0 -> translate s false wr VIDEO_MEM = Some VIDEO_MEM.
Proof.
  intros [Hd Ht] Hc. unfold translate. rewrite Hc, array_at_dir by lia. cbn [mbind option_bind].
  change (VIDEO_MEM `div` 0x400000) with 0. rewrite Hd. destruct (table_addr_range 0) as [_ Ha]; [lia|].
  rewrite (allowed_low false wr _ 7), (testbit_low _ 7) by (done || Z.to_euclidean_division_equations; lia).
  rewrite allowed_7. change (Z.testbit 7 7) with false.
  replace (table_addr 0 + 7 - (table_addr 0 + 7) `mod` 4096) with (table_addr 0)
    by (Z.to_euclidean_division_equations; lia).
  rewrite array_at_table by lia. cbn [mbind option_bind].
  change ((VIDEO_MEM `div` 4096) `mod` 1024) with 184. rewrite Ht. by destruct wr.
Qed.

(** *** Moving a task's screen *)

Lemma set_video_page s t frame new v :
  maps s t frame -> 1 <= t <= 6 -> new `mod` 4096 = 0 -> v = new + 7 ->
  exists s', set_table t VIDEO_PAGE v s = Ret tt s' /\ maps s' t new /\ cr3 s' = cr3 s /\
    forall u f, u <> t -> maps s u f -> maps s' u f.
Proof.
  intros [Hf Hm] Ht Hnew ->. exists (with_tables (update (tables s) t VIDEO_PAGE (new + 7)) s).
  split.
  { unfold set_table, in_arrays. by rewrite bool_decide_true by (unfold VIDEO_PAGE; lia). }
  split_and!; try done.
  - split; [done|]. intros i Hi. cbn [dirs tables with_tables]. destruct (Hm i Hi) as [-> Htb]. split; [done|].
    unfold update, task_table, VIDEO_PAGE in *. rewrite Htb. repeat case_bool_decide; naive_solver.
  - intros u f Hu [Hf' Hm']. split; [done|]. intros i Hi. cbn [dirs tables with_tables].
    rewrite update_ne by auto. by apply Hm'.
Qed.

(** The frame of a terminal's buffer. *)
Definition terminal_frame (terminal : Z) : Z := 0x600000 + 4096 * terminal.

Lemma non_video_mapping_spec s t frame terminal :
  maps s t frame -> 1 <= t <= 6 -> 0 <= terminal <= 2 ->
  exists s', non_video_mapping t terminal s = Ret tt s' /\ maps s' t (terminal_frame terminal) /\
    cr3 s' = cr3 s /\ forall u f, u <> t -> maps s u f -> maps s' u f.
Proof.
  intros Hm Ht Hterm. unfold non_video_mapping, when. rewrite bool_decide_true by lia.
  assert (terminal = 0 \/ terminal = 1 \/ terminal = 2) as [-> | [-> | ->]] by lia;
    by eapply set_video_page.
Qed.

Lemma video_mapping_spec s t frame :
  maps s t frame -> 1 <= t <= 6 ->
  exists s', video_mapping t s = Ret tt s' /\ maps s' t VIDEO_MEM /\
    cr3 s' = cr3 s /\ forall u f, u <> t -> maps s u f -> maps s' u f.
Proof.
  intros Hm Ht. unfold video_mapping, when. rewrite bool_decide_true by lia.
  by eapply set_video_page.
Qed.
End Views.

(** ** Properties *)

Definition load_task `{!Layout} (t : Z) (s : paging) : paging :=
  Paging (dirs s) (tables s) (cr0 s) (dir_addr t) (cr4 s).

(** The example layout: the arrays follow each other from 0x420000 on. *)
Definition demo_addr (base t : Z) : Z := (base + 2 * t) * 4096.

Lemma demo_addr_range base t :
  0x420 <= base <= 0x421 -> 0 <= t < 7 ->
  0x400000 <= demo_addr base t < 0x800000 /\ demo_addr base t `mod` 4096 = 0.
Proof. intros. unfold demo_addr. split; [lia|apply Z_mod_mult]. Qed.
Lemma demo_addr_inj base t u : demo_addr base t = demo_addr base u -> t = u.
Proof. unfold demo_addr. lia. Qed.

#[export] Instance demo_layout : Layout | 100.
Proof.
  refine {| dir_addr := demo_addr 0x420; table_addr := demo_addr 0x421 |}.
  - intros. by apply demo_addr_range.
  - intros. by apply demo_addr_range.
  - intros t u _ _. apply demo_addr_inj.
  - intros t u _ _. apply demo_addr_inj.
Defined.

Definition demo_paging : paging := Paging (fun _ _ => 7) (fun _ _ => 3) 0 0 0.

(** C24: paging_initialize, whatever was in the tables, gives each of the six tasks
    its address space: with the task's directory loaded, a user or kernel access,
    read or write, to 0x08000000 - 0x083FFFFF goes to the 4 MB frame at 8 MB + 4 MB
    * (t - 1), one to 0xB8000 - 0xB8FFF to the video memory, one to the kernel's 4 MB
    page succeeds (unchanged address) in kernel mode only, and every other address
    of the 4 GB faults. *)
Theorem paging_address_spaces `{!Layout} s t user wr va :
  1 <= t <= 6 -> 0 <= va < 4294967296 ->
  exists s', paging_initialize s = Ret tt s' /\ cr3 s' = dir_addr 0 /\
    translate (load_task t s') user wr va = task_space t VIDEO_MEM user va.
Proof.
  intros Ht Hva. destruct (paging_initialize_spec s) as (s' & Hr & Hcr & _ & _ & Hm & _).
  exists s'. split; [done|]. split; [done|]. apply translate_task; [exact (Hm t Ht)|reflexivity|lia|lia].
Qed.

Lemma paging_address_spaces_witness :
  exists s', paging_initialize demo_paging = Ret tt s' /\ cr3 s' = dir_addr 0 /\
    translate (load_task 6 s') true true 0x8048000 = task_space 6 VIDEO_MEM true 0x8048000.
Proof. apply (paging_address_spaces demo_paging 6 true true 0x8048000); lia. Defined.

(** The frames that the video page of a task is ever given. *)
Definition screen_frame (f : Z) : Prop :=
  f = VIDEO_MEM \/ exists terminal, 0 <= terminal <= 2 /\ f = terminal_frame terminal.

(** The states of the page tables: paging_initialize, then any calls that move the
    video pages, with any arguments, and any loads of a directory. *)
Inductive reachable `{!Layout} : paging -> Prop :=
| reach_init s0 s : paging_initialize s0 = Ret tt s -> reachable s
| reach_video program_id s s' :
    reachable s -> video_mapping program_id s = Ret tt s' -> reachable s'
| reach_non_video program_id terminal s s' :
    reachable s -> non_video_mapping program_id terminal s = Ret tt s' -> reachable s'
| reach_cr3 v s s' : reachable s -> write_cr3 v s = Ret tt s' -> reachable s'.

Lemma set_video_page_maps `{!Layout} s t new v s' :
  (forall u, 1 <= u <= 6 -> exists f, screen_frame f /\ maps s u f) ->
  1 <= t <= 6 -> screen_frame new -> new `mod` 4096 = 0 -> v = new + 7 ->
  set_table t VIDEO_PAGE v s = Ret tt s' ->
  forall u, 1 <= u <= 6 -> exists f, screen_frame f /\ maps s' u f.
Proof.
  intros Hm Ht Hnew Hmod Hv Hr u Hu. destruct (Hm t Ht) as (ft & _ & Hmt).
  destruct (set_video_page s t ft new v Hmt Ht Hmod Hv) as (s1 & Hr1 & Hm1 & _ & Ho).
  rewrite Hr in Hr1. injection Hr1 as <-. destruct (decide (u = t)) as [->|Hne].
  - by exists new.
  - destruct (Hm u Hu) as (f & Hf & Hmu). exists f. split; [done|]. by apply Ho.
Qed.

Lemma reachable_maps `{!Layout} s t :
  reachable s -> 1 <= t <= 6 -> exists f, screen_frame f /\ maps s t f.
Proof.
  intros Hs. revert t. induction Hs as [s0 s Hr|p s s' _ IH Hr|p k s s' _ IH Hr|v s s' _ IH Hr].
  - intros t Ht. destruct (paging_initialize_spec s0) as (s1 & Hr1 & _ & _ & _ & Hm & _).
    rewrite Hr in Hr1. injection Hr1 as <-. exists VIDEO_MEM. split; [by left|exact (Hm t Ht)].
  - unfold video_mapping, when in Hr. case_bool_decide; [|by injection Hr as <-].
    eapply (set_video_page_maps s p VIDEO_MEM); try done. by left.
  - unfold non_video_mapping, when in Hr. case_bool_decide; [|by injection Hr as <-].
    assert (forall n, 0 <= n <= 2 -> screen_frame (terminal_frame n)) as Hn.
    { intros n Hn. right. by exists n. }
    repeat case_bool_decide; [..|by injection Hr as <-].
    + eapply (set_video_page_maps s p (terminal_frame 0)); try exact Hr; try done. by apply Hn.
    + eapply (set_video_page_maps s p (terminal_frame 1)); try exact Hr; try done. by apply Hn.
    + eapply (set_video_page_maps s p (terminal_frame 2)); try exact Hr; try done. by apply Hn.
  - injection Hr as <-. exact IH.
Qed.

(** tasks are isolated, in every state that paging_initialize, video_mapping and
    non_video_mapping lead to: two different tasks never reach the same physical
    byte from user mode through anything but their video page, and outside that
    page a user access never lands in the kernel's 4 MB or in the video memory. *)
Theorem tasks_isolated `{!Layout} s t u wt wu va vb pa :
  reachable s -> 1 <= t <= 6 -> 1 <= u <= 6 -> t <> u ->
  0 <= va < 4294967296 -> 0 <= vb < 4294967296 ->
  translate (load_task t s) true wt va = Some pa ->
  (translate (load_task u s) true wu vb = Some pa ->
     0xB8000 <= va < 0xB9000 /\ 0xB8000 <= vb < 0xB9000) /\
  (0xB8000 <= va < 0xB9000 \/ 0x800000 <= pa < 0x2000000).
Proof.
  intros Hs Ht Hu Htu Hva Hvb Hpa.
  destruct (reachable_maps s t Hs Ht) as (ft & Hft & Hmt).
  destruct (reachable_maps s u Hs Hu) as (fu & Hfu & Hmu).
  rewrite (translate_task _ t ft) in Hpa by done.
  rewrite (translate_task _ u fu) by done.
  assert (forall f, screen_frame f -> 0 <= f < 0x700000) as Hframe.
  { intros f [-> | (k & ? & ->)]; unfold VIDEO_MEM, terminal_frame; lia. }
  pose proof (Hframe _ Hft). pose proof (Hframe _ Hfu).
  unfold task_space, program_frame in *.
  repeat case_bool_decide; simplify_eq; try (split; [intros [= ?]|]; lia).
  all: split; [intros; simplify_eq|lia].
Qed.

Lemma tasks_isolated_witness :
  exists s, reachable s /\
    (translate (load_task 2 s) true true 0x8000000 = Some 0x800000 ->
       0xB8000 <= 0x8000000 < 0xB9000 /\ 0xB8000 <= 0x8000000 < 0xB9000) /\
    (0xB8000 <= 0x8000000 < 0xB9000 \/ 0x800000 <= 0x800000 < 0x2000000).
Proof.
  destruct (paging_initialize_spec demo_paging) as (s & Hr & _ & _ & _ & Hm & _).
  exists s. split; [exact (reach_init _ _ Hr)|].
  apply (tasks_isolated s 1 2 true true); try lia.
  - exact (reach_init _ _ Hr).
  - rewrite (translate_task _ 1 VIDEO_MEM); [reflexivity|exact (Hm 1 ltac:(lia))|reflexivity|lia|lia].
Defined.

(** a task that is switched away keeps its screen: non_video_mapping makes the
    task's accesses to the video memory go to the buffer of its terminal, byte for
    byte, and nothing else changes, for it or for any other task; video_mapping
    afterwards gives it exactly the address space it had. *)
Theorem screen_redirection `{!Layout} s t terminal user wr va :
  maps s t VIDEO_MEM -> 1 <= t <= 6 -> 0 <= terminal <= 2 -> 0 <= va < 4294967296 ->
  exists s1 s2, non_video_mapping t terminal s = Ret tt s1 /\ video_mapping t s1 = Ret tt s2 /\
    translate (load_task t s1) user wr va
    = (if bool_decide (0xB8000 <= va < 0xB9000)
       then Some (0x600000 + 4096 * terminal + (va - 0xB8000))
       else translate (load_task t s) user wr va) /\
    translate (load_task t s2) user wr va = translate (load_task t s) user wr va /\
    (forall u f, 1 <= u <= 6 -> u <> t -> maps s u f ->
       translate (load_task u s1) user wr va = translate (load_task u s) user wr va).
Proof.
  intros Hm Ht Hterm Hva.
  destruct (non_video_mapping_spec s t VIDEO_MEM terminal Hm Ht Hterm)
    as (s1 & Hr1 & Hm1 & _ & Ho1).
  destruct (video_mapping_spec s1 t _ Hm1 Ht) as (s2 & Hr2 & Hm2 & _ & _).
  exists s1, s2. split; [done|]. split; [done|]. 
  rewrite (translate_task (load_task t s) t VIDEO_MEM), (translate_task (load_task t s2) t VIDEO_MEM),
    (translate_task (load_task t s1) t (terminal_frame terminal)) by done.
  split_and!; [|done|].
  - unfold task_space, terminal_frame. repeat case_bool_decide; try done; lia.
  - intros u f Hu Hne Hmu. rewrite !(translate_task _ u f) by (done || lia || by apply (Ho1 u f Hne Hmu)). done.
Qed.

Lemma screen_redirection_witness :
  let s := Paging (fun t i => task_dir t i) (fun t i => task_table VIDEO_MEM i) 0 0 0 in
  exists s1 s2, non_video_mapping 3 2 s = Ret tt s1 /\ video_mapping 3 s1 = Ret tt s2 /\
    translate (load_task 3 s1) true true 0xB8010
    = (if bool_decide (0xB8000 <= 0xB8010 < 0xB9000)
       then Some (0x600000 + 4096 * 2 + (0xB8010 - 0xB8000))
       else translate (load_task 3 s) true true 0xB8010) /\
    translate (load_task 3 s2) true true 0xB8010 = translate (load_task 3 s) true true 0xB8010 /\
    (forall u f, 1 <= u <= 6 -> u <> 3 -> maps s u f ->
       translate (load_task u s1) true true 0xB8010 = translate (load_task u s) true true 0xB8010).
Proof. apply screen_redirection; [by split|lia|lia|lia]. Defined.
