(* ===== verification/Kernel.v ===== *)
(** * The kernel's state

    The global variables of [src/student-distrib] in one record, with a lens for
    each component's part of it, and the functions on the current task that every
    driver uses: find_programid and set_programpage of [systemcall.c],
    find_terminal and get_term_buffer of [terminal.c]. *)
From S2P Require Export Prelude Clib Screen FileSystem Pic Rtc Paging.

Definition NUM_CHARS : Z := 128.
Definition MAXTERMS : Z := 3.
Definition NUM_FILE_DESCRIPTOR : Z := 8.
Definition MB_8 : Z := 0x800000.
Definition KB_8 : Z := 0x2000.
Definition MB_132 : Z := 0x08400000.
Definition PROGRAM_MEM : Z := 0x08048000.
Definition PREV : Z := 4.
Definition KERNEL_DS : Z := 0x18.

(** ** Data *)

(** [terminal_t] *)
Record terminal := Terminal {
  t_x : Z;
  t_y : Z;
  line_buffer : list Z;
  buffer_i : Z;
  t_esp : Z;
  t_ebp : Z;
  t_cr3 : Z;
  kernel_esp : Z;
  program_id : Z;
  active : Z;
}.

(** The tables of operations a file descriptor may point to: NULL, [rtc_ops],
    [terminal_ops], [directory_ops], [file_ops]. *)
Inductive sys_ops := NullOps | RtcOps | TerminalOps | DirectoryOps | FileOps.
#[export] Instance sys_ops_eq_dec : EqDecision sys_ops.
Proof. solve_decision. Defined.

(** [file_descriptor_t] *)
Record file_desc := FileDesc {
  fd_fileName : list Z;
  inode_ptr : Z;
  filePosition : Z;
  flags : Z;
  sysops_ptr : sys_ops;
}.

(** [pcb_t], without the members that no function uses. *)
Record pcb := Pcb {
  fds : list file_desc;
  prev_pcb : Z;
  p_esp : Z;
  p_ebp : Z;
  p_cr3 : Z;
  parent_pid : Z;
  argument : list Z;
}.

(** The variables of terminal.c that the keyboard handler keeps. *)
Record keyboard := Keyboard {
  shift : Z;
  ctrl : Z;
  capslock : Z;
  alt : Z;
  check_enter : Z;
}.

(** The variables of terminal.h. *)
Record terms := Terms {
  terminals : list terminal;
  old_terminal : Z;
  newterminal_flag : Z;
}.

(** The variables of scheduler.c: a task is an index into [terminals], or NULL. *)
Record sched := Sched {
  tasks : list (option Z);
  current_task_idx : Z;
}.

(** The variables of systemcall.c, the members [value] of the operation tables,
    and the process control blocks of the processes 1 to 6, which are at the
    addresses MB_8 - KB_8 * pid. *)
Record procs := Procs {
  openTasks : list Z;
  curr_status : Z;
  first_shell_entry_point : Z;
  rtc_ops_value : Z;
  directory_ops_value : Z;
  file_ops_value : Z;
  pcbs : list pcb;
}.

(** The kernel stack of the task state segment, and the stack pointers that the
    keyboard interrupt's wrapper saves in [esp_0], [ebp_0]. *)
Record cpustate := Cpustate {
  tss_esp0 : Z;
  tss_ss0 : Z;
  esp_0 : Z;
  ebp_0 : Z;
}.

(** [k_frames]: the text pages, the video memory at 0xB8000 and the buffers of the
    three terminals at 0x600000, 0x601000, 0x602000. [k_programs]: the bytes of
    the tasks' 4 MB program frames. *)
Record kernel := Kernel {
  k_cursor : Z * Z;
  k_frames : list (list Z);
  k_io : list ioev;
  k_paging : paging;
  k_fs : fs;
  k_masks : Z * Z;
  k_rtc : Z;
  k_kbd : keyboard;
  k_terms : terms;
  k_sched : sched;
  k_procs : procs;
  k_cpu : cpustate;
  k_programs : Z -> Z -> Z;
}.

(** ** The parts of the state *)

#[export] Program Instance kernel_io : Lens kernel (list ioev) := {|
  lget := k_io;
  lset v s :=
    Kernel (k_cursor s) (k_frames s) v (k_paging s) (k_fs s) (k_masks s) (k_rtc s) (k_kbd s)
    (k_terms s) (k_sched s) (k_procs s) (k_cpu s) (k_programs s);
|}.
Solve Obligations with (by intros; repeat match goal with s : kernel |- _ => destruct s end).
#[export] Program Instance kernel_paging : Lens kernel paging := {|
  lget := k_paging;
  lset v s :=
    Kernel (k_cursor s) (k_frames s) (k_io s) v (k_fs s) (k_masks s) (k_rtc s) (k_kbd s)
    (k_terms s) (k_sched s) (k_procs s) (k_cpu s) (k_programs s);
|}.
Solve Obligations with (by intros; repeat match goal with s : kernel |- _ => destruct s end).
#[export] Program Instance kernel_fs : Lens kernel fs := {|
  lget := k_fs;
  lset v s :=
    Kernel (k_cursor s) (k_frames s) (k_io s) (k_paging s) v (k_masks s) (k_rtc s) (k_kbd s)
    (k_terms s) (k_sched s) (k_procs s) (k_cpu s) (k_programs s);
|}.
Solve Obligations with (by intros; repeat match goal with s : kernel |- _ => destruct s end).
#[export] Program Instance kernel_pic : Lens kernel pic := {|
  lget k := Pic (fst (k_masks k)) (snd (k_masks k)) (k_io k);
  lset v s :=
    Kernel (k_cursor s) (k_frames s) (pic_io v) (k_paging s) (k_fs s)
    (master_mask v, slave_mask v) (k_rtc s) (k_kbd s) (k_terms s) (k_sched s) (k_procs s)
    (k_cpu s) (k_programs s);
|}.
Solve Obligations with
  (by intros; repeat match goal with s : pic |- _ => destruct s | s : kernel |- _ => destruct s
                     | p : (Z * Z)%type |- _ => destruct p end).
#[export] Program Instance kernel_rtc : Lens kernel rtc := {|
  lget k := Rtc (k_rtc k) (k_io k);
  lset v s :=
    Kernel (k_cursor s) (k_frames s) (rtc_io v) (k_paging s) (k_fs s) (k_masks s)
    (rtc_interrupt_flag v) (k_kbd s) (k_terms s) (k_sched s) (k_procs s) (k_cpu s)
    (k_programs s);
|}.
Solve Obligations with
  (by intros; repeat match goal with s : rtc |- _ => destruct s | s : kernel |- _ => destruct s end).
#[export] Program Instance kernel_kbd : Lens kernel keyboard := {|
  lget := k_kbd;
  lset v s :=
    Kernel (k_cursor s) (k_frames s) (k_io s) (k_paging s) (k_fs s) (k_masks s) (k_rtc s) v
    (k_terms s) (k_sched s) (k_procs s) (k_cpu s) (k_programs s);
|}.
Solve Obligations with (by intros; repeat match goal with s : kernel |- _ => destruct s end).
#[export] Program Instance kernel_terms : Lens kernel terms := {|
  lget := k_terms;
  lset v s :=
    Kernel (k_cursor s) (k_frames s) (k_io s) (k_paging s) (k_fs s) (k_masks s) (k_rtc s)
    (k_kbd s) v (k_sched s) (k_procs s) (k_cpu s) (k_programs s);
|}.
Solve Obligations with (by intros; repeat match goal with s : kernel |- _ => destruct s end).
#[export] Program Instance kernel_sched : Lens kernel sched := {|
  lget := k_sched;
  lset v s :=
    Kernel (k_cursor s) (k_frames s) (k_io s) (k_paging s) (k_fs s) (k_masks s) (k_rtc s)
    (k_kbd s) (k_terms s) v (k_procs s) (k_cpu s) (k_programs s);
|}.
Solve Obligations with (by intros; repeat match goal with s : kernel |- _ => destruct s end).
#[export] Program Instance kernel_procs : Lens kernel procs := {|
  lget := k_procs;
  lset v s :=
    Kernel (k_cursor s) (k_frames s) (k_io s) (k_paging s) (k_fs s) (k_masks s) (k_rtc s)
    (k_kbd s) (k_terms s) (k_sched s) v (k_cpu s) (k_programs s);
|}.
Solve Obligations with (by intros; repeat match goal with s : kernel |- _ => destruct s end).
#[export] Program Instance kernel_cpu : Lens kernel cpustate := {|
  lget := k_cpu;
  lset v s :=
    Kernel (k_cursor s) (k_frames s) (k_io s) (k_paging s) (k_fs s) (k_masks s) (k_rtc s)
    (k_kbd s) (k_terms s) (k_sched s) (k_procs s) v (k_programs s);
|}.
Solve Obligations with (by intros; repeat match goal with s : kernel |- _ => destruct s end).

Definition set_programs (v : Z -> Z -> Z) (s : kernel) : kernel :=
  Kernel (k_cursor s) (k_frames s) (k_io s) (k_paging s) (k_fs s) (k_masks s) (k_rtc s)
  (k_kbd s) (k_terms s) (k_sched s) (k_procs s) (k_cpu s) v.
Definition set_display (c : Z * Z) (fr : list (list Z)) (h : list ioev) (s : kernel) : kernel :=
  Kernel c fr h (k_paging s) (k_fs s) (k_masks s) (k_rtc s) (k_kbd s) (k_terms s) (k_sched s)
  (k_procs s) (k_cpu s) (k_programs s).

(** How a function that may leave for another context ends: it returns, it executes
    iret to user code, it jumps into the saved kernel context of another task
    (int_ret_helper), or into execute's halt_ret_label on the stack of a parent. *)
Inductive control (A : Type) :=
| Returns (a : A)
| Iret (eip esp : Z)
| IntRet (ebp esp : Z)
| HaltRet (esp ebp : Z).
Arguments Returns {A} a.
Arguments Iret {A} eip esp.
Arguments IntRet {A} ebp esp.
Arguments HaltRet {A} esp ebp.

(** ** The code *)

Section Code.
Context `{!Layout}.

(** The text page that the kernel's accesses to the video memory reach, through the
    loaded page directory: its number in [k_frames]. *)
Definition frame_number (pa : Z) : option Z :=
  if bool_decide (pa = VIDEO_MEM) then Some 0
  else if bool_decide (pa = term0_buffer) then Some 1
  else if bool_decide (pa = term1_buffer) then Some 2
  else if bool_decide (pa = term2_buffer) then Some 3
  else None.
Definition video_frame (s : kernel) : option Z :=
  translate (k_paging s) false true VIDEO_MEM ≫= frame_number.

(** A function of lib.c on the screen: on that page, with the global cursor. *)
Definition on_screen {A} (m : M screen A) : M kernel A := fun s =>
  match video_frame s with
  | None => Undef
  | Some n =>
      match load (k_frames s) n with
      | None => Undef
      | Some page =>
          let back t := set_display (screen_x t, screen_y t)
                          (<[Z.to_nat n := video t]> (k_frames s)) (io t) s in
          match m (Screen (fst (k_cursor s)) (snd (k_cursor s)) page (k_io s)) with
          | Ret a t => Ret a (back t)
          | Hang t => Hang (back t)
          | Undef => Undef
          end
      end
  end.

Definition kprintf (fmt : string) (args : list arg) : M kernel unit :=
  _ ← on_screen (printf (cstring fmt) args); mret tt.

Definition find_programid : M kernel Z :=
  s ← get;
  let cr3 := cr3 (k_paging s) in
  if bool_decide (cr3 = dir_addr 0) then mret 0
  else if bool_decide (cr3 = dir_addr 1) then mret 1
  else if bool_decide (cr3 = dir_addr 2) then mret 2
  else if bool_decide (cr3 = dir_addr 3) then mret 3
  else if bool_decide (cr3 = dir_addr 4) then mret 4
  else if bool_decide (cr3 = dir_addr 5) then mret 5
  else if bool_decide (cr3 = dir_addr 6) then mret 6
  else kprintf "can't find programid for some reason. Gonna pause here.
" [] ;; hang.

Definition set_programpage (program_id : Z) : M kernel unit :=
  if bool_decide (0 <= program_id <= 6) then zoom (write_cr3 (dir_addr program_id))
  else kprintf "programpage error
" [] ;; hang.

(** Elements of the arrays; [upd] assigns to members of one. *)
Definition get_terminal (i : Z) : M kernel terminal :=
  s ← get; lift (load (terminals (k_terms s)) i).
Definition upd_terminal (i : Z) (f : terminal -> terminal) : M kernel unit :=
  s ← get;
  t ← lift (load (terminals (k_terms s)) i);
  ts ← lift (store (terminals (k_terms s)) i (f t));
  modify (fun s => lset (Terms ts (old_terminal (k_terms s)) (newterminal_flag (k_terms s))) s).

(** The process control block of [pid]: only 1 to 6 are in the kernel's page, the
    one of 0 would be the unmapped page at 8 MB. *)
Definition get_pcb (pid : Z) : M kernel pcb :=
  s ← get; lift (load (pcbs (k_procs s)) (pid - 1)).
Definition with_pcbs (ps : list pcb) (p : procs) : procs :=
  Procs (openTasks p) (curr_status p) (first_shell_entry_point p) (rtc_ops_value p)
    (directory_ops_value p) (file_ops_value p) ps.
Definition upd_pcb (pid : Z) (f : pcb -> pcb) : M kernel unit :=
  s ← get;
  p ← lift (load (pcbs (k_procs s)) (pid - 1));
  ps ← lift (store (pcbs (k_procs s)) (pid - 1) (f p));
  modify (fun s => lset (with_pcbs ps (k_procs s)) s).

(** [for(i = 0; i < 3; i++) if(program_id == terminals[i].program_id) return i;] *)
Fixpoint find_terminal_from (n : nat) (i pid : Z) : M kernel Z :=
  match n with
  | O => mret (-1)
  | S n' =>
      t ← get_terminal i;
      if bool_decide (u32 pid = program_id t) then mret i else find_terminal_from n' (i + 1) pid
  end.
Definition find_terminal (pid : Z) : M kernel Z := find_terminal_from 3 0 pid.

(** The number of the terminal's text page in [k_frames]. *)
Definition get_term_buffer (term : Z) : M kernel Z :=
  if bool_decide (term = 0) then mret 1
  else if bool_decide (term = 1) then mret 2
  else if bool_decide (term = 2) then mret 3
  else kprintf "get_term_buffer error
" [] ;; hang.
End Code.

(** Assignments to members. *)
Definition set_buffer_i (v : Z) (t : terminal) : terminal :=
  Terminal (t_x t) (t_y t) (line_buffer t) v (t_esp t) (t_ebp t) (t_cr3 t) (kernel_esp t)
    (program_id t) (active t).
Definition set_line_buffer (l : list Z) (t : terminal) : terminal :=
  Terminal (t_x t) (t_y t) l (buffer_i t) (t_esp t) (t_ebp t) (t_cr3 t) (kernel_esp t)
    (program_id t) (active t).
Definition set_active (v : Z) (t : terminal) : terminal :=
  Terminal (t_x t) (t_y t) (line_buffer t) (buffer_i t) (t_esp t) (t_ebp t) (t_cr3 t)
    (kernel_esp t) (program_id t) v.
Definition set_program_id (v : Z) (t : terminal) : terminal :=
  Terminal (t_x t) (t_y t) (line_buffer t) (buffer_i t) (t_esp t) (t_ebp t) (t_cr3 t)
    (kernel_esp t) v (active t).
Definition set_context (esp ebp kesp cr3 : Z) (t : terminal) : terminal :=
  Terminal (t_x t) (t_y t) (line_buffer t) (buffer_i t) esp ebp cr3 kesp (program_id t) (active t).
Definition set_position (x y : Z) (t : terminal) : terminal :=
  Terminal x y (line_buffer t) (buffer_i t) (t_esp t) (t_ebp t) (t_cr3 t) (kernel_esp t)
    (program_id t) (active t).

(** ** Rules *)

Section Rules.
Context `{HL : !Layout}.

Lemma upd_terminal_eq p (f : terminal -> terminal) t s :
  load (terminals (k_terms s)) p = Some t ->
  upd_terminal p f s
  = Ret tt (lset (Terms (alter f (Z.to_nat p) (terminals (k_terms s)))
                   (old_terminal (k_terms s)) (newterminal_flag (k_terms s))) s).
Proof.
  intros Ht. unfold upd_terminal, mbind, M_bind, get, lift. rewrite Ht.
  apply load_inv in Ht as [Hr Hl]. rewrite store_in by done. unfold modify. do 3 f_equal.
  apply list_eq. intros i. rewrite list_lookup_insert.
  destruct (decide (i = Z.to_nat p)) as [->|].
  - rewrite decide_True by (split; [done|lia]). by rewrite list_lookup_alter_eq, Hl.
  - rewrite decide_False by naive_solver. by rewrite list_lookup_alter_ne.
Qed.

Lemma get_terminal_eq p s t : load (terminals (k_terms s)) p = Some t -> get_terminal p s = Ret t s.
Proof. intros H. unfold get_terminal, mbind, M_bind, get, lift. by rewrite H. Qed.

Lemma get_pcb_eq pid s p : load (pcbs (k_procs s)) (pid - 1) = Some p -> get_pcb pid s = Ret p s.
Proof. intros H. unfold get_pcb, mbind, M_bind, get, lift. by rewrite H. Qed.

Lemma alter_store {A} (l : list A) i (f : A -> A) x :
  load l i = Some x -> store l i (f x) = Some (alter f (Z.to_nat i) l).
Proof.
  intros [Hr Hl]%load_inv. rewrite store_in by done. f_equal.
  apply list_eq. intros j. rewrite list_lookup_insert.
  destruct (decide (j = Z.to_nat i)) as [->|].
  - rewrite decide_True by (split; [done|lia]). by rewrite list_lookup_alter_eq, Hl.
  - rewrite decide_False by naive_solver. by rewrite list_lookup_alter_ne.
Qed.

Lemma load_alter_eq {A} (l : list A) i (f : A -> A) x :
  load l i = Some x -> load (alter f (Z.to_nat i) l) i = Some (f x).
Proof.
  intros H. pose proof (load_inv _ _ _ H) as [? Hl].
  rewrite load_nonneg, list_lookup_alter_eq by lia. by rewrite Hl.
Qed.

Lemma load_alter_ne {A} (l : list A) i j (f : A -> A) :
  0 <= i -> i <> j -> load (alter f (Z.to_nat i) l) j = load l j.
Proof.
  intros. unfold load. case_bool_decide; [|done]. apply list_lookup_alter_ne. lia.
Qed.

Definition altered_pcb (pid : Z) (f : pcb -> pcb) (s : kernel) : kernel :=
  lset (with_pcbs (alter f (Z.to_nat (pid - 1)) (pcbs (k_procs s))) (k_procs s)) s.

Lemma upd_pcb_eq pid f s p :
  load (pcbs (k_procs s)) (pid - 1) = Some p -> upd_pcb pid f s = Ret tt (altered_pcb pid f s).
Proof.
  intros H. unfold upd_pcb, mbind, M_bind, get, lift. by rewrite H, (alter_store _ _ _ p H).
Qed.

(** What a function of lib.c leaves in the kernel's state, on page [n]. *)
Definition with_screen (n : Z) (t : screen) (s : kernel) : kernel :=
  set_display (screen_x t, screen_y t) (<[Z.to_nat n := video t]> (k_frames s)) (io t) s.
Definition screen_of (page : list Z) (s : kernel) : screen :=
  Screen (fst (k_cursor s)) (snd (k_cursor s)) page (k_io s).

Lemma wp_on_screen {A} (m : M screen A) (Q : A -> kernel -> Prop) s n page :
  video_frame s = Some n -> load (k_frames s) n = Some page ->
  wp (on_screen m) Q s <-> wp m (fun a t => Q a (with_screen n t s)) (screen_of page s).
Proof.
  intros Hn Hp. unfold wp, on_screen. rewrite Hn, Hp. fold (screen_of page s).
  by destruct (m (screen_of page s)).
Qed.

Lemma dir_addr_eq t u :
  0 <= t < 7 -> 0 <= u < 7 -> bool_decide (dir_addr t = dir_addr u) = bool_decide (t = u).
Proof.
  intros. apply bool_decide_ext. split; [|by intros ->]. intros ?. by apply dir_addr_inj.
Qed.

Lemma find_programid_eq t s :
  cr3 (k_paging s) = dir_addr t -> 0 <= t < 7 -> find_programid s = Ret t s.
Proof.
  intros Hc Ht. unfold find_programid, mbind, M_bind, get. rewrite Hc.
  rewrite !dir_addr_eq by lia.
  assert (t = 0 \/ t = 1 \/ t = 2 \/ t = 3 \/ t = 4 \/ t = 5 \/ t = 6)
    as [-> | [-> | [-> | [-> | [-> | [-> | ->]]]]]] by lia; reflexivity.
Qed.

Lemma set_programpage_eq t s :
  0 <= t < 7 ->
  set_programpage t s
  = Ret tt (lset (Paging (dirs (k_paging s)) (tables (k_paging s)) (cr0 (k_paging s)) (dir_addr t)
                    (cr4 (k_paging s))) s).
Proof. intros. unfold set_programpage. by rewrite bool_decide_true by lia. Qed.

(** The first terminal that runs program [pid]. *)
Definition terminal_of (s : kernel) (pid : Z) : option Z :=
  head (filter (fun i => program_id <$> load (terminals (k_terms s)) i = Some pid) [0; 1; 2]).

Lemma find_terminal_step n i pid t s :
  load (terminals (k_terms s)) i = Some t -> 0 <= pid < 4294967296 ->
  find_terminal_from (S n) i pid s
  = if bool_decide (program_id t = pid) then Ret i s else find_terminal_from n (i + 1) pid s.
Proof.
  intros Ht Hp. cbn [find_terminal_from]. rewrite (bind_Ret _ _ _ _ _ (get_terminal_eq _ _ _ Ht)).
  rewrite u32_small by done. repeat case_bool_decide; done || exfalso; congruence.
Qed.

Lemma find_terminal_eq s pid :
  length (terminals (k_terms s)) = 3%nat -> 0 <= pid < 4294967296 ->
  find_terminal pid s = Ret (default (-1) (terminal_of s pid)) s.
Proof.
  intros Hl Hp. unfold find_terminal, terminal_of.
  destruct (terminals (k_terms s)) as [|a [|b [|c [|]]]] eqn:E; try done.
  rewrite (find_terminal_step _ 0 _ a), (find_terminal_step _ _ _ b), (find_terminal_step _ _ _ c)
    by (rewrite ?E; done).
  rewrite !filter_cons, filter_nil.
  change (load [a; b; c] 0) with (Some a). change (load [a; b; c] 1) with (Some b).
  change (load [a; b; c] 2) with (Some c). cbn [fmap option_fmap option_map].
  repeat case_bool_decide; repeat case_decide; try done; exfalso; congruence.
Qed.

Lemma terminal_of_inv s pid i :
  terminal_of s pid = Some i ->
  0 <= i < 3 /\ exists t, load (terminals (k_terms s)) i = Some t /\ program_id t = pid.
Proof.
  unfold terminal_of. set (l := [0; 1; 2]). destruct (filter _ l) as [|j k] eqn:E; [done|].
  intros [= <-].
  assert (j ∈ filter (fun i => program_id <$> load (terminals (k_terms s)) i = Some pid) l) as Hj
    by (rewrite E; left).
  apply list_elem_of_filter in Hj as [Hp Hl]. unfold l in Hl.
  rewrite !elem_of_cons, elem_of_nil in Hl. split; [lia|].
  destruct (load _ j) as [t|]; [|done]. injection Hp. eauto.
Qed.
End Rules.

(** A kernel with the three terminals' tasks queued, for the examples. *)
Definition demo_terminal (pid act : Z) : terminal :=
  Terminal 0 0 (replicate 128 0) 0 (0x7FF000 + pid) (0x7FE000 + pid) (0x420000 + 0x2000 * pid)
    (0x800000 - 4) pid act.
Definition demo_kernel : kernel :=
  Kernel (0, 0) [] []
    (Paging (fun t i => task_dir t i) (fun t i => task_table VIDEO_MEM i) 0 0x422000 0)
    (Fs 0x500000 [] 0) (0xFF, 0xFF) 0 (Keyboard 0 0 0 0 0)
    (Terms [demo_terminal 1 1; demo_terminal 2 1; demo_terminal 3 1] 0 0)
    (Sched [Some 0; Some 1; Some 2] 0)
    (Procs [-1; 0; 0; 0; -1; -1; -1] 0 0 0 0 0 []) (Cpustate 0x7FFFFC 0x18 100 200)
    (fun _ _ => 0).

(** The same with the screen blank. *)
Definition with_frames (fr : list (list Z)) (s : kernel) : kernel :=
  set_display (k_cursor s) fr (k_io s) s.
