(* ===== verification/Scheduler.v ===== *)
(** * The scheduler

    [src/student-distrib/scheduler.c]: switch_task, add_task_to_queue and
    remove_task_from_queue, on the three slots of [tasks]. *)
From S2P Require Import Kernel.

(** ** The code *)

Section Code.
Context `{!Layout}.

Definition set_tasks (l : list (option Z)) : M kernel unit :=
  modify (fun s => lset (Sched l (current_task_idx (k_sched s))) s).

(** [tasks[idx] == NULL || tasks[idx]->active == 0], negated. *)
Definition runnable (idx : Z) : M kernel bool :=
  s ← get;
  task ← lift (load (tasks (k_sched s)) idx);
  match task with
  | None => mret false
  | Some p => t ← get_terminal p; mret (bool_decide (active t <> 0))
  end.

(** The search loop: [n] iterations are left. *)
Fixpoint find_active (n : nat) (new_task_idx : Z) : M kernel (option Z) :=
  match n with
  | O => mret None
  | S n' =>
      r ← runnable new_task_idx;
      if (r : bool) then mret (Some new_task_idx)
      else find_active n' (Z.rem (new_task_idx + 1) MAXTERMS)
  end.

(** [tasks[idx]->...], which faults for NULL. *)
Definition task_at (idx : Z) : M kernel Z :=
  s ← get;
  task ← lift (load (tasks (k_sched s)) idx);
  lift task.

(** [tss.esp0 = MB_8 - KB_8 * (program_id - 1) - PREV; tss.ss0 = KERNEL_DS;] *)
Definition set_tss (program_id : Z) : M kernel unit :=
  modify (fun s =>
    lset (Cpustate (u32 (MB_8 - KB_8 * (program_id - 1) - PREV)) KERNEL_DS
            (esp_0 (k_cpu s)) (ebp_0 (k_cpu s))) s).

Definition switch_task : M kernel (control unit) :=
  s ← get;
  let cur := current_task_idx (k_sched s) in
  found ← find_active 3 (Z.rem (cur + 1) MAXTERMS);
  match found with
  | None => zoom (send_eoi 0) ;; mret (Returns tt)
  | Some new_task_idx =>
      if bool_decide (new_task_idx = cur) then zoom (send_eoi 0) ;; mret (Returns tt)
      else
        p ← task_at cur;
        upd_terminal p (fun t =>
          set_context (esp_0 (k_cpu s)) (ebp_0 (k_cpu s)) (tss_esp0 (k_cpu s))
            (cr3 (k_paging s)) t) ;;
        modify (fun s => lset (Sched (tasks (k_sched s)) new_task_idx) s) ;;
        q ← task_at new_task_idx;
        t ← get_terminal q;
        set_tss (program_id t) ;;
        zoom (write_cr3 (t_cr3 t)) ;;
        zoom (send_eoi 0) ;;
        mret (IntRet (t_ebp t) (t_esp t))
  end.

(** [task_add] is a pointer to a terminal, never NULL in this kernel. *)
Fixpoint add_task_loop (n : nat) (i cur task_add : Z) (ts : list (option Z)) :
    option (list (option Z)) :=
  match n with
  | O => Some ts
  | S n' =>
      let temp_idx := Z.rem (cur + i) MAXTERMS in
      task ← load ts temp_idx;
      match task with
      | None => store ts temp_idx (Some task_add)
      | Some _ => add_task_loop n' (i + 1) cur task_add ts
      end
  end.
Definition add_task_to_queue (task_add : Z) : M kernel unit :=
  s ← get;
  ts ← lift (add_task_loop 3 0 (current_task_idx (k_sched s)) task_add (tasks (k_sched s)));
  set_tasks ts.

Fixpoint remove_task_loop (n : nat) (i task_rm : Z) (ts : list (option Z)) :
    option (list (option Z)) :=
  match n with
  | O => Some ts
  | S n' =>
      task ← load ts i;
      if bool_decide (task = Some task_rm) then store ts i None
      else remove_task_loop n' (i + 1) task_rm ts
  end.
Definition remove_task_from_queue (task_rm : Z) : M kernel unit :=
  s ← get;
  ts ← lift (remove_task_loop 3 0 task_rm (tasks (k_sched s)));
  set_tasks ts.
End Code.

(** ** Lemmas *)

(** A well-formed scheduler: three slots, each empty or a terminal. *)
Record sched_ok (s : kernel) : Prop := {
  ok_slots : length (tasks (k_sched s)) = 3%nat;
  ok_terminals : length (terminals (k_terms s)) = 3%nat;
  ok_current : 0 <= current_task_idx (k_sched s) < 3;
  ok_tasks : Forall (fun o => match o with Some p => 0 <= p < 3 | None => True end)
               (tasks (k_sched s));
}.

(** Whether a slot can be switched to. *)
Definition slot_runnable (s : kernel) (idx : Z) : bool :=
  match load (tasks (k_sched s)) idx with
  | Some (Some p) =>
      match load (terminals (k_terms s)) p with
      | Some t => bool_decide (active t <> 0)
      | None => false
      end
  | _ => false
  end.

Section Lemmas.
Context `{HL : !Layout}.

Lemma runnable_spec s idx :
  sched_ok s -> 0 <= idx < 3 -> runnable idx s = Ret (slot_runnable s idx) s.
Proof.
  intros [Hn Ht Hc Hp] Hi. unfold runnable, slot_runnable, mbind, M_bind, get, lift.
  destruct (load_Some (tasks (k_sched s)) idx) as [o Ho]; [lia|]. rewrite Ho.
  destruct o as [p|]; [|done]. pose proof (load_Forall _ _ _ _ Hp Ho) as Hpr. simpl in Hpr.
  destruct (load_Some (terminals (k_terms s)) p) as [t Hload]; [lia|].
  unfold get_terminal, mbind, M_bind, get, lift. by rewrite Hload.
Qed.

(** The first runnable slot of a list. *)
Definition first_runnable (s : kernel) (l : list Z) : option Z :=
  head (filter (fun i => slot_runnable s i = true) l).

Lemma find_active_step s n idx :
  sched_ok s -> 0 <= idx < 3 ->
  find_active (S n) idx s
  = if slot_runnable s idx then Ret (Some idx) s else find_active n ((idx + 1) `mod` 3) s.
Proof.
  intros Hok Hi. cbn [find_active]. rewrite (bind_Ret _ _ _ _ _ (runnable_spec s idx Hok Hi)).
  unfold MAXTERMS. rewrite Z.rem_mod_nonneg by lia. by destruct (slot_runnable s idx).
Qed.

(** The search visits the slots behind the current one, and then that one. *)
Lemma find_active_spec s cur :
  sched_ok s -> 0 <= cur < 3 ->
  find_active 3 (Z.rem (cur + 1) MAXTERMS) s
  = Ret (first_runnable s [(cur + 1) `mod` 3; (cur + 2) `mod` 3; cur]) s.
Proof.
  intros Hok Hc. unfold MAXTERMS. rewrite Z.rem_mod_nonneg by lia.
  pose proof (Z.mod_pos_bound (cur + 1) 3). pose proof (Z.mod_pos_bound (cur + 2) 3).
  replace cur with ((((cur + 1) `mod` 3 + 1) `mod` 3 + 1) `mod` 3) at 4
    by (Z.to_euclidean_division_equations; lia).
  replace ((cur + 2) `mod` 3) with (((cur + 1) `mod` 3 + 1) `mod` 3)
    by (Z.to_euclidean_division_equations; lia).
  set (i := (cur + 1) `mod` 3) in *.
  rewrite !find_active_step by (done || lia || apply Z.mod_pos_bound; lia).
  unfold first_runnable. rewrite !filter_cons, filter_nil.
  by repeat (case_match; repeat case_decide; try done).
Qed.
(** The next slot that switch_task looks for. *)
Definition next_slot (s : kernel) : option Z :=
  let cur := current_task_idx (k_sched s) in
  first_runnable s [(cur + 1) `mod` 3; (cur + 2) `mod` 3; cur].

Lemma next_slot_runnable s n :
  next_slot s = Some n -> 0 <= current_task_idx (k_sched s) < 3 ->
  0 <= n < 3 /\ slot_runnable s n = true.
Proof.
  intros H Hc. unfold next_slot, first_runnable in H. set (l := [_; _; _]) in H.
  destruct (filter _ l) as [|i k] eqn:E; [done|]. injection H as <-.
  assert (i ∈ filter (fun i => slot_runnable s i = true) l) as Hi by (rewrite E; left).
  apply list_elem_of_filter in Hi as [Hr Hl]. split; [|done].
  pose proof (Z.mod_pos_bound (current_task_idx (k_sched s) + 1) 3).
  pose proof (Z.mod_pos_bound (current_task_idx (k_sched s) + 2) 3).
  unfold l in Hl. rewrite !elem_of_cons, elem_of_nil in Hl. lia.
Qed.

(** The terminal that a runnable slot points to. *)
Lemma slot_runnable_inv s n :
  slot_runnable s n = true ->
  exists p t, load (tasks (k_sched s)) n = Some (Some p) /\
    load (terminals (k_terms s)) p = Some t /\ active t <> 0.
Proof.
  unfold slot_runnable. destruct (load (tasks (k_sched s)) n) as [[p|]|]; try done.
  destruct (load (terminals (k_terms s)) p) as [t|] eqn:E; [|done].
  rewrite bool_decide_eq_true. eauto.
Qed.

(** An end-of-interrupt for the timer. *)
Definition eoi0 : ioev := Out 0x20 0x60.

(** The state after a switch from terminal [p] to slot [n], whose terminal is [t]. *)
Definition switched (s : kernel) (p n : Z) (t : terminal) (s' : kernel) : Prop :=
  let saved := set_context (esp_0 (k_cpu s)) (ebp_0 (k_cpu s)) (tss_esp0 (k_cpu s))
                 (cr3 (k_paging s)) in
  terminals (k_terms s') = alter saved (Z.to_nat p) (terminals (k_terms s)) /\
  tasks (k_sched s') = tasks (k_sched s) /\ current_task_idx (k_sched s') = n /\
  cr3 (k_paging s') = t_cr3 t /\ dirs (k_paging s') = dirs (k_paging s) /\
  tables (k_paging s') = tables (k_paging s) /\
  tss_esp0 (k_cpu s') = u32 (MB_8 - KB_8 * (program_id t - 1) - PREV) /\
  tss_ss0 (k_cpu s') = KERNEL_DS /\ k_io s' = eoi0 :: k_io s /\
  k_frames s' = k_frames s /\ k_cursor s' = k_cursor s.

Lemma switch_task_to s n p :
  sched_ok s -> next_slot s = Some n -> n <> current_task_idx (k_sched s) ->
  load (tasks (k_sched s)) (current_task_idx (k_sched s)) = Some (Some p) ->
  exists q t s', load (tasks (k_sched s)) n = Some (Some q) /\
    load (terminals (k_terms s')) q = Some t /\
    switch_task s = Ret (IntRet (t_ebp t) (t_esp t)) s' /\ switched s p n t s'.
Proof.
  intros Hok Hn Hne Hp. pose proof Hok as [_ Ht3 Hc Hpr].
  destruct (next_slot_runnable _ _ Hn Hc) as [Hnr Hrun].
  destruct (slot_runnable_inv _ _ Hrun) as (q & t0 & Hq & Ht0 & _).
  pose proof (load_Forall _ _ _ _ Hpr Hp) as Hpr'. simpl in Hpr'.
  destruct (load_Some (terminals (k_terms s)) p) as [tp Htp]; [lia|].
  set (saved := set_context (esp_0 (k_cpu s)) (ebp_0 (k_cpu s)) (tss_esp0 (k_cpu s))
                  (cr3 (k_paging s))).
  destruct (load_Some (alter saved (Z.to_nat p) (terminals (k_terms s))) q) as [t Ht].
  { rewrite length_alter. apply load_inv in Ht0. lia. }
  exists q, t. eexists. split; [done|]. split; [|split].
  2: {
    unfold switch_task. unfold mbind at 1, M_bind at 1, get at 1.
    rewrite (bind_Ret _ _ _ _ _ (find_active_spec s _ Hok Hc)). fold (next_slot s). rewrite Hn.
    rewrite bool_decide_false by done.
    assert (task_at (current_task_idx (k_sched s)) s = Ret p s) as E1.
    { unfold task_at, mbind, M_bind, get, lift. by rewrite Hp. }
    rewrite (bind_Ret _ _ _ _ _ E1), (bind_Ret _ _ _ _ _ (upd_terminal_eq p saved tp s Htp)).
    unfold task_at, get_terminal, set_tss, mbind, M_bind, get, lift, modify.
    cbn [lget lset kernel_sched kernel_terms k_sched k_terms tasks terminals].
    rewrite Hq. cbn [lget lset kernel_sched kernel_terms k_sched k_terms tasks terminals].
    rewrite Ht. reflexivity. }
  - exact Ht.
  - split_and!; reflexivity.
Qed.

Lemma switch_task_stays s :
  sched_ok s ->
  (next_slot s = None \/ next_slot s = Some (current_task_idx (k_sched s))) ->
  exists s', switch_task s = Ret (Returns tt) s' /\ s' = lset (eoi0 :: k_io s) s.
Proof.
  intros Hok Hn. pose proof (ok_current _ Hok) as Hc. eexists. split; [|reflexivity].
  unfold switch_task. unfold mbind at 1, M_bind at 1, get at 1.
  rewrite (bind_Ret _ _ _ _ _ (find_active_spec s _ Hok Hc)). fold (next_slot s).
  destruct Hn as [-> | ->]; [|rewrite bool_decide_true by done];
    destruct s as [? ? ? ? ? [? ?] ? ? ? ? ? ? ?]; reflexivity.
Qed.
End Lemmas.

(** *** The queue *)

Definition first_free (cur : Z) (ts : list (option Z)) : option Z :=
  head (filter (fun i => load ts i = Some None) [cur; (cur + 1) `mod` 3; (cur + 2) `mod` 3]).

Lemma three_slots (ts : list (option Z)) :
  length ts = 3%nat -> exists a b c, ts = [a; b; c].
Proof. destruct ts as [|a [|b [|c [|]]]]; try done. eauto. Qed.

Lemma add_task_loop_spec cur p ts :
  length ts = 3%nat -> 0 <= cur < 3 ->
  add_task_loop 3 0 cur p ts
  = Some (match first_free cur ts with Some i => <[Z.to_nat i := Some p]> ts | None => ts end).
Proof.
  intros (a & b & c & ->)%three_slots Hc.
  assert (cur = 0 \/ cur = 1 \/ cur = 2) as [-> | [-> | ->]] by lia;
    destruct a, b, c; reflexivity.
Qed.

(** The removal loop, on the three slots. *)
Lemma remove_task_loop_unfold p a b c :
  remove_task_loop 3 0 p [a; b; c]
  = Some (if bool_decide (a = Some p) then [None; b; c]
          else if bool_decide (b = Some p) then [a; None; c]
          else if bool_decide (c = Some p) then [a; b; None] else [a; b; c]).
Proof.
  cbn [remove_task_loop]. change (load [a; b; c] 0) with (Some a).
  change (load [a; b; c] (0 + 1)) with (Some b). change (load [a; b; c] (0 + 1 + 1)) with (Some c).
  cbn [mbind option_bind]. by repeat case_bool_decide.
Qed.

Lemma remove_task_loop_absent p ts :
  length ts = 3%nat -> Some p ∉ ts -> remove_task_loop 3 0 p ts = Some ts.
Proof.
  intros (a & b & c & ->)%three_slots Hp. rewrite !not_elem_of_cons in Hp.
  destruct Hp as (? & ? & ? & _). rewrite remove_task_loop_unfold.
  by rewrite !bool_decide_false by congruence.
Qed.

Lemma remove_task_loop_spec i p ts :
  length ts = 3%nat -> Some p ∉ ts -> load ts i = Some None ->
  remove_task_loop 3 0 p (<[Z.to_nat i := Some p]> ts) = Some ts.
Proof.
  intros (a & b & c & ->)%three_slots Hp Hi. rewrite !not_elem_of_cons in Hp.
  destruct Hp as (? & ? & ? & _). pose proof (load_inv _ _ _ Hi) as [Hr _]. simpl in Hr.
  assert (i = 0 \/ i = 1 \/ i = 2) as [-> | [-> | ->]] by lia;
    injection Hi as ->.
  - change (<[Z.to_nat 0:=Some p]> [None; b; c]) with [Some p; b; c].
    by rewrite remove_task_loop_unfold, bool_decide_true.
  - change (<[Z.to_nat 1:=Some p]> [a; None; c]) with [a; Some p; c].
    by rewrite remove_task_loop_unfold, bool_decide_false, bool_decide_true by congruence.
  - change (<[Z.to_nat 2:=Some p]> [a; b; None]) with [a; b; Some p].
    rewrite remove_task_loop_unfold, !(bool_decide_false (_ = Some p)) by congruence.
    by rewrite bool_decide_true.
Qed.

Lemma first_free_empty cur ts i : first_free cur ts = Some i -> load ts i = Some None.
Proof.
  unfold first_free. set (l := [_; _; _]). destruct (filter _ l) as [|j k] eqn:E; [done|].
  intros [= <-]. assert (j ∈ filter (fun i => load ts i = Some None) l) as Hj by (rewrite E; left).
  by apply list_elem_of_filter in Hj as [? _].
Qed.

(** ** Properties *)

(** C25: switch_task is round robin: it looks at the slots behind the current one in
    cyclic order, and switches to the first that holds an active terminal. It then
    stores the interrupted context (the stack pointers of the last keyboard
    interrupt, the kernel stack, %cr3) in the current terminal, loads the page
    directory and the kernel stack of the new one, acknowledges the timer and jumps
    to that terminal's stored stack pointers. When no other slot is runnable it only
    acknowledges the timer. *)
Theorem switch_task_round_robin `{!Layout} s p :
  sched_ok s -> load (tasks (k_sched s)) (current_task_idx (k_sched s)) = Some (Some p) ->
  match next_slot s with
  | Some n =>
      if bool_decide (n = current_task_idx (k_sched s))
      then switch_task s = Ret (Returns tt) (lset (eoi0 :: k_io s) s)
      else exists q t s', load (tasks (k_sched s)) n = Some (Some q) /\
             load (terminals (k_terms s')) q = Some t /\
             switch_task s = Ret (IntRet (t_ebp t) (t_esp t)) s' /\ switched s p n t s'
  | None => switch_task s = Ret (Returns tt) (lset (eoi0 :: k_io s) s)
  end.
Proof.
  intros Hok Hp. destruct (next_slot s) as [n|] eqn:E; [case_bool_decide as Hn|].
  - destruct (switch_task_stays s Hok) as (s' & Hr & ->); [right; congruence|done].
  - by apply switch_task_to.
  - destruct (switch_task_stays s Hok) as (s' & Hr & ->); [by left|done].
Qed.

Lemma demo_sched_ok : sched_ok demo_kernel.
Proof. split; simpl; [done|done|lia|]. repeat constructor; lia. Qed.

Lemma switch_task_round_robin_witness :
  match next_slot demo_kernel with
  | Some n =>
      if bool_decide (n = current_task_idx (k_sched demo_kernel))
      then switch_task demo_kernel = Ret (Returns tt) (lset (eoi0 :: k_io demo_kernel) demo_kernel)
      else exists q t s', load (tasks (k_sched demo_kernel)) n = Some (Some q) /\
             load (terminals (k_terms s')) q = Some t /\
             switch_task demo_kernel = Ret (IntRet (t_ebp t) (t_esp t)) s' /\
             switched demo_kernel 0 n t s'
  | None => switch_task demo_kernel = Ret (Returns tt) (lset (eoi0 :: k_io demo_kernel) demo_kernel)
  end.
Proof. apply (switch_task_round_robin demo_kernel 0); [exact demo_sched_ok|reflexivity]. Defined.

(** C26: a task that is switched away comes back as it was switched away. Other code and other
    switches may run in between, back and forth and through the third terminal: as long as
    the slot still holds its terminal and nothing writes the terminal's record, the switch that
    selects the slot again, from whichever terminal, jumps to the stack pointers that
    esp_0 and ebp_0 held, and loads the page directory that was loaded, when it was
    switched away; the kernel stack is that of the terminal's process. esp_0 and ebp_0 are
    those of the last keyboard interrupt: the timer's wrapper, which the switch interrupts the
    task by, sets neither. *)
Theorem switch_task_restores_context `{!Layout} s a p q c s1 s2 :
  sched_ok s -> current_task_idx (k_sched s) = a -> load (tasks (k_sched s)) a = Some (Some p) ->
  next_slot s <> None -> next_slot s <> Some a -> switch_task s = Ret c s1 ->
  sched_ok s2 -> load (tasks (k_sched s2)) a = Some (Some p) ->
  load (tasks (k_sched s2)) (current_task_idx (k_sched s2)) = Some (Some q) -> q <> p ->
  load (terminals (k_terms s2)) p = load (terminals (k_terms s1)) p -> next_slot s2 = Some a ->
  exists s3 t, switch_task s2 = Ret (IntRet (ebp_0 (k_cpu s)) (esp_0 (k_cpu s))) s3 /\
    cr3 (k_paging s3) = cr3 (k_paging s) /\ current_task_idx (k_sched s3) = a /\
    load (terminals (k_terms s)) p = Some t /\
    tss_esp0 (k_cpu s3) = u32 (MB_8 - KB_8 * (program_id t - 1) - PREV).
Proof.
  intros Hok <- Hp Hsome Hother Hrun Hok2 Hp2 Hq Hqp Hterm Hn2.
  destruct (next_slot s) as [b|] eqn:Hn; [|done].
  destruct (switch_task_to s b p Hok Hn ltac:(congruence) Hp) as (q' & t & s1' & _ & _ & Hr & Hsw).
  rewrite Hrun in Hr. injection Hr as -> <-. destruct Hsw as (Hterms1 & _).
  destruct (switch_task_to s2 _ q Hok2 Hn2 ltac:(intros E; rewrite <-E in Hq; congruence) Hq)
    as (p' & t' & s3 & Hp' & Ht' & Hr3 & Hsw3).
  rewrite Hp2 in Hp'. injection Hp' as <-. destruct Hsw3 as (Hterms3 & _ & Hc3 & Hcr3 & _ & _ & Htss3 & _).
  pose proof (load_Forall _ _ _ _ (ok_tasks _ Hok) Hp) as Hpr. simpl in Hpr.
  pose proof (load_Forall _ _ _ _ (ok_tasks _ Hok2) Hq) as Hqr. simpl in Hqr.
  destruct (load_Some (terminals (k_terms s)) p) as [t0 Ht0].
  { rewrite (ok_terminals _ Hok). lia. }
  assert (t' = set_context (esp_0 (k_cpu s)) (ebp_0 (k_cpu s)) (tss_esp0 (k_cpu s))
                 (cr3 (k_paging s)) t0) as ->.
  { rewrite Hterms3, load_nonneg, list_lookup_alter_ne, <-load_nonneg, Hterm, Hterms1,
      load_nonneg, list_lookup_alter_eq in Ht' by lia.
    rewrite load_nonneg in Ht0 by lia. rewrite Ht0 in Ht'. by injection Ht'. }
  exists s3, t0. by split_and!.
Qed.

(** From the first terminal to the second, to the third, and back to the first; a key was
    pressed at the second. *)
Definition demo_second : kernel := final (switch_task demo_kernel) demo_kernel.
Definition demo_third : kernel := final (switch_task (lset (Cpustate 0 0 300 400) demo_second)) demo_kernel.

Lemma switch_task_restores_context_witness :
  current_task_idx (k_sched demo_second) = 1 /\ current_task_idx (k_sched demo_third) = 2 /\
  exists s3 t, switch_task demo_third = Ret (IntRet (ebp_0 (k_cpu demo_kernel)) (esp_0 (k_cpu demo_kernel))) s3 /\
    cr3 (k_paging s3) = cr3 (k_paging demo_kernel) /\ current_task_idx (k_sched s3) = 0 /\
    load (terminals (k_terms demo_kernel)) 0 = Some t /\
    tss_esp0 (k_cpu s3) = u32 (MB_8 - KB_8 * (program_id t - 1) - PREV).
Proof.
  split; [reflexivity|]. split; [reflexivity|].
  apply (switch_task_restores_context demo_kernel 0 0 2 (IntRet 0x7FE002 0x7FF002) demo_second demo_third);
    [exact demo_sched_ok|reflexivity|reflexivity|discriminate|discriminate|reflexivity| |reflexivity|reflexivity|lia|reflexivity|reflexivity].
  split; [reflexivity|reflexivity|vm_compute; split; congruence|]. vm_compute. repeat constructor; congruence.
Defined.

(** the run queue: add_task_to_queue puts a terminal into the first free of the
    three slots, counted from the current one, and drops it silently when there is
    none; removing a terminal that was not queued before gives back the queue as it
    was, and removing an absent one changes nothing. *)
Theorem queue_add_remove s p :
  sched_ok s -> Some p ∉ tasks (k_sched s) ->
  exists s1, add_task_to_queue p s = Ret tt s1 /\
    tasks (k_sched s1)
    = (match first_free (current_task_idx (k_sched s)) (tasks (k_sched s)) with
       | Some i => <[Z.to_nat i := Some p]> (tasks (k_sched s))
       | None => tasks (k_sched s)
       end) /\
    remove_task_from_queue p s1 = Ret tt s /\ remove_task_from_queue p s = Ret tt s.
Proof.
  intros [Hl _ Hc _] Hp. eexists. split; [|split].
  - unfold add_task_to_queue, set_tasks, mbind, M_bind, get, lift.
    rewrite add_task_loop_spec by done. reflexivity.
  - reflexivity.
  - assert (lset (Sched (tasks (k_sched s)) (current_task_idx (k_sched s))) s = s) as Hs.
    { destruct s as [? ? ? ? ? ? ? ? ? [? ?] ? ? ?]. reflexivity. }
    unfold remove_task_from_queue, set_tasks, mbind, M_bind, get, lift, modify.
    cbn [lget lset kernel_sched k_sched tasks current_task_idx].
    rewrite (remove_task_loop_absent p (tasks (k_sched s))) by done.
    split; [|exact (f_equal (Ret tt) Hs)].
    destruct (first_free _ _) as [i|] eqn:E.
    + rewrite remove_task_loop_spec; [|done..|].
      * exact (f_equal (Ret tt) Hs).
      * by eapply first_free_empty.
    + rewrite remove_task_loop_absent by done. exact (f_equal (Ret tt) Hs).
Qed.

Definition demo_gap : kernel := lset (Sched [None; Some 1; Some 0] 1) demo_kernel.

Lemma queue_add_remove_witness :
  exists s1, add_task_to_queue 2 demo_gap = Ret tt s1 /\
    tasks (k_sched s1)
    = (match first_free (current_task_idx (k_sched demo_gap)) (tasks (k_sched demo_gap)) with
       | Some i => <[Z.to_nat i := Some 2]> (tasks (k_sched demo_gap))
       | None => tasks (k_sched demo_gap)
       end) /\
    remove_task_from_queue 2 s1 = Ret tt demo_gap /\
    remove_task_from_queue 2 demo_gap = Ret tt demo_gap.
Proof.
  apply (queue_add_remove demo_gap 2).
  - split; simpl; [done|done|lia|]. repeat constructor; lia.
  - simpl. rewrite !not_elem_of_cons. split_and!; try discriminate. apply not_elem_of_nil.
Defined.
