(* ===== verification/Terminal.v ===== *)
(** * The terminals

    [src/student-distrib/terminal.c]: the three terminals' screens and line buffers,
    terminal_read and terminal_write. The keyboard handler, which may execute a
    program, is in Keyboard.v. *)
From S2P Require Import Kernel.

(** ** The code *)

Section Code.
Context `{!Layout}.

Definition get_old_terminal : M kernel Z := gets (fun s => old_terminal (k_terms s)).
Definition set_old_terminal (v : Z) : M kernel unit :=
  modify (fun s => lset (Terms (terminals (k_terms s)) v (newterminal_flag (k_terms s))) s).
Definition set_newterminal_flag (v : Z) : M kernel unit :=
  modify (fun s => lset (Terms (terminals (k_terms s)) (old_terminal (k_terms s)) v) s).

(** [memcpy(dst, src, MEM_4KB)] between two text pages. *)
Definition copy_page (dst src : Z) : M kernel unit :=
  s ← get;
  page ← lift (load (k_frames s) src);
  fr ← lift (store (k_frames s) dst page);
  modify (fun s => set_display (k_cursor s) fr (k_io s) s).

(** The page that VIDEO is mapped to. *)
Definition video_page : M kernel Z := s ← get; lift (video_frame s).

(** [if(term == 0) ... else if(term == 1) ... else ...]: the terminal's buffer. *)
Definition buffer_frame (term : Z) : Z :=
  if bool_decide (term = 0) then 1 else if bool_decide (term = 1) then 2 else 3.

Definition save_terminal (term : Z) : M kernel unit :=
  s ← get;
  pid ← find_programid;
  upd_terminal term (fun t =>
    set_position (fst (k_cursor s)) (snd (k_cursor s))
      (set_program_id pid
        (set_context (esp_0 (k_cpu s)) (ebp_0 (k_cpu s)) (tss_esp0 (k_cpu s)) (cr3 (k_paging s)) t))) ;;
  src ← video_page;
  copy_page (buffer_frame term) src ;;
  t ← get_terminal term;
  zoom (non_video_mapping (program_id t) term).

(** [buf[i] = ' '] on the terminal's page *)
Definition put_frame (n i v : Z) : M kernel unit :=
  s ← get;
  page ← lift (load (k_frames s) n);
  page' ← lift (store page i v);
  fr ← lift (store (k_frames s) n page');
  modify (fun s => set_display (k_cursor s) fr (k_io s) s).

Definition terminal_init : M kernel unit :=
  set_old_terminal 0 ;;
  buf0 ← get_term_buffer 0;
  buf1 ← get_term_buffer 1;
  buf2 ← get_term_buffer 2;
  for_range 0 (NUM_ROWS * NUM_COLS) (fun i =>
    put_frame buf0 i 32 ;;
    put_frame buf1 i 32 ;;
    put_frame buf2 i 32) ;;
  for_range 0 3 (fun i =>
    upd_terminal i (fun t => Terminal 0 0 (line_buffer t) 0 0 0 0 0 0 0)) ;;
  upd_terminal 0 (set_active 1).

Definition terminal_open : Z := 0.
Definition terminal_close (fd : Z) : Z := 0.

(** [while(i < buffer_i) { buf[i] = line_buffer[i]; i++; }] *)
Fixpoint copy_line (n : nat) (i : Z) (line buf : list Z) : option (list Z) :=
  match n with
  | O => Some buf
  | S n' => c ← load line i; buf' ← store buf i c; copy_line n' (i + 1) line buf'
  end.

(** The result and the contents of [buf]. *)
Definition keyboard_read (buf : list Z) : M kernel (Z * list Z) :=
  old ← get_old_terminal;
  t ← get_terminal old;
  let i := buffer_i t in
  buf1 ← lift (copy_line (Z.to_nat i) 0 (line_buffer t) buf);
  buf2 ← lift (store buf1 i 0);
  s ← get;
  on_screen (update_cursor (snd (k_cursor s)) (fst (k_cursor s))) ;;
  upd_terminal old (set_buffer_i 0) ;;
  mret (s32 i, buf2).

(** The negation of terminal_read's loop condition. *)
Definition line_entered (term : Z) (s : kernel) : bool :=
  match load (terminals (k_terms s)) term with
  | Some t => bool_decide (buffer_i t <> 0 /\ load (line_buffer t) (buffer_i t - 1) = Some 10)
  | None => false
  end.

(** [env]: the interrupts while the loop runs; [None]: still waiting. *)
Definition terminal_read (env : list (M kernel unit)) (buf : list Z) (nbytes : Z) :
    M kernel (option (Z * list Z * list (M kernel unit))) :=
  pid ← find_programid;
  term ← find_terminal pid;
  upd_terminal term (set_buffer_i 0) ;;
  r ← spin (line_entered term) env;
  match r with
  | None => mret None
  | Some env' => r ← keyboard_read buf; mret (Some (fst r, snd r, env'))
  end.

(** One round of terminal_write's loop, for the character [toPrint]; [long] is
    [strlen(buf) > NUM_COLS]. *)
Definition next_row : M screen unit :=
  pressed_enter ;;
  set_cursor 0 (NUM_ROWS - 1).

Definition write_char (long : bool) (toPrint : Z) : M screen unit :=
  x ← get_cursor_x;
  when (bool_decide (x = 0)) (
    y ← get_cursor_y;
    if bool_decide (y < NUM_ROWS) then set_cursor 0 y else next_row) ;;
  x ← get_cursor_x;
  (if long && bool_decide (x + 1 = NUM_COLS) then
     y ← get_cursor_y;
     if bool_decide (y + 1 <> NUM_ROWS) then set_cursor 0 (y + 1) else next_row
   else when (bool_decide (x + 1 = NUM_COLS)) (
     y ← get_cursor_y;
     if bool_decide (y < NUM_ROWS) then set_cursor 0 (y + 1) else next_row)) ;;
  _ ← printf (cstring "%c") [AInt toPrint];
  mret tt.

(** [while( *str != 0 && i < nbytes)]: [str] is what is left of the string. *)
Fixpoint write_loop (long : bool) (str : list Z) (i nbytes : Z) : M screen unit :=
  match str with
  | [] => undef
  | c :: str' =>
      if bool_decide (c = 0) || bool_decide (nbytes <= i) then mret tt
      else write_char long c ;; write_loop long str' (i + 1) nbytes
  end.

Definition terminal_write (buf : list Z) (nbytes : Z) : M kernel Z :=
  pid ← find_programid;
  term ← find_terminal pid;
  match buf with
  | [] => undef
  | c :: _ =>
      (if bool_decide (c = 0) || bool_decide (nbytes <= 0) then mret tt
       else n ← lift (strlen buf);
            on_screen (write_loop (bool_decide (n > NUM_COLS)) buf 0 nbytes)) ;;
      upd_terminal term (set_buffer_i 0) ;;
      mret 0
  end.

Definition pressed_clear : M kernel unit :=
  on_screen clear ;;
  on_screen (set_cursor 0 0) ;;
  old ← get_old_terminal;
  upd_terminal old (set_buffer_i 0).

Definition backspace_pressed : M kernel unit :=
  old ← get_old_terminal;
  t ← get_terminal old;
  when (bool_decide (buffer_i t > 0)) (
    upd_terminal old (set_buffer_i (u32 (buffer_i t - 1))) ;;
    on_screen move_back).
End Code.

(** ** The abstract terminal

    The text of the page and the cursor. Rows 25 and 26 stand for a cursor below
    the screen, in column 0. *)
Record tty := Tty { tty_text : list Z; tty_x : Z; tty_y : Z }.

Definition tty_ok (t : tty) : Prop :=
  0 <= tty_x t < 80 /\ 0 <= tty_y t <= 26 /\ (25 <= tty_y t -> tty_x t = 0).

Definition scroll_text (l : list Z) : list Z := drop 80 l ++ replicate 80 32.

(** Before a character: a cursor below the screen scrolls it up, one in the last
    column goes to the next row. Only a long string scrolls there: in a short one
    the cursor may leave the screen. *)
Definition tty_start (t : tty) : tty :=
  if bool_decide (tty_x t = 0 /\ 25 <= tty_y t) then Tty (scroll_text (tty_text t)) 0 24 else t.
Definition tty_wrap (long : bool) (t : tty) : tty :=
  if bool_decide (tty_x t = 79) then
    if long && bool_decide (tty_y t = 24) then Tty (scroll_text (tty_text t)) 0 24
    else Tty (tty_text t) 0 (tty_y t + 1)
  else t.

(** A line break goes to the start of the next row; another character is stored, if
    the cursor is on the screen, and a cursor in row 25 comes back in row 0. *)
Definition tty_put (c : Z) (t : tty) : tty :=
  if bool_decide (c = 10 \/ c = 13) then Tty (tty_text t) 0 (tty_y t + 1)
  else
    Tty (if bool_decide (tty_y t < 25)
         then <[Z.to_nat (80 * tty_y t + tty_x t) := c]> (tty_text t) else tty_text t)
      (tty_x t + 1) (tty_y t `mod` 25).
Definition tty_char (long : bool) (t : tty) (c : Z) : tty :=
  tty_put c (tty_wrap long (tty_start t)).

(** ** Rules *)

Definition shows (s : screen) (t : tty) : Prop :=
  page_ok s /\ tty_ok t /\ text (video s) = tty_text t /\
  screen_x s = tty_x t /\ screen_y s = tty_y t.

Lemma wp_printf_c c (Q : Z -> screen -> Prop) s :
  byte c -> wp (putc c) (fun _ => Q 2) s -> wp (printf (cstring "%c") [AInt c]) Q s.
Proof.
  intros Hc H. unfold wp in *. unfold printf.
  rewrite (printf_loop_renders _ (bytes_of_string "%c") Plain _ _ [c]).
  - cbn [putcs]. rewrite !u8_small by (rewrite ?u8_small; done).
    unfold mbind, M_bind. by destruct (putc c s).
  - reflexivity.
  - apply bytes_of_string_bytes.
  - change (Some [u8 c] = Some [c]). by rewrite u8_small.
Qed.

(** A character at (x, y), possibly in the row below the screen. *)
Lemma putc_shows c s t :
  byte c -> page_ok s -> text (video s) = tty_text t ->
  screen_x s = tty_x t -> screen_y s = tty_y t -> 0 <= tty_x t < 79 -> 0 <= tty_y t <= 25 ->
  (tty_y t = 25 -> tty_x t = 0) ->
  wp (putc c) (fun _ s' => shows s' (tty_put c t)) s.
Proof.
  intros Hc [Hl Hb] Htxt Hx Hy Hxr Hyr H25. unfold tty_put. case_bool_decide as Hnl.
  - rewrite wp_putc_newline by done. unfold shows, tty_ok, page_ok. fields.
    cbn [tty_text tty_x tty_y]. rewrite Hy. split_and!; try done; lia.
  - rewrite (wp_putc_char c (tty_x t) (tty_y t)) by (naive_solver lia).
    cbv zeta. unfold shows, tty_ok, page_ok. fields. cbn [tty_text tty_x tty_y].
    rewrite !Z.rem_mod_nonneg by lia. rewrite (Z.mod_small (tty_x t + 1)) by lia.
    pose proof (Z.mod_pos_bound (tty_y t) 25).
    split_and!; try done; try lia; [lens|by apply put_cell_bytes|]. rewrite <-Htxt.
    case_bool_decide.
    + rewrite text_put_cell, u8_small by (done || lia). done.
    + apply load_ext; [lens|]. intros i Hi. rewrite text_length in Hi.
      rewrite !load_text by lia. unfold put_cell. by rewrite !load_insert_ne by lia.
Qed.

Lemma wp_next_row s (Q : unit -> screen -> Prop) :
  page_ok s ->
  (forall s', page_ok s' -> text (video s') = scroll_text (text (video s)) ->
     screen_x s' = 0 -> screen_y s' = 24 -> Q tt s') ->
  wp next_row Q s.
Proof.
  intros [Hl Hb] HQ. unfold next_row. rewrite wp_bind. apply wp_pressed_enter; [done..|].
  rewrite wp_set_cursor. unfold NUM_ROWS. apply HQ; [|by apply text_scroll|done|done].
  split; fields; [unfold scroll_video; by rewrite page_map_length|by apply scroll_bytes].
Qed.

(** One round of the loop. *)
Lemma write_char_shows long c s t :
  byte c -> shows s t -> wp (write_char long c) (fun _ s' => shows s' (tty_char long t c)) s.
Proof.
  intros Hc (Hok & (Hxr & Hyr & H25) & Htxt & Hx & Hy). unfold write_char.
  (* the cursor is on the screen *)
  enough (forall s1, page_ok s1 -> text (video s1) = tty_text (tty_start t) ->
    screen_x s1 = tty_x (tty_start t) -> screen_y s1 = tty_y (tty_start t) ->
    0 <= tty_x (tty_start t) < 80 -> 0 <= tty_y (tty_start t) <= 24 ->
    wp (x ← get_cursor_x;
        (if long && bool_decide (x + 1 = NUM_COLS) then
           y ← get_cursor_y;
           if bool_decide (y + 1 <> NUM_ROWS) then set_cursor 0 (y + 1) else next_row
         else when (bool_decide (x + 1 = NUM_COLS)) (
           y ← get_cursor_y;
           if bool_decide (y < NUM_ROWS) then set_cursor 0 (y + 1) else next_row)) ;;
        _ ← printf (cstring "%c") [AInt c]; mret tt)
      (fun _ s' => shows s' (tty_char long t c)) s1) as Hrest.
  { rewrite wp_bind, wp_get_cursor_x, wp_bind, wp_when, Hx. unfold tty_start in *.
    destruct (decide (tty_x t = 0)) as [E0|E0].
    - rewrite (bool_decide_true (_ = 0)) by done. rewrite wp_bind, wp_get_cursor_y, Hy.
      unfold NUM_ROWS. destruct (decide (tty_y t < 25)).
      + rewrite (bool_decide_true (_ < 25)) by done. rewrite wp_set_cursor.
        rewrite (bool_decide_false (_ /\ _)) in Hrest by lia.
        apply Hrest; fields; done || lia.
      + rewrite (bool_decide_false (_ < 25)) by done.
        rewrite (bool_decide_true (_ /\ _)) in Hrest by lia. cbn [tty_text tty_x tty_y] in Hrest.
        apply wp_next_row; [done|]. intros s' ? E1 ? ?. rewrite Htxt in E1. apply Hrest; done || lia.
    - rewrite (bool_decide_false (_ = 0)) by done. rewrite (bool_decide_false (_ /\ _)) in Hrest by lia.
      apply Hrest; done || lia. }
  clear - Hc. unfold tty_char. set (u := tty_start t). intros s Hok Htxt Hx Hy Hxr Hyr.
  enough (forall s1, page_ok s1 -> text (video s1) = tty_text (tty_wrap long u) ->
    screen_x s1 = tty_x (tty_wrap long u) -> screen_y s1 = tty_y (tty_wrap long u) ->
    0 <= tty_x (tty_wrap long u) < 79 -> 0 <= tty_y (tty_wrap long u) <= 25 ->
    (tty_y (tty_wrap long u) = 25 -> tty_x (tty_wrap long u) = 0) ->
    wp (_ ← printf (cstring "%c") [AInt c]; mret tt)
      (fun _ s' => shows s' (tty_put c (tty_wrap long u))) s1) as Hrest.
  { rewrite wp_bind, wp_get_cursor_x, wp_bind, Hx. unfold NUM_COLS, NUM_ROWS, tty_wrap in *.
    destruct (decide (tty_x u = 79)) as [E|E].
    - rewrite (bool_decide_true (tty_x u = 79)) in * by done.
      rewrite (bool_decide_true (_ + 1 = 80)) by lia. destruct long; cbn [andb] in *.
      + rewrite wp_bind, wp_get_cursor_y, Hy. destruct (decide (tty_y u = 24)) as [E24|E24].
        * rewrite bool_decide_false by lia. rewrite (bool_decide_true (_ = 24)) in * by done.
          cbn [tty_text tty_x tty_y] in *. apply wp_next_row; [done|].
          intros s' ? E1 ? ?. rewrite Htxt in E1. apply Hrest; done || lia.
        * rewrite bool_decide_true by lia. rewrite (bool_decide_false (_ = 24)) in * by done.
          cbn [tty_text tty_x tty_y] in *. rewrite wp_set_cursor. apply Hrest; fields; done || lia.
      + rewrite wp_when, wp_bind, wp_get_cursor_y, Hy. rewrite bool_decide_true by lia.
        cbn [tty_text tty_x tty_y] in *. rewrite wp_set_cursor. apply Hrest; fields; done || lia.
    - rewrite (bool_decide_false (tty_x u = 79)) in * by done.
      rewrite (bool_decide_false (_ + 1 = 80)) by lia. rewrite andb_false_r.
      rewrite wp_when. apply Hrest; done || lia. }
  intros s1 Hok1 Htxt1 Hx1 Hy1 Hxr1 Hyr1 H25. rewrite wp_bind. apply wp_printf_c; [done|].
  eapply wp_mono; [by apply putc_shows|]. intros ? s' Hs'. by rewrite wp_ret.
Qed.

Lemma write_loop_shows long s t str i nbytes scr :
  until0 s = Some str -> bytes str -> shows scr t ->
  wp (write_loop long s i nbytes)
    (fun _ scr' => shows scr' (foldl (tty_char long) t (take (Z.to_nat (nbytes - i)) str))) scr.
Proof.
  revert str i t scr. induction s as [|c s IH]; intros str i t scr Hs Hb Hsh; [done|].
  simpl in Hs. cbn [write_loop]. case_bool_decide as E0.
  { injection Hs as <-. cbn [orb]. rewrite wp_ret. by destruct (Z.to_nat _). }
  apply bind_Some in Hs as (l & Hl & [= <-]). apply Forall_cons in Hb as [Hc Hb].
  case_bool_decide as Ei; cbn [orb].
  - rewrite wp_ret. by replace (Z.to_nat (nbytes - i)) with 0%nat by lia.
  - replace (Z.to_nat (nbytes - i)) with (S (Z.to_nat (nbytes - (i + 1)))) by lia.
    rewrite wp_bind. eapply wp_mono; [by apply write_char_shows|].
    intros [] scr' Hsh'. by apply IH.
Qed.

(** ** The kernel's terminals *)

(** The page that VIDEO is mapped to is frame [n], with contents [page]. *)
Record console `{!Layout} (s : kernel) (n : Z) (page : list Z) : Prop := {
  con_frame : video_frame s = Some n;
  con_page : load (k_frames s) n = Some page;
  con_length : length page = 4096%nat;
  con_bytes : bytes page;
}.

(** What the terminal shows there. *)
Definition tty_of (s : kernel) (page : list Z) : tty :=
  Tty (text page) (fst (k_cursor s)) (snd (k_cursor s)).

(** A program: its page directory is loaded, and its terminal is [term]. *)
Record running `{!Layout} (s : kernel) (pid term : Z) : Prop := {
  run_cr3 : cr3 (k_paging s) = dir_addr pid;
  run_pid : 0 <= pid < 7;
  run_terms : length (terminals (k_terms s)) = 3%nat;
  run_term : terminal_of s pid = Some term;
}.

Definition altered_terminal (term : Z) (f : terminal -> terminal) (s : kernel) : kernel :=
  lset (Terms (alter f (Z.to_nat term) (terminals (k_terms s))) (old_terminal (k_terms s))
          (newterminal_flag (k_terms s))) s.

Section Kernel.
Context `{HL : !Layout}.

Lemma running_find s pid term :
  running s pid term -> find_programid s = Ret pid s /\ find_terminal pid s = Ret term s.
Proof.
  intros [Hc Hp Hl Ht]. split; [by apply find_programid_eq|].
  rewrite find_terminal_eq by (done || lia). by rewrite Ht.
Qed.

Lemma running_terminal s pid term :
  running s pid term ->
  exists t, load (terminals (k_terms s)) term = Some t /\ program_id t = pid /\ 0 <= term < 3.
Proof. intros [_ _ _ (Hr & t & Ht & Hp)%terminal_of_inv]. eauto. Qed.

Lemma with_screen_id s n page :
  load (k_frames s) n = Some page -> with_screen n (screen_of page s) s = s.
Proof.
  intros [_ Hl]%load_inv. destruct s as [[x y] fr ? ? ? ? ? ? ? ? ? ? ?].
  unfold with_screen, screen_of, set_display. cbn in *. by rewrite list_insert_id.
Qed.

Lemma console_shows s n page :
  console s n page -> tty_ok (tty_of s page) -> shows (screen_of page s) (tty_of s page).
Proof. intros [_ _ Hl Hb] Hok. unfold shows, page_ok. split_and!; done. Qed.
End Kernel.

(** ** Properties *)

(** C12: terminal_write refines the abstract terminal: it returns 0, and the text
    page that VIDEO is mapped to and the cursor are those of the abstract terminal
    after the first [nbytes] characters of the string (to its NUL), one after the
    other; every other text page is unchanged, and the line buffer of the caller's
    terminal is emptied. *)
Theorem terminal_write_refines_tty `{!Layout} s pid term n page buf str nbytes :
  running s pid term -> console s n page -> tty_ok (tty_of s page) ->
  until0 buf = Some str -> bytes buf ->
  let t := foldl (tty_char (bool_decide (80 < len str))) (tty_of s page)
             (take (Z.to_nat nbytes) str) in
  exists page' h,
    terminal_write buf nbytes s
    = Ret 0 (altered_terminal term (set_buffer_i 0)
              (set_display (tty_x t, tty_y t) (<[Z.to_nat n := page']> (k_frames s)) h s)) /\
    text page' = tty_text t /\ length page' = 4096%nat /\ bytes page' /\ tty_ok t.
Proof.
  intros Hrun Hcon Hok Hstr Hb t. pose proof (running_find _ _ _ Hrun) as [Hpid Hterm].
  destruct (running_terminal _ _ _ Hrun) as (tm & Htm & _).
  assert (bytes str) as Hbs.
  { rewrite <-(until0_prefix _ _ Hstr). by apply Forall_take. }
  unfold terminal_write. rewrite (bind_Ret _ _ _ _ _ Hpid), (bind_Ret _ _ _ _ _ Hterm).
  destruct buf as [|c buf]; [done|].
  enough (exists scr,
    (if bool_decide (c = 0) || bool_decide (nbytes <= 0) then mret tt
     else n ← lift (strlen (c :: buf));
          on_screen (write_loop (bool_decide (n > NUM_COLS)) (c :: buf) 0 nbytes)) s
    = Ret tt (with_screen n scr s) /\ shows scr t) as (scr & Hrun1 & (Hpl & Hpb) & Htok & Htx & Hx & Hy).
  { exists (video scr), (io scr). rewrite (bind_Ret _ _ _ _ _ Hrun1).
    rewrite (bind_Ret _ _ _ _ _ (upd_terminal_eq term _ tm (with_screen n scr s) Htm)).
    split_and!; try done. rewrite <-Hx, <-Hy. reflexivity. }
  pose proof (write_loop_shows (bool_decide (80 < len str)) _ _ _ 0 nbytes _ Hstr Hbs
                (console_shows _ _ _ Hcon Hok)) as Hw.
  rewrite Z.sub_0_r in Hw. fold t in Hw.
  assert (t = tty_of s page ->
    exists scr, (mret tt : M kernel unit) s = Ret tt (with_screen n scr s) /\ shows scr t) as Hskip.
  { intros ->. exists (screen_of page s). rewrite with_screen_id by apply Hcon.
    split; [done|by eapply console_shows]. }
  destruct (decide (c = 0)) as [E0|E0]; [|destruct (decide (nbytes <= 0)) as [En|En]].
  - rewrite (bool_decide_true (c = 0)) by done. cbn [orb]. apply Hskip. subst c. injection Hstr as <-. unfold t. by destruct (Z.to_nat nbytes).
  - rewrite (bool_decide_true (nbytes <= 0)), orb_true_r by done. apply Hskip. unfold t.
    by replace (Z.to_nat nbytes) with 0%nat by lia.
  - rewrite (bool_decide_false (c = 0)), (bool_decide_false (nbytes <= 0)) by done. cbn [orb].
    rewrite (strlen_Some _ _ Hstr). change (lift (Some (len str))) with (mret (M:=M kernel) (len str)).
    assert (wp (on_screen (write_loop (bool_decide (len str > NUM_COLS)) (c :: buf) 0 nbytes))
      (fun _ s' => exists scr, s' = with_screen n scr s /\ shows scr t) s) as Hk.
    { rewrite wp_on_screen by apply Hcon. unfold NUM_COLS.
      rewrite (bool_decide_ext (len str > 80) (80 < len str)) by lia.
      eapply wp_mono; [exact Hw|]. naive_solver. }
    apply wp_unit in Hk as (s' & Hk & scr & -> & Hsh). by exists scr.
Qed.

Definition demo_console : kernel := with_frames [blank_page] demo_kernel.

Lemma demo_running : running demo_console 1 0.
Proof. split; [reflexivity|lia|reflexivity|reflexivity]. Qed.

Lemma demo_shown : console demo_console 0 blank_page /\ tty_ok (tty_of demo_console blank_page).
Proof.
  split.
  - split; [reflexivity|reflexivity|done|]. apply blank_ok with (x := 0) (y := 0).
  - unfold tty_ok. simpl. lia.
Qed.

Lemma terminal_write_refines_tty_witness :
  let t := foldl (tty_char false) (tty_of demo_console blank_page) [104; 105; 10] in
  tty_y t = 1 /\ exists page' h,
    terminal_write (cstring "hi
!") 3 demo_console
    = Ret 0 (altered_terminal 0 (set_buffer_i 0)
              (set_display (tty_x t, tty_y t) [page'] h demo_console)) /\
    text page' = tty_text t /\ length page' = 4096%nat /\ bytes page' /\ tty_ok t.
Proof.
  split; [reflexivity|].
  apply (terminal_write_refines_tty demo_console 1 0 0 blank_page (cstring "hi
!") [104; 105; 10; 33] 3 demo_running (proj1 demo_shown) (proj2 demo_shown)); [reflexivity|].
  apply cstring_bytes.
Defined.
