(* ===== verification/Syscall.v ===== *)
(** * The system calls on files

    [src/student-distrib/systemcall.c]: open, close, read, write, getargs, vidmap and
    the program loader; read_file of [file_system.c]. A buffer that a caller passes
    is the list of its bytes. execute and halt are in Exec.v. *)
From S2P Require Import Kernel Terminal.

(** ** The code *)

(** Assignments to members of a file descriptor. *)
Definition set_flags (v : Z) (f : file_desc) : file_desc :=
  FileDesc (fd_fileName f) (inode_ptr f) (filePosition f) v (sysops_ptr f).
Definition set_filePosition (v : Z) (f : file_desc) : file_desc :=
  FileDesc (fd_fileName f) (inode_ptr f) v (flags f) (sysops_ptr f).
Definition set_sysops (o : sys_ops) (f : file_desc) : file_desc :=
  FileDesc (fd_fileName f) (inode_ptr f) (filePosition f) (flags f) o.
Definition set_inode_ptr (v : Z) (f : file_desc) : file_desc :=
  FileDesc (fd_fileName f) v (filePosition f) (flags f) (sysops_ptr f).
Definition set_fileName (l : list Z) (f : file_desc) : file_desc :=
  FileDesc l (inode_ptr f) (filePosition f) (flags f) (sysops_ptr f).
Definition with_fds (l : list file_desc) (p : pcb) : pcb :=
  Pcb l (prev_pcb p) (p_esp p) (p_ebp p) (p_cr3 p) (parent_pid p) (argument p).

(** The members [value] of the operation tables. *)
Definition with_values (r d f : Z) (p : procs) : procs :=
  Procs (openTasks p) (curr_status p) (first_shell_entry_point p) r d f (pcbs p).
Definition valued (o : sys_ops) (v : Z) (s : kernel) : kernel :=
  let p := k_procs s in
  lset (match o with
        | RtcOps => with_values v (directory_ops_value p) (file_ops_value p) p
        | DirectoryOps => with_values (rtc_ops_value p) v (file_ops_value p) p
        | FileOps => with_values (rtc_ops_value p) (directory_ops_value p) v p
        | _ => p
        end) s.
Definition set_value (o : sys_ops) (v : Z) : M kernel unit := modify (valued o v).

Section Code.
Context `{!Layout} `{!Device}.

(** [currPCB->fd[i]] *)
Definition get_fd (pid i : Z) : M kernel file_desc :=
  p ← get_pcb pid; lift (load (fds p) i).
Definition upd_fd (pid i : Z) (f : file_desc -> file_desc) : M kernel unit :=
  p ← get_pcb pid;
  d ← lift (load (fds p) i);
  l ← lift (store (fds p) i (f d));
  upd_pcb pid (with_fds l).

Definition get_image : M kernel (list Z) := gets (fun s => image (k_fs s)).

Definition read_file (fd : Z) (buf : list Z) (bytes : Z) : M kernel (Z * list Z) :=
  cur_programid ← find_programid;
  f ← get_fd cur_programid fd;
  img ← get_image;
  r ← lift (read_dentry_by_name img (fd_fileName f));
  if bool_decide (fst r = -1) then mret (-1, buf)
  else
    tempDentry ← lift (snd r);
    let offset := filePosition f in
    let inodeIndex := u32 (d_inodeNum tempDentry) in
    d ← lift (read_data img inodeIndex offset (Some buf) (u32 bytes));
    let byteRead := fst d in
    if bool_decide (byteRead = -1) then mret (-1, snd d)
    else if bool_decide (byteRead = 0) then
      l ← lift (ld32 img (s32 (d_inodeNum tempDentry + 1) * FOUR_KILOBYTES));
      upd_fd cur_programid fd (set_filePosition (u32 l)) ;;
      mret (0, snd d)
    else
      upd_fd cur_programid fd (set_filePosition (u32 (byteRead + offset))) ;;
      mret (byteRead, snd d).

(** The entries of the operation tables. A read returns [None] while it waits, else
    its result, the buffer and the interrupts that are left. *)
Definition syscall_open (ops : sys_ops) (filename : list Z) : M kernel Z :=
  match ops with
  | NullOps => undef
  | RtcOps => zoom rtc_open
  | TerminalOps => mret terminal_open
  | DirectoryOps => mret (open_directory filename)
  | FileOps => img ← get_image; lift (open_file img filename)
  end.

Definition syscall_read (env : list (M kernel unit)) (ops : sys_ops) (fd : Z) (buf : list Z)
    (nbytes : Z) : M kernel (option (Z * list Z * list (M kernel unit))) :=
  match ops with
  | NullOps => undef
  | RtcOps =>
      r ← rtc_read env;
      mret (match r with None => None | Some (v, env') => Some (v, buf, env') end)
  | TerminalOps => terminal_read env buf nbytes
  | DirectoryOps => r ← zoom (read_directory buf); mret (Some (fst r, snd r, env))
  | FileOps => r ← read_file fd buf nbytes; mret (Some (fst r, snd r, env))
  end.

Definition syscall_write (ops : sys_ops) (fd : Z) (buf : list Z) (nbytes : Z) : M kernel Z :=
  match ops with
  | NullOps => undef
  | RtcOps => zoom (rtc_write nbytes)
  | TerminalOps => terminal_write buf nbytes
  | DirectoryOps => mret (write_directory fd nbytes)
  | FileOps => mret (write_file fd nbytes)
  end.

(** [fd < 0 || fd > 7 || fd == std || currPCB->fd[fd].flags == 0] *)
Definition bad_fd (pid fd std : Z) : M kernel bool :=
  if bool_decide (fd < 0) || bool_decide (fd > 7) || bool_decide (fd = std) then mret true
  else f ← get_fd pid fd; mret (bool_decide (flags f = 0)).

Definition read (env : list (M kernel unit)) (fd : Z) (buf : list Z) (nbytes : Z) :
    M kernel (option (Z * list Z * list (M kernel unit))) :=
  pid ← find_programid;
  bad ← bad_fd pid fd 1;
  if (bad : bool) then mret (Some (-1, buf, env))
  else f ← get_fd pid fd; syscall_read env (sysops_ptr f) fd buf nbytes.

Definition write (fd : Z) (buf : list Z) (nbytes : Z) : M kernel Z :=
  pid ← find_programid;
  bad ← bad_fd pid fd 0;
  if (bad : bool) then mret (-1)
  else
    f ← get_fd pid fd;
    r ← syscall_write (sysops_ptr f) fd buf nbytes;
    if bool_decide (r = 0) then n ← lift (strlen buf); mret (s32 n) else mret (-1).

(** The search for a free descriptor, which takes it. *)
Fixpoint take_fd (n : nat) (i pid : Z) : M kernel Z :=
  match n with
  | O => mret (-1)
  | S n' =>
      f ← get_fd pid i;
      if bool_decide (flags f = 0) then upd_fd pid i (set_flags 1) ;; mret i
      else take_fd n' (i + 1) pid
  end.

Definition open (filename : list Z) : M kernel Z :=
  c ← lift (load filename 0);
  if bool_decide (c = 0) then mret (-1)
  else
    pid ← find_programid;
    img ← get_image;
    r ← lift (read_dentry_by_name img filename);
    if bool_decide (fst r = 0) then
      tempDentry ← lift (snd r);
      fd_used ← take_fd (Z.to_nat (NUM_FILE_DESCRIPTOR - 2)) 2 pid;
      if bool_decide (fd_used = -1) then mret (-1)
      else
        upd_fd pid fd_used (set_filePosition 0) ;;
        let finish :=
          f ← get_fd pid fd_used;
          rv ← syscall_open (sysops_ptr f) filename;
          mret (if bool_decide (rv = 0) then fd_used else -1) in
        let ty := d_fileType tempDentry in
        if bool_decide (ty = 0) then
          upd_fd pid fd_used (set_sysops RtcOps) ;;
          set_value RtcOps 1 ;;
          upd_fd pid fd_used (set_inode_ptr 0) ;;
          finish
        else if bool_decide (ty = 1) then
          upd_fd pid fd_used (set_sysops DirectoryOps) ;;
          set_value DirectoryOps 2 ;;
          finish
        else if bool_decide (ty = 2) then
          upd_fd pid fd_used (set_sysops FileOps) ;;
          upd_fd pid fd_used (set_filePosition 0) ;;
          s ← get;
          upd_fd pid fd_used
            (set_inode_ptr (get_inodeptr (bootHead (k_fs s)) (d_inodeNum tempDentry))) ;;
          f ← get_fd pid fd_used;
          name ← lift (strcpy (fd_fileName f) filename);
          upd_fd pid fd_used (set_fileName name) ;;
          set_value FileOps 3 ;;
          finish
        else mret (-1)
    else mret (-1).

Definition close (fd : Z) : M kernel Z :=
  if bool_decide (fd < 2) || bool_decide (fd > 7) then mret (-1)
  else
    pid ← find_programid;
    if bool_decide (pid = -1) then mret (-1)
    else
      f ← get_fd pid fd;
      if bool_decide (flags f = 0) then mret (-1)
      else
        upd_fd pid fd (set_flags 0) ;;
        upd_fd pid fd (set_sysops NullOps) ;;
        upd_fd pid fd (set_filePosition 0) ;;
        mret 0.

Definition getargs (buf : list Z) (nbytes : Z) : M kernel (Z * list Z) :=
  pid ← find_programid;
  p ← get_pcb pid;
  n ← lift (strlen (argument p));
  if bool_decide (nbytes < s32 n + 1) then mret (-1, buf)
  else buf' ← lift (strcpy buf (argument p)); mret (0, buf').

(** The program frame that holds a physical address, and the offset in it. *)
Definition program_at (pa : Z) : option (Z * Z) :=
  let t := (pa - 0x400000) `div` 0x400000 in
  if bool_decide (1 <= t <= 6) then Some (t, pa `mod` 0x400000) else None.

(** The kernel stores the bytes [l] at the linear address [va], in one program
    frame. The code does not check the address (vidmap refuses two values): a store
    elsewhere, into the kernel's page or the text page, is undefined in the model. *)
Definition put_program (va : Z) (l : list Z) : M kernel unit :=
  s ← get;
  pa ← lift (translate (k_paging s) false true va);
  '(t, off) ← lift (program_at pa);
  if bool_decide (off + len l <= 0x400000) then
    modify (set_programs (fun u i =>
      if bool_decide (u = t /\ off <= i < off + len l)
      then default 0 (load l (i - off)) else k_programs s u i))
  else undef.
(** The [n] bytes at [va]. *)
Definition get_program (va n : Z) : M kernel (list Z) :=
  s ← get;
  pa ← lift (translate (k_paging s) false false va);
  '(t, off) ← lift (program_at pa);
  if bool_decide (off + n <= 0x400000)
  then mret ((fun i => k_programs s t (off + i)) <$> seqZ 0 n) else undef.

(** A little-endian uint32_t. *)
Definition bytes32 (v : Z) : list Z :=
  [u8 v; u8 (Z.shiftr v 8); u8 (Z.shiftr v 16); u8 (Z.shiftr v 24)].

Definition vidmap (screen_start : Z) : M kernel Z :=
  if bool_decide (screen_start = 0) || bool_decide (screen_start = 0x400000) then mret (-1)
  else put_program screen_start (bytes32 VIDEO_MEM) ;; mret VIDEO_MEM.

(** The bytes from PROGRAM_MEM to the end of the program's page are the buffer that
    read_data may write; [numBytes] of them matter. *)
Definition page_loader (file : list Z) (program_id : Z) : M kernel Z :=
  img ← get_image;
  r ← lift (read_dentry_by_name img file);
  if bool_decide (fst r = -1) then kprintf "didn't find file by name
" [] ;; hang
  else
    file_dentry ← lift (snd r);
    let inodeNum := d_inodeNum file_dentry in
    numBytes ← lift (ld32 img (s32 (inodeNum + 1) * FOUR_KILOBYTES));
    set_programpage program_id ;;
    buf ← get_program PROGRAM_MEM (Z.min (u32 numBytes) (MB_132 - PROGRAM_MEM));
    d ← lift (read_data img (u32 inodeNum) 0 (Some buf) (u32 numBytes));
    put_program PROGRAM_MEM (snd d) ;;
    if bool_decide (fst d = -1) then kprintf "readdata error
" [] ;; hang
    else mret 0.
End Code.

(** ** Rules *)

(** The file descriptor [i] of process [pid]. *)
Definition fd_of (s : kernel) (pid i : Z) : option file_desc :=
  p ← load (pcbs (k_procs s)) (pid - 1); load (fds p) i.

Definition altered_fd (pid i : Z) (f : file_desc -> file_desc) (s : kernel) : kernel :=
  altered_pcb pid (fun p => with_fds (alter f (Z.to_nat i) (fds p)) p) s.

Section Rules.
Context `{HL : !Layout} `{HD : !Device}.

Lemma fd_of_inv s pid i d :
  fd_of s pid i = Some d ->
  exists p, load (pcbs (k_procs s)) (pid - 1) = Some p /\ load (fds p) i = Some d.
Proof. unfold fd_of. destruct (load _ (pid - 1)); naive_solver. Qed.

Lemma get_fd_eq s pid i d : fd_of s pid i = Some d -> get_fd pid i s = Ret d s.
Proof.
  intros (p & Hp & Hd)%fd_of_inv. unfold get_fd. rewrite (bind_Ret _ _ _ _ _ (get_pcb_eq _ _ _ Hp)).
  by rewrite Hd.
Qed.

Lemma altered_pcb_ext pid f g s p :
  load (pcbs (k_procs s)) (pid - 1) = Some p -> f p = g p -> altered_pcb pid f s = altered_pcb pid g s.
Proof.
  intros [_ Hp]%load_inv Hfg. unfold altered_pcb. do 2 f_equal. apply list_eq. intros j.
  destruct (decide (j = Z.to_nat (pid - 1))) as [->|].
  - rewrite !list_lookup_alter_eq, Hp. simpl. by rewrite Hfg.
  - by rewrite !list_lookup_alter_ne.
Qed.

Lemma upd_fd_eq s pid i f d : fd_of s pid i = Some d -> upd_fd pid i f s = Ret tt (altered_fd pid i f s).
Proof.
  intros (p & Hp & Hd)%fd_of_inv. unfold upd_fd. rewrite (bind_Ret _ _ _ _ _ (get_pcb_eq _ _ _ Hp)).
  unfold mbind, M_bind, lift. rewrite Hd, (alter_store _ _ _ _ Hd), (upd_pcb_eq _ _ _ _ Hp).
  f_equal. by eapply altered_pcb_ext.
Qed.

Lemma fd_of_altered s pid i f : fd_of (altered_fd pid i f s) pid i = f <$> fd_of s pid i.
Proof.
  unfold fd_of, altered_fd, altered_pcb. cbn [lset kernel_procs k_procs with_pcbs pcbs].
  destruct (load (pcbs (k_procs s)) (pid - 1)) as [p|] eqn:E.
  - rewrite (load_alter_eq _ _ _ p E). cbn [mbind option_bind with_fds fds].
    destruct (load (fds p) i) as [d|] eqn:Ed; [by rewrite (load_alter_eq _ _ _ d Ed)|].
    unfold load in *. case_bool_decide; [|done]. by rewrite list_lookup_alter_eq, Ed.
  - unfold load in *. case_bool_decide; [|done]. by rewrite list_lookup_alter_eq, E.
Qed.

Lemma fd_of_altered_ne s pid i j f :
  0 <= i -> i <> j -> fd_of (altered_fd pid i f s) pid j = fd_of s pid j.
Proof.
  intros Hi Hij. unfold fd_of, altered_fd, altered_pcb. cbn [lset kernel_procs k_procs with_pcbs pcbs].
  destruct (load (pcbs (k_procs s)) (pid - 1)) as [p|] eqn:E.
  - rewrite (load_alter_eq _ _ _ p E). cbn [mbind option_bind with_fds fds].
    by rewrite load_alter_ne.
  - unfold load in *. case_bool_decide; [|done]. by rewrite list_lookup_alter_eq, E.
Qed.

Lemma altered_fd_twice s pid i f g :
  altered_fd pid i g (altered_fd pid i f s) = altered_fd pid i (g ∘ f) s.
Proof.
  unfold altered_fd, altered_pcb. cbn [lset kernel_procs k_procs with_pcbs pcbs openTasks curr_status
    first_shell_entry_point rtc_ops_value directory_ops_value file_ops_value].
  unfold with_pcbs. cbn [openTasks curr_status
    first_shell_entry_point rtc_ops_value directory_ops_value file_ops_value]. f_equal. f_equal.
  rewrite list_alter_alter_eq. apply list_alter_ext; [|done]. intros p _. unfold with_fds, compose.
  cbn [fds prev_pcb p_esp p_ebp p_cr3 parent_pid argument]. by rewrite list_alter_alter_eq.
Qed.

Lemma altered_fd_ext s pid i f g d :
  fd_of s pid i = Some d -> f d = g d -> altered_fd pid i f s = altered_fd pid i g s.
Proof.
  intros (p & Hp & [_ Hd]%load_inv)%fd_of_inv Hfg. eapply altered_pcb_ext; [done|]. f_equal.
  apply list_alter_ext; [|done]. intros x Hx. congruence.
Qed.

(** The descriptor that open takes. *)
Definition free_fd_from (n : nat) (i : Z) (s : kernel) (pid : Z) : option Z :=
  head (filter (fun j => flags <$> fd_of s pid j = Some 0) (seqZ i (Z.of_nat n))).
Definition free_fd (s : kernel) (pid : Z) : option Z := free_fd_from 6 2 s pid.

Lemma take_fd_eq n i pid s :
  (forall j, i <= j < i + Z.of_nat n -> is_Some (fd_of s pid j)) ->
  take_fd n i pid s
  = match free_fd_from n i s pid with
    | Some j => Ret j (altered_fd pid j (set_flags 1) s)
    | None => Ret (-1) s
    end.
Proof.
  revert i. induction n as [|n IH]; intros i Hfds; [done|].
  destruct (Hfds i) as [d Hd]; [lia|]. cbn [take_fd]. rewrite (bind_Ret _ _ _ _ _ (get_fd_eq _ _ _ _ Hd)).
  unfold free_fd_from. rewrite seqZ_cons, filter_cons by lia.
  replace (Z.pred (Z.of_nat (S n))) with (Z.of_nat n) by lia.
  case_bool_decide as Hf; case_decide as Hf'; rewrite Hd in Hf'; cbn in Hf'; try congruence.
  - cbn [head]. by rewrite (bind_Ret _ _ _ _ _ (upd_fd_eq _ _ _ _ _ Hd)).
  - apply IH. intros j Hj. apply Hfds. lia.
Qed.

(** One step on the descriptor, whose contents in [s] were [d]. *)
Lemma upd_fd_step {A} (k : unit -> M kernel A) pid i f g s d :
  fd_of s pid i = Some d ->
  (upd_fd pid i g ≫= k) (altered_fd pid i f s) = k tt (altered_fd pid i (g ∘ f) s).
Proof.
  intros Hd. rewrite <-altered_fd_twice. apply bind_Ret.
  eapply upd_fd_eq. by rewrite fd_of_altered, Hd.
Qed.

Lemma get_fd_step {A} (k : file_desc -> M kernel A) pid i f s d :
  fd_of s pid i = Some d ->
  (get_fd pid i ≫= k) (altered_fd pid i f s) = k (f d) (altered_fd pid i f s).
Proof. intros Hd. apply bind_Ret, get_fd_eq. by rewrite fd_of_altered, Hd. Qed.

Lemma valued_altered o v pid i f s :
  valued o v (altered_fd pid i f s) = altered_fd pid i f (valued o v s).
Proof. by destruct o. Qed.
Lemma fd_of_valued o v s pid i : fd_of (valued o v s) pid i = fd_of s pid i.
Proof. by destruct o. Qed.

(** The descriptor of an opened file, by the file's type. *)
Definition described (boot : Z) (name : list Z) (d : dentry) (f : file_desc) : file_desc :=
  if bool_decide (d_fileType d = 0) then FileDesc (fd_fileName f) 0 0 1 RtcOps
  else if bool_decide (d_fileType d = 1) then
    FileDesc (fd_fileName f) (inode_ptr f) 0 1 DirectoryOps
  else if bool_decide (d_fileType d = 2) then
    FileDesc (name ++ 0 :: drop (S (length name)) (fd_fileName f))
      (get_inodeptr boot (d_inodeNum d)) 0 1 FileOps
  else FileDesc (fd_fileName f) (inode_ptr f) 0 1 (sysops_ptr f).
Definition type_valued (d : dentry) (s : kernel) : kernel :=
  if bool_decide (d_fileType d = 0) then valued RtcOps 1 s
  else if bool_decide (d_fileType d = 1) then valued DirectoryOps 2 s
  else if bool_decide (d_fileType d = 2) then valued FileOps 3 s else s.

Lemma rtc_open_eq s : exists h, zoom rtc_open s = Ret 0 (lset (h : list ioev) s).
Proof.
  unfold zoom, rtc_open. change 2 with (2 ^ Z.of_nat 1).
  rewrite (rtc_write_run 1) by lia. eexists.
  by destruct s as [? ? ? ? ? ? ? ? ? ? ? ? ?].
Qed.

Lemma syscall_open_file filename d s :
  read_dentry_by_name (image (k_fs s)) filename = Some (0, Some d) ->
  syscall_open FileOps filename s = Ret 0 s.
Proof.
  intros Hd. unfold syscall_open, get_image, mbind, M_bind, gets, lift, open_file. by rewrite Hd.
Qed.

Lemma open_step s pid filename name d i f :
  find_programid s = Ret pid s ->
  until0 filename = Some name -> name <> [] -> read_dentry_by_name (image (k_fs s)) filename = Some (0, Some d) ->
  take_fd 6 2 pid s = Ret i (altered_fd pid i (set_flags 1) s) -> i <> -1 ->
  fd_of s pid i = Some f -> (length name < length (fd_fileName f))%nat ->
  exists h, open filename s
  = Ret (if bool_decide (0 <= d_fileType d <= 2) then i else -1)
      (lset (h : list ioev) (altered_fd pid i (described (bootHead (k_fs s)) name d) (type_valued d s))).
Proof.
  intros Hpid Hstr Hne Hdent Htake Hi Hf Hfit.
  assert (exists c, load filename 0 = Some c /\ c <> 0) as (c & Hc & Hc0).
  { apply until0_spec in Hstr as (r & -> & Hz). destruct name as [|c name]; [done|].
    apply Forall_cons in Hz as [? _]. by exists c. }
  unfold open. unfold mbind at 1, M_bind at 1, lift at 1. rewrite Hc, bool_decide_false by done.
  rewrite (bind_Ret _ _ _ _ _ Hpid). unfold get_image at 1. unfold mbind at 1, M_bind at 1, gets at 1.
  unfold mbind at 1, M_bind at 1, lift at 1. rewrite Hdent. cbn [fst snd]. rewrite bool_decide_true by done.
  unfold mbind at 1, M_bind at 1, lift at 1.
  change (Z.to_nat (NUM_FILE_DESCRIPTOR - 2)) with 6%nat.
  rewrite (bind_Ret _ _ _ _ _ Htake), bool_decide_false by done.
  rewrite (upd_fd_step _ _ _ _ _ _ f) by done. cbv zeta. unfold type_valued, described.
  destruct (decide (d_fileType d = 0)) as [E|E0].
  { rewrite E, !bool_decide_true by lia. rewrite (upd_fd_step _ _ _ _ _ _ f) by done.
    unfold set_value. unfold mbind at 1, M_bind at 1, modify at 1. rewrite valued_altered.
    rewrite (upd_fd_step _ _ _ _ _ _ f), (get_fd_step _ _ _ _ _ f) by (by rewrite fd_of_valued).
    cbn [compose set_inode_ptr set_sysops sysops_ptr]. unfold syscall_open.
    edestruct rtc_open_eq as [h Hh].
    rewrite (bind_Ret _ _ _ _ _ Hh), bool_decide_true by done. exists h. destruct h; reflexivity. }
  exists (k_io s). rewrite (bool_decide_false (d_fileType d = 0)) by done.
  assert (forall t : kernel, k_io t = k_io s -> t = lset (k_io s) t) as Hlset.
  { intros [] <-. reflexivity. }
  destruct (decide (d_fileType d = 1)) as [E|E1].
  { rewrite E, !bool_decide_true by lia. rewrite (upd_fd_step _ _ _ _ _ _ f) by done.
    unfold set_value. unfold mbind at 1, M_bind at 1, modify at 1. rewrite valued_altered.
    rewrite (get_fd_step _ _ _ _ _ f) by (by rewrite fd_of_valued).
    cbn [compose set_inode_ptr set_sysops sysops_ptr]. rewrite <-Hlset by done. reflexivity. }
  rewrite (bool_decide_false (d_fileType d = 1)) by done.
  destruct (decide (d_fileType d = 2)) as [E|E2].
  { rewrite E, !bool_decide_true by lia. rewrite !(upd_fd_step _ _ _ _ _ _ f) by done.
    unfold mbind at 1, M_bind at 1, get at 1. rewrite (upd_fd_step _ _ _ _ _ _ f) by done.
    rewrite (get_fd_step _ _ _ _ _ f) by done. cbn [compose set_inode_ptr set_sysops
      set_filePosition set_flags fd_fileName].
    rewrite (strcpy_fits _ _ _ Hstr Hfit). unfold mbind at 1, M_bind at 1, lift at 1.
    rewrite (upd_fd_step _ _ _ _ _ _ f) by done.
    unfold set_value. unfold mbind at 1, M_bind at 1, modify at 1. rewrite valued_altered.
    rewrite (get_fd_step _ _ _ _ _ f) by (by rewrite fd_of_valued).
    cbn [compose set_inode_ptr set_sysops set_fileName set_filePosition sysops_ptr].
    erewrite bind_Ret by (by eapply syscall_open_file). rewrite bool_decide_true by done.
    rewrite <-Hlset by done. unfold mret, M_ret. f_equal.
    by apply (altered_fd_ext _ _ _ _ _ f); [rewrite fd_of_valued|]. }
  rewrite !bool_decide_false by lia. rewrite <-Hlset by done. reflexivity.
Qed.
End Rules.

(** ** Processes *)

(** Six control blocks, each with eight descriptors. *)
Definition name_ok (f : file_desc) : Prop := length (fd_fileName f) = 32%nat /\ bytes (fd_fileName f).
Definition pcb_ok (p : pcb) : Prop :=
  length (fds p) = 8%nat /\ length (argument p) = 128%nat /\
  Forall name_ok (fds p).
Record procs_ok (s : kernel) : Prop := {
  ok_pcbs : length (pcbs (k_procs s)) = 6%nat;
  ok_each : Forall pcb_ok (pcbs (k_procs s));
}.

(** Process [pid] executes. *)
Record process `{!Layout} (s : kernel) (pid : Z) : Prop := {
  pr_cr3 : cr3 (k_paging s) = dir_addr pid;
  pr_pid : 1 <= pid <= 6;
  pr_ok : procs_ok s;
}.

Section Processes.
Context `{HL : !Layout} `{HD : !Device}.

Lemma process_find s pid : process s pid -> find_programid s = Ret pid s.
Proof. intros [? ? _]. apply find_programid_eq; done || lia. Qed.

Lemma process_pcb s pid :
  process s pid -> exists p, load (pcbs (k_procs s)) (pid - 1) = Some p /\ pcb_ok p.
Proof.
  intros [_ ? [Hl He]]. destruct (load_Some (pcbs (k_procs s)) (pid - 1)) as [p Hp]; [lia|].
  exists p. split; [done|]. by eapply load_Forall.
Qed.

Lemma process_fd s pid i :
  process s pid -> 0 <= i < 8 -> exists f, fd_of s pid i = Some f /\ name_ok f.
Proof.
  intros (p & Hp & Hl & _ & Hn)%process_pcb Hi. unfold fd_of. rewrite Hp. cbn [mbind option_bind].
  destruct (load_Some (fds p) i) as [f Hf]; [lia|]. exists f. split; [done|].
  exact (load_Forall _ _ _ _ Hn Hf).
Qed.

Lemma free_fd_inv s pid i :
  free_fd s pid = Some i ->
  2 <= i < 8 /\ flags <$> fd_of s pid i = Some 0 /\
  forall j, 2 <= j < i -> flags <$> fd_of s pid j <> Some 0.
Proof.
  unfold free_fd, free_fd_from. destruct (filter _ (seqZ 2 (Z.of_nat 6))) as [|j l] eqn:E; [done|].
  intros [= ->]. apply filter_head_first in E as (? & ? & ?). split_and!; done || lia.
Qed.


Lemma free_fd_intro s pid i :
  2 <= i < 8 -> flags <$> fd_of s pid i = Some 0 ->
  (forall j, 2 <= j < i -> flags <$> fd_of s pid j <> Some 0) -> free_fd s pid = Some i.
Proof. intros. apply (filter_first_head (fun j => flags <$> fd_of s pid j = Some 0) 2 6); done || lia. Qed.

Lemma process_take_fd s pid :
  process s pid ->
  take_fd 6 2 pid s
  = match free_fd s pid with
    | Some j => Ret j (altered_fd pid j (set_flags 1) s)
    | None => Ret (-1) s
    end.
Proof.
  intros Hp. apply take_fd_eq. intros j Hj. destruct (process_fd s pid j Hp) as (f & -> & _); [lia|eauto].
Qed.

Lemma process_altered_fd s pid i f :
  (forall d, name_ok d -> name_ok (f d)) ->
  process s pid -> process (altered_fd pid i f s) pid.
Proof.
  intros Hf [Hc Hp [Hl He]]. split; [done|done|]. split.
  - unfold altered_fd, altered_pcb. cbn [lset kernel_procs k_procs with_pcbs pcbs]. by rewrite length_alter.
  - unfold altered_fd, altered_pcb. cbn [lset kernel_procs k_procs with_pcbs pcbs].
    apply Forall_alter; [done|]. intros p _ (Hl1 & Ha & Hn). unfold pcb_ok. cbn [fds argument with_fds].
    split_and!; [by rewrite length_alter|done|]. apply Forall_alter; [done|]. auto.
Qed.

Lemma described_name_ok boot name d f :
  bytes name -> (length name <= 31)%nat -> name_ok f -> name_ok (described boot name d f).
Proof.
  intros Hb Hl [Hn Hf]. unfold described. repeat case_bool_decide; split; cbn [fd_fileName]; try done.
  - lens.
  - apply Forall_app. split; [done|]. constructor; [unfold byte; lia|]. by apply bytes_drop.
Qed.

Lemma process_valued o v s pid : process s pid -> process (valued o v s) pid.
Proof. intros [? ? [? ?]]. by destruct o. Qed.

(** The state behind a successful open. *)
Lemma process_opened s pid i boot name d h :
  process s pid -> bytes name -> (length name <= 31)%nat ->
  process (lset (h : list ioev) (altered_fd pid i (described boot name d) (type_valued d s))) pid.
Proof.
  intros Hp Hb Hl.
  enough (process (altered_fd pid i (described boot name d) (type_valued d s)) pid) as [? ? [? ?]] by done.
  apply process_altered_fd; [intros; by apply described_name_ok|].
  unfold type_valued. by repeat case_bool_decide; try apply process_valued.
Qed.

Lemma fd_of_opened s pid i boot name d h j :
  0 <= i ->
  fd_of (lset (h : list ioev) (altered_fd pid i (described boot name d) (type_valued d s))) pid j
  = if bool_decide (j = i) then described boot name d <$> fd_of s pid i else fd_of s pid j.
Proof.
  intros Hi. change (fd_of (lset h ?t) pid j) with (fd_of t pid j).
  assert (forall j, fd_of (type_valued d s) pid j = fd_of s pid j) as E.
  { intros j'. unfold type_valued. by repeat case_bool_decide; rewrite ?fd_of_valued. }
  case_bool_decide as Hj.
  - subst j. by rewrite fd_of_altered, E.
  - by rewrite fd_of_altered_ne, E by done.
Qed.

Lemma close_eq s pid i f :
  process s pid -> 2 <= i < 8 -> fd_of s pid i = Some f ->
  close i s
  = if bool_decide (flags f = 0) then Ret (-1) s
    else Ret 0 (altered_fd pid i (set_filePosition 0 ∘ (set_sysops NullOps ∘ set_flags 0)) s).
Proof.
  intros Hp Hi Hf. unfold close. rewrite !bool_decide_false by lia. cbn [orb].
  pose proof (pr_pid _ _ Hp). rewrite (bind_Ret _ _ _ _ _ (process_find _ _ Hp)).
  rewrite bool_decide_false by lia. rewrite (bind_Ret _ _ _ _ _ (get_fd_eq _ _ _ _ Hf)).
  case_bool_decide; [done|]. rewrite (bind_Ret _ _ _ _ _ (upd_fd_eq _ _ _ _ _ Hf)).
  by rewrite !(upd_fd_step _ _ _ _ _ _ f) by done.
Qed.

(** A closed descriptor is rejected by every call. *)
Lemma bad_fd_closed s pid i f std :
  fd_of s pid i = Some f -> flags f = 0 -> bad_fd pid i std s = Ret true s.
Proof.
  intros Hf H0. unfold bad_fd. case_match; [done|]. rewrite (bind_Ret _ _ _ _ _ (get_fd_eq _ _ _ _ Hf)).
  by rewrite bool_decide_true.
Qed.

Lemma read_bad env s pid i buf n :
  process s pid -> bad_fd pid i 1 s = Ret true s -> read env i buf n s = Ret (Some (-1, buf, env)) s.
Proof.
  intros Hp Hb. unfold read. rewrite (bind_Ret _ _ _ _ _ (process_find _ _ Hp)).
  by rewrite (bind_Ret _ _ _ _ _ Hb).
Qed.
Lemma write_bad s pid i buf n :
  process s pid -> bad_fd pid i 0 s = Ret true s -> write i buf n s = Ret (-1) s.
Proof.
  intros Hp Hb. unfold write. rewrite (bind_Ret _ _ _ _ _ (process_find _ _ Hp)).
  by rewrite (bind_Ret _ _ _ _ _ Hb).
Qed.
End Processes.

(** *** Reading a file *)

(** Descriptor [i] of process [pid] is open on a file of the image: it has the name
    of a directory entry whose inode is [ino], of length [L]. *)
Record file_open (s : kernel) (pid i : Z) (f : file_desc) (img : list Z) (ino L : Z) : Prop := {
  fo_fd : fd_of s pid i = Some f;
  fo_flags : flags f <> 0;
  fo_ops : sysops_ptr f = FileOps;
  fo_image : image (k_fs s) = img;
  fo_entry : exists name k d,
    until0 (fd_fileName f) = Some name /\ bytes (fd_fileName f) /\ (length name <= 31)%nat /\
    dir_lookup img name = Some k /\ ld_dentry img k = Some d /\ d_inodeNum d = ino;
  fo_length : file_length img ino = Some L;
  fo_position : 0 <= filePosition f <= L;
}.

Section Reading.
Context `{!Layout} `{!Device} (img : list Z) (n N D : Z).
Hypothesis Hwf : wf_image img n N D.

Lemma file_open_dentry s pid i f ino L :
  file_open s pid i f img ino L ->
  exists d, read_dentry_by_name img (fd_fileName f) = Some (0, Some d) /\ d_inodeNum d = ino.
Proof.
  intros [_ _ _ _ (name & k & d & Hn & Hb & Hl & Hk & Hd & Hi) _ _]. exists d. split; [|done].
  rewrite (read_dentry_by_name_spec _ _ _ _ Hwf _ _ Hb Hn Hl), Hk. cbn [mbind option_bind].
  by rewrite Hd.
Qed.

(** One read: the next bytes, up to the end of the file. *)
Lemma read_file_eq s pid i f ino L buf m :
  process s pid -> file_open s pid i f img ino L -> 0 <= ino < N ->
  0 < m < 2147483648 -> let k := Z.min m (L - filePosition f) in k <= len buf ->
  read_file i buf m s
  = Ret (k, take (Z.to_nat k) (drop (Z.to_nat (filePosition f)) (file_contents img ino))
              ++ drop (Z.to_nat k) buf)
      (altered_fd pid i (set_filePosition (filePosition f + k)) s).
Proof.
  intros Hp Hfo Hino Hm k Hk. destruct (file_open_dentry _ _ _ _ _ _ Hfo) as (d & Hd & Hdi).
  destruct Hfo as [Hf _ _ Himg _ HL Hpos].
  pose proof (wf_small _ _ _ _ Hwf) as Hsm. pose proof (wf_file_length _ _ _ _ Hwf ino Hino) as (L' & HL' & HLr).
  rewrite HL in HL'. injection HL' as <-.
  unfold read_file. rewrite (bind_Ret _ _ _ _ _ (process_find _ _ Hp)), (bind_Ret _ _ _ _ _ (get_fd_eq _ _ _ _ Hf)).
  unfold get_image. unfold mbind at 1, M_bind at 1, gets at 1. rewrite Himg.
  unfold mbind at 1, M_bind at 1, lift at 1. rewrite Hd. cbn [fst snd]. rewrite bool_decide_false by done.
  unfold mbind at 1, M_bind at 1, lift at 1. rewrite Hdi, !u32_small by lia.
  rewrite (read_data_spec _ _ _ _ _ _ _ _ _ Hwf Hino HL Hpos) by (done || lia). fold k.
  unfold mbind at 1, M_bind at 1, lift at 1. cbn [fst snd]. rewrite bool_decide_false by lia.
  case_bool_decide as Hk0.
  - rewrite s32_small by lia. unfold file_length in HL. rewrite HL.
    unfold mbind at 1, M_bind at 1, lift at 1. rewrite (bind_Ret _ _ _ _ _ (upd_fd_eq _ _ _ _ _ Hf)).
    rewrite Hk0, u32_small by lia. by replace (filePosition f + 0) with L by lia.
  - rewrite (bind_Ret _ _ _ _ _ (upd_fd_eq _ _ _ _ _ Hf)), u32_small by lia.
    by rewrite (Z.add_comm k).
Qed.

Lemma read_eq env s pid i f ino L buf m :
  process s pid -> file_open s pid i f img ino L -> 2 <= i < 8 -> 0 <= ino < N ->
  0 < m < 2147483648 -> let k := Z.min m (L - filePosition f) in k <= len buf ->
  read env i buf m s
  = Ret (Some (k, take (Z.to_nat k) (drop (Z.to_nat (filePosition f)) (file_contents img ino))
                    ++ drop (Z.to_nat k) buf, env))
      (altered_fd pid i (set_filePosition (filePosition f + k)) s).
Proof.
  intros Hp Hfo Hi Hino Hm k Hk. unfold read. rewrite (bind_Ret _ _ _ _ _ (process_find _ _ Hp)).
  pose proof (get_fd_eq _ _ _ _ (fo_fd _ _ _ _ _ _ _ Hfo)) as Hfd.
  assert (bad_fd pid i 1 s = Ret false s) as Hbad.
  { unfold bad_fd. rewrite !bool_decide_false by lia. cbn [orb]. rewrite (bind_Ret _ _ _ _ _ Hfd).
    rewrite bool_decide_false by apply Hfo. done. }
  rewrite (bind_Ret _ _ _ _ _ Hbad), (bind_Ret _ _ _ _ _ Hfd), (fo_ops _ _ _ _ _ _ _ Hfo).
  cbn [syscall_read]. by rewrite (bind_Ret _ _ _ _ _ (read_file_eq _ _ _ _ _ _ _ _ Hp Hfo Hino Hm Hk)).
Qed.

Lemma file_open_advance s pid i f ino L k :
  file_open s pid i f img ino L -> 0 <= k -> filePosition f + k <= L ->
  file_open (altered_fd pid i (set_filePosition (filePosition f + k)) s) pid i
    (set_filePosition (filePosition f + k) f) img ino L.
Proof.
  intros [Hf ? ? ? ? ? ?] ? ?. split; try done.
  - by rewrite fd_of_altered, Hf.
  - cbn [filePosition set_filePosition]. lia.
Qed.
End Reading.

(** A program that reads with one buffer after the other, and keeps the bytes it
    got. *)
Fixpoint read_all `{!Layout} (fd : Z) (bufs : list (list Z)) : M kernel (list Z) :=
  match bufs with
  | [] => mret []
  | buf :: bufs' =>
      r ← read [] fd buf (len buf);
      match r with
      | None => undef
      | Some (k, buf', _) => rest ← read_all fd bufs'; mret (take (Z.to_nat k) buf' ++ rest)
      end
  end.

Lemma read_all_delivers `{!Layout} img n N D s pid i f ino L bufs :
  wf_image img n N D -> process s pid -> file_open s pid i f img ino L -> 2 <= i < 8 ->
  0 <= ino < N -> Forall (fun b => 0 < len b < 2147483648) bufs ->
  let total := Z.min (len (concat bufs)) (L - filePosition f) in
  read_all i bufs s
  = Ret (take (Z.to_nat total) (drop (Z.to_nat (filePosition f)) (file_contents img ino)))
      (altered_fd pid i (set_filePosition (filePosition f + total)) s).
Proof.
  intros Hwf Hp Hfo Hi Hino Hbufs. revert s f Hp Hfo. induction Hbufs as [|b bufs Hb _ IH];
    intros s f Hp Hfo total; pose proof (fo_position _ _ _ _ _ _ _ Hfo) as Hpos.
  - cbn [read_all]. subst total. cbn [concat length]. replace (Z.min _ _) with 0 by lia.
    unfold mret, M_ret. f_equal. rewrite Z.add_0_r. pose proof (fo_fd _ _ _ _ _ _ _ Hfo) as Hf.
    rewrite (altered_fd_ext s pid i _ id f Hf) by (by destruct f). unfold altered_fd, altered_pcb.
    rewrite list_alter_id by (intros []; unfold with_fds; cbn; by rewrite list_alter_id).
    by destruct s as [? ? ? ? ? ? ? ? ? ? [] ? ?].
  - cbn [read_all]. set (k := Z.min (len b) (L - filePosition f)).
    rewrite (bind_Ret _ _ _ _ _ (read_eq img n N D Hwf [] s pid i f ino L b (len b) Hp Hfo Hi Hino Hb
      ltac:(lia))). fold k.
    pose proof (file_open_advance img s pid i f ino L k Hfo ltac:(lia) ltac:(lia)) as Hfo'.
    rewrite (bind_Ret _ _ _ _ _ (IH _ _ (process_altered_fd _ _ _ (set_filePosition _) (fun _ H => H) Hp) Hfo')).
    cbn [filePosition set_filePosition]. rewrite altered_fd_twice. unfold mret, M_ret.
    assert (total = k + Z.min (len (concat bufs)) (L - (filePosition f + k))) as Ht.
    { subst total k. cbn [concat]. lens. }
    f_equal.
    + pose proof (file_contents_length _ _ _ (fo_length _ _ _ _ _ _ _ Hfo) ltac:(lia)) as Hc.
      rewrite take_app_length' by lens. set (rest := Z.min _ (L - (_ + k))) in *.
      replace (Z.to_nat total) with (Z.to_nat k + Z.to_nat rest)%nat by lia.
      rewrite <-take_take_drop, drop_drop. do 3 f_equal. lia.
    + eapply altered_fd_ext; [apply Hfo|]. rewrite Ht. unfold compose, set_filePosition. cbn.
      f_equal. lia.
Qed.

(** ** Properties *)

Section Properties.
Context `{!Layout} `{!Device} (img : list Z) (n N D : Z).
Hypothesis Hwf : wf_image img n N D.

Lemma dir_lookup_dentry name k : dir_lookup img name = Some k -> exists d, ld_dentry img k = Some d.
Proof.
  unfold dir_lookup. destruct (filter _ _) as [|k' l] eqn:E; [done|]. intros [= ->].
  apply (filter_head_first _ 0 63) in E as [Hr _]. apply (ld_dentry_Some _ _ _ _ Hwf k). lia.
Qed.

Lemma open_eq s pid filename name k d i :
  process s pid -> image (k_fs s) = img -> bytes filename -> until0 filename = Some name ->
  (0 < length name <= 31)%nat -> dir_lookup img name = Some k -> ld_dentry img k = Some d ->
  free_fd s pid = Some i ->
  exists h, open filename s
  = Ret (if bool_decide (0 <= d_fileType d <= 2) then i else -1)
      (lset (h : list ioev) (altered_fd pid i (described (bootHead (k_fs s)) name d) (type_valued d s))).
Proof.
  intros Hp Himg Hb Hn Hl Hk Hd Hfree. pose proof (free_fd_inv _ _ _ Hfree) as (Hi & _ & _).
  destruct (process_fd s pid i Hp) as (f & Hf & Hf32 & _); [lia|].
  apply (open_step s pid filename name d i f); [by apply process_find|done|..].
  - intros ->. simpl in Hl. lia.
  - rewrite Himg, (read_dentry_by_name_spec _ _ _ _ Hwf _ _ Hb Hn) by lia. rewrite Hk.
    cbn [mbind option_bind]. by rewrite Hd.
  - rewrite process_take_fd by done. by rewrite Hfree.
  - lia.
  - done.
  - lia.
Qed.

Lemma open_regular s pid filename name k d L i :
  process s pid -> image (k_fs s) = img -> bytes filename -> until0 filename = Some name ->
  (0 < length name <= 31)%nat -> dir_lookup img name = Some k -> ld_dentry img k = Some d ->
  d_fileType d = 2 -> 0 <= d_inodeNum d < N -> file_length img (d_inodeNum d) = Some L ->
  free_fd s pid = Some i ->
  exists s1 f1, open filename s = Ret i s1 /\ process s1 pid /\
    file_open s1 pid i f1 img (d_inodeNum d) L /\ filePosition f1 = 0.
Proof.
  intros Hp Himg Hb Hn Hl Hk Hd Hty Hino HL Hfree.
  destruct (open_eq s pid _ _ _ _ _ Hp Himg Hb Hn Hl Hk Hd Hfree) as [h Hh].
  rewrite Hty, bool_decide_true in Hh by lia.
  pose proof (free_fd_inv _ _ _ Hfree) as (Hi & _ & _).
  destruct (process_fd s pid i Hp) as (f & Hf & Hf32 & Hfb); [lia|].
  assert (bytes name) as Hbn by (rewrite <-(until0_prefix _ _ Hn); by apply Forall_take).
  pose proof (process_opened s pid i (bootHead (k_fs s)) name d h Hp Hbn ltac:(lia)) as Hp1.
  pose proof (fd_of_opened s pid i (bootHead (k_fs s)) name d h i ltac:(lia)) as Hfd1.
  rewrite bool_decide_true, Hf in Hfd1 by done. cbn [fmap option_fmap option_map] in Hfd1.
  assert (described (bootHead (k_fs s)) name d f
    = FileDesc (name ++ 0 :: drop (S (length name)) (fd_fileName f))
        (get_inodeptr (bootHead (k_fs s)) (d_inodeNum d)) 0 1 FileOps) as E.
  { unfold described. rewrite Hty. by rewrite !bool_decide_false, bool_decide_true by done. }
  rewrite E in Hfd1.
  pose proof (wf_file_length _ _ _ _ Hwf _ Hino) as (L' & HL' & HLr). rewrite HL in HL'. injection HL' as <-.
  eexists _, (FileDesc (name ++ 0 :: drop (S (length name)) (fd_fileName f))
    (get_inodeptr (bootHead (k_fs s)) (d_inodeNum d)) 0 1 FileOps).
  split; [exact Hh|]. split; [exact Hp1|]. split; [|reflexivity].
  split; cbn [flags sysops_ptr fd_fileName filePosition]; [exact Hfd1|lia|done| | |done|lia].
  - cbn. unfold type_valued. by rewrite Hty.
  - exists name, k, d. split_and!; try done; [..|lia].
    + apply until0_app. by apply until0_spec in Hn as (r & _ & ?).
    + apply Forall_app. split; [done|]. constructor; [unfold byte; lia|by apply bytes_drop].
Qed.

Lemma open_fails s pid filename name :
  process s pid -> image (k_fs s) = img -> bytes filename -> until0 filename = Some name ->
  (0 < length name <= 31)%nat -> (dir_lookup img name = None \/ free_fd s pid = None) ->
  open filename s = Ret (-1) s.
Proof.
  intros Hp Himg Hb Hn Hl Hno.
  assert (exists c, load filename 0 = Some c /\ c <> 0) as (c & Hc & Hc0).
  { apply until0_spec in Hn as (r & -> & Hz). destruct name as [|c name]; [simpl in Hl; lia|].
    apply Forall_cons in Hz as [? _]. by exists c. }
  unfold open. unfold mbind at 1, M_bind at 1, lift at 1. rewrite Hc, bool_decide_false by done.
  rewrite (bind_Ret _ _ _ _ _ (process_find _ _ Hp)). unfold get_image at 1.
  unfold mbind at 1, M_bind at 1, gets at 1. unfold mbind at 1, M_bind at 1, lift at 1.
  rewrite Himg, (read_dentry_by_name_spec _ _ _ _ Hwf _ _ Hb Hn) by lia.
  destruct (dir_lookup img name) as [k|] eqn:Hk; [|done].
  destruct Hno as [|Hfree]; [done|].
  destruct (dir_lookup_dentry _ _ Hk) as [d Hd].
  rewrite Hd. cbn [mbind option_bind fst snd]. rewrite bool_decide_true by done.
  unfold mbind at 1, M_bind at 1, lift at 1.
  change (Z.to_nat (NUM_FILE_DESCRIPTOR - 2)) with 6%nat.
  pose proof (process_take_fd s pid Hp) as Htake. rewrite Hfree in Htake.
  rewrite (bind_Ret _ _ _ _ _ Htake). reflexivity.
Qed.
End Properties.

(** open is total on names of 1 to 31 bytes: it returns -1 and changes nothing
    when the directory has no such name or the six descriptors from 2 on are taken.
    Else it takes the lowest free one, at position 0, with the operations of the
    file's type (clock, directory or regular file; for the last also its name), and
    returns it; the other descriptors are unchanged. For a file of an unknown type
    it returns -1 but the descriptor stays taken. *)
Theorem open_takes_lowest_fd `{!Layout} `{!Device} img n N D s pid filename name :
  wf_image img n N D -> process s pid -> image (k_fs s) = img ->
  bytes filename -> until0 filename = Some name -> (0 < length name <= 31)%nat ->
  match dir_lookup img name, free_fd s pid with
  | Some k, Some i =>
      exists d h, ld_dentry img k = Some d /\
        open filename s
        = Ret (if bool_decide (0 <= d_fileType d <= 2) then i else -1)
            (lset (h : list ioev)
               (altered_fd pid i (described (bootHead (k_fs s)) name d) (type_valued d s))) /\
        2 <= i < 8 /\ (forall j, 2 <= j < i -> flags <$> fd_of s pid j <> Some 0)
  | _, _ => open filename s = Ret (-1) s
  end.
Proof.
  intros Hwf Hp Himg Hb Hn Hl. destruct (dir_lookup img name) as [k|] eqn:Hk.
  - destruct (free_fd s pid) as [i|] eqn:Hi.
    + destruct (dir_lookup_dentry _ _ _ _ Hwf _ _ Hk) as [d Hd].
      destruct (open_eq _ _ _ _ Hwf _ _ _ _ _ _ _ Hp Himg Hb Hn Hl Hk Hd Hi) as [h Hh].
      pose proof (free_fd_inv _ _ _ Hi) as (? & _ & ?). exists d, h. done.
    + eapply open_fails; eauto.
  - eapply open_fails; eauto.
Qed.

(** A process with two descriptors taken, for the examples. *)
Definition demo_fd (fl : Z) (o : sys_ops) : file_desc := FileDesc (replicate 32 0) 0 0 fl o.
Definition demo_pcb : pcb :=
  Pcb ([demo_fd 1 TerminalOps; demo_fd 1 TerminalOps; demo_fd 1 FileOps] ++ replicate 5 (demo_fd 0 NullOps))
    0 0x7FF100 0x7FF200 0x422000 0 (bytes_of_string "-n 3" ++ replicate 124 0).
Definition demo_proc : kernel :=
  lset (Procs [-1; 0; 0; 0; -1; -1; -1] 0 0x8048094 0 0 0 (replicate 6 demo_pcb))
    (lset demo_fs (with_frames [blank_page] demo_kernel)).

Lemma demo_process : process demo_proc 1.
Proof.
  assert (forall fl o, name_ok (demo_fd fl o)) as Hn.
  { intros. split; [done|]. apply Forall_replicate. unfold byte. lia. }
  split; [reflexivity|lia|]. split; [reflexivity|]. apply Forall_replicate. split; [reflexivity|].
  split; [reflexivity|]. apply Forall_app. split; [|by apply Forall_replicate].
  by repeat apply Forall_cons_2.
Qed.

Lemma open_takes_lowest_fd_witness :
  match dir_lookup demo_image (bytes_of_string "hello"), free_fd demo_proc 1 with
  | Some k, Some i =>
      exists d h, ld_dentry demo_image k = Some d /\
        @open demo_layout demo_device (cstring "hello") demo_proc
        = Ret (if bool_decide (0 <= d_fileType d <= 2) then i else -1)
            (lset (h : list ioev)
               (altered_fd 1 i (described 0x500000 (bytes_of_string "hello") d)
                  (type_valued d demo_proc))) /\
        2 <= i < 8 /\ (forall j, 2 <= j < i -> flags <$> fd_of demo_proc 1 j <> Some 0)
  | _, _ => @open demo_layout demo_device (cstring "hello") demo_proc = Ret (-1) demo_proc
  end.
Proof.
  apply (@open_takes_lowest_fd demo_layout demo_device demo_image 4 2 3 demo_proc 1).
  - exact demo_image_wf.
  - exact demo_process.
  - reflexivity.
  - apply cstring_bytes.
  - reflexivity.
  - simpl. lia.
Defined.

(** close undoes open: it frees the descriptor, which the next open would take
    again, and leaves the others as they were before the open; a second close, and a
    read or a write through the closed descriptor, return -1 and change nothing. *)
Theorem open_close_roundtrip `{!Layout} `{!Device} img n N D s pid filename name i s1 env buf m :
  wf_image img n N D -> process s pid -> image (k_fs s) = img ->
  bytes filename -> until0 filename = Some name -> (0 < length name <= 31)%nat ->
  open filename s = Ret i s1 -> i <> -1 ->
  exists s2, close i s1 = Ret 0 s2 /\ free_fd s pid = Some i /\ free_fd s2 pid = Some i /\
    (forall j, j <> i -> fd_of s2 pid j = fd_of s pid j) /\
    close i s2 = Ret (-1) s2 /\ read env i buf m s2 = Ret (Some (-1, buf, env)) s2 /\
    write i buf m s2 = Ret (-1) s2.
Proof.
  intros Hwf Hp Himg Hb Hn Hl Hopen Hi1.
  destruct (dir_lookup img name) as [k|] eqn:Hk.
  2: { rewrite (open_fails _ _ _ _ Hwf _ _ _ _ Hp Himg Hb Hn Hl) in Hopen by auto. congruence. }
  destruct (free_fd s pid) as [i'|] eqn:Hfree.
  2: { rewrite (open_fails _ _ _ _ Hwf _ _ _ _ Hp Himg Hb Hn Hl) in Hopen by auto. congruence. }
  destruct (dir_lookup_dentry _ _ _ _ Hwf _ _ Hk) as [d Hd].
  destruct (open_eq _ _ _ _ Hwf _ _ _ _ _ _ _ Hp Himg Hb Hn Hl Hk Hd Hfree) as [h Hh].
  rewrite Hopen in Hh. injection Hh as Ei ->. case_bool_decide as Hty; [|done]. subst i'.
  pose proof (free_fd_inv _ _ _ Hfree) as (Hi & Hfl & Hlow).
  assert (bytes name) as Hbn by (rewrite <-(until0_prefix _ _ Hn); by apply Forall_take).
  pose proof (process_opened s pid i (bootHead (k_fs s)) name d h Hp Hbn ltac:(lia)) as Hp1.
  pose proof (fd_of_opened s pid i (bootHead (k_fs s)) name d h) as Hfd1.
  set (s1 := lset _ _) in *. destruct (process_fd s pid i Hp) as (f & Hf & _); [lia|].
  assert (fd_of s1 pid i = Some (described (bootHead (k_fs s)) name d f)) as Hf1.
  { rewrite Hfd1, bool_decide_true, Hf by lia. done. }
  assert (flags (described (bootHead (k_fs s)) name d f) = 1) as Hfl1.
  { unfold described. by repeat case_bool_decide. }
  pose proof (close_eq _ _ _ _ Hp1 Hi Hf1) as Hclose. rewrite Hfl1, bool_decide_false in Hclose by done.
  set (g := set_filePosition 0 ∘ _) in *. set (s2 := altered_fd pid i g s1) in *. exists s2.
  assert (process s2 pid) as Hp2 by (apply process_altered_fd; done).
  assert (fd_of s2 pid i = Some (g (described (bootHead (k_fs s)) name d f))) as Hf2.
  { unfold s2. by rewrite fd_of_altered, Hf1. }
  assert (forall j, j <> i -> fd_of s2 pid j = fd_of s pid j) as Hother.
  { intros j Hj. unfold s2. by rewrite fd_of_altered_ne, Hfd1, bool_decide_false by (done || lia). }
  split_and!; try done.
  - apply free_fd_intro; [done|by rewrite Hf2|]. intros j Hj. rewrite Hother by lia. by apply Hlow.
  - by rewrite (close_eq _ _ _ _ Hp2 Hi Hf2).
  - eapply read_bad, bad_fd_closed; done.
  - eapply write_bad, bad_fd_closed; done.
Qed.

Lemma demo_open :
  exists s1, @open demo_layout demo_device (cstring "hello") demo_proc = Ret 3 s1.
Proof.
  destruct (@open_eq demo_layout demo_device demo_image 4 2 3 demo_image_wf demo_proc 1
    (cstring "hello") (bytes_of_string "hello") 1
    (Dentry (pad_to 32 (bytes_of_string "hello")) 2 0 (replicate 24 0)) 3) as [h Hh];
    [exact demo_process|reflexivity|apply cstring_bytes|reflexivity|simpl; lia|reflexivity..|].
  eexists. exact Hh.
Qed.

Lemma open_close_roundtrip_witness :
  exists s1, @open demo_layout demo_device (cstring "hello") demo_proc = Ret 3 s1 /\
  exists s2, close 3 s1 = Ret 0 s2 /\ free_fd demo_proc 1 = Some 3 /\ free_fd s2 1 = Some 3 /\
    (forall j, j <> 3 -> fd_of s2 1 j = fd_of demo_proc 1 j) /\
    close 3 s2 = Ret (-1) s2 /\ read [] 3 [0] 1 s2 = Ret (Some (-1, [0], [])) s2 /\
    @write demo_layout demo_device 3 [0] 1 s2 = Ret (-1) s2.
Proof.
  destruct demo_open as [s1 Hs1]. exists s1. split; [exact Hs1|].
  apply (@open_close_roundtrip demo_layout demo_device demo_image 4 2 3 demo_proc 1 (cstring "hello")
    (bytes_of_string "hello") 3 s1 [] [0] 1 demo_image_wf demo_process); try exact Hs1; try reflexivity.
  - apply cstring_bytes.
  - simpl. lia.
  - lia.
Defined.

(** a program that opens a regular file and reads it with one buffer after the
    other, of any sizes, gets exactly the file's contents once the buffers together
    are as long as the file; the next read returns 0 and stores nothing. *)
Theorem open_read_whole_file `{!Layout} `{!Device} img n N D s pid filename name k d L i bufs :
  wf_image img n N D -> process s pid -> image (k_fs s) = img ->
  bytes filename -> until0 filename = Some name -> (0 < length name <= 31)%nat ->
  dir_lookup img name = Some k -> ld_dentry img k = Some d -> d_fileType d = 2 ->
  0 <= d_inodeNum d < N -> file_length img (d_inodeNum d) = Some L -> free_fd s pid = Some i ->
  Forall (fun b => 0 < len b < 2147483648) bufs -> L <= len (concat bufs) ->
  exists s1 s2, open filename s = Ret i s1 /\
    read_all i bufs s1 = Ret (file_contents img (d_inodeNum d)) s2 /\
    forall buf, 0 < len buf < 2147483648 -> exists s3, read [] i buf (len buf) s2 = Ret (Some (0, buf, [])) s3.
Proof.
  intros Hwf Hp Himg Hb Hn Hl Hk Hd Hty Hino HL Hfree Hbufs Htotal.
  destruct (open_regular _ _ _ _ Hwf s pid filename name k d L i)
    as (s1 & f1 & Hopen & Hp1 & Hfo & Hpos0); try done.
  pose proof (free_fd_inv _ _ _ Hfree) as (Hi & _ & _).
  pose proof (wf_file_length _ _ _ _ Hwf _ Hino) as (L' & HL' & HLr). rewrite HL in HL'. injection HL' as <-.
  pose proof (read_all_delivers _ _ _ _ _ _ _ _ _ _ _ Hwf Hp1 Hfo Hi Hino Hbufs) as Hread.
  rewrite Hpos0 in Hread. cbv zeta in Hread.
  pose proof (file_contents_length _ _ _ HL ltac:(lia)) as Hc.
  rewrite take_ge in Hread by (rewrite length_drop; lia).
  exists s1. eexists. split; [exact Hopen|]. split; [exact Hread|]. intros buf Hbuf. eexists.
  set (s2 := altered_fd _ _ _ _).
  assert (file_open s2 pid i (set_filePosition (filePosition f1 + L) f1) img (d_inodeNum d) L) as Hfo2.
  { unfold s2. replace (0 + Z.min (len (concat bufs)) (L - 0)) with (filePosition f1 + L) by lia.
    apply file_open_advance; [done|lia..]. }
  assert (process s2 pid) as Hp2 by by apply process_altered_fd.
  rewrite (read_eq img n N D Hwf [] s2 pid i _ _ _ buf (len buf) Hp2 Hfo2 Hi Hino Hbuf);
    cbn [filePosition set_filePosition]; [|lia].
  replace (Z.min (len buf) (L - (filePosition f1 + L))) with 0 by lia. reflexivity.
Qed.

Lemma open_read_whole_file_witness :
  exists s1 s2, @open demo_layout demo_device (cstring "hello") demo_proc = Ret 3 s1 /\
    read_all 3 [replicate 100 0; replicate 4096 0] s1 = Ret (file_contents demo_image 0) s2 /\
    forall buf, 0 < len buf < 2147483648 ->
      exists s3, read [] 3 buf (len buf) s2 = Ret (Some (0, buf, [])) s3.
Proof.
  apply (@open_read_whole_file demo_layout demo_device demo_image 4 2 3 demo_proc 1 (cstring "hello")
    (bytes_of_string "hello") 1 (Dentry (pad_to 32 (bytes_of_string "hello")) 2 0 (replicate 24 0))
    4100 3 [replicate 100 0; replicate 4096 0] demo_image_wf demo_process);
    try reflexivity; try (simpl; lia).
  - apply cstring_bytes.
  - repeat constructor; vm_compute; done.
Defined.
