(* ===== verification/Exec.v ===== *)
(** * Executing and halting programs

    [src/student-distrib/systemcall.c]: execute and halt. *)
From S2P Require Import Kernel Terminal Scheduler Syscall.

Definition BUF_SIZE : Z := 40.
Definition SDIN : Z := 0.
Definition SDOUT : Z := 1.

(** ** The code *)

(** [while( *command == ' ') command++;] *)
Fixpoint skip_spaces (command : list Z) : option (list Z) :=
  match command with
  | [] => None
  | c :: command' => if bool_decide (c = 32) then skip_spaces command' else Some command
  end.

(** The copying loop, from index [n] of the array on. [Some None]: the word is longer
    than [limit]. *)
Fixpoint copy_word (limit : Z) (command arr : list Z) (n : Z) : option (option (list Z * list Z * Z)) :=
  match command with
  | [] => None
  | c :: command' =>
      if bool_decide (c = 10) || bool_decide (c = 32) || bool_decide (c = 0)
      then Some (Some (command, arr, n))
      else
        arr' ← store arr n c;
        if bool_decide (n + 1 > limit) then Some None else copy_word limit command' arr' (n + 1)
  end.

(** Assignments to members. *)
Definition set_argument (l : list Z) (p : pcb) : pcb :=
  Pcb (fds p) (prev_pcb p) (p_esp p) (p_ebp p) (p_cr3 p) (parent_pid p) l.
Definition set_saved (cr3 esp ebp : Z) (p : pcb) : pcb :=
  Pcb (fds p) (prev_pcb p) esp ebp cr3 (parent_pid p) (argument p).
Definition set_cr3 (cr3 : Z) (p : pcb) : pcb :=
  Pcb (fds p) (prev_pcb p) (p_esp p) (p_ebp p) cr3 (parent_pid p) (argument p).
Definition set_parent (prev pid : Z) (p : pcb) : pcb :=
  Pcb (fds p) prev (p_esp p) (p_ebp p) (p_cr3 p) pid (argument p).
Definition with_openTasks (l : list Z) (p : procs) : procs :=
  Procs l (curr_status p) (first_shell_entry_point p) (rtc_ops_value p) (directory_ops_value p)
    (file_ops_value p) (pcbs p).
Definition with_status (v : Z) (p : procs) : procs :=
  Procs (openTasks p) v (first_shell_entry_point p) (rtc_ops_value p) (directory_ops_value p)
    (file_ops_value p) (pcbs p).
Definition with_first_shell (v : Z) (p : procs) : procs :=
  Procs (openTasks p) (curr_status p) v (rtc_ops_value p) (directory_ops_value p)
    (file_ops_value p) (pcbs p).

Definition get_task (i : Z) : M kernel Z := s ← get; lift (load (openTasks (k_procs s)) i).
Definition set_task (i v : Z) : M kernel unit :=
  s ← get;
  l ← lift (store (openTasks (k_procs s)) i v);
  modify (fun s => lset (with_openTasks l (k_procs s)) s).

Section Code.
Context `{!Layout}.

(** [for (i = 1; i < 8; i++) if(openTasks[i] == -1) ...]: the process number. *)
Fixpoint take_pid (n : nat) (i cur_programid : Z) : M kernel Z :=
  match n with
  | O => undef
  | S n' =>
      t ← get_task i;
      if bool_decide (t = -1) then
        s ← get;
        (if bool_decide (newterminal_flag (k_terms s) = 1)
         then set_task i 0 ;; set_newterminal_flag 0
         else set_task i cur_programid) ;;
        mret i
      else if bool_decide (i = 7) then kprintf "open task error. pausing now.
" [] ;; hang
      else take_pid n' (i + 1) cur_programid
  end.

(** The scheduling part of execute and of halt: the queue of tasks when process
    [cur] is replaced by [new]; [task] is the one whose [openTasks] entry counts. *)
Definition reschedule (cur new task : Z) : M kernel unit :=
  terminal_number ← find_terminal cur;
  when (bool_decide (terminal_number <> -1)) (
    t ← get_task task;
    when (bool_decide (t <> 0)) (remove_task_from_queue terminal_number) ;;
    terminal_number ← find_terminal new;
    add_task_to_queue terminal_number).

(** The artificial interrupt return into the program: interrupts are disabled, and
    enabled again by the flags that iret loads. *)
Definition iret_to (entry_point : Z) : M kernel (control Z) :=
  cli ;;
  sti ;;
  mret (Iret entry_point (MB_132 - PREV)).

(** execute behind the checks: [esp] and [ebp] are the stack registers where it
    stores them in the control block of the caller. *)
Definition start_program (file_name saved_argument : list Z) (entry_point esp ebp : Z) :
    M kernel (control Z) :=
  cur_programid ← find_programid;
  when (bool_decide (cur_programid = 0)) (
    modify (fun s => lset (with_first_shell (s32 entry_point) (k_procs s)) s)) ;;
  new_programid ← take_pid 7 1 cur_programid;
  reschedule cur_programid new_programid new_programid ;;
  old ← get_old_terminal;
  upd_terminal old (set_program_id new_programid) ;;
  upd_fd new_programid SDIN (set_flags 1) ;;
  upd_fd new_programid SDIN (set_sysops TerminalOps) ;;
  upd_fd new_programid SDOUT (set_flags 1) ;;
  upd_fd new_programid SDOUT (set_sysops TerminalOps) ;;
  newPCB ← get_pcb new_programid;
  arg ← lift (strcpy (argument newPCB) saved_argument);
  upd_pcb new_programid (set_argument arg) ;;
  for_range 2 7 (fun i => upd_fd new_programid i (set_flags 0)) ;;
  s ← get;
  when (bool_decide (cur_programid <> 0)) (
    upd_pcb cur_programid (set_saved (cr3 (k_paging s)) esp ebp)) ;;
  pageval ← page_loader file_name new_programid;
  if bool_decide (pageval <> 0) then kprintf "pageval error. pageval=%d" [AInt pageval] ;; hang
  else
    s ← get;
    zoom (write_cr3 (cr3 (k_paging s))) ;;
    s ← get;
    upd_pcb new_programid (set_cr3 (cr3 (k_paging s))) ;;
    upd_pcb new_programid (set_parent (MB_8 - KB_8 * cur_programid) cur_programid) ;;
    set_tss new_programid ;;
    iret_to entry_point.

(** The check of the file and its entry point, for the parsed command. [stack]: what
    is in the local array [buf] before read_file_sys_helper. *)
Definition load_command (file_name saved_argument stack : list Z) (esp ebp : Z) :
    M kernel (control Z) :=
  img ← get_image;
  r ← lift (open_file img file_name);
  if bool_decide (r = -1) then mret (Returns (-1))
  else
    r ← lift (read_file_sys_helper img file_name stack BUF_SIZE);
    b0 ← lift (load (snd r) 0);
    b1 ← lift (load (snd r) 1);
    b2 ← lift (load (snd r) 2);
    b3 ← lift (load (snd r) 3);
    if bool_decide (b0 <> 0x7F) || bool_decide (b1 <> 0x45) || bool_decide (b2 <> 0x4C)
       || bool_decide (b3 <> 0x46)
    then mret (Returns (-1))
    else
      b27 ← lift (load (snd r) 27);
      b26 ← lift (load (snd r) 26);
      b25 ← lift (load (snd r) 25);
      b24 ← lift (load (snd r) 24);
      start_program file_name saved_argument
        (u32 (Z.shiftl b27 24 + Z.shiftl b26 16 + Z.shiftl b25 8 + b24)) esp ebp.

(** The result is [Returns (-1)], or the entry into the program; when the program halts,
    execute returns what [halt_ret] returns. *)
Definition execute (command : option (list Z)) (stack : list Z) (esp ebp : Z) : M kernel (control Z) :=
  match command with
  | None => kprintf "command is null
" [] ;; hang
  | Some command =>
      command ← lift (skip_spaces command);
      w ← lift (copy_word 32 command (replicate 32 0) 0);
      match w with
      | None => kprintf "invalid command
" [] ;; mret (Returns (-1))
      | Some (command, file_name, file_name_length) =>
          file_name ← lift (store file_name file_name_length 0);
          command ← lift (skip_spaces command);
          w ← lift (copy_word 128 command (replicate 128 0) 0);
          match w with
          | None => kprintf "invalid command
" [] ;; hang
          | Some (_, saved_argument, argument_length) =>
              saved_argument ← lift (store saved_argument argument_length 0);
              load_command file_name saved_argument stack esp ebp
          end
      end
  end.

(** halt_ret_label: [return curr_status] *)
Definition halt_ret : M kernel Z := gets (fun s => s32 (curr_status (k_procs s))).

Definition halt (status : Z) : M kernel (control Z) :=
  cur_programid ← find_programid;
  parent_programid ← get_task cur_programid;
  modify (fun s => lset (with_status (u8 status) (k_procs s)) s) ;;
  reschedule cur_programid parent_programid cur_programid ;;
  if bool_decide (parent_programid = 0) then
    s ← get;
    iret_to (u32 (first_shell_entry_point (k_procs s)))
  else
    old ← get_old_terminal;
    upd_terminal old (set_program_id parent_programid) ;;
    set_programpage parent_programid ;;
    set_task cur_programid (-1) ;;
    for_range 2 8 (fun i => _ ← close i; mret tt) ;;
    modify (fun s =>
      lset (Cpustate (u32 (MB_8 - KB_8 * (parent_programid - 1) - PREV)) (tss_ss0 (k_cpu s))
              (esp_0 (k_cpu s)) (ebp_0 (k_cpu s))) s) ;;
    parent_pcb ← get_pcb parent_programid;
    mret (HaltRet (p_esp parent_pcb) (p_ebp parent_pcb)).
End Code.

(** ** Parsing *)

Definition stops (c : Z) : Prop := c = 10 \/ c = 32 \/ c = 0.
Definition word (l : list Z) : Prop := Forall (fun c => ~ stops c) l.

(** A command line: a name, and behind blanks an argument, which may be empty. *)
Definition command_line (cmd name arg : list Z) : Prop :=
  exists a b e rest, cmd = replicate a 32 ++ name ++ replicate b 32 ++ arg ++ e :: rest /\
    word name /\ name <> [] /\ word arg /\ stops e /\ (b = 0%nat -> arg = []) /\ (arg = [] -> e <> 32).

Lemma skip_spaces_spec (a : nat) c l :
  c <> 32 -> skip_spaces (replicate a 32 ++ c :: l) = Some (c :: l).
Proof.
  intros Hc. induction a as [|a IH]; cbn [replicate app skip_spaces].
  - by rewrite bool_decide_false.
  - by rewrite bool_decide_true.
Qed.

Lemma copy_word_spec limit w c rest arr n :
  word w -> stops c -> 0 <= n -> n + len w <= len arr -> n + len w <= limit ->
  copy_word limit (w ++ c :: rest) arr n
  = Some (Some (c :: rest, take (Z.to_nat n) arr ++ w ++ drop (Z.to_nat n + length w) arr, n + len w)).
Proof.
  intros Hw Hc. revert arr n. induction Hw as [|x w Hx Hw IH]; intros arr n Hn Hl Hlim; cbn [app copy_word].
  - replace (_ || _ || _) with true by (destruct Hc as [-> | [-> | ->]]; reflexivity).
    cbn [length]. by rewrite Nat.add_0_r, take_drop, Z.add_0_r.
  - cbn [length] in *. unfold stops in Hx. rewrite !bool_decide_false by tauto. cbn [orb].
    rewrite store_in by lia. cbn [mbind option_bind]. rewrite bool_decide_false by lia.
    rewrite IH by lens. replace (Z.to_nat (n + 1)) with (S (Z.to_nat n)) by lia.
    rewrite (take_S_r _ _ x) by (apply list_lookup_insert_eq; lia).
    rewrite take_insert_ge, drop_insert_lt, <-app_assoc by lia.
    replace (n + 1 + len w) with (n + Z.of_nat (S (length w))) by lia.
    by rewrite <-Nat.add_succ_comm.
Qed.

(** The array after the word and its NUL. *)
Lemma store_word w (arr : list Z) :
  len w < len arr ->
  store (take (Z.to_nat 0) arr ++ w ++ drop (Z.to_nat 0 + length w) arr) (0 + len w) 0
  = Some (w ++ 0 :: drop (S (length w)) arr).
Proof.
  intros Hl. change (Z.to_nat 0) with 0%nat. rewrite take_0, Nat.add_0_l. cbn [app].
  rewrite (drop_S arr (arr !!! length w)) by (apply list_lookup_lookup_total_lt; lia).
  apply store_middle. lia.
Qed.

Section Parsing.
Context `{!Layout}.

(** The parsed command. *)
Lemma execute_parses cmd name arg stack esp ebp s :
  command_line cmd name arg -> (length name <= 31)%nat -> (length arg <= 127)%nat ->
  execute (Some cmd) stack esp ebp s
  = load_command (name ++ replicate (32 - length name) 0) (arg ++ replicate (128 - length arg) 0)
      stack esp ebp s.
Proof.
  intros (a & b & e & rest & -> & Hw & Hne & Hwa & He & Hb & Harg) Hl Hla. unfold execute.
  destruct name as [|c name]; [done|]. pose proof (Forall_inv Hw) as Hc. cbn [app].
  assert (c <> 32) as Hc32 by (unfold stops in Hc; tauto).
  unfold mbind at 1, M_bind at 1, lift at 1. rewrite skip_spaces_spec by done.
  assert (exists e' rest', replicate b 32 ++ arg ++ e :: rest = e' :: rest' /\ stops e') as (e' & rest' & E & He').
  { destruct b as [|b]; [rewrite Hb by done; by exists e, rest|]. do 2 eexists. split; [reflexivity|].
    unfold stops. auto. }
  assert (exists c' r', arg ++ e :: rest = c' :: r' /\ c' <> 32) as (c' & r' & E2 & Hc').
  { destruct arg as [|x arg]; [exists e, rest; auto|]. pose proof (Forall_inv Hwa) as Hx.
    exists x, (arg ++ e :: rest). unfold stops in Hx. split; [done|tauto]. }
  rewrite E. change (c :: name ++ e' :: rest') with ((c :: name) ++ e' :: rest').
  unfold mbind at 1, M_bind at 1, lift at 1.
  rewrite copy_word_spec by (done || (rewrite ?length_replicate; lia)). 
  unfold mbind at 1, M_bind at 1, lift at 1. rewrite store_word by (rewrite length_replicate; lia).
  unfold mbind at 1, M_bind at 1, lift at 1. rewrite <-E, E2, skip_spaces_spec, <-E2 by done.
  unfold mbind at 1, M_bind at 1, lift at 1.
  rewrite copy_word_spec by (done || (rewrite ?length_replicate; lia)).
  unfold mbind at 1, M_bind at 1, lift at 1. rewrite store_word by (rewrite length_replicate; lia).
  rewrite (drop_replicate _ 128), (drop_replicate _ 32).
  replace (32 - length (c :: name))%nat with (S (32 - S (length (c :: name))))%nat by (cbn in *; lia).
  replace (128 - length arg)%nat with (S (128 - S (length arg)))%nat by lia. reflexivity.
Qed.
End Parsing.

(** ** Loading a program *)

(** Task [t]'s memory holds [l] from offset [off] on. *)
Definition programs_with (t off : Z) (l : list Z) (f : Z -> Z -> Z) : Z -> Z -> Z := fun u i =>
  if bool_decide (u = t /\ off <= i < off + len l) then default 0 (load l (i - off)) else f u i.
Definition program_offset : Z := 0x48000.
Definition with_cr3 (t : Z) `{!Layout} (s : kernel) : kernel :=
  lset (load_task t (k_paging s)) s.

Section Loading.
Context `{!Layout} (img : list Z) (n N D : Z).
Hypothesis Hwf : wf_image img n N D.

Lemma program_at_load t frame s wr :
  maps (k_paging s) t frame -> cr3 (k_paging s) = dir_addr t -> 1 <= t <= 6 ->
  translate (k_paging s) false wr PROGRAM_MEM ≫= program_at = Some (t, program_offset).
Proof.
  intros Hm Hc Ht. rewrite (translate_task _ t frame) by (done || unfold PROGRAM_MEM; lia).
  unfold task_space, PROGRAM_MEM, program_offset, program_at, program_frame.
  rewrite bool_decide_true by lia. cbn [mbind option_bind].
  set (pa := 0x800000 + (t - 1) * 0x400000 + (0x8048000 - 0x8000000)).
  assert ((pa - 0x400000) `div` 0x400000 = t) as ->.
  { symmetry. apply Z.div_unique with 0x48000; lia. }
  assert (pa `mod` 0x400000 = 0x48000) as ->.
  { symmetry. apply Z.mod_unique with (t + 1); lia. }
  by rewrite bool_decide_true by lia.
Qed.

Lemma get_program_eq s va m t off :
  translate (k_paging s) false false va ≫= program_at = Some (t, off) -> off + m <= 0x400000 ->
  get_program va m s = Ret ((fun i => k_programs s t (off + i)) <$> seqZ 0 m) s.
Proof.
  intros (pa & Hpa & Hat)%bind_Some Hm. unfold get_program, mbind, M_bind, get, lift.
  rewrite Hpa. cbn. rewrite Hat. by rewrite bool_decide_true.
Qed.

Lemma put_program_eq s va l t off :
  translate (k_paging s) false true va ≫= program_at = Some (t, off) -> off + len l <= 0x400000 ->
  put_program va l s = Ret tt (set_programs (programs_with t off l (k_programs s)) s).
Proof.
  intros (pa & Hpa & Hat)%bind_Some Hm. unfold put_program, mbind, M_bind, get, lift.
  rewrite Hpa. cbn. rewrite Hat. by rewrite bool_decide_true.
Qed.

Lemma page_loader_eq t frame s file name k d L :
  maps (k_paging s) t frame -> 1 <= t <= 6 -> image (k_fs s) = img ->
  bytes file -> until0 file = Some name -> (length name <= 31)%nat ->
  dir_lookup img name = Some k -> ld_dentry img k = Some d -> 0 <= d_inodeNum d < N ->
  file_length img (d_inodeNum d) = Some L -> L <= MB_132 - PROGRAM_MEM ->
  page_loader file t s
  = Ret 0 (set_programs (programs_with t program_offset (file_contents img (d_inodeNum d)) (k_programs s))
             (with_cr3 t s)).
Proof.
  intros Hm Ht Himg Hb Hn Hl Hk Hd Hino HL HLf.
  pose proof (wf_small _ _ _ _ Hwf) as Hsm.
  pose proof (wf_file_length _ _ _ _ Hwf _ Hino) as (L' & HL' & HLr). rewrite HL in HL'. injection HL' as <-.
  unfold NUM_DATA_BLOCK, FOUR_KILOBYTES in HLr. unfold page_loader, get_image. unfold mbind at 1, M_bind at 1, gets at 1. rewrite Himg.
  rewrite (read_dentry_by_name_spec _ _ _ _ Hwf _ _ Hb Hn Hl), Hk.
  unfold mbind at 1, M_bind at 1, lift at 1. rewrite Hd. cbn [mbind option_bind fst snd].
  rewrite bool_decide_false by done. unfold mbind at 1, M_bind at 1, lift at 1.
  rewrite s32_small by lia. unfold file_length in HL. rewrite HL. fold (file_length img (d_inodeNum d)) in HL.
  unfold mbind at 1, M_bind at 1, lift at 1.
  rewrite (bind_Ret _ _ _ _ _ (set_programpage_eq t s ltac:(lia))). fold (load_task t (k_paging s)).
  fold (with_cr3 t s). rewrite !u32_small, Z.min_l by lia.
  assert (forall wr, translate (k_paging (with_cr3 t s)) false wr PROGRAM_MEM ≫= program_at
    = Some (t, program_offset)) as Htr.
  { intros wr. by apply (program_at_load t frame). }
  assert (program_offset + L <= 0x400000) as Hfit by (unfold program_offset, MB_132, PROGRAM_MEM in *; lia).
  rewrite (bind_Ret _ _ _ _ _ (get_program_eq _ _ _ _ _ (Htr false) Hfit)).
  set (old := _ <$> seqZ 0 L). assert (length old = Z.to_nat L) as Hold by (unfold old; by rewrite length_fmap, length_seqZ).
  pose proof (file_contents_length _ _ _ HL ltac:(lia)) as Hc.
  assert (exists r, read_data img (d_inodeNum d) 0 (Some old) L
    = Some (r, file_contents img (d_inodeNum d)) /\ r <> -1) as (r & -> & Hr).
  { destruct (decide (L = 0)) as [->|HL0].
    - exists 0. split; [|done]. unfold read_data. rewrite u32_small by lia.
      unfold file_length in HL. rewrite HL. cbn. f_equal. f_equal.
      apply nil_length_inv in Hold. rewrite Hold. symmetry. apply nil_length_inv. lia.
    - rewrite (read_data_spec _ _ _ _ _ _ 0 _ _ Hwf Hino HL) by (cbv zeta; lia).
      exists L. split; [|lia].
      rewrite Z.sub_0_r, Z.min_id. change (Z.to_nat 0) with 0%nat. rewrite drop_0, take_ge, drop_ge by lia.
      by rewrite app_nil_r. }
  unfold mbind at 1, M_bind at 1, lift at 1. cbn [fst snd].
  rewrite (bind_Ret _ _ _ _ _ (put_program_eq _ _ (file_contents img (d_inodeNum d)) _ _
    (Htr true) ltac:(lia))).
  by rewrite bool_decide_false.
Qed.
End Loading.

(** ** Steps of execute and halt *)

Section Steps.
Context `{!Layout}.

(** The first free process number. *)
Definition free_pid (s : kernel) : option Z :=
  head (filter (fun i => load (openTasks (k_procs s)) i = Some (-1)) (seqZ 1 6)).
Definition set_openTask (i v : Z) (s : kernel) : kernel :=
  lset (with_openTasks (<[Z.to_nat i := v]> (openTasks (k_procs s))) (k_procs s)) s.
Definition claimed (i cur : Z) (s : kernel) : kernel :=
  if bool_decide (newterminal_flag (k_terms s) = 1)
  then lset (Terms (terminals (k_terms s)) (old_terminal (k_terms s)) 0) (set_openTask i 0 s)
  else set_openTask i cur s.

Lemma get_task_eq i v s : load (openTasks (k_procs s)) i = Some v -> get_task i s = Ret v s.
Proof. intros Hv. unfold get_task, mbind, M_bind, get, lift. by rewrite Hv. Qed.

Lemma set_task_eq i v w s :
  load (openTasks (k_procs s)) i = Some w -> set_task i v s = Ret tt (set_openTask i v s).
Proof.
  intros [Hr _]%load_inv. unfold set_task, mbind, M_bind, get, lift. by rewrite store_in.
Qed.

Lemma free_pid_inv s i :
  free_pid s = Some i ->
  1 <= i <= 6 /\ load (openTasks (k_procs s)) i = Some (-1) /\
  forall j, 1 <= j < i -> load (openTasks (k_procs s)) j <> Some (-1).
Proof.
  unfold free_pid. destruct (filter _ (seqZ 1 6)) as [|j l] eqn:E; [done|]. intros [= ->].
  apply (filter_head_first (fun i => load (openTasks (k_procs s)) i = Some (-1)) 1 6) in E.
  destruct E as (? & ? & ?). split_and!; done || lia.
Qed.

Lemma take_pid_from n i cur s new :
  i <= new < i + Z.of_nat n -> new <= 6 -> 0 <= i -> length (openTasks (k_procs s)) = 7%nat ->
  load (openTasks (k_procs s)) new = Some (-1) ->
  (forall j, i <= j < new -> load (openTasks (k_procs s)) j <> Some (-1)) ->
  take_pid n i cur s = Ret new (claimed new cur s).
Proof.
  revert i. induction n as [|n IH]; intros i Hn H6 Hi Hl Hnew Hlow; [lia|].
  destruct (load_Some (openTasks (k_procs s)) i) as [v Hv]; [lia|].
  cbn [take_pid]. rewrite (bind_Ret _ _ _ _ _ (get_task_eq _ _ _ Hv)).
  destruct (decide (i = new)) as [->|Hne].
  - rewrite bool_decide_true by congruence. unfold mbind at 1, M_bind at 1, get at 1. unfold claimed.
    case_bool_decide.
    + rewrite (bind_Ret _ _ _ (tt) (lset (Terms (terminals (k_terms s)) (old_terminal (k_terms s)) 0)
        (set_openTask new 0 s))); [done|]. by rewrite (bind_Ret _ _ _ _ _ (set_task_eq _ 0 _ _ Hv)).
    + by rewrite (bind_Ret _ _ _ _ _ (set_task_eq _ cur _ _ Hv)).
  - rewrite bool_decide_false by (intros ->; by apply (Hlow i); [lia|]).
    rewrite bool_decide_false by lia. apply IH; try done; try lia. intros. apply Hlow. lia.
Qed.

(** The queue of tasks that [reschedule] leaves. *)
Definition rescheduled (s : kernel) (cur new task : Z) : list (option Z) :=
  let ts := tasks (k_sched s) in
  match terminal_of s cur with
  | None => ts
  | Some i =>
      let ts1 := if bool_decide (load (openTasks (k_procs s)) task = Some 0) then ts
                 else default ts (remove_task_loop 3 0 i ts) in
      default ts1 (add_task_loop 3 0 (current_task_idx (k_sched s)) (default (-1) (terminal_of s new)) ts1)
  end.
Definition with_tasks (ts : list (option Z)) (s : kernel) : kernel :=
  lset (Sched ts (current_task_idx (k_sched s))) s.

Lemma remove_task_length i ts ts' :
  length ts = 3%nat -> remove_task_loop 3 0 i ts = Some ts' -> length ts' = 3%nat.
Proof.
  intros (a & b & c & ->)%three_slots. rewrite remove_task_loop_unfold.
  repeat case_bool_decide; by intros [= <-].
Qed.

Lemma remove_task_Some i ts : length ts = 3%nat -> is_Some (remove_task_loop 3 0 i ts).
Proof. intros (a & b & c & ->)%three_slots. rewrite remove_task_loop_unfold. eauto. Qed.

Definition queued (p : Z) (s : kernel) : list (option Z) :=
  default (tasks (k_sched s)) (add_task_loop 3 0 (current_task_idx (k_sched s)) p (tasks (k_sched s))).

Lemma add_task_eq p s :
  length (tasks (k_sched s)) = 3%nat -> 0 <= current_task_idx (k_sched s) < 3 ->
  add_task_to_queue p s = Ret tt (with_tasks (queued p s) s) /\ length (queued p s) = 3%nat.
Proof.
  intros Hl Hi. pose proof (add_task_loop_spec _ p _ Hl Hi) as Ha.
  assert (exists ts, add_task_loop 3 0 (current_task_idx (k_sched s)) p (tasks (k_sched s)) = Some ts /\
    length ts = 3%nat) as (ts & Hts & Hlen).
  { rewrite Ha. eexists. split; [reflexivity|]. destruct (first_free _ _); [by rewrite length_insert|done]. }
  unfold queued. rewrite Hts. split; [|done]. unfold add_task_to_queue, mbind, M_bind, get.
  by rewrite Hts.
Qed.

Lemma reschedule_eq cur new task s v :
  length (terminals (k_terms s)) = 3%nat -> length (tasks (k_sched s)) = 3%nat ->
  0 <= current_task_idx (k_sched s) < 3 -> 0 <= cur < 4294967296 -> 0 <= new < 4294967296 ->
  load (openTasks (k_procs s)) task = Some v ->
  reschedule cur new task s = Ret tt (with_tasks (rescheduled s cur new task) s) /\
  length (rescheduled s cur new task) = 3%nat.
Proof.
  intros Ht Hq Hi Hc Hn Hv. unfold reschedule, rescheduled.
  rewrite (bind_Ret _ _ _ _ _ (find_terminal_eq s cur Ht Hc)).
  assert (forall u : kernel, with_tasks (tasks (k_sched u)) u = u) as Hsame.
  { intros [? ? ? ? ? ? ? ? ? [? ?] ? ? ?]. reflexivity. }
  destruct (terminal_of s cur) as [i|] eqn:E; cbn [default].
  2: { rewrite bool_decide_false by lia. split; [by rewrite Hsame|done]. }
  apply terminal_of_inv in E as [Hir _]. rewrite bool_decide_true by (cbn; lia). cbn [when].
  rewrite (bind_Ret _ _ _ _ _ (get_task_eq _ _ _ Hv)), Hv.
  set (ts1 := if bool_decide (Some v = Some 0) then _ else _).
  assert (when (bool_decide (v <> 0)) (remove_task_from_queue i) s = Ret tt (with_tasks ts1 s) /\
    length ts1 = 3%nat) as [Hrm Hl1].
  { unfold ts1. destruct (decide (v = 0)) as [->|Hv0].
    - rewrite (bool_decide_true (Some 0 = _)), (bool_decide_false (0 <> 0)) by (done || lia).
      split; [by rewrite Hsame|done].
    - rewrite (bool_decide_false (Some v = _)), (bool_decide_true (v <> 0)) by (done || congruence).
      destruct (remove_task_Some i (tasks (k_sched s)) Hq) as [ts' Hts'].
      cbn [when]. unfold remove_task_from_queue, mbind, M_bind, get, lift. rewrite Hts'.
      split; [done|by eapply remove_task_length]. }
  rewrite (bind_Ret _ _ _ _ _ Hrm). clearbody ts1.
  rewrite (bind_Ret _ _ _ _ _ (find_terminal_eq (with_tasks ts1 s) new Ht Hn)).
  change (terminal_of (with_tasks ts1 s) new) with (terminal_of s new).
  by apply (add_task_eq _ (with_tasks ts1 s)).
Qed.
End Steps.

(** *** Initialising a control block *)

Definition change_fd (i : nat) (f : file_desc -> file_desc) (p : pcb) : pcb :=
  with_fds (alter f i (fds p)) p.

Section Pcb.
Context `{!Layout}.

Lemma altered_pcb_twice pid f g s : altered_pcb pid g (altered_pcb pid f s) = altered_pcb pid (g ∘ f) s.
Proof.
  unfold altered_pcb. cbn [lset kernel_procs k_procs with_pcbs pcbs]. by rewrite list_alter_alter_eq.
Qed.

Lemma load_altered_pcb pid f s p :
  load (pcbs (k_procs s)) (pid - 1) = Some p ->
  load (pcbs (k_procs (altered_pcb pid f s))) (pid - 1) = Some (f p).
Proof. apply load_alter_eq. Qed.

Lemma load_altered_pcb_ne pid f s q :
  1 <= pid -> q <> pid ->
  load (pcbs (k_procs (altered_pcb pid f s))) (q - 1) = load (pcbs (k_procs s)) (q - 1).
Proof. intros. apply load_alter_ne; lia. Qed.

(** Steps on the control block [p] of [pid], which has been changed by [f]. *)
Section Step.
Context (pid : Z) (s : kernel) (p : pcb).
Hypothesis Hp : load (pcbs (k_procs s)) (pid - 1) = Some p.

Lemma upd_pcb_step {A} (k : unit -> M kernel A) f g :
  (upd_pcb pid g ≫= k) (altered_pcb pid f s) = k tt (altered_pcb pid (g ∘ f) s).
Proof.
  rewrite <-altered_pcb_twice. apply bind_Ret. eapply upd_pcb_eq. by apply load_altered_pcb.
Qed.

Lemma get_pcb_step {A} (k : pcb -> M kernel A) f :
  (get_pcb pid ≫= k) (altered_pcb pid f s) = k (f p) (altered_pcb pid f s).
Proof. apply bind_Ret, get_pcb_eq. by apply load_altered_pcb. Qed.

Lemma change_fd_step {A} (k : unit -> M kernel A) i f g :
  length (fds (f p)) = 8%nat -> 0 <= i < 8 ->
  (upd_fd pid i g ≫= k) (altered_pcb pid f s)
  = k tt (altered_pcb pid (change_fd (Z.to_nat i) g ∘ f) s).
Proof.
  intros Hl Hi. destruct (load_Some (fds (f p)) i) as [d Hd]; [lia|].
  rewrite <-altered_pcb_twice. apply bind_Ret. eapply upd_fd_eq.
  unfold fd_of. rewrite (load_altered_pcb _ _ _ _ Hp). exact Hd.
Qed.
End Step.
End Pcb.

(** A fresh control block: standard input and output are the terminal, the
    descriptors 2 to 6 are free. *)
Definition fresh_fds (p : pcb) : pcb :=
  change_fd 1 (set_sysops TerminalOps) (change_fd 1 (set_flags 1)
    (change_fd 0 (set_sysops TerminalOps) (change_fd 0 (set_flags 1) p))).
Definition free_fds (p : pcb) : pcb :=
  change_fd 6 (set_flags 0) (change_fd 5 (set_flags 0) (change_fd 4 (set_flags 0)
    (change_fd 3 (set_flags 0) (change_fd 2 (set_flags 0) p)))).
Definition fresh_pcb (arg : list Z) (p : pcb) : pcb :=
  free_fds (set_argument (arg ++ 0 :: drop (S (length arg)) (argument p)) (fresh_fds p)).

Section Fresh.
Context `{!Layout}.

Lemma load_change_fd i j f p d :
  load (fds p) j = Some d ->
  load (fds (change_fd i f p)) j = Some (if bool_decide (j = Z.of_nat i) then f d else d).
Proof.
  intros Hd. pose proof (load_inv _ _ _ Hd) as [Hr _]. cbn [fds change_fd with_fds].
  case_bool_decide as E.
  - rewrite <-(Nat2Z.id i), <-E. by apply load_alter_eq.
  - unfold load in *. case_bool_decide; [|done]. rewrite list_lookup_alter_ne by lia. done.
Qed.

Lemma length_change_fd i f p : length (fds (change_fd i f p)) = length (fds p).
Proof. apply length_alter. Qed.

Lemma fds_set_argument a p : fds (set_argument a p) = fds p.
Proof. done. Qed.

(** The assignments of execute to the new control block. *)
Lemma fresh_pcb_run {A} (k : unit -> M kernel A) pid s p saved arg :
  load (pcbs (k_procs s)) (pid - 1) = Some p -> length (fds p) = 8%nat ->
  until0 saved = Some arg -> (length arg < length (argument p))%nat ->
  (upd_fd pid SDIN (set_flags 1) ;;
   upd_fd pid SDIN (set_sysops TerminalOps) ;;
   upd_fd pid SDOUT (set_flags 1) ;;
   upd_fd pid SDOUT (set_sysops TerminalOps) ;;
   newPCB ← get_pcb pid;
   a ← lift (strcpy (argument newPCB) saved);
   upd_pcb pid (set_argument a) ;;
   for_range 2 7 (fun i => upd_fd pid i (set_flags 0)) ;;
   k tt) s
  = k tt (altered_pcb pid (fresh_pcb arg) s).
Proof.
  intros Hp Hl Harg Hfit.
  assert (altered_pcb pid id s = s) as Hid.
  { unfold altered_pcb. rewrite list_alter_id by done. by destruct s as [? ? ? ? ? ? ? ? ? ? [] ? ?]. }
  rewrite <-Hid at 1. unfold SDIN, SDOUT.
  rewrite !(change_fd_step _ _ _ Hp) by (cbn [compose id]; rewrite ?length_change_fd; done).
  rewrite (get_pcb_step _ _ _ Hp). unfold mbind at 1, M_bind at 1, lift at 1.
  change (argument (_ p)) with (argument p). rewrite (strcpy_fits _ _ _ Harg Hfit).
  rewrite (upd_pcb_step _ _ _ Hp). change (Z.to_nat (7 - 2)) with 5%nat.
  change (for_ 5 2 ?b) with (b 2 ;; b (2 + 1) ;; b (2 + 1 + 1) ;; b (2 + 1 + 1 + 1) ;;
    b (2 + 1 + 1 + 1 + 1) ;; (mret tt : M kernel unit)).
  do 5 (rewrite bind_bind, (change_fd_step _ _ _ Hp)
    by (cbn [compose id]; rewrite ?length_change_fd, ?fds_set_argument, ?length_change_fd; done)).
  unfold mbind, M_bind, mret, M_ret. f_equal. by apply (altered_pcb_ext _ _ _ _ p).
Qed.
End Fresh.

(** ** The state behind execute *)

(** What execute and halt rely on: the sizes of the arrays, and that process [cur]
    (0: the kernel) runs. *)
Record kernel_ready `{!Layout} (s : kernel) (cur : Z) : Prop := {
  kr_cr3 : cr3 (k_paging s) = dir_addr cur;
  kr_cur : 0 <= cur <= 6;
  kr_terminals : length (terminals (k_terms s)) = 3%nat;
  kr_old : 0 <= old_terminal (k_terms s) < 3;
  kr_tasks : length (tasks (k_sched s)) = 3%nat;
  kr_idx : 0 <= current_task_idx (k_sched s) < 3;
  kr_openTasks : length (openTasks (k_procs s)) = 7%nat;
  kr_procs : procs_ok s;
}.

Section Start.
Context `{!Layout}.

Definition first_shell (cur entry_point : Z) (s : kernel) : kernel :=
  if bool_decide (cur = 0) then lset (with_first_shell (s32 entry_point) (k_procs s)) s else s.
Definition saved_caller (cur esp ebp : Z) (s : kernel) : kernel :=
  if bool_decide (cur <> 0) then altered_pcb cur (set_saved (cr3 (k_paging s)) esp ebp) s else s.

(** Before the program is loaded. *)
Definition prepared (cur new : Z) (arg : list Z) (entry_point esp ebp : Z) (s : kernel) : kernel :=
  let s2 := claimed new cur (first_shell cur entry_point s) in
  let s3 := with_tasks (rescheduled s2 cur new new) s2 in
  saved_caller cur esp ebp
    (altered_pcb new (fresh_pcb arg)
      (altered_terminal (old_terminal (k_terms s)) (set_program_id new) s3)).

(** Behind it. *)
Definition entered (cur new : Z) (contents : list Z) (s : kernel) : kernel :=
  let s1 := set_programs (programs_with new program_offset contents (k_programs s)) (with_cr3 new s) in
  let s2 := altered_pcb new (set_parent (MB_8 - KB_8 * cur) cur ∘ set_cr3 (dir_addr new)) s1 in
  let s3 := lset (Cpustate (u32 (MB_8 - KB_8 * (new - 1) - PREV)) KERNEL_DS (esp_0 (k_cpu s))
                    (ebp_0 (k_cpu s))) s2 in
  lset (Sti :: Cli :: k_io s) s3.

Lemma claimed_fields new cur s :
  tasks (k_sched (claimed new cur s)) = tasks (k_sched s) /\
  current_task_idx (k_sched (claimed new cur s)) = current_task_idx (k_sched s) /\
  terminals (k_terms (claimed new cur s)) = terminals (k_terms s) /\
  old_terminal (k_terms (claimed new cur s)) = old_terminal (k_terms s) /\
  pcbs (k_procs (claimed new cur s)) = pcbs (k_procs s) /\
  k_paging (claimed new cur s) = k_paging s /\ k_fs (claimed new cur s) = k_fs s /\
  k_programs (claimed new cur s) = k_programs s /\ k_io (claimed new cur s) = k_io s /\
  openTasks (k_procs (claimed new cur s))
  = <[Z.to_nat new := if bool_decide (newterminal_flag (k_terms s) = 1) then 0 else cur]>
      (openTasks (k_procs s)).
Proof. unfold claimed. case_bool_decide; split_and!; reflexivity. Qed.

Lemma first_shell_fields cur e s :
  k_sched (first_shell cur e s) = k_sched s /\ k_terms (first_shell cur e s) = k_terms s /\
  pcbs (k_procs (first_shell cur e s)) = pcbs (k_procs s) /\
  openTasks (k_procs (first_shell cur e s)) = openTasks (k_procs s) /\
  k_paging (first_shell cur e s) = k_paging s /\ k_fs (first_shell cur e s) = k_fs s /\
  k_programs (first_shell cur e s) = k_programs s /\ k_io (first_shell cur e s) = k_io s.
Proof. unfold first_shell. case_bool_decide; split_and!; reflexivity. Qed.

Lemma saved_caller_fields cur esp ebp s :
  k_paging (saved_caller cur esp ebp s) = k_paging s /\ k_fs (saved_caller cur esp ebp s) = k_fs s /\
  k_programs (saved_caller cur esp ebp s) = k_programs s /\
  k_terms (saved_caller cur esp ebp s) = k_terms s /\ k_sched (saved_caller cur esp ebp s) = k_sched s /\
  k_io (saved_caller cur esp ebp s) = k_io s /\
  openTasks (k_procs (saved_caller cur esp ebp s)) = openTasks (k_procs s).
Proof. unfold saved_caller. case_bool_decide; split_and!; reflexivity. Qed.

Lemma load_pcb s pid :
  procs_ok s -> 1 <= pid <= 6 -> exists p, load (pcbs (k_procs s)) (pid - 1) = Some p /\ pcb_ok p.
Proof.
  intros [Hl He] Hp. destruct (load_Some (pcbs (k_procs s)) (pid - 1)) as [p Hp']; [lia|].
  exists p. split; [done|]. by eapply load_Forall.
Qed.

(** execute up to the loader. *)
Lemma start_program_prepares s cur new file saved arg entry_point esp ebp :
  kernel_ready s cur -> free_pid s = Some new -> new <> cur ->
  until0 saved = Some arg -> (length arg <= 127)%nat ->
  start_program file saved entry_point esp ebp s
  = (pageval ← page_loader file new;
     if bool_decide (pageval <> 0) then kprintf "pageval error. pageval=%d" [AInt pageval] ;; hang
     else
       s ← get;
       zoom (write_cr3 (cr3 (k_paging s))) ;;
       s ← get;
       upd_pcb new (set_cr3 (cr3 (k_paging s))) ;;
       upd_pcb new (set_parent (MB_8 - KB_8 * cur) cur) ;;
       set_tss new ;;
       iret_to entry_point) (prepared cur new arg entry_point esp ebp s).
Proof.
  intros [Hc Hcr Ht Ho Hq Hi Hop Hpr] Hfree Hne Harg Hl.
  pose proof (free_pid_inv _ _ Hfree) as (Hn & Hnew & Hlow).
  unfold start_program. rewrite (bind_Ret _ _ _ _ _ (find_programid_eq cur s Hc ltac:(lia))).
  assert (when (bool_decide (cur = 0))
    (modify (fun s => lset (with_first_shell (s32 entry_point) (k_procs s)) s)) s
    = Ret tt (first_shell cur entry_point s)) as E1.
  { unfold first_shell. by case_bool_decide. }
  rewrite (bind_Ret _ _ _ _ _ E1).
  destruct (first_shell_fields cur entry_point s) as (F1 & F2 & F3 & F4 & F5 & F6 & F7 & F8).
  set (s1 := first_shell cur entry_point s) in *.
  assert (take_pid 7 1 cur s1 = Ret new (claimed new cur s1)) as E2.
  { apply take_pid_from; rewrite ?F4; done || lia. }
  rewrite (bind_Ret _ _ _ _ _ E2).
  destruct (claimed_fields new cur s1) as (G1 & G2 & G3 & G4 & G5 & G6 & G7 & G8 & G9 & G10).
  unfold prepared. fold s1. set (s2 := claimed new cur s1) in *.
  destruct (reschedule_eq cur new new s2 (if bool_decide (newterminal_flag (k_terms s1) = 1) then 0 else cur))
    as [E3 _]; rewrite ?G1, ?G2, ?G3, ?F1, ?F2; try done; try lia.
  { rewrite G10, F4, F2. apply load_insert_eq. lia. }
  rewrite (bind_Ret _ _ _ _ _ E3). set (s3 := with_tasks _ s2).
  assert (get_old_terminal s3 = Ret (old_terminal (k_terms s)) s3) as E4.
  { unfold get_old_terminal, gets. f_equal. change (k_terms s3) with (k_terms s2). by rewrite G4, F2. }
  rewrite (bind_Ret _ _ _ _ _ E4).
  destruct (load_Some (terminals (k_terms s3)) (old_terminal (k_terms s))) as [t Hold].
  { change (terminals (k_terms s3)) with (terminals (k_terms s2)). rewrite G3, F2. lia. }
  rewrite (bind_Ret _ _ _ _ _ (upd_terminal_eq _ _ _ _ Hold)).
  fold (altered_terminal (old_terminal (k_terms s)) (set_program_id new) s3).
  set (s4 := altered_terminal _ _ s3).
  assert (pcbs (k_procs s4) = pcbs (k_procs s)) as Hp4.
  { change (pcbs (k_procs s4)) with (pcbs (k_procs s2)). by rewrite G5, F3. }
  destruct (load_pcb s new Hpr ltac:(lia)) as (p & Hp & Hl8 & Ha & _). rewrite <-Hp4 in Hp.
  rewrite (fresh_pcb_run (fun _ => _) new s4 p saved arg Hp Hl8 Harg ltac:(lia)).
  set (s5 := altered_pcb new (fresh_pcb arg) s4). unfold mbind at 1, M_bind at 1, get at 1.
  assert (when (bool_decide (cur <> 0)) (upd_pcb cur (set_saved (cr3 (k_paging s5)) esp ebp)) s5
    = Ret tt (saved_caller cur esp ebp s5)) as E6.
  { unfold saved_caller. destruct (decide (cur = 0)) as [Hc0|Hc0].
    { by rewrite !bool_decide_false by (intros Hx; by apply Hx). }
    rewrite !bool_decide_true by done. cbn [when].
    destruct (load_pcb s cur Hpr ltac:(lia)) as (q & Hq' & _). rewrite <-Hp4 in Hq'.
    eapply upd_pcb_eq. unfold s5. rewrite load_altered_pcb_ne by lia. exact Hq'. }
  by rewrite (bind_Ret _ _ _ _ _ E6).
Qed.

Lemma prepared_fields cur new arg e esp ebp s :
  let s' := prepared cur new arg e esp ebp s in
  k_paging s' = k_paging s /\ k_fs s' = k_fs s /\ k_programs s' = k_programs s /\ k_io s' = k_io s /\
  terminals (k_terms s')
  = alter (set_program_id new) (Z.to_nat (old_terminal (k_terms s))) (terminals (k_terms s)) /\
  old_terminal (k_terms s') = old_terminal (k_terms s) /\
  openTasks (k_procs s')
  = <[Z.to_nat new := if bool_decide (newterminal_flag (k_terms s) = 1) then 0 else cur]>
      (openTasks (k_procs s)) /\
  current_task_idx (k_sched s') = current_task_idx (k_sched s).
Proof.
  cbv zeta. unfold prepared.
  destruct (first_shell_fields cur e s) as (F1 & F2 & F3 & F4 & F5 & F6 & F7 & F8).
  set (s1 := first_shell cur e s) in *.
  destruct (claimed_fields new cur s1) as (G1 & G2 & G3 & G4 & G5 & G6 & G7 & G8 & G9 & G10).
  set (s2 := claimed new cur s1) in *. set (s5 := altered_pcb new _ _).
  destruct (saved_caller_fields cur esp ebp s5) as (-> & -> & -> & -> & -> & -> & ->).
  unfold s5. cbn. by rewrite G2, G3, G4, G6, G7, G8, G9, G10, F1, F2, F4, F5, F6, F7, F8.
Qed.

Lemma prepared_pcbs cur new arg e esp ebp s :
  0 <= cur <= 6 -> 1 <= new <= 6 -> new <> cur ->
  let l := pcbs (k_procs (prepared cur new arg e esp ebp s)) in
  load l (new - 1) = fresh_pcb arg <$> load (pcbs (k_procs s)) (new - 1) /\
  (cur <> 0 -> load l (cur - 1)
    = set_saved (cr3 (k_paging s)) esp ebp <$> load (pcbs (k_procs s)) (cur - 1)) /\
  (forall q, q <> new -> q <> cur -> load l (q - 1) = load (pcbs (k_procs s)) (q - 1)).
Proof.
  intros Hc Hn Hne. cbv zeta.
  pose proof (prepared_fields cur new arg e esp ebp s) as (E1 & _). unfold prepared in *.
  destruct (first_shell_fields cur e s) as (F1 & F2 & F3 & F4 & F5 & F6 & F7 & F8).
  set (s1 := first_shell cur e s) in *.
  destruct (claimed_fields new cur s1) as (G1 & G2 & G3 & G4 & G5 & G6 & G7 & G8 & G9 & G10).
  set (s4 := altered_terminal _ _ _) in *.
  assert (pcbs (k_procs s4) = pcbs (k_procs s)) as Hp4 by (rewrite <-F3, <-G5; reflexivity).
  assert (forall pid f s q, 1 <= pid -> load (pcbs (k_procs (altered_pcb pid f s))) (q - 1)
    = if bool_decide (q = pid) then f <$> load (pcbs (k_procs s)) (q - 1)
      else load (pcbs (k_procs s)) (q - 1)) as Halt.
  { intros pid f t q Hpid. destruct (decide (q = pid)) as [->|E].
    2: { rewrite bool_decide_false by done. by apply load_altered_pcb_ne. }
    rewrite bool_decide_true by done.
    destruct (load (pcbs (k_procs t)) (pid - 1)) as [p|] eqn:Ep; [by apply load_altered_pcb|].
    unfold altered_pcb, load in *. cbn [lset kernel_procs k_procs with_pcbs pcbs]. case_bool_decide; [|done].
    by rewrite list_lookup_alter_eq, Ep. }
  unfold saved_caller in *. set (s5 := altered_pcb new (fresh_pcb arg) s4) in *.
  assert (k_paging s5 = k_paging s) as E5.
  { by destruct (bool_decide (cur <> 0)). }
  destruct (decide (cur = 0)) as [Hc0|Hc0].
  - rewrite !(bool_decide_false (cur <> 0)) by auto. unfold s5. split_and!; [|done|].
    + by rewrite Halt, bool_decide_true, Hp4 by (done || lia).
    + intros q ? ?. by rewrite Halt, bool_decide_false, Hp4 by (done || lia).
  - rewrite !(bool_decide_true (cur <> 0)) by auto. rewrite E5. unfold s5. split_and!; [|intros _|intros q ? ?];
      rewrite !Halt by lia; rewrite !Hp4.
    + by rewrite bool_decide_false, bool_decide_true by (done || lia).
    + by rewrite bool_decide_true, bool_decide_false by (done || lia).
    + by rewrite !bool_decide_false by (done || lia).
Qed.
End Start.

(** ** execute *)

(** What the header check sees of a file: its first 40 bytes, and behind a shorter
    file what was on the stack. *)
Definition header (contents stack : list Z) : list Z :=
  take 40 contents ++ drop (length (take 40 contents)) stack.
(** The entry point of an executable. *)
Definition elf_entry (h : list Z) : option Z :=
  if bool_decide (h !!! 0%nat = 0x7F /\ h !!! 1%nat = 0x45 /\ h !!! 2%nat = 0x4C /\ h !!! 3%nat = 0x46)
  then Some (u32 (Z.shiftl (h !!! 27%nat) 24 + Z.shiftl (h !!! 26%nat) 16
                  + Z.shiftl (h !!! 25%nat) 8 + h !!! 24%nat))
  else None.

Section Execute.
Context `{!Layout} (img : list Z) (n N D : Z).
Hypothesis Hwf : wf_image img n N D.

Lemma start_program_runs s cur new frame file name saved arg k d L entry_point esp ebp :
  kernel_ready s cur -> free_pid s = Some new -> new <> cur -> maps (k_paging s) new frame ->
  until0 saved = Some arg -> (length arg <= 127)%nat -> image (k_fs s) = img ->
  bytes file -> until0 file = Some name -> (length name <= 31)%nat ->
  dir_lookup img name = Some k -> ld_dentry img k = Some d -> 0 <= d_inodeNum d < N ->
  file_length img (d_inodeNum d) = Some L -> L <= MB_132 - PROGRAM_MEM ->
  start_program file saved entry_point esp ebp s
  = Ret (Iret entry_point (MB_132 - PREV))
      (entered cur new (file_contents img (d_inodeNum d)) (prepared cur new arg entry_point esp ebp s)).
Proof.
  intros Hr Hfree Hne Hm Harg Hl Himg Hb Hn Hl31 Hk Hd Hino HL HLf.
  pose proof (free_pid_inv _ _ Hfree) as (Hnew & _ & _).
  rewrite (start_program_prepares s cur new file saved arg) by done.
  destruct (prepared_fields cur new arg entry_point esp ebp s) as (P1 & P2 & P3 & P4 & _).
  destruct (prepared_pcbs cur new arg entry_point esp ebp s) as (Q1 & _); [apply Hr|done..|].
  destruct (load_pcb s new (kr_procs _ _ Hr) Hnew) as (p & Hp & _). rewrite Hp in Q1.
  set (s1 := prepared cur new arg entry_point esp ebp s) in *.
  rewrite (bind_Ret _ _ _ _ _ (page_loader_eq img n N D Hwf new frame s1 file name k d L
    ltac:(by rewrite P1) Hnew ltac:(by rewrite P2) Hb Hn Hl31 Hk Hd Hino HL HLf)).
  rewrite bool_decide_false by auto. set (s2 := set_programs _ _).
  unfold mbind at 1, M_bind at 1, get at 1.
  assert (zoom (write_cr3 (cr3 (k_paging s2))) s2 = Ret tt s2) as E by reflexivity.
  rewrite (bind_Ret _ _ _ _ _ E). unfold mbind at 1, M_bind at 1, get at 1.
  rewrite (bind_Ret _ _ _ _ _ (upd_pcb_eq new _ s2 _ Q1)).
  rewrite (upd_pcb_step new s2 _ Q1). reflexivity.
Qed.

Lemma read_header s stack file name k d L :
  image (k_fs s) = img -> length stack = 40%nat ->
  bytes file -> until0 file = Some name -> (length name <= 31)%nat ->
  dir_lookup img name = Some k -> ld_dentry img k = Some d -> 0 <= d_inodeNum d < N ->
  file_length img (d_inodeNum d) = Some L ->
  exists v, read_file_sys_helper img file stack BUF_SIZE
    = Some (v, header (file_contents img (d_inodeNum d)) stack) /\
  length (header (file_contents img (d_inodeNum d)) stack) = 40%nat.
Proof.
  intros Himg Hst Hb Hn Hl31 Hk Hd Hino HL.
  pose proof (wf_small _ _ _ _ Hwf) as Hsm.
  pose proof (wf_file_length _ _ _ _ Hwf _ Hino) as (L' & HL' & HLr). rewrite HL in HL'. injection HL' as <-.
  pose proof (file_contents_length _ _ _ HL ltac:(lia)) as Hc.
  unfold NUM_DATA_BLOCK, FOUR_KILOBYTES in HLr.
  assert (length (header (file_contents img (d_inodeNum d)) stack) = 40%nat) as Hlen.
  { unfold header. rewrite length_app, length_drop, length_take. lia. }
  unfold read_file_sys_helper. rewrite (read_dentry_by_name_spec _ _ _ _ Hwf _ _ Hb Hn Hl31), Hk.
  cbn [mbind option_bind]. rewrite Hd. cbn [mbind option_bind]. rewrite bool_decide_false by done.
  unfold BUF_SIZE. rewrite !u32_small by lia.
  rewrite (read_data_spec _ _ _ _ _ _ 0 _ _ Hwf Hino HL) by (cbv zeta; lia).
  cbn [mbind option_bind]. rewrite bool_decide_false by lia. rewrite Z.sub_0_r.
  assert (take (Z.to_nat (40 `min` L)) (drop (Z.to_nat 0) (file_contents img (d_inodeNum d)))
      ++ drop (Z.to_nat (40 `min` L)) stack = header (file_contents img (d_inodeNum d)) stack) as ->.
  { unfold header. change (Z.to_nat 0) with 0%nat. rewrite drop_0, length_take.
    replace (Z.to_nat (40 `min` L)) with (40 `min` length (file_contents img (d_inodeNum d)))%nat by lia.
    rewrite <-take_take, (take_ge (file_contents _ _)) by done. done. }
  case_bool_decide.
  - rewrite s32_small by lia. unfold file_length in HL. rewrite HL. cbn [mbind option_bind]. eauto.
  - eauto.
Qed.

(** The parsed name and argument as C strings. *)
Lemma word_string l (m : nat) : word l -> (length l < m)%nat -> until0 (l ++ replicate (m - length l) 0) = Some l.
Proof.
  intros Hw Hl. replace (m - length l)%nat with (S (m - length l - 1)) by lia. apply until0_app.
  eapply Forall_impl; [exact Hw|]. unfold stops. tauto.
Qed.

Lemma word_bytes l m : bytes l -> bytes (l ++ replicate m 0).
Proof. intros. apply Forall_app. split; [done|]. apply Forall_replicate. unfold byte. lia. Qed.

Lemma command_words cmd name arg :
  command_line cmd name arg -> bytes cmd -> word name /\ word arg /\ bytes name.
Proof.
  intros (a & b & e & rest & -> & Hw & _ & Hwa & _) Hb. split_and!; try done.
  by apply Forall_app in Hb as [_ [? _]%Forall_app].
Qed.

Lemma load_command_checks s file saved stack name k d L esp ebp :
  image (k_fs s) = img -> length stack = 40%nat ->
  bytes file -> until0 file = Some name -> (length name <= 31)%nat ->
  dir_lookup img name = Some k -> ld_dentry img k = Some d -> 0 <= d_inodeNum d < N ->
  file_length img (d_inodeNum d) = Some L ->
  load_command file saved stack esp ebp s
  = match elf_entry (header (file_contents img (d_inodeNum d)) stack) with
    | Some e => start_program file saved e esp ebp s
    | None => Ret (Returns (-1)) s
    end.
Proof.
  intros Himg Hst Hb Hn Hl31 Hk Hd Hino HL. unfold load_command, get_image.
  unfold mbind at 1, M_bind at 1, gets at 1. rewrite Himg. unfold open_file.
  rewrite (read_dentry_by_name_spec _ _ _ _ Hwf _ _ Hb Hn Hl31), Hk. cbn [mbind option_bind].
  rewrite Hd. cbn [mbind option_bind]. unfold mbind at 1, M_bind at 1, lift at 1.
  rewrite bool_decide_false by done.
  destruct (read_header s stack file name k d L Himg Hst Hb Hn Hl31 Hk Hd Hino HL) as (v & -> & Hlen).
  set (h := header _ _) in *. unfold mbind at 1, M_bind at 1, lift at 1. cbn [snd].
  assert (forall (i : nat) B (f : Z -> M kernel B) t, (i < 40)%nat ->
    (lift (load h (Z.of_nat i)) ≫= f) t = f (h !!! i) t) as Hload.
  { intros i B f t Hi. unfold mbind, M_bind, lift. rewrite load_lookup.
    by rewrite (list_lookup_lookup_total_lt h i) by lia. }
  rewrite (Hload 0%nat), (Hload 1%nat), (Hload 2%nat), (Hload 3%nat) by lia.
  unfold elf_entry. set (P := _ /\ _).
  destruct (decide P) as [He|He]; [rewrite (bool_decide_true P) by done|rewrite (bool_decide_false P) by done].
  - destruct He as (-> & -> & -> & ->). rewrite !bool_decide_false by auto. cbn [orb].
    by rewrite (Hload 27%nat), (Hload 26%nat), (Hload 25%nat), (Hload 24%nat) by lia.
  - replace (_ || _ || _ || _) with true; [done|]. symmetry. unfold P in He.
    rewrite !orb_true_iff, !bool_decide_eq_true.
    destruct (decide (h !!! 0%nat = 0x7F)), (decide (h !!! 1%nat = 0x45)), (decide (h !!! 2%nat = 0x4C)),
      (decide (h !!! 3%nat = 0x46)); tauto.
Qed.
End Execute.
