(* ===== verification/Process.v ===== *)
(** * The life of a process

    Properties of execute and halt (Exec.v): starting a program, refusing a file,
    returning to the parent. *)
From S2P Require Import Kernel Terminal Scheduler Syscall Exec.

(** ** Starting *)

(** The new control block, from what the last process left there: execute clears the
    descriptors 2 to 6, the last one stays as it was. *)
Record fresh_process `{!Layout} (left p : pcb) (new cur : Z) (arg : list Z) : Prop := {
  fp_std i : 0 <= i <= 1 ->
    exists f, load (fds p) i = Some f /\ flags f = 1 /\ sysops_ptr f = TerminalOps;
  fp_free i : 2 <= i <= 6 -> exists f, load (fds p) i = Some f /\ flags f = 0;
  fp_last : load (fds p) 7 = load (fds left) 7;
  fp_argument : until0 (argument p) = Some arg;
  fp_parent : parent_pid p = cur;
  fp_cr3 : p_cr3 p = dir_addr new;
}.

(** The kernel after execute has started process [new] for process [cur]. *)
Record started `{!Layout} (s : kernel) (cur new : Z) (arg contents : list Z) (esp ebp : Z) (s' : kernel) :
    Prop := {
  st_paging : k_paging s' = load_task new (k_paging s);
  st_memory : k_programs s' = programs_with new program_offset contents (k_programs s);
  st_table : openTasks (k_procs s')
    = <[Z.to_nat new := if bool_decide (newterminal_flag (k_terms s) = 1) then 0 else cur]>
        (openTasks (k_procs s));
  st_terminals : terminals (k_terms s')
    = alter (set_program_id new) (Z.to_nat (old_terminal (k_terms s))) (terminals (k_terms s));
  st_new : exists left p, load (pcbs (k_procs s)) (new - 1) = Some left /\
    load (pcbs (k_procs s')) (new - 1) = Some p /\ fresh_process left p new cur arg;
  st_caller : cur <> 0 ->
    load (pcbs (k_procs s')) (cur - 1)
    = set_saved (dir_addr cur) esp ebp <$> load (pcbs (k_procs s)) (cur - 1);
  st_others q : q <> new -> q <> cur -> load (pcbs (k_procs s')) (q - 1) = load (pcbs (k_procs s)) (q - 1);
  st_stack : tss_esp0 (k_cpu s') = 0x800000 - 0x2000 * (new - 1) - 4 /\ tss_ss0 (k_cpu s') = KERNEL_DS;
  st_interrupts : k_io s' = Sti :: Cli :: k_io s;
}.

Section Starting.
Context `{!Layout}.

Lemma fresh_last arg p : load (fds (fresh_pcb arg p)) 7 = load (fds p) 7.
Proof.
  unfold fresh_pcb, free_fds, fresh_fds, change_fd. cbn [fds with_fds set_argument].
  rewrite !load_nonneg by lia. by rewrite !list_lookup_alter_ne by lia.
Qed.

Lemma fresh_pcb_fresh new cur arg p :
  pcb_ok p -> word arg -> (length arg <= 127)%nat ->
  fresh_process p ((set_parent (MB_8 - KB_8 * cur) cur ∘ set_cr3 (dir_addr new)) (fresh_pcb arg p)) new cur arg.
Proof.
  intros (Hl & Ha & _) Hw Hla.
  assert (forall i, 0 <= i < 8 -> exists d, load (fds p) i = Some d) as Hd.
  { intros i Hi. apply load_Some. lia. }
  split; try done.
  - intros i Hi. destruct (Hd i) as [d Hdi]; [lia|]. eexists. split.
    { cbn [compose fds set_parent set_cr3]. unfold fresh_pcb, free_fds.
      do 5 apply load_change_fd. rewrite fds_set_argument. unfold fresh_fds.
      do 4 apply load_change_fd. exact Hdi. }
    rewrite !(bool_decide_false (i = Z.of_nat (S (S _)))) by lia.
    destruct (decide (i = 0)) as [->|]; [done|]. by replace i with 1 by lia.
  - intros i Hi. destruct (Hd i) as [d Hdi]; [lia|]. eexists. split.
    { cbn [compose fds set_parent set_cr3]. unfold fresh_pcb, free_fds.
      do 5 apply load_change_fd. rewrite fds_set_argument. unfold fresh_fds.
      do 4 apply load_change_fd. exact Hdi. }
    assert (i = 2 \/ i = 3 \/ i = 4 \/ i = 5 \/ i = 6) as [-> | [-> | [-> | [-> | ->]]]] by lia; done.
  - apply fresh_last.
  - cbn. apply until0_app. eapply Forall_impl; [exact Hw|]. unfold stops. tauto.
Qed.

Lemma entered_started s cur new arg contents e esp ebp :
  kernel_ready s cur -> 1 <= new <= 6 -> new <> cur -> word arg -> (length arg <= 127)%nat ->
  started s cur new arg contents esp ebp (entered cur new contents (prepared cur new arg e esp ebp s)).
Proof.
  intros Hr Hn Hne Hw Hl.
  destruct (prepared_fields cur new arg e esp ebp s) as (P1 & P2 & P3 & P4 & P5 & P6 & P7 & P8).
  destruct (prepared_pcbs cur new arg e esp ebp s (kr_cur _ _ Hr) Hn Hne) as (Q1 & Q2 & Q3).
  destruct (load_pcb s new (kr_procs _ _ Hr) Hn) as (p & Hp & Hpok). rewrite Hp in Q1.
  set (s1 := prepared cur new arg e esp ebp s) in *. unfold entered.
  set (s2 := altered_pcb new _ _).
  assert (pcbs (k_procs (set_programs (programs_with new program_offset contents (k_programs s1)) (with_cr3 new s1)))
    = pcbs (k_procs s1)) as Hsame by done.
  split.
  - cbn. by rewrite P1.
  - cbn. by rewrite P3.
  - exact P7.
  - exact P5.
  - eexists _, _. split; [exact Hp|]. split; [|by apply fresh_pcb_fresh].
    change (pcbs _) with (pcbs (k_procs s2)). unfold s2. apply load_altered_pcb. exact Q1.
  - intros Hc. change (pcbs _) with (pcbs (k_procs s2)) at 1. unfold s2.
    rewrite load_altered_pcb_ne, Hsame, Q2, (kr_cr3 _ _ Hr) by (done || lia). done.
  - intros q Hq Hqc. change (pcbs _) with (pcbs (k_procs s2)) at 1. unfold s2.
    rewrite load_altered_pcb_ne, Hsame by (done || lia). by apply Q3.
  - split; [|done]. cbn [lset kernel_cpu kernel_io k_cpu tss_esp0]. unfold MB_8, KB_8, PREV.
    apply u32_small. lia.
  - cbn. by rewrite P4.
Qed.
End Starting.

(** ** Halting *)

(** A descriptor behind close. *)
Definition closed (f : file_desc) : file_desc :=
  if bool_decide (flags f = 0) then f else FileDesc (fd_fileName f) (inode_ptr f) 0 0 NullOps.

Fixpoint closing (n : nat) (i : Z) (p : pcb) : pcb :=
  match n with
  | O => p
  | S n' => closing n' (i + 1) (change_fd (Z.to_nat i) closed p)
  end.
Definition all_closed : pcb -> pcb := closing 6 2.

Lemma load_closing n i p j d :
  0 <= i -> load (fds p) j = Some d ->
  load (fds (closing n i p)) j = Some (if bool_decide (i <= j < i + Z.of_nat n) then closed d else d).
Proof.
  revert i p d. induction n as [|n IH]; intros i p d Hi Hd; cbn [closing].
  - by rewrite bool_decide_false by lia.
  - rewrite (IH _ _ (if bool_decide (j = i) then closed d else d)); [|lia|].
    + destruct (decide (j = i)) as [->|].
      * rewrite (bool_decide_true (i = i)), bool_decide_false, bool_decide_true by lia. done.
      * rewrite (bool_decide_false (j = i)) by done. f_equal.
        by rewrite (bool_decide_ext (i + 1 <= j < i + 1 + Z.of_nat n) (i <= j < i + Z.of_nat (S n))) by lia.
    + rewrite (load_change_fd (Z.to_nat i) j closed p d) by done. by rewrite Z2Nat.id by lia.
Qed.

Section Halting.
Context `{!Layout}.

Lemma name_ok_closed f : name_ok f -> name_ok (closed f).
Proof. unfold closed. by case_bool_decide. Qed.

Lemma close_runs s pid i :
  process s pid -> 2 <= i < 8 ->
  exists v, close i s = Ret v (altered_fd pid i closed s) /\ process (altered_fd pid i closed s) pid.
Proof.
  intros Hp Hi. destruct (process_fd s pid i Hp) as (f & Hf & _); [lia|].
  rewrite (close_eq s pid i f) by done.
  assert (process (altered_fd pid i closed s) pid) as Hp'.
  { apply process_altered_fd; [apply name_ok_closed|done]. }
  case_bool_decide as Hfl.
  - exists (-1). split; [|done]. f_equal.
    rewrite (altered_fd_ext s pid i closed id f) by (done || unfold closed; by rewrite bool_decide_true).
    unfold altered_fd, altered_pcb.
    rewrite list_alter_id by (intros []; unfold with_fds; cbn; by rewrite list_alter_id).
    by destruct s as [? ? ? ? ? ? ? ? ? ? [] ? ?].
  - exists 0. split; [|done]. f_equal. apply (altered_fd_ext _ _ _ _ _ f); [done|].
    unfold closed. by rewrite bool_decide_false.
Qed.

(** The loop that closes the descriptors. *)
Lemma close_for n i s pid :
  process s pid -> 2 <= i -> i + Z.of_nat n <= 8 ->
  for_ n i (fun i => _ ← close i; mret tt) s = Ret tt (altered_pcb pid (closing n i) s).
Proof.
  revert i s. induction n as [|n IH]; intros i s Hp Hi Hn.
  - unfold altered_pcb. rewrite list_alter_id by done.
    by destruct s as [? ? ? ? ? ? ? ? ? ? [] ? ?].
  - destruct (close_runs s pid i Hp) as (v & Hv & Hp'); [lia|].
    change (for_ (S n) i ?b) with (b i ;; for_ n (i + 1) b). cbv beta. rewrite bind_bind, (bind_Ret _ _ _ _ _ Hv).
    unfold mbind, M_bind, mret, M_ret. rewrite IH by (done || lia).
    unfold altered_fd. by rewrite altered_pcb_twice.
Qed.

Definition with_halted (status : Z) (s : kernel) : kernel :=
  lset (with_status (u8 status) (k_procs s)) s.

(** The state behind halt: process [cur] ended, [parent] runs. *)
Definition halted (cur parent status : Z) (s : kernel) : kernel :=
  let s1 := with_halted status s in
  let s2 := with_tasks (rescheduled s1 cur parent cur) s1 in
  let s3 := with_cr3 parent (altered_terminal (old_terminal (k_terms s)) (set_program_id parent) s2) in
  let s4 := altered_pcb parent all_closed (set_openTask cur (-1) s3) in
  lset (Cpustate (u32 (MB_8 - KB_8 * (parent - 1) - PREV)) (tss_ss0 (k_cpu s)) (esp_0 (k_cpu s))
          (ebp_0 (k_cpu s))) s4.

Lemma halt_runs s cur parent status q :
  kernel_ready s cur -> load (openTasks (k_procs s)) cur = Some parent -> 1 <= parent <= 6 ->
  load (pcbs (k_procs s)) (parent - 1) = Some q ->
  halt status s = Ret (HaltRet (p_esp q) (p_ebp q)) (halted cur parent status s).
Proof.
  intros Hr Htask Hpar Hq. pose proof Hr as [Hc Hcr Ht Ho Htk Hi Hop Hpr].
  unfold halt. rewrite (bind_Ret _ _ _ _ _ (find_programid_eq cur s Hc ltac:(lia))).
  rewrite (bind_Ret _ _ _ _ _ (get_task_eq _ _ _ Htask)).
  unfold mbind at 1, M_bind at 1, modify at 1. fold (with_halted status s).
  set (s1 := with_halted status s).
  destruct (reschedule_eq cur parent cur s1 parent) as [E1 _]; try done; try lia.
  rewrite (bind_Ret _ _ _ _ _ E1). rewrite bool_decide_false by lia.
  set (s2 := with_tasks _ s1). unfold get_old_terminal. unfold mbind at 1, M_bind at 1, gets at 1.
  destruct (load_Some (terminals (k_terms s2)) (old_terminal (k_terms s2))) as [t Hold].
  { change (k_terms s2) with (k_terms s). lia. }
  rewrite (bind_Ret _ _ _ _ _ (upd_terminal_eq _ _ _ _ Hold)).
  change (k_terms s2) with (k_terms s) at 1. fold (altered_terminal (old_terminal (k_terms s)) (set_program_id parent) s2).
  rewrite (bind_Ret _ _ _ _ _ (set_programpage_eq parent _ ltac:(lia))).
  set (s3 := with_cr3 parent (altered_terminal (old_terminal (k_terms s)) (set_program_id parent) s2)).
  change (lset _ (altered_terminal _ _ s2)) with s3.
  rewrite (bind_Ret _ _ _ _ _ (set_task_eq cur (-1) parent s3 Htask)).
  assert (process (set_openTask cur (-1) s3) parent) as Hproc.
  { split; [done|done|]. destruct Hpr. by split. }
  rewrite (bind_Ret _ _ _ _ _ (close_for 6 2 _ _ Hproc ltac:(lia) ltac:(lia))).
  unfold mbind at 1, M_bind at 1, modify at 1.
  rewrite (bind_Ret _ _ _ (all_closed q) (halted cur parent status s)); [done|].
  apply (get_pcb_eq parent (halted cur parent status s)). unfold halted.
  change (pcbs (k_procs (lset _ ?s4))) with (pcbs (k_procs s4)). by apply load_altered_pcb.
Qed.
End Halting.

(** ** Properties *)

(** The directory names the file with inode [ino] and length [L]. *)
Definition names_file (img name : list Z) (N ino L : Z) : Prop :=
  exists k d, dir_lookup img name = Some k /\ ld_dentry img k = Some d /\ d_inodeNum d = ino /\
    0 <= ino < N /\ file_length img ino = Some L.

Lemma execute_runs `{!Layout} img n N D s cur new frame cmd name arg ino L e stack esp ebp :
  wf_image img n N D -> image (k_fs s) = img -> kernel_ready s cur -> free_pid s = Some new ->
  new <> cur -> maps (k_paging s) new frame ->
  command_line cmd name arg -> bytes cmd -> (length name <= 31)%nat -> (length arg <= 127)%nat ->
  names_file img name N ino L -> L <= 0x3B8000 ->
  length stack = 40%nat -> elf_entry (header (file_contents img ino) stack) = Some e ->
  execute (Some cmd) stack esp ebp s
  = Ret (Iret e 0x83FFFFC) (entered cur new (file_contents img ino) (prepared cur new arg e esp ebp s)).
Proof.
  intros Hwf Himg Hr Hfree Hne Hm Hcmd Hb Hl Hla (k & d & Hk & Hd & <- & Hino & HL) HLf Hst He.
  destruct (command_words _ _ _ Hcmd Hb) as (Hw & Hwa & Hbn).
  pose proof (word_string name 32 Hw ltac:(lia)) as Hn0. pose proof (word_string arg 128 Hwa ltac:(lia)) as Ha0.
  rewrite (execute_parses cmd name arg) by done.
  rewrite (load_command_checks img n N D Hwf s _ _ stack name k d L)
    by (done || by apply word_bytes). rewrite He.
  rewrite (start_program_runs img n N D Hwf s cur new frame _ name _ arg k d L)
    by (done || by apply word_bytes).
  reflexivity.
Qed.

(** C7: execute of a command line with a name of at most 31 and an argument of at most 127
    bytes, from the kernel (0) or a process: if the name is that of an executable file that
    fits the program's page and a process number is free, it enters the program at its entry
    point with the stack at the end of the page. The file's bytes are at 0x08048000 of the
    lowest free process's memory and no other program byte changes; that process has its page
    directory loaded and its own kernel stack; its control block has the argument, the caller as
    its parent, the terminal on the descriptors 0 and 1 and closed descriptors 2 to 6, but its
    descriptor 7 is what the last process with this number left there, as execute's loop ends
    before it; the caller's control block keeps the stack registers to come back to, and every
    other control block is unchanged. *)
Theorem execute_starts_program `{!Layout} img n N D s cur new frame cmd name arg ino L e stack esp ebp :
  wf_image img n N D -> image (k_fs s) = img -> kernel_ready s cur -> free_pid s = Some new ->
  new <> cur -> maps (k_paging s) new frame ->
  command_line cmd name arg -> bytes cmd -> (length name <= 31)%nat -> (length arg <= 127)%nat ->
  names_file img name N ino L -> L <= 0x3B8000 ->
  length stack = 40%nat -> elf_entry (header (file_contents img ino) stack) = Some e ->
  exists s', execute (Some cmd) stack esp ebp s = Ret (Iret e 0x83FFFFC) s' /\
    started s cur new arg (file_contents img ino) esp ebp s'.
Proof.
  intros Hwf Himg Hr Hfree Hne Hm Hcmd Hb Hl Hla Hfile HLf Hst He. eexists. split.
  - by eapply execute_runs.
  - pose proof (free_pid_inv _ _ Hfree) as (Hn & _ & _). destruct (command_words _ _ _ Hcmd Hb) as (_ & Hwa & _).
    by apply entered_started.
Qed.

(** An image with one executable, for the examples. *)
Definition exe_image : list Z :=
  mk_boot [mk_dentry "shell" 2 0; mk_dentry "note" 2 1] 2 2
  ++ mk_inode 44 [0] ++ mk_inode 4 [1]
  ++ pad_to 4096 ([0x7F; 0x45; 0x4C; 0x46] ++ replicate 20 0 ++ enc32 0x8048020 ++ replicate 16 0x90)
  ++ pad_to 4096 [1; 2; 3; 4].

Lemma exe_image_wf : wf_image exe_image 2 2 2.
Proof. apply check_image_sound. vm_compute. reflexivity. Qed.

Definition demo_exe : kernel := lset (Fs 0x500000 exe_image 0) demo_proc.

Lemma demo_ready : kernel_ready demo_exe 1.
Proof. split; try reflexivity; try (simpl; lia). destruct (pr_ok _ _ demo_process) as [? ?]. by split. Qed.

Lemma demo_maps t : maps (k_paging demo_exe) t VIDEO_MEM.
Proof. split; [reflexivity|]. intros i Hi. split; reflexivity. Qed.

Lemma word_check l :
  forallb (fun c => negb (bool_decide (c = 10) || bool_decide (c = 32) || bool_decide (c = 0))) l = true ->
  word l.
Proof.
  intros H. apply Forall_forall. intros c Hc%list_elem_of_In. rewrite forallb_forall in H.
  specialize (H c Hc). unfold stops. intros [-> | [-> | ->]]; discriminate.
Qed.

Lemma demo_command : command_line (cstring " shell  -x") (bytes_of_string "shell") (bytes_of_string "-x").
Proof.
  exists 1%nat, 2%nat, 0, []. split; [reflexivity|].
  split; [by apply word_check|]. split; [done|]. split; [by apply word_check|]. split; [by right; right|].
  split; [done|]. lia.
Qed.

Lemma shell_file : names_file exe_image (bytes_of_string "shell") 2 0 44.
Proof.
  exists 0, (Dentry (pad_to 32 (bytes_of_string "shell")) 2 0 (replicate 24 0)).
  split; [vm_compute; reflexivity|]. split; [vm_compute; reflexivity|]. split; [done|]. split; [lia|].
  vm_compute. reflexivity.
Qed.

Lemma execute_starts_program_witness :
  exists s', @execute demo_layout (Some (cstring " shell  -x")) (replicate 40 0) 111 222 demo_exe
    = Ret (Iret 0x8048020 0x83FFFFC) s' /\
    started demo_exe 1 4 (bytes_of_string "-x") (file_contents exe_image 0) 111 222 s'.
Proof.
  apply (@execute_starts_program demo_layout exe_image 2 2 2 demo_exe 1 4 VIDEO_MEM
    (cstring " shell  -x") (bytes_of_string "shell") (bytes_of_string "-x") 0 44);
    [exact exe_image_wf|reflexivity|exact demo_ready|reflexivity|lia|apply demo_maps|exact demo_command
    |apply cstring_bytes|simpl; lia|simpl; lia|exact shell_file|lia|reflexivity|vm_compute; reflexivity].
Defined.

Lemma execute_refused `{!Layout} img n N D s cmd name arg stack esp ebp :
  wf_image img n N D -> image (k_fs s) = img ->
  command_line cmd name arg -> bytes cmd -> (length name <= 31)%nat -> (length arg <= 127)%nat ->
  (dir_lookup img name = None \/
   exists ino L, names_file img name N ino L /\ length stack = 40%nat /\
     elf_entry (header (file_contents img ino) stack) = None) ->
  execute (Some cmd) stack esp ebp s = Ret (Returns (-1)) s.
Proof.
  intros Hwf Himg Hcmd Hb Hl Hla Hno. destruct (command_words _ _ _ Hcmd Hb) as (Hw & Hwa & Hbn).
  pose proof (word_string name 32 Hw ltac:(lia)) as Hn0. rewrite (execute_parses cmd name arg) by done.
  destruct Hno as [Hk|(ino & L & (k & d & Hk & Hd & <- & Hino & HL) & Hst & He)].
  - unfold load_command, get_image. unfold mbind at 1, M_bind at 1, gets at 1. rewrite Himg. unfold open_file.
    rewrite (read_dentry_by_name_spec _ _ _ _ Hwf _ name) by (done || by apply word_bytes). by rewrite Hk.
  - rewrite (load_command_checks img n N D Hwf s _ _ stack name k d L) by (done || by apply word_bytes).
    by rewrite He.
Qed.

(** execute returns -1 to its caller, and changes nothing, when no file has the
    name, or when the file's first bytes are not the magic number of an executable. *)
Theorem execute_refuses `{!Layout} img n N D s cmd name arg stack esp ebp :
  wf_image img n N D -> image (k_fs s) = img ->
  command_line cmd name arg -> bytes cmd -> (length name <= 31)%nat -> (length arg <= 127)%nat ->
  (dir_lookup img name = None \/
   exists ino L, names_file img name N ino L /\ length stack = 40%nat /\
     elf_entry (header (file_contents img ino) stack) = None) ->
  execute (Some cmd) stack esp ebp s = Ret (Returns (-1)) s.
Proof. apply execute_refused. Qed.

Lemma execute_refuses_witness :
  @execute demo_layout (Some (cstring "note")) (replicate 40 0) 111 222 demo_exe
  = Ret (Returns (-1)) demo_exe.
Proof.
  apply (@execute_refuses demo_layout exe_image 2 2 2 demo_exe (cstring "note")
    (bytes_of_string "note") []); [exact exe_image_wf|reflexivity| |apply cstring_bytes|simpl; lia|simpl; lia|].
  - exists 0%nat, 0%nat, 0, []. split; [reflexivity|].
    split; [by apply word_check|]. split; [done|].
    split; [constructor|]. split; [by right; right|]. split; [done|lia].
  - right. exists 1, 4. split; [|split; [reflexivity|vm_compute; reflexivity]].
    exists 1, (Dentry (pad_to 32 (bytes_of_string "note")) 2 1 (replicate 24 0)).
    split; [vm_compute; reflexivity|]. split; [vm_compute; reflexivity|]. split; [done|]. split; [lia|].
    vm_compute. reflexivity.
Defined.

(** C8: halt undoes execute: when the started process halts, in any later state that
    kept the process table and its parent's control block, control goes back to the
    stack registers that execute stored, where it returns the status byte; the
    parent's page directory and kernel stack are loaded again, and the process table
    is as it was before execute. *)
Theorem execute_halt_roundtrip `{!Layout} s cur new arg contents esp ebp s1 s2 status :
  kernel_ready s cur -> 1 <= cur -> free_pid s = Some new -> newterminal_flag (k_terms s) <> 1 ->
  started s cur new arg contents esp ebp s1 ->
  kernel_ready s2 new -> openTasks (k_procs s2) = openTasks (k_procs s1) ->
  load (pcbs (k_procs s2)) (cur - 1) = load (pcbs (k_procs s1)) (cur - 1) ->
  exists s3, halt status s2 = Ret (HaltRet esp ebp) s3 /\
    halt_ret s3 = Ret (u8 status) s3 /\ cr3 (k_paging s3) = dir_addr cur /\
    tss_esp0 (k_cpu s3) = 0x800000 - 0x2000 * (cur - 1) - 4 /\
    openTasks (k_procs s3) = openTasks (k_procs s).
Proof.
  intros Hr Hc Hfree Hflag Hst Hr2 Htab Hpcb.
  pose proof (free_pid_inv _ _ Hfree) as (Hn & Hnew & _). pose proof (kr_cur _ _ Hr) as Hcur.
  rewrite (st_table _ _ _ _ _ _ _ _ Hst), bool_decide_false in Htab by done.
  destruct (load_pcb s cur (kr_procs _ _ Hr) ltac:(lia)) as (p & Hp & _).
  rewrite (st_caller _ _ _ _ _ _ _ _ Hst), Hp in Hpcb by lia. cbn [fmap option_fmap option_map] in Hpcb.
  exists (halted new cur status s2). split.
  { apply (halt_runs s2 new cur status (set_saved (dir_addr cur) esp ebp p)); [done| |lia|done].
    rewrite Htab. apply load_insert_eq. rewrite (kr_openTasks _ _ Hr). lia. }
  split.
  { unfold halt_ret, gets. f_equal. cbn. apply s32_small. pose proof (u8_range status). lia. }
  split; [done|]. split.
  { cbn [halted lset kernel_cpu k_cpu tss_esp0]. unfold MB_8, KB_8, PREV. apply u32_small. lia. }
  transitivity (<[Z.to_nat new := -1]> (openTasks (k_procs s2))); [reflexivity|].
  rewrite Htab, list_insert_insert_eq. apply list_insert_id. by apply load_inv in Hnew as [_ ?].
Qed.

(** What execute leaves is ready again. *)
Lemma procs_ok_altered `{!Layout} pid f s :
  (forall p, pcb_ok p -> pcb_ok (f p)) -> procs_ok s -> procs_ok (altered_pcb pid f s).
Proof.
  intros Hf [Hl He]. unfold altered_pcb. split; cbn [lset kernel_procs k_procs with_pcbs pcbs].
  - by rewrite length_alter.
  - apply Forall_alter; auto.
Qed.

Lemma pcb_ok_change_fd i f p : (forall d, name_ok d -> name_ok (f d)) -> pcb_ok p -> pcb_ok (change_fd i f p).
Proof.
  intros Hf (Hl & Ha & Hn). unfold pcb_ok. cbn [change_fd with_fds fds argument].
  split_and!; [by rewrite length_alter|done|]. apply Forall_alter; auto.
Qed.

Lemma pcb_ok_fresh arg p : (length arg <= 127)%nat -> pcb_ok p -> pcb_ok (fresh_pcb arg p).
Proof.
  intros Hl Hp. unfold fresh_pcb, free_fds. do 5 (apply pcb_ok_change_fd; [done|]).
  assert (pcb_ok (fresh_fds p)) as (H1 & _ & H2).
  { unfold fresh_fds. by do 4 (apply pcb_ok_change_fd; [done|]). }
  destruct Hp as (_ & Ha & _). split_and!; [exact H1| |exact H2].
  cbn [argument set_argument]. lens.
Qed.

Lemma started_ready `{!Layout} s cur new arg contents e esp ebp :
  kernel_ready s cur -> 1 <= new <= 6 -> (length arg <= 127)%nat ->
  kernel_ready (entered cur new contents (prepared cur new arg e esp ebp s)) new.
Proof.
  intros [Hc Hcr Ht Ho Hq Hi Hop Hpr] Hn Hl.
  destruct (prepared_fields cur new arg e esp ebp s) as (P1 & P2 & P3 & P4 & P5 & P6 & P7 & P8).
  assert (procs_ok (prepared cur new arg e esp ebp s)) as Hprep.
  { unfold prepared. destruct (first_shell_fields cur e s) as (F1 & F2 & F3 & _).
    set (s1 := first_shell cur e s) in *.
    destruct (claimed_fields new cur s1) as (_ & _ & _ & _ & G5 & _).
    set (s4 := altered_terminal _ _ _).
    assert (procs_ok s4) as Hs4.
    { destruct Hpr as [H1 H2]. rewrite <-F3, <-G5 in H1, H2. by split. }
    unfold saved_caller. destruct (bool_decide (cur <> 0)).
    - apply procs_ok_altered; [by intros p|]. apply procs_ok_altered; [|done].
      intros. by apply pcb_ok_fresh.
    - apply procs_ok_altered; [|done]. intros. by apply pcb_ok_fresh. }
  assert (length (tasks (k_sched (prepared cur new arg e esp ebp s))) = 3%nat) as Hq'.
  { unfold prepared. set (s5 := altered_pcb new _ _).
    destruct (saved_caller_fields cur esp ebp s5) as (_ & _ & _ & _ & -> & _).
    destruct (first_shell_fields cur e s) as (F1 & F2 & F3 & F4 & _).
    set (s1 := first_shell cur e s) in *.
    destruct (claimed_fields new cur s1) as (G1 & G2 & G3 & G4 & G5 & _ & _ & _ & _ & G10).
    set (s2 := claimed new cur s1) in *.
    assert (exists v, load (openTasks (k_procs s2)) new = Some v) as [v Hv].
    { apply load_Some. rewrite G10, length_insert, F4. lia. }
    destruct (reschedule_eq cur new new s2 v) as [_ Hlen];
      rewrite ?G1, ?G2, ?G3, ?F1, ?F2; done || lia. }
  set (s1 := prepared cur new arg e esp ebp s) in *.
  split; [done|lia| | | | | |]; cbn [entered lset kernel_cpu kernel_io k_terms k_sched k_procs].
  - change (length (terminals (k_terms s1)) = 3%nat). by rewrite P5, length_alter.
  - change (0 <= old_terminal (k_terms s1) < 3). by rewrite P6.
  - exact Hq'.
  - change (0 <= current_task_idx (k_sched s1) < 3). by rewrite P8.
  - change (length (openTasks (k_procs s1)) = 7%nat). by rewrite P7, length_insert.
  - assert (procs_ok (altered_pcb new (set_parent (MB_8 - KB_8 * cur) cur ∘ set_cr3 (dir_addr new)) s1))
      as [? ?] by (apply procs_ok_altered; [by intros p|done]). by split.
Qed.

(** The example's program, running. *)
Lemma demo_started (esp ebp : Z) :
  exists s1, @execute demo_layout (Some (cstring " shell  -x")) (replicate 40 0) esp ebp demo_exe
    = Ret (Iret 0x8048020 0x83FFFFC) s1 /\
    started demo_exe 1 4 (bytes_of_string "-x") (file_contents exe_image 0) esp ebp s1 /\
    kernel_ready s1 4.
Proof.
  exists (entered 1 4 (file_contents exe_image 0)
    (prepared 1 4 (bytes_of_string "-x") 0x8048020 esp ebp demo_exe)). split_and!.
  - apply (execute_runs exe_image 2 2 2 demo_exe 1 4 VIDEO_MEM (cstring " shell  -x") (bytes_of_string "shell")
      (bytes_of_string "-x") 0 44);
      [exact exe_image_wf|reflexivity|exact demo_ready|reflexivity|lia|apply demo_maps|exact demo_command
      |apply cstring_bytes|simpl; lia|simpl; lia|exact shell_file|lia|reflexivity|vm_compute; reflexivity].
  - apply entered_started; [exact demo_ready|lia|lia|by apply word_check|simpl; lia].
  - apply started_ready; [exact demo_ready|lia|simpl; lia].
Qed.

Lemma execute_halt_roundtrip_witness :
  exists s1, @execute demo_layout (Some (cstring " shell  -x")) (replicate 40 0) 111 222 demo_exe
    = Ret (Iret 0x8048020 0x83FFFFC) s1 /\
  exists s3, halt 300 s1 = Ret (HaltRet 111 222) s3 /\
    halt_ret s3 = Ret (u8 300) s3 /\ cr3 (k_paging s3) = dir_addr 1 /\
    tss_esp0 (k_cpu s3) = 0x800000 - 0x2000 * (1 - 1) - 4 /\
    openTasks (k_procs s3) = openTasks (k_procs demo_exe).
Proof.
  destruct (demo_started 111 222) as (s1 & Hs1 & Hst & Hr). exists s1. split; [exact Hs1|].
  apply (execute_halt_roundtrip demo_exe 1 4 (bytes_of_string "-x") (file_contents exe_image 0) 111 222 s1 s1 300);
    [exact demo_ready|lia|reflexivity|discriminate|exact Hst|exact Hr|reflexivity|reflexivity].
Defined.

(** Process 2 was started by process 1, and both have descriptor 2 open. *)
Definition demo_two_files : kernel :=
  lset (with_openTasks [-1; 0; 1; -1; -1; -1; -1] (k_procs demo_exe)) demo_exe.

(** C33: halt closes the files of the wrong process: the loop runs with the parent's
    page directory loaded, so the PARENT loses its open descriptors 2 to 7, and those
    of the process that ended stay as they were. *)
Theorem halt_closes_parents_files `{!Layout} s cur parent status :
  kernel_ready s cur -> load (openTasks (k_procs s)) cur = Some parent -> 1 <= parent <= 6 -> parent <> cur ->
  exists q s', halt status s = Ret (HaltRet (p_esp q) (p_ebp q)) s' /\
    load (pcbs (k_procs s)) (parent - 1) = Some q /\
    (forall i, 2 <= i < 8 -> flags <$> fd_of s' parent i = Some 0) /\
    (forall i, fd_of s' cur i = fd_of s cur i).
Proof.
  intros Hr Htask Hpar Hne. destruct (load_pcb s parent (kr_procs _ _ Hr) Hpar) as (q & Hq & Hl & _).
  exists q, (halted cur parent status s). split; [by apply halt_runs|]. split; [done|]. split.
  - intros i Hi. destruct (load_Some (fds q) i) as [d Hd]; [lia|].
    assert (fd_of (halted cur parent status s) parent i = load (fds (all_closed q)) i) as ->.
    { unfold fd_of, halted. change (pcbs (k_procs (lset _ ?s4))) with (pcbs (k_procs s4)).
      set (t := set_openTask _ _ _). by rewrite (load_altered_pcb parent all_closed t q Hq). }
    erewrite (load_closing 6 2); [|done|exact Hd]. cbn [fmap option_fmap option_map].
    rewrite bool_decide_true by lia. unfold closed. by case_bool_decide as Hf; [rewrite Hf|].
  - intros i. unfold fd_of, halted. change (pcbs (k_procs (lset _ ?s4))) with (pcbs (k_procs s4)).
    by rewrite load_altered_pcb_ne by lia.
Qed.

Lemma halt_closes_parents_files_witness :
  exists q s', @halt demo_layout 0 (with_cr3 2 demo_two_files) = Ret (HaltRet (p_esp q) (p_ebp q)) s' /\
    load (pcbs (k_procs (with_cr3 2 demo_two_files))) (1 - 1) = Some q /\
    (forall i, 2 <= i < 8 -> flags <$> fd_of s' 1 i = Some 0) /\
    (forall i, fd_of s' 2 i = fd_of (with_cr3 2 demo_two_files) 2 i).
Proof.
  apply (halt_closes_parents_files (with_cr3 2 demo_two_files) 2 1 0); [|reflexivity|lia|lia].
  split; try reflexivity; try (simpl; lia). destruct (pr_ok _ _ demo_process) as [? ?]. by split.
Defined.
