(* ===== verification/Keyboard.v ===== *)
(** * The keyboard

    [src/student-distrib/terminal.c]: terminal_switch and terminal_key_pressed, with
    the two tables of key codes. *)
From S2P Require Import Kernel Terminal Scheduler Syscall Exec.

(** ** Data *)

Definition shift_left_pressed : Z := 0x2A.
Definition shift_right_pressed : Z := 0x36.
Definition shift_left_released : Z := 0xAA.
Definition shift_right_released : Z := 0xB6.
Definition ctrl_pressed : Z := 0x1D.
Definition ctrl_released : Z := 0x9D.
Definition capslock_pressed : Z := 0x3A.
Definition capslock_released : Z := 0xBA.
Definition letter_l : Z := 0x26.
Definition alt_pressed : Z := 0x38.
Definition alt_released : Z := 0xB8.
Definition F1_released : Z := 0xBB.
Definition F2_released : Z := 0xBC.
Definition F3_released : Z := 0xBD.
Definition KEY_RELEASED : Z := 0x80.

(** The common end of both tables, from the right shift key on. *)
Definition keypad : list Z :=
  [0; 42; 0; 32] ++ replicate 16 0 ++ [45; 0; 0; 0; 43] ++ replicate 49 0.
Definition kbdus : list Z :=
  [0; 27] ++ bytes_of_string "1234567890-=" ++ [8; 9] ++ bytes_of_string "qwertyuiop[]" ++ [10; 0]
  ++ bytes_of_string "asdfghjkl;'`" ++ [0] ++ bytes_of_string "\zxcvbnm,./" ++ keypad.
Definition kbdus_shift : list Z :=
  [0; 27] ++ bytes_of_string "!@#$%^&*()_+" ++ [0; 9] ++ bytes_of_string "QWERTYUIOP{}" ++ [0; 0]
  ++ bytes_of_string "ASDFGHJKL:" ++ [34; 126; 0] ++ bytes_of_string "|ZXCVBNM<>?" ++ keypad.

(** The bytes behind the tables, which a scan code of a released key reads: the bounds
    check of terminal_key_pressed is commented out. *)
Class Overread := {
  kbdus_beyond : Z -> Z;
  kbdus_shift_beyond : Z -> Z;
}.

(** What the processor has when a handler executes a program: the bytes on the stack
    where [buf] is, and the stack registers. *)
Record machine := Machine { m_stack : list Z; m_esp : Z; m_ebp : Z }.

(** ** The code *)

Section Code.
Context `{!Layout} `{!Overread} (m : machine).

Definition kbdus_at (scancode : Z) : Z :=
  match load kbdus scancode with Some c => c | None => u8 (kbdus_beyond scancode) end.
Definition kbdus_shift_at (scancode : Z) : Z :=
  match load kbdus_shift scancode with Some c => c | None => u8 (kbdus_shift_beyond scancode) end.

Definition get_kbd : M kernel keyboard := gets k_kbd.
Definition set_shift (v : Z) : M kernel unit :=
  modify (fun s => let k := k_kbd s in lset (Keyboard v (ctrl k) (capslock k) (alt k) (check_enter k)) s).
Definition set_ctrl (v : Z) : M kernel unit :=
  modify (fun s => let k := k_kbd s in lset (Keyboard (shift k) v (capslock k) (alt k) (check_enter k)) s).
Definition set_capslock (v : Z) : M kernel unit :=
  modify (fun s => let k := k_kbd s in lset (Keyboard (shift k) (ctrl k) v (alt k) (check_enter k)) s).
Definition set_alt (v : Z) : M kernel unit :=
  modify (fun s => let k := k_kbd s in lset (Keyboard (shift k) (ctrl k) (capslock k) v (check_enter k)) s).
Definition set_check_enter (v : Z) : M kernel unit :=
  modify (fun s => let k := k_kbd s in lset (Keyboard (shift k) (ctrl k) (capslock k) (alt k) v) s).

(** The result of execute is dropped, unless it does not return. *)
Definition drop_result (c : control Z) : control unit :=
  match c with
  | Returns _ => Returns tt
  | Iret eip esp => Iret eip esp
  | IntRet ebp esp => IntRet ebp esp
  | HaltRet esp ebp => HaltRet esp ebp
  end.

Definition terminal_switch (term : Z) : M kernel (control unit) :=
  old ← get_old_terminal;
  if bool_decide (term < 0) || bool_decide (term > 2) || bool_decide (old = term) then mret (Returns tt)
  else
    save_terminal old ;;
    set_old_terminal term ;;
    on_screen clear ;;
    term_new ← get_terminal term;
    if bool_decide (active term_new = 0) then
      upd_terminal term (set_active 1) ;;
      set_newterminal_flag 1 ;;
      add_task_to_queue term ;;
      zoom (send_eoi 1) ;;
      c ← execute (Some (cstring "shell")) (m_stack m) (m_esp m) (m_ebp m);
      mret (drop_result c)
    else
      zoom (video_mapping (program_id term_new)) ;;
      on_screen (set_cursor (t_x term_new) (t_y term_new)) ;;
      zoom (send_eoi 1) ;;
      zoom (write_cr3 (t_cr3 term_new)) ;;
      dst ← video_page;
      copy_page dst (buffer_frame term) ;;
      t ← get_terminal term;
      set_tss (program_id t) ;;
      mret (IntRet (t_ebp term_new) (t_esp term_new)).

(** A character that is not a backspace is echoed and appended to the line. *)
Definition enter_char (old toPrint : Z) : M kernel unit :=
  t ← get_terminal old;
  when (bool_decide (buffer_i t < NUM_CHARS)) (
    (if bool_decide (toPrint <> 10) then
       _ ← on_screen (printf (cstring "%c") [AInt toPrint]); mret tt
     else
       y ← on_screen get_cursor_y;
       (if bool_decide (y + 1 < NUM_ROWS) then on_screen (set_cursor 0 y)
        else set_check_enter 1 ;; on_screen pressed_enter) ;;
       y ← on_screen get_cursor_y;
       on_screen (set_cursor 0 y)) ;;
    t ← get_terminal old;
    line ← lift (store (line_buffer t) (buffer_i t) toPrint);
    upd_terminal old (set_line_buffer line) ;;
    upd_terminal old (set_buffer_i (u32 (buffer_i t + 1)))).

(** The cursor behind the last column goes to the next row. *)
Definition next_line : M kernel unit :=
  x ← on_screen get_cursor_x;
  when (bool_decide (x = 0) || bool_decide (x = NUM_COLS)) (
    y ← on_screen get_cursor_y;
    if bool_decide (y + 1 < NUM_ROWS) then on_screen (set_cursor 0 (y + 1))
    else
      k ← get_kbd;
      when (bool_decide (check_enter k = 0)) (on_screen pressed_enter)).

Definition echo (toPrint : Z) : M kernel unit :=
  set_check_enter 0 ;;
  old ← get_old_terminal;
  toPrint ← (if bool_decide (toPrint = 8) then backspace_pressed ;; mret 0 else mret toPrint);
  enter_char old toPrint ;;
  next_line.

(** The character of a key, by the shift and caps lock state; a backspace edits the
    line here and gives 0. *)
Definition key_char (scancode toPrint : Z) : M kernel Z :=
  k ← get_kbd;
  if bool_decide (97 <= toPrint <= 122) then
    mret (if bool_decide (capslock k <> 0) && bool_decide (shift k <> 0) then kbdus_at scancode
          else if bool_decide (capslock k <> 0) || bool_decide (shift k <> 0)
          then kbdus_shift_at scancode else toPrint)
  else if bool_decide (toPrint = 8) && bool_decide (scancode = 0x0E) then
    backspace_pressed ;; mret 0
  else mret (if bool_decide (shift k <> 0) then kbdus_shift_at scancode else toPrint).

(** A key that is not a modifier. *)
Definition plain_key (scancode toPrint : Z) : M kernel (control unit) :=
  k ← get_kbd;
  if bool_decide (alt k <> 0) && bool_decide (scancode = F1_released) then terminal_switch 0
  else if bool_decide (alt k <> 0) && bool_decide (scancode = F2_released) then terminal_switch 1
  else if bool_decide (alt k <> 0) && bool_decide (scancode = F3_released) then terminal_switch 2
  else
    (if bool_decide (ctrl k <> 0) then when (bool_decide (scancode = letter_l)) pressed_clear
     else when (bool_decide (scancode <> capslock_pressed)) (
       c ← key_char scancode toPrint;
       when (bool_decide (Z.land scancode KEY_RELEASED = 0) && bool_decide (c <> 0)) (echo c))) ;;
    mret (Returns tt).

Definition terminal_key_pressed (scancode : Z) : M kernel (control unit) :=
  old ← get_old_terminal;
  upd_terminal old (set_active 1) ;;
  let toPrint := kbdus_at scancode in
  t ← get_terminal old;
  when (bool_decide (buffer_i t = NUM_CHARS) && bool_decide (toPrint = 10)) (
    line ← lift (store (line_buffer t) (u32 (buffer_i t - 1)) toPrint);
    upd_terminal old (set_line_buffer line) ;;
    upd_terminal old (set_buffer_i (u32 (buffer_i t - 1)))) ;;
  when (bool_decide (scancode = alt_pressed)) (set_alt 1) ;;
  when (bool_decide (scancode = alt_released)) (set_alt 0) ;;
  if bool_decide (scancode = shift_left_pressed) || bool_decide (scancode = shift_right_pressed) then
    set_shift 1 ;; mret (Returns tt)
  else if bool_decide (scancode = shift_left_released) || bool_decide (scancode = shift_right_released) then
    set_shift 0 ;; mret (Returns tt)
  else if bool_decide (scancode = ctrl_pressed) then set_ctrl 1 ;; mret (Returns tt)
  else if bool_decide (scancode = ctrl_released) then set_ctrl 0 ;; mret (Returns tt)
  else if bool_decide (scancode = capslock_released) then
    k ← get_kbd;
    set_capslock (if bool_decide (capslock k = 0) then 1 else 0) ;;
    mret (Returns tt)
  else plain_key scancode toPrint.
End Code.

Example tables_length : length kbdus = 128%nat /\ length kbdus_shift = 128%nat.
Proof. split; reflexivity. Qed.
