(* ===== verification/Typing.v ===== *)
(** * Typing

    The keyboard handler (Keyboard.v) as an abstract line editor: the visible terminal
    is a line being edited and an abstract screen (Terminal.v). *)
From S2P Require Import Kernel Terminal Keyboard.

(** ** The abstract session *)

(** The character of a key: letters by shift xor caps lock, the other keys by shift;
    0 for none. The backspace is one in every case. *)
Definition letter (c : Z) : bool := bool_decide (97 <= c <= 122).
Definition typed_char (k : keyboard) (sc : Z) : Z :=
  let c := default 0 (load kbdus sc) in
  let shifted := bool_decide (shift k <> 0) in
  if letter c then (if xorb (bool_decide (capslock k <> 0)) shifted then c - 32 else c)
  else if bool_decide (c = 8) then 8
  else if shifted then default 0 (load kbdus_shift sc) else c.

(** The modifier that the pressed key sets. *)
Definition hold (sc : Z) (k : keyboard) : keyboard :=
  let m ks v := if bool_decide (sc ∈ (ks : list Z)) then 1 else v in
  Keyboard (m [0x2A; 0x36] (shift k)) (m [0x1D] (ctrl k)) (capslock k) (m [0x38] (alt k)) (check_enter k).

(** The key that is let go: caps lock changes then. *)
Definition release (sc : Z) (k : keyboard) : keyboard :=
  let m ks v := if bool_decide (sc ∈ (ks : list Z)) then 0 else v in
  Keyboard (m [0xAA; 0xB6] (shift k)) (m [0x9D] (ctrl k))
    (if bool_decide (sc = 0xBA) then (if bool_decide (capslock k = 0) then 1 else 0) else capslock k)
    (m [0xB8] (alt k)) (check_enter k).

(** What a character does to the line: at most 128 characters. *)
Definition edit (c : Z) (line : list Z) : list Z :=
  if bool_decide (c = 0) then line
  else if bool_decide (c = 8) then take (length line - 1) line
  else if bool_decide (length line < 128)%nat then line ++ [c] else line.

(** Enter makes room for itself in a full line. *)
Definition make_room (sc : Z) (line : list Z) : list Z :=
  if bool_decide (sc = 0x1C) then take 127 line else line.

(** What it does to the screen. *)
Definition tty_down (t : tty) : tty :=
  if bool_decide (tty_y t < 24) then Tty (tty_text t) 0 (tty_y t + 1)
  else Tty (scroll_text (tty_text t)) 0 24.
Definition tty_back (t : tty) : tty :=
  let off := 80 * tty_y t + tty_x t - 1 in
  Tty (<[Z.to_nat off := 32]> (tty_text t)) (off `mod` 80) (off `div` 80).
Definition tty_next (t : tty) : tty := if bool_decide (tty_x t = 0) then tty_down t else t.
Definition tty_echo (c : Z) (line : list Z) (t : tty) : tty :=
  if bool_decide (c = 0) then t
  else if bool_decide (c = 8) then (if bool_decide (line = []) then t else tty_back t)
  else if bool_decide (128 <= length line)%nat then tty_next t
  else if bool_decide (c = 10) then tty_down t
  else tty_next (Tty (<[Z.to_nat (80 * tty_y t + tty_x t) := c]> (tty_text t))
                   ((tty_x t + 1) `mod` 80) (tty_y t)).

(** A session at the keyboard: its state, the line, the screen. A key with ctrl held
    types nothing, and ctrl-L clears the line and the screen. *)
Record session := Session { se_kbd : keyboard; se_line : list Z; se_tty : tty }.
Definition press (k : keyboard) (sc : Z) (line : list Z) (t : tty) : list Z * tty :=
  if bool_decide (ctrl k = 0) then (edit (typed_char k sc) line, tty_echo (typed_char k sc) line t)
  else if bool_decide (sc = letter_l) then ([], Tty (replicate 2000 32) 0 0) else (line, t).
Definition key_step (e : session) (sc : Z) : session :=
  let k := se_kbd e in
  if bool_decide (128 <= sc) then Session (release sc k) (se_line e) (se_tty e)
  else let (line, t) := press k sc (make_room sc (se_line e)) (se_tty e) in Session (hold sc k) line t.

(** ** The kernel's visible terminal *)

Definition on_page (t : tty) : Prop := 0 <= tty_x t < 80 /\ 0 <= tty_y t < 25.

Definition showing `{!Layout} (s : kernel) (n : Z) (t : tty) : Prop :=
  exists page, console s n page /\ shows (screen_of page s) t.

(** Terminal [term] is visible, frame [n] is its screen, with [t] on it, and [line] is
    in its line buffer. *)
Record editing `{!Layout} (s : kernel) (term n : Z) (line : list Z) (t : tty) : Prop := {
  ed_old : old_terminal (k_terms s) = term;
  ed_line : exists tm, load (terminals (k_terms s)) term = Some tm /\ length (line_buffer tm) = 128%nat /\
    0 <= buffer_i tm <= 128 /\ take (Z.to_nat (buffer_i tm)) (line_buffer tm) = line;
  ed_screen : showing s n t;
  ed_page : on_page t;
}.

(** The line is not longer than the text up to the cursor, so that backspace stays on
    the screen. *)
Definition room (line : list Z) (t : tty) : Prop := len line <= 80 * tty_y t + tty_x t.

(** What typing changes: frame [n], the cursor and the port history; the line of
    terminal [term] and its member active; the keyboard's state. *)
Record typed (n term : Z) (s s' : kernel) : Prop := {
  ty_paging : k_paging s' = k_paging s;
  ty_fs : k_fs s' = k_fs s;
  ty_masks : k_masks s' = k_masks s;
  ty_rtc : k_rtc s' = k_rtc s;
  ty_sched : k_sched s' = k_sched s;
  ty_procs : k_procs s' = k_procs s;
  ty_cpu : k_cpu s' = k_cpu s;
  ty_programs : k_programs s' = k_programs s;
  ty_old : old_terminal (k_terms s') = old_terminal (k_terms s);
  ty_flag : newterminal_flag (k_terms s') = newterminal_flag (k_terms s);
  ty_frames i : i <> n -> load (k_frames s') i = load (k_frames s) i;
  ty_terms i : i <> term -> load (terminals (k_terms s')) i = load (terminals (k_terms s)) i;
  ty_program : program_id <$> load (terminals (k_terms s')) term
    = program_id <$> load (terminals (k_terms s)) term;
  ty_length : length (terminals (k_terms s')) = length (terminals (k_terms s));
}.

#[export] Instance typed_preorder n term : PreOrder (typed n term).
Proof.
  split; [by split|]. intros s1 s2 s3 H1 H2.
  split; intros; destruct H1, H2; repeat match goal with H : forall i, _ |- _ => try rewrite H by done; clear H end;
    congruence.
Qed.

Definition display_only (n : Z) (s s' : kernel) : Prop :=
  exists c page h, s' = set_display c (<[Z.to_nat n := page]> (k_frames s)) h s.

Section Typing.
Context `{HL : !Layout}.
Implicit Types (s : kernel) (t : tty) (n term : Z) (line : list Z).

Lemma display_typed n term s s' : 0 <= n -> display_only n s s' -> typed n term s s'.
Proof. intros Hn (c & page & h & ->). split; try done. intros i Hi. by apply load_insert_ne. Qed.

Lemma terminal_typed n term f s tm :
  load (terminals (k_terms s)) term = Some tm -> program_id (f tm) = program_id tm ->
  typed n term s (altered_terminal term f s).
Proof.
  intros Htm Hf. pose proof (load_inv _ _ _ Htm) as [? _]. unfold altered_terminal.
  split; try done; cbn [lset kernel_terms k_terms terminals].
  - intros i Hi. apply load_alter_ne; lia.
  - rewrite (load_alter_eq _ _ _ _ Htm), Htm. cbn. by rewrite Hf.
  - apply length_alter.
Qed.

Lemma kbd_typed n term (k : keyboard) s : typed n term s (lset k s).
Proof. by split. Qed.

Lemma showing_frame s n t : showing s n t -> 0 <= n.
Proof. intros (page & [_ H%load_inv _ _] & _). lia. Qed.

Lemma showing_ext s s' n t :
  k_paging s' = k_paging s -> k_frames s' = k_frames s -> k_cursor s' = k_cursor s ->
  showing s n t -> showing s' n t.
Proof.
  intros Hp Hf Hc (page & [Hv Hpage ? ?] & Hsh). exists page. split.
  - split; [|by rewrite Hf|done..]. unfold video_frame in *. by rewrite Hp.
  - destruct Hsh as (? & ? & ? & ? & ?). unfold shows, screen_of in *. cbn [screen_x screen_y video] in *.
    by rewrite Hc.
Qed.

Lemma wp_on_tty {A} (m : M screen A) (a : A) t t' s n (Q : A -> kernel -> Prop) :
  showing s n t ->
  (forall scr, shows scr t -> wp m (fun b scr' => b = a /\ shows scr' t') scr) ->
  (forall s', showing s' n t' -> display_only n s s' -> Q a s') ->
  wp (on_screen m) Q s.
Proof.
  intros (page & [Hf Hp Hlen Hb] & Hsh) Hm HQ. rewrite wp_on_screen by done.
  eapply wp_mono; [by apply Hm|]. intros ? scr (-> & Hsh'). apply HQ.
  - exists (video scr). pose proof Hsh' as [[? ?] _]. split; [|by destruct scr].
    split; try done. unfold with_screen. cbn [set_display k_frames]. apply load_insert_eq.
    by apply load_inv in Hp as [? _].
  - by exists (screen_x scr, screen_y scr), (video scr), (io scr).
Qed.

Lemma editing_display s s' term n line t t' :
  editing s term n line t -> showing s' n t' -> display_only n s s' -> on_page t' ->
  editing s' term n line t'.
Proof. intros [? ? ? ?] ? (c & page & h & ->) ?. by split. Qed.

(** *** The screen's operations *)

Lemma shows_on_page scr t t' :
  shows scr t -> on_page t' -> text (video scr) = tty_text t' ->
  screen_x scr = tty_x t' -> screen_y scr = tty_y t' -> shows scr t'.
Proof. intros (? & _) [? ?] ? ? ?. unfold shows, tty_ok. split_and!; done || lia. Qed.

Lemma tty_get_x scr t : shows scr t -> wp get_cursor_x (fun b scr' => b = tty_x t /\ shows scr' t) scr.
Proof. intros Hs. rewrite wp_get_cursor_x. destruct Hs as (? & ? & ? & ? & ?). by split. Qed.
Lemma tty_get_y scr t : shows scr t -> wp get_cursor_y (fun b scr' => b = tty_y t /\ shows scr' t) scr.
Proof. intros Hs. rewrite wp_get_cursor_y. destruct Hs as (? & ? & ? & ? & ?). by split. Qed.

Lemma tty_set_cursor x y scr t :
  shows scr t -> 0 <= x < 80 -> 0 <= y < 25 ->
  wp (set_cursor x y) (fun b scr' => b = tt /\ shows scr' (Tty (tty_text t) x y)) scr.
Proof.
  intros (Hok & _ & Htxt & _) Hx Hy. rewrite wp_set_cursor. split; [done|].
  unfold shows, tty_ok, page_ok. fields. cbn [tty_text tty_x tty_y]. split_and!; try done; lia || apply Hok.
Qed.

Lemma tty_scroll scr t :
  shows scr t ->
  wp pressed_enter (fun b scr' => b = tt /\ shows scr' (Tty (scroll_text (tty_text t)) (tty_x t) (tty_y t))) scr.
Proof.
  intros ([Hl Hb] & Hok & Htxt & Hx & Hy). apply wp_pressed_enter; [done..|]. split; [done|].
  unfold shows, page_ok. fields. cbn [tty_text tty_x tty_y]. rewrite <-Htxt.
  split_and!; try done; [unfold scroll_video; by rewrite page_map_length|by apply scroll_bytes|by apply text_scroll].
Qed.

Lemma tty_print c scr t :
  byte c -> c <> 10 -> c <> 13 -> shows scr t -> on_page t ->
  wp (printf (cstring "%c") [AInt c])
    (fun b scr' => b = 2 /\ shows scr' (Tty (<[Z.to_nat (80 * tty_y t + tty_x t) := c]> (tty_text t))
                                 ((tty_x t + 1) `mod` 80) (tty_y t))) scr.
Proof.
  intros Hc H1 H2 (Hok & _ & Htxt & Hx & Hy) [Hxr Hyr]. apply wp_printf_c; [done|].
  eapply wp_mono; [by apply (putc_text c (tty_x t) (tty_y t))|].
  intros [] scr' (Hok' & Hx' & Hy' & Htxt' & _). split; [done|].
  pose proof (Z.mod_pos_bound (tty_x t + 1) 80).
  unfold shows, tty_ok. cbn [tty_text tty_x tty_y]. rewrite Htxt', Htxt, u8_small by done.
  split_and!; done || lia.
Qed.

Lemma tty_move_back scr t :
  shows scr t -> on_page t -> 0 < 80 * tty_y t + tty_x t ->
  wp move_back (fun b scr' => b = tt /\ shows scr' (tty_back t)) scr.
Proof.
  intros ([Hl Hb] & _ & Htxt & Hx & Hy) [Hxr Hyr] H0. unfold move_back, tty_back. wps. rewrite Hx, Hy.
  set (off := 80 * tty_y t + tty_x t - 1).
  assert (shows (set_xy (off `mod` 80) (off `div` 80) (set_video (put_cell off 32 (video scr)) scr))
    (Tty (<[Z.to_nat off := 32]> (tty_text t)) (off `mod` 80) (off `div` 80))) as Hshow.
  { unfold shows, tty_ok, page_ok. fields. cbn [tty_text tty_x tty_y]. rewrite text_put_cell, Htxt by lia.
    assert (0 <= off `mod` 80 < 80 /\ 0 <= off `div` 80 < 25) as [? ?].
    { subst off. Z.to_euclidean_division_equations; lia. }
    split_and!; try (done || lia); [lens|by apply put_cell_bytes]. }
  case_bool_decide; wps; fields; rewrite ?Hy, !shiftl_1; unfold NUM_COLS.
  - replace (80 * tty_y t + (tty_x t - 1)) with off by lia.
    assert (off `mod` 80 = tty_x t - 1 /\ off `div` 80 = tty_y t) as [E1 E2].
    { subst off. Z.to_euclidean_division_equations; lia. }
    rewrite E1, E2 in *. split; [lia|]. split; [lens|]. split; [done|]. unfold shows in *; cbn -[text put_cell] in *; rewrite ?Hy; exact Hshow.
  - replace (80 * (tty_y t - 1) + (80 - 1)) with off by lia.
    assert (off `mod` 80 = 80 - 1 /\ off `div` 80 = tty_y t - 1) as [E1 E2].
    { subst off. Z.to_euclidean_division_equations; lia. }
    rewrite E1, E2 in *. split; [lia|]. split; [lens|]. split; [done|]. exact Hshow.
Qed.

(** *** The line *)

Lemma editing_line s term n line t f line' :
  editing s term n line t ->
  (forall tm, load (terminals (k_terms s)) term = Some tm ->
     length (line_buffer tm) = 128%nat -> 0 <= buffer_i tm <= 128 ->
     take (Z.to_nat (buffer_i tm)) (line_buffer tm) = line ->
     length (line_buffer (f tm)) = 128%nat /\ 0 <= buffer_i (f tm) <= 128 /\
     take (Z.to_nat (buffer_i (f tm))) (line_buffer (f tm)) = line') ->
  editing (altered_terminal term f s) term n line' t.
Proof.
  intros [Ho (tm & Htm & Hl & Hi & Hline) Hsh Hp] Hf. split; [exact Ho| |by apply (showing_ext s)|done..].
  exists (f tm). destruct (Hf tm) as (? & ? & ?); [done..|]. split_and!; try done; try lia.
  cbn [altered_terminal lset kernel_terms k_terms terminals]. by apply load_alter_eq.
Qed.

Lemma editing_length s term n line t : editing s term n line t -> (length line <= 128)%nat.
Proof. intros [_ (tm & _ & Hl & Hi & <-) _ _]. lens. Qed.

(** The characters before the index stay, the next one is stored. *)
Lemma stored_line (l : list Z) (i c : Z) line :
  length l = 128%nat -> 0 <= i < 128 -> take (Z.to_nat i) l = line ->
  take (Z.to_nat (i + 1)) (<[Z.to_nat i := c]> l) = line ++ [c].
Proof.
  intros Hl Hi <-. replace (Z.to_nat (i + 1)) with (S (Z.to_nat i)) by lia.
  rewrite (take_S_r _ _ c) by (apply list_lookup_insert_eq; lia).
  by rewrite take_insert_ge by lia.
Qed.

(** [s] became [s'] by typing: the line, the screen and the keyboard's state. *)
Definition keyed s term n line t (k : keyboard) (s' : kernel) : Prop :=
  editing s' term n line t /\ typed n term s s' /\ k_kbd s' = k.

Lemma keyed_refl s term n line t : editing s term n line t -> keyed s term n line t (k_kbd s) s.
Proof. by split. Qed.

Lemma keyed_trans s s1 s2 term n line t k line' t' k' :
  keyed s term n line t k s1 -> keyed s1 term n line' t' k' s2 -> keyed s term n line' t' k' s2.
Proof. intros (_ & H & _) (He & H' & Hk). split; [done|]. split; [|done]. by transitivity s1. Qed.

Lemma keyed_display s s' term n line t t' :
  editing s term n line t -> showing s' n t' -> display_only n s s' -> on_page t' ->
  keyed s term n line t' (k_kbd s) s'.
Proof.
  intros He Hsh Hd Hp. split; [by eapply editing_display|]. split.
  - apply display_typed; [|done]. destruct He as [_ _ Hs _]. by eapply showing_frame.
  - by destruct Hd as (? & ? & ? & ->).
Qed.

(** A screen function that leaves [t'] there. *)
Lemma wp_screen_step s term n line t t' (m : M screen unit) :
  editing s term n line t -> on_page t' ->
  (forall scr, shows scr t -> wp m (fun b scr' => b = tt /\ shows scr' t') scr) ->
  wp (on_screen m) (fun _ s' => keyed s term n line t' (k_kbd s) s') s.
Proof.
  intros He Hp Hm. apply (wp_on_tty m tt t t' s n); [apply He|done|].
  intros s' Hsh Hd. by apply (keyed_display s s' term n line t).
Qed.

(** A value read off the screen. *)
Lemma wp_screen_get s term n line t (m : M screen Z) v (Q : Z -> kernel -> Prop) :
  editing s term n line t ->
  (forall scr, shows scr t -> wp m (fun b scr' => b = v /\ scr' = scr) scr) ->
  Q v s -> wp (on_screen m) Q s.
Proof.
  intros [_ _ (page & [Hf Hp Hlen Hb] & Hsh) _] Hm HQ. rewrite wp_on_screen by done.
  eapply wp_mono; [by apply Hm|]. intros ? ? (-> & ->). by rewrite with_screen_id.
Qed.

Lemma wp_get_y s term n line t (Q : Z -> kernel -> Prop) :
  editing s term n line t -> Q (tty_y t) s -> wp (on_screen get_cursor_y) Q s.
Proof.
  intros He HQ. eapply wp_screen_get; [done| |done]. intros scr (_ & _ & _ & _ & Hy).
  by rewrite wp_get_cursor_y, Hy.
Qed.
Lemma wp_get_x s term n line t (Q : Z -> kernel -> Prop) :
  editing s term n line t -> Q (tty_x t) s -> wp (on_screen get_cursor_x) Q s.
Proof.
  intros He HQ. eapply wp_screen_get; [done| |done]. intros scr (_ & _ & _ & Hx & _).
  by rewrite wp_get_cursor_x, Hx.
Qed.

Lemma wp_upd_line s term n line t f line' (Q : unit -> kernel -> Prop) :
  editing s term n line t ->
  (forall tm, load (terminals (k_terms s)) term = Some tm ->
     length (line_buffer tm) = 128%nat -> 0 <= buffer_i tm <= 128 ->
     take (Z.to_nat (buffer_i tm)) (line_buffer tm) = line ->
     program_id (f tm) = program_id tm /\
     length (line_buffer (f tm)) = 128%nat /\ 0 <= buffer_i (f tm) <= 128 /\
     take (Z.to_nat (buffer_i (f tm))) (line_buffer (f tm)) = line') ->
  (forall s', keyed s term n line' t (k_kbd s) s' -> Q tt s') ->
  wp (upd_terminal term f) Q s.
Proof.
  intros He Hf HQ. pose proof He as [Ho (tm & Htm & Hl & Hi & Hline) _ _]. unfold wp.
  rewrite (upd_terminal_eq _ _ _ _ Htm). apply HQ. split_and!; [| |done].
  - apply (editing_line s term n line t f line'); [done|]. intros tm' ? ? ? ?. by apply Hf.
  - apply (terminal_typed n term f s tm); [done|]. by apply Hf.
Qed.

Lemma wp_get_line s term n line t (Q : terminal -> kernel -> Prop) :
  editing s term n line t ->
  (forall tm, load (terminals (k_terms s)) term = Some tm -> length (line_buffer tm) = 128%nat ->
     0 <= buffer_i tm <= 128 -> take (Z.to_nat (buffer_i tm)) (line_buffer tm) = line ->
     buffer_i tm = len line -> Q tm s) ->
  wp (get_terminal term) Q s.
Proof.
  intros [Ho (tm & Htm & Hl & Hi & Hline) _ _] HQ. unfold wp. rewrite (get_terminal_eq _ _ _ Htm).
  apply HQ; try done. subst line. lens.
Qed.

Lemma wp_upd_upd term f g (Q : unit -> kernel -> Prop) s :
  wp (upd_terminal term f ;; upd_terminal term g) Q s <-> wp (upd_terminal term (g ∘ f)) Q s.
Proof.
  unfold wp, mbind at 1, M_bind at 1. destruct (load (terminals (k_terms s)) term) as [tm|] eqn:E.
  - rewrite !(upd_terminal_eq _ _ _ _ E).
    erewrite upd_terminal_eq; [|cbn [lset kernel_terms k_terms terminals]; by apply load_alter_eq].
    cbn [lset kernel_terms k_terms terminals old_terminal newterminal_flag].
    by rewrite list_alter_alter_eq.
  - unfold upd_terminal, mbind, M_bind, get, lift. by rewrite E.
Qed.

(** *** The handlers *)

Lemma backspace_keyed s term n line t :
  editing s term n line t -> room line t ->
  wp backspace_pressed
    (fun _ => keyed s term n (take (length line - 1) line) (if bool_decide (line = []) then t else tty_back t)
       (k_kbd s)) s.
Proof.
  intros He Hroom. unfold room in Hroom. unfold backspace_pressed, get_old_terminal. wps. rewrite (ed_old _ _ _ _ _ He).
  apply (wp_get_line s term n line t); [done|]. intros tm Htm Hl Hi Hline Hlen. wps.
  case_bool_decide as Hpos; case_bool_decide as Hnil; try (rewrite Hnil in Hlen; simpl in Hlen; lia).
  - wps. rewrite u32_small by lia.
    destruct (ed_page _ _ _ _ _ He) as [Hx Hy].
    eapply wp_upd_line with (line' := take (length line - 1) line); [exact He| |].
    + intros tm' Htm' _ _ _. replace tm' with tm by congruence. cbn [set_buffer_i program_id line_buffer buffer_i].
      split_and!; try done; try lia. rewrite <-Hline, take_take. f_equal. lens.
    + intros s' Hk. pose proof Hk as (He' & _ & Hkb).
      eapply wp_mono; [apply (wp_screen_step s' term n (take (length line - 1) line) t (tty_back t)); [done| |]|].
      * unfold on_page, tty_back. cbn [tty_x tty_y]. Z.to_euclidean_division_equations; lia.
      * intros scr Hsh. apply tty_move_back; try done. lia.
      * intros [] s'' Hk'. rewrite Hkb in Hk'. by eapply keyed_trans.
  - rewrite Hnil in *. by apply keyed_refl.
  - destruct line; [done|simpl in Hlen; lia].
Qed.

(** The keyboard's state with another [check_enter]. *)
Definition with_check (v : Z) (k : keyboard) : keyboard :=
  Keyboard (shift k) (ctrl k) (capslock k) (alt k) v.

Lemma keyed_kbd s term n line t (k : keyboard) :
  editing s term n line t -> keyed s term n line t k (lset k s).
Proof.
  intros [? ? ? ?]. split; [|split; [by apply kbd_typed|done]]. split; try done. by apply (showing_ext s).
Qed.

Lemma down_on_page t : on_page t -> on_page (tty_down t).
Proof. intros [? ?]. unfold tty_down, on_page. case_bool_decide; cbn [tty_x tty_y]; lia. Qed.

Lemma next_line_keyed s term n line t :
  editing s term n line t ->
  wp next_line (fun _ => keyed s term n line
    (if bool_decide (tty_x t = 0) && negb (bool_decide (tty_y t = 24) && bool_decide (check_enter (k_kbd s) <> 0))
     then tty_down t else t) (k_kbd s)) s.
Proof.
  intros He. destruct (ed_page _ _ _ _ _ He) as [Hx Hy]. unfold next_line, get_kbd, NUM_COLS, NUM_ROWS.
  rewrite wp_bind. apply (wp_get_x s term n line t); [done|]. rewrite wp_when.
  rewrite (bool_decide_false (tty_x t = 80)), orb_false_r by lia. case_bool_decide as H0; cbn [andb].
  2: by apply keyed_refl.
  rewrite wp_bind. apply (wp_get_y s term n line t); [done|].
  pose proof (down_on_page _ (ed_page _ _ _ _ _ He)) as Hd. unfold tty_down in *.
  destruct (decide (tty_y t < 24)).
  - rewrite (bool_decide_false (tty_y t = 24)), bool_decide_true by lia. cbn [andb negb].
    rewrite bool_decide_true in * by done.
    apply (wp_screen_step s term n line t); [done|done|]. intros scr Hs. apply tty_set_cursor; done || lia.
  - rewrite (bool_decide_true (tty_y t = 24)), bool_decide_false by lia. cbn [andb].
    rewrite (bool_decide_false (tty_y t < 24)) in * by done. wps. case_bool_decide as Hc.
    + rewrite bool_decide_false by (intros Hn; by apply Hn). cbn [negb].
      apply (wp_screen_step s term n line t); [done|exact Hd|]. intros scr Hs. eapply wp_mono; [by apply tty_scroll|].
      intros ? ? (? & Hs'). split; [done|]. rewrite H0 in Hs'. by replace (tty_y t) with 24 in Hs' by lia.
    + rewrite bool_decide_true by done. by apply keyed_refl.
Qed.

(** The two assignments that append a character. *)
Lemma append_keyed s term n line t c (Q : unit -> kernel -> Prop) :
  editing s term n line t -> (length line < 128)%nat ->
  (forall s', keyed s term n (line ++ [c]) t (k_kbd s) s' -> Q tt s') ->
  wp (t ← get_terminal term;
      line ← lift (store (line_buffer t) (buffer_i t) c);
      upd_terminal term (set_line_buffer line) ;;
      upd_terminal term (set_buffer_i (u32 (buffer_i t + 1)))) Q s.
Proof.
  intros He Hlt HQ. wps. apply (wp_get_line s term n line t); [done|].
  intros tm Htm Hl Hi Hline Hlen. wps. eexists. split; [apply store_in; lia|].
  rewrite wp_upd_upd. eapply wp_upd_line with (line' := line ++ [c]); [exact He| |done].
  intros tm' Htm' _ _ _. replace tm' with tm by congruence. cbn [compose set_buffer_i set_line_buffer program_id line_buffer buffer_i].
  rewrite u32_small by lia. split_and!; try done; try lia; [lens|].
  by apply stored_line; [|lia|].
Qed.

Lemma enter_char_full s term n line t c :
  editing s term n line t -> (128 <= length line)%nat ->
  wp (enter_char term c) (fun _ => keyed s term n line t (k_kbd s)) s.
Proof.
  intros He Hf. unfold enter_char. wps. apply (wp_get_line s term n line t); [done|].
  intros tm _ _ _ _ Hlen. wps. unfold NUM_CHARS. rewrite bool_decide_false by lia. by apply keyed_refl.
Qed.

Lemma enter_char_prints s term n line t c :
  editing s term n line t -> (length line < 128)%nat -> byte c -> c <> 10 -> c <> 13 ->
  wp (enter_char term c) (fun _ => keyed s term n (line ++ [c])
     (Tty (<[Z.to_nat (80 * tty_y t + tty_x t) := c]> (tty_text t)) ((tty_x t + 1) `mod` 80) (tty_y t))
     (k_kbd s)) s.
Proof.
  intros He Hf Hc H10 H13. unfold enter_char. rewrite wp_bind. apply (wp_get_line s term n line t); [done|].
  intros tm _ _ _ _ Hlen. rewrite wp_when. unfold NUM_CHARS.
  rewrite bool_decide_true, (bool_decide_true (c <> 10)), wp_bind by (done || lia).
  pose proof (ed_page _ _ _ _ _ He) as [Hx Hy]. rewrite wp_bind.
  set (t' := Tty _ _ _).
  assert (on_page t') as Ht'.
  { split; cbn [t' tty_x tty_y]; [apply Z.mod_pos_bound|]; lia. }
  apply (wp_on_tty _ 2 t t' s n); [apply He|intros scr Hsh; by apply tty_print|].
  intros s' Hsh Hd. rewrite wp_ret.
  pose proof (keyed_display s s' term n line t t' He Hsh Hd Ht') as Hk. pose proof Hk as (He' & _ & Hkb).
  apply (append_keyed s' term n line t'); [done..|]. intros s'' Hk'. rewrite Hkb in Hk'.
  by eapply keyed_trans.
Qed.

(** Enter stays on its row, or scrolls; next_line then goes down. *)
Lemma enter_char_enters s term n line t :
  editing s term n line t -> (length line < 128)%nat ->
  wp (enter_char term 10) (fun _ => keyed s term n (line ++ [10])
     (if bool_decide (tty_y t < 24) then Tty (tty_text t) 0 (tty_y t) else tty_down t)
     (if bool_decide (tty_y t < 24) then k_kbd s else with_check 1 (k_kbd s))) s.
Proof.
  intros He Hf. unfold enter_char. rewrite wp_bind. apply (wp_get_line s term n line t); [done|].
  intros tm _ _ _ _ Hlen. rewrite wp_when. unfold NUM_CHARS, NUM_ROWS.
  rewrite bool_decide_true, (bool_decide_false (10 <> 10)), wp_bind by (done || lia).
  pose proof (ed_page _ _ _ _ _ He) as [Hx Hy]. rewrite wp_bind. apply (wp_get_y s term n line t); [done|].
  rewrite wp_bind. unfold tty_down. destruct (decide (tty_y t < 24)) as [Hr|Hr].
  - rewrite !(bool_decide_true (tty_y t < 24)), bool_decide_true by lia.
    set (t' := Tty (tty_text t) 0 (tty_y t)).
    assert (on_page t') as Ht' by (split; cbn; lia).
    eapply wp_mono; [apply (wp_screen_step s term n line t t'); [done|done|]; intros; apply tty_set_cursor; done || lia|].
    intros [] s1 Hk1. pose proof Hk1 as (He1 & _ & Hkb1). rewrite wp_bind. apply (wp_get_y s1 term n line t'); [done|].
    eapply wp_mono; [apply (wp_screen_step s1 term n line t' t'); [done|done|]; intros; by apply (tty_set_cursor 0 (tty_y t) scr t')|].
    intros [] s2 Hk2. pose proof Hk2 as (He2 & _ & Hkb2).
    apply (append_keyed s2 term n line t'); [done..|]. intros s3 Hk3.
    eapply keyed_trans; [exact Hk1|]. eapply keyed_trans; [exact Hk2|]. by rewrite <-Hkb1, <-Hkb2.
  - rewrite !(bool_decide_false (tty_y t < 24)), bool_decide_false by lia.
    set (t' := Tty (scroll_text (tty_text t)) 0 24).
    assert (on_page t') as Ht' by (split; cbn; lia).
    set (t0 := Tty (scroll_text (tty_text t)) (tty_x t) (tty_y t)).
    assert (on_page t0) as Ht0 by (split; cbn; lia).
    rewrite wp_bind. unfold set_check_enter. rewrite wp_modify.
    pose proof (keyed_kbd s term n line t (with_check 1 (k_kbd s)) He) as Hk0.
    set (s0 := lset (with_check 1 (k_kbd s)) s) in *. change (lset _ s) with s0. pose proof Hk0 as (He0 & _ & _).
    eapply wp_mono; [apply (wp_screen_step s0 term n line t t0); [done|done|]; intros; by apply tty_scroll|].
    intros [] s1 Hk1. pose proof Hk1 as (He1 & _ & Hkb1). rewrite wp_bind. apply (wp_get_y s1 term n line t0); [done|].
    cbn [t0 tty_y]. replace (tty_y t) with 24 by lia.
    eapply wp_mono; [apply (wp_screen_step s1 term n line t0 t'); [done|done|]; intros; by apply (tty_set_cursor 0 24 scr t0)|].
    intros [] s2 Hk2. pose proof Hk2 as (He2 & _ & Hkb2).
    apply (append_keyed s2 term n line t'); [done..|]. intros s3 Hk3.
    eapply keyed_trans; [exact Hk0|]. eapply keyed_trans; [exact Hk1|]. eapply keyed_trans; [exact Hk2|].
    rewrite Hkb2, Hkb1 in Hk3. exact Hk3.
Qed.

Lemma next_line_step s s1 term n line t t' (k : keyboard) :
  keyed s term n line t k s1 ->
  t' = (if bool_decide (tty_x t = 0) && negb (bool_decide (tty_y t = 24) && bool_decide (check_enter k <> 0))
        then tty_down t else t) ->
  wp next_line (fun _ => keyed s term n line t' k) s1.
Proof.
  intros Hk ->. pose proof Hk as (He & _ & <-). eapply wp_mono; [by apply next_line_keyed|].
  intros ? s2 Hk2. by eapply keyed_trans.
Qed.

Lemma echo_keyed s term n line t c :
  editing s term n line t -> byte c -> c <> 0 -> c <> 8 -> c <> 13 ->
  wp (echo c) (fun _ s' => exists ce,
    keyed s term n (edit c line) (tty_echo c line t) (with_check ce (k_kbd s)) s') s.
Proof.
  intros He Hc H0 H8 H13. unfold echo, set_check_enter, get_old_terminal, edit, tty_echo.
  rewrite (bool_decide_false (c = 0)), (bool_decide_false (c = 8)) by done.
  rewrite wp_bind, wp_modify. change (lset _ s) with (lset (with_check 0 (k_kbd s)) s).
  pose proof (keyed_kbd s term n line t (with_check 0 (k_kbd s)) He) as Hk0.
  set (s0 := lset (with_check 0 (k_kbd s)) s) in *. pose proof Hk0 as (He0 & _ & Hkb0).
  wps. rewrite (ed_old _ _ _ _ _ He0).
  destruct (decide (128 <= length line)%nat) as [Hf|Hf].
  - rewrite (bool_decide_true (128 <= _)%nat), bool_decide_false by lia.
    eapply wp_mono; [by apply (enter_char_full s0 term n line t)|]. intros [] s1 Hk1. rewrite Hkb0 in Hk1.
    eapply wp_mono; [eapply (next_line_step s s1 term n line t); [by eapply keyed_trans|reflexivity]|].
    intros [] s2 Hk2. exists 0. unfold tty_next. cbn [check_enter with_check] in Hk2.
    rewrite (bool_decide_false (0 <> 0)), andb_false_r, andb_true_r in Hk2 by lia. exact Hk2.
  - rewrite (bool_decide_false (128 <= _)%nat), (bool_decide_true (length line < 128)%nat) by lia.
    destruct (decide (c = 10)) as [-> |H10].
    + rewrite bool_decide_true by done.
      eapply wp_mono; [apply (enter_char_enters s0 term n line t); [done|lia]|].
      intros [] s1 Hk1. rewrite Hkb0 in Hk1. pose proof (keyed_trans _ _ _ _ _ _ _ _ _ _ _ Hk0 Hk1) as Hk1'.
      eapply wp_mono; [eapply (next_line_step s s1); [exact Hk1'|reflexivity]|].
      intros [] s2 Hk2. unfold tty_down in *. destruct (decide (tty_y t < 24)).
      * rewrite !(bool_decide_true (tty_y t < 24)) in * by done. exists 0. cbn [tty_x tty_y] in Hk2.
        rewrite (bool_decide_false (tty_y t = 24)) in Hk2 by lia. exact Hk2.
      * rewrite !(bool_decide_false (tty_y t < 24)) in * by done. exists 1. exact Hk2.
    + rewrite (bool_decide_false (c = 10)) by done.
      eapply wp_mono; [apply (enter_char_prints s0 term n line t); done || lia|].
      intros [] s1 Hk1. rewrite Hkb0 in Hk1. pose proof (keyed_trans _ _ _ _ _ _ _ _ _ _ _ Hk0 Hk1) as Hk1'.
      eapply wp_mono; [eapply (next_line_step s s1); [exact Hk1'|reflexivity]|].
      intros [] s2 Hk2. exists 0. unfold tty_next. cbn [check_enter with_check] in Hk2.
      rewrite (bool_decide_false (0 <> 0)), andb_false_r, andb_true_r in Hk2 by lia. exact Hk2.
Qed.
End Typing.

(** *** The tables *)

Definition key_ok (sc : Z) : bool :=
  let c := default 0 (load kbdus sc) in
  let d := default 0 (load kbdus_shift sc) in
  bool_decide (load kbdus sc = Some c) && bool_decide (load kbdus_shift sc = Some d)
  && bool_decide (0 <= c < 256) && bool_decide (0 <= d < 256)
  && bool_decide (c <> 13) && bool_decide (d <> 13) && bool_decide (d <> 8)
  && bool_decide (letter c = true -> d = c - 32)
  && bool_decide (d <> 10) && bool_decide (c = 8 <-> sc = 0x0E) && bool_decide (c = 10 <-> sc = 0x1C)
  && bool_decide (sc ∈ [0x2A; 0x36; 0x1D; 0x38; 0x3A] -> c = 0 /\ d = 0)
  && bool_decide (Z.land sc KEY_RELEASED = 0).

Record key_facts (sc c d : Z) : Prop := {
  kf_plain : load kbdus sc = Some c;
  kf_shift : load kbdus_shift sc = Some d;
  kf_c : byte c;
  kf_d : byte d;
  kf_c13 : c <> 13;
  kf_d13 : d <> 13;
  kf_d8 : d <> 8;
  kf_letter : letter c = true -> d = c - 32;
  kf_d10 : d <> 10;
  kf_back : c = 8 <-> sc = 0x0E;
  kf_enter : c = 10 <-> sc = 0x1C;
  kf_modifier : sc ∈ [0x2A; 0x36; 0x1D; 0x38; 0x3A] -> c = 0 /\ d = 0;
  kf_pressed : Z.land sc KEY_RELEASED = 0;
}.

Lemma key_table sc :
  0 <= sc < 128 -> key_facts sc (default 0 (load kbdus sc)) (default 0 (load kbdus_shift sc)).
Proof.
  intros Hsc. assert (forallb key_ok (seqZ 0 128) = true) as Hall by (vm_compute; reflexivity).
  rewrite forallb_forall in Hall. specialize (Hall sc).
  rewrite <-list_elem_of_In, elem_of_seqZ in Hall. specialize (Hall ltac:(lia)).
  unfold key_ok in Hall. rewrite !andb_true_iff, !bool_decide_eq_true in Hall.
  destruct Hall as ((((((((((((? & ?) & ?) & ?) & ?) & ?) & ?) & ?) & ?) & ?) & ?) & ?) & ?). by split.
Qed.

Lemma typed_char_facts k sc :
  0 <= sc < 128 -> let c := typed_char k sc in byte c /\ c <> 13 /\ (c = 8 <-> sc = 0x0E) /\ (c = 10 -> sc = 0x1C).
Proof.
  intros Hsc. destruct (key_table sc Hsc) as [_ _ Hc Hd ? ? ? _ ? Hb Henter _ _]. unfold typed_char.
  set (c := default 0 (load kbdus sc)) in *. set (d := default 0 (load kbdus_shift sc)) in *.
  unfold letter, byte in *. destruct (decide (97 <= c <= 122)) as [Hl|Hl].
  - rewrite bool_decide_true by done. destruct (xorb _ _); lia.
  - rewrite (bool_decide_false (97 <= c <= 122)) by done. destruct (decide (c = 8)) as [E|E].
    + rewrite bool_decide_true by done. rewrite <-Hb. split_and!; lia || done.
    + rewrite (bool_decide_false (c = 8)) by done. destruct (bool_decide (shift k <> 0)); lia.
Qed.

Lemma edit_room c line t :
  on_page t -> (length line <= 128)%nat -> room line t -> room (edit c line) (tty_echo c line t).
Proof.
  intros [Hx Hy] Hl Hr. unfold room, edit, tty_echo, tty_next, tty_down, tty_back in *.
  repeat case_bool_decide; subst; cbn [tty_x tty_y] in *; rewrite ?length_app, ?length_take in *;
    simpl length in *; try lia;
    try (destruct line; [done|]; simpl length in *); Z.to_euclidean_division_equations; lia.
Qed.

Section Pressing.
Context `{!Layout} `{!Overread}.
Implicit Types (s : kernel) (t : tty) (n term : Z) (line : list Z).

Lemma kbdus_at_eq sc c : load kbdus sc = Some c -> kbdus_at sc = c.
Proof. unfold kbdus_at. by intros ->. Qed.
Lemma kbdus_shift_at_eq sc c : load kbdus_shift sc = Some c -> kbdus_shift_at sc = c.
Proof. unfold kbdus_shift_at. by intros ->. Qed.

Lemma pressed_clear_keyed s term n line t :
  editing s term n line t ->
  wp pressed_clear (fun _ => keyed s term n [] (Tty (replicate 2000 32) 0 0) (k_kbd s)) s.
Proof.
  intros He. unfold pressed_clear, get_old_terminal. rewrite wp_bind.
  pose proof (ed_page _ _ _ _ _ He) as [Hx Hy]. set (t1 := Tty (replicate 2000 32) (tty_x t) (tty_y t)).
  eapply wp_mono; [apply (wp_screen_step s term n line t t1); [done|done|]|].
  { intros scr ([Hl Hb] & Hok & Htxt & Hsx & Hsy). apply wp_clear; [done|]. split; [done|].
    unfold shows, page_ok. fields. split_and!; try done; [unfold clear_video; by rewrite page_map_length
      |by apply clear_bytes|by apply text_clear]. }
  intros [] s1 Hk1. pose proof Hk1 as (He1 & _ & Hkb1). rewrite wp_bind.
  eapply wp_mono; [apply (wp_screen_step s1 term n line t1 (Tty (replicate 2000 32) 0 0)); [done|split; cbn; lia|]|].
  { intros scr Hsh. by apply (tty_set_cursor 0 0 scr t1). }
  intros [] s2 Hk2. pose proof Hk2 as (He2 & _ & Hkb2). rewrite wp_bind, wp_gets, (ed_old _ _ _ _ _ He2).
  eapply wp_upd_line with (line' := []); [exact He2| |].
  - intros tm' _ ? _ _. cbn [set_buffer_i program_id line_buffer buffer_i]. by split_and!.
  - intros s3 Hk3. eapply keyed_trans; [exact Hk1|]. eapply keyed_trans; [exact Hk2|].
    by rewrite Hkb2, Hkb1 in Hk3.
Qed.

(** A key's character, when it is not the backspace. *)
Lemma key_char_eq s sc :
  0 <= sc < 128 -> sc <> 0x0E -> key_char sc (kbdus_at sc) s = Ret (typed_char (k_kbd s) sc) s.
Proof.
  intros Hsc Hb. destruct (key_table sc Hsc) as [Hp Hs _ _ _ _ _ Hl _ Hback _ _ _].
  rewrite (kbdus_at_eq _ _ Hp). unfold key_char, get_kbd, typed_char, letter in *.
  set (c := default 0 (load kbdus sc)) in *. rewrite (bind_Ret _ _ s (k_kbd s) s) by done.
  rewrite (kbdus_at_eq _ _ Hp), (kbdus_shift_at_eq _ _ Hs).
  destruct (bool_decide (97 <= c <= 122)).
  - rewrite <-Hl by done. by destruct (bool_decide (capslock _ <> 0)), (bool_decide (shift _ <> 0)).
  - rewrite (bool_decide_false (sc = 14)), andb_false_r, (bool_decide_false (c = 8)) by (done || tauto).
    reflexivity.
Qed.

(** The key that is not a modifier. *)
Lemma plain_key_keyed m s term n line t sc :
  editing s term n line t -> room line t -> 0 <= sc < 128 ->
  wp (plain_key m sc (kbdus_at sc)) (fun r s' => r = Returns tt /\ exists ce,
    let (line', t') := press (k_kbd s) sc line t in
    keyed s term n line' t' (with_check ce (k_kbd s)) s') s.
Proof.
  intros He Hr Hsc. set (c := typed_char (k_kbd s) sc). destruct (typed_char_facts (k_kbd s) sc Hsc) as (Hc & H13 & H8 & _).
  destruct (key_table sc Hsc) as [Hp _ _ _ _ _ _ Hlet _ Hback _ Hmod Hland].
  assert (exists ce, keyed s term n line t (with_check ce (k_kbd s)) s) as Hnone.
  { exists (check_enter (k_kbd s)). split; [done|]. split; [done|]. by destruct (k_kbd s). }
  unfold plain_key, get_kbd. wps.
  rewrite (bool_decide_false (sc = F1_released)), (bool_decide_false (sc = F2_released)),
    (bool_decide_false (sc = F3_released)), !andb_false_r by (unfold F1_released, F2_released, F3_released; lia).
  rewrite wp_bind. unfold press. fold c. destruct (decide (ctrl (k_kbd s) = 0)) as [Hctrl|Hctrl].
  2: { rewrite (bool_decide_false (ctrl (k_kbd s) = 0)), bool_decide_true, wp_when by done.
       case_bool_decide.
       - eapply wp_mono; [by apply (pressed_clear_keyed s term n line t)|]. intros [] s' Hk. rewrite wp_ret.
         split; [done|]. exists (check_enter (k_kbd s)). destruct (k_kbd s). exact Hk.
       - by rewrite wp_ret. }
  rewrite (bool_decide_true (ctrl (k_kbd s) = 0)), (bool_decide_false (ctrl (k_kbd s) <> 0)), wp_when by lia.
  case_bool_decide as Hcaps.
  2: { rewrite wp_ret. split; [done|]. assert (c = 0) as ->; [|exact Hnone].
       destruct Hmod as [E1 E2]; [rewrite Hcaps; unfold capslock_pressed; rewrite !elem_of_cons; lia|].
       unfold c, typed_char, letter. rewrite E1, E2. by destruct (bool_decide (shift _ <> 0)). }
  rewrite wp_bind. destruct (decide (sc = 0x0E)) as [E|E].
  - assert (c = 8) as -> by (unfold c; by apply H8). unfold key_char, get_kbd.
    rewrite (kbdus_at_eq _ _ Hp). assert (default 0 (load kbdus sc) = 8) as -> by by apply Hback.
    wps. rewrite (bool_decide_false (97 <= 8 <= 122)), (bool_decide_true (sc = 14)) by (done || lia).
    change (bool_decide (8 = 8)) with true. cbn [andb]. rewrite wp_bind.
    eapply wp_mono; [by apply backspace_keyed|]. intros [] s' Hk. wps. rewrite andb_false_r.
    split; [done|]. exists (check_enter (k_kbd s)). unfold edit, tty_echo. cbn.
    destruct (k_kbd s). exact Hk.
  - unfold wp at 1. rewrite key_char_eq by done. fold c. rewrite wp_when, Hland.
    rewrite (bool_decide_true (0 = 0)) by done. cbn [andb].
    case_bool_decide as Hc0.
    + eapply wp_mono; [apply (echo_keyed s term n line t c); try done; unfold c; tauto|].
      intros [] s' Hk. by rewrite wp_ret.
    + rewrite wp_ret. split; [done|]. rewrite Hc0. exact Hnone.
Qed.

Lemma typed_char_modifier k sc :
  sc ∈ [0x2A; 0x36; 0x1D; 0x38; 0x3A] -> typed_char k sc = 0.
Proof.
  intros Hsc. assert (0 <= sc < 128) as Hr by (rewrite !elem_of_cons, elem_of_nil in Hsc; lia).
  destruct (key_table sc Hr) as [_ _ _ _ _ _ _ _ _ _ _ Hmod _]. destruct (Hmod Hsc) as [E1 E2].
  unfold typed_char, letter. rewrite E1, E2. by destruct (bool_decide (shift k <> 0)).
Qed.

(** The first steps of the handler. *)
Lemma make_room_keyed s term n line t sc (Q : unit -> kernel -> Prop) :
  editing s term n line t -> 0 <= sc < 128 ->
  (forall s', keyed s term n (make_room sc line) t (k_kbd s) s' -> Q tt s') ->
  wp (get_terminal term) (fun tm =>
    wp (when (bool_decide (buffer_i tm = NUM_CHARS) && bool_decide (kbdus_at sc = 10)) (
        line ← lift (store (line_buffer tm) (u32 (buffer_i tm - 1)) (kbdus_at sc));
        upd_terminal term (set_line_buffer line) ;;
        upd_terminal term (set_buffer_i (u32 (buffer_i tm - 1))))) Q) s.
Proof.
  intros He Hsc HQ. destruct (key_table sc Hsc) as [Hp _ _ _ _ _ _ _ _ _ Henter _ _].
  rewrite (kbdus_at_eq _ _ Hp), (bool_decide_ext _ _ Henter). pose proof (editing_length _ _ _ _ _ He) as Hle.
  unfold make_room in HQ. apply (wp_get_line s term n line t); [done|].
  intros tm Htm Hl Hi Hline Hlen. rewrite wp_when. unfold NUM_CHARS.
  destruct (decide (sc = 0x1C)) as [E|E].
  - rewrite (bool_decide_true (sc = 28)), andb_true_r in * by done. case_bool_decide as Hf.
    + rewrite wp_bind, wp_lift, Hf, u32_small by lia. change (128 - 1) with 127.
      eexists. split; [apply store_in; lia|]. rewrite wp_upd_upd.
      eapply wp_upd_line with (line' := take 127 line); [exact He| |exact HQ].
      intros tm' Htm' _ _ _. replace tm' with tm by congruence. rewrite <-Hline.
      cbn [compose set_buffer_i set_line_buffer program_id line_buffer buffer_i].
      split_and!; try done; [lens|]. rewrite take_take, take_insert_ge by lia. f_equal. lia.
    + rewrite take_ge in HQ by lia. by apply HQ, keyed_refl.
  - rewrite (bool_decide_false (sc = 28)), andb_false_r in * by done. by apply HQ, keyed_refl.
Qed.

Lemma key_pressed_keyed m s term n line t sc :
  editing s term n line t -> room line t -> 0 <= sc < 128 ->
  wp (terminal_key_pressed m sc) (fun r s' => r = Returns tt /\ exists ce,
    let (line', t') := press (k_kbd s) sc (make_room sc line) t in
    keyed s term n line' t' (with_check ce (hold sc (k_kbd s))) s') s.
Proof.
  intros He Hr Hsc. unfold terminal_key_pressed, get_old_terminal.
  rewrite wp_bind, wp_gets, (ed_old _ _ _ _ _ He), wp_bind.
  eapply wp_upd_line with (line' := line); [exact He|by intros|]. intros s1 Hk1.
  pose proof Hk1 as (He1 & _ & Hkb1). cbv zeta. rewrite wp_bind. eapply wp_mono.
  { apply (make_room_keyed s1 term n line t sc (fun _ => keyed s term n (make_room sc line) t (k_kbd s)));
      [done|done|]. intros s2 Hk2. rewrite Hkb1 in Hk2. exact (keyed_trans _ _ _ _ _ _ _ _ _ _ _ Hk1 Hk2). }
  intros tm s1' Hw. rewrite wp_bind. eapply wp_mono; [exact Hw|]. clear Hw. intros [] s2 Hk2. cbv beta in Hk2.
  rewrite wp_bind, wp_when.
  rewrite (bool_decide_false (sc = alt_released)), (bool_decide_false (sc = shift_left_released)),
    (bool_decide_false (sc = shift_right_released)), (bool_decide_false (sc = ctrl_released)),
    (bool_decide_false (sc = capslock_released))
    by (unfold alt_released, shift_left_released, shift_right_released, ctrl_released, capslock_released; lia).
  cbn [orb]. change (when false _) with (mret (M := M kernel) tt).
  assert (forall k', keyed s term n (make_room sc line) t k' (lset k' s2)) as Hset.
  { intros k'. eapply keyed_trans; [exact Hk2|]. apply keyed_kbd, Hk2. }
  pose proof Hk2 as (He2 & _ & Hkb2).
  assert (room (make_room sc line) t) as Hroom.
  { unfold make_room, room in *. case_bool_decide; [|done]. rewrite length_take. lia. }
  assert (sc ∈ [0x2A; 0x36; 0x1D] -> forall k', k' = hold sc (k_kbd s) -> exists ce,
    let (line', t') := press (k_kbd s) sc (make_room sc line) t in
    keyed s term n line' t' (with_check ce (hold sc (k_kbd s))) (lset k' s2)) as Hmod.
  { intros Hin k' ->. exists (check_enter (k_kbd s)). unfold press.
    rewrite typed_char_modifier by (rewrite !elem_of_cons in *; tauto).
    rewrite (bool_decide_false (sc = letter_l)) by (rewrite !elem_of_cons, elem_of_nil in Hin; unfold letter_l; lia).
    destruct (bool_decide _); exact (Hset _). }
  destruct (decide (sc = 0x38)) as [->|].
  { change (bool_decide (56 = alt_pressed)) with true. cbn iota. unfold set_alt. rewrite wp_modify, Hkb2.
    set (k' := Keyboard _ _ _ _ _). specialize (Hset k').
    eapply wp_mono; [apply (plain_key_keyed m (lset k' s2) term n (make_room 56 line) t 56); apply Hset || done|].
    intros r s3 (-> & ce & Hk3). split; [done|]. exists ce.
    change (press (k_kbd (lset k' s2)) 56) with (press (k_kbd s) 56) in Hk3. destruct (press _ _ _ _) as [line' t'].
    exact (keyed_trans _ _ _ _ _ _ _ _ _ _ _ Hset Hk3). }
  rewrite (bool_decide_false (sc = alt_pressed)) by done. unfold set_shift, set_ctrl.
  destruct (decide (sc = 0x2A)) as [->|]; [|destruct (decide (sc = 0x36)) as [->|];
    [|destruct (decide (sc = 0x1D)) as [->|]]].
  1-3: split; [done|]; apply Hmod; [rewrite !elem_of_cons; tauto|by rewrite Hkb2].
  rewrite (bool_decide_false (sc = shift_left_pressed)), (bool_decide_false (sc = shift_right_pressed)),
    (bool_decide_false (sc = ctrl_pressed)) by done. cbn [orb].
  eapply wp_mono; [apply (plain_key_keyed m s2 term n (make_room sc line) t sc); done|].
  intros r s3 (-> & ce & Hk3). split; [done|]. exists ce. rewrite Hkb2 in Hk3. destruct (press _ _ _ _) as [line' t'].
  replace (hold sc (k_kbd s)) with (k_kbd s); [by eapply keyed_trans|].
  unfold hold. rewrite !bool_decide_false by (rewrite !elem_of_cons, elem_of_nil; lia). by destruct (k_kbd s).
Qed.

(** The handler does not confuse a released key with Enter, by the bytes behind the
    table. *)
Definition quiet : Prop := forall sc, 128 <= sc < 256 -> kbdus_at sc <> 10.
(** No released function key with alt held. *)
Definition no_switch (k : keyboard) (sc : Z) : Prop :=
  alt k = 0 \/ sc <> F1_released /\ sc <> F2_released /\ sc <> F3_released.

Lemma key_char_released s sc toPrint :
  sc <> 0x0E -> exists c, key_char sc toPrint s = Ret c s.
Proof.
  intros Hsc. unfold key_char, get_kbd. rewrite (bind_Ret _ _ s (k_kbd s) s) by done.
  destruct (bool_decide (97 <= toPrint <= 122)); [by eexists|].
  rewrite (bool_decide_false (sc = 14)), andb_false_r by done. by eexists.
Qed.

Lemma released_bit sc : 128 <= sc < 256 -> Z.land sc KEY_RELEASED <> 0.
Proof.
  intros Hsc. assert (forallb (fun i => negb (bool_decide (Z.land i 128 = 0))) (seqZ 128 128) = true) as Hall
    by (vm_compute; reflexivity).
  rewrite forallb_forall in Hall. specialize (Hall sc). rewrite <-list_elem_of_In, elem_of_seqZ in Hall.
  specialize (Hall ltac:(lia)). by rewrite negb_true_iff, bool_decide_eq_false in Hall.
Qed.

Lemma plain_key_released m s sc toPrint :
  128 <= sc < 256 -> no_switch (k_kbd s) sc -> plain_key m sc toPrint s = Ret (Returns tt) s.
Proof.
  intros Hsc Hsw. unfold plain_key, get_kbd. rewrite (bind_Ret _ _ s (k_kbd s) s) by done.
  assert (forall F, (F = F1_released \/ F = F2_released \/ F = F3_released) ->
    bool_decide (alt (k_kbd s) <> 0) && bool_decide (sc = F) = false) as HF.
  { intros F HF. unfold no_switch in Hsw. case_bool_decide; [|done]. apply bool_decide_false. naive_solver. }
  rewrite !HF by tauto. unfold mbind at 1, M_bind at 1.
  destruct (bool_decide (ctrl (k_kbd s) <> 0)).
  - by rewrite bool_decide_false by (unfold letter_l; lia).
  - rewrite bool_decide_true by (unfold capslock_pressed; lia). cbn [when].
    destruct (key_char_released s sc toPrint) as [c Hc]; [lia|]. rewrite (bind_Ret _ _ _ _ _ Hc).
    by rewrite (bool_decide_false (Z.land sc KEY_RELEASED = 0)) by (by apply released_bit).
Qed.

Lemma key_released_keyed m s term n line t sc :
  quiet -> editing s term n line t -> 128 <= sc < 256 -> no_switch (k_kbd s) sc ->
  wp (terminal_key_pressed m sc) (fun r s' => r = Returns tt /\ exists ce,
    keyed s term n line t (with_check ce (release sc (k_kbd s))) s') s.
Proof.
  intros Hq He Hsc Hsw. unfold terminal_key_pressed, get_old_terminal.
  rewrite wp_bind, wp_gets, (ed_old _ _ _ _ _ He), wp_bind.
  eapply wp_upd_line with (line' := line); [exact He|by intros|]. intros s1 Hk1.
  pose proof Hk1 as (He1 & _ & Hkb1). cbv zeta. rewrite wp_bind.
  apply (wp_get_line s1 term n line t); [done|]. intros tm _ _ _ _ _.
  rewrite (bool_decide_false (kbdus_at sc = 10)), andb_false_r by (by apply Hq). rewrite wp_bind, wp_when.
  rewrite (bool_decide_false (sc = alt_pressed)), (bool_decide_false (sc = shift_left_pressed)),
    (bool_decide_false (sc = shift_right_pressed)), (bool_decide_false (sc = ctrl_pressed))
    by (unfold alt_pressed, shift_left_pressed, shift_right_pressed, ctrl_pressed; lia).
  cbn [orb]. change (when false _) with (mret (M := M kernel) tt). rewrite wp_bind, wp_ret, wp_bind, wp_when.
  assert (forall k', k' = release sc (k_kbd s) -> exists ce,
    keyed s term n line t (with_check ce (release sc (k_kbd s))) (lset k' s1)) as Hset.
  { intros k' ->. exists (check_enter (k_kbd s)). eapply keyed_trans; [exact Hk1|].
    replace (with_check _ _) with (release sc (k_kbd s)) by (by destruct (k_kbd s)). by apply keyed_kbd. }
  destruct (decide (sc = 0xB8)) as [->|].
  { change (bool_decide (184 = alt_released)) with true. cbn iota. unfold set_alt. rewrite wp_modify, Hkb1.
    unfold wp. set (s2 := lset _ s1).
    change (bool_decide (184 = shift_left_released)) with false.
    change (bool_decide (184 = shift_right_released)) with false.
    change (bool_decide (184 = ctrl_released)) with false.
    change (bool_decide (184 = capslock_released)) with false. cbn [orb].
    rewrite plain_key_released by (done || by left). split; [done|]. by apply Hset. }
  rewrite (bool_decide_false (sc = alt_released)) by done. unfold set_shift, set_ctrl, set_capslock, get_kbd.
  destruct (decide (sc = 0xAA)) as [->|]; [|destruct (decide (sc = 0xB6)) as [->|];
    [|destruct (decide (sc = 0x9D)) as [->|]; [|destruct (decide (sc = 0xBA)) as [->|]]]].
  1-4: split; [done|]; apply Hset; by rewrite Hkb1.
  rewrite (bool_decide_false (sc = shift_left_released)), (bool_decide_false (sc = shift_right_released)),
    (bool_decide_false (sc = ctrl_released)), (bool_decide_false (sc = capslock_released)) by done. cbn [orb].
  unfold wp. rewrite plain_key_released by (done || by rewrite Hkb1). split; [done|].
  exists (check_enter (k_kbd s)).
  replace (with_check _ _) with (k_kbd s); [done|].
  unfold release. rewrite !bool_decide_false by (rewrite ?elem_of_cons, ?elem_of_nil; lia). by destruct (k_kbd s).
Qed.

(** One key, pressed or released. *)
Lemma key_step_keyed m s term n line t sc :
  quiet -> editing s term n line t -> room line t -> 0 <= sc < 256 -> no_switch (k_kbd s) sc ->
  let e := key_step (Session (k_kbd s) line t) sc in
  wp (terminal_key_pressed m sc) (fun r s' => r = Returns tt /\
    editing s' term n (se_line e) (se_tty e) /\ room (se_line e) (se_tty e) /\
    typed n term s s' /\ exists ce, k_kbd s' = with_check ce (se_kbd e)) s.
Proof.
  intros Hq He Hr Hsc Hsw e. unfold e, key_step. cbn [se_kbd se_line se_tty].
  destruct (decide (128 <= sc)).
  - rewrite bool_decide_true by done. eapply wp_mono; [apply (key_released_keyed m s term n line t); done || lia|].
    intros r s' (-> & ce & He' & Hty & Hkb). split_and!; try done. by exists ce.
  - rewrite bool_decide_false by done.
    eapply wp_mono; [apply (key_pressed_keyed m s term n line t); done || lia|].
    intros r s' (-> & ce & Hk). pose proof (editing_length _ _ _ _ _ He) as Hlen.
    assert (room (make_room sc line) t /\ (length (make_room sc line) <= 128)%nat) as [Hr' Hlen'].
    { unfold make_room, room in *. case_bool_decide; [|done]. rewrite length_take. lia. }
    unfold press in *. destruct (bool_decide (ctrl _ = 0)); [|destruct (bool_decide (sc = letter_l))];
      destruct Hk as (He' & Hty & Hkb); split_and!; try done; try (by exists ce).
    apply edit_room; [apply He|done..].
Qed.
End Pressing.

(** ** Properties *)

(** C9: the keyboard handler refines an abstract line editor. For every scan code, a
    pressed or a released key (but a released F1, F2, F3 with alt held), it returns,
    and the modifiers, the line of the visible terminal and the screen with its cursor
    are those of the abstract session: letters by shift xor caps lock, other keys by
    shift, at most 128 characters, Enter makes room in a full line, backspace takes the
    last character off the line and the screen, ctrl-L clears both; other terminals'
    lines, other text pages, processes, page directories and the scheduler's queue are
    unchanged. The bytes behind the key table, which released keys read, hold no line
    break ([quiet]); the line is no longer than the text up to the cursor ([room]), which the
    handler keeps true. *)
Theorem keyboard_refines_session `{!Layout} `{!Overread} m s term n line t sc :
  quiet -> editing s term n line t -> room line t -> 0 <= sc < 256 -> no_switch (k_kbd s) sc ->
  let e := key_step (Session (k_kbd s) line t) sc in
  exists s' ce, terminal_key_pressed m sc s = Ret (Returns tt) s' /\
    editing s' term n (se_line e) (se_tty e) /\ room (se_line e) (se_tty e) /\
    typed n term s s' /\ k_kbd s' = with_check ce (se_kbd e).
Proof.
  intros Hq He Hr Hsc Hsw e.
  pose proof (key_step_keyed m s term n line t sc Hq He Hr Hsc Hsw) as Hw. fold e in Hw.
  apply wp_Ret in Hw as (r & s' & Hrun & -> & ? & ? & ? & ce & ?). by exists s', ce.
Qed.

Definition demo_overread : Overread := {| kbdus_beyond _ := 0; kbdus_shift_beyond _ := 0 |}.
Definition demo_machine : machine := Machine (replicate 40 0) 0x7FFF00 0x7FFF20.

Lemma demo_quiet : @quiet demo_overread.
Proof. intros sc Hsc. unfold kbdus_at. by rewrite load_oob by (change (len kbdus) with 128; lia). Qed.

Lemma demo_editing : editing demo_console 0 0 [] (tty_of demo_console blank_page).
Proof.
  split.
  - reflexivity.
  - eexists. split; [reflexivity|]. by split_and!.
  - exists blank_page. split; [apply demo_shown|]. apply (console_shows _ 0); apply demo_shown.
  - split; cbn; lia.
Qed.

(** The key A with shift held, on a blank screen. *)
Definition demo_shifted : kernel := lset (Keyboard 1 0 0 0 0) demo_console.

Lemma demo_editing_shifted : editing demo_shifted 0 0 [] (tty_of demo_console blank_page).
Proof. by apply (keyed_kbd demo_console 0 0 [] _ (Keyboard 1 0 0 0 0)), demo_editing. Qed.

Lemma keyboard_refines_session_witness :
  let e := key_step (Session (k_kbd demo_shifted) [] (tty_of demo_console blank_page)) 0x1E in
  (se_line e = [65] /\ load (tty_text (se_tty e)) 0 = Some 65 /\ tty_x (se_tty e) = 1) /\
  exists s' ce, @terminal_key_pressed demo_layout demo_overread demo_machine 0x1E demo_shifted = Ret (Returns tt) s' /\
    editing s' 0 0 (se_line e) (se_tty e) /\ room (se_line e) (se_tty e) /\
    typed 0 0 demo_shifted s' /\ k_kbd s' = with_check ce (se_kbd e).
Proof.
  split; [split_and!; vm_compute; reflexivity|].
  apply (@keyboard_refines_session demo_layout demo_overread demo_machine demo_shifted 0 0 []
    (tty_of demo_console blank_page) 0x1E);
    [exact demo_quiet|exact demo_editing_shifted|unfold room; cbn; lia|lia|by left].
Defined.
