(* ===== verification/Descriptors.v ===== *)
(** * Descriptors

    The interrupt gates and segment descriptors of [src/student-distrib/x86_desc.h]
    and [x86_desc.S], idt_initialize of [idt.c], and the descriptors that entry of
    [kernel.c] builds; what the processor reads out of them. *)
From S2P Require Import Prelude.

Definition KERNEL_CS : Z := 0x0010.
Definition KERNEL_DS : Z := 0x0018.
Definition USER_CS : Z := 0x0023.
Definition USER_DS : Z := 0x002B.
Definition KERNEL_TSS : Z := 0x0030.
Definition KERNEL_LDT : Z := 0x0038.
Definition TSS_SIZE : Z := 104.
Definition NUM_VEC : Z := 256.

(** An assignment to a bit field of [w] bits. *)
Definition field (w v : Z) : Z := v `mod` 2 ^ w.

(** ** Data *)

(** [idt_desc_t] *)
Record idt_desc := IdtDesc {
  offset_15_00 : Z;
  seg_selector : Z;
  reserved4 : Z;
  reserved3 : Z;
  reserved2 : Z;
  reserved1 : Z;
  size : Z;
  reserved0 : Z;
  gate_dpl : Z;
  gate_present : Z;
  offset_31_16 : Z;
}.

(** [seg_desc_t] *)
Record seg_desc := SegDesc {
  seg_lim_15_00 : Z;
  base_15_00 : Z;
  base_23_16 : Z;
  seg_type : Z;
  sys : Z;
  seg_dpl : Z;
  seg_present : Z;
  seg_lim_19_16 : Z;
  avail : Z;
  reserved : Z;
  opsize : Z;
  granularity : Z;
  base_31_24 : Z;
}.

(** The 8 bytes of a descriptor, the first field in the lowest bits. *)
Definition gate_word (g : idt_desc) : Z :=
  offset_15_00 g + 2 ^ 16 * (seg_selector g + 2 ^ 16 * (reserved4 g + 2 ^ 8 * (reserved3 g + 2 *
  (reserved2 g + 2 * (reserved1 g + 2 * (size g + 2 * (reserved0 g + 2 * (gate_dpl g + 4 *
  (gate_present g + 2 * offset_31_16 g))))))))).
Definition seg_word (d : seg_desc) : Z :=
  seg_lim_15_00 d + 2 ^ 16 * (base_15_00 d + 2 ^ 16 * (base_23_16 d + 2 ^ 8 * (seg_type d + 16 *
  (sys d + 2 * (seg_dpl d + 4 * (seg_present d + 2 * (seg_lim_19_16 d + 16 * (avail d + 2 *
  (reserved d + 2 * (opsize d + 2 * (granularity d + 2 * base_31_24 d))))))))))).

(** ** The code *)

(** The entry points of [idt_linkage.S], at the addresses where they are linked. *)
Inductive linkage :=
| divide_by_zero_linkage | debug_linkage | nmi_linkage | breakpoint_linkage | overflow_linkage
| bound_range_linkage | invalid_op_linkage | device_na_linkage | double_fault_linkage
| coprocessor_seg_overrun_linkage | invalid_tss_linkage | seg_not_present_linkage
| stack_seg_fault_linkage | general_protection_linkage | page_fault_linkage | reserved_linkage
| math_fault_linkage | alignment_check_linkage | machine_check_linkage | floating_point_linkage
| irq0_wrapper | irq1_wrapper | irq8_wrapper | syscall_wrapper.
Class Linked := {
  address : linkage -> Z;
  address_range l : 0 <= address l < 2 ^ 32;
}.

Definition SET_IDT_ENTRY (handler : Z) (g : idt_desc) : idt_desc :=
  IdtDesc (field 16 (Z.land handler 0xFFFF)) (seg_selector g) (reserved4 g) (reserved3 g) (reserved2 g)
    (reserved1 g) (size g) (reserved0 g) (gate_dpl g) (gate_present g)
    (field 16 (Z.shiftr (Z.land handler 0xFFFF0000) 16)).

Section Idt.
Context `{!Linked}.

Definition set_idt_entry (i : Z) (l : linkage) : M (list idt_desc) unit :=
  idt ← get;
  g ← lift (load idt i);
  idt' ← lift (store idt i (SET_IDT_ENTRY (address l) g));
  modify (fun _ => idt').
Definition set_idt (i : Z) (g : idt_desc) : M (list idt_desc) unit :=
  idt ← get;
  idt' ← lift (store idt i g);
  modify (fun _ => idt').

(** [lo] and [hi]: what the local variable [exception] has in its two offset fields,
    which are not assigned. *)
Definition exception_desc (lo hi : Z) : idt_desc := IdtDesc lo KERNEL_CS 0 0 1 1 1 0 0 1 hi.
Definition syscall_desc (lo hi : Z) : idt_desc := IdtDesc lo KERNEL_CS 0 1 1 1 1 0 3 1 hi.

Definition idt_initialize (lo hi : Z) : M (list idt_desc) unit :=
  let exception := exception_desc lo hi in
  let interrupt := exception in
  let syscall := syscall_desc lo hi in
  for_range 0 32 (fun i => set_idt i exception) ;;
  for_range 32 41 (fun i => set_idt i interrupt) ;;
  set_idt 0x80 syscall ;;
  set_idt_entry 0 divide_by_zero_linkage ;;
  set_idt_entry 1 debug_linkage ;;
  set_idt_entry 2 nmi_linkage ;;
  set_idt_entry 3 breakpoint_linkage ;;
  set_idt_entry 4 overflow_linkage ;;
  set_idt_entry 5 bound_range_linkage ;;
  set_idt_entry 6 invalid_op_linkage ;;
  set_idt_entry 7 device_na_linkage ;;
  set_idt_entry 8 double_fault_linkage ;;
  set_idt_entry 9 coprocessor_seg_overrun_linkage ;;
  set_idt_entry 10 invalid_tss_linkage ;;
  set_idt_entry 11 seg_not_present_linkage ;;
  set_idt_entry 12 stack_seg_fault_linkage ;;
  set_idt_entry 13 general_protection_linkage ;;
  set_idt_entry 14 page_fault_linkage ;;
  set_idt_entry 15 reserved_linkage ;;
  set_idt_entry 16 math_fault_linkage ;;
  set_idt_entry 17 alignment_check_linkage ;;
  set_idt_entry 18 machine_check_linkage ;;
  set_idt_entry 19 floating_point_linkage ;;
  set_idt_entry 32 irq0_wrapper ;;
  set_idt_entry 33 irq1_wrapper ;;
  set_idt_entry 40 irq8_wrapper ;;
  set_idt_entry 0x80 syscall_wrapper.
End Idt.

(** [SET_LDT_PARAMS] and [SET_TSS_PARAMS] *)
Definition SET_SEG_PARAMS (addr lim : Z) (d : seg_desc) : seg_desc :=
  SegDesc (field 16 (Z.land lim 0x0000FFFF)) (field 16 (Z.land addr 0x0000FFFF))
    (field 8 (Z.shiftr (Z.land addr 0x00FF0000) 16)) (seg_type d) (sys d) (seg_dpl d) (seg_present d)
    (field 4 (Z.shiftr (Z.land lim 0x000F0000) 16)) (avail d) (reserved d) (opsize d) (granularity d)
    (field 8 (Z.shiftr (Z.land addr 0xFF000000) 24)).

(** The local variables of entry: fields that are not assigned before
    SET_SEG_PARAMS are 0 here and overwritten by it. *)
Definition the_ldt_desc (ldt ldt_size : Z) : seg_desc :=
  SET_SEG_PARAMS ldt ldt_size (SegDesc 0 0 0 0x2 0 0x0 1 0 0 0 1 0 0).
Definition the_tss_desc (tss tss_size : Z) : seg_desc :=
  SET_SEG_PARAMS tss tss_size
    (SegDesc (field 16 (Z.land TSS_SIZE 0x0000FFFF)) 0 0 0x9 0 0x0 1
       (field 4 (Z.land TSS_SIZE 0x000F0000)) 0 0 0 0 0).

(** The GDT of [x86_desc.S]: two null entries, the kernel's and the user's code and
    data segments, the TSS, the LDT; and entry's two assignments to it. *)
Definition gdt_init : list Z :=
  [0; 0; 0x00CF9A000000FFFF; 0x00CF92000000FFFF; 0x00CFFA000000FFFF; 0x00CFF2000000FFFF; 0; 0].
Definition gdt_setup (ldt ldt_size tss tss_size : Z) : M (list Z) unit :=
  l ← get;
  l ← lift (store l 7 (seg_word (the_ldt_desc ldt ldt_size)));
  l ← lift (store l 6 (seg_word (the_tss_desc tss tss_size)));
  modify (fun _ => l).

(** ** The processor's view *)

(** An interrupt or trap gate: its type (14: interrupts are disabled on entry, 15: they
    are not), the privilege that a program needs for the int instruction, the code
    segment and the address. *)
Record gate := Gate { g_type : Z; g_dpl : Z; g_selector : Z; g_target : Z }.
Definition decode_gate (w : Z) : option gate :=
  if bool_decide ((w `div` 2 ^ 47) `mod` 2 = 1) then
    Some (Gate ((w `div` 2 ^ 40) `mod` 16) ((w `div` 2 ^ 45) `mod` 4) ((w `div` 2 ^ 16) `mod` 2 ^ 16)
            (w `mod` 2 ^ 16 + 2 ^ 16 * ((w `div` 2 ^ 48) `mod` 2 ^ 16)))
  else None.
(** The int instruction in user code reaches the gate. *)
Definition user_may_call (g : option gate) : bool :=
  match g with Some g => bool_decide (3 <= g_dpl g) | None => false end.

(** A segment: its base, limit in bytes, privilege and type, with the S bit. *)
Record segment := Segment { s_base : Z; s_limit : Z; s_dpl : Z; s_code_data : bool; s_type : Z }.
Definition decode_segment (w : Z) : option segment :=
  if bool_decide ((w `div` 2 ^ 47) `mod` 2 = 1) then
    let lim := w `mod` 2 ^ 16 + 2 ^ 16 * ((w `div` 2 ^ 48) `mod` 16) in
    Some (Segment ((w `div` 2 ^ 16) `mod` 2 ^ 24 + 2 ^ 24 * ((w `div` 2 ^ 56) `mod` 2 ^ 8))
            (if bool_decide ((w `div` 2 ^ 55) `mod` 2 = 1) then 4096 * lim + 4095 else lim)
            ((w `div` 2 ^ 45) `mod` 4) (bool_decide ((w `div` 2 ^ 44) `mod` 2 = 1))
            ((w `div` 2 ^ 40) `mod` 16))
  else None.

(** ** Lemmas *)

Lemma field_range w v : 0 <= w -> 0 <= field w v < 2 ^ w.
Proof. intros. apply Z.mod_pos_bound. by apply Z.pow_pos_nonneg. Qed.

Lemma low_field v : 0 <= v < 2 ^ 32 -> field 16 (Z.land v 0xFFFF) = v `mod` 2 ^ 16.
Proof. intros. unfold field. change 0xFFFF with (Z.ones 16). by rewrite Z.land_ones, Zmod_mod by lia. Qed.

(** [(v & mask) >> k], for a mask of [w] bits at [k]. *)
Lemma mid_field k w v :
  0 <= k -> 0 <= w -> field w (Z.shiftr (Z.land v (Z.shiftl (Z.ones w) k)) k) = (v `div` 2 ^ k) `mod` 2 ^ w.
Proof.
  intros Hk Hw. unfold field. rewrite Z.shiftr_land, Z.shiftr_shiftl_l, Z.sub_diag, Z.shiftl_0_r by lia.
  rewrite Z.land_ones, Zmod_mod by lia. by rewrite Z.shiftr_div_pow2.
Qed.

(** The first field of a packed word and the rest. *)
Lemma unpack w a b k : 0 <= a < 2 ^ w -> 0 <= w <= k -> (a + 2 ^ w * b) `div` 2 ^ k = b `div` 2 ^ (k - w).
Proof.
  intros Ha Hw. replace (2 ^ k) with (2 ^ w * 2 ^ (k - w)) by (rewrite <-Z.pow_add_r by lia; f_equal; lia).
  rewrite <-Z.div_div by (pose proof (Z.pow_pos_nonneg 2 w); pose proof (Z.pow_pos_nonneg 2 (k - w)); lia).
  f_equal. symmetry. by apply Z.div_unique with a; [left|lia].
Qed.
Lemma unpack_mod w a b : 0 <= a < 2 ^ w -> (a + 2 ^ w * b) `mod` 2 ^ w = a.
Proof. intros Ha. symmetry. by apply Z.mod_unique with b; [left|lia]. Qed.

Lemma decode_gate_word lo hi r3 dpl :
  0 <= lo < 65536 -> 0 <= hi < 65536 -> 0 <= r3 < 2 -> 0 <= dpl < 4 ->
  decode_gate (gate_word (IdtDesc lo KERNEL_CS 0 r3 1 1 1 0 dpl 1 hi))
  = Some (Gate (14 + r3) dpl KERNEL_CS (lo + 65536 * hi)).
Proof.
  intros Hlo Hhi Hr Hd. unfold decode_gate, gate_word, KERNEL_CS.
  cbn [offset_15_00 seg_selector reserved4 reserved3 reserved2 reserved1 size reserved0 gate_dpl gate_present
       offset_31_16].
  rewrite (unpack_mod 16), !(unpack 16) by lia. cbn [Z.sub Z.opp Z.add Z.pos_sub].
  change (47 - 16) with 31. change (40 - 16) with 24. change (45 - 16) with 29. change (48 - 16) with 32.
  change (16 - 16) with 0. rewrite Z.div_1_r, (unpack_mod 16), !(unpack 16) by lia.
  change (31 - 16) with 15. change (24 - 16) with 8. change (29 - 16) with 13. change (32 - 16) with 16.
  rewrite !(unpack 8) by lia.
  change (15 - 8) with 7. change (8 - 8) with 0. change (13 - 8) with 5. change (16 - 8) with 8.
  rewrite Z.div_1_r. change (2 ^ 7) with 128. change (2 ^ 5) with 32. change (2 ^ 8) with 256. change (2 ^ 16) with 65536.
  rewrite bool_decide_true by (Z.to_euclidean_division_equations; lia).
  do 2 f_equal; Z.to_euclidean_division_equations; lia.
Qed.

Record seg_fields_ok (d : seg_desc) : Prop := {
  sf_lim : 0 <= seg_lim_15_00 d < 65536;
  sf_base : 0 <= base_15_00 d < 65536;
  sf_base2 : 0 <= base_23_16 d < 256;
  sf_type : 0 <= seg_type d < 16;
  sf_sys : 0 <= sys d < 2;
  sf_dpl : 0 <= seg_dpl d < 4;
  sf_present : seg_present d = 1;
  sf_lim2 : 0 <= seg_lim_19_16 d < 16;
  sf_avail : 0 <= avail d < 2;
  sf_reserved : 0 <= reserved d < 2;
  sf_opsize : 0 <= opsize d < 2;
  sf_granularity : granularity d = 0;
  sf_base3 : 0 <= base_31_24 d < 256;
}.

Lemma decode_seg_word d :
  seg_fields_ok d ->
  decode_segment (seg_word d)
  = Some (Segment (base_15_00 d + 65536 * base_23_16 d + 16777216 * base_31_24 d)
            (seg_lim_15_00 d + 65536 * seg_lim_19_16 d) (seg_dpl d) (bool_decide (sys d = 1)) (seg_type d)).
Proof.
  destruct d as [l1 b1 b2 ty sy dpl pr l2 av re op gr b3]. intros [? ? ? ? ? ? Hpr ? ? ? ? Hgr ?].
  unfold decode_segment, seg_word.
  cbn [seg_lim_15_00 base_15_00 base_23_16 seg_type sys seg_dpl seg_present seg_lim_19_16 avail reserved opsize
       granularity base_31_24] in *. subst pr gr.
  set (x := ty + 16 * _).
  assert (forall k, 40 <= k ->
    ((l1 + 2 ^ 16 * (b1 + 2 ^ 16 * (b2 + 2 ^ 8 * x))) `div` 2 ^ k) = (x `div` 2 ^ (k - 40))) as Hhigh.
  { intros k Hk. rewrite (unpack 16), (unpack 16), (unpack 8) by lia. f_equal. f_equal. lia. }
  rewrite (Hhigh 40), (Hhigh 44), (Hhigh 45), (Hhigh 47), (Hhigh 48), (Hhigh 55), (Hhigh 56) by lia.
  rewrite (unpack_mod 16) by lia.
  rewrite (unpack 16 l1 _ 16) by lia. change (2 ^ (16 - 16)) with 1. rewrite Z.div_1_r.
  assert ((b1 + 2 ^ 16 * (b2 + 2 ^ 8 * x)) `mod` 2 ^ 24 = b1 + 65536 * b2) as ->.
  { change (2 ^ 24) with 16777216. change (2 ^ 16) with 65536. change (2 ^ 8) with 256.
    symmetry. apply Z.mod_unique with x; lia. }
  change (2 ^ (48 - 40)) with 256. change (2 ^ (56 - 40)) with 65536. change (2 ^ (55 - 40)) with 32768.
  change (2 ^ (47 - 40)) with 128. change (2 ^ (45 - 40)) with 32. change (2 ^ (44 - 40)) with 16.
  change (2 ^ (40 - 40)) with 1. change (2 ^ 8) with 256. change (2 ^ 16) with 65536. change (2 ^ 24) with 16777216.
  assert (x `mod` 16 = ty /\ (x `div` 16) `mod` 2 = sy /\ (x `div` 32) `mod` 4 = dpl /\ (x `div` 128) `mod` 2 = 1 /\
    (x `div` 256) `mod` 16 = l2 /\ (x `div` 32768) `mod` 2 = 0 /\ (x `div` 65536) `mod` 256 = b3) as (E1 & E2 & E3 & E4 & E5 & E6 & E7).
  { subst x. split_and!; Z.to_euclidean_division_equations; lia. }
  rewrite Z.div_1_r, E1, E2, E3, E4, E5, E6, E7. rewrite bool_decide_true, (bool_decide_false (0 = 1)) by done.
  do 2 f_equal; lia.
Qed.

Lemma seg_params_ok addr lim ty op :
  0 <= addr < 2 ^ 32 -> 0 <= lim < 2 ^ 20 -> 0 <= ty < 16 -> 0 <= op < 2 ->
  forall l1 l2 b1 b2 b3,
  decode_segment (seg_word (SET_SEG_PARAMS addr lim (SegDesc l1 b1 b2 ty 0 0 1 l2 0 0 op 0 b3)))
  = Some (Segment addr lim 0 false ty).
Proof.
  intros Ha Hl Hty Hop l1 l2 b1 b2 b3. unfold SET_SEG_PARAMS.
  cbn [seg_lim_15_00 base_15_00 base_23_16 seg_type sys seg_dpl seg_present seg_lim_19_16 avail reserved opsize
       granularity base_31_24].
  change 0x00FF0000 with (Z.shiftl (Z.ones 8) 16). change 0x000F0000 with (Z.shiftl (Z.ones 4) 16).
  change 0xFF000000 with (Z.shiftl (Z.ones 8) 24). rewrite !mid_field, !low_field by lia.
  change (2 ^ 32) with 4294967296 in *. change (2 ^ 20) with 1048576 in *.
  change (2 ^ 16) with 65536. change (2 ^ 24) with 16777216. change (2 ^ 8) with 256. change (2 ^ 4) with 16.
  rewrite decode_seg_word.
  - cbn [seg_lim_15_00 base_15_00 base_23_16 seg_type sys seg_dpl seg_lim_19_16 base_31_24].
    do 2 f_equal; Z.to_euclidean_division_equations; lia.
  - split; cbn [seg_lim_15_00 base_15_00 base_23_16 seg_type sys seg_dpl seg_present seg_lim_19_16 avail reserved
      opsize granularity base_31_24]; try done; try (apply Z.mod_pos_bound; lia).
Qed.

(** ** The table *)

Definition handler_of (v : Z) : option linkage :=
  if bool_decide (v < 20) then
    load [divide_by_zero_linkage; debug_linkage; nmi_linkage; breakpoint_linkage; overflow_linkage;
          bound_range_linkage; invalid_op_linkage; device_na_linkage; double_fault_linkage;
          coprocessor_seg_overrun_linkage; invalid_tss_linkage; seg_not_present_linkage;
          stack_seg_fault_linkage; general_protection_linkage; page_fault_linkage; reserved_linkage;
          math_fault_linkage; alignment_check_linkage; machine_check_linkage; floating_point_linkage] v
  else if bool_decide (v = 32) then Some irq0_wrapper
  else if bool_decide (v = 33) then Some irq1_wrapper
  else if bool_decide (v = 40) then Some irq8_wrapper
  else if bool_decide (v = 0x80) then Some syscall_wrapper
  else None.

Definition zero_gate : idt_desc := IdtDesc 0 0 0 0 0 0 0 0 0 0 0.
Definition zero_idt : list idt_desc := replicate 256 zero_gate.

(** The gate of a vector, [lo] and [hi] being left in the fields that are not assigned. *)
Definition gate_of `{!Linked} (lo hi v : Z) : idt_desc :=
  let set g := match handler_of v with Some l => SET_IDT_ENTRY (address l) g | None => g end in
  if bool_decide (v = 0x80) then set (syscall_desc lo hi)
  else if bool_decide (v <= 40) then set (exception_desc lo hi) else zero_gate.

Lemma idt_table `{!Linked} lo hi :
  idt_initialize lo hi zero_idt = Ret tt (gate_of lo hi <$> seqZ 0 256).
Proof. cbv -[SET_IDT_ENTRY exception_desc syscall_desc zero_gate]. reflexivity. Qed.

Lemma load_table {A} (f : Z -> A) (n v : Z) : 0 <= v < n -> load (f <$> seqZ 0 n) v = Some (f v).
Proof.
  intros Hv. rewrite load_nonneg, list_lookup_fmap by lia.
  assert (seqZ 0 n !! Z.to_nat v = Some v) as ->; [|done].
  rewrite lookup_seqZ. lia.
Qed.

Lemma decode_entry `{!Linked} r3 dpl l lo hi :
  0 <= r3 < 2 -> 0 <= dpl < 4 ->
  decode_gate (gate_word (SET_IDT_ENTRY (address l) (IdtDesc lo KERNEL_CS 0 r3 1 1 1 0 dpl 1 hi)))
  = Some (Gate (14 + r3) dpl KERNEL_CS (address l)).
Proof.
  intros Hr Hd. pose proof (address_range l) as Ha. unfold SET_IDT_ENTRY.
  cbn [offset_15_00 seg_selector reserved4 reserved3 reserved2 reserved1 size reserved0 gate_dpl gate_present
       offset_31_16].
  change 0xFFFF0000 with (Z.shiftl (Z.ones 16) 16). rewrite mid_field, low_field by lia.
  change (2 ^ 32) with 4294967296 in *. change (2 ^ 16) with 65536.
  rewrite decode_gate_word by (done || apply Z.mod_pos_bound; lia).
  do 2 f_equal. Z.to_euclidean_division_equations; lia.
Qed.

(** ** Properties *)

(** C28: idt_initialize fills the table as the processor reads it: the 20 exceptions and
    the interrupts of the timer, the keyboard and the clock are interrupt gates
    (interrupts disabled) into the kernel's code segment at their assembly wrappers,
    the system call vector 0x80 a trap gate, the vectors above 40 are not present. Only
    vector 0x80 can be called from a user program. The vectors 20 to 31 and 34 to 39,
    which have no handler, are present as well: they jump to whatever the stack held. *)
Theorem idt_vectors `{!Linked} lo hi :
  0 <= lo < 65536 -> 0 <= hi < 65536 ->
  exists idt, idt_initialize lo hi zero_idt = Ret tt idt /\ length idt = 256%nat /\
  forall v, 0 <= v < 256 -> exists g, load idt v = Some g /\
    user_may_call (decode_gate (gate_word g)) = bool_decide (v = 0x80) /\
    decode_gate (gate_word g)
    = match handler_of v with
      | Some l => Some (Gate (if bool_decide (v = 0x80) then 15 else 14) (if bool_decide (v = 0x80) then 3 else 0)
                          KERNEL_CS (address l))
      | None => if bool_decide (v <= 40) then Some (Gate 14 0 KERNEL_CS (lo + 65536 * hi)) else None
      end.
Proof.
  intros Hlo Hhi. rewrite idt_table. eexists. split; [done|]. split; [done|]. intros v Hv.
  exists (gate_of lo hi v). split; [by apply load_table|]. unfold gate_of.
  destruct (decide (v = 0x80)) as [->|Hs].
  - change (handler_of 128) with (Some syscall_wrapper). change (bool_decide (128 = 128)) with true. cbn iota.
    unfold syscall_desc. rewrite decode_entry by lia. done.
  - rewrite (bool_decide_false (v = 0x80)) by done. unfold exception_desc.
    destruct (decide (v <= 40)).
    + rewrite (bool_decide_true (v <= 40)) by done.
      destruct (handler_of v); [rewrite decode_entry by lia|rewrite decode_gate_word by lia]; done.
    + rewrite (bool_decide_false (v <= 40)) by done. unfold handler_of.
      rewrite !bool_decide_false by lia. done.
Qed.

Definition demo_linked : Linked.
Proof. refine {| address l := 0x400000 |}. lia. Defined.

Lemma idt_vectors_witness :
  exists idt, @idt_initialize demo_linked 0 0x1234 zero_idt = Ret tt idt /\ length idt = 256%nat /\
  forall v, 0 <= v < 256 -> exists g, load idt v = Some g /\
    user_may_call (decode_gate (gate_word g)) = bool_decide (v = 0x80) /\
    decode_gate (gate_word g)
    = match handler_of v with
      | Some l => Some (Gate (if bool_decide (v = 0x80) then 15 else 14) (if bool_decide (v = 0x80) then 3 else 0)
                          KERNEL_CS (@address demo_linked l))
      | None => if bool_decide (v <= 40) then Some (Gate 14 0 KERNEL_CS (0 + 65536 * 0x1234)) else None
      end.
Proof. apply (@idt_vectors demo_linked 0 0x1234); lia. Defined.

(** the segments after entry's assignments, as the processor reads them: the
    kernel's and the user's code and data segments are flat, of 4 GB, with privilege 0
    and 3, as the selectors' low bits say; the selectors of the task state segment and
    of the LDT name system segments of the right types, with the given base and limit. *)
Theorem gdt_segments ldt ldt_size tss tss_size :
  0 <= ldt < 2 ^ 32 -> 0 <= tss < 2 ^ 32 -> 0 <= ldt_size < 2 ^ 20 -> 0 <= tss_size < 2 ^ 20 ->
  exists gdt, gdt_setup ldt ldt_size tss tss_size gdt_init = Ret tt gdt /\
  let segment_of sel := load gdt (sel `div` 8) ≫= decode_segment in
  segment_of KERNEL_CS = Some (Segment 0 (2 ^ 32 - 1) 0 true 10) /\
  segment_of KERNEL_DS = Some (Segment 0 (2 ^ 32 - 1) 0 true 2) /\
  segment_of USER_CS = Some (Segment 0 (2 ^ 32 - 1) 3 true 10) /\
  segment_of USER_DS = Some (Segment 0 (2 ^ 32 - 1) 3 true 2) /\
  segment_of KERNEL_TSS = Some (Segment tss tss_size 0 false 9) /\
  segment_of KERNEL_LDT = Some (Segment ldt ldt_size 0 false 2).
Proof.
  intros Hl Ht Hls Hts. eexists. split; [reflexivity|]. cbv zeta.
  split; [vm_compute; reflexivity|]. split; [vm_compute; reflexivity|]. split; [vm_compute; reflexivity|].
  split; [vm_compute; reflexivity|].
  split; [change (KERNEL_TSS `div` 8) with 6|change (KERNEL_LDT `div` 8) with 7]; cbn [load mbind option_bind].
  - apply (seg_params_ok tss tss_size 9 0); lia.
  - apply (seg_params_ok ldt ldt_size 2 1); lia.
Qed.

Lemma gdt_segments_witness :
  exists gdt, gdt_setup 0x412340 31 0x412280 103 gdt_init = Ret tt gdt /\
  let segment_of sel := load gdt (sel `div` 8) ≫= decode_segment in
  segment_of KERNEL_CS = Some (Segment 0 (2 ^ 32 - 1) 0 true 10) /\
  segment_of KERNEL_DS = Some (Segment 0 (2 ^ 32 - 1) 0 true 2) /\
  segment_of USER_CS = Some (Segment 0 (2 ^ 32 - 1) 3 true 10) /\
  segment_of USER_DS = Some (Segment 0 (2 ^ 32 - 1) 3 true 2) /\
  segment_of KERNEL_TSS = Some (Segment 0x412280 103 0 false 9) /\
  segment_of KERNEL_LDT = Some (Segment 0x412340 31 0 false 2).
Proof. apply (gdt_segments 0x412340 31 0x412280 103); lia. Defined.
