(* ===== verification/Exceptions.v ===== *)
(** * Exceptions

    The exception handlers of [src/student-distrib/idt.c], which the assembly wrappers
    of [idt_linkage.S] call. *)
From S2P Require Import Kernel Terminal Keyboard Typing Descriptors.

(** ** The code *)

Section Code.
Context `{!Layout}.

(** What the handlers have in common. *)
Definition stop_with (msg : string) : M kernel unit :=
  on_screen clear ;; kprintf msg [] ;; hang.

Definition divide_by_zero : M kernel unit := stop_with "divide by zero exception
".
Definition debug : M kernel unit := stop_with " debug exceptiond
".
Definition nmi : M kernel unit := stop_with "non-maskable interrupt
".
Definition breakpoint : M kernel unit := stop_with "breakpoint exception
".
Definition overflow : M kernel unit := stop_with "overflow exception
".
Definition bound_range : M kernel unit := stop_with "bound range exception
".
Definition invalid_op : M kernel unit := stop_with "invalid opcode exception
".
Definition device_na : M kernel unit := stop_with "device not avaliable exception
".
Definition double_fault : M kernel unit := stop_with "double fault exception
".
Definition coprocessor_seg_overrun : M kernel unit := stop_with "coprocessor segmentation overrun exception
".
Definition invalid_tss : M kernel unit := stop_with "invalid task state segment exception
".
Definition seg_not_present : M kernel unit := stop_with "segment not present exception
".
Definition stack_seg_fault : M kernel unit := stop_with "stack segmentation fault 
".
Definition general_protection : M kernel unit := stop_with "general protection fault
".
Definition page_fault (cr2 : Z) : M kernel unit :=
  on_screen clear ;;
  kprintf "page fault 
" [] ;;
  kprintf "addr:%x
" [AInt cr2] ;;
  hang.
Definition reserved : M kernel unit := stop_with "reserved exception 
".
Definition math_fault : M kernel unit := stop_with "math fault
".
Definition alignment_check : M kernel unit := stop_with "alignment check
".
Definition machine_check : M kernel unit := stop_with "machine check
".
Definition floating_point : M kernel unit := stop_with "floating point excecption
".

(** The handler that the wrapper of an exception's vector calls; [cr2] is the address
    of a page fault. *)
Definition exception_handler (l : linkage) (cr2 : Z) : option (M kernel unit) :=
  match l with
  | divide_by_zero_linkage => Some divide_by_zero
  | debug_linkage => Some debug
  | nmi_linkage => Some nmi
  | breakpoint_linkage => Some breakpoint
  | overflow_linkage => Some overflow
  | bound_range_linkage => Some bound_range
  | invalid_op_linkage => Some invalid_op
  | device_na_linkage => Some device_na
  | double_fault_linkage => Some double_fault
  | coprocessor_seg_overrun_linkage => Some coprocessor_seg_overrun
  | invalid_tss_linkage => Some invalid_tss
  | seg_not_present_linkage => Some seg_not_present
  | stack_seg_fault_linkage => Some stack_seg_fault
  | general_protection_linkage => Some general_protection
  | page_fault_linkage => Some (page_fault cr2)
  | reserved_linkage => Some reserved
  | math_fault_linkage => Some math_fault
  | alignment_check_linkage => Some alignment_check
  | machine_check_linkage => Some machine_check
  | floating_point_linkage => Some floating_point
  | _ => None
  end.
End Code.

(** ** What they print *)

(** The message, without its line break. *)
Definition message (l : linkage) : string :=
  match l with
  | divide_by_zero_linkage => "divide by zero exception"
  | debug_linkage => " debug exceptiond"
  | nmi_linkage => "non-maskable interrupt"
  | breakpoint_linkage => "breakpoint exception"
  | overflow_linkage => "overflow exception"
  | bound_range_linkage => "bound range exception"
  | invalid_op_linkage => "invalid opcode exception"
  | device_na_linkage => "device not avaliable exception"
  | double_fault_linkage => "double fault exception"
  | coprocessor_seg_overrun_linkage => "coprocessor segmentation overrun exception"
  | invalid_tss_linkage => "invalid task state segment exception"
  | seg_not_present_linkage => "segment not present exception"
  | stack_seg_fault_linkage => "stack segmentation fault "
  | general_protection_linkage => "general protection fault"
  | page_fault_linkage => "page fault "
  | reserved_linkage => "reserved exception "
  | math_fault_linkage => "math fault"
  | alignment_check_linkage => "alignment check"
  | machine_check_linkage => "machine check"
  | floating_point_linkage => "floating point excecption"
  | _ => ""
  end.

(** A line of text on the abstract screen: putc's column wraps to the start of the same row,
    as it computes the carry into the row from the column it has already reduced; the line
    break goes to the next row. *)
Fixpoint row_cells (y x : Z) (body : list Z) : list (Z * Z) :=
  match body with
  | [] => []
  | c :: body' => (80 * y + x, c) :: row_cells y ((x + 1) `mod` 80) body'
  end.
Definition tty_line (body : list Z) (t : tty) : tty :=
  Tty (put_chars (row_cells (tty_y t) (tty_x t) body) (tty_text t)) 0 (tty_y t + 1).

Definition plain_text (l : list Z) : Prop := Forall (fun c => 32 <= c < 127 /\ c <> 37) l.

Lemma plain_bytes l : plain_text l -> bytes l.
Proof. intros H. eapply Forall_impl; [exact H|]. unfold byte. lia. Qed.

Lemma plain_check l :
  forallb (fun c => bool_decide (32 <= c < 127) && negb (bool_decide (c = 37))) l = true -> plain_text l.
Proof.
  intros H. apply Forall_forall. intros c Hc%list_elem_of_In. rewrite forallb_forall in H.
  specialize (H c Hc). rewrite andb_true_iff, negb_true_iff, bool_decide_eq_true, bool_decide_eq_false in H. lia.
Qed.

Lemma render_plain l : plain_text l -> render (l ++ [10]) Plain [] = Some (l ++ [10]).
Proof.
  induction 1 as [|c l [_ Hc] _ IH]; [done|]. cbn [app render]. rewrite bool_decide_false by done. by rewrite IH.
Qed.

(** Characters in a row of the screen, from any column on. *)
Lemma putcs_row body scr x y :
  Forall (fun c => 32 <= c < 127) body -> page_ok scr -> screen_x scr = x -> screen_y scr = y ->
  0 <= x < 80 -> 0 <= y < 25 ->
  wp (putcs body) (fun _ scr' =>
    page_ok scr' /\ screen_y scr' = y /\
    text (video scr') = put_chars (row_cells y x body) (text (video scr))) scr.
Proof.
  intros H. revert scr x. induction H as [|c body Hc _ IH]; intros scr x Hok Hx Hy Hxr Hyr.
  { cbn [putcs]. by wps. }
  cbn [putcs row_cells]. rewrite wp_bind, u8_small by (unfold byte; lia).
  eapply wp_mono; [apply (putc_text c x y); done || lia|].
  intros [] s1 (Hok1 & Hx1 & Hy1 & Htxt1 & _). rewrite u8_small in Htxt1 by (unfold byte; lia).
  eapply wp_mono; [apply (IH s1 ((x + 1) `mod` 80)); try done; by apply Z.mod_pos_bound|].
  intros [] s2 (Hok2 & Hy2 & Htxt2). rewrite Htxt1 in Htxt2. done.
Qed.

Lemma tty_print_line fmt f args body scr t :
  until0 fmt = Some f -> bytes f -> render f Plain args = Some (body ++ [10]) ->
  Forall (fun c => 32 <= c < 127) body -> shows scr t -> on_page t ->
  wp (printf fmt args) (fun b scr' => b = len f /\ shows scr' (tty_line body t)) scr.
Proof.
  intros Hf Hbf Hr Hb (Hok & _ & Htxt & Hx & Hy) [Hxr Hyr].
  assert (forall k : M screen Z, wp (putcs body ;; k) (fun b scr' => b = len f /\ shows scr' (tty_line body t)) scr
    -> k = (putcs [10] ;; mret (len f)) ->
    wp (printf fmt args) (fun b scr' => b = len f /\ shows scr' (tty_line body t)) scr) as Hpr.
  { intros k Hk ->. unfold wp in Hk |- *. unfold printf.
    rewrite (printf_loop_renders _ _ _ _ _ _ _ Hf Hbf Hr).
    revert Hk. unfold mbind, M_bind. rewrite putcs_app. unfold mbind, M_bind.
    by destruct (putcs body scr). }
  eapply Hpr; [|done]. rewrite wp_bind.
  eapply wp_mono; [by apply (putcs_row body scr _ _ Hb Hok Hx Hy)|].
  intros [] s1 (Hok1 & Hy1 & Htxt1). cbn [putcs]. change (u8 10) with 10.
  rewrite !wp_bind, wp_putc_newline by by left. wps.
  unfold shows, tty_ok, page_ok, tty_line. fields. cbn [tty_text tty_x tty_y].
  rewrite Hy1, Htxt1, Htxt. split_and!; try done; try lia; apply Hok1.
Qed.

Lemma numeral_printable w : Forall (fun c => 32 <= c < 127) (numeral 16 w).
Proof.
  unfold numeral. case_bool_decide; [repeat constructor; lia|].
  apply Forall_reverse, Forall_map. eapply Forall_impl; [apply digits_range; lia|].
  simpl. intros d ?. unfold digit_char. case_bool_decide; lia.
Qed.

Definition tty_clear (t : tty) : tty := Tty (replicate 2000 32) (tty_x t) (tty_y t).

Lemma display_only_trans n s s1 s2 : display_only n s s1 -> display_only n s1 s2 -> display_only n s s2.
Proof.
  intros (c1 & p1 & h1 & ->) (c2 & p2 & h2 & ->). exists c2, p2, h2.
  cbn [set_display k_frames]. by rewrite list_insert_insert_eq.
Qed.

Section Stopping.
Context `{HL : !Layout}.
Implicit Types (s : kernel) (t : tty) (n : Z).

Lemma clear_shows s n t :
  showing s n t -> on_page t ->
  exists s', on_screen clear s = Ret tt s' /\ showing s' n (tty_clear t) /\ display_only n s s'.
Proof.
  intros Hs [Hx Hy].
  enough (wp (on_screen clear) (fun _ s' => showing s' n (tty_clear t) /\ display_only n s s') s) as Hw.
  { by apply wp_unit in Hw as (s' & ? & ? & ?); exists s'. }
  apply (wp_on_tty clear tt t (tty_clear t) s n); [done| |done].
  intros scr ([Hl Hb] & _ & Htxt & Hsx & Hsy). apply wp_clear; [done|]. split; [done|].
  unfold shows, page_ok, tty_ok, tty_clear. fields. cbn [tty_text tty_x tty_y].
  split_and!; try done; try lia; [unfold clear_video; by rewrite page_map_length|by apply clear_bytes|by apply text_clear].
Qed.

Lemma kprintf_line s n t fmt args body :
  render (bytes_of_string fmt) Plain args = Some (body ++ [10]) -> Forall (fun c => c <> 0) (bytes_of_string fmt) ->
  Forall (fun c => 32 <= c < 127) body -> showing s n t -> on_page t ->
  exists s', kprintf fmt args s = Ret tt s' /\ showing s' n (tty_line body t) /\ display_only n s s'.
Proof.
  intros Hr Hnz Hb Hs Hp.
  enough (wp (kprintf fmt args) (fun _ s' => showing s' n (tty_line body t) /\ display_only n s s') s) as Hw.
  { by apply wp_unit in Hw as (s' & ? & ? & ?); exists s'. }
  unfold kprintf. rewrite wp_bind.
  apply (wp_on_tty _ (len (bytes_of_string fmt)) t (tty_line body t) s n); [done| |by intros].
  intros scr Hsh. eapply tty_print_line; try done; [by apply until0_app|apply bytes_of_string_bytes].
Qed.

Lemma stop_with_hangs s n t msg body :
  bytes_of_string msg = body ++ [10] -> plain_text body -> showing s n t -> on_page t ->
  exists s', stop_with msg s = Hang s' /\ showing s' n (tty_line body (tty_clear t)) /\ display_only n s s'.
Proof.
  intros Hm Hb Hs Hp. unfold stop_with. destruct (clear_shows s n t Hs Hp) as (s1 & Hrun1 & Hs1 & Hd1).
  rewrite (bind_Ret _ _ _ _ _ Hrun1).
  destruct (kprintf_line s1 n (tty_clear t) msg [] body) as (s2 & Hrun2 & Hs2 & Hd2); try done.
  - rewrite Hm. by apply render_plain.
  - rewrite Hm. apply Forall_app. split; [|by repeat constructor]. eapply Forall_impl; [exact Hb|]. cbn beta. lia.
  - eapply Forall_impl; [exact Hb|]. cbn beta. lia.
  - rewrite (bind_Ret _ _ _ _ _ Hrun2). exists s2. split; [done|]. split; [done|]. by eapply display_only_trans.
Qed.

(** The page fault's handler: two lines. *)
Lemma page_fault_hangs s n t cr2 :
  showing s n t -> on_page t -> tty_y t < 24 ->
  exists s', page_fault cr2 s = Hang s' /\
    showing s' n (tty_line (bytes_of_string "addr:" ++ numeral 16 (u32 cr2))
      (tty_line (bytes_of_string "page fault ") (tty_clear t))) /\ display_only n s s'.
Proof.
  intros Hs Hp Hy. unfold page_fault. destruct (clear_shows s n t Hs Hp) as (s1 & Hrun1 & Hs1 & Hd1).
  rewrite (bind_Ret _ _ _ _ _ Hrun1).
  destruct (kprintf_line s1 n (tty_clear t) "page fault 
" [] (bytes_of_string "page fault ")) as (s2 & Hrun2 & Hs2 & Hd2); try done.
  1-2: by apply (bool_decide_unpack _).
  rewrite (bind_Ret _ _ _ _ _ Hrun2).
  destruct (kprintf_line s2 n (tty_line (bytes_of_string "page fault ") (tty_clear t)) "addr:%x
" [AInt cr2] (bytes_of_string "addr:" ++ numeral 16 (u32 cr2))) as (s3 & Hrun3 & Hs3 & Hd3); try done.
  { by apply (bool_decide_unpack _). }
  { apply Forall_app. split; [by apply (bool_decide_unpack _)|apply numeral_printable]. }
  { destruct Hp. split; cbn; lia. }
  rewrite (bind_Ret _ _ _ _ _ Hrun3). exists s3. split; [done|]. split; [done|].
  eapply display_only_trans; [done|]. by eapply display_only_trans.
Qed.
End Stopping.

(** ** Properties *)

(** What the report of an exception leaves on the screen: the message, for a page fault
    the address in the next row. *)
Definition report (l : linkage) (cr2 : Z) (t : tty) : tty :=
  let t := tty_line (bytes_of_string (message l)) t in
  match l with
  | page_fault_linkage => tty_line (bytes_of_string "addr:" ++ numeral 16 (u32 cr2)) t
  | _ => t
  end.

(** C29: an exception stops the machine: from any screen with the software cursor on the page,
    the handler of every vector clears the screen, prints its message in the row of the cursor,
    which clear leaves where it was, and never returns. putc's column wraps to the start of the
    same row: from a late column the message's tail stands before its head. The page fault's
    handler prints the address in the next row too (stated when there is a next row). Nothing
    but the visible page, the cursor and the port history changes. *)
Theorem exceptions_stop `{!Layout} s n t v l cr2 :
  handler_of v = Some l -> 0 <= v < 20 ->
  showing s n t -> on_page t -> (v = 14 -> tty_y t < 24) ->
  exists h s', exception_handler l cr2 = Some h /\ h s = Hang s' /\
    showing s' n (report l cr2 (tty_clear t)) /\ display_only n s s'.
Proof.
  intros Hl Hv Hs Hp H14.
  destruct (decide (v = 14)) as [->|Hne].
  { injection Hl as <-. destruct (page_fault_hangs s n t cr2 Hs Hp (H14 eq_refl)) as (s' & ? & ? & ?).
    by eexists _, s'. }
  assert (forall msg, bytes_of_string msg = bytes_of_string (message l) ++ [10] ->
    exists s', stop_with msg s = Hang s' /\
      showing s' n (tty_line (bytes_of_string (message l)) (tty_clear t)) /\ display_only n s s') as Hstop.
  { intros msg Hm. apply (stop_with_hangs s n t msg); try done. apply plain_check. by destruct l. }
  unfold handler_of in Hl. rewrite bool_decide_true in Hl by lia.
  assert (v ∈ [0; 1; 2; 3; 4; 5; 6; 7; 8; 9; 10; 11; 12; 13; 15; 16; 17; 18; 19]) as Hin
    by (rewrite !elem_of_cons; lia).
  repeat (apply elem_of_cons in Hin as [->|Hin];
    [cbn in Hl; injection Hl as <-; eexists; edestruct Hstop as (s' & ? & ?);
      [|exists s'; split; [reflexivity|split; [eassumption|done]]]; reflexivity|]).
  by apply not_elem_of_nil in Hin.
Qed.

Lemma exceptions_stop_witness :
  exists h s', exception_handler double_fault_linkage 0 = Some h /\ h demo_console = Hang s' /\
    showing s' 0 (report double_fault_linkage 0 (tty_clear (tty_of demo_console blank_page))) /\
    display_only 0 demo_console s'.
Proof.
  apply (@exceptions_stop demo_layout demo_console 0 (tty_of demo_console blank_page) 8 double_fault_linkage 0);
    [reflexivity|lia|apply demo_editing|split; cbn; lia|intros [=]].
Defined.
