(* ===== verification/Interrupts.v ===== *)
(** * Interrupts

    irq0, irq1, irq8 and irq_handler of [src/student-distrib/i8259.c] and the assembly
    wrappers of [idt_linkage.S], which the gates of Descriptors.v point to; what typing
    at the keyboard gives the program that reads. *)
From S2P Require Import Kernel Terminal Scheduler Syscall Exec Keyboard Typing.

Definition KYBD_ADDR : Z := 0x60.

(** ** The code *)

Section Code.
Context `{!Layout} `{!Overread} `{!Device} (m : machine).

Definition irq1 : M kernel (control unit) :=
  scancode ← inb KYBD_ADDR;
  terminal_key_pressed m scancode.
Definition irq0 : M kernel (control unit) := switch_task.
Definition irq8 : M kernel (control unit) := zoom rtc_interrupt ;; mret (Returns tt).

Definition irq_functions : list (option (M kernel (control unit))) :=
  [Some irq0; Some irq1; None; None; None; None; None; None; Some irq8; None; None; None; None; None; None; None].

(** The end-of-interrupt is sent when the handler returns. *)
Definition irq_handler (irq_num : Z) : M kernel (control unit) :=
  handler ← lift (load irq_functions irq_num);
  c ← match handler with Some handler => handler | None => mret (Returns tt) end;
  match c with
  | Returns _ => zoom (send_eoi irq_num) ;; mret (Returns tt)
  | _ => mret c
  end.

(** The wrappers: [Returns] is the iret to the interrupted code. The keyboard's stores
    the stack registers, which are [esp] and [ebp] on entry. *)
Definition run_irq0_wrapper : M kernel (control unit) := irq_handler 0.
Definition run_irq1_wrapper (esp ebp : Z) : M kernel (control unit) :=
  modify (fun s => lset (Cpustate (tss_esp0 (k_cpu s)) (tss_ss0 (k_cpu s)) (s32 esp) (s32 ebp)) s) ;;
  irq_handler 1.
Definition run_irq8_wrapper : M kernel (control unit) := irq_handler 8.
End Code.

(** ** The keyboard's interrupts *)

(** The interrupt of the key [sc]: the keyboard answers with its scan code. *)
Definition key_interrupt `{!Layout} `{!Overread} (m : machine) (sc : Z) : M kernel unit :=
  _ ← @irq_handler _ _ (fun _ _ => sc) m 1; mret tt.

(** A key that neither ends the line nor switches the terminal. *)
Definition typing_key (sc : Z) : Prop :=
  0 <= sc < 256 /\ sc <> 0x1C /\ sc <> F1_released /\ sc <> F2_released /\ sc <> F3_released.

(** *** Sessions *)

Definition recheck (v : Z) (e : session) : session :=
  Session (with_check v (se_kbd e)) (se_line e) (se_tty e).

Lemma key_step_recheck v e sc : key_step (recheck v e) sc = recheck v (key_step e sc).
Proof.
  unfold key_step, recheck. cbn [se_kbd se_line se_tty].
  case_bool_decide; [done|]. unfold press. cbn [ctrl with_check].
  change (typed_char (with_check v (se_kbd e)) sc) with (typed_char (se_kbd e) sc).
  by repeat case_bool_decide.
Qed.

Lemma session_recheck v e scs : foldl key_step (recheck v e) scs = recheck v (foldl key_step e scs).
Proof. revert e. induction scs as [|sc scs IH]; intros e; [done|]. cbn [foldl]. by rewrite key_step_recheck, IH. Qed.

(** Only Enter puts a line break into the line. *)
Lemma key_step_no_break e sc : typing_key sc -> 10 ∉ se_line e -> 10 ∉ se_line (key_step e sc).
Proof.
  intros (Hsc & Hne & _) Hl. unfold key_step. case_bool_decide; [done|].
  assert (make_room sc (se_line e) = se_line e) as -> by (unfold make_room; by rewrite bool_decide_false).
  destruct (typed_char_facts (se_kbd e) sc ltac:(lia)) as (_ & _ & _ & H10). unfold press.
  repeat case_bool_decide; cbn [se_line]; try done; [|by apply not_elem_of_nil].
  unfold edit. repeat case_bool_decide; try done.
  - intros Hin. apply Hl. apply elem_of_take in Hin as (i & Hi & _). by eapply list_elem_of_lookup_2.
  - rewrite elem_of_app, list_elem_of_singleton. intros [?|E]; [done|]. by apply Hne, H10.
Qed.

Section Typing.
Context `{!Layout} `{!Overread} (m : machine).
Implicit Types (s : kernel) (n term : Z) (line : list Z).

(** Reading a port and acknowledging the interrupt leave all but the port history. *)
Definition port_only s s' : Prop := exists h : list ioev, s' = lset h s.

Lemma port_only_keyed s s' term n line t :
  editing s term n line t -> port_only s s' -> keyed s term n line t (k_kbd s) s'.
Proof.
  intros [? ? ? ?] (h & ->). split; [split; try done; by apply (showing_ext s)|]. by split.
Qed.

Lemma send_eoi_port_only i s : 0 <= i < 16 -> exists s', zoom (send_eoi i) s = Ret tt s' /\ port_only s s'.
Proof.
  intros Hi. destruct (send_eoi_spec (Pics (Chip 0 0 0 []) (Chip 0 0 0 [])) i (lget s) Hi) as (h & Hr & _).
  unfold zoom. rewrite Hr. eexists. split; [done|]. exists h. unfold set_io.
  destruct s as [? ? ? ? ? [? ?]]. reflexivity.
Qed.

Lemma typing_no_switch k sc : typing_key sc \/ sc = 0x1C -> 0 <= sc < 256 /\ no_switch k sc.
Proof. unfold no_switch, typing_key, F1_released, F2_released, F3_released. lia. Qed.

(** The keyboard's line, up to the end-of-interrupt. *)
Lemma keyboard_irq_step s term n line t sc :
  quiet -> editing s term n line t -> room line t -> 0 <= sc < 256 /\ no_switch (k_kbd s) sc ->
  let e := key_step (Session (k_kbd s) line t) sc in
  exists s', @irq_handler _ _ (fun _ _ => sc) m 1 s = Ret (Returns tt) s' /\
    editing s' term n (se_line e) (se_tty e) /\ room (se_line e) (se_tty e) /\
    typed n term s s' /\ exists v, k_kbd s' = with_check v (se_kbd e).
Proof.
  intros Hq He Hr [Hsc Hsw] e. unfold irq_handler, irq_functions.
  rewrite (bind_Ret (lift _) _ s (Some (@irq1 _ _ (fun _ _ => sc) m)) s) by done.
  unfold irq1. rewrite !bind_bind. unfold inb, device_read.
  set (s0 := lset (In KYBD_ADDR (u8 sc) :: k_io s) s).
  assert (port_only s s0) as Hp0 by by eexists.
  assert (keyed s term n line t (k_kbd s) s0) as (He0 & Hty0 & Hkb0) by by apply port_only_keyed.
  rewrite (bind_Ret _ _ s sc s0) by (transitivity (Ret (u8 sc) s0); [reflexivity|by rewrite u8_small]).
  pose proof (key_step_keyed m s0 term n line t sc Hq He0 Hr Hsc) as Hw. rewrite Hkb0 in Hw. specialize (Hw Hsw). fold e in Hw.
  apply wp_Ret in Hw as (r & s1 & Hrun & -> & He1 & Hr1 & Hty1 & v & Hkb1).
  rewrite (bind_Ret _ _ _ _ _ Hrun).
  destruct (send_eoi_port_only 1 s1 ltac:(lia)) as (s2 & Heoi & Hp2). rewrite (bind_Ret _ _ _ _ _ Heoi).
  destruct (port_only_keyed s1 s2 term n _ _ He1 Hp2) as (He2 & Hty2 & Hkb2).
  exists s2. split; [done|]. split; [done|]. split; [done|]. split.
  - etrans; [exact Hty0|]. by etrans.
  - exists v. by rewrite Hkb2.
Qed.

Lemma key_interrupt_step s term n line t sc :
  quiet -> editing s term n line t -> room line t -> 0 <= sc < 256 /\ no_switch (k_kbd s) sc ->
  let e := key_step (Session (k_kbd s) line t) sc in
  exists s', key_interrupt m sc s = Ret tt s' /\
    editing s' term n (se_line e) (se_tty e) /\ room (se_line e) (se_tty e) /\
    typed n term s s' /\ exists v, k_kbd s' = with_check v (se_kbd e).
Proof.
  intros Hq He Hr Hkey e. destruct (keyboard_irq_step s term n line t sc Hq He Hr Hkey) as (s' & Hrun & Hrest).
  exists s'. split; [|exact Hrest]. unfold key_interrupt. by rewrite (bind_Ret _ _ _ _ _ Hrun).
Qed.

(** *** Waiting for a line *)

Lemma not_entered s term n line t :
  editing s term n line t -> 10 ∉ line -> line_entered term s = false.
Proof.
  intros [_ (tm & Htm & Hl & Hi & <-) _ _] Hno. unfold line_entered. rewrite Htm.
  apply bool_decide_false. intros [Hne Hlast]. apply Hno, elem_of_take.
  apply load_inv in Hlast as [Hr Hlast]. exists (Z.to_nat (buffer_i tm - 1)). split; [done|lia].
Qed.

Lemma entered_line s term n line t :
  editing s term n (line ++ [10]) t -> line_entered term s = true.
Proof.
  intros [_ (tm & Htm & Hl & Hi & Hline) _ _]. unfold line_entered. rewrite Htm.
  apply bool_decide_true. assert (Z.to_nat (buffer_i tm) = S (length line)) as E.
  { apply (f_equal length) in Hline. rewrite length_take, length_app in Hline. simpl in Hline. lia. }
  split; [lia|]. rewrite load_nonneg by lia. replace (Z.to_nat (buffer_i tm - 1)) with (length line) by lia.
  assert ((line ++ [10]) !! length line = Some 10) as Hlast by (by rewrite lookup_app_r, Nat.sub_diag by lia).
  rewrite <-Hline in Hlast. rewrite lookup_take in Hlast. by case_decide.
Qed.

Lemma spin_false (cond : kernel -> bool) (e : M kernel unit) env s s' :
  cond s = false -> e s = Ret tt s' -> spin cond (e :: env) s = spin cond env s'.
Proof.
  intros Hc He. cbn [spin]. rewrite (bind_Ret get _ s s s) by done. rewrite Hc. by rewrite (bind_Ret _ _ _ _ _ He).
Qed.

Lemma typing_spin scs env s term n line t :
  quiet -> editing s term n line t -> room line t -> 10 ∉ line -> Forall typing_key scs ->
  let e := foldl key_step (Session (k_kbd s) line t) scs in
  exists s', spin (line_entered term) (map (key_interrupt m) scs ++ env) s = spin (line_entered term) env s' /\
    editing s' term n (se_line e) (se_tty e) /\ room (se_line e) (se_tty e) /\ (10 ∉ se_line e) /\
    typed n term s s' /\ exists v, k_kbd s' = with_check v (se_kbd e).
Proof.
  intros Hq He Hr Hno Hscs. revert s line t He Hr Hno. induction Hscs as [|sc scs Hsc _ IH]; intros s line t He Hr Hno.
  - exists s. split_and!; try done. exists (check_enter (k_kbd s)). cbn. by destruct (k_kbd s).
  - destruct (key_interrupt_step s term n line t sc Hq He Hr (typing_no_switch _ _ (or_introl Hsc))) as (s1 & Hrun & He1 & Hr1 & Hty1 & v & Hk1).
    cbn [map app]. rewrite (spin_false _ _ _ _ s1) by (done || by eapply not_entered).
    pose proof (key_step_no_break (Session (k_kbd s) line t) sc Hsc Hno) as Hno1.
    set (e1 := key_step (Session (k_kbd s) line t) sc) in *.
    destruct (IH s1 _ _ He1 Hr1 Hno1) as (s2 & Hspin & H2). exists s2. split; [done|].
    rewrite Hk1 in H2. change (Session (with_check v (se_kbd e1)) (se_line e1) (se_tty e1)) with (recheck v e1) in H2.
    rewrite session_recheck in H2. cbn [foldl]. fold e1. destruct H2 as (? & ? & ? & ? & w & Hw).
    split_and!; try done; [by transitivity s1|]. by exists w.
Qed.

Lemma enter_step e :
  ctrl (se_kbd e) = 0 -> shift (se_kbd e) = 0 -> (length (se_line e) <= 128)%nat ->
  se_line (key_step e 0x1C) = take 127 (se_line e) ++ [10].
Proof.
  intros Hc Hs Hl. unfold key_step, press. change (bool_decide (128 <= 28)) with false. cbn iota.
  rewrite bool_decide_true by done. cbn [se_line]. unfold make_room. change (bool_decide (28 = 28)) with true. cbn iota.
  assert (typed_char (se_kbd e) 28 = 10) as ->.
  { unfold typed_char. rewrite (bool_decide_false (shift _ <> 0)) by lia. reflexivity. }
  unfold edit. change (bool_decide (10 = 0)) with false. change (bool_decide (10 = 8)) with false. cbn iota.
  by rewrite bool_decide_true by (rewrite length_take; lia).
Qed.

(** *** Copying it *)

Lemma copy_line_spec (k : nat) i line buf :
  0 <= i -> i + Z.of_nat k <= len line -> i + Z.of_nat k <= len buf ->
  copy_line k i line buf
  = Some (take (Z.to_nat i) buf ++ take k (drop (Z.to_nat i) line) ++ drop (Z.to_nat i + k) buf).
Proof.
  revert i buf. induction k as [|k IH]; intros i buf Hi Hl Hb; cbn [copy_line].
  - rewrite Nat.add_0_r, take_0. cbn [app]. by rewrite take_drop.
  - destruct (load_Some line i) as [c Hc]; [lia|]. rewrite Hc. cbn [mbind option_bind].
    rewrite store_in by lia. cbn [mbind option_bind]. rewrite IH by (rewrite ?length_insert; lia).
    replace (Z.to_nat (i + 1)) with (S (Z.to_nat i)) by lia. pose proof (load_inv _ _ _ Hc) as [_ Hc'].
    rewrite (take_S_r _ _ c) by (apply list_lookup_insert_eq; lia). rewrite take_insert_ge, drop_insert_lt by lia.
    rewrite (drop_S line c (Z.to_nat i)) by done. cbn [take]. rewrite <-app_assoc. cbn [app].
    by rewrite Nat.add_succ_comm.
Qed.

Lemma keyboard_read_line s term n line t buf :
  editing s term n line t -> len line + 1 <= len buf ->
  exists s', keyboard_read buf s = Ret (len line, line ++ 0 :: drop (S (length line)) buf) s' /\
    editing s' term n [] t /\ typed n term s s' /\ k_kbd s' = k_kbd s.
Proof.
  intros He Hb. pose proof He as [Ho (tm & Htm & Hl & Hi & Hline) (page & Hcon & Hsh) Hp].
  assert (buffer_i tm = len line) as Hlen by (subst line; lens).
  unfold keyboard_read, get_old_terminal. rewrite (bind_Ret _ _ s term s) by (unfold gets; by rewrite Ho).
  rewrite (bind_Ret _ _ _ _ _ (get_terminal_eq _ _ _ Htm)).
  assert (copy_line (Z.to_nat (buffer_i tm)) 0 (line_buffer tm) buf
    = Some (line ++ drop (length line) buf)) as Hcopy.
  { rewrite copy_line_spec by lia. change (Z.to_nat 0) with 0%nat. rewrite take_0, drop_0, Hline.
    rewrite Hlen, Nat2Z.id. reflexivity. }
  rewrite Hcopy. rewrite (bind_Ret (lift _) _ s (line ++ drop (length line) buf) s) by done.
  assert (store (line ++ drop (length line) buf) (buffer_i tm) 0
    = Some (line ++ 0 :: drop (S (length line)) buf)) as Hstore.
  { destruct (lookup_lt_is_Some_2 buf (length line)) as [c Hc]; [lia|]. rewrite (drop_S buf c) by done.
    by apply store_middle. }
  rewrite Hstore. rewrite (bind_Ret (lift _) _ s (line ++ 0 :: drop (S (length line)) buf) s) by done.
  rewrite (bind_Ret get _ s s s) by done.
  assert (wp (on_screen (update_cursor (snd (k_cursor s)) (fst (k_cursor s))))
    (fun _ s' => keyed s term n line t (k_kbd s) s') s) as Hw.
  { apply (wp_screen_step s term n line t t); [done|done|]. intros scr Hs. rewrite wp_update_cursor.
    split; [done|]. exact Hs. }
  apply wp_unit in Hw as (s1 & Hrun1 & Hk1). rewrite (bind_Ret _ _ _ _ _ Hrun1). pose proof Hk1 as (He1 & _ & Hkb1).
  assert (wp (upd_terminal term (set_buffer_i 0)) (fun _ s' => keyed s1 term n [] t (k_kbd s1) s') s1) as Hw2.
  { eapply wp_upd_line with (line' := []); [exact He1| |done]. intros tm' _ ? _ _.
    cbn [set_buffer_i program_id line_buffer buffer_i]. by split_and!. }
  apply wp_unit in Hw2 as (s2 & Hrun2 & Hk2). rewrite (bind_Ret _ _ _ _ _ Hrun2).
  destruct (keyed_trans _ _ _ _ _ _ _ _ _ _ _ Hk1 Hk2) as (He2 & Hty2 & Hkb2).
  exists s2. rewrite s32_small, Hlen by lia. split; [done|]. split_and!; try done. by rewrite Hkb2.
Qed.
(** keyboard_read copies the line whatever the caller's buffer holds. *)
Lemma copy_line_overruns k i line buf :
  0 <= i -> (0 < k)%nat -> len buf < i + Z.of_nat k -> copy_line k i line buf = None.
Proof.
  revert i buf. induction k as [|k IH]; intros i buf Hi Hk Hlen; [lia|]. cbn [copy_line].
  destruct (load line i) as [c|]; [|done]. cbn [mbind option_bind].
  destruct (store buf i c) as [buf'|] eqn:Hs; [|done]. apply store_inv in Hs as (Hr & Hb'). cbn [mbind option_bind].
  apply IH; subst; lens.
Qed.
Lemma keyboard_read_overruns s term n line t buf :
  editing s term n line t -> len buf < len line + 1 -> keyboard_read buf s = Undef.
Proof.
  intros He Hb. pose proof He as [Ho (tm & Htm & Hl & Hi & Hline) _ _].
  assert (buffer_i tm = len line) as Hlen by (subst line; lens).
  unfold keyboard_read, get_old_terminal. rewrite (bind_Ret _ _ s term s) by (unfold gets; by rewrite Ho).
  rewrite (bind_Ret _ _ _ _ _ (get_terminal_eq _ _ _ Htm)).
  destruct (decide (len buf < len line)) as [Hlt|Hge].
  { rewrite copy_line_overruns by lia. done. }
  assert (copy_line (Z.to_nat (buffer_i tm)) 0 (line_buffer tm) buf = Some (line ++ drop (length line) buf)) as Hcopy.
  { rewrite copy_line_spec by lia. change (Z.to_nat 0) with 0%nat. rewrite take_0, drop_0, Hline.
    rewrite Hlen, Nat2Z.id. reflexivity. }
  rewrite Hcopy, (bind_Ret (lift _) _ s (line ++ drop (length line) buf) s) by done.
  unfold store. rewrite bool_decide_false by lens. done.
Qed.

(** terminal_read up to the copy: behind Enter the line is complete. *)
Lemma terminal_read_waits s pid term n line0 t scs env buf nbytes :
  quiet -> running s pid term -> editing s term n line0 t -> Forall typing_key scs ->
  let e := foldl key_step (Session (k_kbd s) [] t) scs in
  let line := take 127 (se_line e) in
  ctrl (se_kbd e) = 0 -> shift (se_kbd e) = 0 ->
  exists s', terminal_read (map (key_interrupt m) (scs ++ [0x1C]) ++ env) buf nbytes s
    = (r ← keyboard_read buf; mret (Some (fst r, snd r, env))) s' /\
    editing s' term n (line ++ [10]) (se_tty (key_step e 0x1C)) /\ typed n term s s' /\
    exists v, k_kbd s' = with_check v (se_kbd (key_step e 0x1C)).
Proof.
  intros Hq Hrun He Hscs e line Hctrl Hshift. destruct (running_find _ _ _ Hrun) as [Hpid Hterm].
  unfold terminal_read. rewrite (bind_Ret _ _ _ _ _ Hpid), (bind_Ret _ _ _ _ _ Hterm).
  assert (wp (upd_terminal term (set_buffer_i 0)) (fun _ s' => keyed s term n [] t (k_kbd s) s') s) as Hw.
  { eapply wp_upd_line with (line' := []); [exact He| |done]. intros tm' _ ? _ _.
    cbn [set_buffer_i program_id line_buffer buffer_i]. by split_and!. }
  apply wp_unit in Hw as (s0 & Hrun0 & He0 & Hty0 & Hkb0). rewrite (bind_Ret _ _ _ _ _ Hrun0).
  assert (room [] t) as Hr0 by (destruct (ed_page _ _ _ _ _ He); unfold room; simpl; lia).
  destruct (typing_spin scs (key_interrupt m 0x1C :: env) s0 term n [] t Hq He0 Hr0 ltac:(by apply not_elem_of_nil) Hscs)
    as (s1 & Hspin & He1 & Hr1 & Hno1 & Hty1 & v & Hkb1). rewrite Hkb0 in *. fold e in He1, Hr1, Hno1, Hkb1.
  rewrite map_app, <-app_assoc. cbn [map app].
  destruct (key_interrupt_step s1 term n _ _ 0x1C Hq He1 Hr1 (typing_no_switch _ _ (or_intror eq_refl)))
    as (s2 & Hrun2 & He2 & _ & Hty2 & v2 & Hkb2). rewrite Hkb1 in He2, Hkb2.
  change (Session (with_check v (se_kbd e)) (se_line e) (se_tty e)) with (recheck v e) in He2, Hkb2.
  rewrite key_step_recheck in He2, Hkb2. cbn [recheck se_line se_tty se_kbd] in He2, Hkb2.
  rewrite enter_step in He2 by (done || by eapply editing_length). fold line in He2.
  rewrite (bind_Ret _ _ s0 (Some env) s2).
  2: { rewrite Hspin, (spin_false _ _ _ _ s2) by (done || by eapply not_entered).
       destruct env; cbn [spin]; rewrite (bind_Ret get _ s2 s2 s2) by done;
         by rewrite (entered_line _ _ _ _ _ He2). }
  exists s2. split; [done|]. split; [done|]. split; [etrans; [exact Hty0|]; by etrans|]. by exists v2.
Qed.

Lemma terminal_read_line s pid term n line0 t scs env buf nbytes :
  quiet -> running s pid term -> editing s term n line0 t -> Forall typing_key scs ->
  let e := foldl key_step (Session (k_kbd s) [] t) scs in
  let line := take 127 (se_line e) in
  ctrl (se_kbd e) = 0 -> shift (se_kbd e) = 0 -> len line + 2 <= len buf ->
  exists s', terminal_read (map (key_interrupt m) (scs ++ [0x1C]) ++ env) buf nbytes s
    = Ret (Some (len line + 1, line ++ 10 :: 0 :: drop (length line + 2) buf, env)) s' /\
    editing s' term n [] (se_tty (key_step e 0x1C)) /\ typed n term s s' /\
    exists v, k_kbd s' = with_check v (se_kbd (key_step e 0x1C)).
Proof.
  intros Hq Hrun He Hscs e line Hctrl Hshift Hbuf.
  destruct (terminal_read_waits s pid term n line0 t scs env buf nbytes Hq Hrun He Hscs Hctrl Hshift)
    as (s2 & -> & He2 & Hty2 & v & Hkb2). fold e line in He2, Hkb2.
  destruct (keyboard_read_line _ _ _ _ _ buf He2) as (s3 & Hrun3 & He3 & Hty3 & Hkb3); [lens|].
  rewrite (bind_Ret _ _ _ _ _ Hrun3). exists s3. split.
  - unfold mret, M_ret. cbn [fst snd]. rewrite length_app, <-app_assoc. cbn [app length].
    repeat f_equal; lia.
  - split; [done|]. split; [by etrans|]. exists v. by rewrite Hkb3.
Qed.
End Typing.

(** ** Properties *)

(** C11: what is typed is what terminal_read delivers, without regard to the buffer's size. While the program waits in terminal_read on the visible terminal, the keyboard
    interrupts of any keys except Enter and the releases of F1, F2 and F3 (which switch the
    terminal when alt is held) arrive, and then Enter with neither ctrl nor shift held. If the
    buffer holds the line, its line break and a NUL, terminal_read returns behind Enter with
    the session's line, the line break and the NUL, the rest of the buffer as it was, whatever
    the byte count asked for; at most 127 characters precede the line break, what was in the
    line buffer before the call is gone, and the line is empty for the next call. If the buffer
    is shorter, the copy runs over its end. *)
Theorem terminal_read_typed_line `{!Layout} `{!Overread} m s pid term n line0 t scs env buf nbytes :
  quiet -> running s pid term -> editing s term n line0 t -> Forall typing_key scs ->
  let e := foldl key_step (Session (k_kbd s) [] t) scs in
  let line := take 127 (se_line e) in
  let call := terminal_read (map (key_interrupt m) (scs ++ [0x1C]) ++ env) buf nbytes in
  ctrl (se_kbd e) = 0 -> shift (se_kbd e) = 0 ->
  (len line + 2 <= len buf -> exists s',
    call s = Ret (Some (len line + 1, line ++ 10 :: 0 :: drop (length line + 2) buf, env)) s' /\
    editing s' term n [] (se_tty (key_step e 0x1C)) /\ typed n term s s') /\
  (len buf < len line + 2 -> call s = Undef).
Proof.
  intros Hq Hrun He Hscs e line call Hctrl Hshift. split; intros Hbuf.
  - destruct (terminal_read_line m s pid term n line0 t scs env buf nbytes) as (s' & ? & ? & ? & _); try done.
    by exists s'.
  - destruct (terminal_read_waits m s pid term n line0 t scs env buf nbytes Hq Hrun He Hscs Hctrl Hshift)
      as (s2 & Hcall & He2 & _). unfold call. rewrite Hcall. unfold mbind, M_bind.
    rewrite (keyboard_read_overruns _ _ _ _ _ _ He2); [done|]. fold e line. lens.
Qed.

Lemma terminal_read_typed_line_witness :
  let scs := [0x26; 0xA6; 0x1F] in
  let e := foldl key_step (Session (k_kbd demo_console) [] (tty_of demo_console blank_page)) scs in
  let line := take 127 (se_line e) in
  let call buf := terminal_read (map (@key_interrupt demo_layout demo_overread demo_machine) (scs ++ [0x1C]) ++ []) buf 10 in
  line = bytes_of_string "ls" /\
  (exists s', call (replicate 10 7) demo_console
    = Ret (Some (len line + 1, line ++ 10 :: 0 :: drop (length line + 2) (replicate 10 7), [])) s' /\
    editing s' 0 0 [] (se_tty (key_step e 0x1C)) /\ typed 0 0 demo_console s') /\
  call (replicate 3 7) demo_console = Undef.
Proof.
  split; [vm_compute; reflexivity|].
  pose proof (fun buf => @terminal_read_typed_line demo_layout demo_overread demo_machine demo_console 1 0 0 []
    (tty_of demo_console blank_page) [0x26; 0xA6; 0x1F] [] buf 10 demo_quiet demo_running demo_editing) as H.
  split.
  - apply (H (replicate 10 7)); [|vm_compute; reflexivity|vm_compute; reflexivity|vm_compute; discriminate].
    repeat constructor; discriminate.
  - apply (H (replicate 3 7)); [|vm_compute; reflexivity|vm_compute; reflexivity|vm_compute; reflexivity].
    repeat constructor; discriminate.
Defined.

(** The line is not in service any more; the slave's lines are cascaded through the
    master's line 2. *)
Definition acknowledged (p : pics) (i : Z) : Prop :=
  if bool_decide (i < 8) then i ∉ in_service (chip1 p)
  else (i - 8 ∉ in_service (chip2 p)) /\ (2 ∉ in_service (chip1 p)).

Lemma send_eoi_acknowledged p0 i s s' :
  0 <= i < 16 -> zoom (send_eoi i) s = Ret tt s' -> acknowledged (pics_after p0 (k_io s')) i.
Proof.
  intros Hi Hrun. destruct (send_eoi_spec p0 i (lget s) Hi) as (h & Hr & _ & _ & H1 & H2).
  unfold zoom in Hrun. rewrite Hr in Hrun. injection Hrun as <-.
  cbn [k_io]. unfold acknowledged. rewrite H1, H2.
  case_bool_decide; rewrite !list_elem_of_filter; tauto.
Qed.

(** every interrupt is acknowledged: when irq_handler returns to the interrupted
    code, or the timer's handler switches to another task instead, the line (for the
    clock's line 8 also the cascade line 2) is not in service in the interrupt
    controllers, so that its next interrupt can come; this holds for the lines without
    a handler as well. *)
Theorem irq_acknowledged `{!Layout} `{!Overread} `{!Device} m i s c s' p0 :
  0 <= i < 16 -> irq_handler m i s = Ret c s' -> c = Returns tt \/ i = 0 ->
  acknowledged (pics_after p0 (k_io s')) i.
Proof.
  intros Hi Hrun Hc. unfold irq_handler in Hrun.
  apply bind_inv in Hrun as (h & s1 & Hl & Hrun). apply bind_inv in Hrun as (c1 & s2 & Hh & Hrun).
  assert (c1 = Returns tt \/ c1 = c /\ s2 = s' /\ c <> Returns tt) as [-> | (-> & -> & Hne)].
  { destruct c1 as [[]| | |]; [by left|right..]; injection Hrun as <- <-; done. }
  - apply bind_inv in Hrun as ([] & s3 & Heoi & Hrun). injection Hrun as <- <-. by eapply send_eoi_acknowledged.
  - destruct Hc as [-> | ->]; [done|]. unfold lift in Hl. injection Hl as <- <-. unfold irq0, switch_task in Hh.
    apply bind_inv in Hh as (s1 & ? & [= <- <-] & Hh). apply bind_inv in Hh as (found & s3 & _ & Hh).
    destruct found as [idx|].
    2: { apply bind_inv in Hh as ([] & s4 & _ & Hh). by injection Hh as <- _. }
    destruct (bool_decide _).
    { apply bind_inv in Hh as ([] & s4 & _ & Hh). by injection Hh as <- _. }
    do 7 apply bind_inv in Hh as (? & ? & _ & Hh). apply bind_inv in Hh as ([] & s4 & Heoi & Hh).
    injection Hh as _ <-. by eapply send_eoi_acknowledged.
Qed.

Lemma irq_acknowledged_witness :
  exists s', @irq_handler demo_layout demo_overread (fun _ _ => 0) demo_machine 8 demo_console = Ret (Returns tt) s' /\
    k_rtc s' = 1 /\
    acknowledged (pics_after (Pics (Chip 0 32 0 [2]) (Chip 0 40 0 [0])) (k_io s')) 8.
Proof.
  eexists. split; [reflexivity|]. split; [reflexivity|].
  apply (@irq_acknowledged demo_layout demo_overread (fun _ _ => 0) demo_machine 8 demo_console (Returns tt) _
    (Pics (Chip 0 32 0 [2]) (Chip 0 40 0 [0]))); [lia|reflexivity|by left].
Defined.
