(* ===== verification/Dispatch.v ===== *)
(** * The system call interrupt

    syscall_wrapper of [src/student-distrib/idt_linkage.S]: the dispatch from the
    registers to the system calls of Syscall.v and Exec.v, and what a call does to the
    memory of the program that made it. *)
From S2P Require Import Kernel Terminal Scheduler Syscall Exec Process Keyboard Typing.

(** ** The code *)

Section Code.
Context `{!Layout} `{!Device} (m : machine).

(** The object that a pointer of the program designates: the bytes from there to the
    end of the program's page. The kernel checks no pointer and works on what any other one
    designates, its own variables included; these have no addresses in the model, so any other
    pointer gives an empty object here and an access through it is undefined. What is proved
    about calls asks for pointers into the program's page. *)
Definition user_object (va : Z) : M kernel (list Z) :=
  s ← get;
  match translate (k_paging s) false true va ≫= program_at with
  | Some (t, off) => mret ((fun i => k_programs s t (off + i)) <$> seqZ 0 (0x400000 - off))
  | None => mret []
  end.
Definition store_user (va : Z) (l : list Z) : M kernel unit :=
  match l with [] => mret tt | _ => put_program va l end.

(** The registers hold the number of the call and its arguments; the result goes to
    EAX. [None]: the call is still waiting when the interrupts [env] are used up. *)
Definition run_syscall_wrapper (env : list (M kernel unit)) (eax ebx ecx edx : Z) :
    M kernel (option (control Z)) :=
  let n := s32 eax in
  if bool_decide (n < 1) || bool_decide (8 < n) then mret (Some (Returns (-1)))
  else if bool_decide (n = 1) then c ← halt ebx; mret (Some c)
  else if bool_decide (n = 2) then
    (if bool_decide (u32 ebx = 0) then c ← execute None (m_stack m) (m_esp m) (m_ebp m); mret (Some c)
     else
       command ← user_object (u32 ebx);
       c ← execute (Some command) (m_stack m) (m_esp m) (m_ebp m);
       mret (Some c))
  else if bool_decide (n = 3) then
    buf ← user_object (u32 ecx);
    r ← read env (s32 ebx) buf (s32 edx);
    match r with
    | None => mret None
    | Some (v, buf', _) => store_user (u32 ecx) buf' ;; mret (Some (Returns v))
    end
  else if bool_decide (n = 4) then
    buf ← user_object (u32 ecx);
    v ← write (s32 ebx) buf (s32 edx);
    mret (Some (Returns v))
  else if bool_decide (n = 5) then
    filename ← user_object (u32 ebx);
    v ← open filename;
    mret (Some (Returns v))
  else if bool_decide (n = 6) then v ← close (s32 ebx); mret (Some (Returns v))
  else if bool_decide (n = 7) then
    buf ← user_object (u32 ebx);
    r ← getargs buf (s32 ecx);
    store_user (u32 ebx) (snd r) ;;
    mret (Some (Returns (fst r)))
  else v ← vidmap (u32 ebx); mret (Some (Returns v)).

(** A program stores a byte at a linear address, if its page tables let it. *)
Definition user_store (va v : Z) : M kernel unit :=
  s ← get;
  pa ← lift (translate (k_paging s) true true va);
  match program_at pa with
  | Some (t, off) =>
      modify (set_programs (fun u i => if bool_decide (u = t /\ i = off) then u8 v else k_programs s u i))
  | None => n ← lift (frame_number (pa - pa `mod` 4096)); put_frame n (pa `mod` 4096) (u8 v)
  end.
End Code.

(** ** Rules *)

Section Rules.
Context `{!Layout} `{!Device}.

Lemma user_at t frame s wr va :
  maps (k_paging s) t frame -> cr3 (k_paging s) = dir_addr t -> 1 <= t <= 6 ->
  0x8000000 <= va < 0x8400000 ->
  translate (k_paging s) false wr va ≫= program_at = Some (t, va - 0x8000000).
Proof.
  intros Hm Hc Ht Hva. rewrite (translate_task _ t frame) by (done || lia).
  unfold task_space, program_at, program_frame. rewrite bool_decide_true by lia. cbn [mbind option_bind].
  set (pa := 0x800000 + (t - 1) * 0x400000 + (va - 0x8000000)).
  assert ((pa - 0x400000) `div` 0x400000 = t) as ->.
  { symmetry. apply Z.div_unique with (va - 0x8000000); lia. }
  assert (pa `mod` 0x400000 = va - 0x8000000) as ->.
  { symmetry. apply Z.mod_unique with (t + 1); lia. }
  by rewrite bool_decide_true by lia.
Qed.

(** The object behind a pointer into the program's page. *)
Definition user_bytes (s : kernel) (t off : Z) : list Z :=
  (fun i => k_programs s t (off + i)) <$> seqZ 0 (0x400000 - off).

Lemma user_object_eq t frame s va :
  maps (k_paging s) t frame -> cr3 (k_paging s) = dir_addr t -> 1 <= t <= 6 ->
  0x8000000 <= va < 0x8400000 ->
  user_object va s = Ret (user_bytes s t (va - 0x8000000)) s.
Proof.
  intros Hm Hc Ht Hva. unfold user_object, mbind at 1, M_bind at 1, get at 1.
  by rewrite (user_at t frame).
Qed.

Lemma user_bytes_length s t off : 0 <= off <= 0x400000 -> len (user_bytes s t off) = 0x400000 - off.
Proof. intros. unfold user_bytes. rewrite length_fmap, length_seqZ. lia. Qed.

(** Storing an object whose tail is as it was. *)
Lemma store_user_eq t frame s va l :
  maps (k_paging s) t frame -> cr3 (k_paging s) = dir_addr t -> 1 <= t <= 6 ->
  0x8000000 <= va < 0x8400000 -> len l <= 0x8400000 - va -> l <> [] ->
  store_user va l s = Ret tt (set_programs (programs_with t (va - 0x8000000) l (k_programs s)) s).
Proof.
  intros Hm Hc Ht Hva Hl Hne. unfold store_user. destruct l as [|c l]; [done|].
  apply put_program_eq; [by apply (user_at t frame)|lia].
Qed.

Lemma programs_with_tail t off l (n : nat) s u j :
  0 <= off -> len (l ++ drop n (user_bytes s t off)) <= 0x400000 - off -> length l = n ->
  programs_with t off (l ++ drop n (user_bytes s t off)) (k_programs s) u j
  = programs_with t off l (k_programs s) u j.
Proof.
  intros Ho Hl Hn. unfold programs_with. rewrite length_app, length_drop in *.
  destruct (decide (u = t /\ off <= j < off + len l)) as [Hin|Hin].
  - rewrite !bool_decide_true by lia. by rewrite load_app_l by lia.
  - rewrite (bool_decide_false (u = t /\ off <= j < off + len l)) by done.
    case_bool_decide as Hin2; [|done]. destruct Hin2 as [-> Hj].
    pose proof (user_bytes_length s t off). rewrite load_app_r, load_drop by lia.
    unfold user_bytes. rewrite load_nonneg, list_lookup_fmap by lia.
    assert (seqZ 0 (0x400000 - off) !! Z.to_nat (j - off - len l + Z.of_nat n) = Some (j - off)) as ->.
    { rewrite lookup_seqZ. lia. }
    cbn. f_equal. lia.
Qed.
End Rules.

(** *** The calls *)

Section Calls.
Context `{!Layout} `{!Device} (m : machine) (env : list (M kernel unit)) (ebx ecx edx : Z).

Lemma wrapper_read :
  run_syscall_wrapper m env 3 ebx ecx edx
  = (buf ← user_object (u32 ecx);
     r ← read env (s32 ebx) buf (s32 edx);
     match r with
     | None => mret None
     | Some (v, buf', _) => store_user (u32 ecx) buf' ;; mret (Some (Returns v))
     end).
Proof. reflexivity. Qed.

Lemma wrapper_getargs :
  run_syscall_wrapper m env 7 ebx ecx edx
  = (buf ← user_object (u32 ebx);
     r ← getargs buf (s32 ecx);
     store_user (u32 ebx) (snd r) ;;
     mret (Some (Returns (fst r)))).
Proof. reflexivity. Qed.

Lemma wrapper_vidmap :
  run_syscall_wrapper m env 8 ebx ecx edx = (v ← vidmap (u32 ebx); mret (Some (Returns v))).
Proof. reflexivity. Qed.
End Calls.

(** ** Properties *)

(** A program that runs in process [pid], with its own page mapped. *)
Record program `{!Layout} (s : kernel) (pid frame : Z) : Prop := {
  pg_process : process s pid;
  pg_maps : maps (k_paging s) pid frame;
}.

(** int 0x80 with a number that is no system call (EAX, signed, below 1 or above 8)
    returns -1 and changes nothing. *)
Theorem syscall_rejects `{!Layout} `{!Device} m env s eax ebx ecx edx :
  s32 eax < 1 \/ 8 < s32 eax ->
  run_syscall_wrapper m env eax ebx ecx edx s = Ret (Some (Returns (-1))) s.
Proof.
  intros Hn. unfold run_syscall_wrapper. destruct Hn.
  - by rewrite bool_decide_true.
  - by rewrite (bool_decide_true (8 < s32 eax)), orb_true_r.
Qed.

(** C21: a read system call from a program, through the wrapper, on a descriptor that is
    open on a file: the result is the number of bytes up to the end of the file; exactly
    these bytes of the file's contents, from the descriptor's position on, are stored in
    the program's memory at its buffer, not a byte elsewhere in any program's memory; and
    the position moves behind them. *)
Theorem syscall_read_file `{!Layout} `{!Device} img n N D m env s pid frame i f ino L va count :
  wf_image img n N D -> program s pid frame -> file_open s pid i f img ino L ->
  2 <= i < 8 -> 0 <= ino < N -> 0 < count -> 0x8000000 <= va -> va + count <= 0x8400000 ->
  let k := Z.min count (L - filePosition f) in
  let chunk := take (Z.to_nat k) (drop (Z.to_nat (filePosition f)) (file_contents img ino)) in
  exists s', run_syscall_wrapper m env 3 i va count s = Ret (Some (Returns k)) s' /\
    len chunk = k /\
    (forall u j, k_programs s' u j = programs_with pid (va - 0x8000000) chunk (k_programs s) u j) /\
    fd_of s' pid i = Some (set_filePosition (filePosition f + k) f).
Proof.
  intros Hwf [Hp Hm] Hfo Hi Hino Hc Hva Hend k chunk.
  pose proof (pr_cr3 _ _ Hp) as Hcr. pose proof (pr_pid _ _ Hp) as Hpid. set (off := va - 0x8000000).
  assert (len (user_bytes s pid off) = 0x400000 - off) as Hub by (apply user_bytes_length; lia).
  pose proof (fo_length _ _ _ _ _ _ _ Hfo) as HL. pose proof (fo_position _ _ _ _ _ _ _ Hfo) as Hpos.
  pose proof (file_contents_length _ _ _ HL ltac:(lia)) as Hcl.
  assert (len chunk = k) as Hk by (unfold chunk, k; lens).
  rewrite wrapper_read, (s32_small i), (s32_small count), (u32_small va) by lia.
  rewrite (bind_Ret _ _ _ _ _ (user_object_eq pid frame s va Hm Hcr Hpid ltac:(lia))). fold off.
  rewrite (bind_Ret _ _ _ _ _ (read_eq _ _ _ _ Hwf env s pid i f ino L (user_bytes s pid off) count Hp Hfo Hi Hino ltac:(lia) ltac:(lia))).
  fold k chunk. set (s1 := altered_fd _ _ _ _). set (out := chunk ++ _).
  assert (len out = 0x400000 - off) as Hout by (unfold out; lens).
  rewrite (bind_Ret _ _ _ _ _ (store_user_eq pid frame s1 va out Hm Hcr Hpid ltac:(lia) ltac:(lia)
    ltac:(intros E; rewrite E in Hout; simpl in Hout; lia))).
  eexists. split; [reflexivity|]. split; [done|]. split.
  - intros u j. unfold out. apply (programs_with_tail pid off chunk (Z.to_nat k) s); [lia| |lia].
    fold out. lia.
  - unfold s1. change (fd_of (set_programs ?f ?s2) pid i) with (fd_of s2 pid i).
    rewrite fd_of_altered, (fo_fd _ _ _ _ _ _ _ Hfo). reflexivity.
Qed.

(** The file hello open as descriptor 3, at position 4094. *)
Definition demo_opened : kernel :=
  altered_fd 1 3 (fun _ => FileDesc (pad_to 32 (bytes_of_string "hello")) 0 4094 1 FileOps) demo_proc.

Lemma demo_name_bytes : bytes (pad_to 32 (bytes_of_string "hello")).
Proof.
  change (bytes (bytes_of_string "hello" ++ replicate 27 0)). apply Forall_app.
  split; [apply bytes_of_string_bytes|]. apply Forall_replicate. unfold byte. lia.
Qed.

Lemma demo_program : program demo_opened 1 VIDEO_MEM.
Proof.
  split.
  - apply process_altered_fd; [|exact demo_process]. intros f _. split; [done|].
    apply demo_name_bytes.
  - split; [reflexivity|]. intros i Hi. split; reflexivity.
Qed.

Lemma demo_file_open :
  file_open demo_opened 1 3 (FileDesc (pad_to 32 (bytes_of_string "hello")) 0 4094 1 FileOps) demo_image 0 4100.
Proof.
  split; try done.
  exists (bytes_of_string "hello"), 1, (Dentry (pad_to 32 (bytes_of_string "hello")) 2 0 (replicate 24 0)).
  split_and!; try reflexivity; [|simpl; lia].
  apply demo_name_bytes.
Qed.

Lemma syscall_read_file_witness :
  let k := Z.min 100 (4100 - 4094) in
  let chunk := take (Z.to_nat k) (drop (Z.to_nat 4094) (file_contents demo_image 0)) in
  exists s', @run_syscall_wrapper demo_layout demo_device demo_machine [] 3 3 0x8050000 100 demo_opened
    = Ret (Some (Returns k)) s' /\
    len chunk = k /\
    (forall u j, k_programs s' u j
       = programs_with 1 (0x8050000 - 0x8000000) chunk (k_programs demo_opened) u j) /\
    fd_of s' 1 3
    = Some (set_filePosition (4094 + k) (FileDesc (pad_to 32 (bytes_of_string "hello")) 0 4094 1 FileOps)).
Proof.
  apply (@syscall_read_file demo_layout demo_device demo_image 4 2 3 demo_machine [] demo_opened 1
    VIDEO_MEM 3 (FileDesc (pad_to 32 (bytes_of_string "hello")) 0 4094 1 FileOps) 0 4100 0x8050000 100
    demo_image_wf demo_program demo_file_open); lia.
Defined.

Lemma syscall_rejects_witness :
  @run_syscall_wrapper demo_layout demo_device demo_machine [] 0xFFFFFFFF 0 0 0 demo_opened
  = Ret (Some (Returns (-1))) demo_opened.
Proof.
  apply (@syscall_rejects demo_layout demo_device demo_machine [] demo_opened). left.
  change (s32 0xFFFFFFFF) with (-1). lia.
Defined.

(** the arguments that a program was started with come back through getargs: when
    the buffer is long enough for the string and its NUL, they are stored at the
    program's buffer, and nothing else in any program's memory changes; otherwise the
    call returns -1 and stores nothing. *)
Theorem syscall_getargs `{!Layout} `{!Device} m env s pid frame p arg va count :
  program s pid frame -> load (pcbs (k_procs s)) (pid - 1) = Some p -> until0 (argument p) = Some arg ->
  0x8000000 <= va -> va + len arg + 1 <= 0x8400000 -> -2147483648 <= count < 2147483648 ->
  exists s', run_syscall_wrapper m env 7 va count 0 s
    = Ret (Some (Returns (if bool_decide (len arg < count) then 0 else -1))) s' /\
    forall u j, k_programs s' u j
      = (if bool_decide (len arg < count) then programs_with pid (va - 0x8000000) (arg ++ [0]) (k_programs s)
         else k_programs s) u j.
Proof.
  intros [Hp Hm] Hpcb Harg Hva Hend Hc. pose proof (pr_cr3 _ _ Hp) as Hcr. pose proof (pr_pid _ _ Hp) as Hpid.
  set (off := va - 0x8000000).
  assert (len (user_bytes s pid off) = 0x400000 - off) as Hub by (apply user_bytes_length; lia).
  rewrite wrapper_getargs, (s32_small count), (u32_small va) by lia.
  rewrite (bind_Ret _ _ _ _ _ (user_object_eq pid frame s va Hm Hcr Hpid ltac:(lia))). fold off.
  pose proof (process_pcb _ _ Hp) as (p' & Hp' & _ & Hla & _). assert (p' = p) as -> by congruence.
  pose proof (until0_length _ _ Harg) as Hal.
  unfold getargs. rewrite bind_bind, (bind_Ret _ _ _ _ _ (process_find _ _ Hp)).
  rewrite bind_bind, (bind_Ret _ _ _ _ _ (get_pcb_eq _ _ _ Hpcb)), (strlen_Some _ _ Harg), bind_bind.
  rewrite (bind_Ret (lift (Some (len arg))) _ s (len arg) s) by done. rewrite s32_small by lia.
  destruct (decide (len arg < count)) as [Hfit|Hfit].
  - rewrite (bool_decide_true (len arg < count)), bool_decide_false by lia.
    rewrite (strcpy_fits _ _ _ Harg) by lia. rewrite bind_bind.
    set (out := arg ++ 0 :: _). rewrite (bind_Ret (lift (Some out)) _ s out s) by done.
    rewrite (bind_Ret (mret (0, out)) _ s (0, out) s) by done. cbn [fst snd].
    assert (out = (arg ++ [0]) ++ drop (S (length arg)) (user_bytes s pid off)) as Eo
      by (unfold out; by rewrite <-app_assoc).
    assert (len out = 0x400000 - off) as Hout by (rewrite Eo; lens).
    rewrite (bind_Ret _ _ _ _ _ (store_user_eq pid frame s va out Hm Hcr Hpid ltac:(lia) ltac:(lia)
      ltac:(intros E; rewrite E in Hout; simpl in Hout; lia))).
    eexists. split; [reflexivity|]. intros u j. cbn [k_programs set_programs]. fold off. rewrite Eo in *.
    apply programs_with_tail; [lia|lia|lens].
  - rewrite (bool_decide_false (len arg < count)), bool_decide_true by lia.
    rewrite (bind_Ret (mret (-1, user_bytes s pid off)) _ s (-1, user_bytes s pid off) s) by done. cbn [fst snd].
    rewrite (bind_Ret _ _ _ _ _ (store_user_eq pid frame s va (user_bytes s pid off) Hm Hcr Hpid ltac:(lia) ltac:(lia)
      ltac:(intros E; rewrite E in Hub; simpl in Hub; lia))).
    eexists. split; [reflexivity|]. intros u j. cbn [k_programs set_programs]. fold off.
    pose proof (programs_with_tail pid off [] 0 s u j) as Ht. rewrite drop_0 in Ht. cbn [app] in Ht.
    rewrite Ht by (done || lia). unfold programs_with. rewrite bool_decide_false; [done|simpl; lia].
Qed.

Lemma syscall_getargs_witness :
  exists s', @run_syscall_wrapper demo_layout demo_device demo_machine [] 7 0x8050000 5 0 demo_opened
    = Ret (Some (Returns (if bool_decide (len (bytes_of_string "-n 3") < 5) then 0 else -1))) s' /\
    forall u j, k_programs s' u j
      = (if bool_decide (len (bytes_of_string "-n 3") < 5)
         then programs_with 1 (0x8050000 - 0x8000000) (bytes_of_string "-n 3" ++ [0]) (k_programs demo_opened)
         else k_programs demo_opened) u j.
Proof.
  eapply (@syscall_getargs demo_layout demo_device demo_machine [] demo_opened 1 VIDEO_MEM);
    [exact demo_program|reflexivity|reflexivity|lia|simpl; lia|lia].
Defined.

(** C34: vidmap gives the program the text page of its terminal: the address 0xB8000 is
    returned and stored, low byte first, at the program's pointer, nothing else changes
    in any program's memory, and at that address the program's own accesses, reads and
    writes, reach the page that its VIDEO page is mapped to. The pointers 0 and
    0x400000 are refused. *)
Theorem syscall_vidmap `{!Layout} `{!Device} m env s pid frame va :
  program s pid frame ->
  (0x8000000 <= va -> va + 4 <= 0x8400000 ->
   exists s', run_syscall_wrapper m env 8 va 0 0 s = Ret (Some (Returns VIDEO_MEM)) s' /\
     k_programs s' = programs_with pid (va - 0x8000000) [0x00; 0x80; 0x0B; 0x00] (k_programs s) /\
     forall wr i, 0 <= i < 4096 -> translate (k_paging s') true wr (VIDEO_MEM + i) = Some (frame + i)) /\
  (va = 0 \/ va = 0x400000 -> run_syscall_wrapper m env 8 va 0 0 s = Ret (Some (Returns (-1))) s).
Proof.
  intros [Hp Hm]. pose proof (pr_cr3 _ _ Hp) as Hcr. pose proof (pr_pid _ _ Hp) as Hpid. split.
  - intros Hva Hend. rewrite wrapper_vidmap, u32_small by lia. unfold vidmap.
    rewrite !bool_decide_false by lia. cbn [orb]. rewrite bind_bind.
    rewrite (bind_Ret _ _ _ _ _ (put_program_eq s va (bytes32 VIDEO_MEM) pid (va - 0x8000000)
      (user_at pid frame s true va Hm Hcr Hpid ltac:(lia)) ltac:(cbn; lia))).
    eexists. split; [reflexivity|]. split; [reflexivity|]. intros wr i Hi. cbn [k_paging set_programs].
    rewrite (translate_task _ pid frame) by (done || unfold VIDEO_MEM; lia).
    unfold task_space, VIDEO_MEM. rewrite bool_decide_false, bool_decide_true by lia. f_equal. lia.
  - intros Hva. rewrite wrapper_vidmap. destruct Hva as [-> | ->]; reflexivity.
Qed.

Lemma syscall_vidmap_witness :
  (0x8000000 <= 0x8050000 -> 0x8050000 + 4 <= 0x8400000 ->
   exists s', @run_syscall_wrapper demo_layout demo_device demo_machine [] 8 0x8050000 0 0 demo_opened
     = Ret (Some (Returns VIDEO_MEM)) s' /\
     k_programs s' = programs_with 1 (0x8050000 - 0x8000000) [0x00; 0x80; 0x0B; 0x00] (k_programs demo_opened) /\
     forall wr i, 0 <= i < 4096 ->
       @translate demo_layout (k_paging s') true wr (VIDEO_MEM + i) = Some (VIDEO_MEM + i)) /\
  (0x8050000 = 0 \/ 0x8050000 = 0x400000 ->
   @run_syscall_wrapper demo_layout demo_device demo_machine [] 8 0x8050000 0 0 demo_opened
   = Ret (Some (Returns (-1))) demo_opened).
Proof.
  apply (@syscall_vidmap demo_layout demo_device demo_machine [] demo_opened 1 VIDEO_MEM 0x8050000 demo_program).
Defined.
