(* ===== verification/FileCalls.v ===== *)
(** * Sequences of file system calls

    What open, close, read and write (Syscall.v) keep true about a process's file
    descriptors, whatever a program calls in whatever order. *)
From S2P Require Import Kernel Terminal Syscall.

(** ** Calls *)

Section Calls.
Context `{!Layout} `{!Device}.

(** A call of a program, with its arguments. *)
Inductive file_call :=
| Open (filename : list Z)
| Close (fd : Z)
| Read (fd : Z) (buf : list Z) (nbytes : Z)
| Write (fd : Z) (buf : list Z) (nbytes : Z).

(** Its result. The clock ticks while a read waits for it. *)
Definition run_call (c : file_call) : M kernel Z :=
  match c with
  | Open filename => open filename
  | Close fd => close fd
  | Read fd buf nbytes =>
      r ← read [zoom rtc_interrupt] fd buf nbytes;
      match r with Some (v, _, _) => mret v | None => hang end
  | Write fd buf nbytes => write fd buf nbytes
  end.

Fixpoint run_calls (cs : list file_call) : M kernel (list Z) :=
  match cs with
  | [] => mret []
  | c :: cs' => v ← run_call c; vs ← run_calls cs'; mret (v :: vs)
  end.

(** Any numbers of descriptors but the terminal's for input (read) and output (write);
    names that open can hold; buffers as long as the caller says, for reading at least as
    long as a directory entry's text. *)
Definition valid_call (c : file_call) : Prop :=
  match c with
  | Open filename => bytes filename /\ exists name, until0 filename = Some name /\ (length name <= 31)%nat
  | Close fd => True
  | Read fd buf nbytes =>
      fd <> 0 /\ 0 < nbytes <= len buf /\ (34 <= length buf)%nat /\ len buf < 2147483648
  | Write fd buf nbytes =>
      fd <> 1 /\ -2147483648 <= nbytes < 2147483648 /\ is_Some (strlen buf)
  end.
End Calls.

(** ** The invariant *)

Section Invariant.
Context `{HL : !Layout} `{HD : !Device} (img : list Z) (n N D : Z).
Implicit Types (s : kernel) (pid i : Z).

(** An open descriptor has the operations of a driver that can serve it. *)
Definition driver_ok s pid i (f : file_desc) : Prop :=
  sysops_ptr f = RtcOps \/ sysops_ptr f = DirectoryOps \/
  exists ino L, 0 <= ino < N /\ file_open s pid i f img ino L.

Record serving s pid : Prop := {
  sv_process : process s pid;
  sv_image : image (k_fs s) = img;
  sv_index : 0 <= currentDirIndex (k_fs s) <= n;
  sv_fds i f : 2 <= i < 8 -> fd_of s pid i = Some f -> flags f <> 0 -> driver_ok s pid i f;
}.

(** The files of the directory are of the three types, the regular ones have an inode,
    and the texts of the entries end in their records. *)
Record served : Prop := {
  sd_wf : wf_image img n N D;
  sd_types k d : 0 <= k < 63 -> ld_dentry img k = Some d ->
    0 <= d_fileType d <= 2 /\ (d_fileType d = 2 -> 0 <= d_inodeNum d < N);
  sd_names k : 0 <= k < n -> exists name, until0 (entry_name img k) = Some name /\ (length name <= 33)%nat;
}.

Lemma driver_ok_frame s s' pid i f :
  fd_of s' pid i = Some f -> image (k_fs s') = image (k_fs s) -> driver_ok s pid i f -> driver_ok s' pid i f.
Proof.
  intros Hf Himg [?|[?|(ino & L & Hino & [? ? ? Hi ? ? ?])]]; [by left|by right; left|right; right].
  exists ino, L. split; [done|]. split; try done. by rewrite Himg.
Qed.

(** Only descriptor [j] has changed. *)
Lemma serving_step s s' pid j :
  serving s pid -> process s' pid -> image (k_fs s') = img -> 0 <= currentDirIndex (k_fs s') <= n ->
  (forall i, i <> j -> fd_of s' pid i = fd_of s pid i) ->
  (forall f, fd_of s' pid j = Some f -> flags f <> 0 -> driver_ok s' pid j f) -> serving s' pid.
Proof.
  intros [Hp Himg Hidx Hfds] Hp' Himg' Hidx' Hother Hj. split; try done. intros i f Hi Hf Hfl.
  destruct (decide (i = j)) as [->|Hne]; [by apply Hj|]. rewrite Hother in Hf by done.
  apply (driver_ok_frame s); [by rewrite Hother|by rewrite Himg, Himg'|by apply Hfds].
Qed.

(** A call that changes no descriptor. *)
Lemma serving_same s s' pid :
  serving s pid -> process s' pid -> image (k_fs s') = img -> 0 <= currentDirIndex (k_fs s') <= n ->
  (forall i, fd_of s' pid i = fd_of s pid i) -> serving s' pid.
Proof.
  intros Hs Hp' Himg' Hidx' Hsame. apply (serving_step s s' pid (-1)); try done.
  intros f Hf. unfold fd_of in Hf. by destruct (load (pcbs _) _).
Qed.

(** What the file calls leave alone: the console, the page directories and the argument of
    the process. *)
Definition argument_of s pid : option (list Z) := argument <$> load (pcbs (k_procs s)) (pid - 1).
Record undisturbed pid s s' : Prop := {
  un_paging : k_paging s' = k_paging s;
  un_frames : k_frames s' = k_frames s;
  un_cursor : k_cursor s' = k_cursor s;
  un_terms : k_terms s' = k_terms s;
  un_kbd : k_kbd s' = k_kbd s;
  un_argument : argument_of s' pid = argument_of s pid;
}.
#[export] Instance undisturbed_preorder pid : PreOrder (undisturbed pid).
Proof. split; [by split|]. intros s1 s2 s3 [] []. split; congruence. Qed.

Lemma undisturbed_fd s pid i f : undisturbed pid s (altered_fd pid i f s).
Proof.
  split; try done. unfold argument_of, altered_fd, altered_pcb. cbn [lset kernel_procs k_procs with_pcbs pcbs].
  destruct (load (pcbs (k_procs s)) (pid - 1)) as [p|] eqn:E; [by rewrite (load_alter_eq _ _ _ p E)|].
  unfold load in *. case_bool_decide; [|done]. by rewrite list_lookup_alter_eq, E.
Qed.
Lemma undisturbed_valued s pid d : undisturbed pid s (type_valued d s).
Proof. unfold type_valued. by repeat case_bool_decide. Qed.
Lemma undisturbed_opened s pid i boot name d (h : list ioev) :
  undisturbed pid s (lset h (altered_fd pid i (described boot name d) (type_valued d s))).
Proof. etrans; [apply undisturbed_valued|]. etrans; [apply undisturbed_fd|]. by split. Qed.
#[local] Hint Resolve undisturbed_fd undisturbed_opened : core.
#[local] Hint Extern 0 (undisturbed ?p ?s ?s) => reflexivity : core.
#[local] Hint Extern 1 (undisturbed _ _ (lset _ _)) => by split : core.

(** The clock's driver changes its flag and the port history. *)
Lemma serving_rtc s pid (r : rtc) : serving s pid -> serving (lset r s) pid.
Proof.
  intros Hs. apply (serving_same s); try (done || apply Hs). destruct Hs as [[? ? [? ?]] _ _ _]. by split.
Qed.

Lemma rtc_write_total freq (r : rtc) :
  -2147483648 <= freq < 2147483648 -> exists v r', rtc_write freq r = Ret v r' /\ (v = 0 \/ v = -1).
Proof.
  intros Hf. destruct (decide (freq ∈ (fun k : nat => 2 ^ Z.of_nat k) <$> seq 0 11)) as [Hin|Hout].
  - apply list_elem_of_fmap in Hin as (k & -> & Hk%elem_of_seq). rewrite (rtc_write_run k) by lia. eauto.
  - rewrite rtc_write_rejects; [eauto|done|]. intros k Hk ->. apply Hout, list_elem_of_fmap.
    exists k. split; [done|]. apply elem_of_seq. lia.
Qed.

Lemma rtc_read_tick s :
  exists env (r : rtc), rtc_read [zoom rtc_interrupt] s = Ret (Some (0, env)) (lset r s).
Proof.
  unfold rtc_read. cbn [spin]. destruct (flagged s) eqn:E.
  - eexists _, _. unfold mbind at 1, M_bind at 1, mbind at 1, M_bind at 1, get at 1. rewrite E. reflexivity.
  - eexists _, _. unfold mbind at 1, M_bind at 1, mbind at 1, M_bind at 1, get at 1. rewrite E. reflexivity.
Qed.

Hypothesis Hserved : served.

Lemma serving_get s pid i : serving s pid -> 0 <= i < 8 -> exists f, fd_of s pid i = Some f /\ name_ok f.
Proof. intros Hs. apply process_fd, Hs. Qed.

Lemma bad_fd_eq s pid i std :
  serving s pid ->
  exists b, bad_fd pid i std s = Ret b s /\
    (b = false -> 0 <= i < 8 /\ i <> std /\ exists f, fd_of s pid i = Some f /\ flags f <> 0).
Proof.
  intros Hs. unfold bad_fd. destruct (decide (i < 0)) as [|H0].
  { rewrite (bool_decide_true (i < 0)) by done. by exists true. }
  destruct (decide (i > 7)) as [|H7].
  { rewrite (bool_decide_true (i > 7)) by done. rewrite orb_true_r. by exists true. }
  destruct (decide (i = std)) as [|Hstd].
  { rewrite (bool_decide_true (i = std)) by done. rewrite !orb_true_r. by exists true. }
  rewrite !bool_decide_false by done. cbn [orb].
  destruct (serving_get s pid i Hs) as (f & Hf & _); [lia|].
  rewrite (bind_Ret _ _ _ _ _ (get_fd_eq _ _ _ _ Hf)). eexists. split; [reflexivity|].
  intros Hb%bool_decide_eq_false. split; [lia|]. split; [done|]. by exists f.
Qed.

Lemma serving_close s pid i : serving s pid -> exists v s', close i s = Ret v s' /\ serving s' pid /\ undisturbed pid s s'.
Proof.
  intros Hs. pose proof (sv_process _ _ Hs) as Hp. destruct (decide (2 <= i < 8)) as [Hi|Hi].
  - destruct (serving_get s pid i Hs) as (f & Hf & _); [lia|]. rewrite (close_eq s pid i f) by done.
    case_bool_decide; [eauto|]. eexists _, _. split; [reflexivity|]. split; [|apply undisturbed_fd].
    apply (serving_step s _ pid i); [done|by apply process_altered_fd|apply Hs|apply Hs| |].
    + intros j Hj. apply fd_of_altered_ne; [lia|done].
    + intros g Hg. rewrite fd_of_altered, Hf in Hg. by injection Hg as <-.
  - unfold close. destruct (decide (i < 2)).
    + rewrite bool_decide_true by lia. eauto.
    + rewrite (bool_decide_true (i > 7)) by lia. rewrite orb_true_r. eexists _, _. by split.
Qed.

Lemma read_directory_total (s : fs) buf :
  image s = img -> 0 <= currentDirIndex s <= n -> (34 <= length buf)%nat -> len buf < 2147483648 ->
  exists v buf' k, read_directory buf s = Ret (v, buf') (at_index k s) /\ 0 <= k <= n /\ length buf' = length buf.
Proof.
  destruct s as [boot im i]. cbn [image currentDirIndex]. intros -> Hk Hl Hb.
  pose proof (sd_wf Hserved) as Hwf. change (Fs boot img i) with (at_index i (Fs boot img i)) at 1.
  destruct (decide (i = n)) as [->|Hne].
  - eexists _, _, 0. split; [by apply (read_directory_end _ n N D)|split; [lia|done]].
  - destruct (sd_names Hserved i) as (name & Hn & Hln); [lia|].
    eexists _, _, (i + 1). split; [eapply (read_directory_next _ n N D); try done; lia|split; [lia|lens]].
Qed.

Lemma serving_read s pid i buf m :
  serving s pid -> valid_call (Read i buf m) ->
  exists v buf' env s', read [zoom rtc_interrupt] i buf m s = Ret (Some (v, buf', env)) s' /\
    length buf' = length buf /\ serving s' pid /\ undisturbed pid s s'.
Proof.
  intros Hs (Hi0 & Hm & Hl & Hb). pose proof (sv_process _ _ Hs) as Hp.
  destruct (bad_fd_eq s pid i 1 Hs) as ([] & Hbad & Hok).
  { rewrite (read_bad _ _ _ _ _ _ Hp Hbad). eauto 9. }
  destruct (Hok eq_refl) as (Hi & Hi1 & f & Hf & Hfl).
  pose proof (sv_fds _ _ Hs i f ltac:(lia) Hf Hfl) as Hd. destruct Hd as [Hops|[Hops|(ino & L & Hino & Hfo)]].
  - unfold read. rewrite (bind_Ret _ _ _ _ _ (process_find _ _ Hp)), (bind_Ret _ _ _ _ _ Hbad), (bind_Ret _ _ _ _ _ (get_fd_eq _ _ _ _ Hf)), Hops.
    destruct (rtc_read_tick s) as (env & r & Hr). cbn [syscall_read]. rewrite (bind_Ret _ _ _ _ _ Hr).
    eexists _, _, _, _. split; [reflexivity|]. split; [done|]. split; [by apply serving_rtc|auto].
  - unfold read. rewrite (bind_Ret _ _ _ _ _ (process_find _ _ Hp)), (bind_Ret _ _ _ _ _ Hbad), (bind_Ret _ _ _ _ _ (get_fd_eq _ _ _ _ Hf)), Hops.
    destruct (read_directory_total (k_fs s) buf) as (v & buf' & k & Hr & Hk & Hlen); [apply Hs|apply Hs|done|done|].
    cbn [syscall_read]. unfold zoom. unfold mbind, M_bind. change (lget s) with (k_fs s). rewrite Hr.
    eexists _, _, _, _. split; [reflexivity|]. split; [done|]. split; [|auto].
    apply (serving_same s); [done| |apply Hs|exact Hk|done]. destruct Hp as [? ? [? ?]]. by split.
  - pose proof (sd_wf Hserved) as Hwf.
    destruct (wf_file_length _ _ _ _ Hwf ino Hino) as (L' & HL' & HLr).
    rewrite (fo_length _ _ _ _ _ _ _ Hfo) in HL'. injection HL' as <-. pose proof (fo_position _ _ _ _ _ _ _ Hfo).
    rewrite (read_eq img n N D Hwf _ s pid i f ino L buf m) by (done || lia).
    pose proof (file_contents_length _ _ _ (fo_length _ _ _ _ _ _ _ Hfo) ltac:(lia)).
    eexists _, _, _, _. split; [reflexivity|]. split; [lens|]. split; [|auto].
    apply (serving_step s _ pid i); [done|by apply process_altered_fd|apply Hs|apply Hs| |].
    + intros j Hj. apply fd_of_altered_ne; [lia|done].
    + intros g Hg Hgf. right; right. exists ino, L. split; [done|].
      pose proof (file_open_advance img s pid i f ino L (Z.min m (L - filePosition f)) Hfo ltac:(lia) ltac:(lia)) as Hfo'.
      rewrite (fo_fd _ _ _ _ _ _ _ Hfo') in Hg. by injection Hg as <-.
Qed.

Lemma serving_write s pid i buf m :
  serving s pid -> valid_call (Write i buf m) -> exists v s', write i buf m s = Ret v s' /\ serving s' pid /\ undisturbed pid s s'.
Proof.
  intros Hs (Hi1 & Hm & [l Hstr]). pose proof (sv_process _ _ Hs) as Hp.
  destruct (bad_fd_eq s pid i 0 Hs) as ([] & Hbad & Hok).
  { rewrite (write_bad _ _ _ _ _ Hp Hbad). eauto. }
  destruct (Hok eq_refl) as (Hi & Hi0 & f & Hf & Hfl).
  unfold write. rewrite (bind_Ret _ _ _ _ _ (process_find _ _ Hp)), (bind_Ret _ _ _ _ _ Hbad), (bind_Ret _ _ _ _ _ (get_fd_eq _ _ _ _ Hf)).
  destruct (sv_fds _ _ Hs i f ltac:(lia) Hf Hfl) as [->|[->|(ino & L & Hino & Hfo)]]; cbn [syscall_write].
  - destruct (rtc_write_total m (lget s) Hm) as (v & r & Hr & _). rewrite (bind_Ret _ _ _ _ _ (zoom_Ret _ _ _ _ Hr)).
    pose proof (serving_rtc s pid r Hs). case_bool_decide; [|eauto 6].
    unfold lift. rewrite Hstr. unfold mbind, M_bind, mret, M_ret. eauto 6.
  - eexists _, _. split; [reflexivity|auto].
  - rewrite (fo_ops _ _ _ _ _ _ _ Hfo). eexists _, _. split; [reflexivity|auto].
Qed.

Lemma type_valued_fs d s : k_fs (type_valued d s) = k_fs s.
Proof. unfold type_valued. by repeat case_bool_decide. Qed.

Lemma dir_lookup_index name k : dir_lookup img name = Some k -> 0 <= k < 63.
Proof.
  unfold dir_lookup. destruct (filter _ _) as [|k' l] eqn:E; [done|]. intros [= ->].
  apply (filter_head_first _ 0 63) in E as [Hr _]. lia.
Qed.

Lemma serving_open s pid filename :
  serving s pid -> valid_call (Open filename) -> exists v s', open filename s = Ret v s' /\ serving s' pid /\ undisturbed pid s s'.
Proof.
  intros Hs (Hb & name & Hn & Hl). pose proof (sv_process _ _ Hs) as Hp. pose proof (sd_wf Hserved) as Hwf.
  pose proof (sv_image _ _ Hs) as Himg. destruct (decide (name = [])) as [->|Hne].
  { apply until0_spec in Hn as (r & -> & _). unfold open. eexists _, _. split; [reflexivity|auto]. }
  assert (0 < length name)%nat by (by destruct name; [|simpl; lia]).
  assert (bytes name) as Hbn by (rewrite <-(until0_prefix _ _ Hn); by apply Forall_take).
  destruct (dir_lookup img name) as [k|] eqn:Hk.
  2: { rewrite (open_fails _ _ _ _ Hwf s pid filename name) by auto. eauto. }
  destruct (free_fd s pid) as [i|] eqn:Hi.
  2: { rewrite (open_fails _ _ _ _ Hwf s pid filename name) by auto. eauto. }
  destruct (dir_lookup_dentry _ _ _ _ Hwf _ _ Hk) as [d Hd].
  destruct (open_eq _ _ _ _ Hwf s pid filename name k d i) as [h Hh]; try done.
  pose proof (free_fd_inv _ _ _ Hi) as (Hir & _ & _).
  pose proof (process_opened s pid i (bootHead (k_fs s)) name d h Hp Hbn ltac:(lia)) as Hp1.
  pose proof (fd_of_opened s pid i (bootHead (k_fs s)) name d h) as Hfd.
  set (s1 := lset _ _) in *.
  destruct (sd_types Hserved k d) as [Hty Hino]; [by apply (dir_lookup_index name)|done|].
  eexists _, _. split; [exact Hh|]. split; [|apply undisturbed_opened].
  apply (serving_step s _ pid i); [done|exact Hp1| | | |].
  - change (image (k_fs (type_valued d s)) = img). rewrite type_valued_fs. done.
  - change (0 <= currentDirIndex (k_fs (type_valued d s)) <= n). rewrite type_valued_fs. apply Hs.
  - intros j Hj. by rewrite Hfd, bool_decide_false by lia.
  - intros g Hg _. destruct (decide (d_fileType d = 2)) as [E2|E2].
    + destruct (wf_file_length _ _ _ _ Hwf _ (Hino E2)) as (L & HLen & _).
      destruct (open_regular _ _ _ _ Hwf s pid filename name k d L i) as (s2 & f2 & Ho & _ & Hfo & _); try done; [by apply Hino|].
      rewrite Hh in Ho. assert (s2 = s1) as -> by congruence. rewrite (fo_fd _ _ _ _ _ _ _ Hfo) in Hg. injection Hg as <-.
      right; right. exists (d_inodeNum d), L. split; [by apply Hino|done].
    + rewrite Hfd, bool_decide_true in Hg by lia. destruct (process_fd s pid i Hp) as (f & Hf & _); [lia|].
      rewrite Hf in Hg. injection Hg as <-. unfold driver_ok, described.
      destruct (decide (d_fileType d = 0)) as [E0|E0].
      * rewrite (bool_decide_true (d_fileType d = 0)) by done. by left.
      * rewrite (bool_decide_false (d_fileType d = 0)), (bool_decide_true (d_fileType d = 1)) by lia.
        by right; left.
Qed.

Lemma serving_call s pid c : serving s pid -> valid_call c -> exists v s', run_call c s = Ret v s' /\ serving s' pid /\ undisturbed pid s s'.
Proof.
  intros Hs Hc. destruct c; cbn [run_call]; [by apply serving_open|by apply serving_close| |by apply serving_write].
  destruct (serving_read _ _ _ _ _ Hs Hc) as (v & buf' & env & s' & Hr & _ & Hs' & Hu).
  rewrite (bind_Ret _ _ _ _ _ Hr). eauto.
Qed.

Lemma serving_calls s pid cs :
  serving s pid -> Forall valid_call cs -> exists vs s', run_calls cs s = Ret vs s' /\ serving s' pid.
Proof.
  intros Hs Hcs. revert s Hs. induction Hcs as [|c cs Hc _ IH]; intros s Hs; cbn [run_calls]; [eauto|].
  destruct (serving_call s pid c Hs Hc) as (v & s1 & Hr & Hs1 & _). rewrite (bind_Ret _ _ _ _ _ Hr).
  destruct (IH s1 Hs1) as (vs & s2 & Hr2 & Hs2). rewrite (bind_Ret _ _ _ _ _ Hr2). eauto.
Qed.
End Invariant.

(** ** Properties *)

(** C10: valid file system calls do not lead the kernel astray. On a well-formed image,
    from a process whose open descriptors are served by a driver, take any sequence of valid calls ([valid_call]): open of
    a name of at most 31 bytes before its NUL (a longer one overruns open's array, see
    [FileSystem.long_name_overflows]); close of any number; read of any number but the keyboard's
    0, with a positive count below 2^31 and a buffer of at least that many and 34 bytes, while
    one tick of the clock comes; write of any number but the screen's 1, with any count and a
    NUL-terminated buffer. Every call returns, without an access outside an object or a call
    through an empty operation table, whatever descriptors it names; and afterwards again every
    open descriptor has a driver that serves it: a regular file's has the name of a directory
    entry, an inode of the image and a position inside the file. *)
Theorem file_calls_keep_descriptors `{!Layout} `{!Device} img n N D s pid cs :
  served img n N D -> serving img n N s pid -> Forall valid_call cs ->
  exists vs s', run_calls cs s = Ret vs s' /\ serving img n N s' pid.
Proof. intros Hd. by apply serving_calls with D. Qed.

Lemma demo_served : served demo_image 4 2 3.
Proof.
  split; [exact demo_image_wf| |].
  - intros k d Hk Hd.
    assert (forallb (fun k => match ld_dentry demo_image k with
      | Some d => bool_decide (0 <= d_fileType d <= 2) &&
                  (negb (bool_decide (d_fileType d = 2)) || bool_decide (0 <= d_inodeNum d < 2))
      | None => true end) (seqZ 0 63) = true) as H by (vm_compute; reflexivity).
    rewrite forallb_forall in H. specialize (H k). rewrite Hd in H.
    rewrite andb_true_iff, orb_true_iff, negb_true_iff, bool_decide_eq_false, !bool_decide_eq_true in H.
    destruct H as [Hty Hino]; [|tauto]. apply list_elem_of_In, elem_of_seqZ. lia.
  - intros k Hk. assert (k = 0 \/ k = 1 \/ k = 2 \/ k = 3) as [-> | [-> | [-> | ->]]] by lia;
      eexists; (split; [vm_compute; reflexivity|simpl; lia]).
Qed.

(** A process that has just been started, for the example. *)
Definition demo_fresh : kernel :=
  lset (Procs [-1; 0; 0; 0; -1; -1; -1] 0 0x8048094 0 0 0
    (replicate 6 (with_fds (replicate 2 (demo_fd 1 TerminalOps) ++ replicate 6 (demo_fd 0 NullOps)) demo_pcb)))
    demo_proc.

Lemma demo_serving : serving demo_image 4 2 demo_fresh 1.
Proof.
  assert (forall fl o, name_ok (demo_fd fl o)) as Hn.
  { intros. split; [done|]. apply Forall_replicate. unfold byte. lia. }
  split; [|reflexivity|simpl; lia|].
  - split; [reflexivity|lia|]. split; [reflexivity|]. apply Forall_replicate. split; [reflexivity|].
    split; [reflexivity|]. apply Forall_app. split; by apply Forall_replicate.
  - intros i f Hi Hf Hfl. exfalso. apply Hfl.
    assert (i = 2 \/ i = 3 \/ i = 4 \/ i = 5 \/ i = 6 \/ i = 7) as [-> | [-> | [-> | [-> | [-> | ->]]]]] by lia;
      by injection Hf as <-.
Qed.

Lemma file_calls_keep_descriptors_witness :
  exists vs s', @run_calls demo_layout demo_device
      [Open (cstring "."); Open (cstring "rtc"); Read 2 (replicate 40 0) 32; Write 3 (cstring "x") 64;
       Read 3 (replicate 40 0) 1; Close 2; Open (cstring "hello"); Read 2 (replicate 40 0) 40; Close 99;
       Read 7 (replicate 40 0) 4; Open (cstring "nothing")] demo_fresh = Ret vs s' /\
    serving demo_image 4 2 s' 1.
Proof.
  apply (@file_calls_keep_descriptors demo_layout demo_device demo_image 4 2 3); [exact demo_served|exact demo_serving|].
  repeat apply Forall_cons_2; cbn [valid_call];
    match goal with
    | |- bytes _ /\ _ => split; [apply cstring_bytes|eexists; split; [reflexivity|simpl; lia]]
    | |- _ => try (split_and!; try (simpl; lia); by eexists)
    end; try done; try (simpl; lia).
Defined.
