(* ===== verification/Boot.v ===== *)
(** * Booting

    entry of [src/student-distrib/kernel.c]: from the boot loader's information to the
    first shell. *)
From S2P Require Import Kernel Terminal Scheduler Syscall Exec Process Keyboard Typing.
From S2P Require Import Descriptors Exceptions.

Definition MULTIBOOT_BOOTLOADER_MAGIC : Z := 0x2BADB002.

(** ** Data *)

(** [module_t]: the addresses, and the bytes of the module. *)
Record module := Mod { mod_start : Z; mod_end : Z; mod_image : list Z }.

(** [memory_map_t] *)
Record memory_map := MemoryMap {
  mm_size : Z;
  base_addr_low : Z;
  base_addr_high : Z;
  length_low : Z;
  length_high : Z;
  mm_type : Z;
}.

(** [multiboot_info_t]: [mods] are the [mods_count] structures at [mods_addr],
    [mmap_at] the structure of the memory map at an address. *)
Record multiboot_info := MultibootInfo {
  mbi_flags : Z;
  mem_lower : Z;
  mem_upper : Z;
  boot_device : Z;
  cmdline : list Z;
  mods : list module;
  elf_num : Z;
  elf_size : Z;
  elf_addr : Z;
  elf_shndx : Z;
  mmap_length : Z;
  mmap_addr : Z;
  mmap_at : Z -> memory_map;
}.

(** The kernel's state, the descriptor tables, and the registers LDTR and TR. *)
Record machine_state := MachineState {
  b_kernel : kernel;
  b_idt : list idt_desc;
  b_gdt : list Z;
  b_ldtr : Z;
  b_tr : Z;
}.

#[export] Program Instance boot_kernel : Lens machine_state kernel := {|
  lget := b_kernel;
  lset v s := MachineState v (b_idt s) (b_gdt s) (b_ldtr s) (b_tr s);
|}.
Solve Obligations with (by intros; try destruct s).
#[export] Program Instance boot_idt : Lens machine_state (list idt_desc) := {|
  lget := b_idt;
  lset v s := MachineState (b_kernel s) v (b_gdt s) (b_ldtr s) (b_tr s);
|}.
Solve Obligations with (by intros; try destruct s).
#[export] Program Instance boot_gdt : Lens machine_state (list Z) := {|
  lget := b_gdt;
  lset v s := MachineState (b_kernel s) (b_idt s) v (b_ldtr s) (b_tr s);
|}.
Solve Obligations with (by intros; try destruct s).

(** How entry ends: it returns to [boot.S], which halts; it is in its idle loop; or a
    program runs. *)
Inductive booted :=
| Halted
| Idle
| Started (c : control Z).

(** ** The code *)

Section Code.
Context `{!Layout} `{!Linked} `{!Device} (m : machine).
(** The addresses of [ldt] and [tss], and what the stack held in the offset fields of
    the local descriptors of idt_initialize. *)
Variables (ldt tss lo hi : Z).

(** While paging is off, the accesses to VIDEO reach the video memory itself. *)
Definition early {A} (f : M screen A) : M kernel A := fun s =>
  match load (k_frames s) 0 with
  | None => Undef
  | Some page =>
      match f (screen_of page s) with
      | Ret a t => Ret a (with_screen 0 t s)
      | Hang t => Hang (with_screen 0 t s)
      | Undef => Undef
      end
  end.
Definition early_printf (fmt : string) (args : list arg) : M kernel unit :=
  _ ← early (printf (cstring fmt) args); mret tt.

(** [CHECK_FLAG(flags, bit)] *)
Definition check_flag (flags bit : Z) : bool := bool_decide (Z.land flags (Z.shiftl 1 bit) <> 0).

(** One round of the loop over the modules. *)
Definition print_module (mod_count : Z) (md : module) : M kernel unit :=
  early_printf "Module %d loaded at address: 0x%#x
" [AInt mod_count; AInt (mod_start md)] ;;
  early_printf "Module %d ends at address: 0x%#x
" [AInt mod_count; AInt (mod_end md)] ;;
  early_printf "First few bytes of module:
" [] ;;
  for_range 0 16 (fun i =>
    c ← lift (load (mod_image md) i);
    early_printf "0x%x " [AInt (s8 c)]) ;;
  early_printf "
" [].
Fixpoint print_modules (mod_count : Z) (l : list module) : M kernel unit :=
  match l with
  | [] => mret tt
  | md :: l' => print_module mod_count md ;; print_modules (mod_count + 1) l'
  end.

Definition print_mmap_entry (e : memory_map) : M kernel unit :=
  early_printf " size = 0x%x,     base_addr = 0x%#x%#x
     type = 0x%x,  length    = 0x%#x%#x
" [AInt (mm_size e); AInt (base_addr_high e); AInt (base_addr_low e); AInt (mm_type e);
   AInt (length_high e); AInt (length_low e)].
(** The loop over the memory map: an entry has at least the 4 bytes of its size. *)
Fixpoint print_mmap (fuel : nat) (mbi : multiboot_info) (mmap : Z) : M kernel unit :=
  if bool_decide (mmap < u32 (mmap_addr mbi + mmap_length mbi)) then
    match fuel with
    | O => undef
    | S fuel' =>
        let e := mmap_at mbi mmap in
        print_mmap_entry e ;;
        print_mmap fuel' mbi (u32 (mmap + mm_size e + 4))
    end
  else mret tt.

(** The report on the boot loader's information: [true] when the kernel goes on. *)
Definition print_info (magic : Z) (mbi : multiboot_info) : M kernel bool :=
  early clear ;;
  if bool_decide (magic <> MULTIBOOT_BOOTLOADER_MAGIC) then
    early_printf "Invalid magic number: 0x%#x
" [AInt magic] ;; mret false
  else
    let flags := mbi_flags mbi in
    early_printf "flags = 0x%#x
" [AInt flags] ;;
    when (check_flag flags 0) (early_printf "mem_lower = %uKB, mem_upper = %uKB
" [AInt (mem_lower mbi); AInt (mem_upper mbi)]) ;;
    when (check_flag flags 1) (early_printf "boot_device = 0x%#x
" [AInt (boot_device mbi)]) ;;
    when (check_flag flags 2) (early_printf "cmdline = %s
" [AStr (cmdline mbi)]) ;;
    when (check_flag flags 3) (print_modules 0 (mods mbi)) ;;
    if check_flag flags 4 && check_flag flags 5 then
      early_printf "Both bits 4 and 5 are set.
" [] ;; mret false
    else
      when (check_flag flags 5) (early_printf "elf_sec: num = %u, size = 0x%#x, addr = 0x%#x, shndx = 0x%#x
" [AInt (elf_num mbi); AInt (elf_size mbi); AInt (elf_addr mbi); AInt (elf_shndx mbi)]) ;;
      when (check_flag flags 6) (
        early_printf "mmap_addr = 0x%#x, mmap_length = 0x%x
" [AInt (mmap_addr mbi); AInt (mmap_length mbi)] ;;
        print_mmap (Z.to_nat (mmap_length mbi)) mbi (mmap_addr mbi)) ;;
      mret true.

(** [temp] behind the report: the last module, if any. *)
Definition last_module (mbi : multiboot_info) : option module :=
  if check_flag (mbi_flags mbi) 3 then last (mods mbi) else None.

(** The descriptors of the LDT and the TSS, and the TSS's fields. *)
Definition setup_segments : M machine_state unit :=
  zoom (gdt_setup ldt 31 tss 103) ;;
  modify (fun s => MachineState (b_kernel s) (b_idt s) (b_gdt s) KERNEL_LDT KERNEL_TSS) ;;
  zoom (modify (fun s : kernel =>
    lset (Cpustate 0x800000 KERNEL_DS (esp_0 (k_cpu s)) (ebp_0 (k_cpu s))) s)).

(** The memory behind [bootHead] is the module. *)
Definition init_file_system (temp : module) : M kernel unit :=
  modify (fun s => lset (Fs (bootHead (k_fs s)) (mod_image temp) (currentDirIndex (k_fs s))) s) ;;
  _ ← zoom (init_bootBlock_address (mod_start temp));
  mret tt.

Definition setup_devices (temp : module) : M machine_state unit :=
  zoom (zoom i8259_init : M kernel unit) ;;
  zoom (zoom paging_initialize : M kernel unit) ;;
  zoom (idt_initialize lo hi) ;;
  zoom (zoom (enable_irq 1) : M kernel unit) ;;
  zoom (zoom (enable_irq 8) : M kernel unit) ;;
  zoom (init_file_system temp) ;;
  zoom terminal_init ;;
  zoom (on_screen clear) ;;
  zoom (add_task_to_queue 0) ;;
  zoom (zoom (init_PIT 100) : M kernel unit).

Definition entry (magic : Z) (mbi : multiboot_info) : M machine_state booted :=
  ok ← zoom (print_info magic mbi);
  if (ok : bool) then
    setup_segments ;;
    temp ← lift (last_module mbi);
    setup_devices temp ;;
    c ← zoom (execute (Some (cstring "shell")) (m_stack m) (m_esp m) (m_ebp m));
    match c with
    | Returns _ =>
        zoom (kprintf "effffff left shell
" []) ;;
        zoom (sti : M kernel unit) ;;
        mret Idle
    | _ => mret (Started c)
    end
  else mret Halted.
End Code.

(** ** The report stays on the screen *)

(** The cursor: on the screen, or at the start of the row below it. [fresh]: it is on
    the screen, the last character was no line break. *)
Definition fresh_ok (fresh : bool) (s : screen) : Prop :=
  page_ok s /\ 0 <= screen_x s < 80 /\ 0 <= screen_y s <= 25 /\
  (screen_y s = 25 -> screen_x s = 0 /\ fresh = false).

Definition breaks (c : Z) : bool := bool_decide (u8 c = 10) || bool_decide (u8 c = 13).

(** No line break behind a line break. *)
Fixpoint spaced (fresh : bool) (l : list Z) : bool :=
  match l with
  | [] => true
  | c :: l' => if breaks c then fresh && spaced false l' else spaced true l'
  end.
Fixpoint ends_fresh (fresh : bool) (l : list Z) : bool :=
  match l with
  | [] => fresh
  | c :: l' => ends_fresh (negb (breaks c)) l'
  end.

Lemma putcs_spaced l fresh s :
  fresh_ok fresh s -> spaced fresh l = true -> wp (putcs l) (fun _ => fresh_ok (ends_fresh fresh l)) s.
Proof.
  revert fresh s. induction l as [|c l IH]; intros fresh s Hs Hl; cbn [putcs spaced ends_fresh] in *.
  - by rewrite wp_ret.
  - destruct Hs as ([Hlen Hb] & Hx & Hy & H25). rewrite wp_bind. unfold breaks in *.
    destruct (bool_decide (u8 c = 10) || bool_decide (u8 c = 13)) eqn:E.
    + apply andb_true_iff in Hl as [Hf Hl]. rewrite wp_putc_newline.
      2: { apply orb_true_iff in E as [E|E]; rewrite bool_decide_eq_true in E; tauto. }
      apply IH; [|done]. unfold fresh_ok, page_ok. fields. split_and!; try done; try lia.
      destruct (decide (screen_y s = 25)) as [E25|]; [|lia]. apply H25 in E25 as [_ ->]. done.
    + apply orb_false_iff in E as [E1 E2]. rewrite bool_decide_eq_false in E1, E2.
      rewrite (wp_putc_char _ (screen_x s) (screen_y s)) by (naive_solver lia). cbv zeta.
      apply IH; [|done]. unfold fresh_ok, page_ok. fields.
      rewrite !Z.rem_mod_nonneg by lia. pose proof (Z.mod_pos_bound (screen_x s + 1) 80).
      pose proof (Z.mod_pos_bound (screen_y s) 25).
      split_and!; try done; try lia; [lens|by apply put_cell_bytes].
Qed.

(** What the conversions print has no line breaks. *)
Definition arg_text (a : arg) : Prop :=
  match a with
  | AInt _ => True
  | AStr s => exists str, until0 s = Some str /\ Forall (fun c => breaks c = false) str
  end.

(** A format without %c whose own line breaks are spaced. *)
Fixpoint spaced_format (fresh : bool) (f : list Z) (mode : fmode) : bool :=
  match f, mode with
  | [], _ => true
  | c :: f', Plain =>
      if bool_decide (c = 37) then spaced_format fresh f' (Conv false)
      else if breaks c then fresh && spaced_format false f' Plain else spaced_format true f' Plain
  | c :: f', Conv alternate =>
      if bool_decide (c = 35) then spaced_format fresh f' (Conv true)
      else negb (bool_decide (c = 99)) && spaced_format fresh f' Plain
  end.

Lemma spaced_more l : spaced false l = true -> spaced true l = true.
Proof. destruct l as [|c l]; [done|]. cbn [spaced]. by destruct (breaks c). Qed.

Lemma spaced_text fresh text l :
  Forall (fun c => breaks c = false) text -> spaced fresh l = true -> spaced fresh (text ++ l) = true.
Proof.
  intros Ht. revert fresh. induction Ht as [|c text Hc _ IH]; intros fresh Hl; [done|].
  cbn [app spaced]. rewrite Hc. apply IH. destruct fresh; [done|by apply spaced_more].
Qed.

Lemma numeral_text radix v : 2 <= radix <= 16 -> Forall (fun c => breaks c = false) (numeral radix v).
Proof.
  intros Hr. unfold numeral. case_bool_decide; [by repeat constructor|].
  apply Forall_reverse, Forall_map. eapply Forall_impl; [apply digits_range; lia|].
  cbn beta. intros d Hd. unfold digit_char, breaks.
  destruct (decide (d < 10)); [rewrite (bool_decide_true (d < 10)) by done|rewrite (bool_decide_false (d < 10)) by done];
    rewrite !u8_small, !bool_decide_false by lia; done.
Qed.

Lemma hex8_text w : Forall (fun c => breaks c = false) (hex8 w).
Proof.
  unfold hex8. apply Forall_app. split; [by apply Forall_replicate|]. apply numeral_text. lia.
Qed.

Lemma decimal_text w : Forall (fun c => breaks c = false) (signed_decimal w).
Proof.
  unfold signed_decimal. case_bool_decide; [constructor; [done|]|]; apply numeral_text; lia.
Qed.

Lemma render_spaced f fresh mode args out :
  render f mode args = Some out -> spaced_format fresh f mode = true -> Forall arg_text args ->
  spaced fresh out = true.
Proof.
  revert fresh mode args out. induction f as [|c f IH]; intros fresh mode args out Hr Hf Ha.
  { destruct mode; [by injection Hr as <-|done]. }
  destruct mode as [|alternate]; cbn [render spaced_format] in *.
  - case_bool_decide; [by eapply IH|]. apply bind_Some in Hr as (l & Hl & [= <-]). cbn [spaced].
    destruct (breaks c); [|by eapply IH]. apply andb_true_iff in Hf as [-> Hf]. by eapply IH.
  - case_bool_decide; [by eapply IH|]. apply andb_true_iff in Hf as [Hc Hf].
    assert (forall text args', Forall (fun c => breaks c = false) text -> Forall arg_text args' ->
      (l ← render f Plain args'; Some (text ++ l)) = Some out -> spaced fresh out = true) as Hafter.
    { intros text args' Ht Ha' Hl. apply bind_Some in Hl as (l & Hl & [= <-]). apply spaced_text; [done|].
      by eapply IH. }
    rewrite negb_true_iff, bool_decide_eq_false in Hc.
    destruct (decide (c = 37)) as [->|H37]; [by eapply Hafter; [repeat constructor| |exact Hr]|].
    destruct (decide (c = 120)) as [->|H120].
    { destruct args as [|[w|?] args]; try discriminate. apply Forall_cons in Ha as [_ Ha].
      eapply Hafter; [|exact Ha|exact Hr]. destruct alternate; [apply hex8_text|apply numeral_text; lia]. }
    destruct (decide (c = 117)) as [->|H117].
    { destruct args as [|[w|?] args]; try discriminate. apply Forall_cons in Ha as [_ Ha].
      eapply Hafter; [|exact Ha|exact Hr]. apply numeral_text; lia. }
    destruct (decide (c = 100)) as [->|H100].
    { destruct args as [|[w|?] args]; try discriminate. apply Forall_cons in Ha as [_ Ha].
      eapply Hafter; [|exact Ha|exact Hr]. apply decimal_text. }
    destruct (decide (c = 115)) as [->|H115].
    { destruct args as [|[w|str] args]; try discriminate. apply Forall_cons in Ha as [(u & Hu & Ht) Ha].
      eapply Hafter; [exact Ht|exact Ha|]. change ((str' ← until0 str; l ← render f Plain args; Some (str' ++ l)) = Some out) in Hr.
      by rewrite Hu in Hr. }
    rewrite !bool_decide_false in Hr by done.
    by eapply Hafter; [| |exact Hr].
Qed.

Section Early.
Context `{HL : !Layout} `{HD : !Device}.
Implicit Types (s : kernel).

(** The video memory before paging. *)
Definition early_ok (fresh : bool) s : Prop :=
  exists page, load (k_frames s) 0 = Some page /\ fresh_ok fresh (screen_of page s).

Lemma wp_early {A} (f : M screen A) fresh fresh' (a : A) s (Q : A -> kernel -> Prop) :
  early_ok fresh s ->
  (forall scr, fresh_ok fresh scr -> wp f (fun b scr' => b = a /\ fresh_ok fresh' scr') scr) ->
  (forall s', early_ok fresh' s' -> display_only 0 s s' -> Q a s') -> wp (early f) Q s.
Proof.
  intros (page & Hp & Hok) Hf HQ. pose proof (Hf _ Hok) as Hw. apply wp_Ret in Hw as (b & scr & Hrun & -> & Hok').
  unfold wp, early. rewrite Hp, Hrun. apply HQ.
  - exists (video scr). split; [|by destruct scr]. unfold with_screen. cbn [set_display k_frames].
    apply (load_insert_eq (k_frames s) 0). by apply load_inv in Hp as [? _].
  - by exists (screen_x scr, screen_y scr), (video scr), (io scr).
Qed.

Lemma early_printf_ok fmt args fresh s out (Q : unit -> kernel -> Prop) :
  early_ok fresh s -> Forall (fun c => c <> 0) (bytes_of_string fmt) ->
  render (bytes_of_string fmt) Plain args = Some out ->
  spaced_format fresh (bytes_of_string fmt) Plain = true -> Forall arg_text args ->
  (forall s', early_ok (ends_fresh fresh out) s' -> display_only 0 s s' -> Q tt s') ->
  wp (early_printf fmt args) Q s.
Proof.
  intros Hok Hnz Hr Hf Ha HQ. unfold early_printf. rewrite wp_bind.
  apply (wp_early _ fresh (ends_fresh fresh out) (len (bytes_of_string fmt)) s); [done| |by intros; apply HQ].
  intros scr Hscr. unfold wp, printf.
  rewrite (printf_loop_renders _ (bytes_of_string fmt) _ _ _ out);
    [|by apply until0_app|apply bytes_of_string_bytes|done].
  pose proof (putcs_spaced out fresh scr Hscr (render_spaced _ _ _ _ _ Hr Hf Ha)) as Hw.
  apply wp_Ret in Hw as ([] & scr' & Hrun & Hok'). rewrite (bind_Ret _ _ _ _ _ Hrun). by split.
Qed.
End Early.

Lemma ends_fresh_app fresh l k : ends_fresh fresh (l ++ k) = ends_fresh (ends_fresh fresh l) k.
Proof. revert fresh. induction l as [|c l IH]; intros fresh; [done|]. cbn [app ends_fresh]. apply IH. Qed.

Lemma fresh_weaken fresh s : fresh_ok fresh s -> fresh_ok false s.
Proof. intros (? & ? & ? & H). split_and!; try (done || lia). Qed.

Section Report.
Context `{HL : !Layout} `{HD : !Device}.
Implicit Types (s : kernel).

(** The report so far: only the video memory, the cursor and the port history have
    changed since [s0]. *)
Definition reported (fresh : bool) s0 s : Prop := early_ok fresh s /\ display_only 0 s0 s.

Lemma reported_refl fresh s : early_ok fresh s -> reported fresh s s.
Proof.
  intros H. split; [done|]. destruct H as (page & [_ Hp]%load_inv & _). exists (k_cursor s), page, (k_io s).
  change (Z.to_nat 0) with 0%nat in *. rewrite list_insert_id by done. by destruct s.
Qed.

Lemma reported_weaken fresh s0 s : reported fresh s0 s -> reported false s0 s.
Proof. intros [(page & Hp & Hf) ?]. split; [|done]. exists page. split; [done|by eapply fresh_weaken]. Qed.

Lemma printed s0 s fresh fmt args out (Q : unit -> kernel -> Prop) :
  reported fresh s0 s ->
  forallb (fun c => negb (bool_decide (c = 0))) (bytes_of_string fmt) && spaced_format fresh (bytes_of_string fmt) Plain = true ->
  render (bytes_of_string fmt) Plain args = Some out -> Forall arg_text args ->
  (forall s', reported (ends_fresh fresh out) s0 s' -> Q tt s') -> wp (early_printf fmt args) Q s.
Proof.
  intros [Hok Hd] [Hnz Hf]%andb_true_iff Hr Ha HQ. eapply early_printf_ok; try done.
  - rewrite forallb_forall in Hnz. apply Forall_forall. intros c Hc%list_elem_of_In. specialize (Hnz c Hc).
    by rewrite negb_true_iff, bool_decide_eq_false in Hnz.
  - intros s' Hok' Hd'. apply HQ. split; [done|]. by eapply display_only_trans.
Qed.

(** A print that does not end the report, whatever its arguments. *)
Ltac print H := eapply printed; [exact H|reflexivity|reflexivity|repeat constructor|];
  clear H; intros ? H; apply reported_weaken in H.

Lemma print_module_ok s0 s count md :
  reported false s0 s -> (16 <= length (mod_image md))%nat ->
  wp (print_module count md) (fun _ s' => reported false s0 s') s.
Proof.
  intros H Hl. unfold print_module. rewrite wp_bind. print H. rewrite wp_bind. print H.
  rewrite wp_bind. print H. rewrite wp_bind.
  eapply wp_mono.
  { apply (wp_for (fun i t => reported (bool_decide (0 < i)) s0 t)); [exact H|].
    intros i t Hi Ht. destruct (load_Some (mod_image md) i) as [c Hc]; [lia|].
    rewrite wp_bind, wp_lift. exists c. split; [done|].
    assert (reported false s0 t) as Ht' by by eapply reported_weaken.
    eapply printed; [exact Ht'|reflexivity|reflexivity|repeat constructor|]. intros t2 Ht2.
    rewrite bool_decide_true by lia. cbn [ends_fresh] in Ht2. rewrite ends_fresh_app in Ht2. exact Ht2. }
  intros [] t Ht. change (bool_decide (0 < 0 + Z.of_nat (Z.to_nat (16 - 0)))) with true in Ht.
  eapply printed; [exact Ht|reflexivity|reflexivity|constructor|]. intros t2 Ht2. by eapply reported_weaken.
Qed.

Lemma print_modules_ok s0 s count l :
  reported false s0 s -> Forall (fun md => (16 <= length (mod_image md))%nat) l ->
  wp (print_modules count l) (fun _ s' => reported false s0 s') s.
Proof.
  intros H Hl. revert s count H. induction Hl as [|md l Hmd _ IH]; intros s count H; cbn [print_modules].
  - by rewrite wp_ret.
  - rewrite wp_bind. eapply wp_mono; [by apply print_module_ok|]. intros [] t Ht. by apply IH.
Qed.

(** The map's entries lie in front of its end, below 4 GB. *)
Record mmap_ok (mbi : multiboot_info) : Prop := {
  mm_range : 0 <= mmap_addr mbi /\ 0 <= mmap_length mbi /\ mmap_addr mbi + mmap_length mbi < 4294967296;
  mm_entries a : mmap_addr mbi <= a < mmap_addr mbi + mmap_length mbi ->
    0 <= mm_size (mmap_at mbi a) /\ a + mm_size (mmap_at mbi a) + 4 < 4294967296;
}.

Lemma print_mmap_ok s0 mbi fuel a s :
  mmap_ok mbi -> mmap_addr mbi <= a -> mmap_addr mbi + mmap_length mbi - a <= Z.of_nat fuel ->
  reported false s0 s -> wp (print_mmap fuel mbi a) (fun _ s' => reported false s0 s') s.
Proof.
  intros [Hr He]. revert a s. induction fuel as [|fuel IH]; intros a s Ha Hf H; cbn [print_mmap];
    rewrite u32_small by lia.
  - rewrite bool_decide_false by lia. by rewrite wp_ret.
  - case_bool_decide as Hlt; [|by rewrite wp_ret]. destruct (He a) as [Hs Hw]; [lia|].
    rewrite wp_bind. unfold print_mmap_entry. print H. rewrite u32_small by lia. apply IH; done || lia.
Qed.

(** The boot loader's information, for the kernel to start: the magic number, a module,
    not both symbol tables, a command line without line breaks, a memory map in order. *)
Record info_ok (magic : Z) (mbi : multiboot_info) (temp : module) : Prop := {
  in_magic : magic = MULTIBOOT_BOOTLOADER_MAGIC;
  in_module : last_module mbi = Some temp;
  in_tables : check_flag (mbi_flags mbi) 4 && check_flag (mbi_flags mbi) 5 = false;
  in_modules : Forall (fun md => (16 <= length (mod_image md))%nat) (mods mbi);
  in_cmdline : check_flag (mbi_flags mbi) 2 = true -> arg_text (AStr (cmdline mbi));
  in_mmap : check_flag (mbi_flags mbi) 6 = true -> mmap_ok mbi;
}.

Lemma when_ok (b : bool) (f : M kernel unit) s0 s :
  reported false s0 s -> (b = true -> wp f (fun _ s' => reported false s0 s') s) ->
  wp (when b f) (fun _ s' => reported false s0 s') s.
Proof. intros H Hf. rewrite wp_when. destruct b; [by apply Hf|done]. Qed.

Lemma early_clear_ok s :
  early_ok false s -> wp (early clear) (fun _ s' => reported false s s') s.
Proof.
  intros H. apply (wp_early clear false false tt s); [done| |by split].
  intros scr ([Hl Hb] & Hx & Hy & H25). apply wp_clear; [done|]. split; [done|].
  unfold fresh_ok, page_ok. fields. split_and!; try (done || lia);
    [unfold clear_video; by rewrite page_map_length|by apply clear_bytes].
Qed.

Lemma print_info_ok magic mbi temp s :
  info_ok magic mbi temp -> early_ok false s ->
  wp (print_info magic mbi) (fun ok s' => ok = true /\ reported false s s') s.
Proof.
  intros [-> Hmod Htab Hmods Hcmd Hmm] Hs. unfold print_info. rewrite wp_bind.
  eapply wp_mono; [by apply early_clear_ok|]. intros [] s1 H.
  rewrite bool_decide_false by (intros Hn; by apply Hn). rewrite wp_bind. print H.
  rewrite wp_bind. eapply wp_mono; [apply when_ok; [exact H|intros _; print H; exact H]|]. clear H. intros [] s2 H.
  rewrite wp_bind. eapply wp_mono; [apply when_ok; [exact H|intros _; print H; exact H]|]. clear H. intros [] s3 H.
  rewrite wp_bind. eapply wp_mono; [apply when_ok; [exact H|]|].
  { intros Hc. destruct (Hcmd Hc) as (str & Hstr & Htext).
    clear Hcmd. revert Hstr. generalize (cmdline mbi). intros text Hstr.
    eapply printed; [exact H|reflexivity|lazy -[until0]; rewrite Hstr; reflexivity|repeat constructor; by exists str|].
    intros t Ht. by eapply reported_weaken. }
  clear H. intros [] s4 H. rewrite wp_bind.
  eapply wp_mono; [apply when_ok; [exact H|intros _; by apply print_modules_ok]|]. clear H. intros [] s5 H.
  rewrite Htab. rewrite wp_bind.
  eapply wp_mono; [apply when_ok; [exact H|intros _; print H; exact H]|]. clear H. intros [] s6 H.
  rewrite wp_bind. eapply wp_mono; [apply when_ok; [exact H|]|].
  { intros Hc. pose proof (Hmm Hc) as Hok. rewrite wp_bind. print H.
    pose proof (mm_range _ Hok) as Hr. apply print_mmap_ok; [done|lia|lia|done]. }
  clear H. intros [] s7 H. by rewrite wp_ret.
Qed.
End Report.

(** ** The devices *)

Section Setup.
Context `{HL : !Layout} `{HD : !Device}.
Implicit Types (k : kernel).

(** terminal_init: the terminals' pages are changed, but not their sizes nor the video
    memory; the first terminal is the visible one, and active. *)
Definition pages_ok (page : list Z) k : Prop :=
  load (k_frames k) 0 = Some page /\ length (k_frames k) = 4%nat /\
  Forall (fun p => length p = 4096%nat) (k_frames k).

Lemma put_frame_ok page k n i v (Q : unit -> kernel -> Prop) :
  pages_ok page k -> 1 <= n <= 3 -> 0 <= i < 4096 ->
  (forall fr, let k' := set_display (k_cursor k) fr (k_io k) k in pages_ok page k' -> Q tt k') ->
  wp (put_frame n i v) Q k.
Proof.
  intros (Hp & Hl & Hf) Hn Hi HQ. unfold put_frame. rewrite wp_bind, wp_get, wp_bind, wp_lift.
  destruct (load_Some (k_frames k) n) as [pg Hpg]; [lia|]. exists pg. split; [done|].
  pose proof (load_Forall _ _ _ _ Hf Hpg) as Hlen. cbn beta in Hlen.
  rewrite wp_bind, wp_lift. eexists. split; [apply store_in; lia|].
  rewrite wp_bind, wp_lift. eexists. split; [apply store_in; lia|]. rewrite wp_modify. apply HQ.
  unfold pages_ok. cbn [set_display k_frames]. split; [|split].
  - by rewrite load_insert_ne by lia.
  - by rewrite length_insert.
  - apply Forall_insert; [done|]. by rewrite length_insert.
Qed.

Definition init_terminal (t : terminal) : terminal := Terminal 0 0 (line_buffer t) 0 0 0 0 0 0 0.

Lemma terminal_init_ok page k :
  pages_ok page k -> length (terminals (k_terms k)) = 3%nat ->
  exists fr, let k1 := set_display (k_cursor k) fr (k_io k) k in pages_ok page k1 /\
    terminal_init k = Ret tt (lset (Terms (alter (set_active 1) 0%nat (init_terminal <$> terminals (k_terms k))) 0
                                      (newterminal_flag (k_terms k))) k1).
Proof.
  intros Hk Hl.
  assert (wp (for_range 0 (NUM_ROWS * NUM_COLS) (fun i => put_frame 1 i 32 ;; put_frame 2 i 32 ;; put_frame 3 i 32))
    (fun _ k' => exists fr, k' = set_display (k_cursor k) fr (k_io k) (lset (Terms (terminals (k_terms k)) 0 (newterminal_flag (k_terms k))) k) /\
       pages_ok page k') (lset (Terms (terminals (k_terms k)) 0 (newterminal_flag (k_terms k))) k)) as Hloop.
  { eapply wp_mono; [apply (wp_for (fun _ k' => exists fr,
      k' = set_display (k_cursor k) fr (k_io k) (lset (Terms (terminals (k_terms k)) 0 (newterminal_flag (k_terms k))) k) /\
      pages_ok page k')); [|]|].
    - exists (k_frames k). split; [by destruct k|done].
    - intros i t Hi (fr & -> & Ht). change (NUM_ROWS * NUM_COLS) with 2000 in Hi.
      rewrite wp_bind. eapply put_frame_ok; [exact Ht|lia|lia|]. intros fr1 k1 Ht1.
      rewrite wp_bind. eapply put_frame_ok; [exact Ht1|lia|lia|]. intros fr2 k2 Ht2.
      eapply put_frame_ok; [exact Ht2|lia|lia|]. intros fr3 k3 Ht3. exists fr3. by split.
    - done. }
  apply wp_unit in Hloop as (k' & Hloop & fr & -> & Hok). exists fr. split; [exact Hok|].
  unfold terminal_init, set_old_terminal.
  rewrite (bind_Ret _ _ k tt (lset (Terms (terminals (k_terms k)) 0 (newterminal_flag (k_terms k))) k)) by done.
  set (k0 := lset (Terms _ _ _) k) in *.
  rewrite (bind_Ret (get_term_buffer 0) _ k0 1 k0), (bind_Ret (get_term_buffer 1) _ k0 2 k0),
    (bind_Ret (get_term_buffer 2) _ k0 3 k0) by done.
  rewrite (bind_Ret _ _ _ _ _ Hloop). unfold k0. clear -Hl.
  destruct (terminals (k_terms k)) as [|t0 [|t1 [|t2 [|]]]] eqn:E; done.
Qed.
End Setup.

(** ** Properties *)

(** C40: the report on the boot loader's information ends: for information that the kernel
    accepts (the loader's magic number, not both of the exclusive flags 4 and 5, a module), any
    number of modules and any memory map whose entries lie in front of its end, print_info lets
    the kernel go on, and it has changed nothing but the video memory, the cursor and the
    cursor's port. The loop over the memory map is not bounded by the code; it ends because an
    entry takes at least the four bytes of its size. *)
Theorem boot_report_terminates `{!Layout} magic mbi temp s :
  info_ok magic mbi temp -> early_ok false s ->
  exists s', print_info magic mbi s = Ret true s' /\ display_only 0 s s'.
Proof.
  intros Hi Hs. pose proof (print_info_ok _ _ _ _ Hi Hs) as Hw.
  apply wp_Ret in Hw as (ok & s' & Hr & -> & _ & Hd). eauto.
Qed.

(** What a boot loader passes, for the examples: all but the tables, one module, a
    memory map of two entries. *)
Definition demo_module : module := Mod 0x500000 0x501000 exe_image.
Definition demo_info : multiboot_info :=
  MultibootInfo 0x4F 639 65000 0x8000FFFF (cstring "bootimg") [demo_module] 0 0 0 0 48 0x9000
    (fun a => MemoryMap 20 0 0 0x9FC00 0 1).
Definition dark_kernel : kernel :=
  with_frames (replicate 4 (replicate 4096 0))
    (Kernel (0, 0) [] [] (Paging (fun _ _ => 0) (fun _ _ => 0) 0x11 0 0) (Fs 0 [] 0) (0, 0) 0
       (Keyboard 0 0 0 0 0) (Terms (replicate 3 (Terminal 0 0 (replicate 128 0) 0 0 0 0 0 0 0)) 0 0)
       (Sched [None; None; None] 0)
       (Procs (replicate 7 (-1)) 0 0 0 0 0 (pcbs (k_procs demo_proc))) (Cpustate 0 0 0 0) (fun _ _ => 0)).

Lemma dark_early : early_ok false dark_kernel.
Proof.
  exists (replicate 4096 0). split; [reflexivity|]. unfold fresh_ok, page_ok. cbn [screen_of fst snd].
  split_and!; try (done || lia || reflexivity). apply Forall_replicate. unfold byte. lia.
Qed.

Lemma demo_info_ok : info_ok 0x2BADB002 demo_info demo_module.
Proof.
  split.
  - reflexivity.
  - reflexivity.
  - reflexivity.
  - constructor; [|constructor]. apply Nat.leb_le. vm_compute. reflexivity.
  - intros _. exists (bytes_of_string "bootimg"). split; [reflexivity|]. by repeat constructor.
  - intros _. split; [cbn; lia|]. cbn. intros a Ha. lia.
Qed.

Lemma boot_report_terminates_witness :
  exists s', @print_info 0x2BADB002 demo_info dark_kernel = Ret true s' /\ display_only 0 dark_kernel s'.
Proof.
  apply (@boot_report_terminates demo_layout 0x2BADB002 demo_info demo_module dark_kernel);
    [exact demo_info_ok|exact dark_early].
Defined.
