(* ===== verification/Startup.v ===== *)
(** * From the boot loader to the first shell

    What entry (Boot.v) leaves behind: the devices configured, and the first program
    entered. *)
From S2P Require Import Kernel Terminal Scheduler Syscall Exec Process Keyboard Typing.
From S2P Require Import Descriptors Boot.

(** ** The interrupt lines *)

(** The enabled lines are those of [l]. *)
Definition lines_are (p0 : pics) (l : list Z) (h : list ioev) : Prop :=
  pics_ready (pics_after p0 h) /\
  forall m, 0 <= m < 16 -> line_enabled (pics_after p0 h) m = bool_decide (m ∈ l).

Lemma lines_masked p0 h :
  pics_after p0 h = Pics (Chip 0 0x20 0xFF []) (Chip 0 0x28 0xFF []) -> lines_are p0 [] h.
Proof.
  intros E. unfold lines_are. rewrite E. split; [repeat split; try done; cbn; lia|]. intros m Hm.
  unfold line_enabled. cbn [chip1 chip2 imr]. change 0xFF with (Z.ones 8).
  case_bool_decide; by rewrite Z.ones_spec_low by lia.
Qed.

Lemma lines_enable p0 l n h h' :
  lines_are p0 l h -> pics_ready (pics_after p0 h') ->
  (forall m, 0 <= m < 16 ->
    line_enabled (pics_after p0 h') m = enabled_after_enable n m (line_enabled (pics_after p0 h) m)) ->
  lines_are p0 (l ++ n :: (if bool_decide (n >= 8) then [2] else [])) h'.
Proof.
  intros [_ Hl] Hr He. split; [done|]. intros m Hm. rewrite He, Hl by done. unfold enabled_after_enable.
  apply Bool.eq_iff_eq_true. rewrite !orb_true_iff, !bool_decide_eq_true, Z.eqb_eq, elem_of_app, elem_of_cons.
  destruct (decide (n >= 8)).
  - rewrite (bool_decide_true (n >= 8)) by done. rewrite list_elem_of_singleton. cbn [andb]. rewrite Z.eqb_eq. tauto.
  - rewrite (bool_decide_false (n >= 8)) by done. rewrite elem_of_nil. cbn [andb]. naive_solver.
Qed.

(** ** The devices *)

Lemma wp_run {S A B} (m : M S A) (f : A -> M S B) Q s a s' :
  m s = Ret a s' -> wp (f a) Q s' -> wp (m ≫= f) Q s.
Proof. intros H HQ. rewrite wp_bind. unfold wp at 1. by rewrite H. Qed.

Section Setup.
Context `{HL : !Layout} `{HK : !Linked} `{HD : !Device} (p0 : pics) `{HP : !PicDevice p0}.
Implicit Types (k : kernel).

(** The kernel as the boot loader starts it: the initial values of the variables, the
    cursor on the screen. *)
Record powered_on k : Prop := {
  po_screen : early_ok false k;
  po_frames : length (k_frames k) = 4%nat /\ Forall (fun p => length p = 4096%nat) (k_frames k);
  po_terminals : length (terminals (k_terms k)) = 3%nat;
  po_lines : Forall (fun t => length (line_buffer t) = 128%nat) (terminals (k_terms k));
  po_flag : newterminal_flag (k_terms k) = 0;
  po_sched : k_sched k = Sched [None; None; None] 0;
  po_openTasks : openTasks (k_procs k) = replicate 7 (-1);
  po_procs : procs_ok k;
}.

Lemma reported_powered k k' fresh : powered_on k -> reported fresh k k' -> powered_on k'.
Proof.
  intros [_ [Hl Hf] ? ? ? ? ? [? ?]] [(page & Hp & Hok) (c & page' & h & ->)].
  assert (page' = page) as ->.
  { cbn [set_display k_frames] in Hp. rewrite (load_insert_eq (k_frames k) 0) in Hp by lia. by injection Hp. }
  split; try done.
  - exists page. split; [done|by eapply fresh_weaken].
  - cbn [set_display k_frames]. split; [by rewrite length_insert|]. apply Forall_insert; [done|].
    by destruct Hok as ([? _] & _).
Qed.

Lemma powered_tss v k : powered_on k -> powered_on (lset v k).
Proof. intros [? ? ? ? ? ? ? [? ?]]. by split. Qed.

Lemma segments_set ldt tss k :
  exists gdt, setup_segments ldt tss (MachineState k zero_idt gdt_init 0 0)
  = Ret tt (MachineState (lset (Cpustate 0x800000 KERNEL_DS (esp_0 (k_cpu k)) (ebp_0 (k_cpu k))) k)
              zero_idt gdt KERNEL_LDT KERNEL_TSS).
Proof. eexists. reflexivity. Qed.

(** What setup_devices has done; [bs] are the control blocks. *)
Record configured (temp : module) (bs : list pcb) k : Prop := {
  cf_ready : kernel_ready k 0;
  cf_image : image (k_fs k) = mod_image temp;
  cf_index : currentDirIndex (k_fs k) = 0;
  cf_pcbs : pcbs (k_procs k) = bs;
  cf_line : exists t, load (terminals (k_terms k)) 0 = Some t /\ length (line_buffer t) = 128%nat /\ buffer_i t = 0;
  cf_screen : exists page, load (k_frames k) 0 = Some page /\ length page = 4096%nat /\ bytes page /\
    text page = replicate 2000 32 /\ tty_ok (tty_of k page);
  cf_maps t : 1 <= t <= 6 -> maps (k_paging k) t VIDEO_MEM;
  cf_openTasks : openTasks (k_procs k) = replicate 7 (-1);
  cf_flag : newterminal_flag (k_terms k) = 0;
  cf_old : old_terminal (k_terms k) = 0;
  cf_ids : program_id <$> terminals (k_terms k) = [0; 0; 0];
  cf_sched : k_sched k = Sched [Some 0; None; None] 0;
  cf_lines : lines_are p0 [1; 8; 2] (k_io k);
}.

Lemma enable_line n k l :
  lines_are p0 l (k_io k) -> 0 <= n < 16 ->
  exists h, (zoom (enable_irq n) : M kernel unit) k = Ret tt (set_display (k_cursor k) (k_frames k) h k) /\
    lines_are p0 (l ++ n :: (if bool_decide (n >= 8) then [2] else [])) h.
Proof.
  intros Hl Hn. destruct (enable_irq_spec p0 n (lget k)) as (h & Hr & (Hready & _) & Hen); [apply Hl|done|].
  exists h. split; [|by eapply lines_enable].
  rewrite (zoom_Ret _ k _ _ Hr). do 2 f_equal. by destruct k as [? ? ? ? ? [? ?]].
Qed.

Lemma blank_display k page :
  pages_ok page k -> video_frame k = Some 0 ->
  on_screen clear k
  = Ret tt (set_display (k_cursor k) (<[Z.to_nat 0 := clear_video page]> (k_frames k)) (cursor_events 0 0 ++ k_io k) k).
Proof.
  intros (Hp & Hl & Hf) Hv.
  assert (wp (on_screen clear) (fun _ k' => k' = set_display (k_cursor k) (<[Z.to_nat 0 := clear_video page]> (k_frames k))
    (cursor_events 0 0 ++ k_io k) k) k) as Hw.
  { rewrite (wp_on_screen _ _ _ 0 page) by done. apply wp_clear.
    - cbn [screen_of video]. by apply (load_Forall _ _ _ _ Hf Hp).
    - unfold with_screen. cbn. by destruct (k_cursor k). }
  by apply wp_unit in Hw as (k' & Hr & ->).
Qed.

(** The video memory at the start, and a cursor that clear leaves. *)
Definition boot_page (page : list Z) k : Prop := bytes page /\ tty_ok (tty_of k page).

Lemma early_page k : early_ok false k -> exists page, load (k_frames k) 0 = Some page /\ boot_page page k.
Proof.
  intros (page & Hp & [_ Hb] & Hx & Hy & H25). exists page. split; [done|]. split; [done|].
  cbn in Hx, Hy, H25. unfold tty_ok, tty_of. cbn. split; [done|]. split; [lia|]. intros. destruct H25; lia.
Qed.

(** The part behind the descriptor tables, on the kernel's state. *)
Definition late_setup (temp : module) : M kernel unit :=
  init_file_system temp ;;
  terminal_init ;;
  on_screen clear ;;
  add_task_to_queue 0 ;;
  (zoom (init_PIT 100) : M kernel unit).

Lemma late_setup_ok temp page k :
  pages_ok page k -> boot_page page k -> Forall (fun t => length (line_buffer t) = 128%nat) (terminals (k_terms k)) -> length (terminals (k_terms k)) = 3%nat -> newterminal_flag (k_terms k) = 0 ->
  k_sched k = Sched [None; None; None] 0 -> openTasks (k_procs k) = replicate 7 (-1) -> procs_ok k ->
  cr3 (k_paging k) = dir_addr 0 -> kernel_video (k_paging k) ->
  (forall t, 1 <= t <= 6 -> maps (k_paging k) t VIDEO_MEM) -> lines_are p0 [1; 8; 2] (k_io k) ->
  wp (late_setup temp) (fun _ k' => configured temp (pcbs (k_procs k)) k') k.
Proof.
  intros Hpages [Hbytes Hcursor] Hlines Ht Hflag Hs Ho Hprocs Hc Hv Hm Hl. unfold late_setup.
  set (k1 := lset (Fs (mod_start temp) (mod_image temp) 0) k).
  apply (wp_run _ _ _ _ tt k1). { unfold k1. by destruct k. }
  destruct (terminal_init_ok page k1) as (fr & Hpages1 & Hinit); [done..|].
  eapply wp_run; [exact Hinit|]. clear Hinit. set (k2 := lset (Terms _ _ _) _).
  assert (video_frame k2 = Some 0) as Hvf.
  { unfold video_frame. change (k_paging k2) with (k_paging k). by rewrite translate_kernel_video. }
  pose proof (blank_display k2 page Hpages1 Hvf) as Hclear.
  eapply wp_run; [exact Hclear|]. clear Hclear. set (k3 := set_display _ _ _ k2).
  destruct (add_task_eq 0 k3) as [Hadd _].
  { change (k_sched k3) with (k_sched k). by rewrite Hs. }
  { change (k_sched k3) with (k_sched k). rewrite Hs. simpl. lia. }
  eapply wp_run; [exact Hadd|]. clear Hadd. set (k4 := with_tasks _ k3).
  apply wp_Ret. eexists _, _. split; [reflexivity|].
  assert (k_sched k4 = Sched [Some 0; None; None] 0) as Hs4.
  { change (k_sched k4) with (Sched (queued 0 k3) (current_task_idx (k_sched k))). unfold queued.
    change (k_sched k3) with (k_sched k). by rewrite Hs. }
  assert (terminals (k_terms k4) = alter (set_active 1) 0%nat (init_terminal <$> terminals (k_terms k))) as Ht4
    by done.
  match goal with |- configured _ _ ?k => set (k5 := k) end.
  assert (k_sched k5 = k_sched k4) as Hs5 by done. assert (k_terms k5 = k_terms k4) as Ht5 by done.
  split; try done.
  - split; rewrite ?Hs5, ?Ht5, ?Hs4, ?Ht4; try done.
    + by rewrite length_alter, length_fmap.
    + change (openTasks (k_procs k5)) with (openTasks (k_procs k)). by rewrite Ho.
    + by destruct Hprocs.
  - rewrite Ht5, Ht4. destruct (terminals (k_terms k)) as [|t l]; [done|]. apply Forall_inv in Hlines.
    by exists (set_active 1 (init_terminal t)).
  - destruct Hpages1 as (Hp1 & Hl1 & Hf1). exists (clear_video page).
    pose proof (load_Forall _ _ _ _ Hf1 Hp1) as Hlen. cbn beta in Hlen. split; [|split; [|split; [|split]]].
    + change (k_frames k5) with (<[Z.to_nat 0 := clear_video page]> (k_frames k2)). apply load_insert_eq.
      change (k_frames k2) with fr. cbn [set_display k_frames] in Hl1. lia.
    + unfold clear_video. by rewrite page_map_length.
    + by apply clear_bytes.
    + by apply text_clear.
    + exact Hcursor.
  - rewrite Ht5, Ht4. by destruct (terminals (k_terms k)) as [|? [|? [|? [|]]]].
Qed.

Lemma boot_kernel_run {A} (f : M kernel A) k idt gdt ldtr tr a k' :
  f k = Ret a k' ->
  zoom f (MachineState k idt gdt ldtr tr) = Ret a (MachineState k' idt gdt ldtr tr).
Proof. intros H. exact (zoom_Ret f (MachineState k idt gdt ldtr tr) a k' H). Qed.

Lemma setup_devices_ok lo hi temp s :
  powered_on (b_kernel s) -> b_idt s = zero_idt ->
  wp (setup_devices lo hi temp)
    (fun _ s' => configured temp (pcbs (k_procs (b_kernel s))) (b_kernel s') /\ b_idt s' = gate_of lo hi <$> seqZ 0 256 /\
       b_gdt s' = b_gdt s /\ b_ldtr s' = b_ldtr s /\ b_tr s' = b_tr s) s.
Proof.
  destruct s as [k idt gdt ldtr tr]. cbn [b_kernel b_idt b_gdt b_ldtr b_tr].
  intros [Hearly [Hfl Hff] Ht Hlines Hflag Hs Ho Hprocs] ->. unfold setup_devices.
  destruct (early_page k Hearly) as (page & Hpage & Hboot).
  destruct (i8259_init_spec p0 (lget k)) as (h1 & Hr1 & Hp1). apply lines_masked in Hp1.
  eapply wp_run; [apply boot_kernel_run, zoom_Ret, Hr1|]. set (k1 := lset _ k).
  destruct (paging_initialize_spec (k_paging k1)) as (pg & Hr2 & Hc & _ & _ & Hmaps & Hvid).
  eapply wp_run; [apply boot_kernel_run, zoom_Ret, Hr2|]. set (k2 := lset _ k1).
  eapply wp_run; [apply zoom_Ret, idt_table|].
  destruct (enable_line 1 k2 []) as (h3 & Hr3 & Hl3); [exact Hp1|lia|].
  eapply wp_run; [apply boot_kernel_run, Hr3|]. set (k3 := set_display _ _ _ k2).
  destruct (enable_line 8 k3 [1]) as (h4 & Hr4 & Hl4); [exact Hl3|lia|].
  eapply wp_run; [apply boot_kernel_run, Hr4|]. set (k4 := set_display _ _ _ k3).
  assert (pcbs (k_procs k4) = pcbs (k_procs k)) as Hpcbs by reflexivity. rewrite <-Hpcbs.
  assert (k_cursor k4 = k_cursor k) as Hcursor by reflexivity. unfold boot_page, tty_of in Hboot. rewrite <-Hcursor in Hboot.
  assert (wp (late_setup temp) (fun _ k' => configured temp (pcbs (k_procs k4)) k') k4) as Hlate.
  { apply (late_setup_ok temp page); [exact (conj Hpage (conj Hfl Hff))|exact Hboot|exact Hlines|exact Ht|exact Hflag|exact Hs|exact Ho| |exact Hc|exact Hvid|exact Hmaps
      |exact Hl4]. destruct Hprocs as [Hpl Hpe]. split; [exact Hpl|exact Hpe]. }
  apply wp_unit in Hlate as (k5 & Hrun & Hk5).
  do 4 (let H := fresh in apply bind_inv in Hrun as ([] & ? & H & Hrun); eapply wp_run; [apply boot_kernel_run, H|]).
  apply wp_Ret. exists tt. eexists. split; [apply boot_kernel_run, Hrun|].
  split; [exact Hk5|]. split; [reflexivity|]. split; [reflexivity|]. split; reflexivity.
Qed.
End Setup.

(** ** The queue behind the first execute *)

Section Queue.
Context `{HL : !Layout} `{HD : !Device}.

Lemma terminal_of_ids s pid a b c :
  program_id <$> terminals (k_terms s) = [a; b; c] ->
  terminal_of s pid = if bool_decide (a = pid) then Some 0 else if bool_decide (b = pid) then Some 1
                      else if bool_decide (c = pid) then Some 2 else None.
Proof.
  unfold terminal_of. destruct (terminals (k_terms s)) as [|ta [|tb [|tc [|]]]]; intros [= <- <- <-].
  rewrite !filter_cons, filter_nil. change (load [ta; tb; tc] 0) with (Some ta).
  change (load [ta; tb; tc] 1) with (Some tb). change (load [ta; tb; tc] 2) with (Some tc).
  cbn [fmap option_fmap option_map].
  repeat case_bool_decide; repeat case_decide; try done; exfalso; congruence.
Qed.

Lemma first_queue p0 temp bs k contents e esp ebp :
  configured p0 temp bs k ->
  tasks (k_sched (entered 0 1 contents (prepared 0 1 [] e esp ebp k))) = [Some 0; Some (-1); None].
Proof.
  intros Hc. set (s2 := claimed 1 0 (first_shell 0 e k)).
  change (rescheduled s2 0 1 1 = [Some 0; Some (-1); None]).
  destruct (first_shell_fields 0 e k) as (F1 & F2 & _ & F4 & _).
  destruct (claimed_fields 1 0 (first_shell 0 e k)) as (G1 & G2 & G3 & _ & _ & _ & _ & _ & _ & G10).
  fold s2 in G1, G2, G3, G10. rewrite F2, F4, (cf_openTasks _ _ _ _ Hc), (cf_flag _ _ _ _ Hc) in G10.
  rewrite F1, (cf_sched _ _ _ _ Hc) in G1, G2. rewrite F2 in G3.
  assert (program_id <$> terminals (k_terms s2) = [0; 0; 0]) as Hids by (rewrite G3; apply Hc).
  unfold rescheduled. rewrite !(terminal_of_ids s2 _ 0 0 0 Hids), G1, G2, G10. reflexivity.
Qed.
End Queue.

Lemma shell_command : command_line (cstring "shell") (bytes_of_string "shell") [].
Proof.
  exists 0%nat, 0%nat, 0, []. split; [reflexivity|]. split; [by apply word_check|]. split; [done|].
  split; [constructor|]. split; [by right; right|]. split; [done|lia].
Qed.

(** ** Properties *)

Definition start_state (k : kernel) : machine_state := MachineState k zero_idt gdt_init 0 0.

(** entry up to the first program. *)
Lemma boot_reaches `{!Layout} `{!Linked} `{!Device} p0 `{!PicDevice p0} m ldt tss lo hi magic mbi temp n N D ino L e k :
  powered_on k -> info_ok magic mbi temp ->
  wf_image (mod_image temp) n N D -> names_file (mod_image temp) (bytes_of_string "shell") N ino L -> L <= 0x3B8000 ->
  length (m_stack m) = 40%nat ->
  elf_entry (header (file_contents (mod_image temp) ino) (m_stack m)) = Some e ->
  exists k3 s', configured p0 temp (pcbs (k_procs k)) k3 /\
    entry m ldt tss lo hi magic mbi (start_state k) = Ret (Started (Iret e 0x83FFFFC)) s' /\
    b_kernel s' = entered 0 1 (file_contents (mod_image temp) ino) (prepared 0 1 [] e (m_esp m) (m_ebp m) k3) /\
    b_idt s' = gate_of lo hi <$> seqZ 0 256 /\ b_ldtr s' = KERNEL_LDT /\ b_tr s' = KERNEL_TSS.
Proof.
  intros Hk Hinfo Hwf Hfile HL Hst He.
  pose proof (print_info_ok _ _ _ _ Hinfo (po_screen _ Hk)) as Hw.
  apply wp_Ret in Hw as (ok & k1 & Hprint & -> & Hrep). pose proof (reported_powered _ _ _ Hk Hrep) as Hk1.
  assert (pcbs (k_procs k1) = pcbs (k_procs k)) as Hpcbs by (destruct Hrep as [_ (c & page' & h & ->)]; done).
  unfold entry, start_state. erewrite bind_Ret by (apply boot_kernel_run, Hprint). cbn iota.
  destruct (segments_set ldt tss k1) as (gdt & Hseg). rewrite (bind_Ret _ _ _ _ _ Hseg).
  rewrite (in_module _ _ _ Hinfo). rewrite (bind_Ret (lift (Some temp)) _ _ temp _) by done.
  match goal with |- context [MachineState ?k zero_idt] => set (k2 := k) end.
  assert (powered_on k2) as Hk2 by by apply powered_tss.
  pose proof (setup_devices_ok p0 lo hi temp (MachineState k2 zero_idt gdt KERNEL_LDT KERNEL_TSS) Hk2 eq_refl) as Hw.
  apply wp_unit in Hw as ([k3 idt3 gdt3 ldtr3 tr3] & Hsetup & Hc & Hidt & _ & Hldtr & Htr). cbn in Hc, Hidt, Hldtr, Htr.
  change (pcbs (k_procs k2)) with (pcbs (k_procs k1)) in Hc. rewrite Hpcbs in Hc.
  rewrite (bind_Ret _ _ _ _ _ Hsetup).
  assert (free_pid k3 = Some 1) as Hfree by (unfold free_pid; by rewrite (cf_openTasks _ _ _ _ Hc)).
  pose proof (execute_runs (mod_image temp) n N D k3 0 1 VIDEO_MEM (cstring "shell") (bytes_of_string "shell") []
    ino L e (m_stack m) (m_esp m) (m_ebp m) Hwf (cf_image _ _ _ _ Hc) (cf_ready _ _ _ _ Hc) Hfree ltac:(lia)
    (cf_maps _ _ _ _ Hc 1 ltac:(lia)) shell_command (cstring_bytes _) ltac:(simpl; lia) ltac:(simpl; lia)
    Hfile HL Hst He) as Hrun.
  exists k3. erewrite bind_Ret by (apply boot_kernel_run, Hrun). eexists. split; [exact Hc|]. split; [reflexivity|].
  by split_and!.
Qed.

(** the kernel boots into the shell. From power-on, with a boot loader's information
    whose last module is a well-formed file system image with an executable "shell",
    entry does not return: it enters the shell at its entry point, as process 1 with the
    shell's bytes in its memory and its address space loaded. By then the interrupt
    table holds the gates of idt_initialize, the registers LDTR and TR the selectors of
    the two descriptors, and exactly the keyboard, the clock and the cascade are
    unmasked: the timer's line is not, so nothing calls the scheduler. Its queue holds
    the first terminal and, from execute, a pointer in front of the terminals. *)
Theorem boot_runs_shell `{!Layout} `{!Linked} `{!Device} p0 `{!PicDevice p0} m ldt tss lo hi magic mbi temp
    n N D ino L e k :
  powered_on k -> info_ok magic mbi temp ->
  wf_image (mod_image temp) n N D -> names_file (mod_image temp) (bytes_of_string "shell") N ino L -> L <= 0x3B8000 ->
  length (m_stack m) = 40%nat ->
  elf_entry (header (file_contents (mod_image temp) ino) (m_stack m)) = Some e ->
  exists s', entry m ldt tss lo hi magic mbi (start_state k) = Ret (Started (Iret e 0x83FFFFC)) s' /\
    cr3 (k_paging (b_kernel s')) = dir_addr 1 /\
    (forall i x, load (file_contents (mod_image temp) ino) i = Some x ->
                 k_programs (b_kernel s') 1 (0x48000 + i) = x) /\
    b_idt s' = gate_of lo hi <$> seqZ 0 256 /\ b_ldtr s' = KERNEL_LDT /\ b_tr s' = KERNEL_TSS /\
    lines_are p0 [1; 8; 2] (k_io (b_kernel s')) /\
    tasks (k_sched (b_kernel s')) = [Some 0; Some (-1); None].
Proof.
  intros Hk Hinfo Hwf Hfile HL Hst He.
  destruct (boot_reaches p0 m ldt tss lo hi magic mbi temp n N D ino L e k Hk Hinfo Hwf Hfile HL Hst He)
    as (k3 & s' & Hc & Hrun & Hs' & Hidt & Hldtr & Htr).
  pose proof (entered_started k3 0 1 [] (file_contents (mod_image temp) ino) e (m_esp m) (m_ebp m)
    (cf_ready _ _ _ _ Hc) ltac:(lia) ltac:(lia) (Forall_nil_2 _) ltac:(simpl; lia)) as Hstarted.
  exists s'. split; [done|]. rewrite Hs', (st_paging _ _ _ _ _ _ _ _ Hstarted).
  split; [done|]. split; [|split; [done|]; split; [done|]; split; [done|]; split; [|by eapply first_queue]].
  - intros i x Hx. rewrite (st_memory _ _ _ _ _ _ _ _ Hstarted). pose proof (load_inv _ _ _ Hx) as [? _].
    unfold programs_with, program_offset. rewrite bool_decide_true by lia.
    replace (0x48000 + i - 0x48000) with i by lia. by rewrite Hx.
  - rewrite (st_interrupts _ _ _ _ _ _ _ _ Hstarted). exact (cf_lines _ _ _ _ Hc).
Qed.

(** Controllers that answer with their masks, for the example. *)
#[local] Instance chips : Device | 0 := fun h port =>
  if port =? PIC1_DATA then imr (chip1 (pics_after demo_pics h))
  else if port =? PIC2_DATA then imr (chip2 (pics_after demo_pics h)) else 0.
#[local] Instance chips_answer : PicDevice demo_pics.
Proof. by split. Qed.

Lemma dark_powered : powered_on dark_kernel.
Proof.
  split; [exact dark_early| | | | | | |]; try reflexivity.
  - split; [reflexivity|]. apply Forall_replicate. reflexivity.
  - by apply Forall_replicate.
  - destruct (pr_ok _ _ demo_process) as [? ?]. by split.
Qed.

Lemma boot_runs_shell_witness :
  exists s', @entry demo_layout demo_linked chips (Machine (replicate 40 0) 111 222) 0x412340 0x412280 0 0
      0x2BADB002 demo_info (start_state dark_kernel)
    = Ret (Started (Iret 0x8048020 0x83FFFFC)) s' /\
    cr3 (k_paging (b_kernel s')) = @dir_addr demo_layout 1 /\
    (forall i x, load (file_contents exe_image 0) i = Some x ->
                 k_programs (b_kernel s') 1 (0x48000 + i) = x) /\
    b_idt s' = @gate_of demo_linked 0 0 <$> seqZ 0 256 /\ b_ldtr s' = KERNEL_LDT /\ b_tr s' = KERNEL_TSS /\
    lines_are demo_pics [1; 8; 2] (k_io (b_kernel s')) /\
    tasks (k_sched (b_kernel s')) = [Some 0; Some (-1); None].
Proof.
  apply (@boot_runs_shell demo_layout demo_linked chips demo_pics chips_answer (Machine (replicate 40 0) 111 222)
    0x412340 0x412280 0 0 0x2BADB002 demo_info demo_module 2 2 2 0 44 0x8048020 dark_kernel);
    [exact dark_powered|exact demo_info_ok|exact exe_image_wf|exact shell_file|lia|reflexivity|vm_compute; reflexivity].
Defined.
