(* ===== verification/Types.v ===== *)
(** * The types of the kernel's state

    Every variable of the kernel keeps a value of its type: the arrays their lengths, the
    bytes of the screens and of the programs the range of a byte, indices the bounds of
    what they index, flags 0 or 1; and the page tables stay what paging_initialize and the
    redirections of the screens make of them. No system call, interrupt or step of a
    program breaks that, whatever its arguments are. *)
From S2P Require Import Kernel Terminal Scheduler Syscall Exec Process Keyboard Typing Interrupts Dispatch.

(** ** Computations that keep an invariant *)

(** From states in [I] the computation does not leave [I], and its result is in [P]. *)
Definition keeps {S A} (I : S -> Prop) (P : A -> Prop) (m : M S A) : Prop :=
  forall s, I s -> match m s with Ret a s' => I s' /\ P a | Hang s' => I s' | Undef => True end.

Definition anything {A} : A -> Prop := fun _ => True.

Create HintDb keeps.

Section Keeps.
Context {S : Type} (I : S -> Prop).

Lemma keeps_mono {A} (P Q : A -> Prop) m : keeps I P m -> (forall a, P a -> Q a) -> keeps I Q m.
Proof. intros Hm HPQ s Hs. specialize (Hm s Hs). destruct (m s); [|done..]. destruct Hm. auto. Qed.
Lemma keeps_any {A} (P : A -> Prop) m : keeps I P m -> keeps I anything m.
Proof. intros Hm. by eapply keeps_mono. Qed.
Lemma keeps_ret {A} (P : A -> Prop) a : P a -> keeps I P (mret a).
Proof. by intros Ha s Hs. Qed.
Lemma keeps_bind {A B} (P : A -> Prop) (Q : B -> Prop) m f :
  keeps I P m -> (forall a, P a -> keeps I Q (f a)) -> keeps I Q (m ≫= f).
Proof.
  intros Hm Hf s Hs. unfold mbind, M_bind. specialize (Hm s Hs). destruct (m s) as [a s'| |]; [|done..].
  destruct Hm as [Hs' Ha]. exact (Hf a Ha s' Hs').
Qed.
Lemma keeps_get : keeps I I get.
Proof. by intros s Hs. Qed.
Lemma keeps_gets {A} (f : S -> A) : keeps I (fun a => exists s, I s /\ a = f s) (gets f).
Proof. intros s Hs. split; [done|by exists s]. Qed.
Lemma keeps_lift {A} (o : option A) : keeps I (fun a => o = Some a) (lift o).
Proof. intros s Hs. unfold lift. by destruct o. Qed.
Lemma keeps_modify f : (forall s, I s -> I (f s)) -> keeps I anything (modify f).
Proof. intros Hf s Hs. split; [by apply Hf|done]. Qed.
Lemma keeps_undef {A} (P : A -> Prop) : keeps I P undef.
Proof. by intros s Hs. Qed.
Lemma keeps_hang {A} (P : A -> Prop) : keeps I P hang.
Proof. by intros s Hs. Qed.
Lemma keeps_when b m : keeps I anything m -> keeps I anything (when b m).
Proof. intros Hm. destruct b; [done|by apply keeps_ret]. Qed.
Lemma keeps_for n lo body : (forall i, keeps I anything (body i)) -> keeps I anything (for_ n lo body).
Proof.
  intros Hb. revert lo. induction n as [|n IH]; intros lo; cbn [for_]; [by apply keeps_ret|].
  eapply keeps_bind; [apply Hb|]. intros _ _. apply IH.
Qed.
Lemma keeps_spin cond env :
  Forall (keeps I anything) env ->
  keeps I (fun r => match r with Some env' => Forall (keeps I anything) env' | None => True end) (spin cond env).
Proof.
  intros He. induction He as [|e env Hk He IH]; cbn [spin]; (eapply keeps_bind; [apply keeps_get|]); intros s _.
  - destruct (cond s); by apply keeps_ret.
  - destruct (cond s); [by apply keeps_ret; constructor|]. eapply keeps_bind; [exact Hk|]. by intros _ _.
Qed.
Lemma keeps_zoom {T A} `{!Lens S T} (J : T -> Prop) (P : A -> Prop) (m : M T A) :
  keeps J P m -> (forall s, I s -> J (lget s)) -> (forall s t, I s -> J t -> I (lset t s)) -> keeps I P (zoom m).
Proof.
  intros Hm HIJ HJI s Hs. unfold zoom. specialize (Hm (lget s) (HIJ s Hs)). destruct (m (lget s)); [|by apply HJI|done].
  destruct Hm. split; [by apply HJI|done].
Qed.
End Keeps.

#[global] Arguments keeps_any {S I A} P m.
#[export] Hint Resolve keeps_undef keeps_hang keeps_get keeps_gets keeps_lift : keeps.

(** Code that branches: its parts are in the hint database, or branch again. *)
Ltac keeps_part := solve [eauto 4 with keeps nocore].
Ltac keeps :=
  cbv beta zeta;
  lazymatch goal with
  | |- keeps _ _ (mret _) => apply keeps_ret; try exact Logic.I
  | |- keeps _ _ (if ?b then _ else _) => destruct b eqn:?; keeps
  | |- keeps _ _ (match ?x with _ => _ end) => destruct x eqn:?; keeps
  | |- keeps _ _ (when _ _) => apply keeps_when; keeps
  | |- keeps _ _ (for_ _ _ _) => apply keeps_for; intros; keeps
  | |- keeps _ _ (_ ≫= _) =>
      first [eapply keeps_bind; [keeps_part|]; cbv beta; intros ? ?; keeps
            |eapply (keeps_bind _ anything); [keeps|intros ? _; keeps]]
  | |- _ => try (first [keeps_part | eapply keeps_any; keeps_part])
  end.

(** ** The invariants *)

Definition flag (x : Z) : Prop := x = 0 \/ x = 1.
Definition page_typed (p : list Z) : Prop := length p = 4096%nat /\ bytes p.
Definition frames_typed (fr : list (list Z)) : Prop := length fr = 4%nat /\ Forall page_typed fr.
Definition screen_typed (s : screen) : Prop := page_typed (video s).

Record terminal_typed (t : terminal) : Prop := {
  tt_line : length (line_buffer t) = 128%nat;
  tt_bytes : bytes (line_buffer t);
  tt_index : 0 <= buffer_i t <= 128;
}.
Record terms_typed (t : terms) : Prop := {
  ts_terminals : length (terminals t) = 3%nat;
  ts_typed : Forall terminal_typed (terminals t);
  ts_old : 0 <= old_terminal t <= 2;
  ts_flag : flag (newterminal_flag t);
}.
Definition sched_typed (s : sched) : Prop := length (tasks s) = 3%nat /\ 0 <= current_task_idx s <= 2.
Record keyboard_typed (k : keyboard) : Prop := {
  ky_shift : flag (shift k);
  ky_ctrl : flag (ctrl k);
  ky_capslock : flag (capslock k);
  ky_alt : flag (alt k);
  ky_check : flag (check_enter k);
}.
Record fd_typed (f : file_desc) : Prop := {
  ft_name : length (fd_fileName f) = 32%nat;
  ft_bytes : bytes (fd_fileName f);
  ft_position : 0 <= filePosition f < 4294967296;
  ft_flags : flag (flags f);
}.
Record pcb_typed (p : pcb) : Prop := {
  pt_fds : length (fds p) = 8%nat;
  pt_typed : Forall fd_typed (fds p);
  pt_argument : length (argument p) = 128%nat;
  pt_bytes : bytes (argument p);
}.
Definition process_number (i : Z) : Prop := -1 <= i <= 6.
Record procs_typed (p : procs) : Prop := {
  pr_tasks : length (openTasks p) = 7%nat;
  pr_numbers : Forall process_number (openTasks p);
  pr_status : byte (curr_status p);
  pr_entry : -2147483648 <= first_shell_entry_point p < 2147483648;
  pr_pcbs : length (pcbs p) = 6%nat;
  pr_typed : Forall pcb_typed (pcbs p);
}.

(** All variables but the page tables. *)
Record data_typed (s : kernel) : Prop := {
  dt_frames : frames_typed (k_frames s);
  dt_image : bytes (image (k_fs s));
  dt_kbd : keyboard_typed (k_kbd s);
  dt_terms : terms_typed (k_terms s);
  dt_sched : sched_typed (k_sched s);
  dt_procs : procs_typed (k_procs s);
  dt_programs : forall t i, byte (k_programs s t i);
}.

(** ** The screen *)

Lemma bytes_store l i v l' : bytes l -> byte v -> store l i v = Some l' -> bytes l' /\ length l' = length l.
Proof.
  intros Hl Hv Hs. split; [|by eapply store_length]. apply store_inv in Hs as [_ ->]. by apply Forall_insert.
Qed.
Lemma page_store p i v p' : page_typed p -> byte v -> store p i v = Some p' -> page_typed p'.
Proof. intros [Hl Hb] Hv Hs. destruct (bytes_store p i v p' Hb Hv Hs) as [Hb' Hl']. split; [lia|done]. Qed.

Lemma keeps_zoom_any {S T A} `{!Lens S T} (I : S -> Prop) (m : M T A) :
  (forall s t, I s -> I (lset t s)) -> keeps I anything (zoom m).
Proof.
  intros HI. apply (keeps_zoom I (fun _ => True) anything); [|done|by intros; apply HI].
  intros s _. by destruct (m s).
Qed.
(** Port accesses change the history only. *)
Lemma keeps_outb {S} `{!Lens S (list ioev)} (I : S -> Prop) v port :
  (forall s h, I s -> I (lset h s)) -> keeps I anything (outb v port).
Proof. intros HI. apply keeps_modify. auto. Qed.
Lemma keeps_inb {S} `{!Lens S (list ioev), !Device} (I : S -> Prop) port :
  (forall s h, I s -> I (lset h s)) -> keeps I byte (inb port).
Proof. intros HI s Hs. split; [by apply HI|apply u8_range]. Qed.
Lemma keeps_cli {S} `{!Lens S (list ioev)} (I : S -> Prop) : (forall s h, I s -> I (lset h s)) -> keeps I anything cli.
Proof. intros HI. apply keeps_modify. auto. Qed.
Lemma keeps_sti {S} `{!Lens S (list ioev)} (I : S -> Prop) : (forall s h, I s -> I (lset h s)) -> keeps I anything sti.
Proof. intros HI. apply keeps_modify. auto. Qed.

Section ScreenTypes.
Abbreviation keeps' := (keeps screen_typed).

Lemma outb_types v port : keeps' anything (outb v port).
Proof. by apply keeps_outb. Qed.
Lemma set_x_types x : keeps' anything (set_screen_x x).
Proof. by apply keeps_modify. Qed.
Lemma set_y_types y : keeps' anything (set_screen_y y).
Proof. by apply keeps_modify. Qed.
Lemma vput_types off v : keeps' anything (vput off v).
Proof.
  intros s Hs. unfold vput, get, lift, modify, mbind, M_bind. destruct (store (video s) off (u8 v)) as [p|] eqn:E; [|done].
  split; [|done]. refine (page_store _ _ _ _ Hs (u8_range v) E).
Qed.
#[local] Hint Resolve outb_types set_x_types set_y_types vput_types : keeps.

Lemma update_cursor_types row col : keeps' anything (update_cursor row col).
Proof. unfold update_cursor. keeps. Qed.
#[local] Hint Resolve update_cursor_types : keeps.
Lemma set_cursor_types x y : keeps' anything (set_cursor x y).
Proof. unfold set_cursor, get_cursor_y, get_cursor_x. keeps. Qed.
Lemma clear_types : keeps' anything clear.
Proof. unfold clear. keeps. Qed.
Lemma putc_types c : keeps' anything (putc c).
Proof. unfold putc. keeps. Qed.
#[local] Hint Resolve set_cursor_types clear_types putc_types : keeps.
Lemma puts_types l : keeps' anything (puts l).
Proof.
  induction l as [|c l IH]; cbn [puts]; keeps.
Qed.
Lemma pressed_enter_types : keeps' anything pressed_enter.
Proof. unfold pressed_enter, vget. keeps. Qed.
Lemma move_back_types : keeps' anything move_back.
Proof. unfold move_back, get_cursor_y, get_cursor_x. keeps. Qed.
#[local] Hint Resolve puts_types pressed_enter_types move_back_types : keeps.
Lemma printf_types fmt args : keeps' anything (printf fmt args).
Proof.
  unfold printf. generalize 0 Plain. revert args.
  induction fmt as [|c fmt IH]; intros args n mode; cbn [printf_loop]; [keeps|].
  assert (forall k, (forall w args', keeps' anything (k w args')) -> keeps' anything (next_int args k)) as Hi
    by (intros k Hk; destruct args as [|[w|l] args']; [keeps|apply Hk|keeps]).
  assert (forall k, (forall l args', keeps' anything (k l args')) -> keeps' anything (next_str args k)) as Hs
    by (intros k Hk; destruct args as [|[w|l] args']; [keeps|keeps|apply Hk]).
  destruct mode; repeat (case_match; try apply IH);
    try (first [by apply keeps_ret|eapply keeps_bind; [apply putc_types|by intros]
          |apply Hi; intros|apply Hs; intros]).
  all: keeps.
Qed.
End ScreenTypes.
#[export] Hint Resolve printf_types clear_types set_cursor_types move_back_types pressed_enter_types update_cursor_types : keeps.

(** ** The kernel's parts *)

Lemma Forall_store {A} (P : A -> Prop) l i v l' : Forall P l -> P v -> store l i v = Some l' -> Forall P l' /\ length l' = length l.
Proof.
  intros Hl Hv Hs. split; [|by eapply store_length]. apply store_inv in Hs as [_ ->]. by apply Forall_insert.
Qed.

Section KernelTypes.
Context `{HL : !Layout} `{HO : !Overread} `{HD : !Device} (J : paging -> Prop).

(** What the page tables must keep. *)
Class Stable := {
  stable_cr3 v s : J s -> J (Paging (dirs s) (tables s) (cr0 s) v (cr4 s));
  stable_video pid : keeps J anything (video_mapping pid);
  stable_non_video pid term : keeps J anything (non_video_mapping pid term);
}.
Context `{HJ : !Stable}.

Definition typed (s : kernel) : Prop := data_typed s /\ J (k_paging s).
Abbreviation keeps' := (keeps typed).

Ltac parts := intros; repeat match goal with H : typed _ |- _ => destruct H as [[] ?] end; split; [split|]; cbn; done || auto.

Lemma typed_io s (h : list ioev) : typed s -> typed (lset h s).
Proof. parts. Qed.
Lemma typed_pic s (p : pic) : typed s -> typed (lset p s).
Proof. parts. Qed.
Lemma typed_rtc s (r : rtc) : typed s -> typed (lset r s).
Proof. parts. Qed.
Lemma typed_cpu s (c : cpustate) : typed s -> typed (lset c s).
Proof. parts. Qed.
Lemma typed_paging s (p : paging) : typed s -> J p -> typed (lset p s).
Proof. parts. Qed.
Lemma typed_terms s (t : terms) : typed s -> terms_typed t -> typed (lset t s).
Proof. parts. Qed.
Lemma typed_kbd s (k : keyboard) : typed s -> keyboard_typed k -> typed (lset k s).
Proof. parts. Qed.
Lemma typed_sched s (q : sched) : typed s -> sched_typed q -> typed (lset q s).
Proof. parts. Qed.
Lemma typed_procs s (p : procs) : typed s -> procs_typed p -> typed (lset p s).
Proof. parts. Qed.
Lemma typed_fs s (f : fs) : typed s -> bytes (image f) -> typed (lset f s).
Proof. parts. Qed.
Lemma typed_display c fr h s : typed s -> frames_typed fr -> typed (set_display c fr h s).
Proof. parts. Qed.
Lemma typed_programs f s : typed s -> (forall t i, byte (f t i)) -> typed (set_programs f s).
Proof. parts. Qed.

Lemma frames_store fr n p fr' : frames_typed fr -> page_typed p -> store fr n p = Some fr' -> frames_typed fr'.
Proof. intros [Hl Hf] Hp Hs. destruct (Forall_store _ _ _ _ _ Hf Hp Hs). split; [lia|done]. Qed.

Lemma on_screen_types {A} (P : A -> Prop) (m : M screen A) : keeps screen_typed P m -> keeps' P (on_screen m).
Proof.
  intros Hm s Hs. unfold on_screen. destruct (video_frame s) as [n|]; [|done].
  destruct (load (k_frames s) n) as [page|] eqn:Hp; [|done]. destruct Hs as [Hd HJs]. pose proof (dt_frames _ Hd) as [Hl Hf].
  specialize (Hm (Screen (fst (k_cursor s)) (snd (k_cursor s)) page (k_io s)) (load_Forall _ _ _ _ Hf Hp)).
  assert (forall t, screen_typed t -> typed (set_display (screen_x t, screen_y t) (<[Z.to_nat n := video t]> (k_frames s)) (io t) s))
    as Hback.
  { intros t Ht. apply typed_display; [done|]. split; [by rewrite length_insert|by apply Forall_insert]. }
  destruct (m _) as [a t|t|]; [destruct Hm; split; auto|by apply Hback|done].
Qed.
Lemma kprintf_types fmt args : keeps' anything (kprintf fmt args).
Proof. unfold kprintf. eapply keeps_bind; [apply on_screen_types, printf_types|]. by intros. Qed.

Lemma write_cr3_types v : keeps' anything (zoom (write_cr3 v)).
Proof. apply (keeps_zoom _ J); [apply keeps_modify; intros; by apply stable_cr3|by intros s []|by intros; apply typed_paging]. Qed.
Lemma video_mapping_types pid : keeps' anything (zoom (video_mapping pid)).
Proof. apply (keeps_zoom _ J); [apply stable_video|by intros s []|by intros; apply typed_paging]. Qed.
Lemma non_video_mapping_types pid term : keeps' anything (zoom (non_video_mapping pid term)).
Proof. apply (keeps_zoom _ J); [apply stable_non_video|by intros s []|by intros; apply typed_paging]. Qed.
Lemma zoom_pic_types {A} (m : M pic A) : keeps' anything (zoom m).
Proof. apply keeps_zoom_any. apply typed_pic. Qed.
Lemma zoom_rtc_types {A} (m : M rtc A) : keeps' anything (zoom m).
Proof. apply keeps_zoom_any. apply typed_rtc. Qed.

Lemma find_programid_types : keeps' (fun p => 0 <= p <= 6) find_programid.
Proof.
  unfold find_programid. eapply keeps_bind; [apply keeps_get|]. intros s _. cbv zeta.
  repeat (case_bool_decide; [apply keeps_ret; lia|]). eapply keeps_bind; [apply kprintf_types|]. intros. apply keeps_hang.
Qed.
Lemma get_terminal_types i : keeps' terminal_typed (get_terminal i).
Proof.
  unfold get_terminal. eapply keeps_bind; [apply keeps_get|]. intros s [Hd _]. eapply keeps_mono; [apply keeps_lift|].
  intros t Ht. exact (load_Forall _ _ _ _ (ts_typed _ (dt_terms _ Hd)) Ht).
Qed.
Lemma upd_terminal_types i f : (forall t, terminal_typed t -> terminal_typed (f t)) -> keeps' anything (upd_terminal i f).
Proof.
  intros Hf s Hs. unfold upd_terminal, get, lift, modify, mbind, M_bind. destruct Hs as [Hd HJs].
  pose proof (dt_terms _ Hd) as [Hl Ht Ho Hfl]. destruct (load _ i) as [t|] eqn:Et; [|done].
  destruct (store _ i (f t)) as [ts|] eqn:Es; [|done].
  destruct (Forall_store _ _ _ _ _ Ht (Hf t (load_Forall _ _ _ _ Ht Et)) Es) as [Hts Hlen].
  split; [|done]. apply typed_terms; [done|]. split; cbn; [lia|done..].
Qed.
Lemma get_pcb_types pid : keeps' pcb_typed (get_pcb pid).
Proof.
  unfold get_pcb. eapply keeps_bind; [apply keeps_get|]. intros s [Hd _]. eapply keeps_mono; [apply keeps_lift|].
  intros t Ht. exact (load_Forall _ _ _ _ (pr_typed _ (dt_procs _ Hd)) Ht).
Qed.
Lemma upd_pcb_types pid f : (forall p, pcb_typed p -> pcb_typed (f p)) -> keeps' anything (upd_pcb pid f).
Proof.
  intros Hf s Hs. unfold upd_pcb, get, lift, modify, mbind, M_bind. destruct Hs as [Hd HJs].
  pose proof (dt_procs _ Hd) as []. destruct (load _ (pid - 1)) as [p|] eqn:Et; [|done].
  destruct (store _ (pid - 1) (f p)) as [ps|] eqn:Es; [|done].
  destruct (Forall_store _ _ _ _ _ pr_typed0 (Hf p (load_Forall _ _ _ _ pr_typed0 Et)) Es) as [Hps Hlen].
  split; [|done]. apply typed_procs; [done|]. split; cbn; try done. lia.
Qed.
Lemma get_task_types i : keeps' process_number (get_task i).
Proof.
  unfold get_task. eapply keeps_bind; [apply keeps_get|]. intros s [Hd _]. eapply keeps_mono; [apply keeps_lift|].
  intros t Ht. exact (load_Forall _ _ _ _ (pr_numbers _ (dt_procs _ Hd)) Ht).
Qed.
Lemma set_task_types i v : process_number v -> keeps' anything (set_task i v).
Proof.
  intros Hv s Hs. unfold set_task, get, lift, modify, mbind, M_bind. destruct Hs as [Hd HJs].
  pose proof (dt_procs _ Hd) as []. destruct (store _ i v) as [l|] eqn:Es; [|done].
  destruct (Forall_store _ _ _ _ _ pr_numbers0 Hv Es) as [Hl Hlen].
  split; [|done]. apply typed_procs; [done|]. split; cbn; try done. lia.
Qed.
Lemma get_old_terminal_types : keeps' (fun t => 0 <= t <= 2) get_old_terminal.
Proof. intros s [Hd HJs]. split; [done|]. apply (dt_terms _ Hd). Qed.
Lemma set_old_terminal_types v : 0 <= v <= 2 -> keeps' anything (set_old_terminal v).
Proof. intros Hv. apply keeps_modify. intros s [Hd HJs]. apply typed_terms; [done|]. destruct (dt_terms _ Hd). by split. Qed.
Lemma set_newterminal_flag_types v : flag v -> keeps' anything (set_newterminal_flag v).
Proof. intros Hv. apply keeps_modify. intros s [Hd HJs]. apply typed_terms; [done|]. destruct (dt_terms _ Hd). by split. Qed.
Lemma get_image_types : keeps' (Forall byte) get_image.
Proof. intros s [Hd HJs]. split; [done|]. apply (dt_image _ Hd). Qed.
End KernelTypes.
#[export] Hint Resolve kprintf_types write_cr3_types video_mapping_types non_video_mapping_types zoom_pic_types zoom_rtc_types
  find_programid_types get_terminal_types get_pcb_types get_task_types get_old_terminal_types get_image_types : keeps.
#[export] Hint Resolve on_screen_types set_task_types set_old_terminal_types set_newterminal_flag_types : keeps.
#[export] Hint Extern 2 (keeps _ _ (upd_terminal _ _)) => apply upd_terminal_types : keeps.
#[export] Hint Extern 2 (keeps _ _ (upd_pcb _ _)) => apply upd_pcb_types : keeps.
#[export] Hint Extern 1 (_ <= _ <= _) => lia : keeps.
#[export] Hint Extern 1 (flag _) => (by left) || (by right) : keeps.
#[export] Hint Extern 1 (anything _) => exact Logic.I : keeps.
