(* ===== verification/Safety.v ===== *)
(** * No operation breaks the types

    The operations of every component keep the invariant of Types.v, as far as they have a
    result: an access outside an object has none. So do runs of the kernel, as sequences of
    system calls, interrupts and steps of programs. That calls and interrupts do have a result
    is shown in Progress.v. *)
From S2P Require Import Kernel Terminal Scheduler Syscall Exec Process Keyboard Typing Interrupts Descriptors Dispatch Boot Startup.
From S2P Require Export Types.

Section Operations.
Context `{HL : !Layout} `{HO : !Overread} `{HD : !Device} (J : paging -> Prop) `{HJ : !Stable J}.
Abbreviation keeps' := (keeps (typed J)).

(** *** Members of a terminal *)

Lemma set_active_typed v t : terminal_typed t -> terminal_typed (set_active v t).
Proof. by intros []. Qed.
Lemma set_program_id_typed v t : terminal_typed t -> terminal_typed (set_program_id v t).
Proof. by intros []. Qed.
Lemma set_position_typed x y t : terminal_typed t -> terminal_typed (set_position x y t).
Proof. by intros []. Qed.
Lemma set_context_typed a b c d t : terminal_typed t -> terminal_typed (set_context a b c d t).
Proof. by intros []. Qed.
Lemma set_buffer_i_typed v t : 0 <= v <= 128 -> terminal_typed t -> terminal_typed (set_buffer_i v t).
Proof. intros Hv []. by split. Qed.
Lemma set_line_buffer_typed l t : length l = 128%nat -> bytes l -> terminal_typed t -> terminal_typed (set_line_buffer l t).
Proof. intros Hl Hb []. by split. Qed.
#[local] Hint Resolve set_active_typed set_program_id_typed set_position_typed set_context_typed set_buffer_i_typed
  set_line_buffer_typed : keeps.

(** *** The screens *)

Lemma video_page_types : keeps' anything video_page.
Proof. unfold video_page. keeps. Qed.
Lemma get_term_buffer_types term : keeps' anything (get_term_buffer term).
Proof. unfold get_term_buffer. keeps. Qed.
Lemma copy_page_types dst src : keeps' anything (copy_page dst src).
Proof.
  intros s Hs. unfold copy_page, get, lift, modify, mbind, M_bind. pose proof Hs as [Hd _].
  destruct (load (k_frames s) src) as [p|] eqn:Ep; [|done]. destruct (store (k_frames s) dst p) as [fr|] eqn:Es; [|done].
  split; [|done]. apply typed_display; [done|]. pose proof (dt_frames _ Hd) as [_ Hf].
  eapply frames_store; [exact (dt_frames _ Hd)|exact (load_Forall _ _ _ _ Hf Ep)|exact Es].
Qed.
Lemma put_frame_types n i v : byte v -> keeps' anything (put_frame n i v).
Proof.
  intros Hv s Hs. unfold put_frame, get, lift, modify, mbind, M_bind. pose proof Hs as [Hd _].
  destruct (load (k_frames s) n) as [p|] eqn:Ep; [|done]. destruct (store p i v) as [p'|] eqn:Ep'; [|done].
  destruct (store (k_frames s) n p') as [fr|] eqn:Es; [|done].
  split; [|done]. apply typed_display; [done|]. pose proof (dt_frames _ Hd) as [_ Hf].
  eapply frames_store; [exact (dt_frames _ Hd)|exact (page_store _ _ _ _ (load_Forall _ _ _ _ Hf Ep) Hv Ep')|exact Es].
Qed.
#[local] Hint Resolve video_page_types get_term_buffer_types copy_page_types : keeps.

Lemma save_terminal_types term : keeps' anything (save_terminal term).
Proof.
  unfold save_terminal. eapply keeps_bind; [apply keeps_get|]. intros s _.
  eapply keeps_bind; [apply find_programid_types|]. intros pid _.
  eapply (keeps_bind _ anything); [apply upd_terminal_types; auto with keeps|]. intros _ _. keeps.
Qed.
Lemma terminal_init_types : keeps' anything terminal_init.
Proof.
  unfold terminal_init.
  assert (forall n i, keeps' anything (put_frame n i 32)) by (intros; apply put_frame_types; unfold byte; lia). keeps.
  apply upd_terminal_types. intros t []. split; done || (cbn; lia).
Qed.
#[local] Hint Resolve save_terminal_types : keeps.

(** *** The scheduler *)

Lemma set_tasks_types l : length l = 3%nat -> keeps' anything (set_tasks l).
Proof. intros Hl. apply keeps_modify. intros s [Hd ?]. apply typed_sched; [done|]. by split; [|apply (dt_sched _ Hd)]. Qed.
Lemma add_task_loop_length n i cur t ts ts' : add_task_loop n i cur t ts = Some ts' -> length ts' = length ts.
Proof.
  revert i. induction n as [|n IH]; intros i; cbn [add_task_loop]; [by intros [= <-]|].
  intros (x & _ & H)%bind_Some. destruct x; [by eapply IH|by eapply store_length].
Qed.
Lemma remove_task_loop_length n i t ts ts' : remove_task_loop n i t ts = Some ts' -> length ts' = length ts.
Proof.
  revert i. induction n as [|n IH]; intros i; cbn [remove_task_loop]; [by intros [= <-]|].
  intros (x & _ & H)%bind_Some. case_bool_decide; [by eapply store_length|by eapply IH].
Qed.
Lemma add_task_types t : keeps' anything (add_task_to_queue t).
Proof.
  unfold add_task_to_queue. eapply keeps_bind; [apply keeps_get|]. intros s [Hd _]. eapply keeps_bind; [apply keeps_lift|].
  intros ts Hts%add_task_loop_length. apply set_tasks_types. rewrite Hts. apply (dt_sched _ Hd).
Qed.
Lemma remove_task_types t : keeps' anything (remove_task_from_queue t).
Proof.
  unfold remove_task_from_queue. eapply keeps_bind; [apply keeps_get|]. intros s [Hd _]. eapply keeps_bind; [apply keeps_lift|].
  intros ts Hts%remove_task_loop_length. apply set_tasks_types. rewrite Hts. apply (dt_sched _ Hd).
Qed.
Lemma runnable_types i : keeps' anything (runnable i).
Proof. unfold runnable. keeps. Qed.
Lemma set_tss_types pid : keeps' anything (set_tss pid).
Proof. apply keeps_modify. intros. by apply typed_cpu. Qed.
Lemma task_at_types i : keeps' anything (task_at i).
Proof. unfold task_at. keeps. Qed.
#[local] Hint Resolve add_task_types remove_task_types runnable_types set_tss_types task_at_types : keeps.

Lemma find_active_types n i :
  0 <= i <= 2 -> keeps' (fun r => match r with Some i => 0 <= i <= 2 | None => True end) (find_active n i).
Proof.
  revert i. induction n as [|n IH]; intros i Hi; cbn [find_active]; [by apply keeps_ret|].
  eapply keeps_bind; [apply runnable_types|]. intros [] _; [by apply keeps_ret|]. apply IH.
  unfold MAXTERMS. pose proof (Z.rem_bound_pos (i + 1) 3). lia.
Qed.

Lemma switch_task_types : keeps' anything switch_task.
Proof.
  unfold switch_task. eapply keeps_bind; [apply keeps_get|]. intros s [Hd _]. cbv zeta.
  destruct (dt_sched _ Hd) as [_ Hcur].
  eapply keeps_bind; [apply find_active_types; unfold MAXTERMS; pose proof (Z.rem_bound_pos (current_task_idx (k_sched s) + 1) 3); lia|].
  intros [new|] Hnew; [|keeps]. destruct (bool_decide _); [keeps|].
  assert (keeps' anything (modify (fun s => lset (Sched (tasks (k_sched s)) new) s))).
  { apply keeps_modify. intros s1 [Hd1 ?]. apply typed_sched; [done|]. by split; [apply (dt_sched _ Hd1)|]. }
  keeps.
Qed.

Lemma find_terminal_types pid : keeps' anything (find_terminal pid).
Proof.
  unfold find_terminal. generalize 0 3%nat. intros i n. revert i. induction n as [|n IH]; intros i; cbn [find_terminal_from]; keeps.
Qed.
#[local] Hint Resolve find_terminal_types switch_task_types : keeps.

(** *** The terminals *)

Lemma copy_line_bytes n i line buf buf' : copy_line n i line buf = Some buf' -> bytes line -> bytes buf -> bytes buf'.
Proof.
  revert i buf. induction n as [|n IH]; intros i buf; cbn [copy_line]; [by intros [= <-]|].
  intros (c & Hc & (b & Hb & H)%bind_Some)%bind_Some Hl Hbuf. eapply IH; [exact H|done|].
  eapply bytes_store; [exact Hbuf|exact (load_Forall _ _ _ _ Hl Hc)|exact Hb].
Qed.
Lemma keyboard_read_types buf : bytes buf -> keeps' (fun r => bytes (snd r)) (keyboard_read buf).
Proof.
  intros Hb. unfold keyboard_read. eapply keeps_bind; [apply get_old_terminal_types|]. intros old _.
  eapply keeps_bind; [apply get_terminal_types|]. intros t []. cbv zeta.
  eapply keeps_bind; [apply keeps_lift|]. intros b1 Hb1. apply copy_line_bytes in Hb1; [|done..].
  eapply keeps_bind; [apply keeps_lift|]. intros b2 Hb2. apply (bytes_store _ _ _ _ Hb1) in Hb2 as [Hb2 _]; [|unfold byte; lia].
  keeps. exact Hb2.
Qed.

(** A result of a read, with the interrupts that are left. *)
Definition read_typed (r : option (Z * list Z * list (M kernel unit))) : Prop :=
  match r with Some (_, buf, env) => bytes buf /\ Forall (keeps' anything) env | None => True end.

Lemma terminal_read_types env buf n : Forall (keeps' anything) env -> bytes buf -> keeps' read_typed (terminal_read env buf n).
Proof.
  intros He Hb. unfold terminal_read. eapply keeps_bind; [apply find_programid_types|]. intros pid _.
  eapply keeps_bind; [apply find_terminal_types|]. intros term _.
  eapply (keeps_bind _ anything); [keeps|]. intros _ _. eapply keeps_bind; [by apply keeps_spin|].
  intros [env'|] He'; [|by apply keeps_ret]. eapply keeps_bind; [by apply keyboard_read_types|].
  intros [v b] Hb'. by apply keeps_ret.
Qed.

Lemma next_row_types : keeps screen_typed anything next_row.
Proof. unfold next_row. keeps. Qed.
#[local] Hint Resolve next_row_types : keeps.
Lemma write_char_types long c : keeps screen_typed anything (write_char long c).
Proof. unfold write_char, get_cursor_x, get_cursor_y. keeps. Qed.
#[local] Hint Resolve write_char_types : keeps.
Lemma write_loop_types long str i n : keeps screen_typed anything (write_loop long str i n).
Proof. revert i. induction str as [|c str IH]; intros i; cbn [write_loop]; keeps. Qed.
#[local] Hint Resolve write_loop_types : keeps.
Lemma terminal_write_types buf n : keeps' anything (terminal_write buf n).
Proof. unfold terminal_write. keeps. Qed.
Lemma pressed_clear_types : keeps' anything pressed_clear.
Proof. unfold pressed_clear. keeps. Qed.
Lemma backspace_types : keeps' anything backspace_pressed.
Proof.
  unfold backspace_pressed. eapply keeps_bind; [apply get_old_terminal_types|]. intros old _.
  eapply keeps_bind; [apply get_terminal_types|]. intros t [_ _ Hi]. unfold when. case_bool_decide; [|keeps].
  rewrite u32_small by lia. keeps.
Qed.
#[local] Hint Resolve pressed_clear_types backspace_types : keeps.

(** *** The keyboard *)

Lemma get_kbd_types : keeps' keyboard_typed get_kbd.
Proof. intros s [Hd ?]. split; [done|]. apply (dt_kbd _ Hd). Qed.
Ltac key := intros; apply keeps_modify; intros s [Hd ?]; apply typed_kbd; [done|]; destruct (dt_kbd _ Hd); by split.
Lemma set_shift_types v : flag v -> keeps' anything (set_shift v).
Proof. key. Qed.
Lemma set_ctrl_types v : flag v -> keeps' anything (set_ctrl v).
Proof. key. Qed.
Lemma set_capslock_types v : flag v -> keeps' anything (set_capslock v).
Proof. key. Qed.
Lemma set_alt_types v : flag v -> keeps' anything (set_alt v).
Proof. key. Qed.
Lemma set_check_enter_types v : flag v -> keeps' anything (set_check_enter v).
Proof. key. Qed.
#[local] Hint Resolve get_kbd_types set_shift_types set_ctrl_types set_capslock_types set_alt_types set_check_enter_types : keeps.

Lemma kbdus_at_byte sc : byte (kbdus_at sc).
Proof.
  unfold kbdus_at. destruct (load kbdus sc) as [c|] eqn:E; [|apply u8_range].
  apply (load_Forall byte kbdus sc c); [|done]. refine (bool_decide_unpack _ _). vm_compute. exact Logic.I.
Qed.
Lemma kbdus_shift_at_byte sc : byte (kbdus_shift_at sc).
Proof.
  unfold kbdus_shift_at. destruct (load kbdus_shift sc) as [c|] eqn:E; [|apply u8_range].
  apply (load_Forall byte kbdus_shift sc c); [|done]. refine (bool_decide_unpack _ _). vm_compute. exact Logic.I.
Qed.

Lemma get_cursor_y_types : keeps screen_typed anything get_cursor_y.
Proof. by apply (keeps_any _ _ (keeps_gets _ _)). Qed.
Lemma get_cursor_x_types : keeps screen_typed anything get_cursor_x.
Proof. by apply (keeps_any _ _ (keeps_gets _ _)). Qed.
#[local] Hint Resolve get_cursor_y_types get_cursor_x_types : keeps.

(** A byte goes to a line with room for it. *)
Lemma append_types old c :
  byte c -> keeps' anything (t ← get_terminal old; line ← lift (store (line_buffer t) (buffer_i t) c);
    upd_terminal old (set_line_buffer line) ;; upd_terminal old (set_buffer_i (u32 (buffer_i t + 1)))).
Proof.
  intros Hc. eapply keeps_bind; [apply get_terminal_types|]. intros t [Hl Hb Hi]. eapply keeps_bind; [apply keeps_lift|].
  intros line Hline. pose proof (store_inv _ _ _ _ Hline) as [Hr _].
  destruct (bytes_store _ _ _ _ Hb Hc Hline) as [Hlb Hll]. rewrite u32_small by lia.
  eapply (keeps_bind _ anything); [apply upd_terminal_types; intros; apply set_line_buffer_typed; done || lia|]. intros _ _.
  apply upd_terminal_types. intros. apply set_buffer_i_typed; [lia|done].
Qed.
#[local] Hint Resolve append_types : keeps.

Lemma enter_char_types old c : byte c -> keeps' anything (enter_char old c).
Proof.
  intros Hc. unfold enter_char. eapply keeps_bind; [apply get_terminal_types|]. intros t _. apply keeps_when.
  eapply (keeps_bind _ anything); [keeps|]. intros _ _. by apply append_types.
Qed.
Lemma next_line_types : keeps' anything next_line.
Proof. unfold next_line. keeps. Qed.
Lemma echo_types c : byte c -> keeps' anything (echo c).
Proof.
  intros Hc. unfold echo. eapply (keeps_bind _ anything); [keeps|]. intros _ _.
  eapply keeps_bind; [apply get_old_terminal_types|]. intros old _. eapply (keeps_bind _ byte).
  { case_bool_decide; [|by apply keeps_ret]. eapply keeps_bind; [apply backspace_types|]. intros _ _. apply keeps_ret. unfold byte. lia. }
  intros c' Hc'. eapply (keeps_bind _ anything); [by apply enter_char_types|]. intros _ _. apply next_line_types.
Qed.
Lemma key_char_types sc c : byte c -> keeps' byte (key_char sc c).
Proof.
  intros Hc. pose proof kbdus_at_byte. pose proof kbdus_shift_at_byte. unfold key_char. keeps; try (repeat case_match; auto).
  unfold byte. lia.
Qed.
#[local] Hint Resolve next_line_types : keeps.

(** *** Files *)

Lemma strcpy_typed dest src d : strcpy dest src = Some d -> bytes dest -> bytes src -> bytes d /\ length d = length dest.
Proof.
  revert dest d. induction src as [|c src IH]; intros [|x dest] d; cbn [strcpy]; try done.
  intros H [Hx Hd]%Forall_cons [Hc Hs]%Forall_cons. case_bool_decide.
  - injection H as <-. split; [|done]. constructor; [unfold byte; lia|done].
  - apply bind_Some in H as (d' & H & [= <-]). destruct (IH _ _ H Hd Hs) as [Hb Hl]. split; [by constructor|].
    cbn [length]. by rewrite Hl.
Qed.
Lemma read_loop_typed img ino n i bn p e buf buf' :
  read_loop img ino n i bn p e buf = Some buf' -> bytes img -> bytes buf -> bytes buf'.
Proof.
  revert i bn p e buf. induction n as [|n IH]; intros i bn p e buf; cbn [read_loop]; [by intros [= <-]|].
  intros (c & Hc & (b & Hb & H)%bind_Some)%bind_Some Hi Hbuf.
  assert (bytes b) as Hb' by (eapply bytes_store; [exact Hbuf|exact (load_Forall _ _ _ _ Hi Hc)|exact Hb]).
  case_bool_decide; [apply bind_Some in H as (bi & _ & H)|]; by eapply IH.
Qed.
Lemma read_data_typed img ino off buf n v buf' :
  read_data img ino off (Some buf) n = Some (v, buf') -> bytes img -> bytes buf -> bytes buf'.
Proof.
  unfold read_data. intros (L & _ & H)%bind_Some Hi Hb. case_bool_decide; [by injection H as _ <-|].
  apply bind_Some in H as (N & _ & H). destruct (_ || _); [by injection H as _ <-|].
  apply bind_Some in H as (bi & _ & (b & Hb' & [= _ <-])%bind_Some). by eapply read_loop_typed.
Qed.

Lemma get_fd_types pid i : keeps' fd_typed (get_fd pid i).
Proof.
  unfold get_fd. eapply keeps_bind; [apply get_pcb_types|]. intros p [_ Hp _ _]. eapply keeps_mono; [apply keeps_lift|].
  intros d Hd. exact (load_Forall _ _ _ _ Hp Hd).
Qed.
Lemma upd_fd_types pid i f : (forall d, fd_typed d -> fd_typed (f d)) -> keeps' anything (upd_fd pid i f).
Proof.
  intros Hf. unfold upd_fd. eapply keeps_bind; [apply get_pcb_types|]. intros p [Hn Hp _ _]. eapply keeps_bind; [apply keeps_lift|].
  intros d Hd. eapply keeps_bind; [apply keeps_lift|]. intros l Hl.
  destruct (Forall_store _ _ _ _ _ Hp (Hf d (load_Forall _ _ _ _ Hp Hd)) Hl) as [Hl' Hlen].
  apply upd_pcb_types. intros q []. split; cbn; try done. lia.
Qed.
Lemma set_flags_typed v f : flag v -> fd_typed f -> fd_typed (set_flags v f).
Proof. intros Hv []. by split. Qed.
Lemma set_filePosition_typed v f : 0 <= v < 4294967296 -> fd_typed f -> fd_typed (set_filePosition v f).
Proof. intros Hv []. by split. Qed.
Lemma set_sysops_typed v f : fd_typed f -> fd_typed (set_sysops v f).
Proof. by intros []. Qed.
Lemma set_inode_ptr_typed v f : fd_typed f -> fd_typed (set_inode_ptr v f).
Proof. by intros []. Qed.
Lemma set_fileName_typed l f : length l = 32%nat -> bytes l -> fd_typed f -> fd_typed (set_fileName l f).
Proof. intros Hl Hb []. by split. Qed.
Lemma flag_0 : flag 0.
Proof. by left. Qed.
Lemma flag_1 : flag 1.
Proof. by right. Qed.
#[local] Hint Resolve get_fd_types set_flags_typed set_sysops_typed set_inode_ptr_typed flag_0 flag_1 u32_range : keeps.
#[local] Hint Resolve set_filePosition_typed : keeps.
#[local] Hint Extern 2 (keeps _ _ (upd_fd _ _ _)) => apply upd_fd_types : keeps.
#[local] Hint Extern 1 (_ <= _ < _) => lia : keeps.

Lemma set_value_types o v : keeps' anything (set_value o v).
Proof.
  apply keeps_modify. intros s [Hd ?]. unfold valued. apply typed_procs; [done|]. destruct (dt_procs _ Hd).
  destruct o; by split.
Qed.
#[local] Hint Resolve set_value_types : keeps.

Lemma read_file_types fd buf n : bytes buf -> keeps' (fun r => bytes (snd r)) (read_file fd buf n).
Proof.
  intros Hb. unfold read_file. eapply keeps_bind; [apply find_programid_types|]. intros pid _.
  eapply keeps_bind; [apply get_fd_types|]. intros f _. eapply keeps_bind; [apply get_image_types|]. intros img Hi.
  eapply keeps_bind; [apply keeps_lift|]. intros r _. case_bool_decide; [by apply keeps_ret|].
  eapply keeps_bind; [apply keeps_lift|]. intros d _. cbv zeta. eapply keeps_bind; [apply keeps_lift|]. intros [v b] Hd.
  pose proof (read_data_typed _ _ _ _ _ _ _ Hd Hi Hb) as Hbb. cbn [fst snd].
  case_bool_decide; [by apply keeps_ret|]. case_bool_decide.
  - eapply keeps_bind; [apply keeps_lift|]. intros l _. eapply (keeps_bind _ anything); [|by intros; apply keeps_ret].
    apply upd_fd_types. intros. apply set_filePosition_typed; [apply u32_range|done].
  - eapply (keeps_bind _ anything); [|by intros; apply keeps_ret].
    apply upd_fd_types. intros. apply set_filePosition_typed; [apply u32_range|done].
Qed.

Lemma numbers_nonneg x y : 0 <= x -> 0 <= y -> 0 <= x + y.
Proof. lia. Qed.

Lemma read_directory_types buf : bytes buf -> keeps' (fun r => bytes (snd r)) (zoom (read_directory buf)).
Proof.
  intros Hb. apply (keeps_zoom _ (fun f => bytes (image f))); [|by intros s [[] ?]|by intros; apply typed_fs].
  unfold read_directory. eapply keeps_bind; [apply keeps_get|]. intros f Hf. eapply keeps_bind; [apply keeps_lift|]. intros n _.
  case_bool_decide.
  - eapply (keeps_bind _ anything); [by apply keeps_modify|]. intros _ _. by apply keeps_ret.
  - eapply keeps_bind; [apply keeps_lift|]. intros b Hbuf. apply strcpy_typed in Hbuf as [Hbb _]; [|done|by apply Forall_drop].
    eapply (keeps_bind _ anything); [by apply keeps_modify|]. intros _ _. eapply keeps_bind; [apply keeps_lift|]. intros k _.
    by apply keeps_ret.
Qed.

Lemma syscall_open_types o name : keeps' anything (syscall_open o name).
Proof. unfold syscall_open. keeps. Qed.
Lemma syscall_write_types o fd buf n : keeps' anything (syscall_write o fd buf n).
Proof. pose proof terminal_write_types. unfold syscall_write. keeps. Qed.
Lemma rtc_read_types env :
  Forall (keeps' anything) env ->
  keeps' (fun r => match r with Some (_, env') => Forall (keeps' anything) env' | None => True end) (rtc_read env).
Proof.
  intros He. unfold rtc_read. eapply keeps_bind; [by apply keeps_spin|]. intros [env'|] He'; [|by apply keeps_ret].
  eapply (keeps_bind _ anything); [apply zoom_rtc_types|]. intros _ _. by apply keeps_ret.
Qed.
Lemma syscall_read_types env o fd buf n :
  Forall (keeps' anything) env -> bytes buf -> keeps' read_typed (syscall_read env o fd buf n).
Proof.
  intros He Hb. destruct o; cbn [syscall_read]; [apply keeps_undef|..].
  - eapply keeps_bind; [by apply rtc_read_types|]. intros [[v env']|] He'; by apply keeps_ret.
  - by apply terminal_read_types.
  - eapply keeps_bind; [by apply read_directory_types|]. intros r Hr. by apply keeps_ret.
  - eapply keeps_bind; [by apply read_file_types|]. intros r Hr. by apply keeps_ret.
Qed.
Lemma bad_fd_types pid fd std : keeps' anything (bad_fd pid fd std).
Proof. unfold bad_fd. keeps. Qed.
#[local] Hint Resolve syscall_open_types syscall_write_types bad_fd_types : keeps.

Lemma read_types env fd buf n : Forall (keeps' anything) env -> bytes buf -> keeps' read_typed (read env fd buf n).
Proof.
  intros He Hb. unfold read. eapply keeps_bind; [apply find_programid_types|]. intros pid _.
  eapply keeps_bind; [apply bad_fd_types|]. intros [] _; [by apply keeps_ret|].
  eapply keeps_bind; [apply get_fd_types|]. intros f _. by apply syscall_read_types.
Qed.
Lemma write_types fd buf n : keeps' anything (write fd buf n).
Proof. unfold write. keeps. Qed.
Lemma take_fd_types n i pid : keeps' anything (take_fd n i pid).
Proof. revert i. induction n as [|n IH]; intros i; cbn [take_fd]; keeps. Qed.
#[local] Hint Resolve take_fd_types write_types : keeps.

Lemma open_types name : bytes name -> keeps' anything (open name).
Proof.
  intros Hn. unfold open. keeps.
  match goal with H : strcpy (fd_fileName ?f) name = Some ?l, Hf : fd_typed ?f |- _ =>
    destruct Hf as [Hlen Hb _ _]; apply strcpy_typed in H as [? ?]; [|done..] end.
  apply upd_fd_types. intros. apply set_fileName_typed; [lia|done..].
Qed.
Lemma close_types fd : keeps' anything (close fd).
Proof. unfold close. keeps. Qed.
Lemma getargs_types buf n : bytes buf -> keeps' (fun r => bytes (snd r)) (getargs buf n).
Proof.
  intros Hb. unfold getargs. eapply keeps_bind; [apply find_programid_types|]. intros pid _.
  eapply keeps_bind; [apply get_pcb_types|]. intros p [_ _ _ Hp]. eapply keeps_bind; [apply keeps_lift|]. intros k _.
  case_bool_decide; [by apply keeps_ret|]. eapply keeps_bind; [apply keeps_lift|]. intros b Hbuf.
  apply strcpy_typed in Hbuf as [? _]; [|done..]. by apply keeps_ret.
Qed.

(** *** The memory of programs *)

Lemma put_program_types va l : bytes l -> keeps' anything (put_program va l).
Proof.
  intros Hl. unfold put_program. eapply keeps_bind; [apply keeps_get|]. intros s [Hd _].
  eapply keeps_bind; [apply keeps_lift|]. intros pa _. eapply keeps_bind; [apply keeps_lift|]. intros [t off] _.
  case_bool_decide; [|apply keeps_undef]. apply keeps_modify. intros s1 Hs1. apply typed_programs; [done|]. intros u i.
  case_bool_decide; [|apply (dt_programs _ Hd)]. destruct (load l (i - off)) as [x|] eqn:E; cbn; [|unfold byte; lia].
  exact (load_Forall _ _ _ _ Hl E).
Qed.
Lemma get_program_types va n : keeps' (Forall byte) (get_program va n).
Proof.
  unfold get_program. eapply keeps_bind; [apply keeps_get|]. intros s [Hd _].
  eapply keeps_bind; [apply keeps_lift|]. intros pa _. eapply keeps_bind; [apply keeps_lift|]. intros [t off] _.
  case_bool_decide; [|apply keeps_undef]. apply keeps_ret, Forall_fmap, Forall_true. intros i. apply (dt_programs _ Hd).
Qed.
Lemma user_object_types va : keeps' (Forall byte) (user_object va).
Proof.
  unfold user_object. eapply keeps_bind; [apply keeps_get|]. intros s [Hd _].
  destruct (_ ≫= _) as [[t off]|]; [|by apply keeps_ret]. apply keeps_ret, Forall_fmap, Forall_true.
  intros i. apply (dt_programs _ Hd).
Qed.
Lemma store_user_types va l : bytes l -> keeps' anything (store_user va l).
Proof. intros Hl. destruct l; [by apply keeps_ret|]. by apply put_program_types. Qed.
Lemma vidmap_types va : keeps' anything (vidmap va).
Proof.
  unfold vidmap. case_bool_decide; cbn [orb]; [keeps|]. destruct (bool_decide _); [keeps|].
  eapply (keeps_bind _ anything); [|intros; keeps]. apply put_program_types. repeat constructor; apply u8_range.
Qed.
Lemma set_programpage_types pid : keeps' anything (set_programpage pid).
Proof. unfold set_programpage. keeps. Qed.
#[local] Hint Resolve set_programpage_types close_types : keeps.
Lemma page_loader_types file pid : keeps' anything (page_loader file pid).
Proof.
  unfold page_loader. eapply keeps_bind; [apply get_image_types|]. intros img Hi. eapply keeps_bind; [apply keeps_lift|].
  intros r _. destruct (bool_decide _); [keeps|]. eapply keeps_bind; [apply keeps_lift|]. intros d _. cbv zeta.
  eapply keeps_bind; [apply keeps_lift|]. intros n _. eapply (keeps_bind _ anything); [keeps|]. intros _ _.
  eapply keeps_bind; [apply get_program_types|]. intros buf Hb. eapply keeps_bind; [apply keeps_lift|]. intros [v b] Hd.
  pose proof (read_data_typed _ _ _ _ _ _ _ Hd Hi Hb). eapply (keeps_bind _ anything); [by apply put_program_types|].
  intros _ _. keeps.
Qed.
#[local] Hint Resolve page_loader_types : keeps.

(** *** Processes *)

Lemma set_argument_typed l p : length l = 128%nat -> bytes l -> pcb_typed p -> pcb_typed (set_argument l p).
Proof. intros ? ? []. by split. Qed.
Lemma set_saved_typed a b c p : pcb_typed p -> pcb_typed (set_saved a b c p).
Proof. by intros []. Qed.
Lemma set_cr3_typed v p : pcb_typed p -> pcb_typed (set_cr3 v p).
Proof. by intros []. Qed.
Lemma set_parent_typed v w p : pcb_typed p -> pcb_typed (set_parent v w p).
Proof. by intros []. Qed.
#[local] Hint Resolve set_saved_typed set_cr3_typed set_parent_typed : keeps.
Lemma cli_types : keeps' anything (cli : M kernel unit).
Proof. apply keeps_cli. apply typed_io. Qed.
Lemma sti_types : keeps' anything (sti : M kernel unit).
Proof. apply keeps_sti. apply typed_io. Qed.
#[local] Hint Resolve cli_types sti_types set_tss_types : keeps.

Lemma take_pid_types n i cur : 0 <= cur <= 6 -> keeps' anything (take_pid n i cur).
Proof.
  intros Hc. assert (process_number 0 /\ process_number cur) as [? ?] by (unfold process_number; lia).
  revert i. induction n as [|n IH]; intros i; cbn [take_pid]; keeps.
Qed.
Lemma reschedule_types cur new task : keeps' anything (reschedule cur new task).
Proof. unfold reschedule. keeps. Qed.
Lemma iret_to_types e : keeps' anything (iret_to e).
Proof. unfold iret_to. keeps. Qed.
#[local] Hint Resolve take_pid_types reschedule_types iret_to_types : keeps.
Lemma start_program_types file arg entry esp ebp : bytes arg -> keeps' anything (start_program file arg entry esp ebp).
Proof.
  intros Ha. unfold start_program. eapply keeps_bind; [apply find_programid_types|]. intros cur Hcur.
  eapply (keeps_bind _ anything).
  { apply keeps_when, keeps_modify. intros s [Hd ?]. apply typed_procs; [done|]. destruct (dt_procs _ Hd).
    split; try done. apply s32_range. }
  intros _ _. keeps.
  match goal with H : strcpy (argument ?p) arg = Some ?l, Hp : pcb_typed ?p |- _ =>
    destruct Hp as [_ _ Hlen Hb]; apply strcpy_typed in H as [? ?]; [|done..] end.
  apply upd_pcb_types. intros. apply set_argument_typed; [lia|done..].
Qed.
Lemma load_command_types file arg stack esp ebp : bytes arg -> keeps' anything (load_command file arg stack esp ebp).
Proof. intros Ha. pose proof (fun f e => start_program_types f arg e esp ebp Ha). unfold load_command. keeps. Qed.

Lemma copy_word_typed limit command arr n r arr' k :
  copy_word limit command arr n = Some (Some (r, arr', k)) -> bytes command -> bytes arr ->
  bytes arr' /\ length arr' = length arr /\ bytes r.
Proof.
  revert arr n. induction command as [|c command IH]; intros arr n; cbn [copy_word]; [done|]. intros H Hc Ha.
  destruct (_ || _); [by injection H as <- <- _|]. apply Forall_cons in Hc as [Hc Hcs].
  apply bind_Some in H as (a & Hst & H). destruct (bytes_store _ _ _ _ Ha Hc Hst) as [Hb Hl].
  case_bool_decide; [done|]. destruct (IH _ _ H Hcs Hb) as (? & ? & ?). split_and!; done || lia.
Qed.
Lemma skip_spaces_typed l r : skip_spaces l = Some r -> bytes l -> bytes r.
Proof.
  induction l as [|c l IH]; cbn [skip_spaces]; [done|]. intros H Hl. case_bool_decide; [|by injection H as <-].
  apply Forall_cons in Hl as [_ Hl]. auto.
Qed.

Lemma execute_types command stack esp ebp :
  match command with Some c => bytes c | None => True end -> keeps' anything (execute command stack esp ebp).
Proof.
  intros Hc. unfold execute. destruct command as [command|]; [|keeps].
  eapply keeps_bind; [apply keeps_lift|]. intros c1 H1. apply skip_spaces_typed in H1; [|done].
  eapply keeps_bind; [apply keeps_lift|]. intros [[[c2 file] k]|] Hw; [|keeps].
  assert (forall n, bytes (replicate n 0)) as H0 by (intros; apply Forall_replicate; unfold byte; lia).
  apply copy_word_typed in Hw as (_ & _ & Hc2); [|done|apply H0].
  eapply keeps_bind; [apply keeps_lift|]. intros file' _. eapply keeps_bind; [apply keeps_lift|]. intros c3 H3.
  apply skip_spaces_typed in H3; [|done]. eapply keeps_bind; [apply keeps_lift|]. intros [[[c4 arg] k']|] Hw; [|keeps].
  apply copy_word_typed in Hw as (Harg & _ & _); [|done|apply H0].
  eapply keeps_bind; [apply keeps_lift|]. intros arg' Harg'. apply load_command_types.
  by destruct (bytes_store arg k' 0 arg' Harg ltac:(unfold byte; lia) Harg').
Qed.

Lemma halt_types status : keeps' anything (halt status).
Proof.
  unfold halt. eapply keeps_bind; [apply find_programid_types|]. intros cur _. eapply keeps_bind; [apply get_task_types|].
  intros parent Hp. eapply (keeps_bind _ anything).
  { apply keeps_modify. intros s [Hd ?]. apply typed_procs; [done|]. destruct (dt_procs _ Hd). split; try done. apply u8_range. }
  intros _ _. assert (process_number (-1)) by (unfold process_number; lia).
  assert (forall f, keeps' anything (modify (fun s => lset (f s : cpustate) s))) by (intros; apply keeps_modify; intros; by apply typed_cpu).
  keeps.
Qed.

(** *** Events *)

Lemma terminal_switch_types m term : keeps' anything (terminal_switch m term).
Proof.
  assert (keeps' anything (execute (Some (cstring "shell")) (m_stack m) (m_esp m) (m_ebp m))) by apply execute_types, cstring_bytes.
  unfold terminal_switch. eapply keeps_bind; [apply get_old_terminal_types|]. intros old _.
  destruct (_ || _) eqn:E; [keeps|]. rewrite !orb_false_iff, !bool_decide_eq_false in E.
  assert (0 <= term <= 2) by lia. keeps.
Qed.
#[local] Hint Resolve terminal_switch_types : keeps.
Lemma plain_key_types m sc c : byte c -> keeps' anything (plain_key m sc c).
Proof.
  intros Hc. unfold plain_key. eapply keeps_bind; [apply get_kbd_types|]. intros k _.
  pose proof (key_char_types sc c Hc). pose proof echo_types. keeps.
Qed.
Lemma terminal_key_pressed_types m sc : keeps' anything (terminal_key_pressed m sc).
Proof.
  pose proof (plain_key_types m sc (kbdus_at sc) (kbdus_at_byte sc)). unfold terminal_key_pressed.
  eapply keeps_bind; [apply get_old_terminal_types|]. intros old _. eapply (keeps_bind _ anything); [keeps|]. intros _ _. cbv zeta.
  eapply keeps_bind; [apply get_terminal_types|]. intros t [Hl Hb Hi].
  eapply (keeps_bind _ anything); [|intros; keeps].
  - unfold when. destruct (_ && _) eqn:E; [|keeps]. apply andb_true_iff in E as [E _]. apply bool_decide_eq_true in E.
    unfold NUM_CHARS in E. rewrite u32_small by lia. eapply keeps_bind; [apply keeps_lift|]. intros line Hline.
    destruct (bytes_store _ _ _ _ Hb (kbdus_at_byte sc) Hline) as [Hlb Hll].
    eapply (keeps_bind _ anything); [apply upd_terminal_types; intros; apply set_line_buffer_typed; done || lia|]. intros _ _.
    apply upd_terminal_types. intros. apply set_buffer_i_typed; [lia|done].
  - apply set_capslock_types. match goal with |- flag (if ?b then _ else _) => destruct b end; [by right|by left].
Qed.
#[local] Hint Resolve switch_task_types terminal_key_pressed_types user_object_types : keeps.

Lemma irq_handler_types m n : keeps' anything (irq_handler m n).
Proof.
  assert (keeps' byte (inb KYBD_ADDR)) by (apply keeps_inb, typed_io).
  assert (forall h, Some h ∈ irq_functions m -> keeps' anything h) as Hh.
  { unfold irq_functions, irq0, irq1, irq8. intros h Hin. repeat (apply elem_of_cons in Hin as [E|Hin]; [first [discriminate E|injection E as ->; keeps]|]).
    by apply elem_of_nil in Hin. }
  unfold irq_handler. eapply keeps_bind; [apply keeps_lift|]. intros [h|] Hload.
  - apply load_inv in Hload as [_ Hl%list_elem_of_lookup_2]. pose proof (Hh h Hl). keeps.
  - keeps.
Qed.

Lemma syscall_types m env eax ebx ecx edx :
  Forall (keeps' anything) env -> keeps' anything (run_syscall_wrapper m env eax ebx ecx edx).
Proof.
  intros He. unfold run_syscall_wrapper. cbv zeta. destruct (_ || _); [keeps|].
  case_bool_decide; [pose proof halt_types; keeps|]. case_bool_decide.
  { case_bool_decide.
    - pose proof (execute_types None (m_stack m) (m_esp m) (m_ebp m) Logic.I). keeps.
    - eapply keeps_bind; [apply user_object_types|]. intros c Hc.
      pose proof (execute_types (Some c) (m_stack m) (m_esp m) (m_ebp m) Hc). keeps. }
  case_bool_decide.
  { eapply keeps_bind; [apply user_object_types|]. intros buf Hb. eapply keeps_bind; [by apply read_types|].
    intros [[[v b] env']|] Hr; [|keeps]. destruct Hr as [Hbb _]. pose proof (store_user_types (u32 ecx) b Hbb). keeps. }
  case_bool_decide; [keeps|]. case_bool_decide.
  { eapply keeps_bind; [apply user_object_types|]. intros name Hn. pose proof (open_types name Hn). keeps. }
  case_bool_decide; [keeps|]. case_bool_decide.
  { eapply keeps_bind; [apply user_object_types|]. intros buf Hb. eapply keeps_bind; [by apply getargs_types|].
    intros [v b] Hbb. pose proof (store_user_types (u32 ebx) b Hbb). keeps. }
  pose proof vidmap_types. keeps.
Qed.
End Operations.

(** ** Boot *)

#[export] Instance stable_anything `{!Layout} : Stable (fun _ => True).
Proof. split; [done|..]; intros pid *; intros s _; by case_match. Qed.

#[export] Instance stable_reachable `{!Layout} : Stable reachable.
Proof.
  split.
  - intros v s Hs. by apply (reach_cr3 v s).
  - intros pid s Hs. destruct (video_mapping pid s) as [[] s'| |] eqn:E; [|by destruct (bool_decide (1 <= pid <= 6)) eqn:?; revert E; unfold video_mapping, when, set_table; repeat case_match|done].
    split; [by eapply reach_video|done].
  - intros pid term s Hs. destruct (non_video_mapping pid term s) as [[] s'| |] eqn:E; [|by revert E; unfold non_video_mapping, when, set_table; repeat case_match|done].
    split; [by eapply reach_non_video|done].
Qed.

Lemma keeps_Ret {S A} (I : S -> Prop) (P : A -> Prop) m s a s' : keeps I P m -> I s -> m s = Ret a s' -> I s' /\ P a.
Proof. intros Hm Hs E. specialize (Hm s Hs). by rewrite E in Hm. Qed.

Section Boot.
Context `{HL : !Layout} `{HO : !Overread} `{HK : !Linked} `{HD : !Device} (m : machine) (ldt tss lo hi : Z).
Abbreviation early_typed := (typed (fun _ => True)).
Abbreviation keeps' := (keeps early_typed).

Lemma early_types {A} (P : A -> Prop) (f : M screen A) : keeps screen_typed P f -> keeps' P (early f).
Proof.
  intros Hf s Hs. unfold early. destruct (load (k_frames s) 0) as [page|] eqn:Hp; [|done].
  destruct Hs as [Hd HJ]. pose proof (dt_frames _ Hd) as [Hl Hfr].
  specialize (Hf (screen_of page s) (load_Forall _ _ _ _ Hfr Hp)).
  assert (forall t, screen_typed t -> early_typed (with_screen 0 t s)) as Hback.
  { intros t Ht. apply typed_display; [done|]. split; [by rewrite length_insert|by apply Forall_insert]. }
  destruct (f _) as [a t|t|]; [destruct Hf; split; auto|by apply Hback|done].
Qed.
Lemma early_printf_types fmt args : keeps' anything (early_printf fmt args).
Proof. unfold early_printf. eapply keeps_bind; [apply early_types, printf_types|]. by intros. Qed.
Lemma early_clear_types : keeps' anything (early clear).
Proof. apply early_types, clear_types. Qed.
#[local] Hint Resolve early_printf_types early_clear_types : keeps.
Lemma print_modules_types l k : keeps' anything (print_modules k l).
Proof. revert k. induction l as [|md l IH]; intros k; cbn [print_modules]; unfold print_module; keeps. Qed.
Lemma print_mmap_types fuel mbi a : keeps' anything (print_mmap fuel mbi a).
Proof. revert a. induction fuel as [|fuel IH]; intros a; cbn [print_mmap]; unfold print_mmap_entry; keeps. Qed.
#[local] Hint Resolve print_modules_types print_mmap_types : keeps.
Lemma print_info_types magic mbi : keeps' anything (print_info magic mbi).
Proof. unfold print_info. keeps. Qed.

(** On the whole machine. *)
Definition on_kernel (I : kernel -> Prop) (s : machine_state) : Prop := I (b_kernel s).

Lemma zoom_kernel_types {A} I (P : A -> Prop) (f : M kernel A) : keeps I P f -> keeps (on_kernel I) P (zoom f : M machine_state A).
Proof. intros Hf. by apply (keeps_zoom _ I). Qed.

Lemma setup_segments_types : keeps (on_kernel early_typed) anything (setup_segments ldt tss).
Proof.
  unfold setup_segments. eapply (keeps_bind _ anything); [by apply keeps_zoom_any|]. intros _ _.
  eapply (keeps_bind _ anything); [by apply keeps_modify|]. intros _ _.
  apply zoom_kernel_types, keeps_modify. intros. by apply typed_cpu.
Qed.

Lemma init_file_system_types (J : paging -> Prop) temp : bytes (mod_image temp) -> keeps (typed J) anything (init_file_system temp).
Proof.
  intros Hb. unfold init_file_system. eapply (keeps_bind _ anything).
  { apply keeps_modify. intros s Hs. by apply typed_fs. }
  intros _ _. eapply (keeps_bind _ anything); [|by intros; apply keeps_ret].
  apply (keeps_zoom _ (fun f => bytes (image f))); [|by intros s [[] ?]|by intros; apply typed_fs].
  unfold init_bootBlock_address. eapply (keeps_bind _ anything); [by apply keeps_modify|]. by intros.
Qed.

(** From paging_initialize on the page tables are what the theorem on isolation needs. *)
Lemma paging_types s a s' :
  early_typed s -> (zoom paging_initialize : M kernel unit) s = Ret a s' -> typed reachable s'.
Proof.
  intros Hs (p & Hp & ->)%zoom_inv. destruct a. destruct Hs as [[] _]. split; [split; done|].
  exact (reach_init _ _ Hp).
Qed.

Lemma devices_types temp s a s' :
  bytes (mod_image temp) -> on_kernel early_typed s -> setup_devices lo hi temp s = Ret a s' -> on_kernel (typed reachable) s'.
Proof.
  intros Hb Hs. unfold setup_devices.
  intros (? & s1 & H1 & (? & s2 & H2 & H)%bind_inv)%bind_inv.
  eapply keeps_Ret in H1 as [Hs1 _]; [|apply zoom_kernel_types, zoom_pic_types|exact Hs].
  apply zoom_inv in H2 as (k2 & H2 & ->).
  assert (on_kernel (typed reachable) (lset k2 s1)) as Hs2 by exact (paging_types _ _ _ Hs1 H2).
  revert H. generalize (lset k2 s1) Hs2. clear -Hb. intros s Hs H.
  eapply (keeps_Ret _ anything) in H; [by destruct H| |exact Hs]. clear s Hs H.
  eapply (keeps_bind _ anything); [by apply keeps_zoom_any|]. intros _ _.
  eapply (keeps_bind _ anything); [apply zoom_kernel_types, zoom_pic_types|]. intros _ _.
  eapply (keeps_bind _ anything); [apply zoom_kernel_types, zoom_pic_types|]. intros _ _.
  eapply (keeps_bind _ anything); [by apply zoom_kernel_types, init_file_system_types|]. intros _ _.
  eapply (keeps_bind _ anything); [apply zoom_kernel_types, terminal_init_types|]. intros _ _.
  eapply (keeps_bind _ anything); [apply zoom_kernel_types, on_screen_types, clear_types|]. intros _ _.
  eapply (keeps_bind _ anything); [apply zoom_kernel_types, add_task_types|]. intros _ _.
  apply zoom_kernel_types, zoom_pic_types.
Qed.

Lemma last_module_bytes mbi md :
  Forall (fun md => bytes (mod_image md)) (mods mbi) -> last_module mbi = Some md -> bytes (mod_image md).
Proof.
  intros Hm Emd. unfold last_module in Emd. destruct (check_flag _ _); [|discriminate Emd].
  apply last_Some in Emd as [l El]. rewrite El in Hm. by apply Forall_app in Hm as [_ [? _]%Forall_cons].
Qed.

Lemma entry_types magic mbi s r s' :
  Forall (fun md => bytes (mod_image md)) (mods mbi) -> data_typed (b_kernel s) ->
  entry m ldt tss lo hi magic mbi s = Ret r s' -> r = Halted \/ typed reachable (b_kernel s').
Proof.
  intros Hm Hd. assert (on_kernel early_typed s) as Hs by done. unfold entry.
  intros (ok & s1 & H1 & H)%bind_inv.
  eapply keeps_Ret in H1 as [Hs1 _]; [|apply zoom_kernel_types, print_info_types|exact Hs].
  destruct ok; [right|left; by injection H].
  apply bind_inv in H as (? & s2 & H2 & H). eapply keeps_Ret in H2 as [Hs2 _]; [|apply setup_segments_types|exact Hs1].
  apply bind_inv in H as (temp & s2' & H3 & H). unfold lift in H3. destruct (last_module mbi) as [md|] eqn:Emd; [|discriminate H3].
  injection H3 as -> ->.
  assert (bytes (mod_image temp)) as Hb by exact (last_module_bytes _ _ Hm Emd).
  apply bind_inv in H as (? & s3 & H3 & H). apply (devices_types _ _ _ _ Hb Hs2) in H3.
  eapply (keeps_Ret (on_kernel (typed reachable)) anything) in H; [by destruct H| |exact H3].
  eapply (keeps_bind _ anything); [apply zoom_kernel_types, (execute_types reachable), cstring_bytes|]. intros c _.
  destruct c; [|by apply keeps_ret..].
  eapply (keeps_bind _ anything); [apply zoom_kernel_types, (kprintf_types reachable)|]. intros _ _.
  eapply (keeps_bind _ anything); [apply zoom_kernel_types, (sti_types reachable)|]. intros _ _. by apply keeps_ret.
Qed.
End Boot.

(** ** Runs *)

Section Runs.
Context `{HL : !Layout} `{HO : !Overread} `{HK : !Linked}.

(** An interrupt of the timer, the keyboard or the clock, through its wrapper, whatever
    the devices answer. *)
Inductive interrupt : M kernel (control unit) -> Prop :=
| int_timer (d : Device) m : interrupt (run_irq0_wrapper m)
| int_keyboard (d : Device) m esp ebp : interrupt (run_irq1_wrapper m esp ebp)
| int_clock (d : Device) m : interrupt (run_irq8_wrapper m).

(** The state that a computation leaves, in an endless loop as well. A computation that
    accesses memory outside an object has no meaning in C and leaves none. *)
Definition leaves {A} (r : res kernel A) (s : kernel) : Prop :=
  match r with Ret _ s' | Hang s' => s' = s | Undef => False end.

(** The pointers among the arguments of a system call are the program's own: in its page, or
    one of those that the call refuses. The kernel checks no pointer: through another one it
    reads or writes whatever the process's page tables map for the kernel, its own page with
    the page tables among it. *)
Definition own_pointer (va : Z) : Prop := 0x8000000 <= va < 0x8400000.
Definition own_pointers (eax ebx ecx : Z) : Prop :=
  let n := s32 eax in
  (n = 2 -> u32 ebx = 0 \/ own_pointer (u32 ebx)) /\ (n = 3 \/ n = 4 -> own_pointer (u32 ecx)) /\
  (n = 5 \/ n = 7 -> own_pointer (u32 ebx)) /\
  (n = 8 -> u32 ebx = 0 \/ u32 ebx = 0x400000 \/ own_pointer (u32 ebx)).

(** A system call with any registers but foreign pointers, during whose waits any interrupts
    arrive; an interrupt; a store of the running program. *)
Inductive kernel_step (s : kernel) : kernel -> Prop :=
| step_call (d : Device) m env eax ebx ecx edx s' :
    own_pointers eax ebx ecx ->
    Forall (fun e => exists i, interrupt i /\ e = (_ ← i; mret tt)) env ->
    leaves (run_syscall_wrapper m env eax ebx ecx edx s) s' -> kernel_step s s'
| step_interrupt i s' : interrupt i -> leaves (i s) s' -> kernel_step s s'
| step_program va v s' : leaves (user_store va v s) s' -> kernel_step s s'.

Inductive kernel_run (s : kernel) : kernel -> Prop :=
| run_start : kernel_run s s
| run_step s1 s2 : kernel_run s s1 -> kernel_step s1 s2 -> kernel_run s s2.

(** The states of the running system: the boot loader leaves [s0], entry starts a program
    or comes to its idle loop, and then system calls, interrupts and programs run. *)
Inductive running (s0 : machine_state) (s : kernel) : Prop :=
| Running (d : Device) m ldt tss lo hi magic mbi r s1 :
    Forall (fun md => bytes (mod_image md)) (mods mbi) ->
    entry m ldt tss lo hi magic mbi s0 = Ret r s1 -> r <> Halted -> kernel_run (b_kernel s1) s ->
    running s0 s.

Lemma keeps_leaves {A} (I : kernel -> Prop) (P : A -> Prop) f s s' : keeps I P f -> I s -> leaves (f s) s' -> I s'.
Proof. intros Hf Hs. specialize (Hf s Hs). destruct (f s); cbn; [intros ->; apply Hf|by intros ->|done]. Qed.

Lemma interrupt_types (J : paging -> Prop) `{!Stable J} i : interrupt i -> keeps (typed J) anything i.
Proof.
  intros [d m|d m esp ebp|d m]; [by apply irq_handler_types| |by apply irq_handler_types].
  unfold run_irq1_wrapper. eapply (keeps_bind _ anything); [|intros; by apply irq_handler_types].
  apply keeps_modify. intros. by apply typed_cpu.
Qed.

Lemma user_store_types (J : paging -> Prop) `{!Stable J} va v : keeps (typed J) anything (user_store va v).
Proof.
  unfold user_store. eapply keeps_bind; [apply keeps_get|]. intros s [Hd _]. eapply keeps_bind; [apply keeps_lift|]. intros pa _.
  destruct (program_at pa) as [[t off]|].
  - apply keeps_modify. intros s1 Hs1. apply typed_programs; [done|]. intros u i.
    case_bool_decide; [apply u8_range|apply (dt_programs _ Hd)].
  - eapply keeps_bind; [apply keeps_lift|]. intros n _. apply put_frame_types, u8_range.
Qed.

Lemma step_types (J : paging -> Prop) `{!Stable J} s s' : kernel_step s s' -> typed J s -> typed J s'.
Proof.
  intros [d m env eax ebx ecx edx s'' _ He Hr|i s'' Hi Hr|va v s'' Hr] Hs.
  - eapply keeps_leaves; [|exact Hs|exact Hr]. apply (syscall_types J). eapply Forall_impl; [exact He|].
    intros e (i & Hi & ->). eapply (keeps_bind _ anything); [by apply interrupt_types|]. by intros.
  - eapply keeps_leaves; [by eapply (interrupt_types J)|exact Hs|exact Hr].
  - eapply keeps_leaves; [by eapply (user_store_types J)|exact Hs|exact Hr].
Qed.

Lemma run_types (J : paging -> Prop) `{!Stable J} s s' : kernel_run s s' -> typed J s -> typed J s'.
Proof. intros H Hs. induction H as [|s1 s2 _ IH Hstep]; [done|]. by eapply step_types. Qed.

Lemma running_types s0 s : data_typed (b_kernel s0) -> running s0 s -> typed reachable s.
Proof.
  intros Hd [d m ldt tss lo hi magic mbi r s1 Hm He Hr Hrun].
  destruct (entry_types m ldt tss lo hi magic mbi s0 r s1 Hm Hd He) as [?|Ht]; [done|].
  by eapply (run_types reachable).
Qed.
End Runs.

(** ** Properties *)

(** C5: programs are isolated in the running system while the kernel stays inside its objects.
    Take any state that system calls, interrupts and stores of the programs lead to after boot,
    where the pointers passed to the calls lie in the program's own page (the kernel checks no
    pointer: read, getargs and vidmap write through one into the kernel's page, where the page
    tables are) and where no access of the kernel leaves its object (a run in which one does, as
    open's of a name that overruns its array, has no meaning in C and is not followed). Then two
    different tasks never reach the same physical byte from user mode through anything but their
    video page, and outside that page a user access never lands in the kernel's 4 MB or in the
    video memory. *)
Theorem running_isolated `{!Layout} `{!Overread} `{!Linked} s0 s t u wt wu va vb pa :
  data_typed (b_kernel s0) -> running s0 s -> 1 <= t <= 6 -> 1 <= u <= 6 -> t <> u ->
  0 <= va < 4294967296 -> 0 <= vb < 4294967296 ->
  translate (load_task t (k_paging s)) true wt va = Some pa ->
  (translate (load_task u (k_paging s)) true wu vb = Some pa ->
     0xB8000 <= va < 0xB9000 /\ 0xB8000 <= vb < 0xB9000) /\
  (0xB8000 <= va < 0xB9000 \/ 0x800000 <= pa < 0x2000000).
Proof.
  intros Hd Hr Ht Hu Htu Hva Hvb Hpa. apply (tasks_isolated (k_paging s) t u wt wu va vb pa); try done.
  by destruct (running_types s0 s Hd Hr).
Qed.

(** A running system, for the examples: the demonstration's boot, then vidmap with a pointer
    that it refuses, and an interrupt of the clock. *)
Lemma zeros_bytes n : bytes (replicate n 0).
Proof. apply Forall_replicate. unfold byte. lia. Qed.

Lemma check_bytes l : forallb (fun x => bool_decide (0 <= x < 256)) l = true -> bytes l.
Proof.
  intros H. apply Forall_forall. intros x Hx%list_elem_of_In. rewrite forallb_forall in H.
  apply (bool_decide_eq_true_1 _ (H x Hx)).
Qed.

Lemma dark_terms : terms_typed (k_terms dark_kernel).
Proof.
  split; [reflexivity| |cbn; lia|by left]. apply Forall_replicate.
  split; [reflexivity|apply zeros_bytes|cbn; lia].
Qed.

Lemma demo_fd_typed fl o : flag fl -> fd_typed (demo_fd fl o).
Proof. intros Hf. split; [reflexivity|apply zeros_bytes|cbn; lia|exact Hf]. Qed.

Lemma dark_procs : procs_typed (k_procs dark_kernel).
Proof.
  split; [reflexivity| |cbn; unfold byte; lia|cbn; lia|reflexivity|].
  - apply Forall_replicate. unfold process_number. lia.
  - apply Forall_replicate. split; [reflexivity| |reflexivity|apply check_bytes; vm_compute; reflexivity].
    apply Forall_app. split; [|apply Forall_replicate, demo_fd_typed; by left].
    repeat apply Forall_cons_2; try (apply demo_fd_typed; by right); constructor.
Qed.

Lemma dark_typed : data_typed dark_kernel.
Proof.
  split; [|constructor|by split; left|exact dark_terms|by split|exact dark_procs|].
  - split; [reflexivity|]. apply Forall_replicate. split; [reflexivity|apply zeros_bytes].
  - intros t i. cbn. unfold byte. lia.
Qed.

Lemma exe_image_bytes : bytes exe_image.
Proof. apply check_bytes. vm_compute. reflexivity. Qed.

Lemma demo_system_runs : exists s, @running demo_layout demo_overread demo_linked (start_state dark_kernel) s.
Proof.
  destruct (@boot_runs_shell demo_layout demo_linked chips demo_pics chips_answer (Machine (replicate 40 0) 111 222)
    0x412340 0x412280 0 0 0x2BADB002 demo_info demo_module 2 2 2 0 44 0x8048020 dark_kernel) as (s & Hs & _);
    [exact dark_powered|exact demo_info_ok|exact exe_image_wf|exact shell_file|lia|reflexivity|vm_compute; reflexivity|].
  eexists. eapply Running; [|exact Hs|discriminate|].
  - constructor; [exact exe_image_bytes|constructor].
  - eapply run_step; [eapply run_step; [apply run_start|]|].
    + apply (@step_call demo_layout demo_overread (b_kernel s) chips (Machine (replicate 40 0) 111 222) [] 8 0 0 0 (b_kernel s));
        [unfold own_pointers; change (s32 8) with 8; change (u32 0) with 0; split_and!; intros Hn; lia|constructor|].
      reflexivity.
    + eapply (step_interrupt (b_kernel s) _ _ (int_clock chips (Machine (replicate 40 0) 111 222))). reflexivity.
Qed.

Lemma running_isolated_witness :
  exists s, @running demo_layout demo_overread demo_linked (start_state dark_kernel) s /\
    (translate (@load_task demo_layout 2 (k_paging s)) true true 0x8000000 = Some 0x800000 ->
       0xB8000 <= 0x8000000 < 0xB9000 /\ 0xB8000 <= 0x8000000 < 0xB9000) /\
    (0xB8000 <= 0x8000000 < 0xB9000 \/ 0x800000 <= 0x800000 < 0x2000000).
Proof.
  destruct demo_system_runs as (s & Hs). exists s. split; [exact Hs|].
  apply (@running_isolated demo_layout demo_overread demo_linked (start_state dark_kernel) s 1 2 true true);
    [exact dark_typed|exact Hs|lia..|].
  destruct (running_types (start_state dark_kernel) s dark_typed Hs) as [_ Hr]. destruct (reachable_maps _ 1 Hr) as (f & _ & Hm); [lia|].
  rewrite (translate_task _ 1 f); [reflexivity|exact Hm|reflexivity|lia|lia].
Defined.
