(* ===== verification/Progress.v ===== *)
(** * The kernel does not go wrong

    Calls and interrupts have a result: from a working state, every system call with valid
    arguments, every interrupt of the keyboard or the clock and every store of the program is
    carried out without an access outside an object and without an endless loop, and leaves a
    working state. Types.v and Safety.v say what a result looks like when there is one; here is
    what rules the runs without a result out. *)
From S2P Require Import Kernel Terminal Scheduler Syscall Exec Process Keyboard Typing Interrupts Dispatch FileCalls.
From S2P Require Import Types Safety.

(** ** Events *)

(** A system call with its registers, an interrupt of the keyboard that answers with a scan
    code, one of the clock, a store of the program. *)
Inductive event :=
| SystemCall (eax ebx ecx edx : Z)
| KeyboardInterrupt (sc esp ebp : Z)
| ClockInterrupt
| ProgramStore (va v : Z).

Section Events.
Context `{HL : !Layout} `{HO : !Overread} `{HD : !Device} (m : machine).

(** The handler returns to the code that it interrupted. *)
Definition returned {A} (c : control A) : M kernel unit :=
  match c with Returns _ => mret tt | _ => hang end.

Definition handle (e : event) : M kernel unit :=
  match e with
  | SystemCall eax ebx ecx edx =>
      r ← run_syscall_wrapper m [zoom rtc_interrupt] eax ebx ecx edx;
      match r with Some c => returned c | None => hang end
  | KeyboardInterrupt sc esp ebp => c ← @run_irq1_wrapper _ _ (fun _ _ => sc) m esp ebp; returned c
  | ClockInterrupt => c ← run_irq8_wrapper m; returned c
  | ProgramStore va v => user_store va v
  end.
End Events.

(** The arguments with which process [pid] may call in state [s]: pointers into its page; to
    read, not from the keyboard, a positive count and that many bytes, 34 at least, up to the
    end of the page; to write, not to the screen, a string that ends; to open a name of at most
    31 bytes; for getargs room for any argument. halt and execute leave the process. *)
Definition valid_syscall `{!Layout} (s : kernel) (pid eax ebx ecx edx : Z) : Prop :=
  let object va := user_bytes s pid (va - 0x8000000) in
  let n := s32 eax in
  n < 1 \/ 8 < n \/
  (n = 3 /\ own_pointer (u32 ecx) /\ s32 ebx <> 0 /\ 0 < s32 edx /\ u32 ecx + Z.max 34 (s32 edx) <= 0x8400000) \/
  (n = 4 /\ own_pointer (u32 ecx) /\ s32 ebx <> 1 /\ is_Some (strlen (object (u32 ecx)))) \/
  (n = 5 /\ own_pointer (u32 ebx) /\
     exists name, until0 (object (u32 ebx)) = Some name /\ (length name <= 31)%nat) \/
  n = 6 \/
  (n = 7 /\ own_pointer (u32 ebx) /\ u32 ebx + 128 <= 0x8400000) \/
  (n = 8 /\ (u32 ebx = 0 \/ u32 ebx = 0x400000 \/ own_pointer (u32 ebx) /\ u32 ebx + 4 <= 0x8400000)).

(** Any key but a function key that switches the terminal; any byte of the program's page. *)
Definition valid_event `{!Layout} (s : kernel) (pid : Z) (e : event) : Prop :=
  match e with
  | SystemCall eax ebx ecx edx => valid_syscall s pid eax ebx ecx edx
  | KeyboardInterrupt sc _ _ => 0 <= sc < 256 /\ no_switch (k_kbd s) sc
  | ClockInterrupt => True
  | ProgramStore va _ => own_pointer va
  end.

(** ** Working states *)

Section Working.
Context `{HL : !Layout} `{HO : !Overread} `{HD : !Device} (m : machine).
Context (img : list Z) (n N D pid frame term fr : Z).
Implicit Types (s : kernel) (e : event).

(** Process [pid] runs with its pages mapped, its open descriptors are served, its argument
    ends, and a line is edited on the visible terminal [term] in frame [fr]. *)
Record serviceable s : Prop := {
  sb_serving : serving img n N s pid;
  sb_maps : maps (k_paging s) pid frame;
  sb_argument : exists l arg, argument_of s pid = Some l /\ until0 l = Some arg;
  sb_line : exists line t, editing s term fr line t /\ room line t;
}.
Record working s : Prop := {
  wk_data : data_typed s;
  wk_serviceable : serviceable s;
}.

(** What the valid events of the system lead to. *)
Inductive leads s : kernel -> Prop :=
| leads_start : leads s s
| leads_step s1 s2 e : leads s s1 -> valid_event s1 pid e -> handle m e s1 = Ret tt s2 -> leads s s2.

(** *** Types *)

Lemma handle_types e : keeps (Types.typed (fun _ => True)) anything (handle m e).
Proof.
  assert (forall c : control unit, keeps (Types.typed (fun _ => True)) anything (returned c)) as Hr.
  { intros []; [by apply keeps_ret|apply keeps_hang..]. }
  destruct e as [eax ebx ecx edx|sc esp ebp| |va v]; cbn [handle].
  - eapply (keeps_bind _ anything).
    + apply (syscall_types (fun _ => True)). constructor; [apply zoom_rtc_types|constructor].
    + intros [[]|] _; first [by apply keeps_ret|apply keeps_hang].
  - eapply (keeps_bind _ anything); [|by intros]. apply interrupt_types; [apply _|constructor].
  - eapply (keeps_bind _ anything); [|by intros]. apply interrupt_types; [apply _|constructor].
  - apply user_store_types, _.
Qed.

(** *** What keeps a state serviceable *)

Lemma editing_ext s s' line t :
  undisturbed pid s s' -> editing s term fr line t -> editing s' term fr line t.
Proof.
  intros [Hp Hf Hc Ht _ _] [? ? ? ?]. split; [by rewrite Ht|by rewrite Ht|by apply (showing_ext s)|done].
Qed.

Lemma serviceable_undisturbed s s' :
  serviceable s -> serving img n N s' pid -> undisturbed pid s s' -> serviceable s'.
Proof.
  intros [_ Hm Ha (line & t & He & Hr)] Hs' Hu. split; [done| | |].
  - by rewrite (un_paging _ _ _ Hu).
  - by rewrite (un_argument _ _ _ Hu).
  - exists line, t. split; [by apply (editing_ext s)|done].
Qed.

Lemma serving_ext s s' :
  serving img n N s pid -> k_procs s' = k_procs s -> k_fs s' = k_fs s -> k_paging s' = k_paging s -> serving img n N s' pid.
Proof.
  intros Hs Hp Hf Hg. pose proof (sv_process _ _ _ _ _ Hs) as [Hcr Hpid [Hl He]].
  apply (serving_same img n N s); [done| | | |].
  - split; [by rewrite Hg|done|]. by split; rewrite Hp.
  - rewrite Hf. apply Hs.
  - rewrite Hf. apply Hs.
  - intros i. unfold fd_of. by rewrite Hp.
Qed.

(** A state that differs in the port history, the stack pointers, the clock's flag or the
    memory of the programs only. *)
Lemma serviceable_ext s s' :
  serviceable s -> undisturbed pid s s' -> k_procs s' = k_procs s -> k_fs s' = k_fs s -> serviceable s'.
Proof.
  intros Hs Hu Hp Hf. apply (serviceable_undisturbed s); [done| |done].
  apply (serving_ext s); [apply Hs|done|done|apply Hu].
Qed.

Lemma serviceable_typed s s' line t :
  serviceable s -> Typing.typed fr term s s' -> editing s' term fr line t -> room line t -> serviceable s'.
Proof.
  intros [Hs Hm Ha _] Hty He Hr. split.
  - apply (serving_ext s); [done|apply Hty..].
  - by rewrite (ty_paging _ _ _ _ Hty).
  - unfold argument_of. rewrite (ty_procs _ _ _ _ Hty). exact Ha.
  - by exists line, t.
Qed.

(** *** Every event is carried out *)

Hypothesis Hserved : served img n N D.

Lemma keyboard_interrupt_goes s sc esp ebp :
  quiet -> serviceable s -> valid_event s pid (KeyboardInterrupt sc esp ebp) ->
  exists s', handle m (KeyboardInterrupt sc esp ebp) s = Ret tt s' /\ serviceable s'.
Proof.
  intros Hq Hs Hv. cbn [handle]. unfold run_irq1_wrapper.
  set (s0 := lset (Cpustate (tss_esp0 (k_cpu s)) (tss_ss0 (k_cpu s)) (s32 esp) (s32 ebp)) s).
  rewrite bind_bind, (bind_Ret (modify _) _ s tt s0) by done.
  assert (serviceable s0) as Hs0 by by apply (serviceable_ext s).
  destruct (sb_line _ Hs0) as (line & t & He & Hr).
  destruct (keyboard_irq_step m s0 term fr line t sc Hq He Hr Hv) as (s' & Hrun & He' & Hr' & Hty & _).
  rewrite (bind_Ret _ _ _ _ _ Hrun). exists s'. split; [done|]. by eapply serviceable_typed.
Qed.

Lemma clock_interrupt_goes s : serviceable s -> exists s', handle m ClockInterrupt s = Ret tt s' /\ serviceable s'.
Proof.
  intros Hs. cbn [handle]. unfold run_irq8_wrapper, irq_handler, irq_functions.
  rewrite bind_bind, (bind_Ret (lift _) _ s (Some irq8) s) by done. unfold irq8. rewrite !bind_bind.
  assert (exists r : rtc, zoom rtc_interrupt s = Ret tt (lset r s)) as (r & Hr) by by eexists.
  rewrite (bind_Ret _ _ _ _ _ Hr), (bind_Ret (mret _) _ (lset r s) (Returns tt) (lset r s)), bind_bind by done.
  destruct (send_eoi_port_only 8 (lset r s) ltac:(lia)) as (s' & Heoi & h & ->). rewrite (bind_Ret _ _ _ _ _ Heoi).
  eexists. split; [reflexivity|]. by apply (serviceable_ext s).
Qed.

Lemma own_translates s user wr va :
  serviceable s -> own_pointer va -> translate (k_paging s) user wr va = Some (program_frame pid + (va - 0x8000000)).
Proof.
  intros Hs Hva. unfold own_pointer in Hva. pose proof (sv_process _ _ _ _ _ (sb_serving _ Hs)) as [Hcr Hpid _].
  rewrite (translate_task _ pid frame) by (apply Hs || done || lia). unfold task_space. by rewrite bool_decide_true.
Qed.

Lemma program_store_goes s va v :
  serviceable s -> own_pointer va -> exists s', handle m (ProgramStore va v) s = Ret tt s' /\ serviceable s'.
Proof.
  intros Hs Hva. cbn [handle]. unfold user_store. rewrite (bind_Ret get _ s s s) by done.
  rewrite (own_translates s true true va Hs Hva), (bind_Ret (lift _) _ s (program_frame pid + (va - 0x8000000)) s) by done.
  pose proof (sv_process _ _ _ _ _ (sb_serving _ Hs)) as Hp.
  pose proof (user_at pid frame s true va (sb_maps _ Hs) (pr_cr3 _ _ Hp) (pr_pid _ _ Hp) Hva) as Hat.
  rewrite (own_translates s false true va Hs Hva) in Hat. cbn [mbind option_bind] in Hat. rewrite Hat.
  eexists. split; [reflexivity|]. by apply (serviceable_ext s).
Qed.

(** The buffer of a call, before and after it. *)
Lemma own_object s va :
  serviceable s -> own_pointer va -> user_object va s = Ret (user_bytes s pid (va - 0x8000000)) s.
Proof.
  intros Hs Hva. pose proof (sv_process _ _ _ _ _ (sb_serving _ Hs)) as Hp.
  by apply (user_object_eq pid frame); [apply Hs|apply Hp|apply Hp|].
Qed.
Lemma own_store s va l :
  serviceable s -> own_pointer va -> len l <= 0x8400000 - va -> exists s', store_user va l s = Ret tt s' /\ serviceable s'.
Proof.
  intros Hs Hva Hl. pose proof (sv_process _ _ _ _ _ (sb_serving _ Hs)) as Hp. destruct l as [|c l]; [by exists s|].
  rewrite (store_user_eq pid frame s va (c :: l) (sb_maps _ Hs) (pr_cr3 _ _ Hp) (pr_pid _ _ Hp) Hva Hl ltac:(done)).
  eexists. split; [reflexivity|]. by apply (serviceable_ext s).
Qed.
Lemma object_length s va : own_pointer va -> len (user_bytes s pid (va - 0x8000000)) = 0x8400000 - va.
Proof. unfold own_pointer. intros. rewrite user_bytes_length; lia. Qed.

Lemma getargs_goes s buf k :
  serviceable s -> (128 <= length buf)%nat -> exists v buf', getargs buf k s = Ret (v, buf') s /\ length buf' = length buf.
Proof.
  intros Hs Hb. pose proof (sv_process _ _ _ _ _ (sb_serving _ Hs)) as Hp.
  destruct (process_pcb _ _ Hp) as (p & Hpcb & _ & Hla & _). destruct (sb_argument _ Hs) as (l & arg & Hl & Harg).
  unfold argument_of in Hl. rewrite Hpcb in Hl. injection Hl as <-. pose proof (until0_length _ _ Harg).
  unfold getargs. rewrite (bind_Ret _ _ _ _ _ (process_find _ _ Hp)), (bind_Ret _ _ _ _ _ (get_pcb_eq _ _ _ Hpcb)).
  rewrite (strlen_Some _ _ Harg), (bind_Ret (lift _) _ s (len arg) s) by done.
  case_bool_decide; [by eexists _, _|]. rewrite (strcpy_fits _ _ _ Harg) by lia.
  eexists _, _. split; [reflexivity|]. lens.
Qed.

Lemma vidmap_goes s va :
  serviceable s -> va = 0 \/ va = 0x400000 \/ own_pointer va /\ va + 4 <= 0x8400000 ->
  exists v s', vidmap va s = Ret v s' /\ serviceable s'.
Proof.
  intros Hs Hva. unfold vidmap. destruct (decide (va = 0 \/ va = 0x400000)) as [[-> | ->]|Hne]; [by eexists _, _..|].
  destruct Hva as [?|[?|[Hown Hend]]]; [lia..|]. rewrite !bool_decide_false by lia. cbn [orb].
  destruct (own_store s va (bytes32 VIDEO_MEM) Hs Hown) as (s' & Hst & Hs'); [cbn; lia|].
  change (store_user va (bytes32 VIDEO_MEM)) with (put_program va (bytes32 VIDEO_MEM)) in Hst.
  rewrite (bind_Ret _ _ _ _ _ Hst). eauto.
Qed.

Lemma read_goes s i va k :
  serviceable s -> own_pointer va -> i <> 0 -> 0 < k < 2147483648 -> va + Z.max 34 k <= 0x8400000 ->
  exists v s', (buf ← user_object va; r ← read [zoom rtc_interrupt] i buf k;
     match r with
     | None => mret None
     | Some (v, buf', _) => store_user va buf' ;; mret (Some (Returns v))
     end) s = Ret (Some (Returns v)) s' /\ serviceable s'.
Proof.
  intros Hs Hva Hi Hk Hend. pose proof (object_length s va Hva) as Hlen.
  rewrite (bind_Ret _ _ _ _ _ (own_object s va Hs Hva)).
  destruct (serving_read img n N D Hserved s pid i (user_bytes s pid (va - 0x8000000)) k) as (v & buf' & env & s1 & Hr & Hl & Hs1 & Hu).
  { apply Hs. }
  { cbn [valid_call]. unfold own_pointer in Hva. lia. }
  rewrite (bind_Ret _ _ _ _ _ Hr). pose proof (serviceable_undisturbed _ _ Hs Hs1 Hu) as Hsb1.
  destruct (own_store s1 va buf' Hsb1 Hva) as (s2 & Hst & Hs2); [lia|]. rewrite (bind_Ret _ _ _ _ _ Hst). eauto.
Qed.

(** The calls on descriptors, by the table of FileCalls.v. *)
Lemma file_call_goes s c : serviceable s -> valid_call c -> exists v s', run_call c s = Ret v s' /\ serviceable s'.
Proof.
  intros Hs Hc. destruct (serving_call img n N D Hserved s pid c (sb_serving _ Hs) Hc) as (v & s' & Hr & Hs' & Hu).
  exists v, s'. split; [done|]. by eapply serviceable_undisturbed.
Qed.

Lemma wrapper_number env eax ebx ecx edx :
  run_syscall_wrapper m env eax ebx ecx edx = run_syscall_wrapper m env (s32 eax) ebx ecx edx.
Proof. unfold run_syscall_wrapper. by rewrite (s32_small (s32 eax)) by apply s32_range. Qed.

Lemma wrapper_file_call env ebx ecx edx :
  run_syscall_wrapper m env 4 ebx ecx edx
    = (buf ← user_object (u32 ecx); v ← run_call (Write (s32 ebx) buf (s32 edx)); mret (Some (Returns v))) /\
  run_syscall_wrapper m env 5 ebx ecx edx
    = (filename ← user_object (u32 ebx); v ← run_call (Open filename); mret (Some (Returns v))) /\
  run_syscall_wrapper m env 6 ebx ecx edx = (v ← run_call (Close (s32 ebx)); mret (Some (Returns v))).
Proof. by split_and!. Qed.

Lemma wrapper_goes s eax ebx ecx edx :
  data_typed s -> serviceable s -> valid_syscall s pid eax ebx ecx edx ->
  exists v s', run_syscall_wrapper m [zoom rtc_interrupt] eax ebx ecx edx s = Ret (Some (Returns v)) s' /\ serviceable s'.
Proof.
  intros Hd Hs Hv. unfold valid_syscall in Hv. cbv zeta in Hv. pose proof (s32_range edx).
  destruct (decide (s32 eax < 1 \/ 8 < s32 eax)) as [Hbad|Hin].
  { eexists _, s. split; [by apply syscall_rejects|done]. }
  rewrite wrapper_number. destruct (wrapper_file_call [zoom rtc_interrupt] ebx ecx edx) as (W4 & W5 & W6).
  destruct Hv as [?|[?|[(-> & Hp & Hi & Hk & Hend)|[(-> & Hp & Hi & Hstr)|[(-> & Hp & name & Hn & Hl)|[->|[(-> & Hp & Hend)|(-> & Hp)]]]]]]];
    [lia..| | | | | |].
  - rewrite wrapper_read. apply read_goes; done || lia.
  - rewrite W4, (bind_Ret _ _ _ _ _ (own_object s _ Hs Hp)).
    destruct (file_call_goes s (Write (s32 ebx) (user_bytes s pid (u32 ecx - 0x8000000)) (s32 edx)) Hs) as (v & s' & Hr & Hs');
      [done|]. rewrite (bind_Ret _ _ _ _ _ Hr). eauto.
  - rewrite W5, (bind_Ret _ _ _ _ _ (own_object s _ Hs Hp)).
    destruct (file_call_goes s (Open (user_bytes s pid (u32 ebx - 0x8000000))) Hs) as (v & s' & Hr & Hs').
    { split; [|by exists name]. apply Forall_fmap, Forall_true. intros i. apply (dt_programs _ Hd). }
    rewrite (bind_Ret _ _ _ _ _ Hr). eauto.
  - rewrite W6. destruct (file_call_goes s (Close (s32 ebx)) Hs Logic.I) as (v & s' & Hr & Hs').
    rewrite (bind_Ret _ _ _ _ _ Hr). eauto.
  - rewrite wrapper_getargs, (bind_Ret _ _ _ _ _ (own_object s _ Hs Hp)).
    pose proof (object_length s _ Hp) as Hlen.
    destruct (getargs_goes s (user_bytes s pid (u32 ebx - 0x8000000)) (s32 ecx) Hs) as (v & buf' & Hg & Hl); [lia|].
    rewrite (bind_Ret _ _ _ _ _ Hg). cbn [fst snd].
    destruct (own_store s (u32 ebx) buf' Hs Hp) as (s' & Hst & Hs'); [lia|]. rewrite (bind_Ret _ _ _ _ _ Hst). eauto.
  - rewrite wrapper_vidmap. destruct (vidmap_goes s (u32 ebx) Hs Hp) as (v & s' & Hr & Hs').
    rewrite (bind_Ret _ _ _ _ _ Hr). eauto.
Qed.

(** Progress, then preservation. *)
Lemma working_goes s e :
  quiet -> working s -> valid_event s pid e -> exists s', handle m e s = Ret tt s' /\ working s'.
Proof.
  intros Hq [Hd Hs] Hv.
  assert (exists s', handle m e s = Ret tt s' /\ serviceable s') as (s' & Hrun & Hs').
  { destruct e as [eax ebx ecx edx|sc esp ebp| |va v].
    - destruct (wrapper_goes s eax ebx ecx edx Hd Hs Hv) as (v & s' & Hr & Hs'). exists s'. split; [|done].
      cbn [handle]. by rewrite (bind_Ret _ _ _ _ _ Hr).
    - by apply keyboard_interrupt_goes.
    - by apply clock_interrupt_goes.
    - by apply program_store_goes. }
  exists s'. split; [done|]. split; [|done].
  pose proof (handle_types e s (conj Hd Logic.I)) as Ht. rewrite Hrun in Ht. apply Ht.
Qed.

Lemma leads_working s s' : quiet -> working s -> leads s s' -> working s'.
Proof.
  intros Hq Hs H. induction H as [|s1 s2 e _ IH Hv Hrun]; [done|].
  destruct (working_goes s1 e Hq IH Hv) as (s2' & Hrun' & Hs2). congruence.
Qed.
End Working.

(** ** Properties *)

(** C6: the kernel does not go wrong. From a working state (every variable has a value of its
    type, a process runs whose open descriptors have drivers, a line is edited on the visible
    terminal; the image is well formed, no line break is behind the key table), take any sequence
    of its system calls but halt and execute with valid arguments ([valid_syscall]: pointers into
    its page with room for what the call stores, strings that end, names of at most 31 bytes, no
    terminal's descriptor; one clock tick comes while a call waits), of keyboard interrupts with
    any scan code that does not switch the terminal, of clock interrupts, and of stores of the
    program to its page. Every state they lead to is working again: arrays have their lengths,
    elements are bytes, indices are in bounds. And the kernel is never stuck there: each further
    event of these kinds is carried out to its return, without an access outside an object, a
    call through an empty operation table or an endless loop. *)
Theorem system_progresses `{!Layout} `{!Overread} `{!Device} m img n N D pid frame term fr s s' :
  served img n N D -> quiet -> working img n N pid frame term fr s -> leads m pid s s' ->
  working img n N pid frame term fr s' /\
  forall e, valid_event s' pid e -> exists s2, handle m e s' = Ret tt s2.
Proof.
  intros Hserved Hq Hs Hrun. pose proof (leads_working m img n N D pid frame term fr Hserved s s' Hq Hs Hrun) as Hs'.
  split; [done|]. intros e He. destruct (working_goes m img n N D pid frame term fr Hserved s' e Hq Hs' He) as (s2 & Hr & _).
  by exists s2.
Qed.

(** A working state, for the example: a process that has just been started, with the name of
    the directory near the end of its page. *)
Definition demo_state : kernel :=
  set_programs (fun _ i => if bool_decide (i = 0x3FFFF0) then 46 else 0)
    (with_frames (replicate 4 blank_page) demo_fresh).

Lemma demo_state_typed : data_typed demo_state.
Proof.
  split.
  - split; [reflexivity|]. apply Forall_replicate. split; [reflexivity|apply zeros_bytes].
  - apply check_bytes. vm_compute. reflexivity.
  - split; by left.
  - split; [reflexivity| |cbn; lia|by left].
    repeat apply Forall_cons_2; [..|constructor]; (split; [reflexivity|apply zeros_bytes|cbn; lia]).
  - split; [reflexivity|cbn; lia].
  - split; [reflexivity| |cbn; unfold byte; lia|cbn; lia|reflexivity|].
    + repeat apply Forall_cons_2; [..|constructor]; unfold process_number; lia.
    + apply Forall_replicate. split; [reflexivity| |reflexivity|apply check_bytes; vm_compute; reflexivity].
      apply Forall_app. split; apply Forall_replicate, demo_fd_typed; [by right|by left].
  - intros t i. cbn. unfold byte. case_bool_decide; lia.
Qed.

Lemma demo_state_works : @working demo_layout demo_image 4 2 1 VIDEO_MEM 0 0 demo_state.
Proof.
  split; [exact demo_state_typed|]. split.
  - by apply (serving_ext demo_image 4 2 1 demo_fresh); [exact demo_serving|..].
  - split; [reflexivity|]. intros i Hi. split; reflexivity.
  - eexists _, (bytes_of_string "-n 3"). split; reflexivity.
  - exists [], (tty_of demo_console blank_page). split; [|unfold room; cbn; lia]. split.
    + reflexivity.
    + eexists. split; [reflexivity|]. by split_and!.
    + exists blank_page. split; [|apply (console_shows demo_console 0); apply demo_shown].
      split; [reflexivity|reflexivity|reflexivity|apply zeros_bytes].
    + split; cbn; lia.
Qed.

Lemma demo_opens : valid_event demo_state 1 (SystemCall 5 0x83FFFF0 0 0).
Proof.
  right; right; right; right; left. split; [reflexivity|]. split; [unfold own_pointer; vm_compute; split; done|].
  exists (bytes_of_string "."). split; [vm_compute; reflexivity|cbn; lia].
Qed.

Lemma system_progresses_witness :
  exists s', @leads demo_layout demo_overread demo_device demo_machine 1 demo_state s' /\
    @working demo_layout demo_image 4 2 1 VIDEO_MEM 0 0 s' /\
    (forall e, valid_event s' 1 e -> exists s2, @handle demo_layout demo_overread demo_device demo_machine e s' = Ret tt s2) /\
    valid_event s' 1 (SystemCall 6 2 0 0).
Proof.
  pose proof (@working_goes demo_layout demo_overread demo_device demo_machine demo_image 4 2 3 1 VIDEO_MEM 0 0 demo_served) as G.
  destruct (G demo_state (SystemCall 5 0x83FFFF0 0 0) demo_quiet demo_state_works demo_opens) as (s1 & H1 & W1).
  assert (forall s, valid_event s 1 (SystemCall 3 2 0x83FFFC0 32)) as Hread.
  { intros s. right; right; left. split_and!; vm_compute; done. }
  destruct (G s1 (SystemCall 3 2 0x83FFFC0 32) demo_quiet W1 (Hread s1)) as (s2 & H2 & W2).
  assert (forall s, valid_event s 1 (KeyboardInterrupt 0x1E 0x7FF000 0x7FF010)) as Hkey.
  { intros s. split; [lia|right; split_and!; done]. }
  destruct (G s2 _ demo_quiet W2 (Hkey s2)) as (s3 & H3 & W3).
  exists s3.
  assert (@leads demo_layout demo_overread demo_device demo_machine 1 demo_state s3) as Hleads.
  { eapply leads_step; [eapply leads_step; [eapply leads_step; [apply leads_start|exact demo_opens|exact H1]|apply Hread|exact H2]|apply Hkey|exact H3]. }
  destruct (@system_progresses demo_layout demo_overread demo_device demo_machine demo_image 4 2 3 1 VIDEO_MEM 0 0
    demo_state s3 demo_served demo_quiet demo_state_works Hleads) as [Hw Hgo].
  split; [exact Hleads|]. split; [exact Hw|]. split; [exact Hgo|].
  right; right; right; right; right; left. reflexivity.
Defined.
