(* ===== verification/Calls.v ===== *)
(** * Programs and their system calls

    A user program ([src/syscalls]) is an interaction tree: its loops may be endless, and
    its events are the system calls of [ece391syscall.h]. [runs] is total correctness of a
    program over a handler of the calls; a handler for the kernel is in KernelCalls.v,
    one for the abstract file service in Service.v. *)
From ITree Require Import Core.ITreeDefinition.
From S2P Require Import Prelude.

(** ** Calls

    An array that a call is passed is the list of its bytes; a call that stores in the
    array answers with its result and the array. [Sys_number]: interrupt 0x80 with a number
    in EAX. [Sys_vidmap_at]: vidmap of a pointer variable at an address, with the variable
    afterwards. [Sys_poke]: no call, but a store of a byte at an address behind such a
    pointer. A program that leaves its objects is at [Fault], which nothing answers. *)
Variant sys : Type -> Type :=
| Sys_read (fd : Z) (buf : list Z) (nbytes : Z) : sys (Z * list Z)
| Sys_write (fd : Z) (buf : list Z) (nbytes : Z) : sys Z
| Sys_open (filename : list Z) : sys Z
| Sys_close (fd : Z) : sys Z
| Sys_getargs (buf : list Z) (nbytes : Z) : sys (Z * list Z)
| Sys_vidmap (screen_start : Z) : sys Z
| Sys_number (num : Z) : sys Z
| Sys_execute (command : list Z) : sys Z
| Sys_vidmap_at (va : Z) : sys (Z * Z)
| Sys_poke (va v : Z) : sys unit
| Fault : sys Empty_set.

Abbreviation prog := (itree sys).
Definition call {T} (e : sys T) : prog T := ITree.trigger e.

#[export] Instance prog_ret : MRet prog := fun A a => go (RetF a).
#[export] Instance prog_bind : MBind prog := fun A B f t => ITree.bind t f.

Definition ece391_read (fd : Z) (buf : list Z) (nbytes : Z) : prog (Z * list Z) :=
  call (Sys_read fd buf nbytes).
Definition ece391_write (fd : Z) (buf : list Z) (nbytes : Z) : prog Z := call (Sys_write fd buf nbytes).
Definition ece391_open (filename : list Z) : prog Z := call (Sys_open filename).
Definition ece391_close (fd : Z) : prog Z := call (Sys_close fd).
Definition ece391_getargs (buf : list Z) (nbytes : Z) : prog (Z * list Z) := call (Sys_getargs buf nbytes).
Definition ece391_vidmap (screen_start : Z) : prog Z := call (Sys_vidmap screen_start).
Definition ece391_vidmap_at (va : Z) : prog (Z * Z) := call (Sys_vidmap_at va).
Definition ece391_execute (command : list Z) : prog Z := call (Sys_execute command).

(** An access: [None] leaves the object. *)
Definition inside {A} (o : option A) : prog A :=
  match o with
  | Some a => mret a
  | None => r ← call Fault; match (r : Empty_set) with end
  end.

(** [while(1)] with the variables [X]; [inr] leaves the loop. *)
Definition loop {X A} (body : X -> prog (X + A)) (x : X) : prog A := ITree.iter body x.

(** [for (i = lo; i < lo + n; i++)] with the variable [x]. *)
Fixpoint repeat_for {X} (n : nat) (lo : Z) (body : Z -> X -> prog X) (x : X) : prog X :=
  match n with
  | O => mret x
  | S n' => x' ← body lo x; repeat_for n' (lo + 1) body x'
  end.

(** ** Running a program *)

Definition handler (S : Type) : Type := forall T, sys T -> M S T.

(** The program ends, with a result and a state in [Q]. *)
Inductive runs {S A} (h : handler S) (Q : A -> S -> Prop) : prog A -> S -> Prop :=
| runs_Ret t s a : observe t = RetF a -> Q a s -> runs h Q t s
| runs_Tau t s u : observe t = TauF u -> runs h Q u s -> runs h Q t s
| runs_Vis T (e : sys T) k t s x s' :
    observe t = VisF e k -> h T e s = Ret x s' -> runs h Q (k x) s' -> runs h Q t s.

(** The same with fuel, for evaluation: [None] is a program that still runs. *)
Fixpoint exec {S A} (fuel : nat) (h : handler S) (t : prog A) : M S (option A) :=
  match fuel with
  | O => mret None
  | S fuel' =>
      match observe t with
      | RetF a => mret (Some a)
      | TauF u => exec fuel' h u
      | VisF e k => x ← h _ e; exec fuel' h (k x)
      end
  end.

Section Rules.
Context {S : Type} (h : handler S).
Implicit Types (s : S).

Lemma runs_observe {A} (Q : A -> S -> Prop) t u s : observe t = observe u -> runs h Q t s -> runs h Q u s.
Proof.
  intros E H. destruct H; rewrite E in *; [by eapply runs_Ret|by eapply runs_Tau|by eapply runs_Vis].
Qed.

Lemma runs_mono {A} (Q Q' : A -> S -> Prop) t s :
  runs h Q t s -> (forall a s', Q a s' -> Q' a s') -> runs h Q' t s.
Proof.
  intros H HQ. induction H; [eapply runs_Ret|eapply runs_Tau|eapply runs_Vis]; eauto.
Qed.

Lemma runs_ret {A} (Q : A -> S -> Prop) (a : A) s : Q a s -> runs h Q (mret a) s.
Proof. by apply runs_Ret. Qed.

Lemma observe_bind {A B} (t : prog A) (k : A -> prog B) :
  observe (t ≫= k)
  = match observe t with
    | RetF a => observe (k a)
    | TauF u => TauF (u ≫= k)
    | VisF e kt => VisF e (fun x => kt x ≫= k)
    end.
Proof.
  change (observe (t ≫= k)) with (_observe (ITree.bind t k)). unfold ITree.bind, ITree.subst. cbn.
  by destruct (observe t).
Qed.

Lemma runs_bind {A B} (Q : B -> S -> Prop) (t : prog A) (k : A -> prog B) s :
  runs h (fun a s' => runs h Q (k a) s') t s -> runs h Q (t ≫= k) s.
Proof.
  induction 1 as [t s a Ht HQ|t s u Ht _ IH|T e kt t s x s' Ht He _ IH].
  - eapply runs_observe; [|exact HQ]. by rewrite observe_bind, Ht.
  - apply (runs_Tau h Q _ _ (u ≫= k)); [by rewrite observe_bind, Ht|exact IH].
  - apply (runs_Vis h Q T e (fun x => kt x ≫= k) _ s x s'); [by rewrite observe_bind, Ht|exact He|exact IH].
Qed.

Lemma runs_call {T A} (Q : A -> S -> Prop) (e : sys T) (k : T -> prog A) s x s' :
  h T e s = Ret x s' -> runs h Q (k x) s' -> runs h Q (call e ≫= k) s.
Proof.
  intros He Hk. apply runs_bind. eapply runs_Vis; [reflexivity|exact He|]. by eapply runs_Ret.
Qed.

Lemma runs_inside {A B} (Q : B -> S -> Prop) (o : option A) a (k : A -> prog B) s :
  o = Some a -> runs h Q (k a) s -> runs h Q (inside o ≫= k) s.
Proof. intros -> Hk. by apply runs_bind, runs_ret. Qed.

Lemma runs_loop {X A} (Q : A -> S -> Prop) (body : X -> prog (X + A)) x s :
  runs h (fun r s' => match r with inl x' => runs h Q (loop body x') s' | inr a => Q a s' end) (body x) s ->
  runs h Q (loop body x) s.
Proof.
  intros H.
  apply (runs_observe Q (body x ≫= fun r => match r with inl x' => go (TauF (loop body x')) | inr a => mret a end)).
  { rewrite observe_bind. change (observe (loop body x)) with (_observe (ITree.iter body x)).
    unfold ITree.iter. cbn. by destruct (observe (body x)) as [[]| |]. }
  apply runs_bind. eapply runs_mono; [exact H|]. intros [x'|a] s' HQ.
  - by eapply runs_Tau.
  - by eapply runs_Ret.
Qed.

Lemma runs_repeat {X} (I : Z -> X -> S -> Prop) (n : nat) lo (body : Z -> X -> prog X) x s :
  I lo x s ->
  (forall i x s, lo <= i < lo + Z.of_nat n -> I i x s -> runs h (I (i + 1)) (body i x) s) ->
  runs h (I (lo + Z.of_nat n)) (repeat_for n lo body x) s.
Proof.
  revert lo x s. induction n as [|n IH]; intros lo x s H0 Hstep; cbn [repeat_for].
  - apply runs_ret. by replace (lo + Z.of_nat 0) with lo by lia.
  - apply runs_bind. eapply runs_mono; [apply Hstep; [lia|done]|]. intros x' s' HI.
    replace (lo + Z.of_nat (Datatypes.S n)) with (lo + 1 + Z.of_nat n) by lia. apply IH; [done|].
    intros. apply Hstep; [lia|done].
Qed.

(** [runs] is what [exec] computes with enough fuel. *)
Lemma runs_exec {A} (Q : A -> S -> Prop) (t : prog A) s :
  runs h Q t s <-> exists n a s', exec n h t s = Ret (Some a) s' /\ Q a s'.
Proof.
  split.
  - induction 1 as [t s a Ht HQ|t s u Ht _ (n & a & s' & Hn & HQ)|T e k t s x s' Ht He _ (n & a & s'' & Hn & HQ)].
    + exists 1%nat, a, s. cbn [exec]. by rewrite Ht.
    + exists (Datatypes.S n), a, s'. cbn [exec]. by rewrite Ht.
    + exists (Datatypes.S n), a, s''. cbn [exec]. rewrite Ht. by rewrite (bind_Ret _ _ _ _ _ He).
  - intros (n & a & s' & Hn & HQ). revert t s Hn. induction n as [|n IH]; intros t s; [done|].
    cbn [exec]. destruct (observe t) eqn:Ht.
    + intros [= -> ->]. by eapply runs_Ret.
    + intros Hn. eapply runs_Tau; [done|by apply IH].
    + intros (x & s1 & He & Hn)%bind_inv. eapply runs_Vis; [done|exact He|by apply IH].
Qed.
End Rules.

(** *** Programs that do not end *)

(** The program [t] gets to [t'], in another state; what a program with an endless loop does is said
    by where it gets to. *)
Inductive steps {S A} (h : handler S) (t' : prog A) (s' : S) : prog A -> S -> Prop :=
| steps_here t : observe t = observe t' -> steps h t' s' t s'
| steps_Tau t s u : observe t = TauF u -> steps h t' s' u s -> steps h t' s' t s
| steps_Vis T (e : sys T) k t s x s1 :
    observe t = VisF e k -> h T e s = Ret x s1 -> steps h t' s' (k x) s1 -> steps h t' s' t s.

Section Steps.
Context {S : Type} (h : handler S).

Lemma steps_observe {A} (t' t u : prog A) s s' : observe t = observe u -> steps h t' s' t s -> steps h t' s' u s.
Proof.
  intros E H. destruct H; rewrite E in *; [by apply steps_here|by eapply steps_Tau|by eapply steps_Vis].
Qed.

(** A part that ends. *)
Lemma steps_bind {A B} (t' : prog B) s' (t : prog A) (k : A -> prog B) s :
  runs h (fun a s1 => steps h t' s' (k a) s1) t s -> steps h t' s' (t ≫= k) s.
Proof.
  induction 1 as [t s a Ht HQ|t s u Ht _ IH|T e kt t s x s1 Ht He _ IH].
  - eapply steps_observe; [|exact HQ]. by rewrite observe_bind, Ht.
  - apply (steps_Tau h t' s' _ _ (u ≫= k)); [by rewrite observe_bind, Ht|exact IH].
  - apply (steps_Vis h t' s' T e (fun x => kt x ≫= k) _ s x s1); [by rewrite observe_bind, Ht|exact He|exact IH].
Qed.

Lemma steps_call {T A} (t' : prog A) s' (e : sys T) (k : T -> prog A) s x s1 :
  h T e s = Ret x s1 -> steps h t' s' (k x) s1 -> steps h t' s' (call e ≫= k) s.
Proof. intros He Hk. apply steps_bind. eapply runs_Vis; [reflexivity|exact He|]. by eapply runs_Ret. Qed.

(** A round of an endless loop. *)
Lemma steps_loop {X A} (t' : prog A) s' (body : X -> prog (X + A)) x s :
  runs h (fun r s1 => exists x', r = inl x' /\ steps h t' s' (loop body x') s1) (body x) s ->
  steps h t' s' (loop body x) s.
Proof.
  intros H.
  apply (steps_observe t' (body x ≫= fun r => match r with inl x' => go (TauF (loop body x')) | inr a => mret a end)).
  { rewrite observe_bind. change (observe (loop body x)) with (_observe (ITree.iter body x)).
    unfold ITree.iter. cbn. by destruct (observe (body x)) as [[]| |]. }
  apply steps_bind. eapply runs_mono; [exact H|]. intros r s1 (x' & -> & Hx). by eapply steps_Tau.
Qed.
End Steps.

(** [m] does on states what [mw] does on the states that represent them. *)
Definition simulates {S W} (R : S -> W -> Prop) {A} (m : M S A) (mw : M W A) : Prop :=
  forall s w x w', R s w -> mw w = Ret x w' -> exists s', m s = Ret x s' /\ R s' w'.

(** A handler simulates another: programs end the same way over both. *)
Lemma runs_simulation {S W A} (h : handler S) (hw : handler W) (R : S -> W -> Prop)
    (Q : A -> W -> Prop) (t : prog A) s w :
  (forall T (e : sys T), simulates R (h T e) (hw T e)) ->
  R s w -> runs hw Q t w -> runs h (fun a s' => exists w', R s' w' /\ Q a w') t s.
Proof.
  intros Hsim HR H. revert s HR. induction H as [t w a Ht HQ|t w u Ht _ IH|T e k t w x w' Ht He _ IH]; intros s HR.
  - eapply runs_Ret; [done|]. by exists w.
  - eapply runs_Tau; [done|]. by apply IH.
  - destruct (Hsim _ _ _ _ _ _ HR He) as (s' & Hs & HR'). eapply runs_Vis; [done|exact Hs|by apply IH].
Qed.

Lemma steps_simulation {S W A} (h : handler S) (hw : handler W) (R : S -> W -> Prop) (t t' : prog A) s w w' :
  (forall T (e : sys T), simulates R (h T e) (hw T e)) ->
  R s w -> steps hw t' w' t w -> exists s', R s' w' /\ steps h t' s' t s.
Proof.
  intros Hsim HR H. revert s HR. induction H as [t Ht|t w u Ht _ IH|T e k t w x w1 Ht He _ IH]; intros s HR.
  - exists s. split; [done|by apply steps_here].
  - destruct (IH s HR) as (s' & HR' & Hs). exists s'. split; [done|by eapply steps_Tau].
  - destruct (Hsim _ _ _ _ _ _ HR He) as (s1 & Hs1 & HR1). destruct (IH s1 HR1) as (s' & HR' & Hs).
    exists s'. split; [done|by eapply steps_Vis].
Qed.

(** ** Programs that start programs

    [enter] is execute: it refuses a command, with a result, or starts a program; [leave] is
    halt, with the status: it answers the call of the program's parent. [fuel] bounds how
    deep and how long the programs run that are started. *)
Section Processes.
Context {S : Type} (h : handler S) (enter : list Z -> M S (Z + prog Z)) (leave : Z -> M S Z).

Fixpoint processes (fuel : nat) : handler S := fun T e =>
  match e with
  | Sys_execute command =>
      match fuel with
      | O => undef
      | Datatypes.S fuel' =>
          r ← enter command;
          match r with
          | inl v => mret v
          | inr t =>
              o ← exec fuel' (processes fuel') t;
              match o with Some status => leave status | None => undef end
          end
      end
  | e => h _ e
  end.
End Processes.

(** *** More fuel *)

(** [h2] answers what [h1] answers. *)
Definition below {S} (h1 h2 : handler S) : Prop :=
  forall T (e : sys T) s x s', h1 T e s = Ret x s' -> h2 T e s = Ret x s'.

Lemma exec_below {S A} (h1 h2 : handler S) n n' (t : prog A) s a s' :
  below h1 h2 -> (n <= n')%nat -> exec n h1 t s = Ret (Some a) s' -> exec n' h2 t s = Ret (Some a) s'.
Proof.
  intros Hb. revert n' t s. induction n as [|n IH]; intros [|n'] t s Hn; try done; [lia|]. cbn [exec].
  destruct (observe t) as [|u|T e k]; [done|apply IH; lia|]. intros (x & s1 & He & Hk)%bind_inv.
  rewrite (bind_Ret _ _ _ _ _ (Hb _ _ _ _ _ He)). apply IH; [lia|done].
Qed.

Lemma runs_below {S A} (h1 h2 : handler S) (Q : A -> S -> Prop) (t : prog A) s :
  below h1 h2 -> runs h1 Q t s -> runs h2 Q t s.
Proof.
  intros Hb H. induction H; [by eapply runs_Ret|by eapply runs_Tau|].
  eapply runs_Vis; [done| |done]. by apply Hb.
Qed.

Lemma processes_below {S} (h : handler S) enter leave n n' :
  (n <= n')%nat -> below (processes h enter leave n) (processes h enter leave n').
Proof.
  revert n'. induction n as [|n IH]; intros n' Hn T e s x s'; destruct e; destruct n' as [|n']; cbn [processes]; try done; [lia|].
  intros (r & s1 & Hr & H)%bind_inv. rewrite (bind_Ret _ _ _ _ _ Hr). destruct r as [v|t]; [done|].
  apply bind_inv in H as (o & s2 & Ho & H). destruct o as [status|]; [|done].
  by rewrite (bind_Ret _ _ _ _ _ (exec_below _ _ n n' _ _ _ _ (IH n' ltac:(lia)) ltac:(lia) Ho)).
Qed.

(** A call of execute that starts a program which ends. *)
Lemma processes_execute {S} (h : handler S) enter leave n command s t s1 (Q : Z -> S -> Prop) :
  enter command s = Ret (inr t) s1 ->
  runs (processes h enter leave n) (fun status s2 => exists v s3, leave status s2 = Ret v s3 /\ Q v s3) t s1 ->
  exists n' v s3, processes h enter leave n' _ (Sys_execute command) s = Ret v s3 /\ Q v s3.
Proof.
  intros He (k & status & s2 & Hk & v & s3 & Hl & HQ)%runs_exec. exists (Datatypes.S (n + k)), v, s3.
  split; [|done]. cbn [processes]. rewrite (bind_Ret _ _ _ _ _ He).
  pose proof (exec_below _ _ k (n + k) _ _ _ _ (processes_below h enter leave n (n + k) ltac:(lia)) ltac:(lia) Hk) as Hn.
  by rewrite (bind_Ret _ _ _ _ _ Hn).
Qed.

(** *** Simulation *)

Lemma simulates_bind {S W} (R : S -> W -> Prop) {A B} (m : M S A) (mw : M W A) (f : A -> M S B) (fw : A -> M W B) :
  simulates R m mw -> (forall a, simulates R (f a) (fw a)) -> simulates R (m ≫= f) (mw ≫= fw).
Proof.
  intros Hm Hf s w x w' HR (a & w1 & Ha & Hx)%bind_inv. destruct (Hm _ _ _ _ HR Ha) as (s1 & Hs1 & HR1).
  destruct (Hf a _ _ _ _ HR1 Hx) as (s' & Hs' & HR'). exists s'. by rewrite (bind_Ret _ _ _ _ _ Hs1).
Qed.

Lemma exec_simulates {S W A} (R : S -> W -> Prop) (h : handler S) (hw : handler W) n (t : prog A) :
  (forall T (e : sys T), simulates R (h T e) (hw T e)) -> simulates R (exec n h t) (exec n hw t).
Proof.
  intros Hh. revert t. induction n as [|n IH]; intros t; cbn [exec].
  - intros s w x w' HR [= <- <-]. by exists s.
  - destruct (observe t) as [a|u|T e k].
    + intros s w x w' HR [= <- <-]. by exists s.
    + apply IH.
    + apply simulates_bind; [apply Hh|]. intros x. apply IH.
Qed.

Lemma processes_simulates {S W} (R : S -> W -> Prop) (h : handler S) (hw : handler W) enter enterw leave leavew n :
  (forall T (e : sys T), simulates R (h T e) (hw T e)) ->
  (forall command, simulates R (enter command) (enterw command)) ->
  (forall status, simulates R (leave status) (leavew status)) ->
  forall T (e : sys T), simulates R (processes h enter leave n T e) (processes hw enterw leavew n T e).
Proof.
  intros Hh He Hl. induction n as [|n IH]; intros T e; destruct e; cbn [processes]; try apply Hh; [done|].
  apply simulates_bind; [apply He|]. intros [v|t].
  - intros s w x w' HR [= <- <-]. by exists s.
  - apply simulates_bind; [by apply exec_simulates|]. intros [status|]; [apply Hl|done].
Qed.
