(* ===== verification/UserLib.v ===== *)
(** * The library of the user programs

    [src/syscalls/ece391support.c]: the functions that the programs share. An array of a
    program is the list of its bytes. *)
From S2P Require Import Prelude Clib.
From S2P Require Export Calls.

(** ** Strings *)

(** [for (len = 0; '\0' != *s; s++, len++);] *)
Fixpoint ece391_strlen (s : list Z) : option Z :=
  match s with
  | [] => None
  | c :: s' => if bool_decide (0 <> c) then n ← ece391_strlen s'; Some (n + 1) else Some 0
  end.

Fixpoint ece391_strcmp (s1 s2 : list Z) : option Z :=
  match s1, s2 with
  | a :: s1', b :: s2' =>
      if bool_decide (a = b) then
        if bool_decide (a = 0) then Some 0 else ece391_strcmp s1' s2'
      else Some (a - b)
  | _, _ => None
  end.

(** The loop of strncmp, for [n] > 0. *)
Fixpoint strncmp_from (s1 s2 : list Z) (n : Z) : option Z :=
  match s1, s2 with
  | a :: s1', b :: s2' =>
      if bool_decide (a = b) then
        if bool_decide (a = 0) || bool_decide (u32 (n - 1) = 0) then Some 0
        else strncmp_from s1' s2' (u32 (n - 1))
      else Some (a - b)
  | _, _ => None
  end.
Definition ece391_strncmp (s1 s2 : list Z) (n : Z) : option Z :=
  if bool_decide (0 = n) then Some 0 else strncmp_from s1 s2 n.

(** In an array [l], from index [src] to index [dst]: the two may overlap. *)
Fixpoint ece391_strcpy (fuel : nat) (l : list Z) (dst src : Z) : option (list Z) :=
  match fuel with
  | O => None
  | S fuel' =>
      c ← load l src;
      l' ← store l dst c;
      if bool_decide (0 <> c) then ece391_strcpy fuel' l' (dst + 1) (src + 1) else Some l'
  end.

(** ** Numbers *)

(** [while (beg < end) { ... }]: at most one round per byte. *)
Fixpoint reverse_from (fuel : nat) (s : list Z) (beg end_ : Z) : option (list Z) :=
  if bool_decide (beg < end_) then
    match fuel with
    | O => None
    | S fuel' =>
        tmp ← load s end_;
        b ← load s beg;
        s1 ← store s end_ b;
        s2 ← store s1 beg tmp;
        reverse_from fuel' s2 (beg + 1) (end_ - 1)
    end
  else Some s.
Definition ece391_strrev (s : list Z) : option (list Z) :=
  n ← ece391_strlen s;
  let end_ := s32 (n - 1) in
  if bool_decide (end_ <= 0) then Some s else reverse_from (length s) s 0 end_.

Definition user_lookup : list Z := cstring "0123456789ABCDEFGHIJKLMNOPQRSTUVWXYZ".

(** [while (newval > 0) { ... }]: a round stores a byte, so the store fails before the
    fuel, one more than the array's length, is used up. *)
Fixpoint place_values (fuel : nat) (newval radix : Z) (buf : list Z) (newbuf : Z) : option (list Z * Z) :=
  if bool_decide (newval > 0) then
    match fuel with
    | O => None
    | S fuel' =>
        if bool_decide (u32 radix = 0) then None
        else
          c ← load user_lookup (s32 (newval `mod` u32 radix));
          buf' ← store buf newbuf c;
          place_values fuel' (newval `div` u32 radix) radix buf' (newbuf + 1)
    end
  else Some (buf, newbuf).

Definition ece391_itoa (value : Z) (buf : list Z) (radix : Z) : option (list Z) :=
  if bool_decide (value = 0) then
    buf1 ← store buf 0 48;
    store buf1 1 0
  else
    '(buf1, newbuf) ← place_values (S (length buf)) value radix buf 0;
    buf2 ← store buf1 newbuf 0;
    ece391_strrev buf2.

(** ** Output *)

Definition ece391_fdputs (fd : Z) (s : list Z) : prog unit :=
  n ← inside (ece391_strlen s);
  _ ← ece391_write fd s n;
  mret tt.

(** ** Lemmas *)

Lemma ece391_strlen_eq s : ece391_strlen s = strlen s.
Proof.
  induction s as [|c s IH]; [done|]. cbn [ece391_strlen strlen]. rewrite IH.
  destruct (decide (c = 0)) as [->|]; [done|]. by rewrite bool_decide_true, bool_decide_false by done.
Qed.

Lemma reverse_from_eq fuel s b e : reverse_from fuel s b e = strrev_loop fuel s b e.
Proof.
  revert s b e. induction fuel as [|fuel IH]; intros s b e; [done|]. cbn [reverse_from strrev_loop].
  case_bool_decide; [|done]. repeat (apply option_bind_ext_fun; intros ?). apply IH.
Qed.

Lemma place_values_eq fuel v radix buf pos :
  0 <= v < 4294967296 -> 2 <= radix <= 36 ->
  place_values fuel v radix buf pos = itoa_loop fuel v radix buf pos.
Proof.
  revert v buf pos. induction fuel as [|fuel IH]; intros v buf pos Hv Hr; [done|].
  cbn [place_values itoa_loop]. rewrite u32_small by lia. case_bool_decide; [|done]. case_bool_decide; [done|].
  pose proof (Z.mod_pos_bound v radix). rewrite s32_small by lia.
  apply option_bind_ext_fun; intros c. apply option_bind_ext_fun; intros buf'. apply IH; [|done].
  split; [apply Z.div_pos; lia|]. apply Z.div_lt_upper_bound; nia.
Qed.

Lemma ece391_strrev_eq s : len s < 2147483648 -> ece391_strrev s = strrev s.
Proof.
  intros Hs. unfold ece391_strrev, strrev. rewrite ece391_strlen_eq, strlen_until0.
  destruct (until0 s) as [l|] eqn:E; [|done]. cbn [fmap option_fmap option_map mbind option_bind].
  pose proof (until0_length _ _ E). rewrite !s32_small by lia. case_bool_decide; [|apply reverse_from_eq].
  destruct (length s); cbn [strrev_loop]; by rewrite bool_decide_false by lia.
Qed.

Lemma itoa_loop_length fuel v radix buf pos b p :
  itoa_loop fuel v radix buf pos = Some (b, p) -> length b = length buf.
Proof.
  revert v buf pos. induction fuel as [|fuel IH]; intros v buf pos; cbn [itoa_loop];
    (case_bool_decide; [|by intros [= <- _]]); [done|].
  case_bool_decide; [done|]. destruct (load _ _) as [c|]; [|done]. cbn [mbind option_bind].
  destruct (store buf pos c) as [buf'|] eqn:E; [|done]. intros Hb%IH. rewrite Hb. by eapply store_length.
Qed.

(** The programs' itoa is the kernel's. *)
Lemma ece391_itoa_eq v buf radix :
  0 <= v < 4294967296 -> 2 <= radix <= 36 -> len buf < 2147483648 -> ece391_itoa v buf radix = itoa v buf radix.
Proof.
  intros Hv Hr Hb. unfold ece391_itoa, itoa. case_bool_decide; [done|]. rewrite place_values_eq by done.
  destruct (itoa_loop _ _ _ _ _) as [[b p]|] eqn:E; [|done]. apply itoa_loop_length in E.
  cbn [mbind option_bind]. destruct (store b p 0) as [b'|] eqn:Es; [|done]. cbn [mbind option_bind].
  apply store_length in Es. apply ece391_strrev_eq. lia.
Qed.

(** strcmp and strncmp on strings. *)
Lemma ece391_strcmp_eq s1 s2 l1 l2 :
  until0 s1 = Some l1 -> until0 s2 = Some l2 ->
  exists v, ece391_strcmp s1 s2 = Some v /\ (v = 0 <-> l1 = l2).
Proof.
  revert s2 l1 l2. induction s1 as [|a s1 IH]; intros [|b s2] l1 l2; try done. cbn [until0 ece391_strcmp].
  case_bool_decide as Ha; case_bool_decide as Hb; subst.
  - intros [= <-] [= <-]. by exists 0.
  - intros [= <-] (l & Hl & [= <-])%bind_Some. rewrite bool_decide_false by done. eexists. split; [done|].
    split; [lia|done].
  - intros (l & Hl & [= <-])%bind_Some [= <-]. rewrite bool_decide_false by done. eexists. split; [done|].
    split; [lia|done].
  - intros (l & Hl & [= <-])%bind_Some (l' & Hl' & [= <-])%bind_Some.
    destruct (decide (a = b)) as [->|Hab].
    + rewrite bool_decide_true by done. destruct (IH _ _ _ Hl Hl') as (v & -> & Hv). exists v.
      split; [done|]. rewrite Hv. split; [by intros ->|by intros [= ->]].
    + rewrite bool_decide_false by done. eexists. split; [done|]. split; [lia|]. by intros [= ].
Qed.

Lemma ece391_strncmp_eq s1 s2 l1 l2 n :
  until0 s1 = Some l1 -> until0 s2 = Some l2 -> 0 <= n < 4294967296 ->
  exists v, ece391_strncmp s1 s2 n = Some v /\ (v = 0 <-> take (Z.to_nat n) l1 = take (Z.to_nat n) l2).
Proof.
  intros H1 H2 Hn. unfold ece391_strncmp. case_bool_decide as H0; [subst; by exists 0|].
  assert (0 < n) as Hp by lia. clear H0. revert s2 l1 l2 n Hn Hp H1 H2.
  induction s1 as [|a s1 IH]; intros [|b s2] l1 l2 n Hn Hp; try done. cbn [until0 strncmp_from].
  rewrite u32_small by lia.
  replace (Z.to_nat n) with (S (Z.to_nat (n - 1))) by lia.
  case_bool_decide as Ha; case_bool_decide as Hb; subst.
  - intros [= <-] [= <-]. by exists 0.
  - intros [= <-] (l & Hl & [= <-])%bind_Some. rewrite bool_decide_false by done. eexists. split; [done|].
    split; [lia|done].
  - intros (l & Hl & [= <-])%bind_Some [= <-]. rewrite bool_decide_false by done. eexists. split; [done|].
    split; [lia|done].
  - intros (l & Hl & [= <-])%bind_Some (l' & Hl' & [= <-])%bind_Some. cbn [take].
    destruct (decide (a = b)) as [->|Hab].
    + rewrite bool_decide_true by done. destruct (decide (n - 1 = 0)) as [E|E].
      * rewrite (bool_decide_true (n - 1 = 0)) by done. rewrite orb_true_r, E. by exists 0.
      * rewrite (bool_decide_false (n - 1 = 0)) by done.
        destruct (IH s2 l l' (n - 1)) as (v & -> & Hv); [lia|lia|done|done|]. exists v.
        split; [done|]. rewrite Hv. split; [by intros ->|by intros [= ->]].
    + rewrite bool_decide_false by done. eexists. split; [done|]. split; [lia|]. by intros [= ].
Qed.
