(* ===== verification/Service.v ===== *)
(** * The abstract file service

    What the kernel promises a program: numbered channels to named files, a directory
    to list, an argument, a terminal to write to. [service] is its executable
    specification, without inodes, control blocks or a screen; KernelCalls.v shows that
    the system calls implement it. *)
From S2P Require Import Kernel Terminal Keyboard Typing Interrupts Calls.

(** ** Data *)

Inductive node :=
| ClockNode
| DirNode
| FileNode (contents : list Z).

(** A volume: the texts of the directory's entries, and what a name stands for. *)
Record volume := Volume {
  vol_names : list (list Z);
  vol_node : list Z -> option node;
}.

Inductive chan :=
| Closed
| ClockChan
| DirChan
| FileChan (contents : list Z) (pos : Z).
#[export] Instance chan_eq_dec : EqDecision chan.
Proof. solve_decision. Defined.

#[export] Instance byte_dec x : Decision (byte x).
Proof. unfold byte. apply _. Defined.

(** [w_chans]: the channels 2 to 7. [w_index]: the next entry of the directory, the same
    for all channels to it. [w_tty], [w_kbd]: the terminal and its keyboard; [w_keys]: what
    the user will type, for each line that a program reads the keys up to Enter. [w_out]:
    the pieces of text that were written, each with a flag: the string it was taken from
    is longer than a row of the screen. *)
Record world := World {
  w_chans : list chan;
  w_index : Z;
  w_arg : list Z;
  w_tty : tty;
  w_kbd : keyboard;
  w_keys : list (list Z);
  w_out : list (bool * list Z);
}.

Definition set_chan (i : Z) (c : chan) (w : world) : world :=
  World (<[Z.to_nat (i - 2) := c]> (w_chans w)) (w_index w) (w_arg w) (w_tty w) (w_kbd w) (w_keys w) (w_out w).
Definition set_index (k : Z) (w : world) : world :=
  World (w_chans w) k (w_arg w) (w_tty w) (w_kbd w) (w_keys w) (w_out w).

(** What a terminal shows after some output. *)
Definition after_output (t : tty) (out : list (bool * list Z)) : tty :=
  foldl (fun t p => foldl (tty_char (fst p)) t (snd p)) t out.
Definition prints (out : list (bool * list Z)) (w : world) : world :=
  World (w_chans w) (w_index w) (w_arg w) (after_output (w_tty w) out) (w_kbd w) (w_keys w) (w_out w ++ out).
Abbreviation print long text := (prints [(long, text)]).

(** A program ends with result [r] in world [w] after these pieces of output. *)
Definition answers {A} (r : A) (text : list (list Z)) (w : world) (v : A) (w' : world) : Prop :=
  v = r /\ exists out, snd <$> out = text /\ w' = prints out w.

(** The user types a line: the session of Typing.v behind Enter. *)
Definition set_session (e : session) (keys : list (list Z)) (w : world) : world :=
  World (w_chans w) (w_index w) (w_arg w) (se_tty e) (se_kbd e) keys (w_out w).
Definition typing (w : world) (keys : list Z) : session := foldl key_step (Session (w_kbd w) [] (w_tty w)) keys.
#[export] Instance typing_key_dec sc : Decision (typing_key sc).
Proof. unfold typing_key. apply _. Defined.
#[export] Instance on_page_dec t : Decision (on_page t).
Proof. unfold on_page. apply _. Defined.

Definition free_chan (w : world) : option Z :=
  (fun p => Z.of_nat (fst p) + 2) <$> list_find (fun c => c = Closed) (w_chans w).

(** ** The calls *)

Definition opened (nd : node) : chan :=
  match nd with ClockNode => ClockChan | DirNode => DirChan | FileNode l => FileChan l 0 end.

Section Service.
Context (vol : volume).

(** The directory holds names of at most 31 bytes; the service says nothing about longer
    ones. *)
Definition service_open (filename : list Z) : M world Z :=
  name ← lift (until0 filename);
  if bool_decide (bytes filename) && bool_decide (length name <= 31)%nat then
    w ← get;
    match name, vol_node vol name, free_chan w with
    | _ :: _, Some nd, Some i => modify (set_chan i (opened nd)) ;; mret i
    | _, _, _ => mret (-1)
    end
  else undef.

(** A line from the terminal, with its line break and a NUL. The service says nothing
    about typing below the screen, or with a modifier held at the end. *)
Definition service_line (buf : list Z) : M world (Z * list Z) :=
  w ← get;
  match w_keys w with
  | [] => undef
  | keys :: rest =>
      let e := typing w keys in
      let line := take 127 (se_line e) in
      if bool_decide (Forall typing_key keys) && bool_decide (on_page (w_tty w)) &&
         bool_decide (ctrl (se_kbd e) = 0) && bool_decide (shift (se_kbd e) = 0) &&
         bool_decide (len line + 2 <= len buf) then
        modify (set_session (key_step e 0x1C) rest) ;;
        mret (len line + 1, line ++ 10 :: 0 :: drop (length line + 2) buf)
      else undef
  end.

Definition service_read (fd : Z) (buf : list Z) (nbytes : Z) : M world (Z * list Z) :=
  w ← get;
  if bool_decide (fd < 0) || bool_decide (fd > 7) || bool_decide (fd = 1) then mret (-1, buf)
  else if bool_decide (fd = 0) then service_line buf
  else
    c ← lift (load (w_chans w) (fd - 2));
    match c with
    | Closed => mret (-1, buf)
    | ClockChan => mret (0, buf)
    | DirChan =>
        match load (vol_names vol) (w_index w) with
        | Some name =>
            if bool_decide (len name < len buf) && bool_decide (len buf < 2147483648) then
              modify (set_index (w_index w + 1)) ;;
              mret (len name, name ++ 0 :: drop (S (length name)) buf)
            else undef
        | None => modify (set_index 0) ;; mret (0, buf)
        end
    | FileChan l pos =>
        let k := Z.min nbytes (len l - pos) in
        if bool_decide (0 < nbytes < 2147483648) && bool_decide (k <= len buf) then
          modify (set_chan fd (FileChan l (pos + k))) ;;
          mret (k, take (Z.to_nat k) (drop (Z.to_nat pos) l) ++ drop (Z.to_nat k) buf)
        else undef
    end.

(** The clock takes a frequency as [nbytes]. *)
Definition service_write (fd : Z) (buf : list Z) (nbytes : Z) : M world Z :=
  w ← get;
  if bool_decide (fd < 0) || bool_decide (fd > 7) || bool_decide (fd = 0) then mret (-1)
  else if bool_decide (fd = 1) then
    str ← lift (until0 buf);
    if bool_decide (bytes buf) then
      modify (print (bool_decide (80 < len str)) (take (Z.to_nat nbytes) str)) ;;
      mret (s32 (len str))
    else undef
  else
    c ← lift (load (w_chans w) (fd - 2));
    match c with
    | ClockChan =>
        if bool_decide (-2147483648 <= nbytes < 2147483648) then
          if bool_decide (nbytes ∈ (fun k : nat => 2 ^ Z.of_nat k) <$> seq 0 11)
          then n ← lift (strlen buf); mret (s32 n) else mret (-1)
        else undef
    | _ => mret (-1)
    end.

Definition service_close (fd : Z) : M world Z :=
  w ← get;
  if bool_decide (fd < 2) || bool_decide (fd > 7) then mret (-1)
  else
    c ← lift (load (w_chans w) (fd - 2));
    if bool_decide (c = Closed) then mret (-1) else modify (set_chan fd Closed) ;; mret 0.

Definition service_getargs (buf : list Z) (nbytes : Z) : M world (Z * list Z) :=
  w ← get;
  if bool_decide (nbytes < len (w_arg w) + 1) then mret (-1, buf)
  else if bool_decide (len (w_arg w) < len buf) then
    mret (0, w_arg w ++ 0 :: drop (S (length (w_arg w))) buf)
  else undef.

(** Of vidmap and of the other numbers of calls it has the refusals only. *)
Definition service : handler world := fun T e =>
  match e with
  | Sys_open filename => service_open filename
  | Sys_close fd => service_close fd
  | Sys_read fd buf nbytes => service_read fd buf nbytes
  | Sys_write fd buf nbytes => service_write fd buf nbytes
  | Sys_getargs buf nbytes => service_getargs buf nbytes
  | Sys_vidmap screen_start =>
      if bool_decide (screen_start = 0) || bool_decide (screen_start = 0x400000) then mret (-1) else undef
  | Sys_number num => if bool_decide (s32 num < 1) || bool_decide (8 < s32 num) then mret (-1) else undef
  | Sys_execute _ | Sys_vidmap_at _ | Sys_poke _ _ | Fault => undef
  end.
End Service.

(** ** Lemmas *)

Lemma prints_app out out' w : prints out' (prints out w) = prints (out ++ out') w.
Proof. unfold prints, after_output. cbn. by rewrite foldl_app, app_assoc. Qed.
Lemma prints_nil w : prints [] w = w.
Proof. unfold prints. cbn. rewrite app_nil_r. by destruct w. Qed.

Lemma answers_nil {A} (r : A) w : answers r [] w r w.
Proof. split; [done|]. exists []. by rewrite prints_nil. Qed.
Lemma answers_print {A} (r : A) long piece w : answers r [piece] w r (print long piece w).
Proof. split; [done|]. by exists [(long, piece)]. Qed.
Lemma answers_app {A} (r : A) out text w v w' :
  answers r text (prints out w) v w' -> answers r ((snd <$> out) ++ text) w v w'.
Proof.
  intros (-> & out' & <- & ->). split; [done|]. exists (out ++ out'). by rewrite fmap_app, prints_app.
Qed.
Lemma answers_cons {A} (r : A) long piece text w v w' :
  answers r text (print long piece w) v w' -> answers r (piece :: text) w v w'.
Proof. apply (answers_app r [(long, piece)]). Qed.

Lemma free_chan_Some w i :
  free_chan w = Some i ->
  2 <= i < 2 + len (w_chans w) /\ load (w_chans w) (i - 2) = Some Closed /\
  forall j, 2 <= j < i -> load (w_chans w) (j - 2) <> Some Closed.
Proof.
  unfold free_chan. destruct (list_find _ _) as [[k c]|] eqn:E; [|done]. intros [= <-].
  apply list_find_Some in E as (Hk & -> & Hlow). pose proof (lookup_lt_Some _ _ _ Hk). cbn [fst].
  split; [lia|]. split.
  - rewrite load_nonneg by lia. by replace (Z.to_nat (Z.of_nat k + 2 - 2)) with k by lia.
  - intros j Hj. rewrite load_nonneg by lia. intros Hc. apply (Hlow _ _ Hc); [lia|done].
Qed.

Lemma free_chan_None w i c : free_chan w = None -> load (w_chans w) i = Some c -> c <> Closed.
Proof.
  unfold free_chan. destruct (list_find _ _) as [[k d]|] eqn:E; [done|]. intros _ Hc ->.
  apply list_find_None in E. by apply (load_Forall _ _ _ _ E) in Hc.
Qed.

Lemma service_open_node vol filename name nd w i :
  bytes filename -> until0 filename = Some name -> (0 < length name <= 31)%nat ->
  vol_node vol name = Some nd -> free_chan w = Some i ->
  service vol _ (Sys_open filename) w = Ret i (set_chan i (opened nd) w).
Proof.
  intros Hb Hn Hl Hnd Hi. cbn [service]. unfold service_open, mbind, M_bind, lift. rewrite Hn.
  rewrite !bool_decide_true by (done || lia). cbn [andb get]. destruct name; [simpl in Hl; lia|].
  by rewrite Hnd, Hi.
Qed.

Lemma service_open_fails vol filename name w :
  bytes filename -> until0 filename = Some name -> (length name <= 31)%nat ->
  name = [] \/ vol_node vol name = None \/ free_chan w = None ->
  service vol _ (Sys_open filename) w = Ret (-1) w.
Proof.
  intros Hb Hn Hl Hno. cbn [service]. unfold service_open, mbind, M_bind, lift. rewrite Hn.
  rewrite !bool_decide_true by (done || lia). cbn [andb get]. destruct name as [|c name]; [done|].
  destruct Hno as [|[->| ->]]; [done..|]. by destruct (vol_node _ _).
Qed.

Lemma service_print vol buf str m w :
  bytes buf -> until0 buf = Some str ->
  service vol _ (Sys_write 1 buf m) w
  = Ret (s32 (len str)) (print (bool_decide (80 < len str)) (take (Z.to_nat m) str) w).
Proof.
  intros Hb Hs. cbn [service]. unfold service_write, mbind, M_bind, lift, get. cbn [bool_decide].
  rewrite !bool_decide_false by lia. cbn [orb]. by rewrite Hs, !bool_decide_true by done.
Qed.

Lemma service_getargs_eq vol buf m w :
  len (w_arg w) < m -> len (w_arg w) < len buf ->
  service vol _ (Sys_getargs buf m) w = Ret (0, w_arg w ++ 0 :: drop (S (length (w_arg w))) buf) w.
Proof.
  intros Hm Hb. cbn [service]. unfold service_getargs, mbind, M_bind, get.
  by rewrite bool_decide_false, bool_decide_true by lia.
Qed.

Section Reads.
Context (vol : volume) (w : world) (fd : Z) (buf : list Z) (m : Z).
Hypothesis Hfd : 2 <= fd < 8.

Lemma service_read_chan c :
  load (w_chans w) (fd - 2) = Some c ->
  service vol _ (Sys_read fd buf m) w
  = match c with
    | Closed => Ret (-1, buf) w
    | ClockChan => Ret (0, buf) w
    | DirChan =>
        match load (vol_names vol) (w_index w) with
        | Some name =>
            if bool_decide (len name < len buf) && bool_decide (len buf < 2147483648)
            then Ret (len name, name ++ 0 :: drop (S (length name)) buf) (set_index (w_index w + 1) w)
            else Undef
        | None => Ret (0, buf) (set_index 0 w)
        end
    | FileChan l pos =>
        let k := Z.min m (len l - pos) in
        if bool_decide (0 < m < 2147483648) && bool_decide (k <= len buf)
        then Ret (k, take (Z.to_nat k) (drop (Z.to_nat pos) l) ++ drop (Z.to_nat k) buf)
               (set_chan fd (FileChan l (pos + k)) w)
        else Undef
    end.
Proof.
  intros Hc. cbn [service]. unfold service_read, mbind, M_bind, lift, get, modify.
  rewrite !bool_decide_false by lia. cbn [orb]. rewrite Hc.
  cbv zeta. by repeat case_match.
Qed.
End Reads.

(** *** Lines from the terminal *)

(** The keys can be typed at the terminal of [w], and the line before Enter is [line]. *)
Record line_typed (w : world) (keys line : list Z) : Prop := {
  lt_keys : Forall typing_key keys;
  lt_page : on_page (w_tty w);
  lt_ctrl : ctrl (se_kbd (typing w keys)) = 0;
  lt_shift : shift (se_kbd (typing w keys)) = 0;
  lt_line : take 127 (se_line (typing w keys)) = line;
}.

Lemma service_read_line vol w buf m keys rest line :
  w_keys w = keys :: rest -> line_typed w keys line -> len line + 2 <= len buf ->
  service vol _ (Sys_read 0 buf m) w
  = Ret (len line + 1, line ++ 10 :: 0 :: drop (length line + 2) buf)
      (set_session (key_step (typing w keys) 0x1C) rest w).
Proof.
  intros Hk [Hty Hp Hc Hsh <-] Hl. cbn [service]. unfold service_read. unfold mbind at 1, M_bind at 1, get at 1.
  rewrite (bool_decide_true (0 = 0)), !bool_decide_false by lia. cbn [orb].
  unfold service_line. unfold mbind at 1, M_bind at 1, get at 1. rewrite Hk. cbv zeta.
  by rewrite !bool_decide_true by done.
Qed.
