(* ===== verification/KernelCalls.v ===== *)
(** * The kernel implements the file service

    [kernel_calls] answers a program's calls with the system calls of Syscall.v, in the
    address space of the program that executes. *)
From S2P Require Import Kernel Terminal Syscall Keyboard Typing Interrupts Exec Dispatch FileCalls Calls Service.

(** ** The calls of a process

    The kernel and, for each line that a program is going to read, the keys that will be
    typed before Enter. *)
Record host := Host { h_kernel : kernel; h_keys : list (list Z) }.

Section Calls.
Context `{!Layout} `{!Overread} `{!Device} (m : machine).

(** The interrupts while a call waits: keys for a line from the terminal, else ticks of
    the clock; and the keys that are left. *)
Definition interrupts {T} (e : sys T) (keys : list (list Z)) : list (M kernel unit) * list (list Z) :=
  match e with
  | Sys_read fd _ _ =>
      if bool_decide (fd = 0) then
        match keys with
        | [] => ([], [])
        | k :: rest => (map (key_interrupt m) (k ++ [0x1C]), rest)
        end
      else ([zoom rtc_interrupt], keys)
  | _ => ([], keys)
  end.

(** [execute] and [halt] leave the program, they are not calls of this kind (see
    Sessions.v). A call by number has 0 in the other registers. *)
Definition kernel_call (env : list (M kernel unit)) : handler kernel := fun T e =>
  match e with
  | Sys_read fd buf nbytes =>
      r ← read env fd buf nbytes;
      match r with Some (v, buf', _) => mret (v, buf') | None => hang end
  | Sys_write fd buf nbytes => write fd buf nbytes
  | Sys_open filename => open filename
  | Sys_close fd => close fd
  | Sys_getargs buf nbytes => getargs buf nbytes
  | Sys_vidmap screen_start => vidmap screen_start
  | Sys_number num =>
      r ← run_syscall_wrapper m env num 0 0 0;
      match r with Some (Returns v) => mret v | _ => undef end
  | Sys_vidmap_at va => r ← vidmap va; l ← get_program va 4; v ← lift (ld32 l 0); mret (r, v)
  | Sys_poke va v => user_store va v
  | Sys_execute _ | Fault => undef
  end.
Definition kernel_calls : handler host := fun T e h =>
  let '(env, keys) := interrupts e (h_keys h) in
  match kernel_call env T e (h_kernel h) with
  | Ret x s => Ret x (Host s keys)
  | Hang s => Hang (Host s keys)
  | Undef => Undef
  end.
End Calls.

(** The volume that an image holds. *)
Definition volume_of (img : list Z) (n : Z) : volume :=
  Volume ((fun i => default [] (until0 (entry_name img i))) <$> seqZ 0 n)
    (fun name =>
       k ← dir_lookup img name;
       d ← ld_dentry img k;
       if bool_decide (d_fileType d = 0) then Some ClockNode
       else if bool_decide (d_fileType d = 1) then Some DirNode
       else if bool_decide (d_fileType d = 2) then Some (FileNode (file_contents img (d_inodeNum d)))
       else None).

(** ** The abstraction

    Process [pid] of terminal [term] executes; the text page of its screen is [frame]. If
    lines are going to be typed, the terminal is the visible one. *)
Section Represents.
Context `{HL : !Layout} `{HO : !Overread} `{HD : !Device} (img : list Z) (n N D pid term frame : Z) (mach : machine).
Implicit Types (s : kernel) (w : world) (i : Z).

Definition chan_of s i (f : file_desc) (c : chan) : Prop :=
  match c with
  | Closed => flags f = 0
  | ClockChan => flags f <> 0 /\ sysops_ptr f = RtcOps
  | DirChan => flags f <> 0 /\ sysops_ptr f = DirectoryOps
  | FileChan l pos =>
      exists ino L, 0 <= ino < N /\ file_open s pid i f img ino L /\
        l = file_contents img ino /\ pos = filePosition f
  end.

Record represents s w : Prop := {
  rp_process : process s pid;
  rp_running : running s pid term;
  rp_image : image (k_fs s) = img;
  rp_index : currentDirIndex (k_fs s) = w_index w;
  rp_range : 0 <= w_index w <= n;
  rp_argument : exists p, load (pcbs (k_procs s)) (pid - 1) = Some p /\ until0 (argument p) = Some (w_arg w);
  rp_std i : i = 0 \/ i = 1 -> exists f, fd_of s pid i = Some f /\ flags f <> 0 /\ sysops_ptr f = TerminalOps;
  rp_length : length (w_chans w) = 6%nat;
  rp_chans i c : 2 <= i < 8 -> load (w_chans w) (i - 2) = Some c -> exists f, fd_of s pid i = Some f /\ chan_of s i f c;
  rp_screen : exists page, console s frame page /\ tty_ok (tty_of s page) /\ tty_of s page = w_tty w;
  rp_keyboard : exists v, k_kbd s = with_check v (w_kbd w);
  rp_visible : w_keys w <> [] -> old_terminal (k_terms s) = term;
  rp_line : exists tm, load (terminals (k_terms s)) term = Some tm /\ length (line_buffer tm) = 128%nat /\
    0 <= buffer_i tm <= 128;
}.

(** What a call leaves alone: all that belongs to other processes. *)
Record steady s s' : Prop := {
  sy_paging : k_paging s' = k_paging s;
  sy_sched : k_sched s' = k_sched s;
  sy_tasks : openTasks (k_procs s') = openTasks (k_procs s);
  sy_pcbs q : q <> pid -> load (pcbs (k_procs s')) (q - 1) = load (pcbs (k_procs s)) (q - 1);
  sy_old : old_terminal (k_terms s') = old_terminal (k_terms s);
  sy_flag : newterminal_flag (k_terms s') = newterminal_flag (k_terms s);
  sy_ids : program_id <$> terminals (k_terms s') = program_id <$> terminals (k_terms s);
}.

Lemma steady_refl s : steady s s.
Proof. by split. Qed.
Lemma steady_trans s1 s2 s3 : steady s1 s2 -> steady s2 s3 -> steady s1 s3.
Proof. intros [? ? ? H2 ? ? ?] [? ? ? H3 ? ? ?]. split; try congruence. intros q Hq. by rewrite H3, H2. Qed.

(** A call ends in a state that represents world [w]. *)
Definition step s s' w : Prop := represents s' w /\ steady s s'.

Lemma step_refl s w : represents s w -> step s s w.
Proof. split; [done|apply steady_refl]. Qed.
Lemma step_trans s1 s2 s3 w : steady s1 s2 -> step s2 s3 w -> step s1 s3 w.
Proof. intros H [? ?]. split; [done|]. by eapply steady_trans. Qed.

Lemma chan_of_frame s s' i f c :
  fd_of s' pid i = Some f -> image (k_fs s') = image (k_fs s) -> chan_of s i f c -> chan_of s' i f c.
Proof.
  intros Hf Himg. destruct c; try done. intros (ino & L & ? & [? ? ? Hi ? ? ?] & ? & ?).
  exists ino, L. split; [done|]. split; [|done]. split; try done. by rewrite Himg.
Qed.

(** A step that leaves the control blocks and the screen alone. *)
Lemma represents_frame s s' w k :
  k_paging s' = k_paging s -> pcbs (k_procs s') = pcbs (k_procs s) -> k_terms s' = k_terms s ->
  k_frames s' = k_frames s -> k_cursor s' = k_cursor s -> k_kbd s' = k_kbd s ->
  openTasks (k_procs s') = openTasks (k_procs s) -> k_sched s' = k_sched s ->
  image (k_fs s') = image (k_fs s) -> currentDirIndex (k_fs s') = k -> 0 <= k <= n ->
  represents s w -> step s s' (set_index k w).
Proof.
  intros Hpg Hpcb Htm Hfr Hcu Hkb Hot Hsch Himg Hk Hkr Hr. split; [|split; by rewrite ?Htm, ?Hpcb].
  destruct Hr as
    [[? ? [? ?]] [? ? ? ?] ? ? ? Harg Hout ? Hch (page & [? ? ? ?] & ? & ?) Hkbd Hvis Hline].
  assert (forall j, fd_of s' pid j = fd_of s pid j) as Hfd by (intros; unfold fd_of; by rewrite Hpcb).
  split; try done.
  - split; [by rewrite Hpg|done|]. split; by rewrite Hpcb.
  - split; [by rewrite Hpg|done|by rewrite Htm|]. unfold terminal_of. by rewrite Htm.
  - by rewrite Himg.
  - by rewrite Hpcb.
  - intros i. rewrite Hfd. apply Hout.
  - intros i c Hi (f & Hf & Hc)%Hch; [|done]. exists f. rewrite Hfd. split; [done|].
    apply (chan_of_frame s); [by rewrite Hfd|done|done].
  - exists page. unfold tty_of. rewrite Hcu. split; [|done].
    split; [unfold video_frame; by rewrite Hpg|by rewrite Hfr|done..].
  - by rewrite Hkb.
  - by rewrite Htm.
  - by rewrite Htm.
Qed.

Lemma set_index_id s w : represents s w -> set_index (w_index w) w = w.
Proof. by destruct w. Qed.
Lemma represents_same s s' w :
  k_paging s' = k_paging s -> pcbs (k_procs s') = pcbs (k_procs s) -> k_terms s' = k_terms s ->
  k_frames s' = k_frames s -> k_cursor s' = k_cursor s -> k_kbd s' = k_kbd s ->
  openTasks (k_procs s') = openTasks (k_procs s) -> k_sched s' = k_sched s -> k_fs s' = k_fs s ->
  represents s w -> step s s' w.
Proof.
  intros ? ? ? ? ? ? ? ? Hfs Hr. rewrite <-(set_index_id s w Hr).
  apply (represents_frame s); try done; [by rewrite Hfs| |apply Hr]. rewrite Hfs. apply Hr.
Qed.

(** A step on the descriptor of a channel. *)
Lemma represents_fd s w i f c :
  represents s w -> 2 <= i < 8 -> (forall d, name_ok d -> name_ok (f d)) ->
  (forall d, fd_of s pid i = Some d -> chan_of (altered_fd pid i f s) i (f d) c) ->
  step s (altered_fd pid i f s) (set_chan i c w).
Proof.
  intros Hr Hi Hf Hc. split; [|split; try done; intros q Hq; apply load_alter_ne; pose proof (pr_pid _ _ (rp_process _ _ Hr)); lia].
  destruct Hr as [Hp [? ? ? ?] ? ? ? (p & Hpl & Harg) Hout Hlen Hch (page & [? ? ? ?] & ? & ?) Hkbd Hvis Hline].
  pose proof (process_altered_fd s pid i f Hf Hp) as Hp'. split; try done.
  - exists (with_fds (alter f (Z.to_nat i) (fds p)) p). split; [|exact Harg]. unfold altered_fd, altered_pcb. cbn [lset kernel_procs k_procs with_pcbs pcbs].
    by rewrite (load_alter_eq _ _ _ p Hpl).
  - intros j Hj. rewrite fd_of_altered_ne by lia. by apply Hout.
  - cbn [set_chan w_chans]. by rewrite length_insert.
  - intros j d Hj. cbn [set_chan w_chans]. destruct (decide (j = i)) as [->|Hne].
    + rewrite load_insert_eq by lia. intros [= <-]. destruct (process_fd s pid i Hp) as (g & Hg & _); [lia|].
      exists (f g). rewrite fd_of_altered, Hg. split; [done|]. by apply Hc.
    + rewrite load_insert_ne by lia. intros (g & Hg & Hcg)%Hch; [|done]. exists g.
      rewrite fd_of_altered_ne by lia. split; [done|].
      apply (chan_of_frame s); [by rewrite fd_of_altered_ne by lia|done|done].
  - by exists page.
Qed.

(** *** Call by call *)

Hypothesis Hserved : served img n N D.
Hypothesis Hquiet : quiet.

Lemma represents_fd_of s w i c :
  represents s w -> 2 <= i < 8 -> load (w_chans w) (i - 2) = Some c ->
  exists f, fd_of s pid i = Some f /\ name_ok f /\ chan_of s i f c /\ (flags f = 0 <-> c = Closed).
Proof.
  intros Hr Hi Hc. destruct (rp_chans _ _ Hr i c Hi Hc) as (f & Hf & Hcf). exists f.
  destruct (process_fd s pid i (rp_process _ _ Hr)) as (g & Hg & Hn); [lia|].
  split_and!; try congruence; destruct c; cbn in Hcf |- *; try naive_solver.
  destruct Hcf as (ino & L & _ & [? ? ? ? ? ? ?] & _). naive_solver.
Qed.

(** The kernel's check of a descriptor number. *)
Lemma represents_bad s w i std :
  represents s w -> (std = 0 \/ std = 1) -> (i = 1 -> std = 1) -> i <> 0 \/ std = 0 ->
  bad_fd pid i std s
  = Ret (bool_decide (i < 0) || bool_decide (i > 7) || bool_decide (i = std) ||
         bool_decide (load (w_chans w) (i - 2) = Some Closed)) s.
Proof.
  intros Hr Hstd H1 H0. unfold bad_fd. destruct (_ || _ || _) eqn:E; [done|].
  rewrite !orb_false_iff, !bool_decide_eq_false in E. destruct E as [[E1 E2] E3].
  destruct (load_Some (w_chans w) (i - 2)) as [c Hc]; [pose proof (rp_length _ _ Hr); lia|].
  destruct (represents_fd_of s w i c Hr) as (f & Hf & _ & _ & Hfl); [lia|done|].
  rewrite (bind_Ret _ _ _ _ _ (get_fd_eq _ _ _ _ Hf)), Hc. unfold mret, M_ret. f_equal.
  apply bool_decide_ext. rewrite Hfl. naive_solver.
Qed.

Lemma vol_node_inv name nd :
  vol_node (volume_of img n) name = Some nd ->
  exists k d, dir_lookup img name = Some k /\ ld_dentry img k = Some d /\ 0 <= k < 63 /\ 0 <= d_fileType d <= 2 /\
    nd = (if bool_decide (d_fileType d = 0) then ClockNode
          else if bool_decide (d_fileType d = 1) then DirNode else FileNode (file_contents img (d_inodeNum d))).
Proof.
  cbn [vol_node volume_of]. intros (k & Hk & (d & Hd & H)%bind_Some)%bind_Some. exists k, d.
  pose proof (dir_lookup_index _ _ _ Hk). split_and!; try done; repeat case_bool_decide; try lia; congruence.
Qed.

Lemma vol_node_None name :
  vol_node (volume_of img n) name = None -> dir_lookup img name = None.
Proof.
  cbn [vol_node volume_of]. intros H. destruct (dir_lookup img name) as [k|] eqn:Hk; [|done].
  pose proof (dir_lookup_index _ _ _ Hk) as Hkr.
  destruct (dir_lookup_dentry _ _ _ _ (sd_wf _ _ _ _ Hserved) _ _ Hk) as [d Hd].
  destruct (sd_types _ _ _ _ Hserved k d Hkr Hd) as [Hty _].
  cbn [mbind option_bind] in H. rewrite Hd in H. cbn [mbind option_bind] in H.
  repeat case_bool_decide; try done. lia.
Qed.

Lemma free_chan_fd s w : represents s w -> free_chan w = free_fd s pid.
Proof.
  intros Hr. pose proof (rp_length _ _ Hr) as Hlen. symmetry. destruct (free_chan w) as [i|] eqn:E.
  - apply free_chan_Some in E as (Hi & Hc & Hlow). assert (2 <= i < 8) as Hi8 by lia.
    destruct (represents_fd_of s w i Closed Hr Hi8 Hc) as (f & Hf & _ & Hfl & _).
    apply free_fd_intro; [done|by rewrite Hf; cbn; rewrite Hfl|]. intros j Hj.
    destruct (load_Some (w_chans w) (j - 2)) as [c Hcj]; [lia|].
    destruct (represents_fd_of s w j c Hr) as (g & Hg & _ & _ & Hgl); [lia|done|].
    rewrite Hg. cbn. intros [= E%Hgl]. subst c. by apply (Hlow j Hj).
  - destruct (free_fd s pid) as [i|] eqn:Ei; [|done]. apply free_fd_inv in Ei as (Hi & Hfl & _).
    destruct (load_Some (w_chans w) (i - 2)) as [c Hc]; [lia|].
    destruct (represents_fd_of s w i c Hr Hi Hc) as (g & Hg & _ & _ & Hgl).
    exfalso. apply (free_chan_None w _ c E Hc), Hgl. rewrite Hg in Hfl. by injection Hfl.
Qed.

Abbreviation serves e :=
  (forall s w x w', represents s w -> service (volume_of img n) _ e w = Ret x w' ->
     exists s', kernel_call mach (fst (interrupts mach e (w_keys w))) _ e s = Ret x s' /\ step s s' w').

Lemma serves_close i : serves (Sys_close i).
Proof.
  intros s w x w' Hr. cbn [service kernel_call]. unfold service_close, mbind at 1, M_bind at 1, get at 1.
  destruct (decide (2 <= i < 8)) as [Hi|Hi].
  - rewrite !bool_decide_false by lia. cbn [orb].
    destruct (load_Some (w_chans w) (i - 2)) as [c Hc]; [pose proof (rp_length _ _ Hr); lia|].
    destruct (represents_fd_of s w i c Hr Hi Hc) as (f & Hf & _ & _ & Hfl). rewrite Hc.
    rewrite (close_eq s pid i f (rp_process _ _ Hr) Hi Hf), (bool_decide_ext _ _ Hfl).
    unfold mbind at 1, M_bind at 1, lift at 1. case_bool_decide; intros [= <- <-]; [by exists s|].
    eexists. split; [done|]. by apply represents_fd.
  - assert (bool_decide (i < 2) || bool_decide (i > 7) = true) as Hb.
    { apply orb_true_iff. rewrite !bool_decide_eq_true. lia. }
    rewrite Hb. unfold close. rewrite Hb. intros [= <- <-]. by exists s.
Qed.

Lemma serves_getargs buf m : serves (Sys_getargs buf m).
Proof.
  intros s w x w' Hr. cbn [service kernel_call]. unfold service_getargs, mbind at 1, M_bind at 1, get at 1.
  destruct (rp_argument _ _ Hr) as (p & Hp & Harg). destruct (process_pcb s pid (rp_process _ _ Hr)) as (p' & Hp' & _ & Hl & _).
  rewrite Hp in Hp'. injection Hp' as <-. pose proof (until0_length _ _ Harg).
  unfold getargs. rewrite (bind_Ret _ _ _ _ _ (process_find _ _ (rp_process _ _ Hr))), (bind_Ret _ _ _ _ _ (get_pcb_eq _ _ _ Hp)).
  rewrite (strlen_Some _ _ Harg). unfold mbind at 1, M_bind at 1, lift at 1. rewrite s32_small by lia.
  case_bool_decide; [intros [= <- <-]; by exists s|]. case_bool_decide; [|done]. intros [= <- <-].
  rewrite (strcpy_fits _ _ _ Harg) by lia. by exists s.
Qed.

Lemma represents_type_valued s w d : represents s w -> step s (type_valued d s) w.
Proof. intros Hr. apply (represents_same s); try done; unfold type_valued; by repeat case_bool_decide. Qed.

(** The channel that open makes. *)
Lemma chan_opened s w filename name k d i h g :
  represents s w -> bytes filename -> until0 filename = Some name -> (0 < length name <= 31)%nat ->
  dir_lookup img name = Some k -> ld_dentry img k = Some d -> 0 <= k < 63 -> 0 <= d_fileType d <= 2 ->
  free_fd s pid = Some i -> fd_of s pid i = Some g ->
  let s1 := lset (h : list ioev) (altered_fd pid i (described (bootHead (k_fs s)) name d) (type_valued d s)) in
  open filename s = Ret i s1 ->
  chan_of s1 i (described (bootHead (k_fs s)) name d g)
    (opened (if bool_decide (d_fileType d = 0) then ClockNode
             else if bool_decide (d_fileType d = 1) then DirNode
             else FileNode (file_contents img (d_inodeNum d)))).
Proof.
  intros Hr Hb Hu Hl Hk Hd Hkr Hty Hfree Hg s1 Hopen. pose proof (sd_wf _ _ _ _ Hserved) as Hwf.
  destruct (decide (d_fileType d = 2)) as [E2|E2].
  - destruct (sd_types _ _ _ _ Hserved k d Hkr Hd) as [_ Hino]. specialize (Hino E2).
    destruct (wf_file_length _ _ _ _ Hwf _ Hino) as (L & HLen & _).
    destruct (open_regular img n N D Hwf s pid filename name k d L i) as (s2 & f2 & Ho & _ & Hfo & H0);
      try done; [apply Hr|apply Hr|].
    assert (s2 = s1) as -> by congruence. pose proof (free_fd_inv _ _ _ Hfree) as (Hi & _ & _).
    pose proof (fd_of_opened s pid i (bootHead (k_fs s)) name d h i ltac:(lia)) as Hfd.
    rewrite bool_decide_true, Hg in Hfd by done. fold s1 in Hfd.
    pose proof (fo_fd _ _ _ _ _ _ _ Hfo) as Hf2. rewrite Hfd in Hf2. injection Hf2 as <-.
    rewrite !bool_decide_false by lia. cbn [opened chan_of]. by exists (d_inodeNum d), L.
  - unfold described. repeat case_bool_decide; cbn [opened chan_of flags sysops_ptr]; try done; lia.
Qed.

Lemma serves_open filename : serves (Sys_open filename).
Proof.
  intros s w x w' Hr. cbn [service kernel_call]. unfold service_open.
  intros (name & w1 & Hn & H)%bind_inv. unfold lift in Hn. destruct (until0 filename) as [name'|] eqn:Hu; [|done].
  injection Hn as -> <-. pose proof (rp_process _ _ Hr) as Hp. pose proof (sd_wf _ _ _ _ Hserved) as Hwf.
  pose proof (rp_image _ _ Hr) as Himg.
  destruct (_ && _) eqn:Hok; [|done]. apply andb_true_iff in Hok as [Hb Hl].
  apply bool_decide_eq_true in Hb, Hl. unfold mbind at 1, M_bind at 1, get at 1 in H.
  rewrite (free_chan_fd s w Hr) in H. pose proof Hu as (r & Hname & Hz)%until0_spec.
  destruct name as [|c name]; [injection H as <- <-; subst filename; by exists s|].
  assert (0 < length (c :: name) <= 31)%nat as Hlen by (cbn [length] in *; lia).
  set (nm := c :: name) in *. destruct (vol_node _ nm) as [nd|] eqn:Hnd.
  2: { injection H as <- <-. exists s. split; [|done].
       apply (open_fails img n N D Hwf s pid filename nm); auto using vol_node_None. }
  destruct (free_fd s pid) as [i|] eqn:Hi.
  2: { injection H as <- <-. exists s. split; [|done]. apply (open_fails img n N D Hwf s pid filename nm); auto. }
  injection H as <- <-. destruct (vol_node_inv nm nd Hnd) as (k & d & Hk & Hd & Hkr & Hty & Hndd).
  destruct (open_eq img n N D Hwf s pid filename nm k d i) as [h Hh]; try done.
  rewrite bool_decide_true in Hh by done. eexists. split; [exact Hh|].
  pose proof (free_fd_inv _ _ _ Hi) as (Hir & _ & _).
  assert (bytes nm) as Hbn by (rewrite Hname in Hb; by apply Forall_app in Hb as [? _]).
  destruct (process_fd s pid i Hp) as (g & Hg & _); [lia|].
  pose proof (chan_opened s w filename nm k d i h g Hr Hb Hu Hlen Hk Hd Hkr Hty Hi Hg Hh) as Hch.
  rewrite <-Hndd in Hch. set (f := described _ _ _) in *.
  destruct (represents_type_valued s w d Hr) as [Hr1 Hs1]. eapply step_trans; [exact Hs1|].
  set (s2 := altered_fd pid i f (type_valued d s)) in *.
  enough (step (type_valued d s) s2 (set_chan i (opened nd) w)) as [Hr2 Hs2].
  { eapply step_trans; [exact Hs2|]. by apply represents_same. }
  apply represents_fd; [done|done| |].
  - intros. by apply described_name_ok; [|lia|].
  - intros g' Hg'. assert (g' = g) as ->.
    { unfold type_valued in Hg'. repeat case_bool_decide; rewrite ?fd_of_valued in Hg'; congruence. }
    revert Hch. apply chan_of_frame; [|done]. by rewrite fd_of_altered, Hg'.
Qed.

(** The kernel finds the descriptor of a call. *)
Lemma read_found s w i c f env buf m :
  represents s w -> 2 <= i < 8 -> load (w_chans w) (i - 2) = Some c -> c <> Closed -> fd_of s pid i = Some f ->
  read env i buf m s = syscall_read env (sysops_ptr f) i buf m s.
Proof.
  intros Hr Hi Hc Hne Hf. unfold read. rewrite (bind_Ret _ _ _ _ _ (process_find _ _ (rp_process _ _ Hr))).
  rewrite (bind_Ret _ _ _ _ _ (represents_bad s w i 1 Hr ltac:(auto) ltac:(lia) ltac:(lia))).
  rewrite Hc, !bool_decide_false by (lia || congruence). cbn [orb].
  by rewrite (bind_Ret _ _ _ _ _ (get_fd_eq _ _ _ _ Hf)).
Qed.

Lemma write_found s w i c f buf m :
  represents s w -> 2 <= i < 8 -> load (w_chans w) (i - 2) = Some c -> c <> Closed -> fd_of s pid i = Some f ->
  write i buf m s
  = (r ← syscall_write (sysops_ptr f) i buf m;
     if bool_decide (r = 0) then n ← lift (strlen buf); mret (s32 n) else mret (-1)) s.
Proof.
  intros Hr Hi Hc Hne Hf. unfold write. rewrite (bind_Ret _ _ _ _ _ (process_find _ _ (rp_process _ _ Hr))).
  rewrite (bind_Ret _ _ _ _ _ (represents_bad s w i 0 Hr ltac:(auto) ltac:(lia) ltac:(lia))).
  rewrite Hc, !bool_decide_false by (lia || congruence). cbn [orb].
  by rewrite (bind_Ret _ _ _ _ _ (get_fd_eq _ _ _ _ Hf)).
Qed.

Lemma vol_names_entry k name :
  load (vol_names (volume_of img n)) k = Some name -> 0 <= k < n /\ until0 (entry_name img k) = Some name.
Proof.
  cbn [vol_names volume_of]. intros [Hk Hl]%load_inv. rewrite length_fmap, length_seqZ in Hk.
  rewrite list_lookup_fmap, lookup_seqZ_lt in Hl by lia. cbn in Hl. injection Hl as <-.
  rewrite Z.add_0_l, Z2Nat.id by lia. split; [lia|].
  destruct (sd_names _ _ _ _ Hserved k) as (name & -> & _); [lia|done].
Qed.

Lemma vol_names_end k : 0 <= k <= n -> load (vol_names (volume_of img n)) k = None -> k = n.
Proof.
  intros Hk. cbn [vol_names volume_of]. rewrite load_nonneg by lia. intros Hl%lookup_ge_None_1.
  rewrite length_fmap, length_seqZ in Hl. lia.
Qed.

Lemma serves_read_directory s w buf x w' i m :
  represents s w -> 2 <= i < 8 -> load (w_chans w) (i - 2) = Some DirChan ->
  service (volume_of img n) _ (Sys_read i buf m) w = Ret x w' ->
  exists s' env, read [zoom rtc_interrupt] i buf m s = Ret (Some (fst x, snd x, env)) s' /\ step s s' w'.
Proof.
  intros Hr Hi Hc. rewrite (service_read_chan _ _ _ _ _ Hi _ Hc).
  destruct (represents_fd_of s w i _ Hr Hi Hc) as (f & Hf & _ & [_ Hops] & _).
  rewrite (read_found s w i DirChan f) by done. rewrite Hops. cbn [syscall_read].
  pose proof (rp_image _ _ Hr) as Himg. pose proof (rp_index _ _ Hr) as Hidx. pose proof (rp_range _ _ Hr) as Hrange.
  pose proof (sd_wf _ _ _ _ Hserved) as Hwf. rewrite <-Himg in Hwf.
  assert (k_fs s = at_index (w_index w) (k_fs s)) as Hat by (rewrite <-Hidx; by destruct (k_fs s)).
  destruct (load (vol_names _) (w_index w)) as [name|] eqn:E.
  - destruct (_ && _) eqn:Hb; [|done]. apply andb_true_iff in Hb as [Hl Hb]. apply bool_decide_eq_true in Hl, Hb.
    intros [= <- <-]. apply vol_names_entry in E as [Hk Hn]. rewrite <-Himg in Hn.
    erewrite bind_Ret; [|apply zoom_Ret; change (lget s) with (k_fs s); rewrite Hat;
      exact (read_directory_next (k_fs s) n N D Hwf _ _ buf Hk Hn ltac:(lia) Hb)].
    eexists _, _. split; [reflexivity|]. apply (represents_frame s); try done; lia.
  - intros [= <- <-]. apply vol_names_end in E; [|done]. rewrite E in Hat.
    erewrite bind_Ret; [|apply zoom_Ret; change (lget s) with (k_fs s); rewrite Hat;
      exact (read_directory_end (k_fs s) n N D Hwf buf)].
    eexists _, _. split; [reflexivity|]. apply (represents_frame s); try done; lia.
Qed.

Lemma represents_rtc s w (r : rtc) : represents s w -> step s (lset r s) w.
Proof. by apply represents_same. Qed.

(** A read through descriptor 0 or 1 reaches the terminal. *)
Lemma std_found s w i std :
  represents s w -> i = 0 \/ i = 1 -> i <> std -> bad_fd pid i std s = Ret false s /\
  exists f, fd_of s pid i = Some f /\ sysops_ptr f = TerminalOps.
Proof.
  intros Hr Hi Hstd. destruct (rp_std _ _ Hr i Hi) as (f & Hf & Hfl & Hops). split; [|by exists f].
  unfold bad_fd. rewrite !bool_decide_false by lia. cbn [orb]. rewrite (bind_Ret _ _ _ _ _ (get_fd_eq _ _ _ _ Hf)).
  by rewrite bool_decide_false.
Qed.

Lemma read_terminal s w env buf m :
  represents s w -> read env 0 buf m s = terminal_read env buf m s.
Proof.
  intros Hr. destruct (std_found s w 0 1) as (Hbad & f & Hf & Hops); [done|lia..|].
  unfold read. rewrite (bind_Ret _ _ _ _ _ (process_find _ _ (rp_process _ _ Hr))), (bind_Ret _ _ _ _ _ Hbad).
  by rewrite (bind_Ret _ _ _ _ _ (get_fd_eq _ _ _ _ Hf)), Hops.
Qed.

Lemma represents_editing s w :
  represents s w -> w_keys w <> [] -> on_page (w_tty w) -> exists line, editing s term frame line (w_tty w).
Proof.
  intros [_ _ _ _ _ _ _ _ _ (page & Hcon & Hok & Htty) _ Hvis (tm & Htm & Hl & Hi)] Hk Hon. eexists. split.
  - by apply Hvis.
  - by exists tm.
  - exists page. split; [done|]. rewrite <-Htty. by apply (console_shows s frame).
  - done.
Qed.

(** Typing changes the terminal's part of the state only. *)
Lemma typed_ids s s' : typed frame term s s' ->
  forall i, program_id <$> load (terminals (k_terms s')) i = program_id <$> load (terminals (k_terms s)) i.
Proof.
  intros Hty i. destruct (decide (i = term)) as [->|]; [apply Hty|by rewrite (ty_terms _ _ _ _ Hty)].
Qed.

Lemma typed_steady s s' : typed frame term s s' -> steady s s'.
Proof.
  intros Hty. split; try apply Hty; rewrite ?(ty_procs _ _ _ _ Hty); try done.
  apply list_eq. intros i. rewrite !list_lookup_fmap. pose proof (typed_ids s s' Hty (Z.of_nat i)) as H.
  by rewrite !load_lookup in H.
Qed.

Lemma represents_typed s s' w e rest v :
  represents s w -> w_keys w <> [] -> typed frame term s s' -> editing s' term frame [] (se_tty e) ->
  k_kbd s' = with_check v (se_kbd e) -> step s s' (set_session e rest w).
Proof.
  intros [Hp Hrun ? ? ? Harg Hstd ? Hch (page & Hcon & _) _ Hvis _] Hk Hty He Hkbd.
  destruct Hrun as [Hcr Hpr Hl3 Hterm]. destruct Hp as [? ? [? ?]].
  pose proof (typed_ids s s' Hty) as Hids.
  assert (forall j, fd_of s' pid j = fd_of s pid j) as Hfd.
  { intros j. unfold fd_of. by rewrite (ty_procs _ _ _ _ Hty). }
  pose proof He as [Hold (tm & Htm & Hlb & Hbi & _) (page' & Hcon' & Hsh) _].
  destruct Hsh as (_ & Hok & Htx & Hx & Hy).
  split; [|by apply typed_steady].
  split; rewrite ?(ty_procs _ _ _ _ Hty), ?(ty_fs _ _ _ _ Hty); try done.
  - split; [by rewrite (ty_paging _ _ _ _ Hty)|done|]. split; by rewrite (ty_procs _ _ _ _ Hty).
  - split; [by rewrite (ty_paging _ _ _ _ Hty)|done|by rewrite (ty_length _ _ _ _ Hty)|].
    rewrite <-Hterm. unfold terminal_of. f_equal. apply list_filter_iff. intros i. by rewrite Hids.
  - intros i Hi. rewrite Hfd. by apply Hstd.
  - intros i c Hi (f & Hf & Hc)%Hch; [|done]. exists f. rewrite Hfd. split; [done|].
    apply (chan_of_frame s); [by rewrite Hfd|by rewrite (ty_fs _ _ _ _ Hty)|done].
  - exists page'. assert (tty_of s' page' = se_tty e) as E.
    { unfold tty_of. destruct (se_tty e) as [tx x y]. cbn in Htx, Hx, Hy. f_equal; done. }
    rewrite E. done.
  - by exists v.
  - by exists tm.
Qed.

Lemma serves_line s w buf x w' nbytes :
  represents s w -> service_line buf w = Ret x w' ->
  exists s' env, read (fst (interrupts mach (Sys_read 0 buf nbytes) (w_keys w))) 0 buf nbytes s
    = Ret (Some (fst x, snd x, env)) s' /\ step s s' w'.
Proof.
  intros Hr. unfold service_line. unfold mbind at 1, M_bind at 1, get at 1. cbn [interrupts].
  rewrite (bool_decide_true (0 = 0)) by done. destruct (w_keys w) as [|keys rest] eqn:Hkeys; [done|]. cbv zeta.
  destruct (_ && _) eqn:Hb; [|done]. rewrite !andb_true_iff, !bool_decide_eq_true in Hb.
  destruct Hb as [[[[Hty Hon] Hctrl] Hshift] Hbuf]. intros [= <- <-]. cbn [fst snd].
  destruct (represents_editing s w Hr) as [line0 He]; [by rewrite Hkeys|done|].
  destruct (rp_keyboard _ _ Hr) as [v Hv].
  pose proof (session_recheck v (Session (w_kbd w) [] (w_tty w)) keys) as Hre.
  change (recheck v (Session (w_kbd w) [] (w_tty w))) with (Session (with_check v (w_kbd w)) [] (w_tty w)) in Hre.
  rewrite <-Hv in Hre. fold (typing w keys) in Hre.
  pose proof (terminal_read_line mach s pid term frame line0 (w_tty w) keys [] buf nbytes Hquiet
    (rp_running _ _ Hr) He Hty) as Hread. cbv zeta in Hread. rewrite Hre in Hread.
  cbn [recheck se_kbd se_line ctrl shift with_check] in Hread.
  destruct (Hread Hctrl Hshift Hbuf) as (s' & Hs' & He' & Hty' & v' & Hk').
  exists s', []. rewrite (read_terminal s w) by done. rewrite app_nil_r in Hs'. split; [exact Hs'|].
  rewrite key_step_recheck in He', Hk'. apply (represents_typed s s' w _ rest v'); try done. by rewrite Hkeys.
Qed.

Lemma serves_read i buf m : serves (Sys_read i buf m).
Proof.
  intros s w x w' Hr Hw. pose proof (rp_length _ _ Hr) as Hlen. cbn [kernel_call].
  enough (exists s' env, read (fst (interrupts mach (Sys_read i buf m) (w_keys w))) i buf m s
    = Ret (Some (fst x, snd x, env)) s' /\ step s s' w') as (s' & env & H & HR).
  { destruct x. rewrite (bind_Ret _ _ _ _ _ H). by exists s'. }
  destruct (decide (i = 0)) as [->|H0]; [by apply serves_line|].
  cbn [interrupts]. rewrite bool_decide_false by done. cbn [fst].
  destruct (decide (2 <= i < 8)) as [Hi|Hi].
  - destruct (load_Some (w_chans w) (i - 2)) as [c Hc]; [lia|]. pose proof Hw as Hread.
    rewrite (service_read_chan _ _ _ _ _ Hi _ Hc) in Hread.
    destruct (represents_fd_of s w i _ Hr Hi Hc) as (f & Hf & Hn & Hcf & Hfl). destruct c as [| | |l pos].
    + injection Hread as <- <-. eexists _, _. split; [|exact (step_refl _ _ Hr)]. apply (read_bad _ s pid); [apply Hr|].
      apply (bad_fd_closed s pid i f); [done|by apply Hfl].
    + injection Hread as <- <-. destruct Hcf as [_ Hops]. destruct (rtc_read_tick s) as (env & r & Ht).
      exists (lset r s), env. split; [|by apply represents_rtc]. rewrite (read_found s w i ClockChan f) by done.
      rewrite Hops. cbn [syscall_read]. by rewrite (bind_Ret _ _ _ _ _ Ht).
    + by apply (serves_read_directory s w).
    + cbv zeta in Hread. destruct (_ && _) eqn:Hb; [|done]. apply andb_true_iff in Hb as [Hm Hk].
      apply bool_decide_eq_true in Hm, Hk. injection Hread as <- <-. destruct Hcf as (ino & L & Hino & Hfo & -> & ->).
      pose proof (sd_wf _ _ _ _ Hserved) as Hwf. pose proof (fo_position _ _ _ _ _ _ _ Hfo) as Hpos.
      rewrite (file_contents_length _ _ _ (fo_length _ _ _ _ _ _ _ Hfo)) in * by lia.
      eexists _, _. split; [exact (read_eq img n N D Hwf _ s pid i f ino L buf m (rp_process _ _ Hr) Hfo Hi Hino Hm Hk)|].
      apply represents_fd; [done|done|done|]. intros g Hg. assert (g = f) as -> by congruence.
      exists ino, L. split_and!; [lia..| |done|done]. apply file_open_advance; [done|lia..].
  - revert Hw. cbn [service]. unfold service_read. unfold mbind at 1, M_bind at 1, get at 1.
    assert (bool_decide (i < 0) || bool_decide (i > 7) || bool_decide (i = 1) = true) as Hb.
    { rewrite !orb_true_iff, !bool_decide_eq_true. lia. }
    rewrite Hb. intros [= <- <-]. eexists _, _. split; [|exact (step_refl _ _ Hr)]. apply (read_bad _ s pid); [apply Hr|].
    rewrite (represents_bad s w i 1) by (done || lia || auto). by rewrite Hb.
Qed.

(** Output to the screen. *)
Lemma ids_altered s i (f : terminal -> terminal) :
  (forall t, program_id (f t) = program_id t) ->
  program_id <$> terminals (k_terms (altered_terminal i f s)) = program_id <$> terminals (k_terms s).
Proof.
  intros Hf. apply list_eq. intros j. rewrite !list_lookup_fmap. cbn [altered_terminal lset kernel_terms k_terms terminals].
  destruct (decide (j = Z.to_nat i)) as [->|]; [|by rewrite list_lookup_alter_ne].
  rewrite list_lookup_alter_eq. destruct (terminals _ !! _); cbn; [by rewrite Hf|done].
Qed.

Lemma terminal_of_altered s (f : terminal -> terminal) :
  (forall t, program_id (f t) = program_id t) -> forall i, terminal_of (altered_terminal i f s) pid = terminal_of s pid.
Proof.
  intros Hf i. unfold terminal_of. f_equal. apply list_filter_iff. intros j.
  cbn [altered_terminal lset kernel_terms k_terms terminals]. unfold load. case_bool_decide; [|done].
  destruct (decide (Z.to_nat j = Z.to_nat i)) as [->|Hne].
  - rewrite list_lookup_alter_eq. destruct (terminals _ !! _); cbn; [by rewrite Hf|done].
  - by rewrite list_lookup_alter_ne.
Qed.

Lemma serves_print buf m s w str :
  represents s w -> bytes buf -> until0 buf = Some str ->
  exists s', write 1 buf m s = Ret (s32 (len str)) s' /\
    step s s' (print (bool_decide (80 < len str)) (take (Z.to_nat m) str) w).
Proof.
  intros Hr Hb Hs.
  destruct (std_found s w 1 0) as (Hbad & f & Hf & Hops); [done|lia..|].
  pose proof Hr as [Hp Hrun ? ? ? ? Hstd ? Hch (page & Hcon & Htok & Htty) Hkbd Hvis (tm & Htm & Hlb & Hbi)].
  destruct (terminal_write_refines_tty s pid term frame page buf str m Hrun Hcon Htok Hs Hb)
    as (page' & h & Hw & Htext & Hlp & Hbp & Htok').
  unfold write. rewrite (bind_Ret _ _ _ _ _ (process_find _ _ Hp)), (bind_Ret _ _ _ _ _ Hbad), (bind_Ret _ _ _ _ _ (get_fd_eq _ _ _ _ Hf)), Hops.
  cbn [syscall_write]. rewrite (bind_Ret _ _ _ _ _ Hw). rewrite bool_decide_true by done.
  rewrite (strlen_Some _ _ Hs). eexists. split; [reflexivity|].
  destruct Hp as [? ? [? ?]], Hrun as [? ? Hl3 Hterm], Hcon as [Hframe Hpage ? ?].
  pose proof (load_inv _ _ _ Hpage) as [Hfr _].
  split; [|split; try done; exact (ids_altered s term (set_buffer_i 0) (fun _ => eq_refl))].
  split; try done.
  - split; [done|done|..].
    + cbn [altered_terminal lset kernel_terms k_terms terminals]. by rewrite length_alter.
    + rewrite terminal_of_altered by done. exact Hterm.
  - intros i c Hi (g & Hg & Hc)%Hch; [|done]. exists g. split; [done|]. by apply (chan_of_frame s).
  - exists page'. split_and!; [|done|].
    + split; [exact Hframe| |done|done]. exact (load_insert_eq (k_frames s) frame page' Hfr).
    + cbn [prints w_tty after_output foldl fst snd]. rewrite <-Htty. set (t := foldl _ _ _) in *.
      unfold tty_of. rewrite Htext. by destruct t.
  - exists (set_buffer_i 0 tm). split; [exact (load_alter_eq (terminals (k_terms s)) term _ tm Htm)|].
    cbn [set_buffer_i line_buffer buffer_i]. by split; [|lia].
Qed.

Lemma kernel_sets_rate s (k : nat) :
  (k <= 10)%nat -> exists r : rtc, zoom (rtc_write (2 ^ Z.of_nat k)) s = Ret 0 (lset r s).
Proof. intros Hk. eexists. apply zoom_Ret. exact (rtc_write_run k (lget s) Hk). Qed.

Lemma serves_write i buf m : serves (Sys_write i buf m).
Proof.
  intros s w x w' Hr. pose proof (rp_length _ _ Hr) as Hlen. cbn [kernel_call service]. unfold service_write.
  unfold mbind at 1, M_bind at 1, get at 1.
  destruct (decide (i = 1)) as [->|H1].
  { rewrite (bool_decide_true (1 = 1)), !bool_decide_false by lia. cbn [orb].
    intros (str & w1 & Hs & H)%bind_inv. unfold lift in Hs. destruct (until0 buf) as [str'|] eqn:E; [|done].
    injection Hs as -> <-. case_bool_decide; [|done]. injection H as <- <-. by apply serves_print. }
  rewrite (bool_decide_false (i = 1)) by done. destruct (decide (2 <= i < 8)) as [Hi|Hi].
  - rewrite !bool_decide_false by lia. cbn [orb]. destruct (load_Some (w_chans w) (i - 2)) as [c Hc]; [lia|].
    rewrite Hc. unfold mbind at 1, M_bind at 1, lift at 1.
    destruct (represents_fd_of s w i _ Hr Hi Hc) as (f & Hf & _ & Hcf & Hfl). destruct c as [| | |l pos].
    + intros [= <- <-]. exists s. split; [|done]. apply (write_bad s pid); [apply Hr|].
      apply (bad_fd_closed s pid i f); [done|by apply Hfl].
    + rewrite (write_found s w i ClockChan f) by done. destruct Hcf as [_ ->]. cbn [syscall_write].
      destruct (bool_decide (-2147483648 <= m < _)) eqn:Hm; [|done]. apply bool_decide_eq_true in Hm.
      case_bool_decide as Hpow.
      * apply list_elem_of_fmap in Hpow as (k & -> & Hk%elem_of_seq).
        destruct (kernel_sets_rate s k) as [r Hrate]; [lia|]. rewrite (bind_Ret _ _ _ _ _ Hrate).
        rewrite bool_decide_true by done. intros (v & w1 & Hv & [= <- <-])%bind_inv.
        destruct (strlen buf) as [v'|]; [|done]. injection Hv as -> <-. eexists. split; [reflexivity|].
        by apply represents_rtc.
      * assert (zoom (rtc_write m) s = Ret (-1) (lset (lget s : rtc) s)) as Hrej.
        { apply zoom_Ret, rtc_write_rejects; [done|]. intros k Hk ->. apply Hpow, list_elem_of_fmap.
          exists k. split; [done|]. apply elem_of_seq. lia. }
        intros [= <- <-]. rewrite (bind_Ret _ _ _ _ _ Hrej). eexists. split; [reflexivity|]. by apply represents_rtc.
    + intros [= <- <-]. rewrite (write_found s w i DirChan f) by done. destruct Hcf as [_ ->]. by exists s.
    + intros [= <- <-]. rewrite (write_found s w i (FileChan l pos) f) by done.
      destruct Hcf as (ino & L & _ & [_ _ -> _ _ _ _] & _). by exists s.
  - assert (bool_decide (i < 0) || bool_decide (i > 7) || bool_decide (i = 0) = true) as Hb.
    { rewrite !orb_true_iff, !bool_decide_eq_true. lia. }
    rewrite Hb. intros [= <- <-]. exists s. split; [|done]. apply (write_bad s pid); [apply Hr|].
    rewrite (represents_bad s w i 0) by (done || lia || auto). by rewrite Hb.
Qed.

Lemma serves_vidmap a : serves (Sys_vidmap a).
Proof.
  intros s w x w' Hr. cbn [service kernel_call]. unfold vidmap. destruct (_ || _); [|done].
  intros [= <- <-]. by exists s.
Qed.

Lemma serves_number num : serves (Sys_number num).
Proof.
  intros s w x w' Hr. cbn [service kernel_call]. destruct (_ || _) eqn:E; [|done]. intros [= <- <-].
  apply orb_true_iff in E. rewrite !bool_decide_eq_true in E.
  rewrite (bind_Ret _ _ _ _ _ (syscall_rejects mach [] s num 0 0 0 E)). by exists s.
Qed.

Lemma kernel_serves T (e : sys T) : serves e.
Proof.
  destruct e; [apply serves_read|apply serves_write|apply serves_open|apply serves_close|apply serves_getargs
    |apply serves_vidmap|apply serves_number|done..].
Qed.
End Represents.

(** The host: the kernel and the keys to come. *)
Definition hosts `{!Layout} (img : list Z) (n N pid term frame : Z) (h : host) (w : world) : Prop :=
  represents img n N pid term frame (h_kernel h) w /\ h_keys h = w_keys w.

(** The service takes the keys that the host takes. *)
Lemma service_keys `{!Layout} `{!Overread} `{!Device} vol mach T (e : sys T) w x w' :
  service vol T e w = Ret x w' -> w_keys w' = snd (interrupts mach e (w_keys w)).
Proof.
  destruct e; cbn [service interrupts snd];
    unfold service_read, service_line, service_write, service_open, service_close, service_getargs, get, modify,
      lift, undef, mbind, M_bind, mret, M_ret; cbv zeta; intros Hrun; repeat (case_match; try discriminate Hrun);
    simplify_eq/=; try done;
    exfalso; rewrite ?orb_true_iff, ?bool_decide_eq_true in *; lia.
Qed.

(** A call of the service is a call of the host's. *)
Lemma host_serves `{!Layout} `{!Overread} `{!Device} m img n N D pid term frame T (e : sys T) h w x w' :
  served img n N D -> quiet -> hosts img n N pid term frame h w -> service (volume_of img n) T e w = Ret x w' ->
  exists h', kernel_calls m T e h = Ret x h' /\ hosts img n N pid term frame h' w' /\
    steady pid (h_kernel h) (h_kernel h').
Proof.
  intros Hd Hq [Hr Hk] Hw. destruct h as [s keys]. cbn in Hr, Hk. subst keys.
  destruct (kernel_serves img n N D pid term frame m Hd Hq T e s w x w' Hr Hw) as (s' & Hs & Hr' & Hst).
  apply (service_keys _ m) in Hw. unfold kernel_calls. cbn [h_keys h_kernel].
  destruct (interrupts m e (w_keys w)) as [env keys]. cbn [fst snd] in Hs, Hw. rewrite Hs.
  exists (Host s' keys). by split; [|split; [split|]].
Qed.

Lemma kernel_simulates `{!Layout} `{!Overread} `{!Device} m img n N D pid term frame T (e : sys T) :
  served img n N D -> quiet ->
  simulates (hosts img n N pid term frame) (kernel_calls m T e) (service (volume_of img n) T e).
Proof.
  intros Hd Hq h w x w' Hh Hw.
  destruct (host_serves m img n N D pid term frame T e h w x w' Hd Hq Hh Hw) as (h' & ? & ? & _). by exists h'.
Qed.

(** A program runs on the kernel as it does over the service. *)
Lemma kernel_runs `{!Layout} `{!Overread} `{!Device} m img n N D pid term frame h w {A} (t : prog A) Q :
  served img n N D -> quiet -> hosts img n N pid term frame h w -> runs (service (volume_of img n)) Q t w ->
  runs (kernel_calls m) (fun a h' => exists w', hosts img n N pid term frame h' w' /\ Q a w') t h.
Proof. intros Hd Hq. apply runs_simulation. intros T e. by eapply kernel_simulates. Qed.

Lemma kernel_steps `{!Layout} `{!Overread} `{!Device} m img n N D pid term frame h w {A} (t t' : prog A) w' :
  served img n N D -> quiet -> hosts img n N pid term frame h w -> steps (service (volume_of img n)) t' w' t w ->
  exists h', hosts img n N pid term frame h' w' /\ steps (kernel_calls m) t' h' t h.
Proof. intros Hd Hq. apply steps_simulation. intros T e. by eapply kernel_simulates. Qed.
