(* ===== verification/Blink.v ===== *)
(** * The blinking characters of fish

    [src/fish/blink.S] and the storage functions of [src/fish/fish.c]: a linked list of the
    characters that blink on the screen, its nodes in the array [blink_array]. A
    pointer to a node is its index, NULL is [None]. *)
From S2P Require Import Prelude Screen.

(** ** Data *)

Definition s16 (x : Z) : Z := (x + 32768) `mod` 65536 - 32768.

(** struct mp1_blink_struct: its fields, and its link. *)
Record blink_data := Blink {
  location : Z;
  on_char : Z;
  off_char : Z;
  on_length : Z;
  off_length : Z;
  countdown : Z;
  status : Z;
}.
Record mp1_blink_struct := BlinkStruct {
  data : blink_data;
  next : option Z;
}.

(** The stores to the text page are a history, newest first: the offset from
    vmem_base_addr, and the byte. *)
Record blinks := Blinks {
  blink_array : list mp1_blink_struct;
  mp1_list_head : option Z;
  pokes : list (Z * Z);
}.

Definition set_array (a : list mp1_blink_struct) (s : blinks) : blinks := Blinks a (mp1_list_head s) (pokes s).
Definition set_head (h : option Z) (s : blinks) : blinks := Blinks (blink_array s) h (pokes s).

Definition zero_struct : mp1_blink_struct := BlinkStruct (Blink 0 0 0 0 0 0 0) None.

(** What mp1_ioctl is asked for: the structure behind its pointer, or its number. *)
Inductive ioctl :=
| RTC_ADD (arg : blink_data)
| RTC_REMOVE (arg : Z)
| RTC_FIND (arg : blink_data)
| RTC_SYNC (arg : Z).

(** ** The code *)

Definition ADDRESSES : nat := 2000.

Definition get_node (i : Z) : M blinks mp1_blink_struct := s ← get; lift (load (blink_array s) i).
Definition put_node (i : Z) (x : mp1_blink_struct) : M blinks unit :=
  s ← get; a ← lift (store (blink_array s) i x); modify (set_array a).

Definition mp1_poke (cl eax : Z) : M blinks unit :=
  modify (fun s => Blinks (blink_array s) (mp1_list_head s) ((eax, cl) :: pokes s)).

(** [for(i=0; i< 80*25; i++)] *)
Fixpoint malloc_from (n : nat) (i : Z) : M blinks (option Z) :=
  match n with
  | O => mret None
  | S n' => x ← get_node i; if bool_decide (location (data x) = 0) then mret (Some i) else malloc_from n' (i + 1)
  end.
Definition mp1_malloc : M blinks (option Z) := malloc_from ADDRESSES 0.
Definition mp1_free (memory : Z) : M blinks unit := put_node memory zero_struct.

(** A walk along the links. A node is an element of the array, so a list with an end has
    at most [ADDRESSES] nodes: a longer walk is endless. *)
Fixpoint find_from (fuel : nat) (ax : Z) (ebx : option Z) : M blinks (option Z) :=
  match ebx with
  | None => mret None
  | Some i =>
      match fuel with
      | O => hang
      | S fuel' => x ← get_node i; if bool_decide (location (data x) = ax) then mret ebx else find_from fuel' ax (next x)
      end
  end.
Definition mp1_find_helper (arg : Z) : M blinks (option Z) :=
  s ← get; find_from ADDRESSES (u16 arg) (mp1_list_head s).

(** The node of the loop of mp1_rtc_tasklet. *)
Definition blink_node (i : Z) (x : mp1_blink_struct) : M blinks unit :=
  let count := u16 (countdown (data x) - 1) in
  if bool_decide (s16 count > 0) then
    put_node i (BlinkStruct (Blink (location (data x)) (on_char (data x)) (off_char (data x)) (on_length (data x)) (off_length (data x)) count (status (data x))) (next x))
  else
    let on := negb (bool_decide (Z.land (status (data x)) 1 = 0)) in
    mp1_poke (if on then off_char (data x) else on_char (data x)) (location (data x) * 2) ;;
    put_node i (BlinkStruct (Blink (location (data x)) (on_char (data x)) (off_char (data x)) (on_length (data x)) (off_length (data x))
      (if on then off_length (data x) else on_length (data x)) (Z.lxor (status (data x)) 1)) (next x)).

Fixpoint tasklet_loop (fuel : nat) (ebx : option Z) : M blinks unit :=
  match ebx with
  | None => mret tt
  | Some i =>
      match fuel with
      | O => hang
      | S fuel' => x ← get_node i; blink_node i x ;; tasklet_loop fuel' (next x)
      end
  end.
Definition mp1_rtc_tasklet : M blinks unit := s ← get; tasklet_loop ADDRESSES (mp1_list_head s).

Definition mp1_ioctl_add (arg : blink_data) : M blinks Z :=
  if bool_decide (80 * 25 <= location arg) then mret (-1)
  else
    let x := Blink (location arg) (on_char arg) (off_char arg) (on_length arg) (off_length arg) (on_length arg) 1 in
    eax ← mp1_malloc;
    match eax with
    | None => mret (-1)
    | Some edx =>
        s ← get;
        put_node edx (BlinkStruct x (mp1_list_head s)) ;;
        modify (set_head (Some edx)) ;;
        mp1_poke (on_char x) (location x * 2) ;;
        mret 0
    end.

(** The place of the link to [eax]: the head, or a node's link. *)
Fixpoint find_prev (fuel : nat) (eax : Z) (edx : option Z) : M blinks (option Z) :=
  s ← get;
  p ← match edx with None => mret (mp1_list_head s) | Some j => x ← get_node j; mret (next x) end;
  if bool_decide (p = Some eax) then mret edx
  else
    match p with
    | None => undef
    | Some j => match fuel with O => hang | S fuel' => find_prev fuel' eax (Some j) end
    end.
Definition put_link (edx ecx : option Z) : M blinks unit :=
  match edx with
  | None => modify (set_head ecx)
  | Some j => x ← get_node j; put_node j (BlinkStruct (data x) ecx)
  end.

Definition mp1_ioctl_remove (arg : Z) : M blinks Z :=
  eax ← mp1_find_helper arg;
  match eax with
  | None => mret (-1)
  | Some i =>
      edx ← find_prev ADDRESSES i None;
      x ← get_node i;
      put_link edx (next x) ;;
      mp1_free i ;;
      mret 0
  end.

(** [testb $0x1] leaves the overflow flag clear and the sign flag as bit 7 of the result;
    [cmovl] moves if they differ. *)
Definition mp1_ioctl_sync (arg : Z) : M blinks Z :=
  esi ← mp1_find_helper (Z.shiftr (u32 arg) 16);
  match esi with
  | None => mret (-1)
  | Some i =>
      edi ← mp1_find_helper (Z.land (u32 arg) 0xFFFF);
      match edi with
      | None => mret (-1)
      | Some j =>
          x ← get_node i;
          y ← get_node j;
          put_node j (BlinkStruct (Blink (location (data y)) (on_char (data y)) (off_char (data y)) (on_length (data x)) (off_length (data x))
            (countdown (data x)) (status (data x))) (next y)) ;;
          let sf := Z.testbit (Z.land (status (data x)) 1) 7 in
          mp1_poke (if sf then on_char (data y) else off_char (data y)) (location (data y) * 2) ;;
          mret 0
      end
  end.

Definition mp1_ioctl_find (arg : blink_data) : M blinks (Z * option mp1_blink_struct) :=
  eax ← mp1_find_helper (location arg);
  match eax with
  | None => mret (-1, None)
  | Some i => x ← get_node i; mret (0, Some x)
  end.

(** The jump through call_table; a structure that RTC_FIND stored for the caller. *)
Definition mp1_ioctl (cmd : ioctl) : M blinks (Z * option mp1_blink_struct) :=
  match cmd with
  | RTC_ADD arg => r ← mp1_ioctl_add arg; mret (r, None)
  | RTC_REMOVE arg => r ← mp1_ioctl_remove arg; mret (r, None)
  | RTC_FIND arg => mp1_ioctl_find arg
  | RTC_SYNC arg => r ← mp1_ioctl_sync arg; mret (r, None)
  end.

(** ** What the list is for

    A list of characters, the newest first, without nodes and links. *)

Definition set_run (count st : Z) (x : blink_data) : blink_data :=
  Blink (location x) (on_char x) (off_char x) (on_length x) (off_length x) count st.

(** The character counts down; at 0 its other state begins, and is drawn. *)
Definition tick (x : blink_data) : blink_data * list (Z * Z) :=
  let count := u16 (countdown x - 1) in
  if decide (0 < s16 count) then (set_run count (status x) x, [])
  else if decide (Z.land (status x) 1 = 0)
  then (set_run (on_length x) (Z.lxor (status x) 1) x, [(location x, on_char x)])
  else (set_run (off_length x) (Z.lxor (status x) 1) x, [(location x, off_char x)]).

Definition tick_list (l : list blink_data) : list blink_data * list (Z * Z) :=
  (fst ∘ tick <$> l, concat (snd ∘ tick <$> l)).

Definition find_at (loc : Z) (l : list blink_data) : option (nat * blink_data) :=
  list_find (fun x => location x = loc) l.

(** The synchronised character takes over the lengths and the phase. *)
Definition in_phase (x y : blink_data) : blink_data :=
  Blink (location y) (on_char y) (off_char y) (on_length x) (off_length x) (countdown x) (status x).

(** The result, the character that was found, the list, and what is drawn. *)
Definition answer (cmd : ioctl) (l : list blink_data) : Z * option blink_data * list blink_data * list (Z * Z) :=
  match cmd with
  | RTC_ADD x =>
      if decide (location x < 2000 /\ (length l < 2000)%nat)
      then (0, None, set_run (on_length x) 1 x :: l, [(location x, on_char x)])
      else (-1, None, l, [])
  | RTC_REMOVE loc =>
      match find_at (u16 loc) l with
      | Some (k, _) => (0, None, delete k l, [])
      | None => (-1, None, l, [])
      end
  | RTC_FIND x =>
      match find_at (u16 (location x)) l with
      | Some (_, y) => (0, Some y, l, [])
      | None => (-1, None, l, [])
      end
  | RTC_SYNC arg =>
      match find_at (u16 (Z.shiftr (u32 arg) 16)) l, find_at (u16 (Z.land (u32 arg) 0xFFFF)) l with
      | Some (_, x), Some (k, y) => (0, None, <[k := in_phase x y]> l, [(location y, off_char y)])
      | _, _ => (-1, None, l, [])
      end
  end.

(** ** The representation *)

(** The nodes [ids] hold the characters [l]; the first is at [h], the last links to [q]. *)
Fixpoint seg (a : list mp1_blink_struct) (h q : option Z) (ids : list Z) (l : list blink_data) : Prop :=
  match ids, l with
  | [], [] => h = q
  | i :: ids', x :: l' => h = Some i /\ exists nx, load a i = Some (BlinkStruct x nx) /\ seg a nx q ids' l'
  | _, _ => False
  end.

(** Different nodes, and location 0 in exactly the free ones. *)
Record holds (a : list mp1_blink_struct) (h : option Z) (ids : list Z) (l : list blink_data) : Prop := {
  ho_length : length a = 2000%nat;
  ho_seg : seg a h None ids l;
  ho_nodup : NoDup ids;
  ho_used i x : load a i = Some x -> i ∈ ids <-> location (data x) <> 0;
}.
Definition blinking (s : blinks) (l : list blink_data) : Prop :=
  exists ids, holds (blink_array s) (mp1_list_head s) ids l.

(** The stores that draw characters. *)
Definition stores (ps : list (Z * Z)) : list (Z * Z) := (fun p => (fst p * 2, snd p)) <$> ps.
Definition draws (ps : list (Z * Z)) (old new : list (Z * Z)) : Prop := new = reverse (stores ps) ++ old.

(** *** Lemmas on segments *)

Lemma seg_app a h q ids1 ids2 l1 l2 :
  length ids1 = length l1 ->
  seg a h q (ids1 ++ ids2) (l1 ++ l2) <-> exists m, seg a h m ids1 l1 /\ seg a m q ids2 l2.
Proof.
  revert h l1. induction ids1 as [|i ids1 IH]; intros h [|x l1] Hl; try done; cbn [seg app].
  - split; [intros; by exists h|by intros (m & -> & ?)].
  - injection Hl as Hl. split.
    + intros (-> & nx & Hx & (m & ? & ?)%IH); [|done]. exists m. split; [|done]. split; [done|]. by exists nx.
    + intros (m & (-> & nx & Hx & Hs) & Hr). split; [done|]. exists nx. split; [done|]. apply IH; [done|]. by exists m.
Qed.

Lemma seg_length a h q ids l : seg a h q ids l -> length ids = length l.
Proof.
  revert h l. induction ids as [|i ids IH]; intros h [|x l]; try done. cbn [seg length].
  intros (_ & nx & _ & H). by rewrite (IH _ _ H).
Qed.

Lemma seg_lookup a h q ids l k i :
  seg a h q ids l -> ids !! k = Some i -> exists x nx, l !! k = Some x /\ load a i = Some (BlinkStruct x nx).
Proof.
  revert h l k. induction ids as [|j ids IH]; intros h [|x l] [|k]; try done; cbn [seg].
  - intros (_ & nx & Hx & _) [= <-]. by exists x, nx.
  - intros (_ & nx & _ & H) Hk. exact (IH _ _ k H Hk).
Qed.

Lemma seg_range a h q ids l : seg a h q ids l -> Forall (fun i => 0 <= i < len a) ids.
Proof.
  intros Hs. apply Forall_lookup_2. intros k i Hk. destruct (seg_lookup _ _ _ _ _ _ _ Hs Hk) as (x & nx & _ & Hx).
  by apply load_inv in Hx as [? _].
Qed.

(** A node's store leaves a segment without it as it is. *)
Lemma seg_frame a h q ids l i v :
  0 <= i -> i ∉ ids -> seg a h q ids l -> seg (<[Z.to_nat i := v]> a) h q ids l.
Proof.
  intros Hi. revert h l. induction ids as [|j ids IH]; intros h [|x l] Hn; try done; cbn [seg].
  apply not_elem_of_cons in Hn as [Hne Hn]. intros (-> & nx & Hx & Hs). split; [done|]. exists nx.
  split; [by rewrite load_insert_ne|by apply IH].
Qed.

(** The data of a node changes. *)
Lemma seg_update a h q ids l k i x nx y :
  NoDup ids -> seg a h q ids l -> ids !! k = Some i -> load a i = Some (BlinkStruct x nx) ->
  seg (<[Z.to_nat i := BlinkStruct y nx]> a) h q ids (<[k := y]> l).
Proof.
  intros Hnd. revert h l k. induction Hnd as [|j ids Hj Hnd IH]; intros h [|z l] [|k]; try done; cbn [seg].
  - intros (-> & nz & Hz & Hs) [= ->] Hx. rewrite Hx in Hz. injection Hz as <- <-. pose proof (load_inv _ _ _ Hx) as [? _].
    cbn [insert list_insert]. split; [done|]. exists nx. split; [by apply load_insert_eq|apply seg_frame; done || lia].
  - intros (-> & nz & Hz & Hs) Hk Hx. pose proof (load_inv _ _ _ Hx) as [? _].
    assert (i <> j) as Hne by (intros ->; apply Hj; by eapply list_elem_of_lookup_2).
    split; [done|]. exists nz. split; [by rewrite load_insert_ne by lia|by apply IH].
Qed.

(** The last node gets another link. *)
Lemma seg_relink a h q q' ids j l x :
  NoDup (ids ++ [j]) -> length ids = length l -> seg a h q (ids ++ [j]) (l ++ [x]) ->
  load a j = Some (BlinkStruct x q) /\ seg (<[Z.to_nat j := BlinkStruct x q']> a) h q' (ids ++ [j]) (l ++ [x]).
Proof.
  intros (_ & Hj & _)%NoDup_app Hl (m & Hs & -> & nx & Hx & <-)%seg_app; [|done].
  pose proof (load_inv _ _ _ Hx) as [? _]. split; [done|]. apply seg_app; [done|]. exists (Some j).
  split; [apply seg_frame; [lia| |done]|split; [done|]; exists q'; split; [by apply load_insert_eq|done]].
  intros Hin. by apply (Hj j Hin), list_elem_of_singleton.
Qed.

(** *** The operations *)

Lemma holds_count a h ids l : holds a h ids l -> (length l <= 2000)%nat.
Proof.
  intros [Hl Hs Hn _]. pose proof (seg_range _ _ _ _ _ Hs) as Hr. rewrite <-(seg_length _ _ _ _ _ Hs).
  change 2000%nat with (length (seqZ 0 2000)). apply submseteq_length, NoDup_submseteq; [done|].
  intros i Hi. apply elem_of_seqZ. rewrite Forall_forall in Hr. specialize (Hr i Hi). lia.
Qed.

Lemma node_eq s i x : load (blink_array s) i = Some x -> get_node i s = Ret x s.
Proof. intros Hx. unfold get_node, mbind, M_bind, get, lift. by rewrite Hx. Qed.
Lemma put_node_eq s i x :
  0 <= i < len (blink_array s) -> put_node i x s = Ret tt (set_array (<[Z.to_nat i := x]> (blink_array s)) s).
Proof. intros Hi. unfold put_node, mbind, M_bind, get, lift. by rewrite store_in. Qed.

Lemma find_from_eq fuel loc s ids l h :
  seg (blink_array s) h None ids l -> (length l <= fuel)%nat ->
  find_from fuel loc h s = Ret (p ← find_at loc l; ids !! fst p) s.
Proof.
  revert h ids l. induction fuel as [|fuel IH]; intros h [|i ids] [|x l]; cbn [seg length]; try done; try lia.
  - by intros -> _.
  - by intros -> _.
  - intros (-> & nx & Hx & Hs) Hl. cbn [find_from]. rewrite (bind_Ret _ _ _ _ _ (node_eq _ _ _ Hx)). cbn [data next].
    unfold find_at. cbn [list_find]. destruct (decide (location x = loc)) as [E|E].
    + by rewrite bool_decide_true.
    + rewrite bool_decide_false by done. rewrite (IH _ _ _ Hs ltac:(lia)). unfold find_at.
      by destruct (list_find _ l) as [[k y]|].
Qed.

Lemma find_at_Some loc l k x : find_at loc l = Some (k, x) -> l !! k = Some x /\ location x = loc.
Proof. by intros (? & ? & _)%list_find_Some. Qed.

(** The node that a location leads to. *)
Lemma find_helper_eq s ids l arg :
  holds (blink_array s) (mp1_list_head s) ids l ->
  (find_at (u16 arg) l = None /\ mp1_find_helper arg s = Ret None s) \/
  exists k x i nx, find_at (u16 arg) l = Some (k, x) /\ l !! k = Some x /\ ids !! k = Some i /\
    load (blink_array s) i = Some (BlinkStruct x nx) /\ mp1_find_helper arg s = Ret (Some i) s.
Proof.
  intros Hh. pose proof (holds_count _ _ _ _ Hh) as Hc. destruct Hh as [_ Hs _ _].
  change (mp1_find_helper arg s) with (find_from ADDRESSES (u16 arg) (mp1_list_head s) s). rewrite (find_from_eq _ _ _ _ _ _ Hs) by (unfold ADDRESSES; lia).
  destruct (find_at (u16 arg) l) as [[k x]|] eqn:E; [right|by left].
  destruct (find_at_Some _ _ _ _ E) as [Hx _]. pose proof (lookup_lt_Some _ _ _ Hx) as Hk.
  rewrite <-(seg_length _ _ _ _ _ Hs) in Hk. apply lookup_lt_is_Some_2 in Hk as [i Hi].
  destruct (seg_lookup _ _ _ _ _ _ _ Hs Hi) as (x' & nx & Hx' & Hn). simplify_eq.
  exists k, x, i, nx. cbn [mbind option_bind fst]. by rewrite Hi.
Qed.

Lemma malloc_from_eq n i s :
  0 <= i -> i + Z.of_nat n <= len (blink_array s) ->
  exists r, malloc_from n i s = Ret r s /\
    match r with
    | Some j => exists x, load (blink_array s) j = Some x /\ location (data x) = 0
    | None => forall j x, i <= j < i + Z.of_nat n -> load (blink_array s) j = Some x -> location (data x) <> 0
    end.
Proof.
  revert i. induction n as [|n IH]; intros i Hi Hn.
  { exists None. split; [done|]. intros. lia. }
  destruct (load_Some (blink_array s) i ltac:(lia)) as [x Hx]. cbn [malloc_from].
  rewrite (bind_Ret _ _ _ _ _ (node_eq _ _ _ Hx)). case_bool_decide as E.
  - exists (Some i). split; [done|]. by exists x.
  - destruct (IH (i + 1)) as (r & -> & Hr); [lia|lia|]. exists r. split; [done|]. destruct r; [done|].
    intros j y Hj Hy. destruct (decide (j = i)) as [->|]; [by simplify_eq|]. apply (Hr j); [lia|done].
Qed.

Lemma malloc_eq s ids l :
  holds (blink_array s) (mp1_list_head s) ids l ->
  (length l = 2000%nat /\ mp1_malloc s = Ret None s) \/
  ((length l < 2000)%nat /\ exists i, mp1_malloc s = Ret (Some i) s /\ 0 <= i < len (blink_array s) /\ i ∉ ids).
Proof.
  intros Hh. pose proof (holds_count _ _ _ _ Hh) as Hc. pose proof Hh as [Hl Hs Hn Hu].
  destruct (malloc_from_eq ADDRESSES 0 s) as (r & Hr & Hspec); [lia|unfold ADDRESSES; lia|].
  unfold mp1_malloc. destruct r as [i|].
  - destruct Hspec as (x & Hx & Hz). pose proof (load_inv _ _ _ Hx) as [Hi _].
    assert (i ∉ ids) as Hni by (by intros Hin%(Hu _ _ Hx)). right. split; [|by exists i].
    rewrite <-(seg_length _ _ _ _ _ Hs). change 2000%nat with (length (seqZ 0 2000)).
    apply (submseteq_length (i :: ids)), NoDup_submseteq; [by constructor|].
    pose proof (seg_range _ _ _ _ _ Hs) as Hrng. rewrite Forall_forall in Hrng.
    intros j Hj. apply elem_of_seqZ. apply elem_of_cons in Hj as [->|Hj]; [lia|]. specialize (Hrng j Hj). lia.
  - left. split; [|done]. enough (2000 <= length l)%nat by lia. rewrite <-(seg_length _ _ _ _ _ Hs).
    change 2000%nat with (length (seqZ 0 2000)). apply submseteq_length, NoDup_submseteq; [apply NoDup_seqZ|].
    intros j Hj%elem_of_seqZ. destruct (load_Some (blink_array s) j ltac:(lia)) as [x Hx].
    apply (Hu _ _ Hx). apply (Hspec j x); [unfold ADDRESSES; lia|done].
Qed.

(** *** Adding, removing, synchronising *)

Lemma add_ok s l x :
  blinking s l -> 0 < location x ->
  exists r s' l' ps, answer (RTC_ADD x) l = (r, None, l', ps) /\ mp1_ioctl_add x s = Ret r s' /\
    blinking s' l' /\ draws ps (pokes s) (pokes s').
Proof.
  intros [ids Hh] Hx. unfold mp1_ioctl_add. cbn [answer]. destruct (decide (2000 <= location x)).
  { rewrite decide_False, bool_decide_true by lia. do 4 eexists. split_and!; [done..|by exists ids|done]. }
  rewrite (bool_decide_false (80 * 25 <= _)) by lia. cbv zeta.
  destruct (malloc_eq s ids l Hh) as [[Hlen Hm]|(Hlen & i & Hm & Hi & Hni)]; rewrite (bind_Ret _ _ _ _ _ Hm).
  { rewrite decide_False by lia. do 4 eexists. split_and!; [done..|by exists ids|done]. }
  rewrite decide_True by lia. destruct Hh as [Hl Hs Hn Hu].
  set (x' := Blink _ _ _ _ _ _ 1). set (b := BlinkStruct x' (mp1_list_head s)).
  exists 0, (Blinks (<[Z.to_nat i := b]> (blink_array s)) (Some i) ((location x * 2, on_char x) :: pokes s)),
    (x' :: l), [(location x, on_char x)].
  split; [done|]. split.
  - rewrite (bind_Ret get _ s s s) by done. by rewrite (bind_Ret _ _ _ _ _ (put_node_eq s i b Hi)).
  - split; [|done]. exists (i :: ids). split; cbn [blink_array mp1_list_head].
    + by rewrite length_insert.
    + split; [done|]. exists (mp1_list_head s). split; [by apply load_insert_eq|]. apply seg_frame; done || lia.
    + by constructor.
    + intros j y. destruct (decide (j = i)) as [->|Hne].
      * rewrite load_insert_eq by done. intros [= <-]. cbn. split; [lia|left].
      * rewrite load_insert_ne by lia. intros Hy. rewrite <-(Hu _ _ Hy), elem_of_cons. split; [by intros [->|?]|by right].
Qed.

Definition link_at (s : blinks) (edx p : option Z) : Prop :=
  match edx with
  | None => mp1_list_head s = p
  | Some j => exists x, load (blink_array s) j = Some (BlinkStruct x p)
  end.

Lemma find_prev_eq fuel s i ids1 l1 edx p q :
  link_at s edx p -> seg (blink_array s) p (Some i) ids1 l1 -> i ∉ ids1 -> (length ids1 < fuel)%nat ->
  q = (match last ids1 with Some j => Some j | None => edx end) ->
  find_prev fuel i edx s = Ret q s /\ link_at s q (Some i).
Proof.
  revert ids1 l1 edx p. induction fuel as [|fuel IH]; intros ids1 l1 edx p; [lia|]. intros Hp Hs Hni Hl ->.
  assert ((match edx with None => mret (mp1_list_head s) | Some j => x ← get_node j; mret (next x) end : M blinks _) s = Ret p s) as Hd.
  { destruct edx as [j|]; [destruct Hp as [x Hx]; by rewrite (bind_Ret _ _ _ _ _ (node_eq _ _ _ Hx))|by rewrite <-Hp]. }
  cbn [find_prev]. rewrite (bind_Ret get _ s s s) by done. rewrite (bind_Ret _ _ _ _ _ Hd).
  destruct ids1 as [|j ids1], l1 as [|x l1]; try done; cbn [seg] in Hs.
  - subst p. by rewrite bool_decide_true.
  - destruct Hs as (-> & nx & Hx & Hs). apply not_elem_of_cons in Hni as [Hne Hni].
    rewrite bool_decide_false by congruence. cbn [length] in Hl.
    apply (IH ids1 l1 (Some j) nx); [by exists x|done|done|lia|]. destruct ids1 as [|j' ids1]; [done|].
    rewrite !last_cons. by destruct (last ids1).
Qed.

(** A node's array and head after its removal. *)
Definition unlinked (a : list mp1_blink_struct) (edx ecx : option Z) : list mp1_blink_struct :=
  match edx with
  | Some j => match load a j with Some x => <[Z.to_nat j := BlinkStruct (data x) ecx]> a | None => a end
  | None => a
  end.

Lemma put_link_eq s edx p ecx :
  link_at s edx p ->
  put_link edx ecx s
  = Ret tt (Blinks (unlinked (blink_array s) edx ecx)
              (match edx with None => ecx | Some _ => mp1_list_head s end) (pokes s)).
Proof.
  unfold put_link, unlinked. destruct edx as [j|]; [|done]. intros [x Hx]. rewrite (bind_Ret _ _ _ _ _ (node_eq _ _ _ Hx)).
  rewrite Hx. apply put_node_eq. by apply load_inv in Hx as [? _].
Qed.

Lemma unlinked_lookup a edx ecx j x :
  load (unlinked a edx ecx) j = Some x -> exists y, load a j = Some y /\ data x = data y.
Proof.
  unfold unlinked. destruct edx as [i|]; [|by exists x]. destruct (load a i) as [y|] eqn:Hy; [|by exists x].
  pose proof (load_inv _ _ _ Hy) as [? _]. destruct (decide (i = j)) as [->|Hne].
  - rewrite load_insert_eq by done. intros [= <-]. by exists y.
  - rewrite load_insert_ne by lia. by exists x.
Qed.
Lemma unlinked_length a edx ecx : length (unlinked a edx ecx) = length a.
Proof. unfold unlinked. destruct edx as [i|]; [|done]. destruct (load a i); [|done]. apply length_insert. Qed.

Lemma last_cases {A} (l : list A) : l = [] \/ exists l' x, l = l' ++ [x].
Proof. destruct l as [|x l] using rev_ind; [by left|right; by exists l, x]. Qed.

(** The segment without the node. *)
Lemma seg_unlinked a h i nx x ids1 ids2 l1 l2 edx :
  NoDup (ids1 ++ i :: ids2) -> length ids1 = length l1 -> seg a h None (ids1 ++ i :: ids2) (l1 ++ x :: l2) ->
  load a i = Some (BlinkStruct x nx) -> edx = last ids1 ->
  seg (unlinked a edx nx) (match edx with None => nx | Some _ => h end) None (ids1 ++ ids2) (l1 ++ l2).
Proof.
  intros Hn Hl (m & Hs1 & -> & ? & Hi & Hs2)%seg_app Hx ->; [|done]. rewrite Hx in Hi. injection Hi as <-.
  apply NoDup_app in Hn as (Hn1 & Hdis & [Hni Hn2]%NoDup_cons).
  destruct (last_cases ids1) as [->|(ids' & j & ->)].
  - destruct l1; [|done]. cbn in Hs1 |- *. done.
  - destruct (last_cases l1) as [->|(l' & z & ->)]; [lens|]. rewrite last_snoc. cbn [unlinked].
    apply (seg_relink _ _ _ nx) in Hs1 as [Hj Hs1]; [|done|lens]. rewrite Hj. cbn [data].
    pose proof (load_inv _ _ _ Hj) as [? _]. apply seg_app; [done|]. exists nx. split; [done|].
    apply seg_frame; [lia| |done]. intros Hin. apply (Hdis j); [|by right]. apply elem_of_app. right. by left.
Qed.

Lemma remove_ok s l arg :
  blinking s l ->
  exists r s' l' ps, answer (RTC_REMOVE arg) l = (r, None, l', ps) /\ mp1_ioctl_remove arg s = Ret r s' /\
    blinking s' l' /\ draws ps (pokes s) (pokes s').
Proof.
  intros [ids Hh]. cbn [answer]. unfold mp1_ioctl_remove.
  destruct (find_helper_eq s ids l arg Hh) as [[E Hf]|(k & x & i & nx & E & Hx & Hi & Hn & Hf)];
    rewrite E, (bind_Ret _ _ _ _ _ Hf).
  { do 4 eexists. split_and!; [done..|by exists ids|done]. }
  pose proof (holds_count _ _ _ _ Hh) as Hc. destruct Hh as [Hl Hs Hnd Hu].
  pose proof (seg_length _ _ _ _ _ Hs) as Hlen. pose proof (lookup_lt_Some _ _ _ Hi) as Hk.
  set (ids1 := take k ids) in *. set (ids2 := drop (S k) ids) in *.
  assert (ids = ids1 ++ i :: ids2) as Hids by (symmetry; exact (take_drop_middle _ _ _ Hi)).
  assert (l = take k l ++ x :: drop (S k) l) as Hls by (symmetry; exact (take_drop_middle _ _ _ Hx)).
  assert (length ids1 = length (take k l)) as Hl1 by (subst ids1; lens).
  pose proof Hs as Hs0. rewrite Hids, Hls in Hs. pose proof Hs as (m & Hs1 & -> & _)%seg_app; [|done].
  pose proof Hnd as Hnd'. rewrite Hids in Hnd'. pose proof Hnd' as (Hnd1 & Hdis & [Hni Hnd2]%NoDup_cons)%NoDup_app.
  assert (i ∉ ids1) as Hni1 by (intros Hin; apply (Hdis i Hin); by left).
  destruct (find_prev_eq ADDRESSES s i ids1 (take k l) None (mp1_list_head s) (last ids1)) as [Hp Hlink];
    [done|done|done|unfold ADDRESSES; subst ids1; lens|by destruct (last ids1)|].
  rewrite (bind_Ret _ _ _ _ _ Hp), (bind_Ret _ _ _ _ _ (node_eq _ _ _ Hn)). cbn [next].
  rewrite (bind_Ret _ _ _ _ _ (put_link_eq _ _ _ nx Hlink)).
  pose proof (load_inv _ _ _ Hn) as [Hir _].
  unfold mp1_free. erewrite bind_Ret by (apply put_node_eq; cbn [blink_array]; by rewrite unlinked_length).
  do 4 eexists. split_and!; [done..| |done]. exists (ids1 ++ ids2). cbn [set_array blink_array mp1_list_head].
  split.
  - by rewrite length_insert, unlinked_length.
  - rewrite delete_take_drop. apply seg_frame; [lia|by intros [?|?]%elem_of_app|].
    by apply (seg_unlinked _ _ i nx x ids1 ids2 (take k l) (drop (S k) l)).
  - apply NoDup_app. split; [done|]. split; [|done]. intros j Hj Hj2. apply (Hdis j Hj). by right.
  - intros j y. destruct (decide (j = i)) as [->|Hne].
    + rewrite load_insert_eq by (by rewrite unlinked_length). intros [= <-]. split; [by intros [?|?]%elem_of_app|done].
    + rewrite load_insert_ne by lia. intros (z & Hz & ->)%unlinked_lookup. rewrite <-(Hu _ _ Hz), Hids.
      rewrite !elem_of_app, elem_of_cons. clear -Hne. tauto.
Qed.

(** A node's store that keeps its location and its link. *)
Lemma holds_update a h ids l k i x nx y :
  holds a h ids l -> ids !! k = Some i -> load a i = Some (BlinkStruct x nx) -> location y = location x ->
  holds (<[Z.to_nat i := BlinkStruct y nx]> a) h ids (<[k := y]> l).
Proof.
  intros [Hl Hs Hn Hu] Hk Hx Hy. pose proof (load_inv _ _ _ Hx) as [? _].
  split; [by rewrite length_insert|by eapply seg_update|done|].
  intros j z. destruct (decide (j = i)) as [->|Hne].
  - rewrite load_insert_eq by done. intros [= <-]. cbn [data]. rewrite Hy. exact (Hu _ _ Hx).
  - rewrite load_insert_ne by lia. apply Hu.
Qed.

Lemma sign_clear z : Z.testbit (Z.land z 1) 7 = false.
Proof. by rewrite Z.land_spec, andb_false_r. Qed.

Lemma sync_ok s l arg :
  blinking s l ->
  exists r s' l' ps, answer (RTC_SYNC arg) l = (r, None, l', ps) /\ mp1_ioctl_sync arg s = Ret r s' /\
    blinking s' l' /\ draws ps (pokes s) (pokes s').
Proof.
  intros [ids Hh]. cbn [answer]. unfold mp1_ioctl_sync.
  destruct (find_helper_eq s ids l (Z.shiftr (u32 arg) 16) Hh) as [[E Hf]|(k & x & i & nx & E & Hx & Hi & Hn & Hf)];
    rewrite E, (bind_Ret _ _ _ _ _ Hf).
  { do 4 eexists. split_and!; [done..|by exists ids|done]. }
  destruct (find_helper_eq s ids l (Z.land (u32 arg) 0xFFFF) Hh) as [[E' Hf']|(k' & y & j & ny & E' & Hy & Hj & Hn' & Hf')];
    rewrite E', (bind_Ret _ _ _ _ _ Hf').
  { do 4 eexists. split_and!; [done..|by exists ids|done]. }
  pose proof (load_inv _ _ _ Hn') as [Hjr _].
  rewrite (bind_Ret _ _ _ _ _ (node_eq _ _ _ Hn)), (bind_Ret _ _ _ _ _ (node_eq _ _ _ Hn')),
    (bind_Ret _ _ _ _ _ (put_node_eq _ _ _ Hjr)). cbn [data next]. cbv zeta. rewrite sign_clear.
  do 4 eexists. split_and!; [done..| |done]. exists ids. by apply (holds_update _ _ _ _ k' j y ny).
Qed.

Lemma find_ok s l x :
  blinking s l ->
  exists r f, answer (RTC_FIND x) l = (r, data <$> f, l, []) /\ mp1_ioctl_find x s = Ret (r, f) s.
Proof.
  intros [ids Hh]. cbn [answer]. unfold mp1_ioctl_find.
  destruct (find_helper_eq s ids l (location x) Hh) as [[E Hf]|(k & y & i & nx & E & Hx & Hi & Hn & Hf)];
    rewrite E, (bind_Ret _ _ _ _ _ Hf).
  - by exists (-1), None.
  - rewrite (bind_Ret _ _ _ _ _ (node_eq _ _ _ Hn)). by exists 0, (Some (BlinkStruct y nx)).
Qed.

(** *** The clock's ticks *)

Lemma draws_app ps qs h1 h2 h3 : draws ps h1 h2 -> draws qs h2 h3 -> draws (ps ++ qs) h1 h3.
Proof. unfold draws, stores. intros -> ->. by rewrite fmap_app, reverse_app, app_assoc. Qed.

Lemma tick_location x : location (fst (tick x)) = location x.
Proof. unfold tick. by repeat destruct (decide _). Qed.

Lemma blink_node_eq s i x nx :
  0 <= i < len (blink_array s) ->
  exists h, blink_node i (BlinkStruct x nx) s
    = Ret tt (Blinks (<[Z.to_nat i := BlinkStruct (fst (tick x)) nx]> (blink_array s)) (mp1_list_head s) h) /\
    draws (snd (tick x)) (pokes s) h.
Proof.
  intros Hi. unfold blink_node, tick. cbn [data next]. cbv zeta. destruct (decide _) as [Hc|Hc].
  - rewrite bool_decide_true by lia. rewrite put_node_eq by done. by exists (pokes s).
  - rewrite bool_decide_false by lia. destruct (decide _) as [E|E].
    + rewrite bool_decide_true by done. cbn [negb]. eexists.
      split; [exact (put_node_eq (Blinks (blink_array s) (mp1_list_head s) _) i _ Hi)|done].
    + rewrite bool_decide_false by done. cbn [negb]. eexists.
      split; [exact (put_node_eq (Blinks (blink_array s) (mp1_list_head s) _) i _ Hi)|done].
Qed.

Lemma tasklet_loop_eq fuel s done_ids ids done_l l h :
  holds (blink_array s) (mp1_list_head s) (done_ids ++ ids) (done_l ++ l) ->
  length done_ids = length done_l -> seg (blink_array s) h None ids l -> (length ids <= fuel)%nat ->
  exists s', tasklet_loop fuel h s = Ret tt s' /\
    holds (blink_array s') (mp1_list_head s') (done_ids ++ ids) (done_l ++ fst (tick_list l)) /\
    draws (snd (tick_list l)) (pokes s) (pokes s').
Proof.
  revert s done_ids ids done_l l h. induction fuel as [|fuel IH]; intros s di [|i ids] dl [|x l] h Hh Hd Hs Hf;
    cbn [seg] in Hs; cbn [length] in Hf; try done; try lia.
  - subst h. by exists s.
  - subst h. by exists s.
  - destruct Hs as (-> & nx & Hx & Hs). pose proof (load_inv _ _ _ Hx) as [Hi _]. cbn [tasklet_loop].
    rewrite (bind_Ret _ _ _ _ _ (node_eq _ _ _ Hx)).
    destruct (blink_node_eq s i x nx Hi) as (p & Hb & Hp). rewrite (bind_Ret _ _ _ _ _ Hb). cbn [next].
    apply (holds_update _ _ _ _ (length di) i x nx (fst (tick x))) in Hh; [|by rewrite lookup_app_r, Nat.sub_diag by lia|done|apply tick_location].
    rewrite Hd, insert_app_r_alt, Nat.sub_diag in Hh by lia. cbn [insert list_insert] in Hh.
    assert (i ∉ ids) as Hni by (destruct Hh as [_ _ (_ & _ & [? _]%NoDup_cons)%NoDup_app _]; done).
    destruct (IH (Blinks (<[Z.to_nat i := BlinkStruct (fst (tick x)) nx]> (blink_array s)) (mp1_list_head s) p)
      (di ++ [i]) ids (dl ++ [fst (tick x)]) l nx) as (s' & Hr & Hh' & Hp').
    + by rewrite <-!app_assoc.
    + lens.
    + apply seg_frame; done || lia.
    + lia.
    + exists s'. split; [done|]. rewrite <-!app_assoc in Hh'. split; [done|].
      unfold tick_list. cbn [fmap list_fmap concat snd]. by apply (draws_app _ _ _ p).
Qed.

Lemma tasklet_ok s l :
  blinking s l ->
  exists s', mp1_rtc_tasklet s = Ret tt s' /\ blinking s' (fst (tick_list l)) /\
    draws (snd (tick_list l)) (pokes s) (pokes s').
Proof.
  intros [ids Hh]. pose proof (holds_count _ _ _ _ Hh) as Hc. pose proof Hh as [_ Hs _ _].
  destruct (tasklet_loop_eq ADDRESSES s [] ids [] l (mp1_list_head s)) as (s' & Hr & Hh' & Hp);
    [done|done|done|rewrite (seg_length _ _ _ _ _ Hs); unfold ADDRESSES; lia|].
  exists s'. split; [done|]. split; [by exists ids|done].
Qed.

(** ** Sequences of requests and ticks *)

Inductive event :=
| Request (cmd : ioctl)
| Tick.

(** What the program can ask for: a location of 0 is the mark of a free node. *)
Definition valid (e : event) : Prop :=
  match e with Request (RTC_ADD x) => 0 < location x | _ => True end.

Fixpoint serve (es : list event) : M blinks (list (Z * option mp1_blink_struct)) :=
  match es with
  | [] => mret []
  | Request cmd :: es' => r ← mp1_ioctl cmd; rs ← serve es'; mret (r :: rs)
  | Tick :: es' => mp1_rtc_tasklet ;; serve es'
  end.

(** A result without the link of the structure. *)
Definition seen (r : Z * option mp1_blink_struct) : Z * option blink_data := (fst r, data <$> snd r).

(** The same on the list: the results, the list, and what is drawn. *)
Fixpoint respond (es : list event) (l : list blink_data) : list (Z * option blink_data) * list blink_data * list (Z * Z) :=
  match es with
  | [] => ([], l, [])
  | Request cmd :: es' =>
      let '(r, f, l1, ps) := answer cmd l in
      let '(rs, l2, qs) := respond es' l1 in
      ((r, f) :: rs, l2, ps ++ qs)
  | Tick :: es' =>
      let '(l1, ps) := tick_list l in
      let '(rs, l2, qs) := respond es' l1 in
      (rs, l2, ps ++ qs)
  end.

Lemma ioctl_ok s l cmd :
  blinking s l -> valid (Request cmd) ->
  exists r f s' l' ps, answer cmd l = (r, data <$> f, l', ps) /\ mp1_ioctl cmd s = Ret (r, f) s' /\
    blinking s' l' /\ draws ps (pokes s) (pokes s').
Proof.
  intros Hb Hv. destruct cmd as [x|arg|x|arg]; cbn [mp1_ioctl].
  - destruct (add_ok s l x Hb Hv) as (r & s' & l' & ps & Ha & Hr & ?). rewrite (bind_Ret _ _ _ _ _ Hr).
    by exists r, None, s', l', ps.
  - destruct (remove_ok s l arg Hb) as (r & s' & l' & ps & Ha & Hr & ?). rewrite (bind_Ret _ _ _ _ _ Hr).
    by exists r, None, s', l', ps.
  - destruct (find_ok s l x Hb) as (r & f & Ha & Hr). by exists r, f, s, l, [].
  - destruct (sync_ok s l arg Hb) as (r & s' & l' & ps & Ha & Hr & ?). rewrite (bind_Ret _ _ _ _ _ Hr).
    by exists r, None, s', l', ps.
Qed.

Lemma serve_ok es s l :
  blinking s l -> Forall valid es ->
  let '(rs, l', ps) := respond es l in
  exists rs' s', serve es s = Ret rs' s' /\ rs = seen <$> rs' /\
    blinking s' l' /\ draws ps (pokes s) (pokes s').
Proof.
  intros Hb Hv. revert s l Hb. induction Hv as [|e es Hv Hvs IH]; intros s l Hb.
  - by exists [], s.
  - cbn [respond serve]. destruct e as [cmd|].
    + destruct (ioctl_ok s l cmd Hb Hv) as (r & f & s1 & l1 & ps & Ha & Hr & Hb1 & Hd). rewrite Ha, (bind_Ret _ _ _ _ _ Hr).
      specialize (IH s1 l1 Hb1). destruct (respond es l1) as [[rs l2] qs].
      destruct IH as (rs' & s2 & Hr2 & -> & Hb2 & Hd2). rewrite (bind_Ret _ _ _ _ _ Hr2).
      exists ((r, f) :: rs'), s2. split; [done|]. split; [done|]. split; [done|]. by eapply draws_app.
    + destruct (tasklet_ok s l Hb) as (s1 & Hr & Hb1 & Hd). rewrite (bind_Ret _ _ _ _ _ Hr).
      destruct (tick_list l) as [l1 ps]. specialize (IH s1 l1 Hb1). destruct (respond es l1) as [[rs l2] qs].
      destruct IH as (rs' & s2 & Hr2 & -> & Hb2 & Hd2). exists rs', s2. split; [done|]. split; [done|].
      split; [done|]. by eapply draws_app.
Qed.

(** The state that fish starts with. *)
Definition cleared (s : blinks) : Prop := blink_array s = replicate 2000 zero_struct /\ mp1_list_head s = None.

Lemma cleared_blinking s : cleared s -> blinking s [].
Proof.
  intros [Ha Hh]. exists []. rewrite Ha, Hh. split; [apply length_replicate|done|constructor|].
  intros i x Hx. apply load_inv in Hx as [_ [-> _]%lookup_replicate]. cbn. split; [by intros ?%not_elem_of_nil|done].
Qed.

(** ** A location of 0 *)

Lemma malloc_again n k s i z :
  malloc_from n k s = Ret (Some i) s -> 0 <= k -> location (data z) = 0 ->
  k <= i /\ malloc_from n k (set_array (<[Z.to_nat i := z]> (blink_array s)) s)
          = Ret (Some i) (set_array (<[Z.to_nat i := z]> (blink_array s)) s).
Proof.
  revert k. induction n as [|n IH]; intros k Hm Hk Hz; [done|]. cbn [malloc_from] in Hm |- *.
  apply bind_inv in Hm as (x & s1 & Hx & Hm). unfold get_node in Hx. cbn in Hx.
  unfold mbind, M_bind, get, lift in Hx. destruct (load (blink_array s) k) as [y|] eqn:Hy; [|done].
  injection Hx as -> <-. pose proof (load_inv _ _ _ Hy) as [Hr _].
  case_bool_decide as E.
  - injection Hm as ->. split; [done|]. erewrite bind_Ret by (apply node_eq; cbn; by apply load_insert_eq).
    by rewrite bool_decide_true.
  - destruct (IH (k + 1) Hm ltac:(lia) Hz) as [Hle Hm']. split; [lia|].
    erewrite bind_Ret by (apply node_eq; cbn; rewrite load_insert_ne by lia; exact Hy).
    by rewrite bool_decide_false.
Qed.

Lemma malloc_any_head n k s i r h p :
  malloc_from n k s = Ret i r -> malloc_from n k (Blinks (blink_array s) h p) = Ret i (Blinks (blink_array s) h p).
Proof.
  revert k. induction n as [|n IH]; intros k Hm; cbn [malloc_from] in Hm |- *; [by injection Hm as <- _|].
  unfold get_node, mbind, M_bind, get, lift in *. cbn [blink_array]. destruct (load (blink_array s) k) as [x|]; [|done].
  case_bool_decide; [by injection Hm as <- _|]. by apply IH.
Qed.

(** A node that links to itself. *)
Definition circular (s : blinks) (i : Z) : Prop :=
  exists x, load (blink_array s) i = Some (BlinkStruct x (Some i)).

Lemma circular_endless fuel s i : circular s i -> exists s', tasklet_loop fuel (Some i) s = Hang s'.
Proof.
  revert s. induction fuel as [|fuel IH]; intros s [x Hx]; cbn [tasklet_loop]; [by exists s|].
  pose proof (load_inv _ _ _ Hx) as [Hi _]. rewrite (bind_Ret _ _ _ _ _ (node_eq _ _ _ Hx)).
  destruct (blink_node_eq s i x (Some i) Hi) as (h & Hb & _). rewrite (bind_Ret _ _ _ _ _ Hb). cbn [next].
  apply IH. exists (fst (tick x)). cbn [blink_array]. by apply load_insert_eq.
Qed.

Lemma zero_location_links s l x y :
  blinking s l -> (length l < 2000)%nat -> location x = 0 -> location y < 2000 ->
  exists s1 s2 i, mp1_ioctl_add x s = Ret 0 s1 /\ mp1_ioctl_add y s1 = Ret 0 s2 /\
    mp1_list_head s2 = Some i /\ circular s2 i.
Proof.
  intros [ids Hh] Hc Hx Hy. unfold mp1_ioctl_add. rewrite !bool_decide_false by lia. cbv zeta.
  destruct (malloc_eq s ids l Hh) as [[? _]|(_ & i & Hm & Hi & _)]; [lia|].
  set (bx := Blink (location x) _ _ _ _ _ 1). set (by_ := Blink (location y) _ _ _ _ _ 1).
  destruct (malloc_again ADDRESSES 0 s i (BlinkStruct bx (mp1_list_head s)) Hm ltac:(lia) Hx) as [_ Hm'].
  set (s1 := Blinks (<[Z.to_nat i := BlinkStruct bx (mp1_list_head s)]> (blink_array s)) (Some i) ((location x * 2, on_char x) :: pokes s)).
  assert (mp1_malloc s1 = Ret (Some i) s1) as Hm1 by exact (malloc_any_head _ _ _ _ _ (Some i) _ Hm').
  assert (0 <= i < len (blink_array s1)) as Hi1 by (cbn; by rewrite length_insert).
  exists s1, (Blinks (<[Z.to_nat i := BlinkStruct by_ (Some i)]> (blink_array s1)) (Some i) ((location y * 2, on_char y) :: pokes s1)), i.
  split; [|split; [|split]].
  - rewrite (bind_Ret _ _ _ _ _ Hm), (bind_Ret get _ s s s) by done. by rewrite (bind_Ret _ _ _ _ _ (put_node_eq s i _ Hi)).
  - rewrite (bind_Ret _ _ _ _ _ Hm1), (bind_Ret get _ s1 s1 s1) by done. by rewrite (bind_Ret _ _ _ _ _ (put_node_eq s1 i _ Hi1)).
  - done.
  - exists by_. cbn [blink_array]. by apply load_insert_eq.
Qed.

(** ** What blinks on the screen *)

(** A character [n] ticks after it was added. *)
Definition regular (x : blink_data) : Prop := 0 < on_length x < 32768 /\ 0 < off_length x < 32768.
Definition period (x : blink_data) : Z := on_length x + off_length x.
Definition phase (n : Z) (x : blink_data) : blink_data :=
  let m := n `mod` period x in
  if decide (m < on_length x) then set_run (on_length x - m) 1 x else set_run (period x - m) 0 x.
Definition shown (n : Z) (x : blink_data) : Z :=
  if decide (n `mod` period x < on_length x) then on_char x else off_char x.

(** The cells of [l] show its characters after [n] ticks; the others are those of [text0]. *)
Definition blinks_on (n : Z) (l : list blink_data) (text0 text : list Z) : Prop :=
  length text = length text0 /\
  Forall (fun x => load text (location x) = Some (shown n x)) l /\
  forall j, j ∉ location <$> l -> load text j = load text0 j.

Lemma s16_small x : -32768 <= x < 32768 -> s16 x = x.
Proof. intros. unfold s16. rewrite Z.mod_small; lia. Qed.

Lemma next_mod n p : 0 < p -> (n + 1) `mod` p = if decide (n `mod` p + 1 < p) then n `mod` p + 1 else 0.
Proof.
  intros Hp. pose proof (Z.mod_pos_bound n p Hp). rewrite <-(Z.add_mod_idemp_l n) by lia. destruct (decide _).
  - apply Z.mod_small. lia.
  - replace (n `mod` p + 1) with p by lia. apply Z_mod_same_full.
Qed.

Lemma tick_phase n x :
  regular x ->
  fst (tick (phase n x)) = phase (n + 1) x /\
  (snd (tick (phase n x)) = [] /\ shown (n + 1) x = shown n x \/
   snd (tick (phase n x)) = [(location x, shown (n + 1) x)]).
Proof.
  intros [Hon Hoff]. pose proof (Z.mod_pos_bound n (period x)) as Hm. unfold phase, shown.
  rewrite (next_mod n (period x)) by (unfold period; lia). unfold period in *.
  set (m := n `mod` (on_length x + off_length x)) in *. specialize (Hm ltac:(lia)).
  destruct (decide (m < on_length x)) as [E|E]; unfold tick; cbn [set_run countdown status location on_char off_char on_length off_length].
  - rewrite u16_small, s16_small by lia. destruct (decide (0 < _)).
    + rewrite (decide_True (P:=m + 1 < on_length x + off_length x)) by lia. rewrite !decide_True by lia. cbn [fst snd].
      split; [|left; done]. unfold set_run. cbn. f_equal. lia.
    + rewrite decide_False by done. rewrite (decide_True (P:=m + 1 < on_length x + off_length x)) by lia.
      rewrite !decide_False by lia. cbn [fst snd]. split; [|right; done]. unfold set_run. cbn. f_equal. lia.
  - rewrite u16_small by lia. destruct (decide (m + 1 < on_length x + off_length x)).
    + rewrite s16_small by lia. rewrite (decide_True (P:=0 < _)) by lia. rewrite !decide_False by lia. cbn [fst snd].
      split; [|left; done]. unfold set_run. cbn. f_equal. lia.
    + rewrite s16_small by lia. rewrite (decide_False (P:=0 < on_length x + off_length x - m - 1)) by lia.
      rewrite decide_True by done. rewrite !decide_True by lia. cbn [fst snd]. split; [|right; done].
      unfold set_run. cbn. f_equal. lia.
Qed.

Lemma phase_location n x : location (phase n x) = location x.
Proof. unfold phase. by destruct (decide _). Qed.

(** What a tick draws is at the locations of the list. *)
Lemma tick_list_locations l :
  Forall (fun x => 0 <= location x) l ->
  Forall (fun p => 0 <= fst p /\ fst p ∈ location <$> l) (snd (tick_list l)).
Proof.
  unfold tick_list. cbn [snd]. induction 1 as [|x l Hx _ IH]; [constructor|]. cbn [fmap list_fmap concat].
  apply Forall_app. split; [|eapply Forall_impl; [exact IH|]; intros p [? ?]; split; [done|by right]].
  cbn. unfold tick. repeat destruct (decide _); repeat constructor; cbn; done.
Qed.

Lemma phase_locations n (l : list blink_data) : location <$> (phase n <$> l) = location <$> l.
Proof. rewrite <-list_fmap_compose. apply list_fmap_ext. intros ? x _. apply phase_location. Qed.

Lemma draw_tick n l t :
  Forall regular l -> NoDup (location <$> l) -> Forall (fun x => load t (location x) = Some (shown n x)) l ->
  Forall (fun x => load (put_chars (snd (tick_list (phase n <$> l))) t) (location x) = Some (shown (n + 1) x)) l.
Proof.
  intros Hs. revert t. induction Hs as [|x l Hx Hs IH]; intros t Hn Ht; [done|].
  apply NoDup_cons in Hn as [Hni Hn]. apply Forall_cons in Ht as [Htx Ht].
  assert (Forall (fun y => 0 <= location y) l) as Hpos.
  { eapply Forall_impl; [exact Ht|]. intros y [? _]%load_inv. lia. }
  destruct (tick_phase n x Hx) as [_ Hd]. unfold tick_list. cbn [fmap list_fmap concat snd]. rewrite put_chars_app.
  change ((snd ∘ tick) (phase n x)) with (snd (tick (phase n x))).
  change (concat (snd ∘ tick <$> (phase n <$> l))) with (snd (tick_list (phase n <$> l))).
  pose proof (load_inv _ _ _ Htx) as [Hr _].
  apply Forall_cons. split.
  - rewrite put_chars_other.
    + destruct Hd as [[-> ->]| ->]; [done|]. by apply load_insert_eq.
    + eapply Forall_impl; [apply tick_list_locations|].
      * apply Forall_fmap. eapply Forall_impl; [exact Hpos|]. intros y. cbn. by rewrite phase_location.
      * rewrite phase_locations. intros p [Hp Hin]. split; [done|]. intros E. apply Hni. by rewrite <-E.
  - apply IH; [done|]. destruct Hd as [[-> _]| ->]; [done|]. cbn [put_chars foldl fst snd].
    apply Forall_forall. intros y Hy. rewrite Forall_forall in Ht. rewrite load_insert_ne; [by apply Ht|lia|].
    intros E. apply Hni. rewrite E. by apply list_elem_of_fmap_2.
Qed.

Lemma tick_list_phase n l :
  Forall regular l -> fst (tick_list (phase n <$> l)) = phase (n + 1) <$> l.
Proof.
  intros H. unfold tick_list. cbn [fst]. induction H as [|x l Hx _ IH]; [done|]. cbn [fmap list_fmap].
  f_equal; [apply (tick_phase n x Hx)|exact IH].
Qed.

(** A tick of the list. *)
Lemma blinks_on_tick n l t0 t :
  Forall regular l -> NoDup (location <$> l) -> blinks_on n l t0 t ->
  blinks_on (n + 1) l t0 (put_chars (snd (tick_list (phase n <$> l))) t).
Proof.
  intros Hs Hn (Hl & Hsh & Ho). split; [by rewrite put_chars_length|]. split; [by apply draw_tick|].
  intros j Hj. rewrite <-Ho by done. apply put_chars_other. eapply Forall_impl; [apply tick_list_locations|].
  - apply Forall_fmap. eapply Forall_impl; [exact Hsh|]. intros y. cbn. rewrite phase_location. intros [? _]%load_inv. lia.
  - rewrite phase_locations. intros p [Hp Hin]. split; [done|]. intros E. apply Hj. by rewrite <-E.
Qed.

(** [k] ticks of the list, and what they draw. *)
Fixpoint tick_times (k : nat) (l : list blink_data) : list blink_data * list (Z * Z) :=
  match k with
  | O => (l, [])
  | S k' => let '(l1, ps) := tick_list l in let '(l2, qs) := tick_times k' l1 in (l2, ps ++ qs)
  end.

Lemma tick_times_phase k n l t0 t :
  Forall regular l -> NoDup (location <$> l) -> blinks_on n l t0 t ->
  fst (tick_times k (phase n <$> l)) = phase (n + Z.of_nat k) <$> l /\
  blinks_on (n + Z.of_nat k) l t0 (put_chars (snd (tick_times k (phase n <$> l))) t).
Proof.
  intros Hs Hn. revert n t. induction k as [|k IH]; intros n t Hsh; cbn [tick_times].
  { cbn [fst snd]. replace (n + Z.of_nat 0) with n by lia. done. }
  pose proof (tick_list_phase n l Hs) as E. pose proof (blinks_on_tick n l t0 t Hs Hn Hsh) as Hsh1.
  destruct (tick_list (phase n <$> l)) as [l1 ps]. cbn [fst snd] in E, Hsh1. subst l1.
  destruct (IH (n + 1) _ Hsh1) as [E2 Hsh2]. destruct (tick_times k _) as [l2 qs]. cbn [fst snd] in *.
  replace (n + Z.of_nat (S k)) with (n + 1 + Z.of_nat k) by lia. split; [done|]. by rewrite put_chars_app.
Qed.

Lemma tasklets_ok k s l :
  blinking s l ->
  exists s', for_ k 0 (fun _ => mp1_rtc_tasklet) s = Ret tt s' /\ blinking s' (fst (tick_times k l)) /\
    draws (snd (tick_times k l)) (pokes s) (pokes s').
Proof.
  generalize 0. revert s l. induction k as [|k IH]; intros s l i Hb; [by exists s|].
  destruct (tasklet_ok s l Hb) as (s1 & Hr & Hb1 & Hd).
  change (for_ (S k) i (fun _ => mp1_rtc_tasklet)) with (mp1_rtc_tasklet ;; for_ k (i + 1) (fun _ => mp1_rtc_tasklet)).
  rewrite (bind_Ret _ _ _ _ _ Hr). cbn [tick_times].
  destruct (tick_list l) as [l1 ps]. destruct (IH s1 l1 (i + 1) Hb1) as (s2 & Hr2 & Hb2 & Hd2).
  destruct (tick_times k l1) as [l2 qs]. exists s2. split; [done|]. split; [done|]. by eapply draws_app.
Qed.

(** ** Properties *)

(** C15: the linked list is a list. For any sequence of requests to add, remove, find and
    synchronise characters and of ticks of the clock, in any order: the nodes and links
    in the array keep representing the list of characters that the requests make; the
    results - with a full array, an absent or an invalid location the refusals - and the
    stores to the text page are those of the list; no request or tick runs forever. Added
    characters must not be at location 0. *)
Theorem blink_list_refines es s l :
  blinking s l -> Forall valid es ->
  let '(rs, l', ps) := respond es l in
  exists rs' s', serve es s = Ret rs' s' /\ rs = seen <$> rs' /\
    blinking s' l' /\ draws ps (pokes s) (pokes s').
Proof. apply serve_ok. Qed.

(** Two characters, ticks, and requests for one that is there and one that is not. *)
Definition demo_char (loc : Z) : blink_data := Blink loc 73 77 2 1 0 0.
Definition demo_blinks : blinks := Blinks (replicate 2000 zero_struct) None [].

Lemma blink_list_refines_witness :
  exists rs' s',
    serve [Request (RTC_ADD (demo_char 540)); Request (RTC_ADD (demo_char 40)); Tick; Tick;
           Request (RTC_SYNC (40 * 65536 + 540)); Request (RTC_REMOVE 40); Request (RTC_FIND (demo_char 40))] demo_blinks
    = Ret rs' s' /\ [(0, None); (0, None); (0, None); (0, None); (-1, None)] = seen <$> rs' /\
    blinking s' [Blink 540 73 77 2 1 1 0] /\
    draws [(540, 73); (40, 73); (40, 77); (540, 77); (540, 77)] [] (pokes s').
Proof.
  apply (blink_list_refines [Request (RTC_ADD (demo_char 540)); Request (RTC_ADD (demo_char 40)); Tick; Tick;
    Request (RTC_SYNC (40 * 65536 + 540)); Request (RTC_REMOVE 40); Request (RTC_FIND (demo_char 40))] demo_blinks []).
  - apply cleared_blinking. by split.
  - repeat constructor; done.
Defined.

(** C31: a character at location 0 breaks the list. The allocator takes a node with location
    0 for free; so if a character is added at location 0 - the first cell of the screen,
    which the code allows - and then another one anywhere, both with result 0, the second
    gets the first one's node, which then links to itself: the others are lost, and the
    next tick of the clock never returns. *)
Theorem zero_location_endless s l x y :
  blinking s l -> (length l < 2000)%nat -> location x = 0 -> location y < 2000 ->
  exists s1 s2 s3, mp1_ioctl (RTC_ADD x) s = Ret (0, None) s1 /\ mp1_ioctl (RTC_ADD y) s1 = Ret (0, None) s2 /\
    (forall fuel, exists s', tasklet_loop fuel (mp1_list_head s2) s2 = Hang s') /\ mp1_rtc_tasklet s2 = Hang s3.
Proof.
  intros Hb Hl Hx Hy. destruct (zero_location_links s l x y Hb Hl Hx Hy) as (s1 & s2 & i & H1 & H2 & Hh & Hc).
  destruct (circular_endless ADDRESSES s2 i Hc) as [s3 H3]. exists s1, s2, s3. cbn [mp1_ioctl].
  split; [by rewrite (bind_Ret _ _ _ _ _ H1)|]. split; [by rewrite (bind_Ret _ _ _ _ _ H2)|]. rewrite Hh.
  split; [intros fuel; by apply circular_endless|]. unfold mp1_rtc_tasklet. by rewrite (bind_Ret get _ s2 s2 s2), Hh.
Qed.

Lemma zero_location_endless_witness :
  exists s1 s2 s3, mp1_ioctl (RTC_ADD (demo_char 0)) demo_blinks = Ret (0, None) s1 /\
    mp1_ioctl (RTC_ADD (demo_char 5)) s1 = Ret (0, None) s2 /\
    (forall fuel, exists s', tasklet_loop fuel (mp1_list_head s2) s2 = Hang s') /\ mp1_rtc_tasklet s2 = Hang s3.
Proof.
  apply (zero_location_endless demo_blinks [] (demo_char 0) (demo_char 5)); [|simpl; lia|done|done].
  apply cleared_blinking. by split.
Defined.

(** What blinks. Characters at different locations that show what they show [n] ticks
    after they were added: after [k] more ticks each shows its first character for
    on_length ticks, its second one for off_length ticks, and so on, and no other cell of
    the screen has changed. *)
Theorem blink_phases k n s l text0 text :
  blinking s (phase n <$> l) -> Forall regular l -> NoDup (location <$> l) -> blinks_on n l text0 text ->
  exists s' ps, for_ k 0 (fun _ => mp1_rtc_tasklet) s = Ret tt s' /\
    blinking s' (phase (n + Z.of_nat k) <$> l) /\ draws ps (pokes s) (pokes s') /\
    blinks_on (n + Z.of_nat k) l text0 (put_chars ps text).
Proof.
  intros Hb Hs Hn Hsh. destruct (tasklets_ok k s _ Hb) as (s' & Hr & Hb' & Hd).
  destruct (tick_times_phase k n l text0 text Hs Hn Hsh) as [E Hsh']. rewrite E in Hb'.
  exists s', (snd (tick_times k (phase n <$> l))). done.
Qed.

Lemma blink_phases_witness :
  exists s s' ps, mp1_ioctl_add (demo_char 3) demo_blinks = Ret 0 s /\
    for_ 100 0 (fun _ => mp1_rtc_tasklet) s = Ret tt s' /\
    blinking s' (phase 100 <$> [demo_char 3]) /\ draws ps (pokes s) (pokes s') /\
    blinks_on 100 [demo_char 3] (replicate 5 32) (put_chars ps [32; 32; 32; 73; 32]).
Proof.
  destruct (add_ok demo_blinks [] (demo_char 3)) as (r & s & l' & qs & Ha & Hr & Hb & _);
    [apply cleared_blinking; by split|done|].
  injection Ha as <- <- <-. exists s.
  assert (blinks_on 0 [demo_char 3] (replicate 5 32) [32; 32; 32; 73; 32]) as Hsh.
  { split; [done|]. split; [by repeat constructor|]. intros j Hj.
    destruct (decide (0 <= j < 5)) as [Hr5|]; [|by rewrite !load_oob by (cbn; lia)].
    assert (j <> 3) by (intros ->; apply Hj; by left).
    assert (j = 0 \/ j = 1 \/ j = 2 \/ j = 4) as [-> |[-> |[-> | ->]]] by lia; reflexivity. }
  destruct (blink_phases 100 0 s [demo_char 3] (replicate 5 32) [32; 32; 32; 73; 32]) as (s' & ps & ?);
    [exact Hb|by repeat constructor|apply NoDup_singleton|exact Hsh|]. exists s', ps. by split.
Defined.
