(* ===== verification/BlinkBytes.v ===== *)
(** * The structures of fish as bytes

    [src/fish/fish.c]: ece391_memset and ece391_memcpy. Blink.v copies whole structures;
    here they are 16 bytes of the array blink_array, and the two functions do to these
    bytes what Blink.v does to the structures. *)
From S2P Require Import Prelude Syscall Blink.

(** ** The code *)

(** [for(i=0; i<n; i++)]; [memory] points into the object [mem]. *)
Fixpoint memset_from (n : nat) (i : Z) (mem : list Z) (memory c : Z) : option (list Z) :=
  match n with
  | O => Some mem
  | S n' => mem ← store mem (memory + i) c; memset_from n' (i + 1) mem memory c
  end.
Definition ece391_memset (mem : list Z) (memory c n : Z) : option (list Z) := memset_from (Z.to_nat n) 0 mem memory c.

(** Between two objects. *)
Fixpoint memcpy_from (n : nat) (i : Z) (d : list Z) (dest : Z) (s : list Z) (src : Z) : option (list Z) :=
  match n with
  | O => Some d
  | S n' => c ← load s (src + i); d ← store d (dest + i) c; memcpy_from n' (i + 1) d dest s src
  end.
Definition ece391_memcpy (d : list Z) (dest : Z) (s : list Z) (src n : Z) : option (Z * list Z) :=
  d ← memcpy_from (Z.to_nat n) 0 d dest s src; Some (0, d).

(** *** The layout of a structure *)

Definition STRUCT_SIZE : Z := 16.
Definition bytes16 (v : Z) : list Z := [u8 v; u8 (Z.shiftr v 8)].

Section Layout.
Context (blink_array_at : Z).

(** A link: the address of a node. *)
Definition address (p : option Z) : Z := match p with None => 0 | Some i => blink_array_at + STRUCT_SIZE * i end.

Definition struct_bytes (x : mp1_blink_struct) : list Z :=
  bytes16 (location (data x)) ++ [on_char (data x); off_char (data x)] ++ bytes16 (on_length (data x)) ++ bytes16 (off_length (data x)) ++
  bytes16 (countdown (data x)) ++ bytes16 (status (data x)) ++ bytes32 (address (next x)).
Definition array_bytes (a : list mp1_blink_struct) : list Z := concat (struct_bytes <$> a).

(** ** The loops *)

Lemma memset_from_eq pre mid post c i memory :
  len pre = memory + i ->
  memset_from (length mid) i (pre ++ mid ++ post) memory c = Some (pre ++ replicate (length mid) c ++ post).
Proof using.
  revert pre i. induction mid as [|x mid IH]; intros pre i Hp; [done|]. cbn [length memset_from app replicate].
  rewrite store_middle by lia. cbn [mbind option_bind]. specialize (IH (pre ++ [c]) (i + 1)).
  rewrite <-!app_assoc in IH. cbn [app] in IH. apply IH. lens.
Qed.

Lemma memcpy_from_eq dpre mid dpost spre new spost i dest src :
  length new = length mid -> len dpre = dest + i -> len spre = src + i ->
  memcpy_from (length mid) i (dpre ++ mid ++ dpost) dest (spre ++ new ++ spost) src = Some (dpre ++ new ++ dpost).
Proof using.
  revert dpre spre new i. induction mid as [|x mid IH]; intros dpre spre new i Hn Hd Hs; destruct new as [|c new]; try done.
  cbn [length memcpy_from app]. rewrite load_middle by lia. cbn [mbind option_bind]. rewrite store_middle by lia. cbn [mbind option_bind].
  specialize (IH (dpre ++ [c]) (spre ++ [c]) new (i + 1)). rewrite <-!app_assoc in IH. cbn [app] in IH. injection Hn as Hn.
  apply IH; lens.
Qed.

Lemma struct_bytes_length x : length (struct_bytes x) = 16%nat.
Proof using. reflexivity. Qed.

Lemma array_bytes_length a : length (array_bytes a) = (16 * length a)%nat.
Proof using.
  induction a as [|x a IH]; [done|]. unfold array_bytes in *. cbn [fmap list_fmap concat length].
  rewrite length_app. change (list_fmap _ _ struct_bytes a) with (struct_bytes <$> a). rewrite IH, struct_bytes_length. lia.
Qed.

(** The bytes of a node, and what is around them. *)
Lemma array_bytes_node a i x :
  load a i = Some x ->
  exists pre post, len pre = STRUCT_SIZE * i /\ array_bytes a = pre ++ struct_bytes x ++ post /\
    forall y, array_bytes (<[Z.to_nat i := y]> a) = pre ++ struct_bytes y ++ post.
Proof using.
  intros [Hi Hl]%load_inv. exists (array_bytes (take (Z.to_nat i) a)), (array_bytes (drop (S (Z.to_nat i)) a)).
  split; [rewrite array_bytes_length, length_take; unfold STRUCT_SIZE; lia|].
  assert (forall y, array_bytes (<[Z.to_nat i := y]> a)
    = array_bytes (take (Z.to_nat i) a) ++ struct_bytes y ++ array_bytes (drop (S (Z.to_nat i)) a)) as E.
  { intros y. rewrite insert_take_drop by lia. unfold array_bytes. rewrite fmap_app, concat_app. reflexivity. }
  split; [|exact E]. rewrite <-E. by rewrite list_insert_id.
Qed.

Lemma zero_bytes : struct_bytes zero_struct = replicate 16 0.
Proof using. reflexivity. Qed.

(** [mp1_free]'s memset clears the node; main's clears the array. *)
Lemma memset_free s i x :
  load (blink_array s) i = Some x ->
  exists a, ece391_memset (array_bytes (blink_array s)) (STRUCT_SIZE * i) 0 STRUCT_SIZE = Some (array_bytes a) /\
    mp1_free i s = Ret tt (set_array a s).
Proof using.
  intros Hx. destruct (array_bytes_node _ _ _ Hx) as (pre & post & Hp & -> & E).
  exists (<[Z.to_nat i := zero_struct]> (blink_array s)). split.
  - rewrite E, zero_bytes. unfold ece391_memset. rewrite <-(struct_bytes_length x).
    by rewrite <-(memset_from_eq pre (struct_bytes x) post 0 0 (STRUCT_SIZE * i)) by lia.
  - unfold mp1_free. apply put_node_eq. by apply load_inv in Hx as [? _].
Qed.

Lemma memset_all mem :
  len mem = STRUCT_SIZE * 80 * 25 ->
  ece391_memset mem 0 0 (STRUCT_SIZE * 80 * 25) = Some (array_bytes (replicate ADDRESSES zero_struct)).
Proof using.
  intros Hl. unfold ece391_memset. rewrite <-Hl, Nat2Z.id. pose proof (memset_from_eq [] mem [] 0 0 0 eq_refl) as E.
  rewrite app_nil_r in E. cbn [app] in E. rewrite E. f_equal. rewrite app_nil_r.
  assert (forall n, array_bytes (replicate n zero_struct) = replicate (16 * n) 0) as ->.
  { intros n. induction n as [|n IH]; [done|]. unfold array_bytes in *. cbn [replicate fmap list_fmap concat].
    change (list_fmap _ _ struct_bytes ?l) with (struct_bytes <$> l). rewrite IH, zero_bytes, <-replicate_add. f_equal. lia. }
  f_equal. unfold STRUCT_SIZE, ADDRESSES in *. lia.
Qed.

(** RTC_ADD copies its structure to the node, RTC_FIND the node to the caller's. *)
Lemma memcpy_node s i x y tmp :
  load (blink_array s) i = Some x -> length tmp = 16%nat ->
  (exists a, ece391_memcpy (array_bytes (blink_array s)) (STRUCT_SIZE * i) (struct_bytes y) 0 STRUCT_SIZE = Some (0, array_bytes a) /\
     put_node i y s = Ret tt (set_array a s)) /\
  ece391_memcpy tmp 0 (array_bytes (blink_array s)) (STRUCT_SIZE * i) STRUCT_SIZE = Some (0, struct_bytes x) /\
  get_node i s = Ret x s.
Proof using.
  intros Hx Ht. destruct (array_bytes_node _ _ _ Hx) as (pre & post & Hp & Ea & E). unfold ece391_memcpy.
  change (Z.to_nat STRUCT_SIZE) with 16%nat. rewrite Ea. split; [|split].
  - exists (<[Z.to_nat i := y]> (blink_array s)). rewrite E. split.
    + pose proof (memcpy_from_eq pre (struct_bytes x) post [] (struct_bytes y) [] 0 (STRUCT_SIZE * i) 0) as C.
      rewrite app_nil_r in C. cbn [app] in C. rewrite !struct_bytes_length in C. by rewrite C by (done || lia).
    + apply put_node_eq. by apply load_inv in Hx as [? _].
  - pose proof (memcpy_from_eq [] tmp [] pre (struct_bytes x) post 0 0 (STRUCT_SIZE * i)) as C.
    rewrite !app_nil_r in C. cbn [app] in C. rewrite Ht in C. by rewrite C by (done || lia).
  - by apply node_eq.
Qed.

(** The bytes determine the structure. *)
Definition fields_ok (x : mp1_blink_struct) : Prop :=
  Forall (fun v => 0 <= v < 65536) [location (data x); on_length (data x); off_length (data x); countdown (data x); status (data x)] /\
  match next x with None => True | Some i => 0 <= i < 2000 end.

Lemma bytes16_inj v w : 0 <= v < 65536 -> 0 <= w < 65536 -> bytes16 v = bytes16 w -> v = w.
Proof using. unfold bytes16, u8. rewrite !Z.shiftr_div_pow2 by lia. intros ? ? [= H1 H2]. Z.to_euclidean_division_equations. lia. Qed.

Lemma bytes32_inj v w : 0 <= v < 4294967296 -> 0 <= w < 4294967296 -> bytes32 v = bytes32 w -> v = w.
Proof using.
  unfold bytes32, u8. rewrite !Z.shiftr_div_pow2 by lia. intros ? ? [= H1 H2 H3 H4]. Z.to_euclidean_division_equations. lia.
Qed.

Lemma struct_bytes_inj x y :
  0 < blink_array_at -> blink_array_at + STRUCT_SIZE * 2000 <= 4294967296 -> fields_ok x -> fields_ok y ->
  struct_bytes x = struct_bytes y -> x = y.
Proof using.
  intros Hlo Hhi [Hx Hnx] [Hy Hny]. destruct x as [[l1 c1 d1 n1 f1 k1 s1] p1], y as [[l2 c2 d2 n2 f2 k2 s2] p2].
  cbn [data next location on_length off_length countdown status] in *.
  unfold struct_bytes, bytes16, bytes32. cbn [data next location on_char off_char on_length off_length countdown status app].
  intros [= ? ? -> -> ? ? ? ? ? ? ? ? ? ? ? ?].
  rewrite !Forall_cons in Hx, Hy. destruct Hx as (? & ? & ? & ? & ? & _), Hy as (? & ? & ? & ? & ? & _).
  assert (l1 = l2 /\ n1 = n2 /\ f1 = f2 /\ k1 = k2 /\ s1 = s2) as (-> & -> & -> & -> & ->)
    by (repeat split; apply bytes16_inj; try done; unfold bytes16; congruence).
  assert (address p1 = address p2) as E.
  { apply bytes32_inj; [destruct p1|destruct p2|unfold bytes32; congruence]; unfold address, STRUCT_SIZE in *; lia. }
  do 2 f_equal. destruct p1, p2; unfold address, STRUCT_SIZE in *; f_equal; lia.
Qed.
End Layout.
