(* ===== verification/Vidmap.v ===== *)
(** * Programs on the screen

    A program that has called vidmap stores on the text page of its terminal: the service
    of Service.v with vidmap and these stores, and that the kernel and the processor
    implement it. *)
From S2P Require Import Kernel Terminal Syscall Exec Keyboard Dispatch Screen Typing Interrupts FileCalls Calls Service.
From S2P Require Export KernelCalls.

(** ** The service *)

Definition drawn_on (ps : list (Z * Z)) (w : world) : world :=
  World (w_chans w) (w_index w) (w_arg w) (Tty (put_chars ps (tty_text (w_tty w))) (tty_x (w_tty w)) (tty_y (w_tty w)))
    (w_kbd w) (w_keys w) (w_out w).

(** The variable is in the program's page. The service says nothing about stores to the
    attributes. *)
Definition screen_service (vol : volume) : handler world := fun T e =>
  match e with
  | Sys_vidmap_at va =>
      if bool_decide (0x8000000 <= va) && bool_decide (va + 4 <= 0x8400000) then mret (VIDEO_MEM, VIDEO_MEM) else undef
  | Sys_poke va v =>
      let i := va - VIDEO_MEM in
      if bool_decide (0 <= i < 4000) && bool_decide (i `mod` 2 = 0) && bool_decide (byte v)
      then modify (drawn_on [(i `div` 2, v)]) else undef
  | e => service vol _ e
  end.

(** ** The kernel implements it *)

Lemma drawn_on_app ps qs w : drawn_on qs (drawn_on ps w) = drawn_on (ps ++ qs) w.
Proof. unfold drawn_on, put_chars. cbn. by rewrite foldl_app. Qed.
Lemma drawn_on_nil w : drawn_on [] w = w.
Proof. by destruct w as [? ? ? [] ? ? ?]. Qed.

(** The processor's store in the text page of the process. *)
Section Store.
Context `{HL : !Layout} `{HO : !Overread} `{HD : !Device} (img : list Z) (n N D pid term frame : Z) (mach : machine).

Lemma page_number f k : frame_number f = Some k -> 0 <= f < 0x700000 /\ f `mod` 4096 = 0.
Proof.
  unfold frame_number, VIDEO_MEM, term0_buffer, term1_buffer, term2_buffer.
  repeat case_bool_decide; try discriminate; intros _; subst; split; (lia || reflexivity).
Qed.

Lemma screen_frame_number s page f :
  process s pid -> maps (k_paging s) pid f -> console s frame page -> frame_number f = Some frame.
Proof.
  intros [Hcr Hpid _] Hm [Hv _ _ _]. unfold video_frame in Hv.
  rewrite (translate_task _ pid f) in Hv by (done || unfold VIDEO_MEM; lia).
  unfold task_space, VIDEO_MEM in Hv. rewrite bool_decide_false, bool_decide_true in Hv by lia.
  cbn [mbind option_bind] in Hv. by replace (f + (0xB8000 - 0xB8000)) with f in Hv by lia.
Qed.

Lemma user_store_eq s page f i v :
  process s pid -> maps (k_paging s) pid f -> console s frame page -> 0 <= i < 4096 ->
  user_store (VIDEO_MEM + i) v s
  = Ret tt (set_display (k_cursor s) (<[Z.to_nat frame := <[Z.to_nat i := u8 v]> page]> (k_frames s)) (k_io s) s).
Proof.
  intros Hp Hm Hc Hi. pose proof (screen_frame_number s page f Hp Hm Hc) as Hf.
  destruct (page_number _ _ Hf) as [Hfr Hmod]. destruct Hp as [Hcr Hpid _]. destruct Hc as [_ Hpage Hl _].
  pose proof (load_inv _ _ _ Hpage) as [Hfn _].
  unfold user_store. rewrite (bind_Ret get _ s s s) by done.
  rewrite (translate_task _ pid f) by (done || unfold VIDEO_MEM; lia).
  unfold task_space, VIDEO_MEM. rewrite bool_decide_false, bool_decide_true by lia.
  replace (f + (0xB8000 + i - 0xB8000)) with (f + i) by lia.
  erewrite bind_Ret by reflexivity.
  assert ((f + i) `mod` 4096 = i) as Ei by (Z.to_euclidean_division_equations; lia).
  assert (program_at (f + i) = None) as ->.
  { unfold program_at. rewrite bool_decide_false; [done|]. Z.to_euclidean_division_equations; lia. }
  rewrite Ei. replace (f + i - i) with f by lia. rewrite Hf.
  erewrite bind_Ret by reflexivity.
  unfold put_frame. rewrite (bind_Ret get _ s s s) by done. rewrite Hpage. erewrite bind_Ret by reflexivity.
  rewrite store_in by lia. erewrite bind_Ret by reflexivity. rewrite store_in by lia. by erewrite bind_Ret by reflexivity.
Qed.

Lemma represents_drawn s w page c v :
  represents img n N pid term frame s w -> console s frame page -> byte v -> 0 <= c < 2000 ->
  represents img n N pid term frame
    (set_display (k_cursor s) (<[Z.to_nat frame := <[Z.to_nat (2 * c) := v]> page]> (k_frames s)) (k_io s) s)
    (drawn_on [(c, v)] w).
Proof.
  intros Hr Hcon Hv Hc.
  destruct Hr as [[? ? [? ?]] [? ? ? ?] ? ? ? Harg Hout ? Hch (page0 & Hcon0 & Hok & Htty) Hkbd Hvis Hline].
  assert (page0 = page) as -> by (destruct Hcon, Hcon0; congruence). clear Hcon0.
  destruct Hcon as [Hframe Hpage Hl Hb]. pose proof (load_inv _ _ _ Hpage) as [Hfr _].
  split; try done.
  - intros i ch Hi (g & Hg & Hcg)%Hch; [|done]. exists g. split; [done|]. by apply (chan_of_frame img N pid s).
  - exists (<[Z.to_nat (2 * c) := v]> page). split; [|split; [exact Hok|]].
    + split; [exact Hframe|exact (load_insert_eq (k_frames s) frame _ Hfr)|by rewrite length_insert|by apply Forall_insert].
    + unfold tty_of, drawn_on. cbn [w_tty]. rewrite <-Htty. cbn [set_display k_cursor tty_of tty_text tty_x tty_y put_chars foldl fst snd].
      by rewrite text_store.
Qed.
End Store.

Section Serves.
Context `{HL : !Layout} `{HO : !Overread} `{HD : !Device} (img : list Z) (n N D pid term frame : Z) (mach : machine).

(** A host on whose text page the program can store. *)
Definition screen_hosts (h : host) (w : world) : Prop :=
  hosts img n N pid term frame h w /\ exists f, maps (k_paging (h_kernel h)) pid f.

Lemma vidmap_at_eq s w va f :
  represents img n N pid term frame s w -> maps (k_paging s) pid f -> 0x8000000 <= va -> va + 4 <= 0x8400000 ->
  exists s', kernel_call mach [] _ (Sys_vidmap_at va) s = Ret (VIDEO_MEM, VIDEO_MEM) s' /\
    represents img n N pid term frame s' w /\ k_paging s' = k_paging s.
Proof.
  intros Hr Hm Hlo Hhi. pose proof (rp_process _ _ _ _ _ _ _ _ Hr) as [Hcr Hpid _]. cbn [kernel_call]. unfold vidmap.
  rewrite !bool_decide_false by lia. cbn [orb]. rewrite bind_bind.
  rewrite (bind_Ret _ _ _ _ _ (put_program_eq s va (bytes32 VIDEO_MEM) pid (va - 0x8000000)
    (user_at pid f s true va Hm Hcr Hpid ltac:(lia)) ltac:(cbn; lia))).
  set (s' := set_programs _ s). erewrite bind_Ret by reflexivity.
  assert (translate (k_paging s') false false va ≫= program_at = Some (pid, va - 0x8000000)) as Hat
    by (by apply (user_at pid f); try lia).
  rewrite (bind_Ret _ _ _ _ _ (get_program_eq s' va 4 pid (va - 0x8000000) Hat ltac:(lia))).
  assert ((fun i => k_programs s' pid (va - 0x8000000 + i)) <$> seqZ 0 4 = bytes32 VIDEO_MEM) as ->.
  { change (seqZ 0 4) with [0; 1; 2; 3]. cbn [fmap list_fmap]. subst s'. cbn [set_programs k_programs]. unfold programs_with.
    rewrite !bool_decide_true by (cbn; lia). rewrite !Z.add_simpl_l. reflexivity. }
  exists s'. split; [reflexivity|]. split; [|done].
  by apply (represents_same img n N pid term frame s s' w).
Qed.

(** The calls of the file service leave the page tables alone. *)
Lemma service_serves T (e : sys T) :
  served img n N D -> quiet ->
  simulates screen_hosts (kernel_calls mach T e) (service (volume_of img n) T e).
Proof.
  intros Hd Hq h w x w' [Hh [f Hm]] Hw.
  destruct (host_serves mach img n N D pid term frame T e h w x w' Hd Hq Hh Hw) as (h' & Hr & Hh' & Hst).
  exists h'. split; [done|]. split; [done|]. exists f. by rewrite (sy_paging _ _ _ Hst).
Qed.

Lemma screen_serves T (e : sys T) :
  served img n N D -> quiet ->
  simulates screen_hosts (kernel_calls mach T e) (screen_service (volume_of img n) T e).
Proof.
  intros Hd Hq h w x w' [Hh [f Hm]] Hw.
  destruct e; try exact (service_serves _ _ Hd Hq h w x w' (conj Hh (ex_intro _ f Hm)) Hw); cbn [screen_service] in Hw;
    destruct Hh as [Hr Hk].
  - destruct (_ && _) eqn:E; [|discriminate Hw]. injection Hw as <- <-.
    apply andb_true_iff in E as [E1%bool_decide_eq_true E2%bool_decide_eq_true].
    destruct (vidmap_at_eq _ _ va f Hr Hm E1 E2) as (s' & Hs & Hr' & Hpg).
    unfold kernel_calls. cbn [interrupts]. rewrite Hs. eexists. split; [reflexivity|].
    split; [by split|]. exists f. cbn [h_kernel]. by rewrite Hpg.
  - cbv zeta in Hw. destruct (_ && _) eqn:E; [|discriminate Hw]. injection Hw as <- <-.
    apply andb_true_iff in E as [[E1%bool_decide_eq_true E2%bool_decide_eq_true]%andb_true_iff E3%bool_decide_eq_true].
    destruct (rp_screen _ _ _ _ _ _ _ _ Hr) as (page & Hcon & _). set (i := va - VIDEO_MEM) in *.
    assert (i = 2 * (i `div` 2)) as Ei by (Z.to_euclidean_division_equations; lia).
    pose proof (user_store_eq pid frame (h_kernel h) page f i v (rp_process _ _ _ _ _ _ _ _ Hr) Hm Hcon ltac:(lia)) as Hst.
    replace (VIDEO_MEM + i) with va in Hst by (subst i; lia).
    unfold kernel_calls. cbn [interrupts kernel_call]. rewrite Hst. eexists. split; [reflexivity|]. split; [split; [|done]|by exists f].
    cbn [h_kernel]. rewrite u8_small by done. rewrite Ei at 1.
    apply represents_drawn; [done|done|done|]. Z.to_euclidean_division_equations; lia.
Qed.

(** A program runs on the kernel as it does over the service. *)
Lemma screen_runs h w {A} (t : prog A) Q :
  served img n N D -> quiet -> screen_hosts h w -> runs (screen_service (volume_of img n)) Q t w ->
  runs (kernel_calls mach) (fun a h' => exists w', screen_hosts h' w' /\ Q a w') t h.
Proof. intros Hd Hq. apply runs_simulation. intros T e. by apply screen_serves. Qed.
End Serves.
