(* ===== verification/Fish.v ===== *)
(** * fish

    [src/fish/fish.c]: two pictures from files and a sign, which blink on the screen. The
    program, with the linked list of Blink.v; and what it does over the service of
    Vidmap.v, on the kernel as well. *)
From S2P Require Import Prelude Clib Screen Kernel Terminal Service.
From S2P Require Export Calls Blink Vidmap.

(** ** The program *)

Definition WAIT : Z := 200.
Definition file0 : list Z := cstring "frame0.txt".
Definition file1 : list Z := cstring "frame1.txt".

(** The stores of a function of blink.S to the screen; [vmem_base_addr] is the program's
    variable. *)
Fixpoint poke_all (vmem_base_addr : Z) (ps : list (Z * Z)) : prog unit :=
  match ps with
  | [] => mret tt
  | (eax, cl) :: ps' => _ ← call (Sys_poke (vmem_base_addr + eax) cl); poke_all vmem_base_addr ps'
  end.
(** A call of such a function; a loop that does not end makes no further call. *)
Definition on_blinks {A} (vmem_base_addr : Z) (m : M blinks A) (s : blinks) : prog (A * blinks) :=
  match m (Blinks (blink_array s) (mp1_list_head s) []) with
  | Ret a s' => _ ← poke_all vmem_base_addr (reverse (pokes s')); mret (a, s')
  | Hang s' => _ ← poke_all vmem_base_addr (reverse (pokes s')); loop (fun _ : unit => mret (inl tt)) tt
  | Undef => inside None
  end.

(** One character of a file: [c] is c0 or c1, [eof] is eof0 or eof1. *)
Definition next_char (fd c eof : Z) : prog (Z * Z) :=
  if bool_decide (c <> 10) then
    '(num_bytes, b) ← ece391_read fd [c] 1;
    c ← inside (load b 0);
    mret (if bool_decide (num_bytes = 0) then (10, 1) else (c, eof))
  else mret (c, eof).

(** [while(1)] over the columns of a row. [st]: the fields of the local structure that
    nothing sets. *)
Definition column_round (base fd0 fd1 row : Z) (st : blink_data) (v : Z * (Z * Z) * (Z * Z) * blinks) :
    prog (Z * (Z * Z) * (Z * Z) * blinks + (Z * Z) * (Z * Z) * blinks) :=
  let '(col, (c0, eof0), (c1, eof1), s) := v in
  '(c0, eof0) ← next_char fd0 c0 eof0;
  '(c1, eof1) ← next_char fd1 c1 eof1;
  if bool_decide (c0 = 10) && bool_decide (c1 = 10) then mret (inr ((c0, eof0), (c1, eof1), s))
  else if (bool_decide (c0 <> 32) && bool_decide (c0 <> 10)) || (bool_decide (c1 <> 32) && bool_decide (c1 <> 10)) then
    '(_, s) ← on_blinks base (mp1_ioctl (RTC_ADD (Blink (u16 (row * 80 + col + 40))
      (if bool_decide (c0 = 10) then 32 else c0) (if bool_decide (c1 = 10) then 32 else c1)
      15 15 (countdown st) (status st)))) s;
    mret (inl (col + 1, (c0, eof0), (c1, eof1), s))
  else mret (inl (col + 1, (c0, eof0), (c1, eof1), s)).

(** The end of a row. *)
Definition end_row (fd eof : Z) : prog Z :=
  if bool_decide (eof <> 0) then _ ← ece391_close fd; mret 10 else mret 48.

Definition row_round (base fd0 fd1 : Z) (st : blink_data) (v : Z * (Z * Z) * (Z * Z) * blinks) :
    prog (Z * (Z * Z) * (Z * Z) * blinks + blinks) :=
  let '(row, (c0, eof0), (c1, eof1), s) := v in
  if bool_decide (eof0 = 0) || bool_decide (eof1 = 0) then
    '((_, eof0), (_, eof1), s) ← loop (column_round base fd0 fd1 row st) (0, (c0, eof0), (c1, eof1), s);
    c0 ← end_row fd0 eof0;
    c1 ← end_row fd1 eof1;
    mret (inl (row + 1, (c0, eof0), (c1, eof1), s))
  else mret (inr s).

(** [None]: it has called halt with -1. *)
Definition add_frames (base : Z) (f0 f1 : list Z) (st : blink_data) (s : blinks) : prog (option blinks) :=
  fd0 ← ece391_open f0;
  if bool_decide (fd0 < 0) then mret None
  else
    fd1 ← ece391_open f1;
    if bool_decide (fd1 < 0) then mret None
    else s ← loop (row_round base fd0 fd1 st) (0, (48, 0), (48, 0), s); mret (Some s).

(** [for(i=0; i<n; i++)]: a tick of the clock. *)
Definition wait (base rtc_fd n : Z) (v : list Z * blinks) : prog (list Z * blinks) :=
  repeat_for (Z.to_nat n) 0 (fun _ '(garbage, s) =>
    '(_, garbage) ← ece391_read rtc_fd garbage 4;
    '(_, s) ← on_blinks base mp1_rtc_tasklet s;
    mret (garbage, s)) v.

(** The pointer is the variable, unless vidmap failed. *)
Definition mp1_set_video_mode (va : Z) : prog Z :=
  '(r, vmem_base_addr) ← ece391_vidmap_at va;
  mret (if bool_decide (r = -1) then 0 else vmem_base_addr).

(** [va]: the address of vmem_base_addr; [garbage], [st], [sign]: the bytes of main's
    local variables and of the structures. The static list is empty. *)
Definition fish_main (va : Z) (garbage : list Z) (st sign : blink_data) : prog Z :=
  let s := Blinks (replicate ADDRESSES zero_struct) None [] in
  base ← mp1_set_video_mode va;
  if bool_decide (base = 0) then mret (-1)
  else
    rtc_fd ← ece391_open (cstring "rtc");
    r ← add_frames base file0 file1 st s;
    match r with
    | None => mret (-1)
    | Some s =>
        _ ← ece391_write rtc_fd [32; 0; 0; 0] 4;
        '(garbage, s) ← wait base rtc_fd WAIT (garbage, s);
        '(_, s) ← on_blinks base (mp1_ioctl (RTC_ADD (Blink (6 * 80 + 60) 73 77 7 6 (countdown sign) (status sign)))) s;
        '(garbage, s) ← wait base rtc_fd WAIT (garbage, s);
        '(_, s) ← on_blinks base (mp1_ioctl (RTC_SYNC (Z.lor (Z.shiftl 40 16) (6 * 80 + 60)))) s;
        '(garbage, s) ← wait base rtc_fd WAIT (garbage, s);
        '(_, s) ← on_blinks base (mp1_ioctl (RTC_REMOVE WAIT)) s;
        '(garbage, s) ← wait base rtc_fd (80 * 25) (garbage, s);
        _ ← ece391_close rtc_fd;
        mret 0
    end.

(** ** What it draws *)

(** The rows of a file; the last one ends with the file. *)
Fixpoint rows (l : list Z) : list (list Z) :=
  match l with
  | [] => [[]]
  | c :: l' => if decide (c = 10) then [] :: rows l' else
      match rows l' with r :: rs => (c :: r) :: rs | [] => [[c]] end
  end.

(** Two lists side by side, the shorter one filled up. *)
Fixpoint pad_zip {A} (d : A) (l k : list A) : list (A * A) :=
  match l with
  | x :: l' => (x, hd d k) :: pad_zip d l' (tl k)
  | [] => (fun y => (d, y)) <$> k
  end.

(** The characters of a row, and of both pictures: a cell that is blank in both is
    left out. *)
Definition cell (st : blink_data) (row col x y : Z) : list event :=
  if decide (x = 32 /\ y = 32) then []
  else [Request (RTC_ADD (Blink (u16 (row * 80 + col + 40)) x y 15 15 (countdown st) (status st)))].
Fixpoint draw_row (st : blink_data) (row col : Z) (l : list (Z * Z)) : list event :=
  match l with
  | [] => []
  | (x, y) :: l' => cell st row col x y ++ draw_row st row (col + 1) l'
  end.
Fixpoint draw_rows (st : blink_data) (row : Z) (l : list (list Z * list Z)) : list event :=
  match l with
  | [] => []
  | (a, b) :: l' => draw_row st row 0 (pad_zip 32 a b) ++ draw_rows st (row + 1) l'
  end.
Definition picture (st : blink_data) (l0 l1 : list Z) : list event := draw_rows st 0 (pad_zip [] (rows l0) (rows l1)).

(** ** Reading the pictures

    A file as the program reads it: the character, whether the file has ended, and the
    rest of the file. *)
Definition reader : Type := Z * Z * list Z.
Definition char_of (f : reader) : Z := fst (fst f).
Definition eof_of (f : reader) : Z := snd (fst f).

Definition next_of (f : reader) : reader :=
  let '(c, eof, rest) := f in
  if decide (c = 10) then f
  else match rest with [] => (10, 1, []) | x :: r => (x, eof, r) end.
Definition restart (f : reader) : reader :=
  let '(c, eof, rest) := f in if decide (eof <> 0) then (10, eof, rest) else (48, eof, rest).

Definition ink (c : Z) : Z := if decide (c = 10) then 32 else c.

(** The columns of a row, from readers to readers. *)
Inductive row_scan (st : blink_data) (row : Z) : Z -> reader -> reader -> list event -> reader -> reader -> Prop :=
| row_end col f0 f1 :
    char_of (next_of f0) = 10 -> char_of (next_of f1) = 10 ->
    row_scan st row col f0 f1 [] (next_of f0) (next_of f1)
| row_column col f0 f1 es g0 g1 :
    ~ (char_of (next_of f0) = 10 /\ char_of (next_of f1) = 10) ->
    row_scan st row (col + 1) (next_of f0) (next_of f1) es g0 g1 ->
    row_scan st row col f0 f1 (cell st row col (ink (char_of (next_of f0))) (ink (char_of (next_of f1))) ++ es) g0 g1.

Inductive rows_scan (st : blink_data) : Z -> reader -> reader -> list event -> Prop :=
| rows_end row f0 f1 : eof_of f0 <> 0 -> eof_of f1 <> 0 -> rows_scan st row f0 f1 []
| rows_row row f0 f1 es g0 g1 es' :
    eof_of f0 = 0 \/ eof_of f1 = 0 -> row_scan st row 0 f0 f1 es g0 g1 ->
    rows_scan st (row + 1) (restart g0) (restart g1) es' -> rows_scan st row f0 f1 (es ++ es').

(** The reader is in a row: [a] is left of it, [rs] are the rows behind it. *)
Definition in_row (f : reader) (a : list Z) (rs : list (list Z)) : Prop :=
  let '(c, eof, rest) := f in
  (c <> 10 /\ eof = 0 /\ rows rest = a :: rs) \/
  (c = 10 /\ a = [] /\ (eof = 1 /\ rs = [] \/ eof = 0 /\ rows rest = rs)).

Lemma rows_cons l : exists a rs, rows l = a :: rs.
Proof.
  destruct l as [|c l]; cbn [rows]; [eauto|]. destruct (decide (c = 10)); [eauto|]. destruct (rows l); eauto.
Qed.

Lemma next_in_row f a rs :
  in_row f a rs ->
  match a with
  | [] => char_of (next_of f) = 10 /\ in_row (next_of f) [] rs
  | x :: a' => char_of (next_of f) = x /\ x <> 10 /\ in_row (next_of f) a' rs
  end.
Proof.
  destruct f as [[c eof] rest]. cbn [next_of in_row]. intros [(Hc & -> & Hr)|(-> & -> & H)].
  - rewrite decide_False by done. destruct rest as [|x rest]; cbn [rows] in Hr.
    + injection Hr as <- <-. split; [done|]. cbn. right. auto.
    + destruct (decide (x = 10)) as [->|Hx].
      * injection Hr as <- <-. split; [done|]. cbn. right. auto.
      * destruct (rows_cons rest) as (a' & rs' & E). rewrite E in Hr. injection Hr as <- <-.
        split; [done|]. split; [done|]. cbn. left. auto.
  - rewrite decide_True by done. split; [done|]. cbn. right. auto.
Qed.

Lemma row_scan_ok st row n col f0 f1 a b rs0 rs1 :
  (length a + length b <= n)%nat -> in_row f0 a rs0 -> in_row f1 b rs1 ->
  exists g0 g1, row_scan st row col f0 f1 (draw_row st row col (pad_zip 32 a b)) g0 g1 /\
    char_of g0 = 10 /\ char_of g1 = 10 /\ in_row g0 [] rs0 /\ in_row g1 [] rs1.
Proof.
  revert col f0 f1 a b. induction n as [|n IH]; intros col f0 f1 a b Hn H0 H1;
    apply next_in_row in H0, H1; destruct a as [|x a], b as [|y b]; cbn [length] in Hn; try lia.
  1,2: destruct H0 as [E0 H0], H1 as [E1 H1]; exists (next_of f0), (next_of f1); split; [by constructor|done].
  - destruct H0 as (E0 & H0), H1 as (E1 & Hy & H1).
    destruct (IH (col + 1) (next_of f0) (next_of f1) [] b) as (g0 & g1 & Hs & ?); [simpl; lia|done|done|].
    exists g0, g1. split; [|done]. cbn [pad_zip fmap list_fmap draw_row].
    replace (cell st row col 32 y) with (cell st row col (ink (char_of (next_of f0))) (ink (char_of (next_of f1))))
      by (rewrite E0, E1; unfold ink; by rewrite decide_True, decide_False by done).
    apply row_column; [lia|exact Hs].
  - destruct H0 as (E0 & Hx & H0), H1 as (E1 & H1).
    destruct (IH (col + 1) (next_of f0) (next_of f1) a []) as (g0 & g1 & Hs & ?); [simpl; lia|done|done|].
    exists g0, g1. split; [|done]. cbn [pad_zip hd tl draw_row].
    replace (cell st row col x 32) with (cell st row col (ink (char_of (next_of f0))) (ink (char_of (next_of f1))))
      by (rewrite E0, E1; unfold ink; by rewrite decide_False, decide_True by done).
    apply row_column; [lia|exact Hs].
  - destruct H0 as (E0 & Hx & H0), H1 as (E1 & Hy & H1).
    destruct (IH (col + 1) (next_of f0) (next_of f1) a b) as (g0 & g1 & Hs & ?); [simpl; lia|done|done|].
    exists g0, g1. split; [|done]. cbn [pad_zip hd tl draw_row].
    replace (cell st row col x y) with (cell st row col (ink (char_of (next_of f0))) (ink (char_of (next_of f1))))
      by (rewrite E0, E1; unfold ink; by rewrite !decide_False by done).
    apply row_column; [lia|exact Hs].
Qed.

(** The rows that are left of a file, at the start of a row. *)
Definition at_row (f : reader) (rs : list (list Z)) : Prop :=
  let '(c, eof, rest) := f in
  (c <> 10 /\ eof = 0 /\ rows rest = rs) \/ (c = 10 /\ eof = 1 /\ rs = []).

Lemma at_row_in f rs : at_row f rs -> in_row f (hd [] rs) (tl rs) /\ (eof_of f = 0 <-> rs <> []).
Proof.
  destruct f as [[c eof] rest]. cbn [at_row in_row eof_of fst snd]. intros [(Hc & -> & <-)|(-> & -> & ->)].
  - destruct (rows_cons rest) as (a & rs & ->). cbn [hd tl]. split; [left; done|done].
  - cbn [hd tl]. split; [right; auto|done].
Qed.
Lemma restart_at f rs : in_row f [] rs -> char_of f = 10 -> at_row (restart f) rs.
Proof.
  destruct f as [[c eof] rest]. cbn [in_row char_of fst snd restart]. intros [(Hc & _)|(-> & _ & [[-> ->]|[-> <-]])] E.
  - done.
  - rewrite decide_True by done. right. done.
  - rewrite decide_False by lia. left. done.
Qed.

Lemma rows_scan_ok st n row f0 f1 rs0 rs1 :
  (length rs0 + length rs1 <= n)%nat -> at_row f0 rs0 -> at_row f1 rs1 ->
  rows_scan st row f0 f1 (draw_rows st row (pad_zip [] rs0 rs1)).
Proof.
  revert row f0 f1 rs0 rs1. induction n as [|n IH]; intros row f0 f1 rs0 rs1 Hn H0 H1;
    apply at_row_in in H0 as [H0 E0], H1 as [H1 E1]; destruct rs0 as [|a rs0], rs1 as [|b rs1]; cbn [length] in Hn; try lia.
  1,2: apply rows_end; [by rewrite E0; intros []|by rewrite E1; intros []].
  all: destruct (row_scan_ok st row _ 0 f0 f1 _ _ _ _ (le_n _) H0 H1) as (g0 & g1 & Hs & C0 & C1 & G0 & G1);
    cbn [hd tl] in *; apply restart_at in G0, G1; try done;
    pose proof (fun Hl => IH (row + 1) (restart g0) (restart g1) _ _ Hl G0 G1) as Hr;
    eapply rows_row; [|exact Hs|apply Hr; simpl; lia]; rewrite E0, E1; auto.
Qed.

Lemma picture_scan st l0 l1 : rows_scan st 0 (48, 0, l0) (48, 0, l1) (picture st l0 l1).
Proof. eapply rows_scan_ok; [done|by left..]. Qed.

(** ** The program over the service *)

(** Characters that can be drawn. *)
Definition drawable (ps : list (Z * Z)) : Prop := Forall (fun p => 0 <= fst p < 2000 /\ byte (snd p)) ps.
Definition on_screen_char (x : blink_data) : Prop := 0 <= location x < 2000 /\ byte (on_char x) /\ byte (off_char x).
Definition valid_char (e : event) : Prop :=
  match e with Request (RTC_ADD x) => 0 < location x /\ byte (on_char x) /\ byte (off_char x) | _ => True end.

Lemma valid_char_valid e : valid_char e -> valid e.
Proof. destruct e as [[]|]; try done. by intros [? _]. Qed.

Lemma tick_drawable x : on_screen_char x -> on_screen_char (fst (tick x)) /\ drawable (snd (tick x)).
Proof. intros (? & ? & ?). unfold tick, drawable. repeat destruct (decide _); cbn [fst snd]; (split; [done|]); repeat apply Forall_cons_2; by try apply Forall_nil_2. Qed.

Lemma tick_list_drawable l :
  Forall on_screen_char l -> Forall on_screen_char (fst (tick_list l)) /\ drawable (snd (tick_list l)).
Proof.
  unfold tick_list, drawable. cbn [fst snd]. induction 1 as [|x l Hx _ [IH1 IH2]]; [by split|].
  destruct (tick_drawable x Hx). cbn [fmap list_fmap concat]. split; [by constructor|by apply Forall_app].
Qed.

Lemma find_at_char loc l k x : Forall on_screen_char l -> find_at loc l = Some (k, x) -> on_screen_char x.
Proof. intros Hl [Hx _]%find_at_Some. by eapply Forall_lookup_1. Qed.

Lemma answer_drawable cmd l r f l' ps :
  Forall on_screen_char l -> valid_char (Request cmd) -> answer cmd l = (r, f, l', ps) ->
  Forall on_screen_char l' /\ drawable ps.
Proof.
  unfold drawable. intros Hl Hv. destruct cmd as [x|arg|x|arg]; cbn [answer].
  - destruct Hv as (? & ? & ?). destruct (decide _) as [[? ?]|]; intros [= <- <- <- <-]; (split; [|try apply Forall_nil_2]); [| |done].
    + apply Forall_cons_2; [|done]. unfold on_screen_char. cbn. split_and!; done || lia.
    + apply Forall_cons_2; [|apply Forall_nil_2]. cbn. split; [lia|done].
  - destruct (find_at _ l) as [[k x]|]; intros [= <- <- <- <-]; (split; [|constructor]); [by apply Forall_delete|done].
  - destruct (find_at _ l) as [[k y]|]; intros [= <- <- <- <-]; (split; [done|constructor]).
  - destruct (find_at _ l) as [[k x]|] eqn:E1; [|intros [= <- <- <- <-]; split; [done|constructor]].
    destruct (find_at (u16 (Z.land _ _)) l) as [[k' y]|] eqn:E2; intros [= <- <- <- <-]; [|split; [done|constructor]].
    pose proof (find_at_char _ _ _ _ Hl E2) as (? & ? & ?). split; [apply Forall_insert; done|]. apply Forall_cons_2; [done|apply Forall_nil_2].
Qed.

Section Program.
Context (vol : volume).
Abbreviation runs' := (runs (screen_service vol)).

(** A call of the file service. *)
Lemma runs_service {T A} (Q : A -> world -> Prop) (e : sys T) (k : T -> prog A) w x w' :
  service vol T e w = Ret x w' -> runs' Q (k x) w' -> runs' Q (call e ≫= k) w.
Proof. intros He. apply runs_call. by destruct e. Qed.

Lemma poke_all_runs ps w :
  drawable ps -> runs' (fun _ w' => w' = drawn_on ps w) (poke_all VIDEO_MEM (stores ps)) w.
Proof.
  intros Hps. revert w. induction Hps as [|[loc c] ps [Hl Hc] _ IH]; intros w.
  - apply runs_ret. by rewrite drawn_on_nil.
  - cbn [fst snd] in *. cbn [stores fmap list_fmap poke_all fst snd]. eapply runs_call.
    + cbn [screen_service]. cbv zeta. replace (VIDEO_MEM + loc * 2 - VIDEO_MEM) with (loc * 2) by lia.
      rewrite !bool_decide_true by (done || lia || by rewrite Z_mod_mult). cbn [andb]. rewrite Z_div_mult by lia. reflexivity.
    + eapply runs_mono; [apply IH|]. intros _ w' ->. apply (drawn_on_app [(loc, c)]).
Qed.

Lemma on_blinks_runs {A} (m : M blinks A) a s s' ps w :
  m (Blinks (blink_array s) (mp1_list_head s) []) = Ret a s' -> draws ps [] (pokes s') -> drawable ps ->
  runs' (fun r w' => r = (a, s') /\ w' = drawn_on ps w) (on_blinks VIDEO_MEM m s) w.
Proof.
  intros Hm Hd Hps. unfold on_blinks. rewrite Hm, Hd, app_nil_r, reverse_involutive. apply runs_bind.
  eapply runs_mono; [by apply poke_all_runs|]. intros _ w' ->. by apply runs_ret.
Qed.

(** The state after some events, and what they have drawn on the screen of [w0]. *)
Definition after (es : list event) (s : blinks) (w0 w : world) : Prop :=
  let '(_, l, ps) := respond es [] in blinking s l /\ Forall on_screen_char l /\ w = drawn_on ps w0.

Lemma respond_app es1 es2 l :
  respond (es1 ++ es2) l
  = let '(rs1, l1, ps1) := respond es1 l in
    let '(rs2, l2, ps2) := respond es2 l1 in (rs1 ++ rs2, l2, ps1 ++ ps2).
Proof.
  revert l. induction es1 as [|[cmd|] es1 IH]; intros l; cbn [app respond].
  - by destruct (respond es2 l) as [[? ?] ?].
  - destruct (answer cmd l) as [[[r f] l1] ps]. rewrite IH. destruct (respond es1 l1) as [[rs1 l2] ps1].
    destruct (respond es2 l2) as [[rs2 l3] ps2]. by rewrite app_assoc.
  - destruct (tick_list l) as [l1 ps]. rewrite IH. destruct (respond es1 l1) as [[rs1 l2] ps1].
    destruct (respond es2 l2) as [[rs2 l3] ps2]. by rewrite app_assoc.
Qed.

Lemma blinking_pokes s l ps : blinking s l -> blinking (Blinks (blink_array s) (mp1_list_head s) ps) l.
Proof. done. Qed.

Lemma request_runs es cmd s w0 w :
  after es s w0 w -> valid_char (Request cmd) ->
  runs' (fun r w' => after (es ++ [Request cmd]) (snd r) w0 w') (on_blinks VIDEO_MEM (mp1_ioctl cmd) s) w.
Proof.
  unfold after. rewrite respond_app. destruct (respond es []) as [[rs l] ps]. intros (Hb & Hl & ->) Hv.
  destruct (ioctl_ok _ l cmd (blinking_pokes s l [] Hb) (valid_char_valid _ Hv)) as (r & f & s' & l' & qs & Ha & Hr & Hb' & Hd).
  destruct (answer_drawable _ _ _ _ _ _ Hl Hv Ha) as [Hl' Hq].
  eapply runs_mono; [by eapply on_blinks_runs|]. intros v w' [-> ->]. cbn [respond snd]. rewrite Ha.
  split; [done|]. split; [done|]. by rewrite drawn_on_app, app_nil_r.
Qed.

Lemma tick_runs es s w0 w :
  after es s w0 w ->
  runs' (fun r w' => after (es ++ [Tick]) (snd r) w0 w') (on_blinks VIDEO_MEM mp1_rtc_tasklet s) w.
Proof.
  unfold after. rewrite respond_app. destruct (respond es []) as [[rs l] ps]. intros (Hb & Hl & ->).
  destruct (tasklet_ok _ l (blinking_pokes s l [] Hb)) as (s' & Hr & Hb' & Hd).
  destruct (tick_list_drawable l Hl) as [Hl' Hq].
  eapply runs_mono; [by eapply on_blinks_runs|]. intros v w' [-> ->]. cbn [respond snd].
  destruct (tick_list l) as [l1 qs]. cbn [fst snd] in *.
  split; [done|]. split; [done|]. by rewrite drawn_on_app, app_nil_r.
Qed.
End Program.

(** *** The pictures *)

(** The channel that a reader reads from; of a file that has ended any. *)
Definition chan_reads (ch : chan) (f : reader) : Prop :=
  (char_of f = 10 /\ eof_of f = 1) \/
  (eof_of f = 0 /\ exists l p, ch = FileChan l p /\ 0 <= p <= len l /\ bytes l /\ drop (Z.to_nat p) l = snd f).

Lemma set_chan_same i ch w : load (w_chans w) (i - 2) = Some ch -> set_chan i ch w = w.
Proof.
  intros [_ H]%load_inv. destruct w as [chans ? ? ? ? ? ?]. cbn in *. unfold set_chan. cbn.
  by rewrite list_insert_id.
Qed.

Section Reading.
Context (vol : volume).
Abbreviation runs' := (runs (screen_service vol)).

Lemma next_char_runs fd w ch f :
  2 <= fd < 8 -> load (w_chans w) (fd - 2) = Some ch -> chan_reads ch f ->
  runs' (fun r w' => r = (char_of (next_of f), eof_of (next_of f)) /\
      exists ch', w' = set_chan fd ch' w /\ chan_reads ch' (next_of f))
    (next_char fd (char_of f) (eof_of f)) w.
Proof.
  intros Hfd Hch Hr. unfold next_char. destruct f as [[c eof] rest]. cbn [char_of eof_of fst snd next_of] in *.
  destruct (decide (c = 10)) as [->|Hc].
  { rewrite bool_decide_false by (intros H; by apply H). apply runs_ret. split; [done|]. exists ch.
    by rewrite set_chan_same. }
  rewrite bool_decide_true by done. destruct Hr as [[? _]|(Heof & l & p & -> & Hp & Hb & Hrest)]; [done|].
  cbn [char_of eof_of fst snd] in *. subst eof.
  pose proof (service_read_chan vol w fd [c] 1 Hfd _ Hch) as Hread. cbv zeta in Hread.
  rewrite !bool_decide_true in Hread by (cbn; lia). cbn [andb] in Hread.
  destruct rest as [|x rest].
  - assert (len l = p) as El by (apply (f_equal length) in Hrest; rewrite length_drop in Hrest; cbn in Hrest; lia).
    replace (Z.min 1 (len l - p)) with 0 in Hread by lia. eapply runs_service; [exact Hread|]. cbn beta iota.
    eapply runs_inside; [reflexivity|]. apply runs_ret. cbn [bool_decide]. split; [by rewrite bool_decide_true|].
    eexists. split; [reflexivity|]. left. done.
  - assert (p < len l) as El by (apply (f_equal length) in Hrest; rewrite length_drop in Hrest; cbn in Hrest; lia).
    replace (Z.min 1 (len l - p)) with 1 in Hread by lia. rewrite Hrest in Hread.
    eapply runs_service; [exact Hread|]. cbn beta iota. eapply runs_inside; [reflexivity|]. apply runs_ret.
    rewrite bool_decide_false by lia. split; [done|]. eexists. split; [reflexivity|]. right. split; [done|].
    exists l, (p + 1). split; [done|]. split; [lia|]. split; [done|]. cbn [snd].
    replace (Z.to_nat (p + 1)) with (Z.to_nat p + 1)%nat by lia. by rewrite <-drop_drop, Hrest.
Qed.

Lemma end_row_runs fd w ch f :
  2 <= fd < 8 -> load (w_chans w) (fd - 2) = Some ch -> chan_reads ch f ->
  runs' (fun r w' => r = char_of (restart f) /\ eof_of (restart f) = eof_of f /\
      exists ch', w' = set_chan fd ch' w /\ chan_reads ch' (restart f) /\ (eof_of f <> 0 -> ch' = Closed))
    (end_row fd (eof_of f)) w.
Proof.
  intros Hfd Hch Hr. unfold end_row. destruct f as [[c eof] rest]. cbn [eof_of char_of fst snd restart] in *.
  destruct (decide (eof <> 0)) as [He|He].
  - rewrite bool_decide_true by done. assert (eof = 1) as -> by (destruct Hr as [[_ E]|[E _]]; [exact E|done]).
    eapply runs_service with (w' := set_chan fd Closed w) (x := if bool_decide (ch = Closed) then -1 else 0).
    + cbn [service]. unfold service_close, mbind, M_bind, get, lift. rewrite !bool_decide_false by lia. cbn [orb]. rewrite Hch.
      case_bool_decide; [|done]. subst ch. by rewrite set_chan_same.
    + apply runs_ret. cbn. split; [done|]. split; [done|]. exists Closed. split; [done|]. split; [by left|done].
  - rewrite bool_decide_false by done. apply runs_ret. cbn. split; [done|]. split; [done|].
    exists ch. rewrite set_chan_same by done. split; [done|]. split; [|done]. right. destruct Hr as [[_ E]|[E Hr]]; [|by split].
    exfalso. apply He. cbn in E. lia.
Qed.
End Reading.

(** The world with the files in channels 3 and 4. *)
Definition with_files (c0 c1 : chan) (w : world) : world := set_chan 4 c1 (set_chan 3 c0 w).

Lemma with_files_3 c c0 c1 w : set_chan 3 c (with_files c0 c1 w) = with_files c c1 w.
Proof.
  destruct w as [l ? ? ? ? ? ?]. unfold with_files, set_chan. cbn.
  change (Z.to_nat (3 - 2)) with 1%nat. change (Z.to_nat (4 - 2)) with 2%nat.
  by rewrite (list_insert_insert_ne _ 1 2), list_insert_insert_eq by lia.
Qed.
Lemma with_files_4 c c0 c1 w : set_chan 4 c (with_files c0 c1 w) = with_files c0 c w.
Proof. destruct w as [l ? ? ? ? ? ?]. unfold with_files, set_chan. cbn. by rewrite list_insert_insert_eq. Qed.
Lemma with_files_load c0 c1 w :
  length (w_chans w) = 6%nat ->
  load (w_chans (with_files c0 c1 w)) 1 = Some c0 /\ load (w_chans (with_files c0 c1 w)) 2 = Some c1.
Proof.
  intros Hl. unfold with_files, set_chan. cbn. change (Z.to_nat (3 - 2)) with 1%nat. change (Z.to_nat (4 - 2)) with 2%nat. split.
  - change 1 with (Z.of_nat 1). rewrite load_lookup, list_lookup_insert_ne by done. apply list_lookup_insert_eq. lia.
  - change 2 with (Z.of_nat 2). rewrite load_lookup. apply list_lookup_insert_eq. rewrite length_insert. lia.
Qed.

Lemma after_chan es s i c w0 w : after es s w0 w -> after es s (set_chan i c w0) (set_chan i c w).
Proof. unfold after. destruct (respond es []) as [[rs l] ps]. by intros (? & ? & ->). Qed.
Lemma after_chans es s w0 w : after es s w0 w -> w_chans w = w_chans w0.
Proof. unfold after. destruct (respond es []) as [[rs l] ps]. by intros (? & ? & ->). Qed.

Section Pictures.
Context (vol : volume) (st : blink_data) (w0 : world).
Hypothesis Hchans : length (w_chans w0) = 6%nat.
Abbreviation runs' := (runs (screen_service vol)).

(** Both files, and the list. *)
Definition reading (es : list event) (f0 f1 : reader) (s : blinks) (w : world) : Prop :=
  exists c0 c1, chan_reads c0 f0 /\ chan_reads c1 f1 /\ after es s (with_files c0 c1 w0) w.

Lemma reading_next {A} (Q : A -> world -> Prop) es f0 f1 s w (k : Z * Z -> prog A) :
  reading es f0 f1 s w ->
  (forall w', reading es (next_of f0) f1 s w' -> runs' Q (k (char_of (next_of f0), eof_of (next_of f0))) w') ->
  runs' Q (next_char 3 (char_of f0) (eof_of f0) ≫= k) w.
Proof using Hchans.
  intros (c0 & c1 & H0 & H1 & Ha) Hk. apply runs_bind. pose proof (after_chans _ _ _ _ Ha) as Ec.
  eapply runs_mono; [apply (next_char_runs vol 3 w c0 f0); [lia| |done]|].
  - rewrite Ec. by apply with_files_load.
  - intros r w' (-> & c & -> & Hc). apply Hk. exists c, c1. split; [done|]. split; [done|].
    rewrite <-(with_files_3 c c0). by apply after_chan.
Qed.
Lemma reading_next' {A} (Q : A -> world -> Prop) es f0 f1 s w (k : Z * Z -> prog A) :
  reading es f0 f1 s w ->
  (forall w', reading es f0 (next_of f1) s w' -> runs' Q (k (char_of (next_of f1), eof_of (next_of f1))) w') ->
  runs' Q (next_char 4 (char_of f1) (eof_of f1) ≫= k) w.
Proof using Hchans.
  intros (c0 & c1 & H0 & H1 & Ha) Hk. apply runs_bind. pose proof (after_chans _ _ _ _ Ha) as Ec.
  eapply runs_mono; [apply (next_char_runs vol 4 w c1 f1); [lia| |done]|].
  - rewrite Ec. by apply with_files_load.
  - intros r w' (-> & c & -> & Hc). apply Hk. exists c0, c. split; [done|]. split; [done|].
    rewrite <-(with_files_4 c c0 c1). by apply after_chan.
Qed.

Lemma ink_blank c : (bool_decide (c <> 32) && bool_decide (c <> 10)) = negb (bool_decide (ink c = 32)).
Proof. unfold ink. destruct (decide (c = 10)) as [->|]; [done|]. repeat case_bool_decide; done. Qed.

Lemma columns_run es es0 row col f0 f1 g0 g1 s w :
  row_scan st row col f0 f1 es g0 g1 -> Forall valid_char es -> reading es0 f0 f1 s w ->
  runs' (fun r w' => exists s', r = ((char_of g0, eof_of g0), (char_of g1, eof_of g1), s') /\ reading (es0 ++ es) g0 g1 s' w')
    (loop (column_round VIDEO_MEM 3 4 row st) (col, (char_of f0, eof_of f0), (char_of f1, eof_of f1), s)) w.
Proof using Hchans.
  intros Hs. revert es0 s w. induction Hs as [col f0 f1 E0 E1|col f0 f1 es g0 g1 Hne Hs IH]; intros es0 s w Hv Hr;
    apply runs_loop; unfold column_round at 2; cbn beta iota; apply (reading_next _ es0 f0 f1 s w _ Hr); clear w Hr;
    intros w Hr; cbn beta iota; apply (reading_next' _ es0 (next_of f0) f1 s w _ Hr); clear w Hr; intros w Hr; cbn beta iota.
  - rewrite E0, E1. cbn [bool_decide andb]. rewrite bool_decide_true by done. cbn [andb]. apply runs_ret. exists s.
    by rewrite app_nil_r.
  - destruct (bool_decide (char_of (next_of f0) = 10) && bool_decide (char_of (next_of f1) = 10)) eqn:Eb.
    { exfalso. apply Hne. apply andb_true_iff in Eb. by rewrite !bool_decide_eq_true in Eb. }
    rewrite !ink_blank, <-negb_andb. apply Forall_app in Hv as [Hv1 Hv2]. unfold cell in Hv1 |- *.
    destruct (decide (ink (char_of (next_of f0)) = 32 /\ ink (char_of (next_of f1)) = 32)) as [[I0 I1]|Hink].
    + rewrite I0, I1, bool_decide_true by done. cbn [andb negb app]. apply runs_ret. by apply IH.
    + destruct (bool_decide (ink (char_of (next_of f0)) = 32) && bool_decide (ink (char_of (next_of f1)) = 32)) eqn:Ei.
      { exfalso. apply Hink. apply andb_true_iff in Ei. by rewrite !bool_decide_eq_true in Ei. }
      cbn [negb]. apply Forall_cons_1 in Hv1 as [Hv1 _].
      assert (forall c, (if bool_decide (c = 10) then 32 else c) = ink c) as Hi.
      { intros c. unfold ink. destruct (decide (c = 10)); [by rewrite bool_decide_true|by rewrite bool_decide_false]. }
      rewrite !Hi. apply runs_bind. destruct Hr as (c0 & c1 & H0 & H1 & Ha).
      eapply runs_mono; [by apply (request_runs vol es0 _ s)|]. intros [v s'] w' Ha'. cbn [snd] in Ha'. apply runs_ret.
      eapply runs_mono; [eapply (fun e => IH e s' w' Hv2)|].
      * exists c0, c1. split; [exact H0|]. split; [exact H1|exact Ha'].
      * intros r w2 (s2 & -> & Hr2). exists s2. split; [done|]. by rewrite <-app_assoc in Hr2.
Qed.

Lemma rows_run es es0 row f0 f1 s c0 c1 w :
  rows_scan st row f0 f1 es -> Forall valid_char es -> chan_reads c0 f0 -> chan_reads c1 f1 ->
  (eof_of f0 <> 0 -> c0 = Closed) -> (eof_of f1 <> 0 -> c1 = Closed) -> after es0 s (with_files c0 c1 w0) w ->
  runs' (fun s' w' => after (es0 ++ es) s' (with_files Closed Closed w0) w')
    (loop (row_round VIDEO_MEM 3 4 st) (row, (char_of f0, eof_of f0), (char_of f1, eof_of f1), s)) w.
Proof using Hchans.
  intros Hs. revert es0 s c0 c1 w. induction Hs as [row f0 f1 E0 E1|row f0 f1 es g0 g1 es' Heof Hrow Hs IH];
    intros es0 s c0 c1 w Hv H0 H1 Hc0 Hc1 Ha; apply runs_loop; unfold row_round at 2; cbn beta iota.
  - rewrite !bool_decide_false by done. cbn [orb]. apply runs_ret. rewrite app_nil_r. by rewrite (Hc0 E0), (Hc1 E1) in Ha.
  - assert (bool_decide (eof_of f0 = 0) || bool_decide (eof_of f1 = 0) = true) as ->
      by (apply orb_true_iff; rewrite !bool_decide_eq_true; done).
    apply Forall_app in Hv as [Hv1 Hv2]. apply runs_bind.
    eapply runs_mono; [apply (columns_run es es0 row 0 f0 f1 g0 g1); [done|done|by exists c0, c1]|].
    clear c0 c1 w H0 H1 Hc0 Hc1 Ha. intros r w1 (s1 & -> & (c0 & c1 & H0 & H1 & Ha)). cbn beta iota. apply runs_bind.
    pose proof (after_chans _ _ _ _ Ha) as Ec.
    eapply runs_mono; [apply (end_row_runs vol 3 w1 c0 g0); [lia|rewrite Ec; by apply with_files_load|done]|].
    intros r2 w2 (-> & Er0 & d0 & -> & Hd0 & Hz0). apply runs_bind.
    apply (after_chan _ _ 3 d0) in Ha. rewrite with_files_3 in Ha. pose proof (after_chans _ _ _ _ Ha) as Ec'.
    eapply runs_mono; [apply (end_row_runs vol 4 _ c1 g1); [lia|rewrite Ec'; by apply with_files_load|done]|].
    intros r3 w3 (-> & Er1 & d1 & -> & Hd1 & Hz1). apply (after_chan _ _ 4 d1) in Ha. rewrite with_files_4 in Ha.
    apply runs_ret. rewrite <-Er0 in Hz0 |- *. rewrite <-Er1 in Hz1 |- *.
    eapply runs_mono; [by apply (IH (es0 ++ es) s1 d0 d1)|].
    intros s' w' H'. by rewrite <-app_assoc in H'.
Qed.
End Pictures.

(** *** The whole program *)

Definition sign_char (sign : blink_data) : blink_data := Blink 540 73 77 7 6 (countdown sign) (status sign).

(** What fish asks of the list: the pictures, a sign, in phase with the top left corner
    of the pictures; an attempt to remove a character that nothing put at location 200. *)
Definition show (st sign : blink_data) (l0 l1 : list Z) : list event :=
  picture st l0 l1 ++ replicate 200 Tick ++
  [Request (RTC_ADD (sign_char sign))] ++ replicate 200 Tick ++
  [Request (RTC_SYNC (40 * 65536 + 540))] ++ replicate 200 Tick ++
  [Request (RTC_REMOVE 200)] ++ replicate 2000 Tick.
Definition drawn_by (es : list event) : list (Z * Z) := snd (respond es []).

Section Main.
Context (vol : volume) (w : world) (l0 l1 : list Z) (st sign : blink_data).
Hypothesis Hchans : w_chans w = replicate 6 Closed.
Hypothesis Hrtc : vol_node vol (bytes_of_string "rtc") = Some ClockNode.
Hypothesis Hfile0 : vol_node vol (bytes_of_string "frame0.txt") = Some (FileNode l0).
Hypothesis Hfile1 : vol_node vol (bytes_of_string "frame1.txt") = Some (FileNode l1).
Hypothesis Hbytes : bytes l0 /\ bytes l1.
Hypothesis Hvalid : Forall valid_char (picture st l0 l1).
Abbreviation runs' := (runs (screen_service vol)).

Lemma wait_runs es s w0 v g n :
  after es s w0 v -> load (w_chans w0) 0 = Some ClockChan ->
  runs' (fun r w' => after (es ++ replicate (Z.to_nat n) Tick) (snd r) w0 w') (wait VIDEO_MEM 2 n (g, s)) v.
Proof using.
  intros Ha Hc. unfold wait.
  eapply runs_mono; [apply (runs_repeat _ (fun i (x : list Z * blinks) v => after (es ++ replicate (Z.to_nat i) Tick) (snd x) w0 v))|].
  - by rewrite app_nil_r.
  - intros i [g' s'] v' Hi Ha'. cbn [snd] in Ha'. eapply runs_service.
    { rewrite (service_read_chan vol v' 2 g' 4 ltac:(lia) ClockChan); [reflexivity|].
      by rewrite (after_chans _ _ _ _ Ha'). }
    cbn beta iota. apply runs_bind. eapply runs_mono; [by apply tick_runs|]. intros [u s2] v2 Ha2. apply runs_ret.
    cbn [snd] in *. replace (Z.to_nat (i + 1)) with (Z.to_nat i + 1)%nat by lia.
    by rewrite replicate_add, app_assoc.
  - intros x v' Ha'. assert (Z.to_nat (0 + Z.of_nat (Z.to_nat n)) = Z.to_nat n) as E by lia. by rewrite E in Ha'.
Qed.

Lemma add_frames_runs s v :
  cleared s -> v = set_chan 2 ClockChan w ->
  runs' (fun r w' => exists s', r = Some s' /\ after (picture st l0 l1) s' v w')
    (add_frames VIDEO_MEM file0 file1 st s) v.
Proof using Hchans Hfile0 Hfile1 Hbytes Hvalid.
  intros Hs ->. unfold add_frames. destruct Hbytes as [Hb0 Hb1].
  eapply runs_service; [apply (service_open_node vol file0 (bytes_of_string "frame0.txt") (FileNode l0) _ 3);
    [apply cstring_bytes|reflexivity|cbn; lia|done|unfold free_chan, set_chan; cbn [w_chans]; by rewrite Hchans]|].
  rewrite bool_decide_false by lia.
  eapply runs_service; [apply (service_open_node vol file1 (bytes_of_string "frame1.txt") (FileNode l1) _ 4);
    [apply cstring_bytes|reflexivity|cbn; lia|done|unfold free_chan, set_chan; cbn [w_chans]; by rewrite Hchans]|].
  rewrite bool_decide_false by lia. cbn [opened]. apply runs_bind.
  set (v := set_chan 2 ClockChan w).
  assert (length (w_chans v) = 6%nat) as Hl by (unfold v, set_chan; cbn [w_chans]; by rewrite length_insert, Hchans).
  eapply runs_mono; [apply (rows_run vol st v Hl (picture st l0 l1) [] 0 (48, 0, l0) (48, 0, l1) s (FileChan l0 0) (FileChan l1 0))|].
  - apply picture_scan.
  - exact Hvalid.
  - right. split; [done|]. exists l0, 0. split; [done|]. split; [lia|]. by split.
  - right. split; [done|]. exists l1, 0. split; [done|]. split; [lia|]. by split.
  - by intros [].
  - by intros [].
  - split; [by apply cleared_blinking|]. split; [done|]. by rewrite drawn_on_nil.
  - intros s' w' Ha. apply runs_ret. exists s'. split; [done|].
    assert (with_files Closed Closed v = v) as E; [|by rewrite E in Ha].
    unfold with_files. rewrite !set_chan_same; [done| |];
      unfold v, set_chan; cbn [w_chans]; by rewrite Hchans.
Qed.

Lemma fish_runs va garbage :
  0x8000000 <= va -> va + 4 <= 0x8400000 ->
  runs' (fun r w' => r = 0 /\ w' = drawn_on (drawn_by (show st sign l0 l1)) w) (fish_main va garbage st sign) w.
Proof using Hchans Hrtc Hfile0 Hfile1 Hbytes Hvalid.
  intros Hlo Hhi. unfold fish_main, mp1_set_video_mode. cbv zeta. apply runs_bind. eapply runs_call.
  { cbn [screen_service]. by rewrite !bool_decide_true. }
  cbn beta iota. rewrite bool_decide_false by (unfold VIDEO_MEM; lia). apply runs_ret.
  rewrite bool_decide_false by (unfold VIDEO_MEM; lia).
  eapply runs_service; [apply (service_open_node vol (cstring "rtc") (bytes_of_string "rtc") ClockNode _ 2);
    [apply cstring_bytes|reflexivity|cbn; lia|done|unfold free_chan; by rewrite Hchans]|].
  cbn [opened]. set (v := set_chan 2 ClockChan w).
  assert (load (w_chans v) 0 = Some ClockChan) as Hclock by (unfold v, set_chan; cbn [w_chans]; by rewrite Hchans).
  apply runs_bind. eapply runs_mono; [by apply add_frames_runs|]. intros r v1 (s1 & -> & Ha). cbn beta iota.
  eapply runs_service.
  { cbn [service]. unfold service_write. unfold mbind at 1, M_bind at 1, get at 1.
    rewrite !bool_decide_false by lia. cbn [orb]. rewrite (after_chans _ _ _ _ Ha). change (2 - 2) with 0. rewrite Hclock.
    unfold mbind at 1, M_bind at 1, lift at 1. rewrite !bool_decide_true by (lia || by apply list_elem_of_lookup; exists 2%nat).
    reflexivity. }
  apply runs_bind. eapply runs_mono; [by apply wait_runs|]. clear v1 s1 Ha. intros [g1 s1] v1 Ha. cbn [snd] in Ha. cbn beta iota.
  apply runs_bind. eapply runs_mono; [apply (request_runs _ _ _ _ _ _ Ha); done|]. clear v1 s1 Ha. intros [u1 s1] v1 Ha. cbn [snd] in Ha. cbn beta iota.
  apply runs_bind. eapply runs_mono; [by apply wait_runs|]. clear v1 s1 Ha. intros [g2 s1] v1 Ha. cbn [snd] in Ha. cbn beta iota.
  apply runs_bind. eapply runs_mono; [apply (request_runs _ _ _ _ _ _ Ha); done|]. clear v1 s1 Ha. intros [u2 s1] v1 Ha. cbn [snd] in Ha. cbn beta iota.
  apply runs_bind. eapply runs_mono; [by apply wait_runs|]. clear v1 s1 Ha. intros [g3 s1] v1 Ha. cbn [snd] in Ha. cbn beta iota.
  apply runs_bind. eapply runs_mono; [apply (request_runs _ _ _ _ _ _ Ha); done|]. clear v1 s1 Ha. intros [u3 s1] v1 Ha. cbn [snd] in Ha. cbn beta iota.
  apply runs_bind. eapply runs_mono; [by apply wait_runs|]. clear v1 s1 Ha. intros [g4 s1] v1 Ha. cbn [snd] in Ha. cbn beta iota.
  eapply runs_service with (x := 0) (w' := set_chan 2 Closed v1).
  { cbn [service]. unfold service_close, mbind, M_bind, get, lift. rewrite !bool_decide_false by lia. cbn [orb].
    rewrite (after_chans _ _ _ _ Ha). change (2 - 2) with 0. rewrite Hclock. by rewrite bool_decide_false. }
  apply runs_ret. split; [done|]. rewrite <-!app_assoc in Ha. unfold after in Ha.
  change (picture st l0 l1 ++ _) with (show st sign l0 l1) in Ha. unfold drawn_by.
  destruct (respond (show st sign l0 l1) []) as [[rs l] ps]. destruct Ha as (_ & _ & ->). cbn [snd].
  change (set_chan 2 Closed (drawn_on ps v)) with (drawn_on ps (set_chan 2 Closed v)). f_equal.
  unfold v. rewrite <-(set_chan_same 2 Closed w) at 2 by by rewrite Hchans. unfold set_chan. cbn. by rewrite list_insert_insert_eq.
Qed.
End Main.

(** ** The pictures on the screen *)

Definition adds (xs : list blink_data) : list event := (fun x => Request (RTC_ADD x)) <$> xs.

(** The character of a file in a row and a column, blank behind the end of the row or of
    the file. *)
Definition char_at (l : list Z) (r c : nat) : Z := default 32 (default [] (rows l !! r) !! c).
(** A picture that fits into the right half of the screen. *)
Definition fits (l : list Z) : Prop := (length (rows l) <= 25)%nat /\ Forall (fun a => length a <= 40)%nat (rows l).

Lemma pad_zip_lookup {A} (d : A) l k i :
  pad_zip d l k !! i
  = if decide (i < Nat.max (length l) (length k))%nat then Some (default d (l !! i), default d (k !! i)) else None.
Proof.
  revert k i. induction l as [|x l IH]; intros k i; cbn [pad_zip].
  - rewrite list_lookup_fmap, lookup_nil. cbn [length default]. destruct (decide _).
    + destruct (lookup_lt_is_Some_2 k i) as [y Hy]; [lia|]. by rewrite Hy.
    + by rewrite lookup_ge_None_2 by lia.
  - destruct i as [|i]; cbn [lookup list_lookup length].
    + rewrite decide_True by lia. by destruct k.
    + etrans; [apply IH|]. destruct k as [|y k]; cbn [tl length].
      * destruct (decide _), (decide _); try lia; [by rewrite lookup_nil|done].
      * destruct (decide _), (decide _); try lia; done.
Qed.
Lemma pad_zip_length {A} (d : A) l k : length (pad_zip d l k) = Nat.max (length l) (length k).
Proof. revert k. induction l as [|x l IH]; intros [|y k]; cbn [pad_zip length]; rewrite ?length_fmap, ?IH; cbn [tl length]; lia. Qed.

(** Cells with characters, from a row and a column on. *)
Definition in_cell (x : blink_data) (loc : Z) (c : Z * Z) : Prop :=
  location x = loc /\ on_char x = fst c /\ off_char x = snd c /\ on_length x = 15 /\ off_length x = 15.
Definition blank_cell (c : Z * Z) : Prop := fst c = 32 /\ snd c = 32.

Lemma draw_row_chars st row col l :
  0 <= row -> 0 <= col -> row * 80 + col + 40 + len l <= 2000 ->
  exists xs, draw_row st row col l = adds xs /\ (length xs <= length l)%nat /\ NoDup (location <$> xs) /\
    (forall x, x ∈ xs -> exists i c, l !! i = Some c /\ ~ blank_cell c /\ in_cell x (row * 80 + col + 40 + Z.of_nat i) c) /\
    (forall i c, l !! i = Some c -> ~ blank_cell c -> exists x, x ∈ xs /\ in_cell x (row * 80 + col + 40 + Z.of_nat i) c).
Proof.
  revert col. induction l as [|[a b] l IH]; intros col Hr Hc Hl.
  { exists []. split; [done|]. split; [done|]. split; [constructor|]. split; [by intros x ?%not_elem_of_nil|done]. }
  cbn [length] in Hl. destruct (IH (col + 1)) as (xs & E & Hlen & Hn & H1 & H2); [done|lia|lia|].
  cbn [draw_row]. rewrite E. unfold cell. destruct (decide (a = 32 /\ b = 32)) as [Hb|Hb].
  - exists xs. split; [done|]. split; [cbn; lia|]. split; [done|]. split.
    + intros x (i & c & Hi & Hnb & Hx)%H1. exists (S i), c. split; [done|]. split; [done|].
      by replace (row * 80 + col + 40 + Z.of_nat (S i)) with (row * 80 + (col + 1) + 40 + Z.of_nat i) by lia.
    + intros [|i] c Hi Hnb; [by injection Hi as <-|]. destruct (H2 i c Hi Hnb) as (x & Hx & Hin). exists x. split; [done|].
      by replace (row * 80 + col + 40 + Z.of_nat (S i)) with (row * 80 + (col + 1) + 40 + Z.of_nat i) by lia.
  - set (x0 := Blink (u16 (row * 80 + col + 40)) a b 15 15 (countdown st) (status st)).
    assert (in_cell x0 (row * 80 + col + 40 + Z.of_nat 0) (a, b)) as Hx0.
    { unfold in_cell, x0. cbn. rewrite u16_small by lia. split_and!; done || lia. }
    exists (x0 :: xs). split; [done|]. split; [cbn; lia|]. split; [|split].
    + apply NoDup_cons. split; [|done]. intros (y & Ey & Hy)%list_elem_of_fmap. apply H1 in Hy as (i & c & _ & _ & Hy & _).
      destruct Hx0 as [Hx0 _]. lia.
    + intros x [->|Hx]%elem_of_cons; [by exists 0%nat, (a, b)|].
      apply H1 in Hx as (i & c & Hi & Hnb & Hx). exists (S i), c. split; [done|]. split; [done|].
      by replace (row * 80 + col + 40 + Z.of_nat (S i)) with (row * 80 + (col + 1) + 40 + Z.of_nat i) by lia.
    + intros [|i] c Hi Hnb; [injection Hi as <-; exists x0; split; [by left|done]|].
      destruct (H2 i c Hi Hnb) as (x & Hx & Hin). exists x. split; [by right|].
      by replace (row * 80 + col + 40 + Z.of_nat (S i)) with (row * 80 + (col + 1) + 40 + Z.of_nat i) by lia.
Qed.

(** The cell of both pictures at a place. *)
Definition pair_at (l : list (list Z * list Z)) (r c : nat) : option (Z * Z) := p ← l !! r; pad_zip 32 (fst p) (snd p) !! c.

Lemma draw_rows_chars st row l :
  0 <= row -> Forall (fun p => length (fst p) <= 40 /\ length (snd p) <= 40)%nat l -> row + len l <= 25 ->
  exists xs, draw_rows st row l = adds xs /\ (length xs <= 40 * length l)%nat /\ NoDup (location <$> xs) /\
    (forall x, x ∈ xs -> exists r i c, pair_at l r i = Some c /\ ~ blank_cell c /\ (i < 40)%nat /\
       in_cell x ((row + Z.of_nat r) * 80 + 40 + Z.of_nat i) c) /\
    (forall r i c, pair_at l r i = Some c -> ~ blank_cell c ->
       exists x, x ∈ xs /\ in_cell x ((row + Z.of_nat r) * 80 + 40 + Z.of_nat i) c).
Proof.
  intros Hr Hf. revert row Hr. induction Hf as [|[a b] l [Ha Hb] Hf IH]; intros row Hr Hl.
  { exists []. split; [done|]. split; [done|]. split; [constructor|]. split; [by intros x ?%not_elem_of_nil|].
    intros r i c Hc. unfold pair_at in Hc. by rewrite lookup_nil in Hc. }
  cbn [length fst snd] in *. destruct (IH (row + 1)) as (ys & E & Hlen & Hn & H1 & H2); [lia|lia|].
  assert (length (pad_zip 32%Z a b) <= 40)%nat as H40 by (rewrite pad_zip_length; lia).
  destruct (draw_row_chars st row 0 (pad_zip 32 a b)) as (xs & E' & Hlen' & Hn' & H1' & H2'); [lia..|].
  cbn [draw_rows]. rewrite E, E'. exists (xs ++ ys). split; [unfold adds; by rewrite fmap_app|]. split; [lens|]. split; [|split].
  - rewrite fmap_app. apply NoDup_app. split; [done|]. split; [|done].
    intros k (x & -> & Hx)%list_elem_of_fmap (y & Ey & Hy)%list_elem_of_fmap.
    apply H1' in Hx as (i & c & Hi & _ & Hx & _). apply H1 in Hy as (r & j & d & _ & _ & Hj & Hy & _).
    apply lookup_lt_Some in Hi. lia.
  - intros x [Hx|Hx]%elem_of_app.
    + apply H1' in Hx as (i & c & Hi & Hnb & Hx). exists 0%nat, i, c. split; [done|]. split; [done|].
      pose proof (lookup_lt_Some _ _ _ Hi). split; [lia|].
      by replace ((row + Z.of_nat 0) * 80 + 40 + Z.of_nat i) with (row * 80 + 0 + 40 + Z.of_nat i) by lia.
    + apply H1 in Hx as (r & i & c & Hi & Hnb & Hi40 & Hx). exists (S r), i, c. split; [done|]. split; [done|]. split; [done|].
      by replace ((row + Z.of_nat (S r)) * 80 + 40 + Z.of_nat i) with ((row + 1 + Z.of_nat r) * 80 + 40 + Z.of_nat i) by lia.
  - intros [|r] i c Hi Hnb.
    + destruct (H2' i c Hi Hnb) as (x & Hx & Hin). exists x. split; [apply elem_of_app; by left|].
      by replace ((row + Z.of_nat 0) * 80 + 40 + Z.of_nat i) with (row * 80 + 0 + 40 + Z.of_nat i) by lia.
    + destruct (H2 r i c Hi Hnb) as (x & Hx & Hin). exists x. split; [apply elem_of_app; by right|].
      by replace ((row + Z.of_nat (S r)) * 80 + 40 + Z.of_nat i) with ((row + 1 + Z.of_nat r) * 80 + 40 + Z.of_nat i) by lia.
Qed.

Lemma phase_0 x : 0 < on_length x -> phase 0 x = set_run (on_length x) 1 x.
Proof. intros H. unfold phase. rewrite Zmod_0_l, decide_True by lia. by rewrite Z.sub_0_r. Qed.

Lemma respond_adds xs l :
  Forall (fun x => location x < 2000 /\ 0 < on_length x) xs -> (length xs + length l <= 2000)%nat ->
  respond (adds xs) l
  = (replicate (length xs) (0, None), reverse (phase 0 <$> xs) ++ l, (fun x => (location x, on_char x)) <$> xs).
Proof.
  intros H. revert l. induction H as [|x xs [Hx Ho] _ IH]; intros l Hl; [done|]. cbn [length] in Hl.
  cbn [adds fmap list_fmap respond answer]. rewrite decide_True by lia. rewrite (IH (_ :: l)) by (cbn; lia).
  cbn [length replicate]. rewrite reverse_cons, <-app_assoc, <-phase_0 by done. done.
Qed.

Lemma respond_ticks k l : respond (replicate k Tick) l = ([], fst (tick_times k l), snd (tick_times k l)).
Proof.
  revert l. induction k as [|k IH]; intros l; [done|]. cbn [replicate respond tick_times].
  destruct (tick_list l) as [l1 ps]. rewrite IH. by destruct (tick_times k l1).
Qed.

Lemma put_fresh xs text :
  NoDup (location <$> xs) -> Forall (fun x => 0 <= location x < len text /\ 0 < on_length x) xs ->
  blinks_on 0 (reverse xs) text (put_chars ((fun x => (location x, on_char x)) <$> xs) text).
Proof.
  intros Hn Hx. split; [by rewrite put_chars_length|]. split.
  - apply Forall_reverse. revert text Hx. induction xs as [|x xs IH]; intros text Hx; [done|].
    apply NoDup_cons in Hn as [Hni Hn]. apply Forall_cons in Hx as [[Hr Ho] Hx]. cbn [fmap list_fmap].
    set (ps := (fun x => (location x, on_char x)) <$> xs).
    change (put_chars ((location x, on_char x) :: ps) text) with (put_chars ps (put_chars [(location x, on_char x)] text)).
    apply Forall_cons. split.
    + rewrite put_chars_other.
      * cbn [put_chars foldl fst snd]. rewrite load_insert_eq by done. unfold shown. by rewrite Zmod_0_l, decide_True by lia.
      * apply Forall_fmap. rewrite Forall_forall in Hx |- *. intros y Hy. cbn. split; [destruct (Hx y Hy); lia|].
        intros E. apply Hni. rewrite <-E. by apply list_elem_of_fmap_2.
    + apply IH; [done|]. cbn [put_chars foldl fst snd]. by rewrite length_insert.
  - intros j Hj. apply put_chars_other. apply Forall_fmap. rewrite Forall_forall in Hx |- *. intros y Hy. cbn.
    split; [destruct (Hx y Hy); lia|]. intros E. apply Hj. rewrite fmap_reverse. apply elem_of_reverse. rewrite <-E.
    by apply list_elem_of_fmap_2.
Qed.

Lemma pair_at_chars l0 l1 r c d :
  pair_at (pad_zip [] (rows l0) (rows l1)) r c = Some d -> d = (char_at l0 r c, char_at l1 r c).
Proof.
  unfold pair_at, char_at. rewrite pad_zip_lookup. destruct (decide _); [|done]. cbn [mbind option_bind fst snd].
  rewrite pad_zip_lookup. destruct (decide _); [|done]. by intros [= <-].
Qed.
Lemma pair_at_outside l0 l1 r c :
  pair_at (pad_zip [] (rows l0) (rows l1)) r c = None -> char_at l0 r c = 32 /\ char_at l1 r c = 32.
Proof.
  unfold pair_at, char_at. rewrite pad_zip_lookup. destruct (decide _) as [|Hr]; cbn [mbind option_bind fst snd].
  - rewrite pad_zip_lookup. destruct (decide _) as [|Hc]; [done|]. intros _. by rewrite !lookup_ge_None_2 by lia.
  - intros _. by rewrite (lookup_ge_None_2 (rows l0) r), (lookup_ge_None_2 (rows l1) r) by lia.
Qed.

Lemma pictures_rows l0 l1 :
  fits l0 -> fits l1 ->
  (len (pad_zip [] (rows l0) (rows l1)) <= 25)%Z /\
  Forall (fun p => length (fst p) <= 40 /\ length (snd p) <= 40)%nat (pad_zip [] (rows l0) (rows l1)).
Proof.
  intros [Hl0 H0] [Hl1 H1]. split; [rewrite pad_zip_length; lia|]. apply Forall_lookup_2. intros i [a b].
  rewrite pad_zip_lookup. destruct (decide _); [|done]. intros [= <- <-]. cbn [fst snd].
  split; [destruct (rows l0 !! i) as [x|] eqn:E; [exact (Forall_lookup_1 _ _ _ _ H0 E)|cbn; lia]|].
  destruct (rows l1 !! i) as [x|] eqn:E; [exact (Forall_lookup_1 _ _ _ _ H1 E)|cbn; lia].
Qed.

Lemma rows_bytes l : bytes l -> Forall (Forall byte) (rows l).
Proof.
  induction 1 as [|c l Hc _ IH]; cbn [rows]; [by repeat constructor|]. destruct (decide (c = 10)); [by constructor|].
  destruct (rows l) as [|a rs]; [by repeat apply Forall_cons_2|]. apply Forall_cons in IH as [Ha Hrs]. by repeat apply Forall_cons_2.
Qed.
Lemma char_at_byte l r c : bytes l -> byte (char_at l r c).
Proof.
  intros Hl%rows_bytes. unfold char_at. assert (bytes (default [] (rows l !! r))) as Ha.
  { destruct (rows l !! r) as [a|] eqn:E; [exact (Forall_lookup_1 _ _ _ _ Hl E)|constructor]. }
  destruct (default [] (rows l !! r) !! c) as [x|] eqn:Ex; [exact (Forall_lookup_1 _ _ _ _ Ha Ex)|]. cbn. unfold byte. lia.
Qed.

(** The characters of the pictures, and what a cell shows after [k] ticks. *)
Lemma pictures_drawn st l0 l1 k text :
  fits l0 -> fits l1 -> bytes l0 -> bytes l1 -> length text = 2000%nat ->
  Forall valid_char (picture st l0 l1) /\
  forall r c, (r < 25)%nat -> (c < 40)%nat ->
    load (put_chars (drawn_by (picture st l0 l1 ++ replicate k Tick)) text) (80 * Z.of_nat r + 40 + Z.of_nat c)
    = if decide (char_at l0 r c = 32 /\ char_at l1 r c = 32)
      then load text (80 * Z.of_nat r + 40 + Z.of_nat c)
      else Some (if decide (Z.of_nat k `mod` 30 < 15) then char_at l0 r c else char_at l1 r c).
Proof.
  intros F0 F1 B0 B1 Ht. destruct (pictures_rows l0 l1 F0 F1) as [H25 H40].
  destruct (draw_rows_chars st 0 _ ltac:(lia) H40 ltac:(lia)) as (xs & E & Hlen & Hn & H1 & H2).
  unfold picture, drawn_by. rewrite E.
  assert (Forall (fun x => (0 < location x < len text /\ location x < 2000) /\ 0 < on_length x /\ regular x) xs) as Hx.
  { apply Forall_forall. intros x (r & i & c & Hp & _ & Hi & Hloc & _ & _ & Ho & Hf)%H1.
    unfold pair_at in Hp. apply bind_Some in Hp as (p & Hr%lookup_lt_Some & _). rewrite Ht.
    unfold regular. rewrite Hloc, Ho, Hf. lia. }
  split.
  { unfold adds. apply Forall_fmap, Forall_forall. intros x Hin. rewrite Forall_forall in Hx. destruct (Hx x Hin) as [[[? _] _] _].
    apply H1 in Hin as (r & i & d & Hd & _ & _ & _ & Hon & Hoff & _). apply pair_at_chars in Hd as ->.
    cbn [fst snd] in Hon, Hoff. cbn. rewrite Hon, Hoff. split; [done|]. split; by apply char_at_byte. }
  intros r c Hr Hc. rewrite respond_app, respond_adds, app_nil_r, respond_ticks.
  2: { eapply Forall_impl; [exact Hx|]. intros x ((_ & ?) & ? & _). done. }
  2: { cbn [length]. lia. }
  cbn [snd]. rewrite put_chars_app.
  assert (Forall regular (reverse xs)) as Hreg by (apply Forall_reverse; eapply Forall_impl; [exact Hx|]; by intros x (_ & _ & ?)).
  assert (NoDup (location <$> reverse xs)) as Hnd by (rewrite fmap_reverse; by rewrite (reverse_Permutation (location <$> xs))).
  assert (blinks_on 0 (reverse xs) text (put_chars ((fun x => (location x, on_char x)) <$> xs) text)) as H0.
  { apply put_fresh; [done|]. eapply Forall_impl; [exact Hx|]. intros x (((? & ?) & _) & ? & _). lia. }
  destruct (tick_times_phase k 0 (reverse xs) text _ Hreg Hnd H0) as [_ (_ & Hshow & Hother)].
  rewrite Z.add_0_l in Hshow. rewrite <-fmap_reverse.
  destruct (decide (char_at l0 r c = 32 /\ char_at l1 r c = 32)) as [Hb|Hb].
  - apply Hother. intros (x & Hloc & Hin)%list_elem_of_fmap. rewrite elem_of_reverse in Hin.
    apply H1 in Hin as (r' & i & d & Hp & Hnb & Hi & Hx' & _). assert (r' = r /\ i = c) as [-> ->] by lia.
    apply Hnb. by rewrite (pair_at_chars _ _ _ _ _ Hp).
  - destruct (pair_at (pad_zip [] (rows l0) (rows l1)) r c) as [d|] eqn:Hp; [|exfalso; by apply Hb, pair_at_outside].
    pose proof (pair_at_chars _ _ _ _ _ Hp) as ->.
    destruct (H2 r c _ Hp Hb) as (x & Hin & Hloc & Hon & Hoff & Hlon & Hloff).
    rewrite Forall_forall in Hshow. specialize (Hshow x). rewrite elem_of_reverse in Hshow. specialize (Hshow Hin).
    replace (80 * Z.of_nat r + 40 + Z.of_nat c) with (location x) by lia. rewrite Hshow. unfold shown, period.
    by rewrite Hon, Hoff, Hlon, Hloff.
Qed.

(** ** Properties *)

(** C16: the pictures blink. For two pictures that fit into the right half of the screen:
    after their characters have been added to the empty list, in the order that fish
    adds them, and the clock has ticked [k] times, what has been drawn makes each cell
    of the right half show the character of the first file for 15 ticks, that of the
    second file for 15 ticks, and so on; behind the end of a row or a file it is a blank;
    and a cell that is blank in both is as it was. *)
Theorem pictures_blink s st l0 l1 k (text : list Z) :
  cleared s -> fits l0 -> fits l1 -> bytes l0 -> bytes l1 -> length text = 2000%nat ->
  exists rs s' ps, serve (picture st l0 l1 ++ replicate k Tick) s = Ret rs s' /\ draws ps (pokes s) (pokes s') /\
    forall r c, (r < 25)%nat -> (c < 40)%nat ->
      load (put_chars ps text) (80 * Z.of_nat r + 40 + Z.of_nat c)
      = if decide (char_at l0 r c = 32 /\ char_at l1 r c = 32)
        then load text (80 * Z.of_nat r + 40 + Z.of_nat c)
        else Some (if decide (Z.of_nat k `mod` 30 < 15) then char_at l0 r c else char_at l1 r c).
Proof.
  intros Hs F0 F1 B0 B1 Ht. destruct (pictures_drawn st l0 l1 k text F0 F1 B0 B1 Ht) as [Hv Hd].
  pose proof (serve_ok (picture st l0 l1 ++ replicate k Tick) s [] (cleared_blinking s Hs)) as Hr.
  unfold drawn_by in Hd. destruct (respond (picture st l0 l1 ++ replicate k Tick) []) as [[rs l] ps].
  destruct Hr as (rs' & s' & Hr & _ & _ & Hdr).
  - apply Forall_app. split; [eapply Forall_impl; [exact Hv|apply valid_char_valid]|by apply Forall_replicate].
  - by exists rs', s', ps.
Qed.

Lemma pictures_blink_witness :
  exists rs s' ps, serve (picture (demo_char 0) (bytes_of_string "><> .
 o") (bytes_of_string "<><") ++ replicate 50 Tick) demo_blinks = Ret rs s' /\ draws ps [] (pokes s') /\
    load (put_chars ps (replicate 2000 65)) 40 = Some 60 /\ load (put_chars ps (replicate 2000 65)) 44 = Some 32 /\
    load (put_chars ps (replicate 2000 65)) 43 = Some 65 /\ load (put_chars ps (replicate 2000 65)) 121 = Some 32.
Proof.
  destruct (pictures_blink demo_blinks (demo_char 0) (bytes_of_string "><> .
 o") (bytes_of_string "<><") 50 (replicate 2000 65)) as (rs & s' & ps & Hr & Hd & Hc).
  - by split.
  - split; [apply Nat.leb_le; vm_compute; reflexivity|]. repeat constructor; apply Nat.leb_le; reflexivity.
  - split; [apply Nat.leb_le; vm_compute; reflexivity|]. repeat constructor; apply Nat.leb_le; reflexivity.
  - apply bytes_of_string_bytes.
  - apply bytes_of_string_bytes.
  - apply length_replicate.
  - exists rs, s', ps. split; [exact Hr|]. split; [exact Hd|].
    split; [exact (Hc 0%nat 0%nat ltac:(lia) ltac:(lia))|]. split; [exact (Hc 0%nat 4%nat ltac:(lia) ltac:(lia))|].
    split; [etrans; [exact (Hc 0%nat 3%nat ltac:(lia) ltac:(lia))|reflexivity]|exact (Hc 1%nat 1%nat ltac:(lia) ltac:(lia))].
Defined.
