(* ===== verification/Programs.v ===== *)
(** * User programs

    [src/syscalls]: cat and ls, as programs over the system calls, and what they do over
    the file service of Service.v. An array of a program starts with arbitrary bytes; a
    C string that begins in an array may go on behind it, where there are other bytes of
    the program, in the k-th round of a loop [behind k]. *)
From S2P Require Import Prelude Clib.
From S2P Require Export UserLib Service.

(** ** cat *)

Definition cat_round (behind : nat -> list Z) (fd : Z) (v : nat * list Z) : prog (nat * list Z + Z) :=
  let '(k, buf) := v in
  '(cnt, buf) ← ece391_read fd buf 1024;
  if bool_decide (0 <> cnt) then
    if bool_decide (-1 = cnt) then
      _ ← ece391_fdputs 1 (cstring "file read failed
");
      mret (inr 3)
    else
      r ← ece391_write 1 (buf ++ behind k) cnt;
      mret (if bool_decide (-1 = r) then inr 3 else inl (S k, buf))
  else mret (inr 0).

(** [buf]: the array, 1024 bytes. *)
Definition cat_main (buf : list Z) (behind : nat -> list Z) : prog Z :=
  '(r, buf) ← ece391_getargs buf 1024;
  if bool_decide (0 <> r) then
    _ ← ece391_fdputs 1 (cstring "could not read arguments
");
    mret 3
  else
    fd ← ece391_open buf;
    if bool_decide (-1 = fd) then
      _ ← ece391_fdputs 1 (cstring "file not found
");
      mret 2
    else loop (cat_round behind fd) (0%nat, buf).

(** ** ls *)

Definition SBUFSIZE : Z := 33.

Definition ls_round (behind : nat -> list Z) (fd : Z) (v : nat * list Z) : prog (nat * list Z + Z) :=
  let '(k, buf) := v in
  '(cnt, buf) ← ece391_read fd buf (SBUFSIZE - 1);
  if bool_decide (0 <> cnt) then
    if bool_decide (-1 = cnt) then
      _ ← ece391_fdputs 1 (cstring "directory entry read failed
");
      mret (inr 3)
    else
      buf ← inside (store buf cnt 10);
      r ← ece391_write 1 (buf ++ behind k) (cnt + 1);
      mret (if bool_decide (-1 = r) then inr 3 else inl (S k, buf))
  else mret (inr 0).

(** [buf]: the array, SBUFSIZE bytes. *)
Definition ls_main (buf : list Z) (behind : nat -> list Z) : prog Z :=
  fd ← ece391_open (cstring ".");
  if bool_decide (-1 = fd) then
    _ ← ece391_fdputs 1 (cstring "directory open failed
");
    mret 2
  else loop (ls_round behind fd) (0%nat, buf).

(** ** Lemmas *)

(** The text of an array: up to its first NUL. *)
Definition cstr (l : list Z) : list Z := cstrn (length l) l.

(** What is printed of an array that a string [str] begins in. *)
Lemma take_str a b str :
  until0 (a ++ b) = Some str -> take (length a) str = cstr a.
Proof.
  unfold cstr. revert str. induction a as [|c a IH]; intros str; [done|]. cbn [app until0 length take cstrn].
  case_bool_decide; [by intros [= <-]|]. intros (l & Hl & [= <-])%bind_Some. cbn [take]. f_equal. by apply IH.
Qed.

Lemma cstr_nonzero l : Forall (fun c => c <> 0) l -> cstr l = l.
Proof.
  unfold cstr. induction 1 as [|c l Hc _ IH]; [done|]. cbn [length cstrn].
  rewrite bool_decide_false by done. by rewrite IH.
Qed.

(** Bytes behind an array: a NUL among them ends every string. *)
Definition behind_ok (behind : nat -> list Z) : Prop :=
  forall k, bytes (behind k) /\ is_Some (until0 (behind k)) /\ len (behind k) < 1073741824.

Lemma until0_app_Some a b : is_Some (until0 b) -> is_Some (until0 (a ++ b)).
Proof.
  intros Hb. induction a as [|c a IH]; [done|]. cbn [app until0]. case_bool_decide; [by eexists|].
  destruct IH as [l ->]. by eexists.
Qed.

Section Programs.
Context (vol : volume).
Abbreviation runs' := (runs (service vol)).

Lemma fdputs_runs {A} (Q : A -> world -> Prop) (s : list Z) str (k : unit -> prog A) w :
  bytes s -> until0 s = Some str -> len str < 2147483648 ->
  runs' Q (k tt) (print (bool_decide (80 < len str)) str w) -> runs' Q (ece391_fdputs 1 s ≫= k) w.
Proof.
  intros Hb Hs Hl Hk. apply runs_bind. unfold ece391_fdputs.
  apply runs_inside with (len str); [by rewrite ece391_strlen_eq, (strlen_Some _ _ Hs)|].
  eapply runs_call; [by apply service_print|]. rewrite Nat2Z.id, take_ge by lia. by apply runs_ret.
Qed.

(** Printing [m] bytes of an array. *)
Lemma write_runs {A} (Q : A -> world -> Prop) buf rest m (k : Z -> prog A) w :
  bytes (buf ++ rest) -> is_Some (until0 rest) -> (m <= length buf)%nat -> len (buf ++ rest) < 2147483648 ->
  (forall long v, 0 <= v -> runs' Q (k v) (print long (cstr (take m buf)) w)) ->
  runs' Q (ece391_write 1 (buf ++ rest) (Z.of_nat m) ≫= k) w.
Proof.
  intros Hb Hrest Hm Hl Hk. destruct (until0_app_Some buf rest Hrest) as [str Hs].
  pose proof (until0_length _ _ Hs).
  eapply runs_call; [by apply service_print|]. rewrite Nat2Z.id, s32_small by lia.
  assert (take m str = cstr (take m buf)) as ->; [|apply Hk; lia].
  rewrite <-(take_drop m buf), <-app_assoc in Hs. apply take_str in Hs.
  by rewrite length_take, Nat.min_l in Hs by lia.
Qed.

(** *** cat *)

(** A text in pieces of 1024 bytes. *)
Fixpoint pieces (m : nat) (l : list Z) : list (list Z) :=
  match m, l with
  | S m', _ :: _ => take 1024 l :: pieces m' (drop 1024 l)
  | _, _ => []
  end.
Lemma pieces_enough m m' l : (length l <= m)%nat -> (length l <= m')%nat -> pieces m l = pieces m' l.
Proof.
  revert m' l. induction m as [|m IH]; intros [|m'] [|c l]; cbn [length]; try done; try lia. intros Hm Hm'.
  cbn [pieces]. f_equal. apply IH; rewrite length_drop; cbn [length]; lia.
Qed.
Lemma pieces_concat m l : (length l <= m)%nat -> concat (pieces m l) = l.
Proof.
  revert l. induction m as [|m IH]; intros [|c l]; cbn [length]; try done; try lia. intros Hm.
  cbn [pieces concat]. rewrite IH by (rewrite length_drop; cbn [length]; lia). apply take_drop.
Qed.
Definition cat_text (l : list Z) : list (list Z) := cstr <$> pieces (length l) l.

Lemma cat_text_concat l : Forall (fun c => c <> 0) l -> concat (cat_text l) = l.
Proof.
  intros Hl. unfold cat_text. enough (forall m, cstr <$> pieces m l = pieces m l) as -> by by apply pieces_concat.
  intros m. revert l Hl. induction m as [|m IH]; intros [|c l] Hl; try done.
  cbn [pieces]. rewrite fmap_cons, IH by (by apply Forall_drop). f_equal.
  by apply cstr_nonzero, Forall_take.
Qed.

Lemma cat_loop_runs behind fd l m p k buf w :
  behind_ok behind -> bytes l -> 2 <= fd < 8 -> len l < 1073741824 ->
  (p + m = length l)%nat -> load (w_chans w) (fd - 2) = Some (FileChan l (Z.of_nat p)) ->
  length buf = 1024%nat -> bytes buf ->
  runs' (answers 0 (cstr <$> pieces m (drop p l)) (set_chan fd (FileChan l (len l)) w))
    (loop (cat_round behind fd) (k, buf)) w.
Proof.
  intros Hbeh Hbl Hfd Hlen. revert p k buf w. induction (lt_wf m) as [m _ IH]. intros p k buf w Hp Hc Hl Hb.
  apply runs_loop. unfold cat_round at 2.
  pose proof (service_read_chan vol w fd buf 1024 Hfd _ Hc) as Hread. cbv zeta in Hread.
  rewrite !bool_decide_true in Hread by lia. cbn [andb] in Hread.
  set (q := Nat.min 1024 m) in *. assert (Z.min 1024 (len l - Z.of_nat p) = Z.of_nat q) as E by lia.
  rewrite E, !Nat2Z.id in Hread. eapply runs_call; [exact Hread|]. clear Hread E. cbn beta iota.
  set (w1 := set_chan fd _ w). destruct (decide (m = 0%nat)) as [->|Hm].
  - rewrite bool_decide_false by lia. apply runs_ret. subst w1.
    replace (Z.of_nat p + Z.of_nat q) with (len l) by lia. apply answers_nil.
  - rewrite bool_decide_true, bool_decide_false by lia. set (buf' := take q (drop p l) ++ drop q buf).
    assert (length (take q (drop p l)) = q) as Hq by lens.
    assert (length buf' = 1024%nat) as Hl' by (subst buf'; lens).
    assert (bytes buf') as Hb' by (apply Forall_app; auto using Forall_take, Forall_drop).
    destruct (Hbeh k) as (Hbk & Hsk & Hlk).
    apply write_runs; [by apply Forall_app|done|lia|lens|]. intros long v Hv.
    rewrite bool_decide_false by lia. apply runs_ret.
    assert (take q buf' = take 1024 (drop p l)) as Hpiece.
    { subst buf'. rewrite take_app_length' by done. subst q. destruct (decide (1024 <= m)%nat).
      - by rewrite Nat.min_l by lia.
      - rewrite Nat.min_r, !take_ge by lens. done. }
    eapply runs_mono; [apply (IH (m - q)%nat ltac:(lia) (p + q)%nat); try done; [lia|]|].
    + subst w1. cbn [print set_chan w_chans]. pose proof (load_inv _ _ _ Hc) as [? _].
      rewrite load_insert_eq by done. do 2 f_equal. lia.
    + intros r w' Hend. assert (cstr <$> pieces m (drop p l) = cstr (take q buf') :: (cstr <$> pieces (m - q) (drop (p + q) l))) as ->.
      * rewrite Hpiece. symmetry. destruct m as [|m']; [done|].
        cbn [pieces]. destruct (drop p l) as [|c l'] eqn:El; [apply (f_equal length) in El; rewrite length_drop in El; simpl in El; lia|].
        cbn [fmap list_fmap]. rewrite <-El, drop_drop. f_equal. f_equal.
        rewrite (pieces_enough _ m') by lens. f_equal. subst q. destruct (decide (1024 <= S m')%nat).
        -- by rewrite Nat.min_l by lia.
        -- by rewrite !drop_ge by lia.
      * apply (answers_cons 0 long). unfold set_chan in Hend at 1. subst w1. cbn in Hend.
        by rewrite list_insert_insert_eq in Hend.
Qed.

(** What cat does with its argument: a regular file's text is printed; the clock reads
    as an empty file; a name that is not in the directory, or that no channel is left for,
    is reported. *)
Definition cat_outcome (w : world) : Z * list (list Z) * world :=
  match vol_node vol (w_arg w), free_chan w with
  | Some (FileNode l), Some i => (0, cat_text l, set_chan i (FileChan l (len l)) w)
  | Some ClockNode, Some i => (0, [], set_chan i ClockChan w)
  | _, _ => (2, [bytes_of_string "file not found
"], w)
  end.

Lemma set_chan_range i w : free_chan w = Some i -> length (w_chans w) = 6%nat -> 2 <= i < 8.
Proof. intros (Hi & _)%free_chan_Some Hl. lia. Qed.

Lemma load_set_chan i c w :
  2 <= i < 8 -> length (w_chans w) = 6%nat -> load (w_chans (set_chan i c w)) (i - 2) = Some c.
Proof. intros Hi Hl. cbn [set_chan w_chans]. apply load_insert_eq. lia. Qed.

Definition array_ok (buf : list Z) (n : nat) (behind : nat -> list Z) : Prop :=
  length buf = n /\ bytes buf /\ behind_ok behind.

Section Cat.
Context (behind : nat -> list Z) (buf : list Z) (w : world).
Hypothesis Harray : array_ok buf 1024 behind.
Hypothesis Hchans : length (w_chans w) = 6%nat.
Hypothesis Hname : bytes (w_arg w) /\ Forall (fun c => c <> 0) (w_arg w).
Hypothesis Hlength : (0 < length (w_arg w) <= 31)%nat.

(** The array with the argument. *)
Definition arg_buf : list Z := w_arg w ++ 0 :: drop (S (length (w_arg w))) buf.

Lemma arg_buf_ok : until0 arg_buf = Some (w_arg w) /\ length arg_buf = 1024%nat /\ bytes arg_buf.
Proof using Harray Hchans Hname Hlength.
  destruct Harray as (Hl & Hb & _), Hname as [Hba Hza]. split_and!; [by apply until0_app|unfold arg_buf; lens|].
  apply Forall_app. split; [done|]. constructor; [unfold byte; lia|by apply Forall_drop].
Qed.

Lemma cat_getargs (Q : Z -> world -> Prop) fd w1 :
  service vol _ (Sys_open arg_buf) w = Ret fd w1 ->
  runs' Q (if bool_decide (-1 = fd) then
      _ ← ece391_fdputs 1 (cstring "file not found
");
      mret 2
    else loop (cat_round behind fd) (0%nat, arg_buf)) w1 ->
  runs' Q (cat_main buf behind) w.
Proof using Harray Hchans Hname Hlength.
  destruct Harray as (Hl & _ & _). intros Ho HQ. eapply runs_call; [apply service_getargs_eq; lia|].
  cbn beta iota. rewrite bool_decide_false by lia. eapply runs_call; [exact Ho|exact HQ].
Qed.

Lemma cat_not_found :
  vol_node vol (w_arg w) = None \/ free_chan w = None ->
  runs' (answers 2 [bytes_of_string "file not found
"] w)
    (cat_main buf behind) w.
Proof using Harray Hchans Hname Hlength.
  destruct arg_buf_ok as (Hu & _ & Hb). intros Hno.
  eapply cat_getargs; [apply (service_open_fails vol arg_buf (w_arg w)); auto; lia|].
  rewrite bool_decide_true by done. eapply fdputs_runs; [apply cstring_bytes|reflexivity|done|].
  apply runs_ret, answers_print.
Qed.

Lemma cat_opened (Q : Z -> world -> Prop) nd i :
  vol_node vol (w_arg w) = Some nd -> free_chan w = Some i ->
  runs' Q (loop (cat_round behind i) (0%nat, arg_buf)) (set_chan i (opened nd) w) ->
  runs' Q (cat_main buf behind) w.
Proof using Harray Hchans Hname Hlength.
  destruct arg_buf_ok as (Hu & _ & Hb). intros Hnd Hi HQ. pose proof (set_chan_range i w Hi Hchans).
  eapply cat_getargs; [by apply (service_open_node vol arg_buf (w_arg w) nd w i)|].
  by rewrite bool_decide_false by lia.
Qed.

Lemma cat_runs :
  vol_node vol (w_arg w) <> Some DirNode ->
  (forall l, vol_node vol (w_arg w) = Some (FileNode l) -> bytes l /\ len l < 1073741824) ->
  let '(r, text, w') := cat_outcome w in
  runs' (answers r text w') (cat_main buf behind) w.
Proof using Harray Hchans Hname Hlength.
  intros Hdir Hfile. unfold cat_outcome. destruct (vol_node vol (w_arg w)) as [nd|] eqn:Hnd;
    [|apply cat_not_found; auto].
  destruct (free_chan w) as [i|] eqn:Hi; [|destruct nd; apply cat_not_found; auto].
  pose proof (set_chan_range i w Hi Hchans) as Hir. pose proof (load_set_chan i (opened nd) w Hir Hchans) as Hld.
  destruct arg_buf_ok as (_ & Hl & Hb). destruct nd as [| |l]; [|done|]; eapply cat_opened; try done.
  - apply runs_loop. unfold cat_round at 2.
    eapply runs_call; [rewrite (service_read_chan vol _ i _ _ Hir _ Hld); reflexivity|].
    cbn beta iota. rewrite bool_decide_false by lia. apply runs_ret, answers_nil.
  - destruct (Hfile l eq_refl) as [Hbl Hll]. destruct Harray as (_ & _ & Hbeh).
    eapply runs_mono; [by apply (cat_loop_runs behind i l (length l) 0)|].
    intros r w' Hend. unfold set_chan in Hend at 1. cbn in Hend. by rewrite list_insert_insert_eq in Hend.
Qed.
End Cat.

(** *** ls *)

(** The names that fit the array of ls, with a NUL. *)
Definition ls_name (name : list Z) : Prop :=
  bytes name /\ Forall (fun c => c <> 0) name /\ (0 < length name <= 32)%nat.

Lemma ls_loop_runs behind fd m j k buf w :
  array_ok buf 33 behind -> 2 <= fd < 8 -> load (w_chans w) (fd - 2) = Some DirChan ->
  Forall ls_name (vol_names vol) -> w_index w = Z.of_nat j -> (j + m = length (vol_names vol))%nat ->
  runs' (answers 0 ((fun name => name ++ [10]) <$> drop j (vol_names vol)) (set_index 0 w))
    (loop (ls_round behind fd) (k, buf)) w.
Proof.
  intros (Hl & Hb & Hbeh) Hfd Hc Hns. revert j k buf w Hl Hb Hc.
  induction m as [|m IH]; intros j k buf w Hl Hb Hc Hj Hm; apply runs_loop; unfold ls_round at 2;
    pose proof (service_read_chan vol w fd buf (SBUFSIZE - 1) Hfd _ Hc) as Hread; cbv iota in Hread;
    rewrite Hj, load_lookup in Hread.
  - rewrite lookup_ge_None_2 in Hread by lia. eapply runs_call; [exact Hread|]. cbn beta iota.
    rewrite bool_decide_false by lia. apply runs_ret.
    rewrite drop_ge by lia. apply answers_nil.
  - destruct (lookup_lt_is_Some_2 (vol_names vol) j) as [name Hname]; [lia|]. rewrite Hname in Hread.
    pose proof (Forall_lookup_1 _ _ _ _ Hns Hname) as (Hbn & Hzn & Hln).
    rewrite !bool_decide_true in Hread by lia. cbn [andb] in Hread.
    eapply runs_call; [exact Hread|]. clear Hread. cbn beta iota.
    rewrite bool_decide_true, bool_decide_false by lia.
    eapply runs_inside; [by apply store_middle|]. set (rest := drop (S (length name)) buf).
    destruct (Hbeh k) as (Hbk & Hsk & Hlk).
    assert (bytes (name ++ 10 :: rest)) as Hb'.
    { apply Forall_app. split; [done|]. constructor; [unfold byte; lia|by apply Forall_drop]. }
    assert (length (name ++ 10 :: rest) = 33%nat) as Hl' by (subst rest; lens).
    replace (len name + 1) with (Z.of_nat (length name + 1)) by lia.
    apply write_runs; [by apply Forall_app|done|lia|lens|]. intros long v Hv.
    rewrite bool_decide_false by lia. apply runs_ret.
    assert (cstr (take (length name + 1) (name ++ 10 :: rest)) = name ++ [10]) as ->.
    { change (10 :: rest) with ([10] ++ rest). rewrite app_assoc, take_app_length' by lens.
      apply cstr_nonzero. apply Forall_app. split; [done|]. by repeat constructor. }
    eapply runs_mono; [apply (IH (S j)); try done; cbn [print set_index w_index]; lia|].
    intros r w' Hend. rewrite (drop_S _ _ _ Hname). by apply (answers_cons 0 long).
Qed.

Lemma ls_runs behind buf w i :
  array_ok buf 33 behind -> length (w_chans w) = 6%nat -> vol_node vol [46] = Some DirNode ->
  free_chan w = Some i -> Forall ls_name (vol_names vol) -> 0 <= w_index w <= len (vol_names vol) ->
  runs' (answers 0 ((fun name => name ++ [10]) <$> drop (Z.to_nat (w_index w)) (vol_names vol))
      (set_index 0 (set_chan i DirChan w)))
    (ls_main buf behind) w.
Proof.
  intros Harray Hch Hdot Hi Hns Hidx. pose proof (set_chan_range i w Hi Hch) as Hir. unfold ls_main.
  eapply runs_call; [apply (service_open_node vol _ [46] DirNode w i); try done; [apply cstring_bytes|simpl; lia]|].
  rewrite bool_decide_false by lia.
  apply (ls_loop_runs behind i (length (vol_names vol) - Z.to_nat (w_index w))); try done.
  - by apply load_set_chan.
  - cbn [set_chan w_index]. lia.
  - lia.
Qed.
End Programs.
