(* ===== verification/Emulate.v ===== *)
(** * The emulation of the system calls on Linux

    [src/syscalls/ece391emulate.c], which the user programs can be linked with instead of
    ece391syscall.S: the calls on top of Linux's. Linux and its C library are a parameter,
    a record of functions on a state of their own. *)
From S2P Require Import Prelude Clib.
From S2P Require Export Programs.

(** ** Linux *)

(** How a child ended. *)
Inductive wait_status :=
| Exited (code : Z)
| Signaled (sig : Z).

Definition O_RDONLY : Z := 0.
Definition O_RDWR : Z := 2.

(** The calls that the emulation uses, on the states [W]. A call that stores in an array
    answers with the array. A string is an array with a NUL, [readdir] answers with
    [d_name]. *)
Record linux (W : Type) := Linux {
  sys_read : Z -> list Z -> Z -> M W (Z * list Z);
  sys_write : Z -> list Z -> Z -> M W Z;
  sys_open : list Z -> Z -> M W Z;
  sys_close : Z -> M W Z;
  libc_open : list Z -> Z -> M W Z;
  libc_close : Z -> M W unit;
  opendir : list Z -> M W (option Z);
  readdir : Z -> M W (option (list Z));
  closedir : Z -> M W unit;
  (** The first MB of the memory that a file shows; [None]: MAP_FAILED. *)
  mmap : Z -> M W (option Z);
  perror : list Z -> M W unit;
  (** A new process, and waiting for it: [None] if there is none. *)
  fork_wait : M W wait_status -> M W (option wait_status);
  (** How the program that replaces the process ends; [None]: there is no such program. *)
  execv : list Z -> list (list Z) -> M W (option wait_status);
}.
Arguments sys_read {W} l _ _ _.
Arguments sys_write {W} l _ _ _.
Arguments sys_open {W} l _ _.
Arguments sys_close {W} l _.
Arguments libc_open {W} l _ _.
Arguments libc_close {W} l _.
Arguments opendir {W} l _.
Arguments readdir {W} l _.
Arguments closedir {W} l _.
Arguments mmap {W} l _.
Arguments perror {W} l _.
Arguments fork_wait {W} l _.
Arguments execv {W} l _ _.

(** ** The code *)

(** The static variables; [argv]: the strings that start_esp leads to. *)
Record emulation := Emulation {
  argv : list (list Z);
  dir_fd : Z;
  dir : option Z;
  mem_fd : Z;
}.

Definition set_dir (d : option Z) (e : emulation) : emulation := Emulation (argv e) (dir_fd e) d (mem_fd e).
Definition set_dir_fd (fd : Z) (e : emulation) : emulation := Emulation (argv e) fd (dir e) (mem_fd e).
Definition set_mem_fd (fd : Z) (e : emulation) : emulation := Emulation (argv e) (dir_fd e) (dir e) fd.

#[export] Instance os_lens {W} : Lens (emulation * W) W.
Proof. refine {| lget := snd; lset := fun w s => (fst s, w) |}; by intros; repeat match goal with s : _ * _ |- _ => destruct s end. Defined.

Section Code.
Context {W : Type} (L : linux W).
Abbreviation St := (emulation * W)%type.

Definition statics : M St emulation := gets fst.
Definition upd (f : emulation -> emulation) : M St unit := modify (fun s => (f (fst s), snd s)).

(** [DO_CALL]: what a wrapper makes of EAX. *)
Definition do_call (eax : Z) : Z := s32 (if bool_decide (u32 eax <= 0xFFFFC000) then eax else -1).

Definition emu_open (filename : list Z) : M St Z :=
  c ← lift (ece391_strcmp filename (cstring "."));
  if bool_decide (0 = c) then
    d ← zoom (opendir L (cstring "."));
    upd (set_dir d) ;;
    fd ← zoom (libc_open L (cstring "/dev/null") O_RDONLY);
    upd (set_dir_fd fd) ;;
    mret fd
  else
    rval ← zoom (sys_open L filename O_RDONLY);
    mret (if bool_decide (u32 rval > 0xFFFFC000) then -1 else s32 rval).

(** [while ('\0' != *from)]: [to] is the array from [copied] on; [inr] returns. *)
Fixpoint copy_name (from buf : list Z) (copied nbytes : Z) : option (list Z * Z + list Z * Z) :=
  match from with
  | [] => None
  | c :: from' =>
      if bool_decide (0 <> c) then
        buf ← store buf copied c;
        if bool_decide (copied + 1 = nbytes) then Some (inr (buf, nbytes))
        else if bool_decide (32 = copied + 1) then Some (inr (buf, 32))
        else copy_name from' buf (copied + 1) nbytes
      else Some (inl (buf, copied))
  end.
(** [while (nbytes > copied && 32 > copied)]: at most 32 rounds. *)
Fixpoint pad_entry (fuel : nat) (buf : list Z) (copied nbytes : Z) : option (list Z * Z) :=
  if bool_decide (nbytes > copied) && bool_decide (32 > copied) then
    match fuel with
    | O => None
    | S fuel' => buf ← store buf copied 0; pad_entry fuel' buf (copied + 1) nbytes
    end
  else Some (buf, copied).
Definition copy_entry (d_name buf : list Z) (nbytes : Z) : option (Z * list Z) :=
  r ← copy_name d_name buf 0 nbytes;
  match r with
  | inr (buf, n) => Some (n, buf)
  | inl (buf, copied) => '(buf, copied) ← pad_entry 32 buf copied nbytes; Some (copied, buf)
  end.

Definition emu_read (fd : Z) (buf : list Z) (nbytes : Z) : M St (Z * list Z) :=
  e ← statics;
  let linux_read := '(eax, buf) ← zoom (sys_read L fd buf nbytes); mret (do_call eax, buf) in
  match dir e with
  | None => linux_read
  | Some d =>
      if bool_decide (dir_fd e <> fd) then linux_read
      else
        de ← zoom (readdir L d);
        match de with
        | None => mret (0, buf)
        | Some d_name => lift (copy_entry d_name buf nbytes)
        end
  end.

Definition emu_write (fd : Z) (buf : list Z) (nbytes : Z) : M St Z :=
  e ← statics;
  if bool_decide (dir e = None) || bool_decide (dir_fd e <> fd) then
    eax ← zoom (sys_write L fd buf nbytes); mret (do_call eax)
  else mret (-1).

Definition emu_close (fd : Z) : M St Z :=
  e ← statics;
  let linux_close := eax ← zoom (sys_close L fd); mret (do_call eax) in
  match dir e with
  | None => linux_close
  | Some d =>
      if bool_decide (dir_fd e <> fd) then linux_close
      else
        zoom (closedir L d) ;;
        upd (set_dir None) ;;
        zoom (libc_close L (dir_fd e)) ;;
        upd (set_dir_fd (-1)) ;;
        mret 0
  end.

(** The result, and the address that is stored for the caller. *)
Definition emu_vidmap : M St (Z * option Z) :=
  e ← statics;
  (if bool_decide (mem_fd e = -1) then
     fd ← zoom (libc_open L (cstring "/dev/mem") O_RDWR);
     upd (set_mem_fd fd)
   else mret tt) ;;
  e ← statics;
  mem_image ← zoom (mmap L (mem_fd e));
  match mem_image with
  | None => zoom (perror L (cstring "mmap low memory")) ;; mret (-1, None)
  | Some p => mret (0, Some (u32 (p + 0xb8000)))
  end.

(** *** Arguments *)

(** ece391_strcpy into an array from an index on, from another object. *)
Fixpoint strcpy_at (buf : list Z) (i : Z) (src : list Z) : option (list Z) :=
  match src with
  | [] => None
  | c :: src' =>
      buf ← store buf i c;
      if bool_decide (0 <> c) then strcpy_at buf (i + 1) src' else Some buf
  end.

(** [while (idx < argc)], with the strings from [idx] on: [buf] and [nbytes], or a result
    of -1. *)
Fixpoint join_args (args : list (list Z)) (buf : list Z) (i nbytes : Z) : option (list Z * Z * Z + list Z) :=
  match args with
  | [] => Some (inl (buf, i, nbytes))
  | a :: args' =>
      n ← ece391_strlen a;
      if bool_decide (n > nbytes) then Some (inr buf)
      else
        buf ← strcpy_at buf i a;
        let i := i + n in
        let nbytes := nbytes - n in
        match args' with
        | [] => Some (inl (buf, i, nbytes))
        | _ =>
            if bool_decide (nbytes < 1) then Some (inr buf)
            else buf ← store buf i 32; join_args args' buf (i + 1) (nbytes - 1)
        end
  end.
Definition fill_args (args : list (list Z)) (buf : list Z) (nbytes : Z) : option (Z * list Z) :=
  r ← join_args args buf 0 nbytes;
  match r with
  | inr buf => Some (-1, buf)
  | inl (buf, i, nbytes) => if bool_decide (nbytes < 1) then Some (-1, buf) else buf ← store buf i 0; Some (0, buf)
  end.
Definition emu_getargs (buf : list Z) (nbytes : Z) : M St (Z * list Z) :=
  e ← statics; lift (fill_args (tail (argv e)) buf nbytes).

(** A walk over an array up to a character that stops it; it leaves the array before the
    fuel, one more than its length, is used up. *)
Fixpoint scan_to (stop : Z -> bool) (fuel : nat) (buf : list Z) (scan : Z) : option Z :=
  match fuel with
  | O => None
  | S fuel' => c ← load buf scan; if stop c then Some scan else scan_to stop fuel' buf (scan + 1)
  end.
Definition word_end (c : Z) : bool := bool_decide (c = 0) || bool_decide (c = 32) || bool_decide (c = 10).
Definition not_space (c : Z) : bool := bool_decide (c <> 32).

(** [while (1)]: a round passes a character or ends, so a round per character is
    enough. A pointer in [args] is an index of the array; [None] is NULL. *)
Fixpoint parse_args (fuel : nat) (buf : list Z) (scan : Z) (args : list (option Z)) (n_arg : Z) :
    option (list Z * list (option Z) * Z) :=
  match fuel with
  | O => None
  | S fuel' =>
      scan ← scan_to not_space (S (length buf)) buf scan;
      c ← load buf scan;
      if bool_decide (c = 0) || bool_decide (c = 10) then
        buf ← store buf scan 0;
        Some (buf, args, n_arg)
      else
        args ← store args n_arg (Some scan);
        scan ← scan_to word_end (S (length buf)) buf scan;
        c ← load buf scan;
        if bool_decide (0 <> c) then
          buf ← store buf scan 0;
          parse_args fuel' buf (scan + 1) args (n_arg + 1)
        else parse_args fuel' buf scan args (n_arg + 1)
  end.

(** What execv is passed: the string in the array, and the strings up to the NULL. *)
Fixpoint strings_of (buf : list Z) (args : list (option Z)) : option (list (list Z)) :=
  match args with
  | [] => None
  | None :: _ => Some []
  | Some i :: args' => a ← until0 (drop (Z.to_nat i) buf); l ← strings_of buf args'; Some (a :: l)
  end.

(** The pointers, and NULs behind the words of the array. *)
Definition parse_words (buf : list Z) (args : list (option Z)) : option (list Z * list (option Z)) :=
  scan ← scan_to word_end (S (length buf)) buf 2;
  args ← store args 0 (Some 0);
  c ← load buf scan;
  '(buf, args, n_arg) ←
    (if bool_decide (0 <> c) then
       buf ← store buf scan 0;
       parse_args (length buf) buf (scan + 1) args 1
     else Some (buf, args, 1));
  args ← store args n_arg None;
  Some (buf, args).
(** [buf] (1026 bytes) and [args] (1024 pointers) are the local arrays. *)
Definition split_command (buf : list Z) (args : list (option Z)) (command : list Z) : option (list Z * list (option Z)) :=
  buf ← store buf 0 46;
  buf ← store buf 1 47;
  buf ← strcpy_at buf 2 command;
  parse_words buf args.

(** The child: if execv returns, it kills itself. *)
Definition child (buf : list Z) (args : list (option Z)) : M W wait_status :=
  path ← lift (until0 buf);
  l ← lift (strings_of buf args);
  r ← execv L path l;
  match r with Some st => mret st | None => mret (Signaled 9) end.

Definition emu_execute (buf : list Z) (args : list (option Z)) (command : list Z) : M St Z :=
  n ← lift (ece391_strlen command);
  if bool_decide (1023 < n) then mret (-1)
  else
    '(buf, args) ← lift (split_command buf args command);
    st ← zoom (fork_wait L (child buf args));
    match st with
    | Some (Exited code) => mret code
    | Some (Signaled sig) => mret (if bool_decide (9 = sig) then -1 else 256)
    | None => undef
    end.

(** The programs that are linked with it; [buf] and [args] are the bytes on the stack. *)
Definition emulated (buf : list Z) (args : list (option Z)) : handler St := fun T e =>
  match e with
  | Sys_read fd b n => emu_read fd b n
  | Sys_write fd b n => emu_write fd b n
  | Sys_open f => emu_open f
  | Sys_close fd => emu_close fd
  | Sys_getargs b n => emu_getargs b n
  | Sys_execute c => emu_execute buf args c
  | Sys_vidmap_at _ => '(r, p) ← emu_vidmap; p ← lift p; mret (r, p)
  | Sys_vidmap _ | Sys_number _ | Sys_poke _ _ | Fault => undef
  end.
End Code.

(** ** Arguments

    The words of a command, between spaces; a newline behind a word ends it like a space,
    one where a word could begin ends the command. [w]: the word that has begun. *)
Fixpoint words_of (w : option (list Z)) (l : list Z) : list (list Z) :=
  match l with
  | [] => match w with None => [] | Some w => [w] end
  | c :: l' =>
      match w with
      | None => if decide (c = 32) then words_of None l' else if decide (c = 10) then [] else words_of (Some [c]) l'
      | Some w => if decide (c = 32 \/ c = 10) then w :: words_of None l' else words_of (Some (w ++ [c])) l'
      end
  end.

(** Words, with a space between two of them. *)
Fixpoint join (ws : list (list Z)) : list Z :=
  match ws with
  | [] => []
  | [w] => w
  | w :: ws' => w ++ 32 :: join ws'
  end.

Definition word (w : list Z) : Prop := w <> [] /\ Forall (fun c => c <> 0 /\ c <> 32 /\ c <> 10) w.

Lemma words_of_word w v l :
  Forall (fun c => c <> 0 /\ c <> 32 /\ c <> 10) v -> words_of (Some w) (v ++ l) = words_of (Some (w ++ v)) l.
Proof.
  revert w. induction v as [|c v IH]; intros w Hv; [by rewrite app_nil_r|]. inv Hv as [|? ? Hc Hv'].
  cbn [app words_of]. rewrite decide_False by lia. rewrite IH by done. by rewrite <-app_assoc.
Qed.

Lemma words_of_start v l : word v -> words_of None (v ++ l) = words_of (Some v) l.
Proof.
  intros [Hne Hv]. destruct v as [|c v]; [done|]. inv Hv as [|? ? Hc Hv'].
  cbn [app words_of]. rewrite !decide_False by lia. by rewrite words_of_word.
Qed.

Lemma join_cons w ws : ws <> [] -> join (w :: ws) = w ++ 32 :: join ws.
Proof. by destruct ws. Qed.

Lemma words_of_join ws : Forall word ws -> words_of None (join ws) = ws.
Proof.
  induction 1 as [|w ws Hw Hws IH]; [done|]. destruct ws as [|w' ws].
  - cbn [join]. rewrite <-(app_nil_r w) at 1. by rewrite words_of_start.
  - rewrite join_cons, words_of_start by done. cbn [words_of]. rewrite decide_True by lia. by rewrite IH.
Qed.

(** *** getargs *)

Lemma strcpy_at_fits pre mid post src str :
  until0 src = Some str -> length mid = S (length str) ->
  strcpy_at (pre ++ mid ++ post) (len pre) src = Some (pre ++ str ++ 0 :: post).
Proof.
  revert pre mid str. induction src as [|c src IH]; intros pre mid str; [done|]. cbn [until0 strcpy_at].
  destruct mid as [|d mid]; [done|]. cbn [app]. rewrite store_middle by done. cbn [mbind option_bind].
  case_bool_decide as Hc.
  - intros [= <-] [= Hm%nil_length_inv]. subst. by rewrite bool_decide_false by lia.
  - intros (l & Hl & [= <-])%bind_Some [= Hm]. rewrite bool_decide_true by done.
    specialize (IH (pre ++ [c]) mid l Hl Hm). rewrite <-!app_assoc in IH. cbn [app] in IH.
    replace (len pre + 1) with (len (pre ++ [c])) by lens. exact IH.
Qed.

Lemma strcpy_at_over pre mid src str :
  until0 src = Some str -> (length mid <= length str)%nat -> strcpy_at (pre ++ mid) (len pre) src = None.
Proof.
  revert pre mid str. induction src as [|c src IH]; intros pre mid str; [done|]. cbn [until0 strcpy_at].
  intros Hs Hm. destruct mid as [|d mid].
  { rewrite app_nil_r. by rewrite store_oob by lia. }
  rewrite store_middle by done. cbn [mbind option_bind]. case_bool_decide as Hc; [injection Hs as <-; cbn in Hm; lia|].
  apply bind_Some in Hs as (l & Hl & [= <-]). rewrite bool_decide_true by done.
  specialize (IH (pre ++ [c]) mid l Hl). rewrite <-app_assoc in IH. cbn [app length] in *.
  replace (len pre + 1) with (len (pre ++ [c])) by lens. apply IH. lia.
Qed.

Lemma until0_word w r : word w -> until0 (w ++ 0 :: r) = Some w.
Proof. intros [_ Hw]. apply until0_app. eapply Forall_impl; [exact Hw|]. by intros c (? & _). Qed.

(** The strings of a process's arguments. *)
Definition strings (args ws : list (list Z)) : Prop := Forall2 (fun a w => until0 a = Some w) args ws.

Lemma join_args_fits args ws pre mid post nbytes :
  strings args ws -> len (join ws) < nbytes -> length mid = length (join ws) -> nbytes <= len mid + len post ->
  exists p', length p' = length post /\
    join_args args (pre ++ mid ++ post) (len pre) nbytes = Some (inl (pre ++ join ws ++ p', len pre + len (join ws), nbytes - len (join ws))).
Proof.
  intros Hs. revert pre mid post nbytes. induction Hs as [|a w args ws Ha Hs IH]; intros pre mid post nbytes Hl Hm Hp.
  { cbn in *. apply nil_length_inv in Hm as ->. exists post. split; [done|]. cbn. by rewrite Z.add_0_r, Z.sub_0_r. }
  cbn [join_args]. rewrite ece391_strlen_eq, (strlen_Some _ _ Ha). cbn [mbind option_bind].
  assert (len w <= len (join (w :: ws))) as Hw by (destruct ws; cbn [join]; rewrite ?length_app; lia).
  rewrite bool_decide_false by lia.
  assert (exists m1 m2, mid ++ post = m1 ++ m2 /\ length m1 = S (length w)) as (m1 & m2 & E & Hm1).
  { exists (take (S (length w)) (mid ++ post)), (drop (S (length w)) (mid ++ post)). split; [by rewrite take_drop|].
    rewrite length_take, length_app. lia. }
  rewrite E, (strcpy_at_fits pre m1 m2 a w Ha Hm1). cbn [mbind option_bind].
  apply (f_equal length) in E. rewrite !length_app in E.
  destruct Hs as [|a' w' args ws Ha' Hs].
  - cbn [join] in *. exists (0 :: m2). split; [cbn [length]; lia|done].
  - rewrite (join_cons w) in * by done. rewrite length_app in *. cbn [length] in *.
    rewrite bool_decide_false by lia.
    replace (pre ++ w ++ 0 :: m2) with ((pre ++ w) ++ 0 :: m2) by by rewrite <-app_assoc.
    rewrite store_middle by lens. cbn [mbind option_bind].
    set (k := length (join (w' :: ws))) in *.
    destruct (IH ((pre ++ w) ++ [32]) (take k m2) (drop k m2) (nbytes - len w - 1)) as (p' & Hp' & E');
      [fold k; lia|rewrite length_take; fold k; lia|rewrite length_take, length_drop; lia|].
    exists p'. split; [rewrite Hp', length_drop; lia|]. rewrite take_drop in E'. fold k in E'.
    rewrite <-!app_assoc in E'. cbn [app] in E'.
    rewrite <-!app_assoc. cbn [app].
    replace (len pre + len w + 1) with (len (pre ++ w ++ [32])) by lens. rewrite E'.
    do 3 f_equal; [|lia]. f_equal. lens.
Qed.

Lemma fill_args_fits args ws buf nbytes :
  strings args ws -> len (join ws) < nbytes <= len buf ->
  exists p', fill_args args buf nbytes = Some (0, join ws ++ 0 :: p') /\ length (join ws ++ 0 :: p') = length buf.
Proof.
  intros Hs [Hl Hb]. set (k := length (join ws)) in *.
  destruct (join_args_fits args ws [] (take k buf) (drop k buf) nbytes Hs) as (p' & Hp & E);
    [done|by rewrite length_take; lia|rewrite length_take, length_drop; lia|].
  change (len []) with 0 in E. cbn [app] in E. rewrite take_drop in E. unfold fill_args. rewrite E. cbn [mbind option_bind].
  fold k. rewrite bool_decide_false by lia. rewrite length_drop in Hp. destruct p' as [|x p']; [cbn in Hp; lia|].
  rewrite store_middle by (fold k; lia). exists p'. split; [done|]. rewrite length_app. cbn [length] in *. fold k. lia.
Qed.

(** An argument that ends where the array ends: its NUL is stored behind the array. *)
Lemma join_args_over args args' ws pre mid nbytes :
  strings args ws -> ws <> [] -> len (join ws) = nbytes -> length mid = length (join ws) ->
  join_args (args ++ args') (pre ++ mid) (len pre) nbytes = None.
Proof.
  intros Hs. revert pre mid nbytes. induction Hs as [|a w args ws Ha Hs IH]; intros pre mid nbytes Hne Hl Hm; [done|].
  cbn [app join_args]. rewrite ece391_strlen_eq, (strlen_Some _ _ Ha). cbn [mbind option_bind].
  destruct Hs as [|a' w' args ws Ha' Hs].
  { cbn [join] in *. rewrite bool_decide_false by lia. by rewrite (strcpy_at_over _ _ _ w) by (done || lia). }
  rewrite (join_cons w) in * by done. rewrite length_app in *. cbn [length] in *.
  rewrite bool_decide_false by lia.
  assert (exists m1 m2, mid = m1 ++ m2 /\ length m1 = S (length w)) as (m1 & m2 & -> & Hm1).
  { exists (take (S (length w)) mid), (drop (S (length w)) mid). split; [by rewrite take_drop|]. rewrite length_take. lia. }
  rewrite (strcpy_at_fits pre m1 m2 a w Ha Hm1). cbn [mbind option_bind app].
  rewrite length_app in Hm. rewrite bool_decide_false by lia.
  replace (pre ++ w ++ 0 :: m2) with ((pre ++ w) ++ 0 :: m2) by by rewrite <-app_assoc.
  rewrite store_middle by lens. cbn [mbind option_bind].
  specialize (IH ((pre ++ w) ++ [32]) m2 (nbytes - len w - 1)). rewrite <-!app_assoc in IH. cbn [app] in IH.
  rewrite <-app_assoc. cbn [app]. replace (len pre + len w + 1) with (len (pre ++ w ++ [32])) by lens.
  apply IH; [done|lia|lia].
Qed.

(** *** execute *)

Lemma span_exists (P : Z -> Prop) `{!forall c, Decision (P c)} (l : list Z) :
  exists a b, l = a ++ b /\ Forall P a /\ (b = [] \/ exists c b', b = c :: b' /\ ~ P c).
Proof.
  induction l as [|c l (a & b & -> & Ha & Hb)]; [by exists [], []; auto|].
  destruct (decide (P c)) as [Hc|Hc]; [exists (c :: a), b; auto|]. exists [], (c :: a ++ b). eauto 10.
Qed.

Lemma scan_to_eq stop fuel pre a c post :
  Forall (fun x => stop x = false) a -> stop c = true -> (length a < fuel)%nat ->
  scan_to stop fuel (pre ++ a ++ c :: post) (len pre) = Some (len pre + len a).
Proof.
  intros Ha Hc. revert fuel pre. induction Ha as [|x a Hx Ha IH]; intros fuel pre Hf; (destruct fuel as [|fuel]; [lia|]);
    cbn [app scan_to]; rewrite load_middle by done; cbn [mbind option_bind].
  - rewrite Hc. cbn. by rewrite Z.add_0_r.
  - rewrite Hx. specialize (IH fuel (pre ++ [x])). rewrite <-app_assoc in IH. cbn [app length] in *.
    replace (len pre + 1) with (len (pre ++ [x])) by lens. rewrite IH by lia. f_equal. lens.
Qed.

Lemma words_of_spaces sp l : Forall (fun c => c = 32) sp -> words_of None (sp ++ l) = words_of None l.
Proof. induction 1 as [|c sp -> _ IH]; [done|]. cbn [app words_of]. by rewrite decide_True by done. Qed.

(** A pointer to a string in an array. *)
Definition points (buf : list Z) (i : Z) (w : list Z) : Prop := 0 <= i /\ until0 (drop (Z.to_nat i) buf) = Some w.

Lemma points_middle pre w post : Forall (fun c => c <> 0) w -> points (pre ++ w ++ 0 :: post) (len pre) w.
Proof. intros Hw. split; [lia|]. rewrite Nat2Z.id, drop_app_length. by apply until0_app. Qed.

Lemma word_nonzero w : word w -> Forall (fun c => c <> 0) w.
Proof. intros [_ Hw]. eapply Forall_impl; [exact Hw|]. by intros c (? & _). Qed.

(** The ways in which a command goes on where a word can begin. *)
Inductive splits : list Z -> list (list Z) -> Prop :=
| splits_end sp : Forall (fun c => c = 32) sp -> splits sp []
| splits_newline sp l : Forall (fun c => c = 32) sp -> splits (sp ++ 10 :: l) []
| splits_last sp w : Forall (fun c => c = 32) sp -> word w -> splits (sp ++ w) [w]
| splits_word sp w c l ws :
    Forall (fun c => c = 32) sp -> word w -> c = 32 \/ c = 10 -> splits l ws -> splits (sp ++ w ++ c :: l) (w :: ws).

Lemma words_splits l : Forall (fun c => c <> 0) l -> splits l (words_of None l).
Proof.
  revert l. induction l as [l IH] using (well_founded_induction (Wf_nat.well_founded_ltof _ length)). unfold Wf_nat.ltof in IH. intros Hz.
  destruct (span_exists (fun c => c = 32) l) as (sp & r & -> & Hsp & Hr). rewrite words_of_spaces by done.
  apply Forall_app in Hz as [_ Hz]. destruct Hr as [->|(c & r' & -> & Hc)]; [rewrite app_nil_r; by constructor|].
  destruct (decide (c = 10)) as [->|Hc10].
  { cbn [words_of]. rewrite decide_False, decide_True by done. by constructor. }
  destruct (span_exists (fun c => c <> 0 /\ c <> 32 /\ c <> 10) (c :: r')) as (w & r2 & E & Hw & Hr2). rewrite E in *.
  assert (word w) as Hword.
  { split; [|done]. intros ->. destruct Hr2 as [->|(c2 & r3 & -> & Hc2)]; [done|]. injection E as <- <-. inv Hz. lia. }
  rewrite words_of_start by done. destruct Hr2 as [->|(c2 & r3 & -> & Hc2)].
  - rewrite app_nil_r. by constructor.
  - apply Forall_app in Hz as [_ Hz]. inv Hz as [|? ? H0 Hz']. cbn [words_of].
    rewrite decide_True by lia. constructor; [done|done|lia|]. apply IH; [|done]. rewrite !length_app. cbn [length]. lia.
Qed.

Section Steps.
Context (pre sp : list Z) (Hsp : Forall (fun c => c = 32) sp).

Lemma to_word c post (f : list Z -> Z -> Z -> option (list Z * list (option Z) * Z)) :
  c <> 32 ->
  (scan ← scan_to not_space (S (length (pre ++ sp ++ c :: post))) (pre ++ sp ++ c :: post) (len pre);
   c ← load (pre ++ sp ++ c :: post) scan; f (pre ++ sp ++ c :: post) scan c)
  = f (pre ++ sp ++ c :: post) (len (pre ++ sp)) c.
Proof using Hsp.
  intros Hc. assert (Forall (fun x => not_space x = false) sp) as Hns by (eapply Forall_impl; [exact Hsp|]; by intros x ->).
  rewrite scan_to_eq; [|done|by unfold not_space; rewrite bool_decide_true|rewrite !length_app; cbn [length]; lia].
  cbn [mbind option_bind]. replace (len pre + len sp) with (len (pre ++ sp)) by lens.
  assert (load (pre ++ sp ++ c :: post) (len (pre ++ sp)) = Some c) as -> by by rewrite app_assoc, load_middle.
  reflexivity.
Qed.

Lemma parse_end fuel c post args n :
  c = 0 \/ c = 10 ->
  parse_args (S fuel) (pre ++ sp ++ c :: post) (len pre) args n = Some (pre ++ sp ++ 0 :: post, args, n).
Proof using Hsp.
  intros Hc. cbn [parse_args].
  rewrite (to_word c post (fun buf scan c => if bool_decide (c = 0) || bool_decide (c = 10) then _ else _)) by lia.
  replace (bool_decide (c = 0) || bool_decide (c = 10)) with true by (by destruct Hc as [-> | ->]).
  rewrite (app_assoc pre), store_middle by done. cbn. by rewrite <-app_assoc.
Qed.

Lemma parse_word fuel w c post args args' n :
  word w -> c = 0 \/ c = 32 \/ c = 10 -> store args n (Some (len (pre ++ sp))) = Some args' ->
  parse_args (S fuel) (pre ++ sp ++ w ++ c :: post) (len pre) args n
  = if decide (c = 0) then parse_args fuel (pre ++ sp ++ w ++ 0 :: post) (len (pre ++ sp ++ w)) args' (n + 1)
    else parse_args fuel (pre ++ sp ++ w ++ 0 :: post) (len (pre ++ sp ++ w ++ [0])) args' (n + 1).
Proof using Hsp.
  intros Hw Hc Hs. destruct Hw as [Hne Hw]. destruct w as [|d v]; [done|]. pose proof (Forall_inv Hw) as Hd. cbn in Hd.
  cbn [parse_args app].
  rewrite (to_word d (v ++ c :: post) (fun buf scan c => if bool_decide (c = 0) || bool_decide (c = 10) then _ else _)) by lia.
  rewrite !bool_decide_false by lia. cbn [orb]. rewrite Hs. cbn [mbind option_bind].
  change (d :: v ++ c :: post) with ((d :: v) ++ c :: post). set (w := d :: v) in *. rewrite (app_assoc pre).
  rewrite scan_to_eq; [|eapply Forall_impl; [exact Hw|]; intros y (? & ? & ?); unfold word_end; by rewrite !bool_decide_false|
    unfold word_end; by destruct Hc as [-> |[-> | ->]]|rewrite !length_app; cbn [length]; lia].
  cbn [mbind option_bind]. replace (len (pre ++ sp) + len w) with (len ((pre ++ sp) ++ w)) by lens.
  rewrite (app_assoc (pre ++ sp)), load_middle by done. cbn [mbind option_bind].
  case_decide as H0.
  - subst c. rewrite bool_decide_false by lia. by rewrite <-!app_assoc.
  - rewrite bool_decide_true by lia. rewrite store_middle by done. cbn [mbind option_bind]. rewrite <-!app_assoc.
    f_equal. lens.
Qed.
End Steps.

(** The parse of a command: its words, where they are, with a NUL behind each. *)
Lemma parse_args_eq rest ws fuel pre post apre atail :
  splits rest ws -> (length rest < fuel)%nat -> (length ws <= length atail)%nat ->
  exists rest' ids, length rest' = length rest /\
    parse_args fuel (pre ++ rest ++ 0 :: post) (len pre) (apre ++ atail) (len apre)
    = Some (pre ++ rest' ++ 0 :: post, apre ++ (Some <$> ids) ++ drop (length ids) atail, len apre + len ids) /\
    Forall2 (points (pre ++ rest' ++ 0 :: post)) ids ws.
Proof.
  intros Hs. revert fuel pre apre atail. induction Hs as [sp Hsp|sp l Hsp|sp w Hsp Hw|sp w c l ws Hsp Hw Hc Hs IH];
    intros fuel pre apre atail Hf Ha; (destruct fuel as [|fuel]; [lia|]); rewrite <-?app_assoc; cbn [app].
  - rewrite parse_end by auto. exists sp, []. split; [done|]. cbn. rewrite Z.add_0_r. split; [done|constructor].
  - rewrite parse_end by auto. exists (sp ++ 0 :: l), []. rewrite !length_app. split; [done|]. rewrite <-app_assoc. cbn. rewrite Z.add_0_r.
    split; [done|constructor].
  - destruct atail as [|x atail]; [cbn in Ha; lia|].
    rewrite (parse_word pre sp Hsp _ w 0 post _ _ _ Hw ltac:(auto) (store_middle _ _ _ _ _ eq_refl)). rewrite decide_True by done.
    destruct fuel as [|fuel]; [destruct Hw as [? _]; rewrite length_app in Hf; destruct w; [done|cbn in Hf; lia]|].
    pose proof (parse_end (pre ++ sp ++ w) [] (Forall_nil_2 _) fuel 0 post (apre ++ Some (len (pre ++ sp)) :: atail) (len apre + 1) ltac:(auto)) as E.
    rewrite <-!app_assoc in E. cbn [app] in E. rewrite E. exists (sp ++ w), [len (pre ++ sp)].
    split; [done|]. rewrite <-app_assoc. split; [done|]. constructor; [|constructor].
    rewrite app_assoc. by apply points_middle, word_nonzero.
  - destruct atail as [|x atail]; [cbn in Ha; lia|].
    rewrite (parse_word pre sp Hsp _ w c _ _ _ _ Hw ltac:(tauto) (store_middle _ _ _ _ _ eq_refl)). rewrite decide_False by lia.
    destruct (IH fuel (pre ++ sp ++ w ++ [0]) (apre ++ [Some (len (pre ++ sp))]) atail) as (rest' & ids & Hl & E & Hp);
      [rewrite !length_app in Hf; cbn [length] in Hf; lia|cbn in Ha; lia|].
    rewrite <-!app_assoc in E. cbn [app] in E. rewrite <-!app_assoc in Hp. cbn [app] in Hp.
    exists (sp ++ w ++ 0 :: rest'), (len (pre ++ sp) :: ids). split; [rewrite !length_app; cbn [length]; lia|].
    rewrite <-!app_assoc. cbn [app].
    replace (len apre + 1) with (len (apre ++ [Some (len (pre ++ sp))])) by lens.
    split; [|constructor; [rewrite (app_assoc pre); by apply points_middle, word_nonzero|done]].
    rewrite E. assert (len (apre ++ [Some (len (pre ++ sp))]) + len ids = len apre + len (len (pre ++ sp) :: ids)) as -> by lens.
    reflexivity.
Qed.

Lemma splits_length l ws : splits l ws -> (2 * length ws <= length l + 1)%nat.
Proof.
  induction 1 as [| |sp w _ [Hne _]|sp w c l ws _ [Hne _] _ _ IH]; rewrite ?length_app; cbn [length]; [lia..| |];
    (destruct w; [done|]); rewrite ?length_app; cbn [length]; lia.
Qed.

Lemma strings_of_eq buf ids ws post :
  Forall2 (points buf) ids ws -> strings_of buf ((Some <$> ids) ++ None :: post) = Some ws.
Proof.
  induction 1 as [|i w ids ws [_ Hi] _ IH]; [done|]. cbn [fmap list_fmap app strings_of]. rewrite Hi. cbn [mbind option_bind].
  change (list_fmap _ _ Some ids) with (Some <$> ids). by rewrite IH.
Qed.

(** What a command begins with: the name, and the words. *)
Lemma words_of_name p str :
  Forall (fun c => c <> 0) str ->
  exists name ws, words_of (Some p) str = (p ++ name) :: ws /\ Forall (fun c => c <> 0 /\ c <> 32 /\ c <> 10) name /\
    (str = name /\ ws = [] \/ exists c l, str = name ++ c :: l /\ (c = 32 \/ c = 10) /\ splits l ws).
Proof.
  intros Hz. destruct (span_exists (fun c => c <> 0 /\ c <> 32 /\ c <> 10) str) as (name & r & -> & Hn & Hr).
  rewrite words_of_word by done. destruct Hr as [->|(c & l & -> & Hc)].
  - exists name, []. rewrite app_nil_r. eauto.
  - apply Forall_app in Hz as [_ Hz]. inv Hz. exists name, (words_of None l). cbn [words_of]. rewrite decide_True by lia.
    split; [done|]. split; [done|]. right. exists c, l. split; [done|]. split; [lia|]. by apply words_splits.
Qed.

Lemma store_first {A} (x : A) l v : store (x :: l) 0 v = Some (v :: l).
Proof. by apply (store_middle []). Qed.

(** [p]: the "./" before the command. *)
Lemma parse_words_eq p str post args :
  length p = 2%nat -> Forall (fun c => c <> 0) (p ++ str) -> len str <= 1023 -> length args = 1024%nat ->
  exists buf' args' path ws, words_of (Some p) str = path :: ws /\ parse_words (p ++ str ++ 0 :: post) args = Some (buf', args') /\
    until0 buf' = Some path /\ strings_of buf' args' = Some (path :: ws).
Proof.
  intros Hp2 [Hpz Hz]%Forall_app Hl Ha. destruct (words_of_name p str Hz) as (name & ws & Hw & Hn & Hcase).
  destruct args as [|a0 args]; [done|]. cbn [length] in Ha. unfold parse_words. replace 2 with (len p) by lia.
  rewrite store_first.
  assert (Forall (fun x => word_end x = false) name) as Hne.
  { eapply Forall_impl; [exact Hn|]. intros y (? & ? & ?). unfold word_end. by rewrite !bool_decide_false. }
  assert (Forall (fun c => c <> 0) (p ++ name)) as Hnz.
  { apply Forall_app. split; [done|]. eapply Forall_impl; [exact Hn|]. by intros y (? & _). }
  destruct Hcase as [[-> ->]|(c & l & -> & Hc & Hsp)].
  - rewrite scan_to_eq by (done || (rewrite !length_app; cbn [length]; lia)). cbn [mbind option_bind].
    rewrite app_assoc, load_middle by lens. cbn [mbind option_bind]. rewrite bool_decide_false by lia.
    destruct args as [|a1 args]; [done|]. cbn [mbind option_bind].
    rewrite (store_middle [Some 0] a1 args) by done. cbn [mbind option_bind].
    do 4 eexists. split; [exact Hw|]. split; [reflexivity|].
    split; [by apply until0_app|]. apply (strings_of_eq _ [0] [p ++ name]). repeat constructor; [lia|]. by apply until0_app.
  - rewrite <-!app_assoc. cbn [app].
    rewrite scan_to_eq; [|done|unfold word_end; by destruct Hc as [-> | ->]|rewrite !length_app; cbn [length]; lia].
    cbn [mbind option_bind]. rewrite app_assoc, load_middle by lens. cbn [mbind option_bind].
    rewrite bool_decide_true by lia. rewrite store_middle by lens. cbn [mbind option_bind].
    pose proof (splits_length _ _ Hsp). rewrite length_app in Hl. cbn [length] in Hl.
    destruct (parse_args_eq l ws (length ((p ++ name) ++ 0 :: l ++ 0 :: post)) ((p ++ name) ++ [0]) post [Some 0] args Hsp)
      as (l' & ids & Hl' & E & Hp); [lens|lia|].
    rewrite <-!(app_assoc (p ++ name) [0]) in E, Hp. cbn [app] in E, Hp.
    replace (len p + len name + 1) with (len ((p ++ name) ++ [0])) by lens. change (len [Some 0]) with 1 in E.
    rewrite E. cbn [mbind option_bind]. pose proof (Forall2_length _ _ _ Hp) as Hids.
    destruct (drop (length ids) args) as [|x rest] eqn:Ed; [apply (f_equal length) in Ed; rewrite length_drop in Ed; cbn in Ed; lia|].
    change (Some 0 :: (Some <$> ids) ++ x :: rest) with ((Some 0 :: (Some <$> ids)) ++ x :: rest).
    rewrite (store_middle (Some 0 :: (Some <$> ids)) x rest) by (cbn [length]; rewrite length_fmap; lia). cbn [mbind option_bind].
    rewrite <-(app_assoc _ [0]). cbn [app]. do 4 eexists. split; [exact Hw|]. split; [reflexivity|].
    split; [by apply until0_app|]. apply (strings_of_eq _ (0 :: ids) ((p ++ name) :: ws)). constructor; [|done].
    split; [lia|]. by apply until0_app.
Qed.

Lemma split_command_eq buf args command str :
  until0 command = Some str -> len str <= 1023 -> length buf = 1026%nat -> length args = 1024%nat ->
  exists buf' args' path ws, words_of (Some [46; 47]) str = path :: ws /\
    split_command buf args command = Some (buf', args') /\ until0 buf' = Some path /\
    strings_of buf' args' = Some (path :: ws).
Proof.
  intros Hs Hl Hb Ha. pose proof Hs as (r & Er & Hz)%until0_spec.
  destruct buf as [|b0 [|b1 buf]]; [done|done|]. cbn [length] in Hb. unfold split_command.
  rewrite store_first. cbn [mbind option_bind]. rewrite (store_middle [46] b1 buf 1 47 eq_refl : store (46 :: b1 :: buf) 1 47 = _).
  cbn [mbind option_bind].
  pose proof (strcpy_at_fits [46; 47] (take (S (length str)) buf) (drop (S (length str)) buf) command str Hs ltac:(rewrite length_take; lia)) as Hc.
  rewrite take_drop in Hc.
  change (len [46; 47]) with 2 in Hc. cbn [app] in Hc |- *. rewrite Hc. cbn [mbind option_bind].
  apply (parse_words_eq [46; 47]); [done| |done|done]. apply Forall_app. split; [by repeat constructor|done].
Qed.

(** ** Directories *)

(** A name as an entry of 32 bytes. *)
Definition dirent (name : list Z) : list Z := take 32 (name ++ replicate 32 0).

Lemma copy_name_eq from str pre mid m nbytes :
  until0 from = Some str -> m = Z.min nbytes 32 -> len pre < m -> m <= len pre + len mid ->
  copy_name from (pre ++ mid) (len pre) nbytes
  = Some (if decide (len pre + len str < m) then inl (pre ++ str ++ drop (length str) mid, len pre + len str)
          else inr (pre ++ take (Z.to_nat (m - len pre)) str ++ drop (Z.to_nat (m - len pre)) mid, m)).
Proof.
  revert pre mid str. induction from as [|c from IH]; intros pre mid str; [done|]. cbn [until0 copy_name].
  intros Hs Hm Hp Hl. case_bool_decide as Hc.
  { injection Hs as <-. rewrite bool_decide_false, decide_True by (cbn; lia). cbn [app length drop]. by rewrite Z.add_0_r. }
  apply bind_Some in Hs as (l & Hs & [= <-]). rewrite bool_decide_true by done.
  destruct mid as [|x mid]; [cbn in Hl; lia|]. rewrite store_middle by done. cbn [mbind option_bind length] in *.
  destruct (decide (len pre + 1 = m)) as [E|E].
  - rewrite decide_False by lia. replace (Z.to_nat (m - len pre)) with 1%nat by lia. cbn [take drop app].
    case_bool_decide; [do 2 f_equal; f_equal; lia|]. rewrite bool_decide_true by lia. do 2 f_equal. f_equal. lia.
  - rewrite !bool_decide_false by lia. specialize (IH (pre ++ [c]) mid l Hs Hm). rewrite length_app in IH. cbn [length] in IH.
    rewrite <-app_assoc in IH. cbn [app] in IH. replace (len pre + 1) with (Z.of_nat (length pre + 1)) by lia.
    rewrite IH by lia. replace (Z.to_nat (m - len pre)) with (S (Z.to_nat (m - Z.of_nat (length pre + 1)))) by lia.
    repeat case_decide; try lia; rewrite <-app_assoc; cbn [app drop take]; [|done]. do 3 f_equal. lia.
Qed.

Lemma pad_entry_eq fuel pre mid m nbytes :
  m = Z.min nbytes 32 -> len pre <= m -> m <= len pre + len mid -> m - len pre <= Z.of_nat fuel ->
  pad_entry fuel (pre ++ mid) (len pre) nbytes
  = Some (pre ++ replicate (Z.to_nat (m - len pre)) 0 ++ drop (Z.to_nat (m - len pre)) mid, m).
Proof.
  revert pre mid. induction fuel as [|fuel IH]; intros pre mid Hm Hp Hl Hf; cbn [pad_entry];
    (destruct (decide (len pre = m)) as [E|E];
      [replace (bool_decide (nbytes > len pre) && bool_decide (32 > len pre)) with false
         by (symmetry; apply andb_false_iff; rewrite !bool_decide_eq_false; lia);
       rewrite E, Z.sub_diag; done|]); [lia|].
  rewrite !bool_decide_true by lia. cbn [andb]. destruct mid as [|x mid]; [cbn in Hl; lia|].
  rewrite store_middle by done. cbn [mbind option_bind length] in *.
  specialize (IH (pre ++ [0]) mid Hm). rewrite length_app in IH. cbn [length] in IH. rewrite <-!app_assoc in IH. cbn [app] in IH.
  replace (len pre + 1) with (Z.of_nat (length pre + 1)) by lia. rewrite IH by lia.
  by replace (Z.to_nat (m - len pre)) with (S (Z.to_nat (m - Z.of_nat (length pre + 1)))) by lia.
Qed.

(** A name in a buffer: cut at the buffer's length, filled up with NULs. *)
Lemma copy_entry_eq d_name str buf nbytes :
  until0 d_name = Some str -> 0 < nbytes <= len buf ->
  let m := Z.min nbytes 32 in
  copy_entry d_name buf nbytes = Some (m, take (Z.to_nat m) (dirent str) ++ drop (Z.to_nat m) buf).
Proof.
  intros Hs Hn m. unfold copy_entry. pose proof (copy_name_eq d_name str [] buf m nbytes Hs eq_refl) as E.
  change (len []) with 0 in E. cbn [app] in E. rewrite E by lia. clear E. cbn [mbind option_bind]. unfold dirent. rewrite take_take.
  replace (Z.to_nat m `min` 32)%nat with (Z.to_nat m) by lia. rewrite Z.sub_0_r. case_decide as Hl.
  - rewrite Z.add_0_l. rewrite (pad_entry_eq 32 str _ m) by (try rewrite length_drop; lia). cbn [mbind option_bind].
    rewrite drop_drop. rewrite take_app_ge by lia. rewrite take_replicate, <-app_assoc.
    do 4 f_equal; [f_equal; lia|f_equal; lia].
  - by rewrite take_app_le by lia.
Qed.

(** What the emulation relies on of Linux: "." is a directory with [names], a stream
    shows the names that are left, the standard output takes what is written. *)
Record directory {W} (L : linux W) (names : list (list Z)) (stream : W -> Z -> list (list Z)) (out : W -> list Z) := {
  dl_opendir w : exists d w', opendir L (cstring ".") w = Ret (Some d) w' /\ stream w' d = names /\ out w' = out w;
  dl_open w : exists fd w', libc_open L (cstring "/dev/null") O_RDONLY w = Ret fd w' /\ 2 < fd /\
    (forall d, stream w' d = stream w d) /\ out w' = out w;
  dl_readdir w d name rest : stream w d = name :: rest ->
    exists d_name w', readdir L d w = Ret (Some d_name) w' /\ until0 d_name = Some name /\ stream w' d = rest /\ out w' = out w;
  dl_end w d : stream w d = [] -> exists w', readdir L d w = Ret None w' /\ out w' = out w;
  dl_write w buf n : 0 <= n <= len buf -> n < 4096 -> exists w', sys_write L 1 buf n w = Ret n w' /\
    (forall d, stream w' d = stream w d) /\ out w' = out w ++ take (Z.to_nat n) buf;
}.
Arguments dl_opendir {W L names stream out} _ _.
Arguments dl_open {W L names stream out} _ _.
Arguments dl_readdir {W L names stream out} _ _ _ _ _ _.
Arguments dl_end {W L names stream out} _ _ _ _.
Arguments dl_write {W L names stream out} _ _ _ _ _ _.

Section Directory.
Context {W : Type} (L : linux W) (names : list (list Z)) (stream : W -> Z -> list (list Z)) (out : W -> list Z).
Context (HL : directory L names stream out) (b0 : list Z) (a0 : list (option Z)) (behind : nat -> list Z).
Abbreviation runs' := (runs (emulated L b0 a0)).

(** The directory is open, and has these names left. *)
Definition open_dir (s : emulation * W) (d : Z) (l : list (list Z)) : Prop :=
  dir (fst s) = Some d /\ 2 < dir_fd (fst s) /\ stream (snd s) d = l.

Lemma emu_open_dir e w :
  exists s' d, emu_open L (cstring ".") (e, w) = Ret (dir_fd (fst s')) s' /\ open_dir s' d names /\ out (snd s') = out w.
Proof using HL.
  destruct (dl_opendir HL w) as (d & w1 & E1 & Hs1 & Ho1). destruct (dl_open HL w1) as (fd & w2 & E2 & Hfd & Hs2 & Ho2).
  exists (set_dir_fd fd (set_dir (Some d) e), w2), d. split; [|split; [split; [done|]; split; [done|]; by rewrite <-Hs1, <-Hs2|by rewrite <-Ho1, <-Ho2]].
  unfold emu_open. rewrite (bind_Ret _ _ _ 0 (e, w)) by reflexivity. rewrite bool_decide_true by done.
  rewrite (bind_Ret _ _ _ _ _ (zoom_Ret _ (e, w) _ _ E1)). rewrite (bind_Ret _ _ _ tt (set_dir (Some d) e, w1)) by done.
  rewrite (bind_Ret _ _ _ _ _ (zoom_Ret _ (set_dir (Some d) e, w1) _ _ E2)). reflexivity.
Qed.

Lemma emu_read_dir s d name rest buf :
  open_dir s d (name :: rest) -> length buf = 33%nat ->
  exists w', emu_read L (dir_fd (fst s)) buf 32 s = Ret (32, dirent name ++ drop 32 buf) (fst s, w') /\
    open_dir (fst s, w') d rest /\ out w' = out (snd s).
Proof using HL.
  destruct s as [e w]. intros (Hd & Hfd & Hs) Hb. cbn [fst snd] in *.
  destruct (dl_readdir HL w d name rest Hs) as (de & w' & E & Hde & Hs' & Ho').
  exists w'. split; [|done]. unfold emu_read, statics, gets, zoom. unfold mbind at 1, M_bind at 1. cbn [fst]. rewrite Hd.
  rewrite bool_decide_false by auto. unfold mbind, M_bind. cbn [lget lset os_lens snd fst]. rewrite E. cbn beta iota.
  unfold lift. rewrite (copy_entry_eq de name buf 32 Hde) by lia. change (Z.to_nat (Z.min 32 32)) with 32%nat.
  unfold dirent. by rewrite take_take.
Qed.

Lemma emu_read_end s d buf :
  open_dir s d [] -> exists w', emu_read L (dir_fd (fst s)) buf 32 s = Ret (0, buf) (fst s, w') /\ out w' = out (snd s).
Proof using HL.
  destruct s as [e w]. intros (Hd & Hfd & Hs). cbn [fst snd] in *.
  destruct (dl_end HL w d Hs) as (w' & E & Ho'). exists w'. split; [|done].
  unfold emu_read, statics, gets, zoom. unfold mbind at 1, M_bind at 1. cbn [fst]. rewrite Hd.
  rewrite bool_decide_false by auto. unfold mbind, M_bind. cbn [lget lset os_lens snd fst]. by rewrite E.
Qed.

Lemma emu_write_out s d l buf n :
  open_dir s d l -> 0 <= n <= len buf -> n < 4096 ->
  exists w', emu_write L 1 buf n s = Ret n (fst s, w') /\ open_dir (fst s, w') d l /\
    out w' = out (snd s) ++ take (Z.to_nat n) buf.
Proof using HL.
  destruct s as [e w]. intros (Hd & Hfd & Hs) Hn Hn'. cbn [fst snd] in *.
  destruct (dl_write HL w buf n Hn Hn') as (w' & E & Hs' & Ho'). exists w'. split; [|split; [|done]].
  - unfold emu_write, statics, gets, zoom. unfold mbind at 1, M_bind at 1. cbn [fst].
    rewrite (bool_decide_true (dir_fd e <> 1)) by lia. rewrite orb_true_r. unfold mbind, M_bind. cbn [lget lset os_lens snd fst].
    rewrite E. unfold mret, M_ret, do_call. rewrite u32_small by lia. rewrite bool_decide_true by lia. by rewrite s32_small by lia.
  - split; [done|]. split; [done|]. cbn [snd]. by rewrite Hs'.
Qed.

Lemma emu_ls_loop k buf s d l :
  open_dir s d l -> length buf = 33%nat ->
  runs' (fun r s' => r = 0 /\ out (snd s') = out (snd s) ++ concat ((fun n => dirent n ++ [10]) <$> l))
    (loop (ls_round behind (dir_fd (fst s))) (k, buf)) s.
Proof using HL.
  revert k buf s. induction l as [|name l IH]; intros k buf s Hs Hb; apply runs_loop; unfold ls_round.
  - destruct (emu_read_end s d buf Hs) as (w' & E & Ho). eapply runs_call; [exact E|]. cbn beta iota.
    rewrite bool_decide_false by auto. apply runs_ret. split; [done|]. cbn. by rewrite app_nil_r.
  - destruct (emu_read_dir s d name l buf Hs Hb) as (w1 & E1 & Hs1 & Ho1). eapply runs_call; [exact E1|]. cbn beta iota.
    rewrite bool_decide_true, bool_decide_false by auto.
    destruct (drop 32 buf) as [|x tl] eqn:Ed; [apply (f_equal length) in Ed; rewrite length_drop in Ed; cbn in Ed; lia|].
    apply (f_equal length) in Ed. rewrite length_drop in Ed. destruct tl as [|? ?]; [|cbn in Ed; lia].
    assert (length (dirent name) = 32%nat) as He by (unfold dirent; rewrite length_take, length_app, length_replicate; lia).
    eapply runs_inside; [by apply store_middle; rewrite He|].
    destruct (emu_write_out (fst s, w1) d l ((dirent name ++ [10]) ++ behind k) 33 Hs1) as (w2 & E2 & Hs2 & Ho2);
      [rewrite !length_app, He; cbn; lia|lia|].
    eapply runs_call; [exact E2|]. apply runs_ret. rewrite bool_decide_false by auto.
    eapply runs_mono; [apply (IH (S k) _ (fst s, w2) Hs2); rewrite length_app, He; done|].
    intros r s' [-> Ho]. split; [done|]. rewrite Ho. cbn [snd] in *. rewrite Ho2, Ho1. cbn [fmap list_fmap concat].
    change (Z.to_nat 33) with 33%nat. rewrite take_app_length' by (rewrite length_app, He; done). by rewrite <-app_assoc.
Qed.
End Directory.

(** ** A Linux

    A directory with three names, a standard output, and two programs. *)
Record demo_os := DemoOs {
  os_stream : list (list Z);
  os_out : list Z;
}.
Definition demo_names : list (list Z) := [bytes_of_string "."; bytes_of_string "frame0.txt"; bytes_of_string "verylargetextwithverylongname.txt"].
Definition demo_linux : linux demo_os := {|
  sys_read _ buf _ := mret (0, buf);
  sys_write _ buf n := modify (fun w => DemoOs (os_stream w) (os_out w ++ take (Z.to_nat n) buf)) ;; mret n;
  sys_open _ _ := mret (-2);
  sys_close _ := mret 0;
  libc_open _ _ := mret 3;
  libc_close _ := mret tt;
  opendir _ := modify (fun w => DemoOs demo_names (os_out w)) ;; mret (Some 1);
  readdir _ := w ← get;
    match os_stream w with
    | [] => mret None
    | n :: l => modify (fun w => DemoOs l (os_out w)) ;; mret (Some (n ++ [0]))
    end;
  closedir _ := mret tt;
  mmap _ := mret None;
  perror _ := mret tt;
  fork_wait child := r ← child; mret (Some r);
  execv path args :=
    if decide (path = bytes_of_string "./cat" \/ path = bytes_of_string "./grep") then mret (Some (Exited (len args))) else mret None;
|}.

Definition demo_stream (w : demo_os) (_ : Z) : list (list Z) := (fun n => cstr (n ++ [0])) <$> os_stream w.

Lemma demo_directory : directory demo_linux demo_names demo_stream os_out.
Proof.
  constructor.
  - intros w. by exists 1, (DemoOs demo_names (os_out w)).
  - intros w. exists 3, w. repeat split.
  - intros [[|n st] o] d name rest Hs; [done|]. injection Hs as <- <-. exists (n ++ [0]), (DemoOs st o).
    split; [done|]. split; [|done]. destruct (until0_app_Some n [0]) as [str Hs]; [by eexists|].
    rewrite Hs. unfold cstr. rewrite (cstrn_until0 _ _ _ Hs). by rewrite take_ge by (apply until0_length in Hs; lia).
  - intros [[|n st] o] d Hs; [|done]. by exists (DemoOs [] o).
  - intros w buf n Hn _. by exists (DemoOs (os_stream w) (os_out w ++ take (Z.to_nat n) buf)).
Qed.

(** *** The calls on arguments *)

(** What execute answers, and what its child runs. *)
Definition report {W} (st : option wait_status) : M (emulation * W) Z :=
  match st with
  | Some (Exited code) => mret code
  | Some (Signaled sig) => mret (if bool_decide (9 = sig) then -1 else 256)
  | None => undef
  end.
Definition run_program {W} (L : linux W) (path : list Z) (args : list (list Z)) : M W wait_status :=
  r ← execv L path args; match r with Some st => mret st | None => mret (Signaled 9) end.

Lemma emu_execute_eq {W} (L : linux W) buf args command str s :
  until0 command = Some str -> length buf = 1026%nat -> length args = 1024%nat ->
  exists path ws, words_of (Some [46; 47]) str = path :: ws /\
    emu_execute L buf args command s
    = (if decide (1023 < len str) then mret (-1)
       else st ← zoom (fork_wait L (run_program L path (path :: ws))); report st) s.
Proof.
  intros Hs Hb Ha. unfold emu_execute.
  rewrite (bind_Ret _ _ _ (len str) s) by by rewrite ece391_strlen_eq, (strlen_Some _ _ Hs).
  destruct (decide (1023 < len str)) as [Hl|Hl].
  - pose proof Hs as (r & _ & Hz)%until0_spec. destruct (words_of_name [46; 47] str Hz) as (name & ws & Hw & _).
    exists ([46; 47] ++ name), ws. split; [done|]. by rewrite bool_decide_true.
  - destruct (split_command_eq buf args command str Hs ltac:(lia) Hb Ha) as (buf' & args' & path & ws & Hw & E & Hp & Hstr).
    exists path, ws. split; [done|]. rewrite bool_decide_false by lia. rewrite (bind_Ret _ _ _ (buf', args') s) by by rewrite E.
    cbn beta iota. assert (child L buf' args' = run_program L path (path :: ws)) as ->; [|done].
    unfold child. by rewrite Hp, Hstr.
Qed.

Lemma words_of_command p name ws :
  word name -> Forall word ws -> words_of (Some p) (join (name :: ws)) = (p ++ name) :: ws.
Proof.
  intros [_ Hn] Hws. destruct ws as [|w ws].
  - cbn [join]. rewrite <-(app_nil_r name) at 1. by rewrite words_of_word.
  - rewrite join_cons, words_of_word by done. cbn [words_of]. rewrite decide_True by lia. by rewrite words_of_join.
Qed.

Lemma join_nonzero ws : Forall word ws -> Forall (fun c => c <> 0) (join ws).
Proof.
  induction 1 as [|w ws Hw Hws IH]; [constructor|]. destruct ws as [|w' ws]; [by apply word_nonzero|].
  rewrite join_cons by done. apply Forall_app. split; [by apply word_nonzero|]. by constructor.
Qed.

(** ** Properties *)

(** C22: arguments arrive, on Linux. execute takes a command whose words are separated by single
    spaces apart, into arrays on its stack whose bytes may be anything; getargs puts the
    arguments of its process together. The child of execute runs the program "./name" with the
    words - the result is its exit status, -1 if there is no such program or signal 9 ends it,
    256 if another signal does -, and in a process with these arguments getargs stores what
    followed the name, if the buffer has room for it and a NUL. A command of more than 1023
    characters is refused, no shorter one leaves the arrays. *)
Theorem execute_passes_arguments {W} (L : linux W) buf args name ws s :
  length buf = 1026%nat -> length args = 1024%nat -> word name -> Forall word ws ->
  let path := [46; 47] ++ name in
  emu_execute L buf args (join (name :: ws) ++ [0]) s
  = (if decide (1023 < len (join (name :: ws))) then mret (-1)
     else st ← zoom (fork_wait L (run_program L path (path :: ws))); report st) s /\
  forall strs e w b nbytes, strings strs (path :: ws) -> argv e = strs -> len (join ws) < nbytes <= len b ->
    exists rest, emu_getargs b nbytes (e, w) = Ret (0, join ws ++ 0 :: rest) (e, w : W).
Proof.
  intros Hb Ha Hn Hws path. split.
  - destruct (emu_execute_eq L buf args (join (name :: ws) ++ [0]) (join (name :: ws)) s) as (p & ws' & Hw & E);
      [apply until0_app, join_nonzero; by constructor|done|done|].
    rewrite words_of_command in Hw by done. by injection Hw as <- <-.
  - intros strs e w b nbytes Hs He Hl. destruct strs as [|a strs1]; [inversion Hs|]. apply Forall2_cons in Hs as [_ Hs1].
    destruct (fill_args_fits strs1 ws b nbytes Hs1 Hl) as (rest & E & _). exists rest.
    unfold emu_getargs, statics, gets. unfold mbind, M_bind, lift. cbn [fst]. rewrite He. cbn [tail]. by rewrite E.
Qed.

(** "grep -v x" runs ./grep with three strings; nobody is called "nobody". *)
Lemma execute_passes_arguments_witness :
  let grep := bytes_of_string "grep" in
  let ws := [bytes_of_string "-v"; bytes_of_string "x"] in
  let s := (Emulation [] (-1) None (-1), DemoOs [] []) in
  emu_execute demo_linux (replicate 1026 170) (replicate 1024 None) (cstring "grep -v x") s = Ret 3 s /\
  emu_execute demo_linux (replicate 1026 170) (replicate 1024 None) (cstring "nobody") s = Ret (-1) s /\
  exists rest, @emu_getargs demo_os (replicate 8 170) 8 (Emulation (map (fun w => w ++ [0]) ((bytes_of_string "./" ++ grep) :: ws)) (-1) None (-1), DemoOs [] [])
    = Ret (0, bytes_of_string "-v x" ++ 0 :: rest) (Emulation (map (fun w => w ++ [0]) ((bytes_of_string "./" ++ grep) :: ws)) (-1) None (-1), DemoOs [] []).
Proof.
  intros grep ws s.
  assert (word grep /\ Forall word ws /\ word (bytes_of_string "nobody")) as (Hg & Hws & Hn)
    by (repeat split; repeat constructor; discriminate).
  destruct (execute_passes_arguments demo_linux (replicate 1026 170) (replicate 1024 None) grep ws s eq_refl eq_refl Hg Hws) as [E1 H1].
  destruct (execute_passes_arguments demo_linux (replicate 1026 170) (replicate 1024 None) (bytes_of_string "nobody") [] s eq_refl eq_refl Hn (Forall_nil_2 _))
    as [E2 _].
  split; [exact E1|]. split; [exact E2|].
  apply (H1 (map (fun w => w ++ [0]) ((bytes_of_string "./" ++ grep) :: ws))); [|reflexivity|by split].
  repeat constructor.
Defined.

(** C32: an argument that fills the buffer. getargs on Linux compares the length of an
    argument without its NUL: when the first arguments and the spaces between them take exactly the
    bytes of the buffer, the NUL is stored behind it, before the call returns -1. *)
Theorem getargs_overruns {W} ws strs1 strs2 path e (w : W) b :
  argv e = path :: strs1 ++ strs2 -> strings strs1 ws -> ws <> [] -> len (join ws) = len b ->
  emu_getargs b (len b) (e, w) = Undef.
Proof.
  intros He Hs Hne Hl. unfold emu_getargs, statics, gets. unfold mbind, M_bind, lift. cbn [fst]. rewrite He. cbn [tail].
  unfold fill_args. pose proof (join_args_over strs1 strs2 ws [] b (len b) Hs Hne Hl ltac:(lia)) as E. cbn [app] in E.
  change (len []) with 0 in E. by rewrite E.
Qed.

(** "-v" in two bytes. *)
Lemma getargs_overruns_witness :
  @emu_getargs demo_os [170; 170] 2 (Emulation [cstring "./grep"; cstring "-v"; cstring "x"] (-1) None (-1), DemoOs [] []) = Undef.
Proof.
  apply (getargs_overruns [bytes_of_string "-v"] [cstring "-v"] [cstring "x"] (cstring "./grep"));
    [reflexivity|by repeat constructor|discriminate|reflexivity].
Defined.

(** C23: ls on Linux. Linked with the emulation, ls shows the directory: a line of each name in
    the order in which Linux reads them, cut at 32 bytes, and - other than on the kernel - filled up with
    NULs to 32, as read returns 32 for every name. *)
Theorem ls_on_linux {W} (L : linux W) names stream out b0 a0 behind buf s :
  directory L names stream out -> length buf = 33%nat ->
  runs (emulated L b0 a0) (fun r s' => r = 0 /\ out (snd s') = out (snd s) ++ concat ((fun n => dirent n ++ [10]) <$> names))
    (ls_main buf behind) s.
Proof.
  intros HL Hb. destruct s as [e w]. unfold ls_main.
  destruct (emu_open_dir L names stream out HL e w) as (s1 & d & E & Hs1 & Ho). eapply runs_call; [exact E|].
  rewrite bool_decide_false by (destruct Hs1 as (_ & ? & _); lia).
  eapply runs_mono; [by apply (emu_ls_loop L names stream out HL b0 a0 behind 0 buf s1 d names)|]. intros r s' [-> Ho']. split; [done|]. by rewrite Ho', Ho.
Qed.

Lemma ls_on_linux_witness :
  runs (emulated demo_linux [] []) (fun r s' => r = 0 /\ len (os_out (snd s')) = 99 /\
      take 34 (os_out (snd s')) = [46] ++ replicate 31 0 ++ [10; 102])
    (ls_main (replicate 33 0) (fun _ => [0])) (Emulation [] (-1) None (-1), DemoOs [] []).
Proof.
  eapply runs_mono; [apply (ls_on_linux demo_linux demo_names demo_stream os_out); [exact demo_directory|reflexivity]|].
  intros r s' [-> ->]. split; [reflexivity|]. split; vm_compute; reflexivity.
Defined.
