(* ===== verification/Console.v ===== *)
(** * User programs that talk to the user

    [src/syscalls]: hello, counter and testprint, as programs over the system calls, and
    what they do over the file service when the user types a line. *)
From S2P Require Import Kernel Keyboard Typing Interrupts Programs.

Definition BUFSIZE : Z := 1024.

(** ** The programs *)

(** [buf]: the array, BUFSIZE bytes. *)
Definition hello_main (buf : list Z) : prog Z :=
  _ ← ece391_fdputs 1 (cstring "Hi, what's your name? ");
  '(cnt, buf) ← ece391_read 0 buf (BUFSIZE - 1);
  if bool_decide (-1 = cnt) then
    _ ← ece391_fdputs 1 (cstring "Can't read name from keyboard.
");
    mret 3
  else
    buf ← inside (store buf cnt 0);
    _ ← ece391_fdputs 1 (cstring "Hello, ");
    _ ← ece391_fdputs 1 buf;
    mret 0.

Definition testprint_main : prog Z :=
  _ ← ece391_fdputs 1 (cstring "Hello, if this ran, the program was correct. Yay!
");
  mret 0.

(** [switch (buf[0])] *)
Definition counter_max (c : Z) : Z :=
  if bool_decide (c = 48) then 100
  else if bool_decide (c = 49) then 10000
  else if bool_decide (c = 50) then 100000
  else 0.

Definition counter_loop (max : Z) (buf : list Z) : prog (list Z) :=
  repeat_for (Z.to_nat max) 0 (fun i buf =>
    buf ← inside (ece391_itoa (u32 (i + 1)) buf 10);
    _ ← ece391_fdputs 1 buf;
    _ ← ece391_fdputs 1 (cstring "
");
    mret buf) buf.

(** [cnt] is unsigned here; it is compared with (uint32_t)-1. *)
Definition counter_main (buf : list Z) : prog Z :=
  _ ← ece391_fdputs 1 (cstring "Enter the Test Number: (0): 100, (1): 10000, (2): 100000
");
  '(r, buf) ← ece391_read 0 buf (BUFSIZE - 1);
  let cnt := u32 r in
  if bool_decide (u32 (-1) = cnt) then
    _ ← ece391_fdputs 1 (cstring "Can't read the number from keyboard.
");
    mret 3
  else
    buf ← inside (store buf cnt 0);
    n ← inside (ece391_strlen buf);
    c ← inside (load buf 0);
    if bool_decide (n > 2) || (bool_decide (n = 2) && (bool_decide (c < 48) || bool_decide (c > 50))) then
      _ ← ece391_fdputs 1 (cstring "Wrong Choice!
");
      mret 0
    else
      _ ← counter_loop (counter_max c) buf;
      mret 0.

(** ** Over the service *)

Lemma session_text keys e :
  Forall typing_key keys -> Forall (fun c => byte c /\ c <> 0) (se_line e) ->
  Forall (fun c => byte c /\ c <> 0) (se_line (foldl key_step e keys)).
Proof.
  intros Hk. revert e. induction Hk as [|sc keys [Hsc _] _ IH]; intros e He; [done|]. cbn [foldl]. apply IH.
  unfold key_step. case_bool_decide; [done|]. unfold press.
  destruct (typed_char_facts (se_kbd e) sc ltac:(lia)) as (Hb & _).
  assert (Forall (fun c => byte c /\ c <> 0) (make_room sc (se_line e))) as Hm.
  { unfold make_room. case_bool_decide; [by apply Forall_take|done]. }
  repeat case_bool_decide; cbn [se_line]; try done. unfold edit. repeat case_bool_decide; try done.
  - by apply Forall_take.
  - apply Forall_app. split; [done|]. by apply Forall_singleton.
Qed.

Lemma line_text w keys line : line_typed w keys line -> bytes line /\ Forall (fun c => c <> 0) line /\ (length line <= 127)%nat.
Proof.
  intros [Hk _ _ _ <-]. pose proof (session_text keys (Session (w_kbd w) [] (w_tty w)) Hk ltac:(constructor)) as H.
  fold (typing w keys) in H. apply (Forall_take _ 127%nat) in H. split; [|split].
  - eapply Forall_impl; [exact H|]. by intros ? [? _].
  - eapply Forall_impl; [exact H|]. by intros ? [_ ?].
  - rewrite length_take. lia.
Qed.

Section Console.
Context (vol : volume).
Abbreviation runs' := (runs (service vol)).

(** The array behind a line that was read: the line, its line break, a NUL. *)
Definition line_buf (line buf : list Z) : list Z := line ++ 10 :: 0 :: drop (length line + 2) buf.

Lemma line_buf_text w keys line buf :
  line_typed w keys line -> bytes buf -> len line + 2 <= len buf ->
  until0 (line_buf line buf) = Some (line ++ [10]) /\ bytes (line_buf line buf) /\
  length (line_buf line buf) = length buf /\ store (line_buf line buf) (len line + 1) 0 = Some (line_buf line buf).
Proof.
  intros (Hb & Hz & _)%line_text Hbuf Hl. unfold line_buf. split_and!.
  - change (line ++ 10 :: 0 :: ?r) with (line ++ [10] ++ 0 :: r). rewrite app_assoc. apply until0_app.
    apply Forall_app. split; [done|]. by repeat constructor.
  - apply Forall_app. split; [done|]. do 2 (constructor; [unfold byte; lia|]). by apply Forall_drop.
  - lens.
  - change (line ++ 10 :: 0 :: ?r) with (line ++ [10] ++ 0 :: r). rewrite app_assoc. apply store_middle. lens.
Qed.

(** hello: the greeting has the line that the user typed. *)
Lemma hello_runs buf w keys rest line :
  let w0 := print false (bytes_of_string "Hi, what's your name? ") w in
  length buf = 1024%nat -> bytes buf -> w_keys w = keys :: rest -> line_typed w0 keys line ->
  runs' (answers 0 [bytes_of_string "Hello, "; line ++ [10]] (set_session (key_step (typing w0 keys) 0x1C) rest w0))
    (hello_main buf) w.
Proof.
  intros w0 Hl Hb Hk Hty. unfold hello_main. eapply fdputs_runs; [apply cstring_bytes|reflexivity|done|].
  destruct (line_text _ _ _ Hty) as (_ & _ & Hll).
  destruct (line_buf_text w0 keys line buf Hty Hb ltac:(lia)) as (Hu & Hbb & _ & Hst).
  eapply runs_call; [by apply (service_read_line vol w0 buf _ keys rest _ Hk Hty); lia|].
  cbn beta iota. rewrite bool_decide_false by lia. eapply runs_inside; [exact Hst|].
  eapply fdputs_runs; [apply cstring_bytes|reflexivity|done|].
  eapply fdputs_runs; [exact Hbb|exact Hu|lens|]. apply runs_ret. eapply answers_cons, answers_print.
Qed.

Lemma testprint_runs w :
  runs' (fun v w' => v = 0 /\ w' = print false (bytes_of_string "Hello, if this ran, the program was correct. Yay!
") w) testprint_main w.
Proof. eapply fdputs_runs; [apply cstring_bytes|reflexivity|done|]. by apply runs_ret. Qed.

(** counter: what it prints for the numbers up to [max]. *)
Definition count_text (max : Z) : list (list Z) := i ← seqZ 1 max; [numeral 10 i; [10]].

Lemma numeral_bytes v : bytes (numeral 10 v).
Proof.
  unfold numeral. case_bool_decide; [by apply Forall_singleton|]. apply Forall_reverse, Forall_map.
  eapply Forall_impl; [apply (digits_range 32 10 v); lia|]. simpl. intros d Hd. unfold digit_char, byte.
  case_bool_decide; lia.
Qed.

Lemma counter_loop_runs (max : nat) buf w :
  Z.of_nat max <= 100000 -> length buf = 1024%nat -> bytes buf ->
  runs' (fun _ => answers tt (count_text (Z.of_nat max)) w tt)
    (counter_loop (Z.of_nat max) buf) w.
Proof.
  intros Hmax Hl Hb. unfold counter_loop. rewrite Nat2Z.id.
  eapply runs_mono; [apply (runs_repeat _ (fun i buf w' => length buf = 1024%nat /\ bytes buf /\
    exists out, w' = prints out w /\ snd <$> out = count_text i))|].
  - split_and!; [done|done|]. exists []. by rewrite prints_nil.
  - intros i b w' Hi (Hlb & Hbb & out & -> & Hout). rewrite u32_small by lia.
    pose proof (numeral_nonzero 10 (i + 1) ltac:(lia)) as Hz. set (s := numeral 10 (i + 1)) in *.
    assert (length s <= 6)%nat as Hls by (apply numeral_length; lia).
    set (b' := s ++ 0 :: drop (S (length s)) b).
    assert (ece391_itoa (i + 1) b 10 = Some b') as Hitoa.
    { rewrite ece391_itoa_eq by lia. apply itoa_numeral; lia. }
    assert (bytes b') as Hbb'.
    { apply Forall_app. split; [apply numeral_bytes|]. constructor; [unfold byte; lia|by apply Forall_drop]. }
    eapply runs_inside; [exact Hitoa|]. eapply fdputs_runs; [exact Hbb'|by apply until0_app|lia|].
    eapply fdputs_runs; [apply cstring_bytes|reflexivity|done|]. apply runs_ret.
    split; [subst b'; lens|]. split; [done|]. rewrite !prints_app. eexists. split; [reflexivity|].
    rewrite !fmap_app, Hout. unfold count_text. rewrite (seqZ_app 1 i 1) by lia. rewrite bind_app.
    assert (seqZ (1 + i) 1 = [i + 1]) as -> by (by rewrite seqZ_cons, (Z.add_comm 1 i) by lia).
    cbn [mbind list_bind app]. fold s. reflexivity.
  - intros b w' (_ & _ & out & -> & Hout). split; [done|]. by exists out.
Qed.

(** What counter does with a line. *)
Definition counter_text (line : list Z) : list (list Z) :=
  match line with
  | [] => []
  | [c] => if bool_decide (48 <= c <= 50) then count_text (counter_max c) else [bytes_of_string "Wrong Choice!
"]
  | _ => [bytes_of_string "Wrong Choice!
"]
  end.

Lemma counter_runs buf w keys rest line :
  let w0 := print false (bytes_of_string "Enter the Test Number: (0): 100, (1): 10000, (2): 100000
") w in
  length buf = 1024%nat -> bytes buf -> w_keys w = keys :: rest -> line_typed w0 keys line ->
  runs' (answers 0 (counter_text line) (set_session (key_step (typing w0 keys) 0x1C) rest w0))
    (counter_main buf) w.
Proof.
  intros w0 Hl Hb Hk Hty. unfold counter_main. eapply fdputs_runs; [apply cstring_bytes|reflexivity|done|].
  destruct (line_text _ _ _ Hty) as (_ & Hzl & Hll).
  destruct (line_buf_text w0 keys line buf Hty Hb ltac:(lia)) as (Hu & Hbb & Hlb & Hst).
  eapply runs_call; [by apply (service_read_line vol w0 buf _ keys rest _ Hk Hty); lia|].
  cbn beta iota. change (u32 (-1)) with 4294967295. rewrite u32_small, bool_decide_false by lia. eapply runs_inside; [exact Hst|].
  fold (line_buf line buf).
  eapply runs_inside; [rewrite ece391_strlen_eq; by apply strlen_Some|]. rewrite length_app. cbn [length].
  set (w1 := set_session _ _ w0). set (b := line_buf line buf) in *.
  assert (runs' (answers 0 [bytes_of_string "Wrong Choice!
"] w1) (_ ← ece391_fdputs 1 (cstring "Wrong Choice!
"); mret 0) w1) as Hwrong.
  { eapply fdputs_runs; [apply cstring_bytes|reflexivity|done|]. apply runs_ret, answers_print. }
  assert (forall c (max : nat), counter_max c = Z.of_nat max -> Z.of_nat max <= 100000 ->
    runs' (answers 0 (count_text (counter_max c)) w1)
      (_ ← counter_loop (counter_max c) b; mret 0) w1) as Hcount.
  { intros c max -> Hmax. apply runs_bind. eapply runs_mono; [apply counter_loop_runs; try done; by rewrite Hlb|].
    intros _ w' [_ Hout]. by apply runs_ret. }
  destruct line as [|c [|c' line]]; cbn [counter_text length].
  - eapply runs_inside; [reflexivity|]. apply (Hcount 10 0%nat); [done|lia].
  - eapply runs_inside; [reflexivity|]. rewrite (bool_decide_false (_ > 2)), (bool_decide_true (_ = 2)) by lia. cbn [orb andb].
    destruct (decide (48 <= c <= 50)) as [Hc|Hc].
    + rewrite (bool_decide_true (48 <= c <= 50)), !bool_decide_false by lia. cbn [orb].
      assert (c = 48 \/ c = 49 \/ c = 50) as [-> | [-> | ->]] by lia.
      * by apply (Hcount 48 100%nat).
      * apply (Hcount 49 (Z.to_nat 10000)); [done|]. rewrite Z2Nat.id by lia. lia.
      * apply (Hcount 50 (Z.to_nat 100000)); [done|]. rewrite Z2Nat.id by lia. lia.
    + rewrite (bool_decide_false (48 <= c <= 50)) by done. destruct (decide (c < 48)).
      * by rewrite (bool_decide_true (c < 48)).
      * rewrite (bool_decide_true (c > 50)), orb_true_r by lia. exact Hwrong.
  - eapply runs_inside; [reflexivity|]. rewrite (bool_decide_true (_ > 2)) by lia. exact Hwrong.
Qed.
End Console.
