(* ===== verification/Syserr.v ===== *)
(** * The repository's own test of the error paths

    [src/syscalls/ece391syserr.c], a program that makes system calls with wrong arguments
    and reports whether they are refused; and that it passes over the file service. *)
From S2P Require Import Kernel Keyboard Typing Interrupts Programs.

(** ** The program *)

Definition NEG_FD : Z := -1073741823.
Definition BIG_FD : Z := 1073741823.
Definition BIG_NUM : Z := 1073741823.
Definition NEG_NUM : Z := -1073741823.

Definition call_sys (num : Z) : prog Z := call (Sys_number num).

(** [if (-1 != r) { fail = 2; puts(msg); }], and the last line of a test. *)
Definition refused (r : Z) (msg : string) (fail : Z) : prog Z :=
  if bool_decide (-1 <> r) then _ ← ece391_fdputs 1 (cstring msg); mret 2 else mret fail.
Definition verdict (fail : Z) (fail_line pass_line : string) : prog Z :=
  if bool_decide (fail <> 0) then _ ← ece391_fdputs 1 (cstring fail_line); mret fail
  else _ ← ece391_fdputs 1 (cstring pass_line); mret fail.

Definition err_neg_fd (buf : list Z) : prog Z :=
  '(r, buf) ← ece391_read NEG_FD buf 31;
  fail ← refused r "read fail
" 0;
  r ← ece391_write NEG_FD buf 31;
  fail ← refused r "write fail
" fail;
  r ← ece391_close NEG_FD;
  fail ← refused r "close fail
" fail;
  verdict fail "err_neg_fd: FAIL
" "err_neg_fd: PASS
".

Definition err_big_fd (buf : list Z) : prog Z :=
  '(r, buf) ← ece391_read BIG_FD buf 31;
  fail ← refused r "read fail
" 0;
  r ← ece391_write BIG_FD buf 31;
  fail ← refused r "write fail
" fail;
  r ← ece391_close BIG_FD;
  fail ← refused r "close fail
" fail;
  verdict fail "err_big_fd: FAIL
" "err_big_fd: PASS
".

Definition err_open_lots : prog Z :=
  cnt ← repeat_for 7 0 (fun _ cnt =>
    r ← ece391_open (cstring "."); mret (if bool_decide (-1 = r) then cnt + 1 else cnt)) 0;
  _ ← repeat_for 6 2 (fun i _ => _ ← ece391_close i; mret tt) tt;
  if bool_decide (cnt = 1) then _ ← ece391_fdputs 1 (cstring "err_open_lots: PASS
"); mret 0
  else _ ← ece391_fdputs 1 (cstring "err_open_lots: FAIL
"); mret 2.

Definition err_open : prog Z :=
  r ← ece391_open (cstring "helloo");
  fail ← refused r "'helloo' fail
" 0;
  r ← ece391_open (cstring "shel");
  fail ← refused r "'shel' fail
" fail;
  r ← ece391_open (cstring "");
  fail ← refused r "empty string fail
" fail;
  verdict fail "err_open: FAIL
" "err_open: PASS
".

Definition err_unopened (buf : list Z) : prog Z :=
  fail ← repeat_for 8 0 (fun i fail =>
    r ← ece391_close i; refused r "close unopened or invalid fd fail
" fail) 0;
  '(fail, buf) ← repeat_for 6 2 (fun i '(fail, buf) =>
    '(r, buf) ← ece391_read i buf 31;
    fail ← refused r "read from unopened fd fail
" fail;
    mret (fail, buf)) (fail, buf);
  fail ← repeat_for 6 2 (fun i fail =>
    r ← ece391_write i buf 31; refused r "write to unopened fd fail
" fail) fail;
  verdict fail "err_unopened: FAIL
" "err_unopened: PASS
".

Definition err_vidmap : prog Z :=
  r ← ece391_vidmap 0;
  fail ← refused r "Null pointer fail
" 0;
  r ← ece391_vidmap 0x400000;
  fail ← refused r "Kernel pointer fail fail
" fail;
  verdict fail "err_vidmap: FAIL
" "err_vidmap: PASS
".

Definition err_stdin_out (buf : list Z) : prog Z :=
  r ← ece391_write 0 buf 31;
  fail ← refused r "write to stdin fail
" 0;
  '(r, buf) ← ece391_read 1 buf 31;
  fail ← refused r "read from stdout fail
" fail;
  verdict fail "err_stdin_out: FAIL
" "err_stdin_out: PASS
".

Definition err_syscall_num : prog Z :=
  r ← call_sys BIG_NUM;
  fail ← refused r "syscall 0 fail
" 0;
  r ← call_sys NEG_NUM;
  fail ← refused r "big num syscall fail
" fail;
  r ← call_sys 0;
  fail ← refused r "neg num syscall fail
" fail;
  verdict fail "err_syscall_num: FAIL
" "err_syscall_num: PASS
".

(** [arr]: what a test's array of 32 bytes holds when it starts. *)
Definition run_tests (arr : list Z) (select : Z) : prog Z :=
  if bool_decide (select = 0) then
    r1 ← err_neg_fd arr;
    r2 ← err_big_fd arr;
    r3 ← err_open_lots;
    r4 ← err_open;
    r5 ← err_unopened arr;
    r6 ← err_vidmap;
    r7 ← err_stdin_out arr;
    r8 ← err_syscall_num;
    verdict (r1 + r2 + r3 + r4 + r5 + r6 + r7 + r8) "
Overall Tests: FAIL
" "
Overall Tests: PASS
"
  else if bool_decide (select = 1) then err_neg_fd arr
  else if bool_decide (select = 2) then err_big_fd arr
  else if bool_decide (select = 3) then err_open_lots
  else if bool_decide (select = 4) then err_open
  else if bool_decide (select = 5) then err_unopened arr
  else if bool_decide (select = 6) then err_vidmap
  else if bool_decide (select = 7) then err_stdin_out arr
  else if bool_decide (select = 8) then err_syscall_num
  else
    _ ← ece391_fdputs 1 (cstring "Invalid test number. Choose from tests 1-8 or 0");
    mret 0.

Definition syserr_main (buf arr : list Z) : prog Z :=
  _ ← ece391_fdputs 1 (cstring "Choose from tests 1-8. 0 to run all: ");
  '(cnt, buf) ← ece391_read 0 buf 127;
  if bool_decide (-1 = cnt) then
    _ ← ece391_fdputs 1 (cstring "Can't read test #
");
    mret 2
  else
    c ← inside (load buf 0);
    run_tests arr (c - 48).

(** ** Over the service *)

Section Syserr.
Context (vol : volume).
Abbreviation runs' := (runs (service vol)).

(** What a test prints in a process without open files, when nothing fails. *)
Definition fresh (w : world) : Prop := w_chans w = replicate 6 Closed.
Definition passes (text : list string) (t : prog Z) : Prop :=
  forall w, fresh w -> runs' (answers 0 (bytes_of_string <$> text) w) t w.

Definition no_channel (w : world) (i std : Z) : Prop :=
  i < 0 \/ 7 < i \/ i = std \/ fresh w /\ 2 <= i.

Lemma fresh_closed w i : fresh w -> 2 <= i <= 7 -> load (w_chans w) (i - 2) = Some Closed.
Proof. intros -> Hi. apply load_replicate. lia. Qed.

Lemma no_channel_read w i buf m : no_channel w i 1 -> service vol _ (Sys_read i buf m) w = Ret (-1, buf) w.
Proof.
  intros Hi. cbn [service]. unfold service_read. unfold mbind at 1, M_bind at 1, get at 1.
  destruct (_ || _) eqn:E; [done|]. rewrite !orb_false_iff, !bool_decide_eq_false in E.
  destruct Hi as [|[|[|[Hf ?]]]]; [lia..|]. rewrite bool_decide_false, (fresh_closed w i Hf) by lia. done.
Qed.
Lemma no_channel_write w i buf m : no_channel w i 0 -> service vol _ (Sys_write i buf m) w = Ret (-1) w.
Proof.
  intros Hi. cbn [service]. unfold service_write. unfold mbind at 1, M_bind at 1, get at 1.
  destruct (_ || _) eqn:E; [done|]. rewrite !orb_false_iff, !bool_decide_eq_false in E.
  destruct Hi as [|[|[|[Hf ?]]]]; [lia..|]. rewrite bool_decide_false, (fresh_closed w i Hf) by lia. done.
Qed.
Lemma no_channel_close w i : fresh w -> service vol _ (Sys_close i) w = Ret (-1) w.
Proof.
  intros Hf. cbn [service]. unfold service_close. unfold mbind at 1, M_bind at 1, get at 1.
  destruct (_ || _) eqn:E; [done|]. rewrite !orb_false_iff, !bool_decide_eq_false in E.
  rewrite (fresh_closed w i Hf) by lia. done.
Qed.

Lemma refused_runs {A} (Q : A -> world -> Prop) msg fail (k : Z -> prog A) w :
  runs' Q (k fail) w -> runs' Q (refused (-1) msg fail ≫= k) w.
Proof. intros Hk. by apply runs_bind, runs_ret. Qed.

Definition plain (line : string) : Prop :=
  until0 (cstring line) = Some (bytes_of_string line) /\ len (bytes_of_string line) < 2147483648.

Lemma puts_ret line (w : world) (Q : Z -> world -> Prop) v :
  plain line -> (forall long, Q v (print long (bytes_of_string line) w)) ->
  runs' Q (_ ← ece391_fdputs 1 (cstring line); mret v) w.
Proof. intros [Hl Hlen] HQ. eapply fdputs_runs; [apply cstring_bytes|exact Hl|done|]. by apply runs_ret. Qed.

Lemma verdict_passes fail_line line w :
  plain line ->
  runs' (answers 0 (bytes_of_string <$> [line]) w) (verdict 0 fail_line line) w.
Proof. intros Hl. apply puts_ret; [done|]. intros long. apply answers_print. Qed.

(** One test after the other. *)
Lemma passes_bind text (t : prog Z) (Q : Z -> world -> Prop) (k : Z -> prog Z) w :
  passes text t -> fresh w ->
  (forall out, snd <$> out = bytes_of_string <$> text -> runs' Q (k 0) (prints out w)) -> runs' Q (t ≫= k) w.
Proof.
  intros Ht Hf Hk. apply runs_bind. eapply runs_mono; [by apply Ht|]. intros v w' (-> & out & Hout & ->). by apply Hk.
Qed.


(** A loop of calls that are all refused. *)
Lemma repeat_refused {X} (n : nat) lo (body : Z -> X -> prog X) x (Q : Z -> world -> Prop) (k : X -> prog Z) w :
  (forall i, lo <= i < lo + Z.of_nat n -> runs' (fun x' w' => x' = x /\ w' = w) (body i x) w) ->
  runs' Q (k x) w -> runs' Q (repeat_for n lo body x ≫= k) w.
Proof.
  intros Hbody Hk. apply runs_bind.
  eapply runs_mono; [apply (runs_repeat _ (fun _ x' w' => x' = x /\ w' = w))|]; [done| |].
  - intros i x' w' Hi [-> ->]. by apply Hbody.
  - by intros x' w' [-> ->].
Qed.

(** A refused call: [Hcall] gives its result. *)
Ltac refuse Hcall := eapply runs_call; [apply Hcall|cbn beta iota; apply refused_runs].
Ltac out_of_range := unfold no_channel, NEG_FD, BIG_FD; lia.

Lemma neg_fd_passes buf : passes ["err_neg_fd: PASS
"] (err_neg_fd buf).
Proof.
  intros w Hf. unfold err_neg_fd. refuse no_channel_read; [out_of_range|]. refuse no_channel_write; [out_of_range|].
  refuse no_channel_close; [done|]. by apply verdict_passes.
Qed.

Lemma big_fd_passes buf : passes ["err_big_fd: PASS
"] (err_big_fd buf).
Proof.
  intros w Hf. unfold err_big_fd. refuse no_channel_read; [out_of_range|]. refuse no_channel_write; [out_of_range|].
  refuse no_channel_close; [done|]. by apply verdict_passes.
Qed.

Lemma unopened_passes buf : passes ["err_unopened: PASS
"] (err_unopened buf).
Proof.
  intros w Hf. unfold err_unopened. apply repeat_refused.
  { intros i Hi. eapply runs_call; [by apply no_channel_close|]. by apply runs_ret. }
  apply repeat_refused.
  { intros i Hi. refuse no_channel_read; [unfold no_channel; right; right; right; split; [done|lia]|]. by apply runs_ret. }
  cbn beta iota. apply repeat_refused.
  { intros i Hi. eapply runs_call; [apply no_channel_write; unfold no_channel; right; right; right; split; [done|lia]|].
    by apply runs_ret. }
  by apply verdict_passes.
Qed.

Lemma vidmap_passes : passes ["err_vidmap: PASS
"] err_vidmap.
Proof.
  intros w Hf. unfold err_vidmap. do 2 (eapply runs_call; [reflexivity|apply refused_runs]).
  by apply verdict_passes.
Qed.

Lemma stdin_out_passes buf : passes ["err_stdin_out: PASS
"] (err_stdin_out buf).
Proof.
  intros w Hf. unfold err_stdin_out. refuse no_channel_write; [out_of_range|].
  refuse no_channel_read; [out_of_range|]. by apply verdict_passes.
Qed.

Lemma syscall_num_passes : passes ["err_syscall_num: PASS
"] err_syscall_num.
Proof.
  intros w Hf. unfold err_syscall_num, call_sys. do 3 (eapply runs_call; [reflexivity|apply refused_runs]).
  by apply verdict_passes.
Qed.

(** The directory has the entry "." and neither of the misspelt names. *)
Hypothesis Hdot : vol_node vol (bytes_of_string ".") = Some DirNode.
Hypothesis Hmissing : vol_node vol (bytes_of_string "helloo") = None /\ vol_node vol (bytes_of_string "shel") = None.

Lemma open_passes : passes ["err_open: PASS
"] err_open.
Proof.
  intros w Hf. unfold err_open.
  refuse (service_open_fails vol (cstring "helloo") (bytes_of_string "helloo"));
    [apply cstring_bytes|reflexivity|simpl; lia|by right; left; apply Hmissing|].
  refuse (service_open_fails vol (cstring "shel") (bytes_of_string "shel"));
    [apply cstring_bytes|reflexivity|simpl; lia|by right; left; apply Hmissing|].
  refuse (service_open_fails vol (cstring "") []); [apply cstring_bytes|reflexivity|simpl; lia|by left|].
  by apply verdict_passes.
Qed.

(** Six opens succeed, the seventh fails, and the six are closed again. *)
Definition with_dirs (k : nat) (w : world) : world :=
  World (replicate k DirChan ++ replicate (6 - k) Closed) (w_index w) (w_arg w) (w_tty w) (w_kbd w) (w_keys w) (w_out w).

Lemma in_seven i : 0 <= i < 0 + 7 -> i <> 6 -> i = 0 \/ i = 1 \/ i = 2 \/ i = 3 \/ i = 4 \/ i = 5.
Proof. lia. Qed.
Lemma in_six i : 2 <= i < 2 + 6 -> i = 2 \/ i = 3 \/ i = 4 \/ i = 5 \/ i = 6 \/ i = 7.
Proof. lia. Qed.

Lemma open_lots_passes : passes ["err_open_lots: PASS
"] err_open_lots.
Proof.
  intros w Hf. unfold err_open_lots. apply runs_bind.
  eapply runs_mono; [apply (runs_repeat _ (fun i cnt w' => w' = with_dirs (Z.to_nat (Z.min i 6)) w /\
    cnt = Z.max 0 (i - 6)))|].
  { split; [|done]. unfold with_dirs. destruct w. cbn in *. by rewrite Hf. }
  { intros i cnt w' Hi [-> ->]. destruct (decide (i = 6)) as [->|Hne].
    - eapply runs_call; [apply (service_open_fails vol (cstring ".") (bytes_of_string "."));
        [apply cstring_bytes|reflexivity|simpl; lia|by right; right]|].
      by apply runs_ret.
    - eapply runs_call; [apply (service_open_node vol (cstring ".") (bytes_of_string ".") DirNode _ (i + 2));
        [apply cstring_bytes|reflexivity|simpl; lia|exact Hdot|]|].
      + by apply in_seven with (i := i) (2 := Hne) in Hi as [-> | [-> | [-> | [-> | [-> | ->]]]]].
      + rewrite bool_decide_false by lia. apply runs_ret.
        by apply in_seven with (i := i) (2 := Hne) in Hi as [-> | [-> | [-> | [-> | [-> | ->]]]]]. }
  intros cnt w' [-> ->]. apply runs_bind.
  eapply runs_mono; [apply (runs_repeat _ (fun i _ w' =>
    w' = World (replicate (Z.to_nat (i - 2)) Closed ++ replicate (8 - Z.to_nat i) DirChan) (w_index w) (w_arg w)
           (w_tty w) (w_kbd w) (w_keys w) (w_out w)))|].
  { done. }
  { intros i [] w' Hi ->. eapply runs_call; [|by apply runs_ret].
    by apply in_six in Hi as [-> | [-> | [-> | [-> | [-> | ->]]]]]. }
  intros [] w' ->. apply puts_ret; [done|]. intros long. split; [done|].
  exists [(long, bytes_of_string "err_open_lots: PASS
")]. split; [done|]. unfold prints. cbn. by rewrite Hf.
Qed.

(** What is printed for a choice of the user. *)
Definition test_lines (select : Z) : list string :=
  let lines := ["err_neg_fd: PASS
"; "err_big_fd: PASS
"; "err_open_lots: PASS
"; "err_open: PASS
"; "err_unopened: PASS
"; "err_vidmap: PASS
"; "err_stdin_out: PASS
"; "err_syscall_num: PASS
"] in
  if bool_decide (select = 0) then lines ++ ["
Overall Tests: PASS
"] else default [] ((fun l => [l]) <$> lines !! Z.to_nat (select - 1)).

Lemma run_all_passes arr : passes (test_lines 0) (run_tests arr 0).
Proof.
  intros w Hf. unfold run_tests. rewrite (bool_decide_true (0 = 0)) by done.
  eapply passes_bind; [apply neg_fd_passes|exact Hf|]. intros o1 H1.
  eapply passes_bind; [apply big_fd_passes|exact Hf|]. intros o2 H2.
  eapply passes_bind; [apply open_lots_passes|exact Hf|]. intros o3 H3.
  eapply passes_bind; [apply open_passes|exact Hf|]. intros o4 H4.
  eapply passes_bind; [apply unopened_passes|exact Hf|]. intros o5 H5.
  eapply passes_bind; [apply vidmap_passes|exact Hf|]. intros o6 H6.
  eapply passes_bind; [apply stdin_out_passes|exact Hf|]. intros o7 H7.
  eapply passes_bind; [apply syscall_num_passes|exact Hf|]. intros o8 H8. rewrite !prints_app.
  apply puts_ret; [done|]. intros long. split; [done|]. rewrite prints_app. eexists. split; [|reflexivity].
  rewrite !fmap_app, H1, H2, H3, H4, H5, H6, H7, H8. reflexivity.
Qed.

Lemma run_tests_passes arr select : 0 <= select <= 8 -> passes (test_lines select) (run_tests arr select).
Proof.
  intros Hs. destruct (decide (select = 0)) as [->|H0]; [apply run_all_passes|].
  assert (select = 1 \/ select = 2 \/ select = 3 \/ select = 4 \/ select = 5 \/ select = 6 \/ select = 7 \/ select = 8)
    as Hcase by lia. clear Hs H0.
  destruct Hcase as [-> | [-> | [-> | [-> | [-> | [-> | [-> | ->]]]]]]];
    [apply neg_fd_passes|apply big_fd_passes|apply open_lots_passes|apply open_passes|apply unopened_passes
    |apply vidmap_passes|apply stdin_out_passes|apply syscall_num_passes].
Qed.

(** The whole program, when the user types a line that begins with a digit. *)
Lemma syserr_runs buf arr w keys rest select l :
  let w0 := print false (bytes_of_string "Choose from tests 1-8. 0 to run all: ") w in
  fresh w -> length buf = 128%nat -> w_keys w = keys :: rest -> 0 <= select <= 8 ->
  line_typed w0 keys (48 + select :: l) -> (length l <= 125)%nat ->
  runs' (answers 0 (bytes_of_string <$> test_lines select) (set_session (key_step (typing w0 keys) 0x1C) rest w0))
    (syserr_main buf arr) w.
Proof.
  intros w0 Hf Hl Hk Hs Hty Hll. unfold syserr_main. eapply fdputs_runs; [apply cstring_bytes|reflexivity|done|].
  eapply runs_call; [by apply (service_read_line vol w0 buf 127 keys rest _ Hk Hty); cbn [length]; lia|].
  cbn beta iota. rewrite bool_decide_false by lia. eapply runs_inside; [reflexivity|].
  replace (48 + select - 48) with select by lia.
  by apply run_tests_passes.
Qed.
End Syserr.
