(* ===== verification/Grep.v ===== *)
(** * grep

    [src/syscalls/ece391grep.c] and what it does over the file service: it prints the
    lines of the directory's files that contain its argument. The lines are found in a
    buffer of 1024 bytes, which a part of a line may be moved to the start of. *)
From S2P Require Import Prelude Clib.
From S2P Require Export Programs Console.

(** ** The program *)

(** [while (line_end < last && '\n' != data[line_end]) line_end++;] *)
Fixpoint line_end_from (fuel : nat) (data : list Z) (last line_end : Z) : option Z :=
  if bool_decide (line_end < last) then
    c ← load data line_end;
    if bool_decide (10 <> c) then
      match fuel with O => None | S fuel' => line_end_from fuel' data last (line_end + 1) end
    else Some line_end
  else Some line_end.

(** The condition on a position of the line; the argument has the type [const char*], so
    its first byte is signed. *)
Definition found (s data : list Z) (check s_len : Z) : option bool :=
  s0 ← load s 0;
  c ← load data check;
  if bool_decide (s8 s0 = c) then
    r ← ece391_strncmp (drop (Z.to_nat check) data) s (u32 s_len);
    Some (bool_decide (0 = r))
  else Some false.

(** [for (check = line_start; check < line_end; check++)]: [n] positions from [check]. *)
Fixpoint search_line (s fname : list Z) (s_len : Z) (data : list Z) (line_start : Z) (n : nat) (check : Z) : prog unit :=
  match n with
  | O => mret tt
  | S n' =>
      b ← inside (found s data check s_len);
      if (b : bool) then
        _ ← ece391_fdputs 1 fname;
        _ ← ece391_fdputs 1 (cstring ":");
        _ ← ece391_fdputs 1 (drop (Z.to_nat line_start) data);
        _ ← ece391_fdputs 1 (cstring "
");
        mret tt
      else search_line s fname s_len data line_start n' (check + 1)
  end.

(** The inner loop, on the lines that end in the buffer. *)
Definition grep_line (s fname : list Z) (s_len cnt : Z) (v : list Z * Z * Z) : prog (list Z * Z * Z + list Z * Z) :=
  let '(data, last, line_start) := v in
  line_end ← inside (line_end_from (length data) data last line_start);
  c ← inside (load data line_end);
  if bool_decide (10 <> c) && bool_decide (0 <> cnt) && bool_decide (line_start <> 0) then
    data ← inside (store data line_end 0);
    data ← inside (ece391_strcpy (length data) data 0 line_start);
    mret (inr (data, last - line_start))
  else
    data ← inside (store data line_end 0);
    _ ← search_line s fname s_len data line_start (Z.to_nat (line_end - line_start)) line_start;
    let line_start := line_end + 1 in
    if bool_decide (line_start >= last) then mret (inr (data, 0)) else mret (inl (data, last, line_start)).

(** [inr true]: the file could not be read. *)
Definition grep_round (s fname : list Z) (s_len fd : Z) (v : list Z * Z) : prog (list Z * Z + bool) :=
  let '(data, last) := v in
  '(cnt, rest) ← ece391_read fd (drop (Z.to_nat last) data) (BUFSIZE - last);
  let data := take (Z.to_nat last) data ++ rest in
  if bool_decide (-1 = cnt) then
    _ ← ece391_fdputs 1 (cstring "file read failed
");
    mret (inr true)
  else
    '(data, last) ← loop (grep_line s fname s_len cnt) (data, last + cnt, 0);
    mret (if bool_decide (0 = cnt) then inr false else inl (data, last)).

(** [data]: what the array holds on entry, BUFSIZE + 1 bytes. *)
Definition do_one_file (s fname data : list Z) : prog Z :=
  s_len ← inside (ece391_strlen s);
  fd ← ece391_open fname;
  if bool_decide (-1 = fd) then
    _ ← ece391_fdputs 1 (cstring "file open failed
");
    mret (-1)
  else
    failed ← loop (grep_round s fname s_len fd) (data, 0);
    if (failed : bool) then mret (-1)
    else
      r ← ece391_close fd;
      if bool_decide (-1 = r) then
        _ ← ece391_fdputs 1 (cstring "file close failed
");
        mret (-1)
      else mret 0.

(** [data k]: the array of the k-th file. *)
Definition grep_entry (search : list Z) (data : nat -> list Z) (fd : Z) (v : nat * list Z) : prog (nat * list Z + Z) :=
  let '(k, buf) := v in
  '(cnt, buf) ← ece391_read fd buf (SBUFSIZE - 1);
  if bool_decide (0 <> cnt) then
    if bool_decide (-1 = cnt) then
      _ ← ece391_fdputs 1 (cstring "directory entry read failed
");
      mret (inr 3)
    else
      c ← inside (load buf 0);
      if bool_decide (46 = c) then mret (inl (k, buf))
      else
        buf ← inside (store buf cnt 0);
        r ← do_one_file search buf (data k);
        mret (if bool_decide (0 <> r) then inr 3 else inl (S k, buf))
  else mret (inr 0).

(** [buf], [search]: the arrays, SBUFSIZE and BUFSIZE bytes. *)
Definition grep_main (buf search : list Z) (data : nat -> list Z) : prog Z :=
  '(r, search) ← ece391_getargs search BUFSIZE;
  if bool_decide (0 <> r) then
    _ ← ece391_fdputs 1 (cstring "could not read argument
");
    mret 3
  else
    fd ← ece391_open (cstring ".");
    if bool_decide (-1 = fd) then
      _ ← ece391_fdputs 1 (cstring "directory open failed
");
      mret 2
    else loop (grep_entry search data fd) (0%nat, buf).

(** ** What it means to find *)

(** The lines of a text; a line break at its end is followed by an empty one. *)
Fixpoint text_lines (l : list Z) : list (list Z) :=
  match l with
  | [] => [[]]
  | c :: l' =>
      if bool_decide (c = 10) then [] :: text_lines l'
      else match text_lines l' with [] => [[c]] | x :: r => (c :: x) :: r end
  end.

(** A line contains a word that is not empty. *)
Definition occurs (pat line : list Z) : Prop := pat <> [] /\ exists a b, line = a ++ pat ++ b.

Fixpoint occurs_at (pat line : list Z) : bool :=
  match line with
  | [] => false
  | _ :: line' => bool_decide (take (length pat) line = pat) || occurs_at pat line'
  end.

Lemma occurs_at_spec pat line : pat <> [] -> occurs_at pat line = true <-> exists a b, line = a ++ pat ++ b.
Proof.
  intros Hp. induction line as [|c line IH]; cbn [occurs_at].
  - split; [done|]. intros (a & b & E). by destruct a, pat.
  - rewrite orb_true_iff, IH, bool_decide_eq_true. split.
    + intros [E|(a & b & ->)]; [|by exists (c :: a), b].
      exists [], (drop (length pat) (c :: line)). cbn [app]. by rewrite <-E at 1; rewrite take_drop.
    + intros ([|a0 a] & b & E).
      * left. cbn [app] in E. rewrite E. apply take_app_length.
      * injection E as <- E. right. by exists a, b.
Qed.
#[export] Instance occurs_dec pat line : Decision (occurs pat line).
Proof.
  destruct (decide (pat = [])) as [->|Hp]; [right; by intros [? _]|].
  refine (cast_if (decide (occurs_at pat line = true))); abstract (unfold occurs; rewrite occurs_at_spec in * by done; naive_solver).
Defined.

Lemma text_lines_end line : Forall (fun c => c <> 10) line -> text_lines line = [line].
Proof. induction 1 as [|c l Hc _ IH]; [done|]. cbn [text_lines]. by rewrite bool_decide_false, IH by done. Qed.
Lemma text_lines_break line l : Forall (fun c => c <> 10) line -> text_lines (line ++ 10 :: l) = line :: text_lines l.
Proof. induction 1 as [|c line Hc _ IH]; [done|]. cbn [app text_lines]. by rewrite bool_decide_false, IH by done. Qed.

(** The first line of a text. *)
Variant starts_with (t line : list Z) : Prop :=
| starts_last : t = line -> starts_with t line
| starts_break l : t = line ++ 10 :: l -> starts_with t line.
Lemma first_line t : exists line, Forall (fun c => c <> 10) line /\ starts_with t line.
Proof.
  induction t as [|c t (line & Hl & Ht)]; [exists []; split; [done|by left]|].
  destruct (decide (c = 10)) as [->|Hc]; [exists []; split; [done|by apply (starts_break _ _ t)]|].
  exists (c :: line). split; [by constructor|]. destruct Ht as [->|l ->]; [by left|by apply (starts_break _ _ l)].
Qed.

(** The lines that are not empty; only in these something occurs. *)
Definition lines (t : list Z) : list (list Z) := filter (fun line => line <> []) (text_lines t).

Lemma lines_nil : lines [] = [].
Proof. done. Qed.
Lemma lines_end line : Forall (fun c => c <> 10) line -> lines line = filter (fun l => l <> []) [line].
Proof. intros. unfold lines. by rewrite text_lines_end. Qed.
Lemma lines_break line t :
  Forall (fun c => c <> 10) line -> lines (line ++ 10 :: t) = filter (fun l => l <> []) [line] ++ lines t.
Proof. intros. unfold lines. rewrite text_lines_break by done. change (?x :: ?l) with ([x] ++ l). apply filter_app. Qed.

(** What grep prints of a file. *)
Definition shows (fname line : list Z) : list (list Z) := [fname; [58]; line; [10]].
Definition grep_lines (pat fname : list Z) (ls : list (list Z)) : list (list Z) :=
  concat (shows fname <$> filter (occurs pat) ls).

Lemma occurs_nil pat : ~ occurs pat [].
Proof. intros (Hp & a & b & E). by destruct a, pat. Qed.
Lemma occurs_cons pat c l : occurs pat (c :: l) <-> (pat <> [] /\ take (length pat) (c :: l) = pat) \/ occurs pat l.
Proof.
  destruct (decide (pat = [])) as [->|Hp]; [by unfold occurs; naive_solver|].
  assert (forall l', occurs pat l' <-> occurs_at pat l' = true) as E by (intros; unfold occurs; rewrite occurs_at_spec by done; tauto).
  rewrite !E. cbn [occurs_at]. rewrite orb_true_iff, bool_decide_eq_true. tauto.
Qed.

Lemma grep_lines_app pat fname ls ls' : grep_lines pat fname (ls ++ ls') = grep_lines pat fname ls ++ grep_lines pat fname ls'.
Proof. unfold grep_lines. by rewrite filter_app, fmap_app, concat_app. Qed.
Lemma grep_lines_lines pat fname ls : grep_lines pat fname (filter (fun l => l <> []) ls) = grep_lines pat fname ls.
Proof.
  induction ls as [|l ls IH]; [done|]. rewrite filter_cons.
  assert (forall k, grep_lines pat fname (l :: k) = grep_lines pat fname [l] ++ grep_lines pat fname k) as Hc
    by (intros k; apply (grep_lines_app _ _ [l])).
  rewrite (Hc ls). case_decide as Hl; [by rewrite Hc, IH|]. assert (l = []) as -> by by destruct l.
  unfold grep_lines at 2. rewrite filter_cons, decide_False by apply occurs_nil. exact IH.
Qed.

(** ** Lemmas *)

Lemma load_take {A} (l : list A) n i : i < Z.of_nat n -> load (take n l) i = load l i.
Proof. intros Hi. unfold load. case_bool_decide; [|done]. by rewrite lookup_take_lt by lia. Qed.

Lemma line_end_spec fuel a line rest last :
  Forall (fun c => c <> 10) line -> (length line <= fuel)%nat -> len (a ++ line) <= last ->
  (len (a ++ line) = last \/ exists r, rest = 10 :: r) ->
  line_end_from fuel (a ++ line ++ rest) last (len a) = Some (len (a ++ line)).
Proof.
  intros Hl. revert a fuel. induction Hl as [|c line Hc Hl IH]; intros a fuel Hf Hlast Hend.
  - rewrite app_nil_r in *. destruct Hend as [E|[r ->]].
    + destruct fuel; cbn [line_end_from]; by rewrite bool_decide_false by lia.
    + assert (load (a ++ [] ++ 10 :: r) (len a) = Some 10) as Hr by by apply load_middle.
      destruct fuel; cbn [line_end_from]; case_bool_decide; try done; by rewrite Hr.
  - destruct fuel as [|fuel]; [simpl in Hf; lia|]. cbn [line_end_from]. rewrite length_app in Hlast. simpl in Hlast, Hf.
    rewrite bool_decide_true by lia. rewrite (load_middle a c (line ++ rest)) by done. cbn [mbind option_bind].
    rewrite bool_decide_true by done. specialize (IH (a ++ [c]) fuel ltac:(lia)).
    rewrite <-!app_assoc in IH. cbn [app] in IH. rewrite <-IH; [f_equal; lens|lens|].
    destruct Hend as [E|?]; [left; revert E; lens|by right].
Qed.

(** Copying down to index [dst], up to the NUL at index [e]. *)
Lemma strcpy_down fuel l dst src e :
  0 <= dst < src -> src <= e -> load l e = Some 0 -> (Z.to_nat (e - src) < fuel)%nat -> bytes l ->
  exists l', ece391_strcpy fuel l dst src = Some l' /\ length l' = length l /\ bytes l' /\
    (forall i, e <= i \/ i < dst -> load l' i = load l i) /\
    ((forall i, src <= i < e -> load l i <> Some 0) -> forall i, 0 <= i < e - src -> load l' (dst + i) = load l (src + i)).
Proof.
  revert l dst src. induction fuel as [|fuel IH]; intros l dst src Hd Hs He Hf Hb; [lia|]. cbn [ece391_strcpy].
  destruct (load_inv _ _ _ He) as [Hr _].
  destruct (load_Some l src) as [c Hc]; [lia|]. rewrite Hc. cbn [mbind option_bind]. rewrite store_in by lia.
  cbn [mbind option_bind]. assert (byte c) as Hbc by exact (load_Forall _ _ _ _ Hb Hc).
  assert (bytes (<[Z.to_nat dst := c]> l)) as Hb' by by apply Forall_insert.
  case_bool_decide as H0.
  - assert (src < e) as Hlt.
    { destruct (decide (src = e)) as [->|]; [|lia]. rewrite He in Hc. injection Hc as <-. done. }
    destruct (IH (<[Z.to_nat dst := c]> l) (dst + 1) (src + 1)) as (l' & -> & Hl & Hb1 & Hkeep & Hcopy); try done; try lia.
    { by rewrite load_insert_ne by lia. }
    exists l'. split; [done|]. split; [by rewrite Hl, length_insert|]. split; [done|]. split.
    + intros i Hi. rewrite Hkeep by lia. by apply load_insert_ne; lia.
    + intros Hnz i Hi. destruct (decide (i = 0)) as [->|Hne].
      * rewrite !Z.add_0_r, Hkeep by lia. rewrite load_insert_eq by lia. done.
      * specialize (Hcopy ltac:(intros j Hj; rewrite load_insert_ne by lia; apply Hnz; lia) (i - 1) ltac:(lia)).
        replace (dst + 1 + (i - 1)) with (dst + i) in Hcopy by lia. replace (src + 1 + (i - 1)) with (src + i) in Hcopy by lia.
        rewrite Hcopy. apply load_insert_ne; lia.
  - eexists. split; [done|]. split; [apply length_insert|]. split; [done|]. split.
    + intros i Hi. apply load_insert_ne; lia.
    + intros Hnz i Hi. exfalso. apply (Hnz src); [lia|]. by rewrite Hc; f_equal.
Qed.

Definition ascii : list Z -> Prop := Forall (fun c => c < 128).

(** A position [i] of the line. *)
Lemma found_spec s pat a line rest (i : nat) :
  until0 s = Some pat -> bytes s -> len pat < 2147483648 -> (i < length line)%nat ->
  exists b, found s (a ++ line ++ 0 :: rest) (len a + Z.of_nat i) (len pat) = Some b /\
    (ascii pat -> Forall (fun c => c <> 0) line -> b = true <-> pat <> [] /\ take (length pat) (drop i line) = pat).
Proof.
  intros Hs Hb Hl Hi. unfold found.
  assert (exists s0, load s 0 = Some s0 /\ (s0 = 0 -> pat = []) /\ (s0 <> 0 -> head pat = Some s0)) as (s0 & Hs0 & Hz & Hnz).
  { destruct s as [|s0 s']; [done|]. exists s0. split; [done|]. cbn [until0] in Hs. case_bool_decide.
    - injection Hs as <-. by split.
    - apply bind_Some in Hs as (l & _ & [= <-]). by split. }
  rewrite Hs0. cbn [mbind option_bind]. destruct (lookup_lt_is_Some_2 line i Hi) as [c Hc].
  assert (load (a ++ line ++ 0 :: rest) (len a + Z.of_nat i) = Some c) as ->.
  { rewrite load_nonneg by lia. rewrite lookup_app_r by lia. rewrite lookup_app_l by lia.
    by replace (Z.to_nat (len a + Z.of_nat i) - length a)%nat with i by lia. }
  cbn [mbind option_bind].
  assert (drop (Z.to_nat (len a + Z.of_nat i)) (a ++ line ++ 0 :: rest) = drop i line ++ 0 :: rest) as ->.
  { rewrite drop_app_ge by lia. rewrite drop_app_le by lia. by replace (Z.to_nat (len a + Z.of_nat i) - length a)%nat with i by lia. }
  pose proof (drop_S _ _ _ Hc) as Hd.
  case_bool_decide as Hsc.
  - destruct (until0_app_Some (drop i line) (0 :: rest)) as [u Hu]; [by eexists|].
    destruct (ece391_strncmp_eq (drop i line ++ 0 :: rest) s u pat (u32 (len pat))) as (v & -> & Hv); [done|done|apply u32_range|].
    cbn [mbind option_bind]. eexists. split; [done|]. intros Hasc Hnzl. rewrite bool_decide_eq_true.
    assert (u = drop i line) as ->.
    { rewrite until0_app in Hu by (by apply Forall_drop). by injection Hu. }
    rewrite u32_small, Nat2Z.id, (take_ge pat) in Hv by lia. split.
    + intros <-. split; [|by apply Hv]. intros ->.
      assert (s0 = 0) as ->. { destruct (decide (s0 = 0)); [done|]. by specialize (Hnz ltac:(done)). }
      assert (c = 0) as -> by (rewrite <-Hsc; done). by apply (Forall_lookup_1 _ _ _ _ Hnzl Hc).
    + intros [_ E]. symmetry. by apply Hv.
  - exists false. split; [done|]. intros Hasc _. split; [done|]. intros [Hp E]. exfalso.
    destruct (decide (s0 = 0)) as [->|Hne]; [by apply Hp, Hz|]. specialize (Hnz Hne).
    destruct pat as [|p pat]; [done|]. injection Hnz as ->. rewrite Hd in E. cbn in E. injection E as -> _.
    apply Hsc. apply Forall_cons in Hasc as [? _].
    pose proof (load_Forall _ _ _ _ Hb Hs0) as [? ?]. apply s8_small. lia.
Qed.

(** [out] is what grep prints of these lines, if the word is of ASCII characters and they
    hold no NUL. *)
Definition prints_lines (pat fname : list Z) (ls : list (list Z)) (out : list (bool * list Z)) : Prop :=
  ascii pat -> Forall (Forall (fun c => c <> 0)) ls -> snd <$> out = grep_lines pat fname ls.

Section Grep.
Context (vol : volume) (s pat fnamebuf fname : list Z).
Hypothesis Hs : until0 s = Some pat.
Hypothesis Hsb : bytes s.
Hypothesis Hpat : len pat < 2147483648.
Hypothesis Hf : until0 fnamebuf = Some fname.
Hypothesis Hfb : bytes fnamebuf.
Hypothesis Hfl : len fname < 2147483648.
Abbreviation runs' := (runs (service vol)).

Lemma shows_runs (Q : unit -> world -> Prop) l str w :
  until0 l = Some str -> bytes l -> len str < 2147483648 ->
  (forall out, snd <$> out = shows fname str -> Q tt (prints out w)) ->
  runs' Q (_ ← ece391_fdputs 1 fnamebuf; _ ← ece391_fdputs 1 (cstring ":"); _ ← ece391_fdputs 1 l;
    _ ← ece391_fdputs 1 (cstring "
"); mret tt) w.
Proof using Hf Hfb Hfl.
  intros Hu Hb Hl HQ. eapply fdputs_runs; [exact Hfb|exact Hf|done|].
  eapply fdputs_runs; [apply cstring_bytes|reflexivity|done|].
  eapply fdputs_runs; [exact Hb|exact Hu|done|]. eapply fdputs_runs; [apply cstring_bytes|reflexivity|done|].
  apply runs_ret. rewrite !prints_app. by apply HQ.
Qed.

Lemma search_runs (Q : unit -> world -> Prop) a line rest n i w :
  (i + n = length line)%nat -> bytes (line ++ 0 :: rest) -> len (line ++ 0 :: rest) < 2147483648 ->
  (forall out, (ascii pat -> Forall (fun c => c <> 0) line ->
      snd <$> out = if decide (occurs pat (drop i line)) then shows fname line else []) -> Q tt (prints out w)) ->
  runs' Q (search_line s fnamebuf (len pat) (a ++ line ++ 0 :: rest) (len a) n (len a + Z.of_nat i)) w.
Proof using Hs Hsb Hpat Hf Hfb Hfl.
  intros Hn Hb Hl. revert i Hn. induction n as [|n IH]; intros i Hn HQ; cbn [search_line].
  - apply runs_ret. rewrite <-(prints_nil w). apply HQ. intros _ _.
    rewrite drop_ge, decide_False by (lia || apply occurs_nil). done.
  - destruct (found_spec s pat a line rest i) as (b & Hfound & Hb'); [done|done|done|lia|].
    eapply runs_inside; [exact Hfound|].
    destruct (lookup_lt_is_Some_2 line i) as [c Hc]; [lia|]. pose proof (drop_S _ _ _ Hc) as Hd. destruct b.
    + destruct (until0_app_Some line (0 :: rest)) as [str Hstr]; [by eexists|].
      assert (drop (Z.to_nat (len a)) (a ++ line ++ 0 :: rest) = line ++ 0 :: rest) as -> by by rewrite Nat2Z.id, drop_app_length.
      assert (len str < 2147483648) as Hlen.
      { apply until0_length in Hstr. lia. }
      eapply shows_runs; [exact Hstr|done|done|]. intros out Hout. apply HQ. intros Ha Hnz.
      rewrite Hd, decide_True by (rewrite occurs_cons, <-Hd; left; by apply Hb').
      rewrite until0_app in Hstr by done. by injection Hstr as <-.
    + replace (len a + Z.of_nat i + 1) with (len a + Z.of_nat (S i)) by lia. apply IH; [lia|].
      intros out Hout. apply HQ. intros Ha Hnz. rewrite Hout by done. apply decide_ext.
      rewrite Hd, (occurs_cons _ c), <-Hd. specialize (Hb' Ha Hnz). intuition congruence.
Qed.

(** *** The lines in the buffer *)

Record buffer_ok (data : list Z) (last : Z) : Prop := {
  bo_length : length data = 1025%nat;
  bo_bytes : bytes data;
  bo_end : load data 1024 <> Some 10;
  bo_last : 0 <= last <= 1024;
}.

Lemma grep_lines_one line : grep_lines pat fname [line] = if decide (occurs pat line) then shows fname line else [].
Proof. unfold grep_lines. rewrite filter_cons. by case_decide. Qed.

Lemma prints_lines_one line out :
  (ascii pat -> Forall (fun c => c <> 0) line -> snd <$> out = if decide (occurs pat line) then shows fname line else []) ->
  prints_lines pat fname (filter (fun l => l <> []) [line]) out.
Proof.
  intros H Ha Hnz. rewrite grep_lines_lines, grep_lines_one. apply H; [done|]. rewrite filter_cons in Hnz.
  case_decide as Hl; [by apply Forall_cons in Hnz as [? _]|]. assert (line = []) as -> by by destruct line. done.
Qed.

Lemma prints_lines_app ls ls' out out' :
  prints_lines pat fname ls out -> prints_lines pat fname ls' out' -> prints_lines pat fname (ls ++ ls') (out ++ out').
Proof. intros H H' Ha [Hl Hl']%Forall_app. by rewrite fmap_app, grep_lines_app, H, H'. Qed.

(** What a round of lines leaves of the buffer's text [t], if the file goes on with
    [f]: the lines [ls] are done. *)
Definition advanced (t f t' : list Z) (out : list (bool * list Z)) : Prop :=
  Forall (fun c => c <> 0) t -> Forall (fun c => c <> 0) t' /\
  exists ls, lines (t ++ f) = ls ++ lines (t' ++ f) /\ prints_lines pat fname ls out.

(** The text of the buffer up to [last] may be taken for whole lines. *)
Definition whole (cnt last : Z) (a t f : list Z) : Prop :=
  (cnt = 0 -> f = []) /\ (last < 1024 -> f = []) /\
  (a = [] -> Forall (fun c => c <> 10) t -> f = [] \/ exists f', f = 10 :: f').

Lemma load_store_end data data' i : load data 1024 <> Some 10 -> store data i 0 = Some data' -> load data' 1024 <> Some 10.
Proof.
  intros H [Hi ->]%store_inv. destruct (decide (i = 1024)) as [->|]; [by rewrite load_insert_eq by done|].
  by rewrite load_insert_ne by lia.
Qed.

Lemma advanced_nil t f : advanced t f t [].
Proof. intros Ht. split; [done|]. exists []. done. Qed.

Lemma advanced_line line t f t' out out' :
  Forall (fun c => c <> 10) line ->
  (ascii pat -> Forall (fun c => c <> 0) line -> snd <$> out = if decide (occurs pat line) then shows fname line else []) ->
  advanced t f t' out' -> advanced (line ++ 10 :: t) f t' (out ++ out').
Proof.
  intros Hl Hout Hadv (_ & [_ Ht]%Forall_cons)%Forall_app. destruct (Hadv Ht) as (Ht' & ls & E & Hp). split; [done|].
  exists (filter (fun l => l <> []) [line] ++ ls). split.
  - rewrite <-!app_assoc, <-E. by apply lines_break.
  - apply prints_lines_app; [by apply prints_lines_one|done].
Qed.

Lemma advanced_last line f out :
  Forall (fun c => c <> 10) line -> f = [] \/ (exists f', f = 10 :: f') ->
  (ascii pat -> Forall (fun c => c <> 0) line -> snd <$> out = if decide (occurs pat line) then shows fname line else []) ->
  advanced line f [] out.
Proof.
  intros Hl Hf' Hout _. split; [done|]. exists (filter (fun l => l <> []) [line]).
  split; [|by apply prints_lines_one]. destruct Hf' as [->|[f' ->]].
  - by rewrite !app_nil_r, lines_end.
  - rewrite lines_break by done. by rewrite (lines_break []).
Qed.

(** A part of a line is moved to the start of the buffer. *)
Lemma move_runs (a t rest : list Z) (r0 : Z) (Q : list Z * Z * Z + list Z * Z -> world -> Prop) w :
  let data := a ++ t ++ r0 :: rest in
  buffer_ok data (len (a ++ t)) -> a <> [] ->
  (forall data', buffer_ok data' (len t) -> len t < 1024 -> (Forall (fun c => c <> 0) t -> take (length t) data' = t) ->
     Q (inr (data', len t)) w) ->
  runs' Q (data ← inside (store data (len (a ++ t)) 0); data ← inside (ece391_strcpy (length data) data 0 (len a));
    mret (inr (data, len (a ++ t) - len a))) w.
Proof.
  intros data [Hlen Hb Hend Hlast] Ha HQ. assert (0 < len a) as Hpos by (destruct a; [done|simpl; lia]).
  set (data1 := a ++ t ++ 0 :: rest).
  assert (store data (len (a ++ t)) 0 = Some data1) as Hst.
  { subst data data1. rewrite !(app_assoc a t). by apply store_middle. }
  pose proof (load_store_end _ _ _ Hend Hst) as Hend1. pose proof (store_length _ _ _ _ Hst) as Hlen1.
  assert (bytes data1) as Hb1.
  { apply store_inv in Hst as [_ ->]. apply Forall_insert; [done|unfold byte; lia]. }
  eapply runs_inside; [exact Hst|].
  assert (load data1 (len (a ++ t)) = Some 0) as He by (subst data1; rewrite (app_assoc a t); by apply load_middle).
  assert (len (a ++ t) = len a + len t) as Hat by lens.
  destruct (strcpy_down (length data1) data1 0 (len a) (len (a ++ t))) as (data' & Hcopy & Hlen' & Hb' & Hkeep & Hmove);
    try done; try lia.
  eapply runs_inside; [exact Hcopy|]. apply runs_ret.
  replace (len (a ++ t) - len a) with (len t) by lia. apply HQ.
  - split; [lia|done| |lia]. by rewrite Hkeep by lia.
  - lia.
  - intros Hnz. apply load_ext; [rewrite length_take; lia|]. intros i Hi. rewrite length_take in Hi.
    assert (forall j, 0 <= j < len t -> load data1 (len a + j) = load t j) as Ht.
    { intros j Hj. subst data1. rewrite load_app_r, load_app_l by lia. f_equal. lia. }
    rewrite load_take by lia. rewrite <-Ht by lia. apply (Hmove ltac:(intros j Hj Hz; replace j with (len a + (j - len a)) in Hz by lia;
      rewrite Ht in Hz by lia; exact (load_Forall _ _ _ _ Hnz Hz eq_refl)) i). lia.
Qed.

(** The rounds on the lines, from the buffer's index [len a]. *)
Lemma lines_runs cnt (a t rest data : list Z) w :
  data = a ++ t ++ rest -> buffer_ok data (len (a ++ t)) -> t <> [] \/ a = [] ->
  runs' (fun '(data', last') w' => exists out, w' = prints out w /\ buffer_ok data' last' /\ last' < 1024 /\
      (cnt = 0 -> last' = 0) /\
      forall f, whole cnt (len (a ++ t)) a t f -> advanced t f (take (Z.to_nat last') data') out)
    (loop (grep_line s fnamebuf (len pat) cnt) (data, len (a ++ t), len a)) w.
Proof using Hs Hsb Hpat Hf Hfb Hfl.
  remember (length t) as m eqn:Hm. revert a t rest data w Hm. induction (lt_wf m) as [m _ IH].
  intros a t rest data w -> -> Hok Hat. apply runs_loop. unfold grep_line at 2.
  pose proof (bo_length _ _ Hok) as Hlen. pose proof (bo_last _ _ Hok) as Hlast.
  destruct (first_line t) as (line & Hline & Ht).
  assert (exists r0 rest', line ++ r0 :: rest' = t ++ rest /\ (t = line \/ r0 = 10 /\ exists t', t = line ++ 10 :: t' /\ rest' = t' ++ rest))
    as (r0 & rest' & Er & Hcase).
  { destruct Ht as [->|t' ->].
    - destruct rest as [|r0 rest']; [rewrite app_nil_r in Hlen; lia|]. exists r0, rest'. split; [done|by left].
    - exists 10, (t' ++ rest). split; [by rewrite <-app_assoc|]. right. split; [done|by exists t']. }
  rewrite <-Er in *. clear Er.
  assert (line_end_from (length (a ++ line ++ r0 :: rest')) (a ++ line ++ r0 :: rest') (len (a ++ t)) (len a) = Some (len (a ++ line))) as Hle.
  { apply line_end_spec; [done|lens|destruct Hcase as [->|(_ & t' & -> & _)]; lens|].
    destruct Hcase as [->|(-> & _)]; [by left|right; by eexists]. }
  eapply runs_inside; [exact Hle|]. clear Hle.
  assert (forall x, (a ++ line) ++ x :: rest' = a ++ line ++ x :: rest') as Eassoc by (intros; by rewrite app_assoc).
  eapply runs_inside; [by rewrite <-Eassoc; apply load_middle|]. cbn beta.
  destruct (bool_decide (10 <> r0) && bool_decide (0 <> cnt) && bool_decide (len a <> 0)) eqn:Hcond.
  { rewrite !andb_true_iff, !bool_decide_eq_true in Hcond. destruct Hcond as [[Hr0 Hcnt] Ha].
    destruct Hcase as [->|(-> & _)]; [|done].
    apply (move_runs a line rest' r0 _ w Hok); [by destruct a|]. intros data' Hok' Hlt Hmv. exists [].
    split; [by rewrite prints_nil|]. split; [done|]. split; [done|]. split; [done|]. intros f _ Hnz.
    rewrite Nat2Z.id, Hmv by done. by apply advanced_nil. }
  assert (store (a ++ line ++ r0 :: rest') (len (a ++ line)) 0 = Some (a ++ line ++ 0 :: rest')) as Hst
    by (rewrite <-!Eassoc; by apply store_middle).
  eapply runs_inside; [exact Hst|]. clear Eassoc.
  assert (buffer_ok (a ++ line ++ 0 :: rest') (len (a ++ t))) as Hok1.
  { destruct Hok as [_ Hb He _]. split; [by rewrite (store_length _ _ _ _ Hst)| |exact (load_store_end _ _ _ He Hst)|done].
    apply store_inv in Hst as [_ ->]. apply Forall_insert; [done|unfold byte; lia]. }
  apply runs_bind. replace (len a) with (len a + Z.of_nat 0) at 3 by lia.
  pose proof (bo_length _ _ Hok1) as Hlen1. pose proof (bo_bytes _ _ Hok1) as Hb1.
  apply search_runs; [lens|by apply Forall_app in Hb1 as [_ ?]|lens|].
  intros out Hout. rewrite drop_0 in Hout.
  cbv zeta. destruct (decide (len (a ++ line) + 1 >= len (a ++ t))) as [Hend|Hend].
  - rewrite bool_decide_true by done. apply runs_ret. exists out. split; [done|]. split; [destruct Hok1; split; done || lia|].
    split; [lia|]. split; [done|]. intros f (Hf0 & Hf1 & Hfa). cbn [Z.to_nat take].
    destruct Hcase as [->|(-> & t' & -> & ->)].
    + apply advanced_last; [done| |done].
      destruct (decide (len (a ++ line) < 1024)) as [|Hfull]; [by left; auto|].
      destruct (decide (cnt = 0)) as [|Hcnt]; [by left; auto|].
      apply Hfa; [|done]. rewrite !andb_false_iff, !bool_decide_eq_false in Hcond.
      destruct Hcond as [[Hc|Hc]|Hc]; [|lia|destruct a; [done|simpl in Hc; lia]].
      destruct Hok as [_ _ He _]. exfalso. apply He. rewrite app_assoc. rewrite load_middle with (v := r0) by lia.
      f_equal. destruct (decide (10 = r0)); [done|tauto].
    + assert (t' = []) as -> by (destruct t'; [done|exfalso; revert Hend; lens]).
      rewrite <-(app_nil_r out). apply advanced_line; [done|done|]. apply advanced_nil.
  - rewrite bool_decide_false by done. apply runs_ret.
    destruct Hcase as [->|(-> & t' & -> & ->)]; [lia|].
    assert (len (a ++ line ++ 10 :: t') = len ((a ++ line ++ [0]) ++ t')) as El by lens.
    assert (len (a ++ line) + 1 = len (a ++ line ++ [0])) as El' by lens. rewrite El, El' in *.
    eapply runs_mono; [apply (IH (length t') ltac:(lens) (a ++ line ++ [0]) t' rest)|].
    + done.
    + by rewrite <-!app_assoc.
    + done.
    + left. intros ->. revert Hend. lens.
    + intros [data' last'] w' (out' & -> & Hok' & Hlt & Hz & Hadv). exists (out ++ out'). rewrite prints_app.
      split; [done|]. split; [done|]. split; [done|]. split; [done|]. intros f (Hf0 & Hf1 & Hfa).
      apply advanced_line; [done|done|]. apply Hadv. split; [done|]. split; [done|]. by destruct a, line.
Qed.

(** *** The file *)

(** A text without NUL whose lines fit the buffer. *)
Definition text_ok (t : list Z) : Prop := Forall (fun c => c <> 0) t /\ Forall (fun line => len line <= 1024) (lines t).

Lemma long_line t f :
  Forall (fun c => c <> 10) t -> Forall (fun line => len line <= 1024) (lines (t ++ f)) -> 1024 <= len t ->
  f = [] \/ exists f', f = 10 :: f'.
Proof.
  intros Ht Hl Hlen. destruct (first_line f) as (line & Hline & Hcase).
  destruct line as [|c line]; [destruct Hcase as [->|l ->]; [by left|right; by exists l]|]. exfalso.
  assert (exists r, lines (t ++ f) = (t ++ c :: line) :: r) as [r E].
  { assert (filter (fun l : list Z => l <> []) [t ++ c :: line] = [t ++ c :: line]) as Hfil.
    { rewrite filter_cons, decide_True; [done|]. by destruct t. }
    assert (Forall (fun c => c <> 10) (t ++ c :: line)) by by apply Forall_app.
    destruct Hcase as [->|l ->].
    - exists []. by rewrite lines_end, Hfil.
    - exists (lines l). rewrite app_assoc. by rewrite lines_break, Hfil. }
  rewrite E in Hl. apply Forall_cons in Hl as [Hl _]. revert Hl. lens.
Qed.

(** A read into the buffer. *)
Lemma buffer_read data last (piece : list Z) :
  buffer_ok data last -> last + len piece <= 1024 -> bytes piece ->
  let data' := take (Z.to_nat last) data ++ piece ++ drop (length piece) (drop (Z.to_nat last) data) in
  buffer_ok data' (last + len piece).
Proof.
  intros [Hl Hb He Hr] Hp Hbp data'. split.
  - subst data'. lens.
  - apply Forall_app. split; [by apply Forall_take|]. apply Forall_app. split; [done|by do 2 apply Forall_drop].
  - subst data'. rewrite load_app_r by lens. rewrite load_app_r by lens. rewrite drop_drop, load_drop by lens.
    intros E. apply He. rewrite <-E. f_equal. lens.
  - lia.
Qed.

Lemma prints_set_chan out i c w : set_chan i c (prints out w) = prints out (set_chan i c w).
Proof. done. Qed.

Lemma file_runs fd l p data last w :
  bytes l -> 2 <= fd < 8 -> len l < 1073741824 -> (p <= length l)%nat ->
  load (w_chans w) (fd - 2) = Some (FileChan l (Z.of_nat p)) -> buffer_ok data last -> last < 1024 ->
  runs' (fun failed w' => failed = false /\ exists out, w' = prints out (set_chan fd (FileChan l (len l)) w) /\
      let t := take (Z.to_nat last) data ++ drop p l in text_ok t -> prints_lines pat fname (lines t) out)
    (loop (grep_round s fnamebuf (len pat) fd) (data, last)) w.
Proof using Hs Hsb Hpat Hf Hfb Hfl.
  intros Hbl Hfd Hlen. remember (length l - p)%nat as m eqn:Hm. revert p Hm data last w.
  induction (lt_wf m) as [m _ IH]. intros p -> data last w Hp Hc Hok Hlast. apply runs_loop. unfold grep_round at 2.
  pose proof (bo_length _ _ Hok) as Hdl. pose proof (bo_last _ _ Hok) as Hlr.
  pose proof (service_read_chan vol w fd (drop (Z.to_nat last) data) (BUFSIZE - last) Hfd _ Hc) as Hread. cbv iota zeta in Hread.
  set (q := Nat.min (1024 - Z.to_nat last) (length l - p)) in *.
  assert (Z.min (BUFSIZE - last) (len l - Z.of_nat p) = Z.of_nat q) as E by (unfold BUFSIZE; lia).
  rewrite E, !Nat2Z.id in Hread. rewrite !bool_decide_true in Hread by (unfold BUFSIZE; lens). cbn [andb] in Hread.
  eapply runs_call; [exact Hread|]. clear Hread E. cbn beta iota zeta. rewrite bool_decide_false by lia.
  set (piece := take q (drop p l)). assert (length piece = q) as Hq by (subst piece; lens). rewrite <-Hq.
  set (w1 := set_chan fd (FileChan l (Z.of_nat p + len piece)) w). set (f := drop (p + q) l).
  assert (drop p l = piece ++ f) as Hpf by (subst piece f; by rewrite <-drop_drop, take_drop).
  set (t := take (Z.to_nat last) data ++ piece). assert (len t = last + len piece) as Ht by (subst t; lens).
  assert (take (Z.to_nat last) data ++ drop p l = t ++ f) as Etf by (subst t; by rewrite Hpf, app_assoc).
  pose proof (buffer_read data last piece Hok ltac:(lia) ltac:(by apply Forall_take, Forall_drop)) as Hok1. cbv zeta in Hok1.
  pose proof (lines_runs (Z.of_nat (length piece)) [] t (drop (length piece) (drop (Z.to_nat last) data)) _ w1
    ltac:(subst t; by rewrite <-app_assoc) ltac:(cbn [app]; by rewrite Ht) ltac:(by right)) as Hbuf.
  cbn [app length] in Hbuf. rewrite Ht in Hbuf. change (Z.of_nat 0) with 0 in Hbuf.
  apply runs_bind. eapply runs_mono; [exact Hbuf|]. clear Hbuf. intros [data' last'] w' (out & -> & Hok' & Hlt & Hz & Hadv). apply runs_ret.
  assert (text_ok (take (Z.to_nat last) data ++ drop p l) ->
    whole (Z.of_nat (length piece)) (last + len piece) [] t f /\ Forall (fun c => c <> 0) t /\ Forall (fun c => c <> 0) f) as Hw.
  { rewrite Etf. intros [[Hnt Hnf]%Forall_app Hlines]. split; [|done].
    assert (last + len piece < 1024 -> f = []) as Hf1 by (intros; subst f; apply drop_ge; lia).
    split; [intros; apply Hf1; lia|]. split; [done|]. intros _ Hnl.
    destruct (decide (last + len piece < 1024)); [left; by apply Hf1|]. eapply long_line; [exact Hnl|done|lia]. }
  destruct (decide (length piece = 0%nat)) as [Hq0|Hq0].
  - rewrite bool_decide_true by lia. split; [done|]. exists out. subst w1.
    replace (Z.of_nat p + Z.of_nat (length piece)) with (len l) by lia. split; [done|]. cbv zeta. intros Htext.
    destruct (Hw Htext) as (Hwh & Hnt & _). destruct (Hadv f Hwh Hnt) as (_ & ls & El & Hls).
    rewrite Hz, take_0 in El by lia. assert (f = []) as Hf0 by (subst f; apply drop_ge; lia).
    rewrite Etf, El, Hf0. change (lines ([] ++ [])) with (@nil (list Z)). by rewrite app_nil_r.
  - rewrite bool_decide_false by lia. eapply runs_mono.
    { apply (IH (length l - (p + q))%nat ltac:(lia) (p + q)%nat eq_refl data' last'); try done; [lia|].
      subst w1. cbn [prints w_chans]. unfold set_chan. cbn [w_chans]. pose proof (load_inv _ _ _ Hc) as [? _].
      rewrite load_insert_eq by done. do 2 f_equal. lia. }
    intros b w' (-> & out' & -> & Hout'). split; [done|]. exists (out ++ out'). split.
    { subst w1. rewrite prints_set_chan, prints_app. unfold set_chan. cbn. by rewrite list_insert_insert_eq. }
    cbv zeta in *. intros Htext. destruct (Hw Htext) as (Hwh & Hnt & Hnf). destruct (Hadv f Hwh Hnt) as (Hnt' & ls & El & Hls).
    destruct Htext as [_ Hlines]. rewrite Etf, El in *.
    apply Forall_app in Hlines as [_ Hlines]. apply prints_lines_app; [done|]. apply Hout'. split; [|done].
    by apply Forall_app.
Qed.

Lemma lines_nonzero t : Forall (fun c => c <> 0) t -> Forall (Forall (fun c => c <> 0)) (lines t).
Proof.
  intros Ht. apply Forall_forall. intros x [_ Hx]%list_elem_of_filter. revert x Hx. apply Forall_forall. induction Ht as [|c t Hc _ IH]; [by repeat constructor|]. cbn [text_lines].
  case_bool_decide; [by constructor|]. destruct (text_lines t) as [|x r]; [by repeat constructor|].
  apply Forall_cons in IH as [Hx Hr]. by repeat constructor.
Qed.

(** What is printed for a file, whatever it holds: of a text, its lines with the word. The
    clock reads as an empty file. *)
Definition node_text (nd : node) : option (list Z) :=
  match nd with FileNode l => Some l | ClockNode => Some [] | DirNode => None end.
Definition file_shown (name : list Z) (out : list (list Z)) : Prop :=
  forall l, vol_node vol name ≫= node_text = Some l -> ascii pat -> text_ok l ->
    out = concat (shows name <$> filter (occurs pat) (text_lines l)).

Lemma shown_lines l out : vol_node vol fname ≫= node_text = Some l ->
  (text_ok l -> prints_lines pat fname (lines l) out) -> file_shown fname (snd <$> out).
Proof.
  intros Hl Hp l' Hl' Ha Hok. rewrite Hl in Hl'. injection Hl' as <-. rewrite (Hp Hok Ha) by (apply lines_nonzero, Hok).
  apply grep_lines_lines.
Qed.

Definition data_ok (data : list Z) : Prop := buffer_ok data 0.

Lemma close_chan i c w :
  2 <= i < 8 -> load (w_chans w) (i - 2) = Some c -> c <> Closed ->
  service vol _ (Sys_close i) w = Ret 0 (set_chan i Closed w).
Proof.
  intros Hi Hc Hne. cbn [service]. unfold service_close, mbind, M_bind, lift, get, modify.
  rewrite !bool_decide_false by lia. cbn [orb]. by rewrite Hc, bool_decide_false.
Qed.

Lemma set_chan_back i c w : free_chan w = Some i -> set_chan i Closed (set_chan i c w) = w.
Proof.
  intros (Hi & Hc & _)%free_chan_Some. unfold set_chan. cbn. rewrite list_insert_insert_eq, list_insert_id.
  - by destruct w.
  - rewrite <-load_nonneg by lia. done.
Qed.

Lemma one_file_runs nd data w j :
  (0 < length fname <= 31)%nat -> vol_node vol fname = Some nd -> nd <> DirNode ->
  (forall l, nd = FileNode l -> bytes l /\ len l < 1073741824) ->
  free_chan w = Some j -> length (w_chans w) = 6%nat -> data_ok data ->
  runs' (fun r w' => r = 0 /\ exists out, w' = prints out w /\ file_shown fname (snd <$> out)) (do_one_file s fnamebuf data) w.
Proof using Hs Hsb Hpat Hf Hfb Hfl.
  intros Hlen Hnd Hdir Hfile Hj Hch Hdata. pose proof (set_chan_range j w Hj Hch) as Hjr.
  pose proof (load_set_chan j (opened nd) w Hjr Hch) as Hld. unfold do_one_file.
  apply runs_inside with (len pat); [by rewrite ece391_strlen_eq, (strlen_Some _ _ Hs)|].
  eapply runs_call; [by apply (service_open_node vol fnamebuf fname nd w j)|].
  rewrite bool_decide_false by lia. apply runs_bind.
  assert (forall out w1 c, w1 = prints out (set_chan j c w) -> c <> Closed -> file_shown fname (snd <$> out) ->
    runs' (fun r w' => r = 0 /\ exists out, w' = prints out w /\ file_shown fname (snd <$> out))
      (r ← ece391_close j; if bool_decide (-1 = r) then
        _ ← ece391_fdputs 1 (cstring "file close failed
"); mret (-1) else mret 0) w1) as Hclose.
  { intros out w1 c -> Hc Hout. eapply runs_call; [by apply (close_chan j c); [|apply load_set_chan|]|].
    rewrite bool_decide_false by lia. apply runs_ret. split; [done|]. exists out. split; [|done].
    by rewrite prints_set_chan, set_chan_back. }
  destruct nd as [| |l]; [|done|].
  - apply runs_loop. unfold grep_round at 2. change (drop (Z.to_nat 0) data) with data.
    eapply runs_call; [rewrite (service_read_chan vol _ j _ _ Hjr _ Hld); reflexivity|].
    cbn beta iota zeta. rewrite bool_decide_false by lia. apply runs_bind.
    eapply runs_mono; [by apply (lines_runs 0 [] [] data data _ eq_refl Hdata); right|].
    intros [data' last'] w' (out & -> & _ & _ & Hz & Hadv). rewrite bool_decide_true by done. apply runs_ret. cbn beta iota.
    eapply Hclose; [reflexivity|done|]. apply (shown_lines []); [by rewrite Hnd|]. intros _.
    destruct (Hadv [] ltac:(unfold whole; auto) ltac:(constructor)) as (_ & ls & El & Hls). rewrite Hz in El by done.
    change ([] = ls ++ []) in El. rewrite app_nil_r in El. by subst.
  - destruct (Hfile l eq_refl) as [Hbl Hll]. eapply runs_mono; [apply (file_runs j l 0 data 0); [done|done|done|lia|exact Hld|exact Hdata|lia]|].
    intros b w' (-> & out & -> & Hout). cbn beta iota. rewrite <-prints_set_chan. apply (Hclose out _ (FileChan l (len l))); [|done|].
    + unfold set_chan. cbn. by rewrite list_insert_insert_eq.
    + apply (shown_lines l); [by rewrite Hnd|exact Hout].
Qed.
End Grep.

(** *** The directory *)

(** grep passes entries over whose name starts with a dot; the others are files with names
    that fit the 32 bytes of a directory entry with a NUL. *)
Definition visible (name : list Z) : Prop := head name <> Some 46.
Definition entry_ok (vol : volume) (name : list Z) : Prop :=
  bytes name /\ Forall (fun c => c <> 0) name /\ (0 < length name <= 31)%nat /\
  (visible name -> exists nd, vol_node vol name = Some nd /\ nd <> DirNode).

Section Directory.
Context (vol : volume) (search pat : list Z) (data : nat -> list Z) (fd fd' : Z).
Abbreviation runs' := (runs (service vol)).
Hypothesis Hsearch : until0 search = Some pat.
Hypothesis Hsb : bytes search.
Hypothesis Hpat : len pat < 2147483648.
Hypothesis Hdata : forall k, data_ok (data k).
Hypothesis Hnames : Forall (entry_ok vol) (vol_names vol).
Hypothesis Hfiles : forall name l, vol_node vol name = Some (FileNode l) -> bytes l /\ len l < 1073741824.
Hypothesis Hfd : 2 <= fd < 8.

(** The pieces of text that are printed from a list of names. *)
Definition all_shown (names : list (list Z)) (outs : list (list (list Z))) : Prop :=
  Forall2 (file_shown vol pat) (filter visible names) outs.

Lemma entries_run m j k buf w :
  length buf = 33%nat -> bytes buf -> load (w_chans w) (fd - 2) = Some DirChan ->
  length (w_chans w) = 6%nat -> free_chan w = Some fd' -> w_index w = Z.of_nat j -> (j + m = length (vol_names vol))%nat ->
  runs' (fun r w' => exists outs, all_shown (drop j (vol_names vol)) outs /\ answers 0 (concat outs) (set_index 0 w) r w')
    (loop (grep_entry search data fd) (k, buf)) w.
Proof using Hsearch Hsb Hpat Hdata Hnames Hfiles Hfd.
  revert j k buf w. induction m as [|m IH]; intros j k buf w Hl Hb Hc Hch Hj' Hj Hm; apply runs_loop; unfold grep_entry at 2;
    pose proof (service_read_chan vol w fd buf (SBUFSIZE - 1) Hfd _ Hc) as Hread; cbv iota in Hread;
    rewrite Hj, load_lookup in Hread.
  - rewrite lookup_ge_None_2 in Hread by lia. eapply runs_call; [exact Hread|]. cbn beta iota.
    rewrite bool_decide_false by lia. apply runs_ret. exists []. rewrite drop_ge by lia.
    split; [constructor|apply answers_nil].
  - destruct (lookup_lt_is_Some_2 (vol_names vol) j) as [name Hname]; [lia|]. rewrite Hname in Hread.
    pose proof (Forall_lookup_1 _ _ _ _ Hnames Hname) as (Hbn & Hzn & Hln & Hnode).
    rewrite !bool_decide_true in Hread by lia. cbn [andb] in Hread.
    eapply runs_call; [exact Hread|]. clear Hread. cbn beta iota.
    rewrite bool_decide_true, bool_decide_false by lia. rewrite (drop_S _ _ _ Hname).
    destruct name as [|c name]; [simpl in Hln; lia|]. eapply runs_inside; [reflexivity|].
    set (w1 := set_index (Z.of_nat j + 1) w).
    assert (bytes ((c :: name) ++ 0 :: drop (S (length (c :: name))) buf)) as Hbuf.
    { apply Forall_app. split; [done|]. constructor; [unfold byte; lia|by apply Forall_drop]. }
    assert (forall k' out, let buf' := (c :: name) ++ 0 :: drop (S (length (c :: name))) buf in
      runs' (fun r w' => exists outs, all_shown (drop (S j) (vol_names vol)) outs /\
          answers 0 (concat outs) (set_index 0 (prints out w1)) r w')
        (loop (grep_entry search data fd) (k', buf')) (prints out w1)) as Hnext.
    { intros k' out buf'. apply (IH (S j)); try done; [subst buf'; lens|subst w1; cbn [prints set_index w_index]; lia|lia]. }
    case_bool_decide as Hdot.
    + apply runs_ret. rewrite <-(prints_nil w1). eapply runs_mono; [apply Hnext|].
      intros r w' (outs & Ho & Ha). exists outs. split; [|by rewrite prints_nil in Ha].
      unfold all_shown. rewrite filter_cons, decide_False; [done|]. unfold visible. cbn. naive_solver.
    + assert (visible (c :: name)) as Hvis by (unfold visible; cbn; naive_solver).
      eapply runs_inside; [by apply store_middle|]. set (buf' := (c :: name) ++ 0 :: drop (S (length (c :: name))) buf).
      destruct (Hnode Hvis) as (nd & Hnd & Hdir). apply runs_bind. eapply runs_mono.
      { apply (one_file_runs vol search pat buf' (c :: name)) with (nd := nd) (j := fd'); try done.
        - by apply until0_app.
        - lia.
        - intros l ->. by eapply Hfiles. }
      intros r w' (-> & out & -> & Hout). rewrite bool_decide_false by lia. apply runs_ret.
      eapply runs_mono; [apply Hnext|]. intros r w' (outs & Ho & Ha).
      exists ((snd <$> out) :: outs). split.
      * unfold all_shown. rewrite filter_cons, decide_True by done. by constructor.
      * cbn [concat]. by apply answers_app.
Qed.

Lemma grep_runs buf array w :
  length buf = 33%nat -> bytes buf -> length array = 1024%nat -> search = w_arg w ++ 0 :: drop (S (length (w_arg w))) array ->
  (length (w_arg w) < 1024)%nat -> vol_node vol [46] = Some DirNode -> length (w_chans w) = 6%nat ->
  free_chan w = Some fd -> free_chan (set_chan fd DirChan w) = Some fd' -> 0 <= w_index w <= len (vol_names vol) ->
  runs' (fun r w' => exists outs, all_shown (drop (Z.to_nat (w_index w)) (vol_names vol)) outs /\
      answers 0 (concat outs) (set_index 0 (set_chan fd DirChan w)) r w') (grep_main buf array data) w.
Proof using Hsearch Hsb Hpat Hdata Hnames Hfiles Hfd.
  intros Hl Hb Hla Earr Harg Hdot Hch Hfree Hfree' Hidx. unfold grep_main.
  eapply runs_call; [apply service_getargs_eq; unfold BUFSIZE; lia|]. cbn beta iota. rewrite <-Earr, bool_decide_false by lia.
  eapply runs_call; [apply (service_open_node vol _ [46] DirNode w fd); try done; [apply cstring_bytes|simpl; lia]|].
  rewrite bool_decide_false by lia.
  apply (entries_run (length (vol_names vol) - Z.to_nat (w_index w))); try done.
  - by apply load_set_chan.
  - unfold set_chan. cbn. by rewrite length_insert.
  - unfold set_chan. cbn. lia.
  - lia.
Qed.
End Directory.
