(* ===== verification/Pingpong.v ===== *)
(** * pingpong

    [src/syscalls/ece391pingpong.c], an endless program: a character goes to and fro between
    two walls, a row per tick of the clock. *)
From S2P Require Import Prelude Clib.
From S2P Require Export Programs.

(** ** The program *)

Definition SCREENWIDTH : Z := 79.
Definition ENDING : Z := 2.
Definition BUFMAX : Z := SCREENWIDTH + ENDING.
Definition START : Z := 1.
Definition STARTLOOP : Z := START + 1.
(** The macros expand without parentheses: [SCREENWIDTH+ENDING-ENDING-1]. *)
Definition LOOPMAX : Z := SCREENWIDTH + ENDING - ENDING - 1.
Definition STARTCHAR : Z := 65.
Definition ENDCHAR : Z := 90.

(** [for(i = lo; i < lo + n; i++) buf[i]=' ';] *)
Fixpoint blank (n : nat) (lo : Z) (buf : list Z) : option (list Z) :=
  match n with
  | O => Some buf
  | S n' => buf' ← store buf lo 32; blank n' (lo + 1) buf'
  end.

(** [for (i = hi; i > hi - n; i--)] with the variable [x]. *)
Fixpoint repeat_down {X} (n : nat) (hi : Z) (body : Z -> X -> prog X) (x : X) : prog X :=
  match n with
  | O => mret x
  | S n' => x' ← body hi x; repeat_down n' (hi - 1) body x'
  end.

(** The body of both loops: a row, and a tick. *)
Definition draw (rtc_fd curchar j : Z) (v : list Z * list Z) : prog (list Z * list Z) :=
  let '(buf, garbage) := v in
  buf ← inside (blank (Z.to_nat (LOOPMAX - STARTLOOP)) STARTLOOP buf);
  buf ← inside (store buf j curchar);
  _ ← ece391_fdputs 1 buf;
  '(_, garbage) ← ece391_read rtc_fd garbage 4;
  mret (buf, garbage).

Definition pingpong_round (rtc_fd : Z) (v : Z * (list Z * list Z)) : prog (Z * (list Z * list Z) + Z) :=
  let '(curchar, x) := v in
  x ← repeat_for (Z.to_nat (LOOPMAX - STARTLOOP)) STARTLOOP (draw rtc_fd curchar) x;
  x ← repeat_down (Z.to_nat (LOOPMAX - STARTLOOP)) (LOOPMAX - 1) (draw rtc_fd curchar) x;
  mret (inl (if bool_decide (curchar = ENDCHAR) then STARTCHAR else u8 (curchar + 1), x)).

(** The array with the walls. *)
Definition walls (buf : list Z) : option (list Z) :=
  buf ← blank (Z.to_nat BUFMAX) 0 buf;
  buf ← store buf (BUFMAX - 1) 0;
  buf ← store buf (BUFMAX - 2) 10;
  buf ← store buf (BUFMAX - 3) 124;
  store buf START 124.

(** [buf], [garbage]: the array of BUFMAX bytes and the bytes of the integer. *)
Definition pingpong_main (buf garbage : list Z) : prog Z :=
  buf ← inside (walls buf);
  rtc_fd ← ece391_open (cstring "rtc");
  _ ← ece391_write rtc_fd [32; 0; 0; 0] 4;
  loop (pingpong_round rtc_fd) (STARTCHAR, (buf, garbage)).

(** ** What it prints *)

(** A row with [c] in column [j], from 2 to 77. *)
Definition row (c j : Z) : list Z :=
  [32; 124] ++ replicate (Z.to_nat (j - 2)) 32 ++ [c] ++ replicate (Z.to_nat (77 - j)) 32 ++ [124; 10].
Definition bounce (c : Z) : list (list Z) := row c <$> seqZ 2 76 ++ reverse (seqZ 2 76).
Definition letter (k : nat) : Z := 65 + Z.of_nat (k mod 26).
Definition bounces (k : nat) : list (list Z) := concat ((fun i => bounce (letter i)) <$> seq 0 k).

(** ** Lemmas *)

Lemma blank_spec (n : nat) l1 l2 rest :
  length l2 = n -> blank n (len l1) (l1 ++ l2 ++ rest) = Some (l1 ++ replicate n 32 ++ rest).
Proof.
  revert l1 l2. induction n as [|n IH]; intros l1 [|x l2] Hl; try done. cbn [blank app].
  rewrite store_middle by done. cbn [mbind option_bind].
  replace (l1 ++ 32 :: l2 ++ rest) with ((l1 ++ [32]) ++ l2 ++ rest) by by rewrite <-app_assoc.
  replace (len l1 + 1) with (len (l1 ++ [32])) by lens. rewrite IH by (simpl in Hl; lia). by rewrite <-app_assoc.
Qed.

Lemma row_length c j : 2 <= j < 78 -> length (row c j) = 80%nat.
Proof. intros Hj. unfold row. lens. Qed.

Lemma row_ok c j : 0 < c < 256 -> bytes (row c j ++ [0]) /\ until0 (row c j ++ [0]) = Some (row c j).
Proof.
  intros Hc. split.
  - unfold row. rewrite !Forall_app. repeat split; try (by apply Forall_replicate); by repeat constructor; unfold byte; lia.
  - apply until0_app. unfold row. rewrite !Forall_app. repeat split; try (by apply Forall_replicate);
      repeat constructor; lia.
Qed.

(** The array between the walls. *)
Definition shape (buf : list Z) : Prop := exists inner, length inner = 76%nat /\ buf = [32; 124] ++ inner ++ [124; 10; 0].

Lemma walls_shape buf : length buf = 81%nat -> exists buf', walls buf = Some buf' /\ shape buf'.
Proof.
  intros Hl. unfold walls. pose proof (blank_spec 81 [] buf [] Hl) as Hb. rewrite !app_nil_r in Hb. cbn [app] in Hb.
  change (len []) with 0 in Hb. change (Z.to_nat BUFMAX) with 81%nat. rewrite Hb. eexists. split; [vm_compute; reflexivity|].
  exists (replicate 76 32). split; reflexivity.
Qed.

Lemma draw_row buf c j :
  shape buf -> 2 <= j < 78 ->
  exists buf1, blank (Z.to_nat (LOOPMAX - STARTLOOP)) STARTLOOP buf = Some buf1 /\ store buf1 j c = Some (row c j ++ [0]).
Proof.
  intros (inner & Hl & ->) Hj. exists ([32; 124] ++ replicate 76 32 ++ [124; 10; 0]). split.
  - exact (blank_spec 76 [32; 124] inner [124; 10; 0] Hl).
  - assert ([32; 124] ++ replicate 76 32 ++ [124; 10; 0]
      = ([32; 124] ++ replicate (Z.to_nat (j - 2)) 32) ++ 32 :: replicate (Z.to_nat (77 - j)) 32 ++ [124; 10; 0]) as ->.
    { rewrite <-app_assoc. f_equal. rewrite app_comm_cons, app_assoc. f_equal.
      change (32 :: replicate (Z.to_nat (77 - j)) 32) with (replicate (S (Z.to_nat (77 - j))) 32).
      rewrite <-replicate_add. f_equal. lia. }
    rewrite store_middle by lens. unfold row. by rewrite <-!app_assoc.
Qed.

Lemma row_shape c j : 2 <= j < 78 -> shape (row c j ++ [0]).
Proof.
  intros Hj. exists (replicate (Z.to_nat (j - 2)) 32 ++ [c] ++ replicate (Z.to_nat (77 - j)) 32). split; [lens|].
  unfold row. by rewrite <-!app_assoc.
Qed.

Section Pingpong.
Context (vol : volume) (fd : Z).
Abbreviation runs' := (runs (service vol)).

(** The descriptor is the clock's, or the clock could not be opened. *)
Definition ticks (w : world) : Prop := fd = -1 \/ (2 <= fd < 8 /\ load (w_chans w) (fd - 2) = Some ClockChan).

Lemma read_tick w buf : ticks w -> exists r, service vol _ (Sys_read fd buf 4) w = Ret (r, buf) w.
Proof.
  intros [->|[Hfd Hc]]; [by exists (-1)|]. exists 0. by rewrite (service_read_chan vol w fd buf 4 Hfd _ Hc).
Qed.

(** Printing rows. *)
Definition rows (c : Z) (js : list Z) : list (bool * list Z) := (fun j => (false, row c j)) <$> js.
Lemma rows_text c js : snd <$> rows c js = row c <$> js.
Proof. unfold rows. by rewrite <-list_fmap_compose. Qed.

Definition drawn (c : Z) (garbage : list Z) (js : list Z) (w : world) (v : list Z * list Z) (w' : world) : Prop :=
  shape (fst v) /\ snd v = garbage /\ (forall j, last js = Some j -> fst v = row c j ++ [0]) /\ w' = prints (rows c js) w.

Lemma draw_runs c g j js v w w' :
  0 < c < 256 -> 2 <= j < 78 -> ticks w -> drawn c g js w v w' ->
  runs' (drawn c g (js ++ [j]) w) (draw fd c j v) w'.
Proof.
  intros Hc Hj Ht. destruct v as [buf garbage]. intros (Hs & Hg & _ & ->). cbn [fst snd] in Hs, Hg. subst garbage. unfold draw.
  destruct (draw_row buf c j Hs Hj) as (buf1 & Hb1 & Hst). destruct (row_ok c j Hc) as [Hb Hu].
  eapply runs_inside; [exact Hb1|]. eapply runs_inside; [exact Hst|].
  eapply fdputs_runs; [exact Hb|exact Hu|rewrite row_length by done; lia|]. rewrite row_length by done.
  rewrite bool_decide_false by lia. rewrite prints_app.
  destruct (read_tick (prints (rows c js ++ [(false, row c j)]) w) g Ht) as [r Hr].
  eapply runs_call; [exact Hr|]. apply runs_ret. split; [by apply row_shape|]. split; [done|].
  split; [intros j'; rewrite last_snoc; by intros [= <-]|]. unfold rows. by rewrite fmap_app.
Qed.

Lemma repeat_down_runs {X} (I : list Z -> X -> world -> Prop) (n : nat) hi (body : Z -> X -> prog X) x js w :
  I js x w ->
  (forall j js x w, hi - Z.of_nat n < j <= hi -> I js x w -> runs' (I (js ++ [j])) (body j x) w) ->
  runs' (I (js ++ reverse (seqZ (hi - Z.of_nat n + 1) (Z.of_nat n)))) (repeat_down n hi body x) w.
Proof.
  revert hi js x w. induction n as [|n IH]; intros hi js x w HI Hstep; cbn [repeat_down].
  - apply runs_ret. by rewrite app_nil_r.
  - apply runs_bind. eapply runs_mono; [apply Hstep; [lia|exact HI]|]. intros x' w' HI'.
    assert (js ++ reverse (seqZ (hi - Z.of_nat (S n) + 1) (Z.of_nat (S n)))
      = (js ++ [hi]) ++ reverse (seqZ (hi - 1 - Z.of_nat n + 1) (Z.of_nat n))) as ->.
    { rewrite <-app_assoc. f_equal. replace (Z.of_nat (S n)) with (Z.of_nat n + 1) at 2 by lia.
      rewrite seqZ_app by lia. rewrite reverse_app. replace (hi - Z.of_nat (S n) + 1 + Z.of_nat n) with hi by lia.
      change (seqZ hi 1) with [0 + hi]. rewrite Z.add_0_l. cbn. do 2 f_equal. f_equal. lia. }
    apply IH; [done|]. intros. apply Hstep; [lia|done].
Qed.

Definition both_ways : list Z := seqZ 2 76 ++ reverse (seqZ 2 76).

Lemma round_runs c buf g w :
  0 < c < 256 -> ticks w -> shape buf ->
  runs' (fun r w' => r = inl (if bool_decide (c = ENDCHAR) then STARTCHAR else u8 (c + 1), (row c 2 ++ [0], g)) /\
      w' = prints (rows c both_ways) w) (pingpong_round fd (c, (buf, g))) w.
Proof.
  intros Hc Ht Hs. unfold pingpong_round. change (Z.to_nat (LOOPMAX - STARTLOOP)) with 76%nat. apply runs_bind.
  eapply runs_mono; [apply (runs_repeat (service vol) (fun i => drawn c g (seqZ 2 (i - 2)) w) 76 2 (draw fd c))|].
  - split; [exact Hs|]. split; [done|]. split; [done|]. symmetry. apply prints_nil.
  - intros i x w' Hi Hx. replace (i + 1 - 2) with (i - 2 + 1) by lia. rewrite seqZ_app by lia.
    change (seqZ (2 + (i - 2)) 1) with [0 + (2 + (i - 2))]. replace (0 + (2 + (i - 2))) with i by lia. apply draw_runs; done || lia.
  - intros x w' Hx. apply runs_bind. eapply runs_mono.
    { apply (repeat_down_runs (fun js => drawn c g js w) 76 77 (draw fd c) x (seqZ 2 76) w'); [exact Hx|].
      intros. by apply draw_runs; try lia. }
    intros [buf' g'] w1 (_ & Hg & Hlast & ->). cbn [fst snd] in *. subst g'. apply runs_ret. split; [|done].
    rewrite (Hlast 2) by (rewrite last_app; reflexivity). done.
Qed.

(** The array after [k] rounds. *)
Definition array_after (buf : list Z) (k : nat) : list Z :=
  match k with O => buf | S k' => row (letter k') 2 ++ [0] end.

Lemma letter_range k : 65 <= letter k <= 90.
Proof. unfold letter. pose proof (Nat.mod_upper_bound k 26). lia. Qed.
Lemma letter_next k : (if bool_decide (letter k = ENDCHAR) then STARTCHAR else u8 (letter k + 1)) = letter (S k).
Proof.
  unfold letter, ENDCHAR, STARTCHAR. pose proof (Nat.mod_upper_bound k 26). pose proof (Nat.div_mod_eq k 26).
  case_bool_decide.
  - assert (S k mod 26 = 0)%nat as ->; [|done]. replace (S k) with (0 + (k / 26 + 1) * 26)%nat by lia. by rewrite Nat.Div0.mod_add.
  - rewrite u8_small by lia. assert (S k mod 26 = S (k mod 26))%nat as ->; [|lia].
    replace (S k) with (S (k mod 26) + (k / 26) * 26)%nat by lia. rewrite Nat.Div0.mod_add. apply Nat.mod_small. lia.
Qed.

Lemma array_shape buf k : shape buf -> shape (array_after buf k).
Proof. intros. destruct k; [done|]. by apply row_shape. Qed.

(** [n] rounds from round [k]. *)
Lemma rounds_steps buf g n k w :
  shape buf -> ticks w ->
  exists out, snd <$> out = concat ((fun i => bounce (letter i)) <$> seq k n) /\
    steps (service vol) (loop (pingpong_round fd) (letter (k + n), (array_after buf (k + n), g))) (prints out w)
      (loop (pingpong_round fd) (letter k, (array_after buf k, g))) w.
Proof.
  intros Hs. revert k w. induction n as [|n IH]; intros k w Ht.
  - exists []. split; [done|]. rewrite prints_nil, Nat.add_0_r. by apply steps_here.
  - destruct (IH (S k) (prints (rows (letter k) both_ways) w) Ht) as (out & Hout & Hst).
    exists (rows (letter k) both_ways ++ out). split.
    + rewrite fmap_app, rows_text, Hout. done.
    + rewrite <-prints_app, Nat.add_succ_r. apply steps_loop. pose proof (letter_range k).
      eapply runs_mono; [apply round_runs; [lia|done|by apply array_shape]|]. intros r w' [-> ->].
      eexists. split; [reflexivity|]. rewrite letter_next. exact Hst.
Qed.

(** The descriptor of the clock, or -1. *)
Definition clock_opened (w : world) : Z * world :=
  match vol_node vol (bytes_of_string "rtc"), free_chan w with
  | Some ClockNode, Some i => (i, set_chan i ClockChan w)
  | _, _ => (-1, w)
  end.
End Pingpong.

Lemma pingpong_steps vol buf g w n :
  length buf = 81%nat -> length (w_chans w) = 6%nat ->
  vol_node vol (bytes_of_string "rtc") = Some ClockNode \/ vol_node vol (bytes_of_string "rtc") = None ->
  exists buf0 out, walls buf = Some buf0 /\ snd <$> out = bounces n /\
    let '(fd, w1) := clock_opened vol w in
    steps (service vol) (loop (pingpong_round fd) (letter n, (array_after buf0 n, g))) (prints out w1) (pingpong_main buf g) w.
Proof.
  intros Hl Hch Hnode. destruct (walls_shape buf Hl) as (buf0 & Hw & Hs). exists buf0.
  assert (exists fd w1, clock_opened vol w = (fd, w1) /\ ticks fd w1 /\
    service vol _ (Sys_open (cstring "rtc")) w = Ret fd w1 /\
    exists r, service vol _ (Sys_write fd [32; 0; 0; 0] 4) w1 = Ret r w1) as (fd & w1 & -> & Ht & Ho & r & Hr).
  { unfold clock_opened. destruct (free_chan w) as [i|] eqn:Hi.
    - destruct Hnode as [Hn|Hn]; rewrite Hn.
      + pose proof (set_chan_range i w Hi Hch) as Hir. pose proof (load_set_chan i ClockChan w Hir Hch) as Hld.
        exists i, (set_chan i ClockChan w). split; [done|]. split; [by right|]. split.
        * by apply (service_open_node vol _ (bytes_of_string "rtc") ClockNode w i); [apply cstring_bytes|reflexivity|simpl; lia|..].
        * eexists. cbn [service]. unfold service_write, mbind, M_bind, lift, get. rewrite !bool_decide_false by lia. cbn [orb].
          rewrite Hld. reflexivity.
      + exists (-1), w. split; [done|]. split; [by left|]. split; [|by eexists].
        apply (service_open_fails vol _ (bytes_of_string "rtc")); [apply cstring_bytes|reflexivity|simpl; lia|auto].
    - exists (-1), w.
      split; [by repeat case_match|]. split; [by left|]. split; [|by eexists].
      apply (service_open_fails vol _ (bytes_of_string "rtc")); [apply cstring_bytes|reflexivity|simpl; lia|auto]. }
  destruct (rounds_steps vol fd buf0 g n 0 w1 Hs Ht) as (out & Hout & Hst). exists out. split; [done|]. split; [done|].
  unfold pingpong_main. apply steps_bind. rewrite Hw. apply runs_ret.
  eapply steps_call; [exact Ho|]. eapply steps_call; [exact Hr|exact Hst].
Qed.
