(* ===== verification/Utilities.v ===== *)
(** * User programs on the kernel

    The kernel's calls refine the file service for every program; with that, what the
    programs of Programs.v do when they run on the kernel. *)
From S2P Require Import Kernel Terminal Syscall Keyboard Typing Interrupts FileCalls KernelCalls Programs Console Syserr Grep Pingpong.

(** C4: the system calls implement the file service: whatever a program does over the
    abstract service - channels to named files, a directory, an argument, a terminal to
    write to and a user who types lines - it does on the kernel, in a process with that
    terminal on any well-formed image, while the keyboard interrupts of these keys arrive:
    it ends with the same result, and the kernel's descriptors, directory index, keyboard
    and screen again represent the service's state. *)
Theorem kernel_refines_service `{!Layout} `{!Overread} `{!Device} m img n N D pid term frame h w {A} (t : prog A) Q :
  served img n N D -> quiet -> hosts img n N pid term frame h w -> runs (service (volume_of img n)) Q t w ->
  runs (kernel_calls m) (fun a h' => exists w', hosts img n N pid term frame h' w' /\ Q a w') t h.
Proof. apply kernel_runs. Qed.

(** ** An image with a text file, for the examples *)

Definition text_image : list Z :=
  mk_boot [mk_dentry "." 1 0; mk_dentry "motd" 2 0; mk_dentry "rtc" 0 1] 1 1
  ++ mk_inode 14 [0] ++ pad_to 4096 (bytes_of_string "hello, world!
").

Lemma text_image_wf : wf_image text_image 3 1 1.
Proof. apply check_image_sound. vm_compute. reflexivity. Qed.

(** A check of a concrete image. *)
Definition check_served (img : list Z) (n N D : Z) : bool :=
  forallb (fun k => match ld_dentry img k with
    | Some d => bool_decide (0 <= d_fileType d <= 2) &&
                (negb (bool_decide (d_fileType d = 2)) || bool_decide (0 <= d_inodeNum d < N))
    | None => true end) (seqZ 0 63) &&
  forallb (fun k => match until0 (entry_name img k) with
    | Some name => bool_decide (length name <= 33)%nat | None => false end) (seqZ 0 n).

Lemma check_served_sound img n N D : wf_image img n N D -> check_served img n N D = true -> served img n N D.
Proof.
  intros Hwf [Hd Hn]%andb_true_iff. rewrite forallb_forall in Hd, Hn. split; [done| |].
  - intros k d Hk Hdk. specialize (Hd k). rewrite Hdk in Hd.
    rewrite andb_true_iff, orb_true_iff, negb_true_iff, bool_decide_eq_false, !bool_decide_eq_true in Hd.
    destruct Hd as [Hty Hino]; [|tauto]. apply list_elem_of_In, elem_of_seqZ. lia.
  - intros k Hk. specialize (Hn k). destruct (until0 _) as [name|].
    + exists name. split; [done|]. eapply bool_decide_eq_true, Hn. apply list_elem_of_In, elem_of_seqZ. lia.
    + discriminate Hn. apply list_elem_of_In, elem_of_seqZ. lia.
Qed.

Lemma text_served : served text_image 3 1 1.
Proof. apply check_served_sound; [exact text_image_wf|vm_compute; reflexivity]. Qed.

(** Process 1 of the first terminal, started with an argument. *)
Definition text_pcb : pcb :=
  Pcb (replicate 2 (demo_fd 1 TerminalOps) ++ replicate 6 (demo_fd 0 NullOps))
    0 0x7FF100 0x7FF200 0x422000 0 (bytes_of_string "motd" ++ replicate 124 0).
Definition user_kernel (img : list Z) : kernel :=
  lset (Procs [-1; 0; 0; 0; -1; -1; -1] 0 0x8048094 0 0 0 (replicate 6 text_pcb))
    (lset (Fs 0x500000 img 0) demo_console).
Definition text_world (keys : list (list Z)) : world :=
  World (replicate 6 Closed) 0 (bytes_of_string "motd") (tty_of demo_console blank_page) (Keyboard 0 0 0 0 0) keys [].
Definition user_host (img : list Z) (keys : list (list Z)) : host := Host (user_kernel img) keys.
Definition text_host : list (list Z) -> host := user_host text_image.

Lemma user_hosts img n N keys : 0 <= n -> hosts img n N 1 0 0 (user_host img keys) (text_world keys).
Proof.
  intros Hn0. assert (forall fl o, name_ok (demo_fd fl o)) as Hn.
  { intros. split; [done|]. apply Forall_replicate. unfold byte. lia. }
  split; [|reflexivity]. split.
  - split; [reflexivity|lia|]. split; [reflexivity|]. apply Forall_replicate. split; [reflexivity|].
    split; [reflexivity|]. apply Forall_app. split; by apply Forall_replicate.
  - split; [reflexivity|lia|reflexivity|reflexivity].
  - reflexivity.
  - reflexivity.
  - cbn. lia.
  - exists text_pcb. split; reflexivity.
  - intros i [-> | ->]; (eexists; split; [reflexivity|]; split; [cbn; lia|reflexivity]).
  - reflexivity.
  - intros i c Hi Hc.
    assert (i = 2 \/ i = 3 \/ i = 4 \/ i = 5 \/ i = 6 \/ i = 7) as [-> | [-> | [-> | [-> | [-> | ->]]]]] by lia;
      injection Hc as <-; (eexists; split; [reflexivity|reflexivity]).
  - destruct demo_shown as [[_ _ Hl Hb] Hok]. exists blank_page. split; [split; [reflexivity|reflexivity|exact Hl|exact Hb]|].
    split; [exact Hok|reflexivity].
  - by exists 0.
  - reflexivity.
  - exists (demo_terminal 1 1). split; [reflexivity|]. split; [reflexivity|cbn; lia].
Qed.
Lemma text_hosts keys : hosts text_image 3 1 1 0 0 (text_host keys) (text_world keys).
Proof. by apply user_hosts. Qed.

(** A program that reads four bytes of the file. *)
Definition peek : prog (Z * list Z) :=
  fd ← ece391_open (cstring "motd");
  r ← ece391_read fd (replicate 8 0) 4;
  _ ← ece391_close fd;
  mret r.

Lemma kernel_refines_service_witness :
  runs (@kernel_calls demo_layout demo_overread demo_device demo_machine)
    (fun a h' => exists w', hosts text_image 3 1 1 0 0 h' w' /\
       (a = (4, bytes_of_string "hell" ++ replicate 4 0) /\ w' = text_world [])) peek (text_host []).
Proof.
  apply (@kernel_refines_service demo_layout demo_overread demo_device demo_machine text_image 3 1 1 1 0 0
    (text_host []) (text_world []) _ peek
    (fun a w' => a = (4, bytes_of_string "hell" ++ replicate 4 0) /\ w' = text_world []));
    [exact text_served|exact demo_quiet|exact (text_hosts [])|].
  apply runs_exec. exists 10%nat. eexists _, _. split; [vm_compute; reflexivity|split; reflexivity].
Defined.

(** ** What the kernel's state says about the service's *)

Section State.
Context `{HL : !Layout} `{HO : !Overread} `{HD : !Device} (img : list Z) (n N D pid term frame : Z).
Hypothesis Hserved : served img n N D.
Abbreviation vol := (volume_of img n).

Lemma file_contents_bytes ino : bytes (file_contents img ino).
Proof.
  unfold file_contents. destruct (file_length img ino); [|constructor]. apply Forall_fmap, Forall_true.
  intros p. cbn. destruct (file_byte img ino p) as [b|] eqn:E; cbn; [|unfold byte; lia].
  apply bind_Some in E as (bi & _ & Hb). exact (load_Forall _ _ _ _ (wf_bytes _ _ _ _ (sd_wf _ _ _ _ Hserved)) Hb).
Qed.

Lemma vol_file name l :
  vol_node vol name = Some (FileNode l) -> bytes l /\ len l < 1073741824.
Proof.
  intros (k & d & Hk & Hd & Hkr & Hty & Hnd)%vol_node_inv.
  case_bool_decide; [done|]. case_bool_decide; [done|]. injection Hnd as ->.
  split; [apply file_contents_bytes|]. destruct (sd_types _ _ _ _ Hserved k d Hkr Hd) as [_ Hino].
  destruct (wf_file_length _ _ _ _ (sd_wf _ _ _ _ Hserved) (d_inodeNum d)) as (L & HLen & HLr); [lia|].
  rewrite (file_contents_length _ _ _ HLen) by lia. lia.
Qed.

Lemma hosts_arg h w : hosts img n N pid term frame h w -> Forall (fun c => c <> 0) (w_arg w).
Proof. intros [Hr _]. destruct (rp_argument _ _ _ _ _ _ _ _ Hr) as (p & _ & Hu). by apply until0_spec in Hu as (r & _ & ?). Qed.

(** What the page of the terminal shows. *)
Definition displays (h : host) (t : tty) : Prop :=
  exists page, console (h_kernel h) frame page /\ tty_of (h_kernel h) page = t.

(** Host [h'] was reached with the output [text] on the terminal of [w]: its screen shows
    that terminal after these pieces; the rest of it is as in [w]. *)
Definition printed (text : list (list Z)) (w : world) (h' : host) : Prop :=
  exists out, snd <$> out = text /\ hosts img n N pid term frame h' (prints out w) /\
    displays h' (after_output (w_tty w) out).

Lemma kernel_prints_some {A X} m h w (t : prog A) r (P : X -> Prop) (text : X -> list (list Z)) w1 :
  quiet -> hosts img n N pid term frame h w ->
  runs (service vol) (fun v w' => exists x, P x /\ answers r (text x) w1 v w') t w ->
  runs (kernel_calls m) (fun v h' => v = r /\ exists x, P x /\ printed (text x) w1 h') t h.
Proof.
  intros Hq Hh Ht. eapply runs_mono; [by eapply kernel_runs|].
  intros v h' (w' & Hh' & x & HP & -> & out & Htx & ->). split; [done|]. exists x. split; [done|]. exists out.
  split; [done|]. split; [done|]. destruct Hh' as [(page' & Hcon & _ & Htty)%rp_screen _]. by exists page'.
Qed.

Lemma kernel_prints {A} m h w (t : prog A) r text w1 :
  quiet -> hosts img n N pid term frame h w ->
  runs (service vol) (answers r text w1) t w ->
  runs (kernel_calls m) (fun v h' => v = r /\ printed text w1 h') t h.
Proof.
  intros Hq Hh Ht. eapply runs_mono.
  - eapply (kernel_prints_some m h w t r (fun _ : unit => True) (fun _ => text)); [done|done|].
    eapply runs_mono; [exact Ht|]. intros v w' Ha. by exists tt.
  - intros v h' (-> & _ & _ & Hp). done.
Qed.
End State.

(** C17: cat on the kernel, for an argument of 1 to 31 bytes that does not name a directory (a
    longer name overruns open's array, see [FileSystem.long_name_overflows]; cat prints a
    directory's names, which is not stated): it ends. On a regular file it returns 0 and prints
    the file, 1024 bytes by 1024 bytes, each piece up to its first NUL: for a file without NUL
    bytes the pieces are its contents. The clock is an empty file for it. Such a name that is
    not in the directory, or that no descriptor is left for, is reported, with status 2. The page
    of its terminal then shows these pieces of text, and nothing else was printed. *)
Theorem cat_prints_file `{!Layout} `{!Overread} `{!Device} m img n N D pid term frame h w behind buf :
  served img n N D -> quiet -> hosts img n N pid term frame h w ->
  array_ok buf 1024 behind -> bytes (w_arg w) -> (0 < length (w_arg w) <= 31)%nat ->
  vol_node (volume_of img n) (w_arg w) <> Some DirNode ->
  let '(r, text, w1) := cat_outcome (volume_of img n) w in
  runs (kernel_calls m) (fun v h' => v = r /\ printed img n N pid term frame text w1 h') (cat_main buf behind) h /\
  forall l, vol_node (volume_of img n) (w_arg w) = Some (FileNode l) -> Forall (fun c => c <> 0) l ->
    free_chan w <> None -> concat text = l.
Proof.
  intros Hd Hq Hh Harray Hba Hla Hdir. pose proof (rp_length _ _ _ _ _ _ _ _ (proj1 Hh)) as Hlen.
  pose proof (cat_runs (volume_of img n) behind buf w Harray Hlen
    (conj Hba (hosts_arg _ _ _ _ _ _ _ _ Hh)) Hla Hdir (vol_file img n N D Hd (w_arg w))) as Hcat.
  assert (forall l, vol_node (volume_of img n) (w_arg w) = Some (FileNode l) -> Forall (fun c => c <> 0) l ->
    free_chan w <> None -> concat (snd (fst (cat_outcome (volume_of img n) w))) = l) as Htext.
  { intros l Hl Hz Hfree. unfold cat_outcome. rewrite Hl. destruct (free_chan w); [|done]. cbn [fst snd].
    by apply cat_text_concat. }
  destruct (cat_outcome _ w) as [[r text] w1]. split; [|exact Htext].
  by eapply kernel_prints.
Qed.

(** What is behind the arrays, in the examples. *)
Definition demo_behind : nat -> list Z := fun _ => [1; 2; 0; 3].
Lemma demo_array m : array_ok (replicate m 0) m demo_behind.
Proof.
  split; [apply length_replicate|]. split; [apply Forall_replicate; unfold byte; lia|].
  intros k. split; [repeat constructor; unfold byte; lia|]. split; [by eexists|simpl; lia].
Qed.

Lemma cat_prints_file_witness :
  runs (@kernel_calls demo_layout demo_overread demo_device demo_machine)
    (fun v h' => v = 0 /\ printed text_image 3 1 1 0 0 [bytes_of_string "hello, world!
"] (set_chan 2 (FileChan (bytes_of_string "hello, world!
") 14) (text_world [])) h')
    (cat_main (replicate 1024 0) demo_behind) (text_host []) /\
  forall l, vol_node (volume_of text_image 3) (bytes_of_string "motd") = Some (FileNode l) ->
    Forall (fun c => c <> 0) l -> free_chan (text_world []) <> None ->
    concat [bytes_of_string "hello, world!
"] = l.
Proof.
  apply (@cat_prints_file demo_layout demo_overread demo_device demo_machine text_image 3 1 1 1 0 0
    (text_host []) (text_world []) demo_behind (replicate 1024 0) text_served demo_quiet (text_hosts [])).
  - exact (demo_array 1024).
  - apply bytes_of_string_bytes.
  - simpl. lia.
  - assert (vol_node (volume_of text_image 3) (bytes_of_string "motd") = Some (FileNode (bytes_of_string "hello, world!
"))) as H by (vm_compute; reflexivity).
    cbn [text_world w_arg]. rewrite H. discriminate.
Defined.

(** C19: ls on the kernel: it ends, returns 0 and prints the entries of the directory from
    where the directory's index stands, each on its line, in order, and nothing else; the
    index is at the start again. The names must fit its array of 33 bytes (see
    FileSystem.full_name_overruns for one that does not). *)
Theorem ls_lists_directory `{!Layout} `{!Overread} `{!Device} m img n N D pid term frame h w i behind buf :
  served img n N D -> quiet -> hosts img n N pid term frame h w ->
  array_ok buf 33 behind -> vol_node (volume_of img n) (bytes_of_string ".") = Some DirNode ->
  free_chan w = Some i -> Forall ls_name (vol_names (volume_of img n)) ->
  runs (kernel_calls m) (fun v h' => v = 0 /\ printed img n N pid term frame
      ((fun name => name ++ [10]) <$> drop (Z.to_nat (w_index w)) (vol_names (volume_of img n)))
      (set_index 0 (set_chan i DirChan w)) h')
    (ls_main buf behind) h.
Proof.
  intros Hd Hq Hh Harray Hdot Hi Hns. pose proof Hh as [Hr _].
  pose proof (rp_range _ _ _ _ _ _ _ _ Hr) as Hrange. pose proof (rp_length _ _ _ _ _ _ _ _ Hr) as Hch.
  assert (len (vol_names (volume_of img n)) = n) as Hlen.
  { cbn [volume_of vol_names]. rewrite length_fmap, length_seqZ. lia. }
  eapply kernel_prints; try done. apply ls_runs; done || lia.
Qed.

Lemma ls_lists_directory_witness :
  runs (@kernel_calls demo_layout demo_overread demo_device demo_machine)
    (fun v h' => v = 0 /\ printed text_image 3 1 1 0 0
      [bytes_of_string ".
"; bytes_of_string "motd
"; bytes_of_string "rtc
"] (set_index 0 (set_chan 2 DirChan (text_world []))) h')
    (ls_main (replicate 33 0) demo_behind) (text_host []).
Proof.
  apply (@ls_lists_directory demo_layout demo_overread demo_device demo_machine text_image 3 1 1 1 0 0
    (text_host []) (text_world []) 2 demo_behind (replicate 33 0) text_served demo_quiet (text_hosts []));
    try reflexivity.
  - exact (demo_array 33).
  - assert (vol_names (volume_of text_image 3) = [[46]; bytes_of_string "motd"; bytes_of_string "rtc"]) as ->
      by (vm_compute; reflexivity).
    apply Forall_cons_2; [|apply Forall_cons_2; [|apply Forall_cons_2; [|constructor]]];
      (split; [apply (bytes_of_string_bytes ".") || apply bytes_of_string_bytes|split; [|simpl; lia]]);
      by repeat constructor.
Defined.

(** A line typed in an example. *)
Ltac typed := split; refine (bool_decide_unpack _ _); vm_compute; exact I.

(** hello on the kernel: when the user types a line, key by key, with corrections, the
    program ends with status 0 and greets him with the line as edited. *)
Theorem hello_greets `{!Layout} `{!Overread} `{!Device} m img n N D pid term frame h w buf keys rest line :
  let w0 := print false (bytes_of_string "Hi, what's your name? ") w in
  served img n N D -> quiet -> hosts img n N pid term frame h w ->
  length buf = 1024%nat -> bytes buf -> w_keys w = keys :: rest -> line_typed w0 keys line ->
  runs (kernel_calls m) (fun v h' => v = 0 /\ printed img n N pid term frame [bytes_of_string "Hello, "; line ++ [10]]
      (set_session (key_step (typing w0 keys) 0x1C) rest w0) h') (hello_main buf) h.
Proof. intros w0 Hd Hq Hh Hl Hb Hk Hty. eapply kernel_prints; try done. by eapply hello_runs. Qed.

(** The keys a, b, backspace, c. *)
Lemma hello_greets_witness :
  let w0 := print false (bytes_of_string "Hi, what's your name? ") (text_world [[0x1E; 0x30; 0x0E; 0x2E]]) in
  runs (@kernel_calls demo_layout demo_overread demo_device demo_machine)
    (fun v h' => v = 0 /\ printed text_image 3 1 1 0 0 [bytes_of_string "Hello, "; bytes_of_string "ac
"] (set_session (key_step (typing w0 [0x1E; 0x30; 0x0E; 0x2E]) 0x1C) [] w0) h')
    (hello_main (replicate 1024 0)) (text_host [[0x1E; 0x30; 0x0E; 0x2E]]).
Proof.
  intros w0. apply (@hello_greets demo_layout demo_overread demo_device demo_machine text_image 3 1 1 1 0 0
    (text_host [[0x1E; 0x30; 0x0E; 0x2E]]) (text_world [[0x1E; 0x30; 0x0E; 0x2E]]) (replicate 1024 0)
    [0x1E; 0x30; 0x0E; 0x2E] [] (bytes_of_string "ac") text_served demo_quiet (text_hosts _)); try reflexivity.
  - apply Forall_replicate. unfold byte. lia.
  - typed.
Defined.

(** counter on the kernel: whatever line the user types, it ends with status 0. On 0, 1
    or 2 it prints the numerals from 1 to 100, 10000 or 100000 in order, a line each, on an
    empty line nothing, and on any other line that the choice is wrong. *)
Theorem counter_counts `{!Layout} `{!Overread} `{!Device} m img n N D pid term frame h w buf keys rest line :
  let w0 := print false (bytes_of_string "Enter the Test Number: (0): 100, (1): 10000, (2): 100000
") w in
  served img n N D -> quiet -> hosts img n N pid term frame h w ->
  length buf = 1024%nat -> bytes buf -> w_keys w = keys :: rest -> line_typed w0 keys line ->
  runs (kernel_calls m) (fun v h' => v = 0 /\ printed img n N pid term frame (counter_text line)
      (set_session (key_step (typing w0 keys) 0x1C) rest w0) h') (counter_main buf) h.
Proof. intros w0 Hd Hq Hh Hl Hb Hk Hty. eapply kernel_prints; try done. by eapply counter_runs. Qed.

(** The key 1: ten thousand lines. *)
Lemma counter_counts_witness :
  let w0 := print false (bytes_of_string "Enter the Test Number: (0): 100, (1): 10000, (2): 100000
") (text_world [[0x02]]) in
  runs (@kernel_calls demo_layout demo_overread demo_device demo_machine)
    (fun v h' => v = 0 /\ printed text_image 3 1 1 0 0 (count_text 10000)
       (set_session (key_step (typing w0 [0x02]) 0x1C) [] w0) h')
    (counter_main (replicate 1024 0)) (text_host [[0x02]]).
Proof.
  intros w0. apply (@counter_counts demo_layout demo_overread demo_device demo_machine text_image 3 1 1 1 0 0
    (text_host [[0x02]]) (text_world [[0x02]]) (replicate 1024 0)
    [0x02] [] (bytes_of_string "1") text_served demo_quiet (text_hosts _)); try reflexivity.
  - apply Forall_replicate. unfold byte. lia.
  - typed.
Defined.

(** the repository's test of the error paths passes on the kernel: whatever digit up to
    8 the user's line begins with, ece391syserr ends with status 0 and prints that the test,
    or each of the eight tests and the whole, passed. The directory has the entry "." and
    none of the two misspelt names, and the process has no open files. *)
Theorem syserr_passes `{!Layout} `{!Overread} `{!Device} m img n N D pid term frame h w buf arr keys rest select l :
  let w0 := print false (bytes_of_string "Choose from tests 1-8. 0 to run all: ") w in
  served img n N D -> quiet -> hosts img n N pid term frame h w -> fresh w ->
  vol_node (volume_of img n) (bytes_of_string ".") = Some DirNode ->
  vol_node (volume_of img n) (bytes_of_string "helloo") = None /\
  vol_node (volume_of img n) (bytes_of_string "shel") = None ->
  length buf = 128%nat -> w_keys w = keys :: rest -> 0 <= select <= 8 ->
  line_typed w0 keys (48 + select :: l) -> (length l <= 125)%nat ->
  runs (kernel_calls m) (fun v h' => v = 0 /\ printed img n N pid term frame (bytes_of_string <$> test_lines select)
      (set_session (key_step (typing w0 keys) 0x1C) rest w0) h') (syserr_main buf arr) h.
Proof.
  intros w0 Hd Hq Hh Hf Hdot Hno Hl Hk Hs Hty Hll. eapply kernel_prints; try done.
  by eapply syserr_runs.
Qed.

(** The key 0: all tests. *)
Lemma syserr_passes_witness :
  let w0 := print false (bytes_of_string "Choose from tests 1-8. 0 to run all: ") (text_world [[0x0B]]) in
  runs (@kernel_calls demo_layout demo_overread demo_device demo_machine)
    (fun v h' => v = 0 /\ printed text_image 3 1 1 0 0 (bytes_of_string <$> test_lines 0)
       (set_session (key_step (typing w0 [0x0B]) 0x1C) [] w0) h')
    (syserr_main (replicate 128 0) (replicate 32 0)) (text_host [[0x0B]]).
Proof.
  intros w0. apply (@syserr_passes demo_layout demo_overread demo_device demo_machine text_image 3 1 1 1 0 0
    (text_host [[0x0B]]) (text_world [[0x0B]]) (replicate 128 0) (replicate 32 0)
    [0x0B] [] 0 [] text_served demo_quiet (text_hosts _)); try reflexivity; try lia.
  - split; vm_compute; reflexivity.
  - typed.
  - simpl. lia.
Defined.

(** C18: grep on the kernel, from a process with two free descriptors, in a directory whose names
    have at most 31 bytes and, without a dot in front, are not directories: it ends with status 0
    and goes through the directory from where its index stands. For each file whose name does not
    start with a dot it prints, if the file is a text (no NUL, lines of at most 1024 bytes) and
    its argument is of ASCII characters, exactly the lines that contain the argument, in order,
    each with the file's name in front; whatever a file holds, it stays inside its arrays and
    goes on to the next one. The byte behind its buffer, which it reads before it is set, must
    not be a line break. *)
Theorem grep_finds `{!Layout} `{!Overread} `{!Device} m img n N D pid term frame h w i j buf array data :
  served img n N D -> quiet -> hosts img n N pid term frame h w ->
  length buf = 33%nat -> bytes buf -> length array = 1024%nat -> bytes array -> (forall k, data_ok (data k)) ->
  bytes (w_arg w) -> (length (w_arg w) < 1024)%nat ->
  vol_node (volume_of img n) (bytes_of_string ".") = Some DirNode ->
  free_chan w = Some i -> free_chan (set_chan i DirChan w) = Some j ->
  Forall (entry_ok (volume_of img n)) (vol_names (volume_of img n)) ->
  runs (kernel_calls m) (fun v h' => v = 0 /\ exists outs,
      Forall2 (file_shown (volume_of img n) (w_arg w))
        (filter visible (drop (Z.to_nat (w_index w)) (vol_names (volume_of img n)))) outs /\
      printed img n N pid term frame (concat outs) (set_index 0 (set_chan i DirChan w)) h')
    (grep_main buf array data) h.
Proof.
  intros Hd Hq Hh Hl Hb Hla Hba Hdata Harg Hal Hdot Hi Hj Hns. pose proof Hh as [Hr _].
  pose proof (rp_range _ _ _ _ _ _ _ _ Hr) as Hrange. pose proof (rp_length _ _ _ _ _ _ _ _ Hr) as Hch.
  assert (len (vol_names (volume_of img n)) = n) as Hlen.
  { cbn [volume_of vol_names]. rewrite length_fmap, length_seqZ. lia. }
  eapply (kernel_prints_some _ _ _ _ _ _ _ Hd m h w _ 0
    (Forall2 (file_shown (volume_of img n) (w_arg w)) (filter visible (drop (Z.to_nat (w_index w)) (vol_names (volume_of img n)))))
    (@concat (list Z))); [done|done|].
  apply (grep_runs (volume_of img n) (w_arg w ++ 0 :: drop (S (length (w_arg w))) array) (w_arg w) data i j);
    try done; try lia.
  - eapply until0_app, hosts_arg. exact Hh.
  - apply Forall_app. split; [done|]. constructor; [unfold byte; lia|by apply Forall_drop].
  - by apply vol_file with (N := N) (D := D).
  - by eapply set_chan_range.
Qed.

(** An image with notes in which "motd" occurs in the first and the last line. *)
Definition notes_image : list Z :=
  mk_boot [mk_dentry "." 1 0; mk_dentry "notes" 2 0; mk_dentry "rtc" 0 1] 1 1
  ++ mk_inode 27 [0] ++ pad_to 4096 (bytes_of_string "the motd
nothing
more motds").

Lemma notes_served : served notes_image 3 1 1.
Proof. apply check_served_sound; [apply check_image_sound|]; vm_compute; reflexivity. Qed.

Lemma grep_finds_witness :
  runs (@kernel_calls demo_layout demo_overread demo_device demo_machine)
    (fun v h' => v = 0 /\ printed notes_image 3 1 1 0 0
      (bytes_of_string <$> ["notes"; ":"; "the motd"; "
"; "notes"; ":"; "more motds"; "
"]%string) (set_index 0 (set_chan 2 DirChan (text_world []))) h')
    (grep_main (replicate 33 0) (replicate 1024 0) (fun _ => replicate 1025 0)) (user_host notes_image []).
Proof.
  assert (vol_names (volume_of notes_image 3) = [[46]; bytes_of_string "notes"; bytes_of_string "rtc"]) as Hnames
    by (vm_compute; reflexivity).
  eapply runs_mono.
  - apply (@grep_finds demo_layout demo_overread demo_device demo_machine notes_image 3 1 1 1 0 0
      (user_host notes_image []) (text_world []) 2 3 (replicate 33 0) (replicate 1024 0) (fun _ => replicate 1025 0)
      notes_served demo_quiet (user_hosts notes_image 3 1 [] ltac:(lia))); try reflexivity;
      try (apply Forall_replicate; unfold byte; lia).
    + intros _. split; [reflexivity|apply Forall_replicate; unfold byte; lia|done|lia].
    + apply bytes_of_string_bytes.
    + simpl. lia.
    + rewrite Hnames.
      assert (forall s : string, (0 < length (bytes_of_string s) <= 31)%nat -> Forall (fun c => c <> 0) (bytes_of_string s) ->
        (visible (bytes_of_string s) -> exists nd, vol_node (volume_of notes_image 3) (bytes_of_string s) = Some nd /\ nd <> DirNode) ->
        entry_ok (volume_of notes_image 3) (bytes_of_string s)) as Hentry
        by (intros s Hl Hz Hnd; split; [apply bytes_of_string_bytes|done]).
      apply Forall_cons_2; [|apply Forall_cons_2; [|apply Forall_cons_2; [|constructor]]].
      * apply (Hentry "."%string); [simpl; lia|by repeat constructor|]. intros Hv. by destruct Hv.
      * apply Hentry; [simpl; lia|by repeat constructor|]. intros _. eexists. split; [vm_compute; reflexivity|done].
      * apply Hentry; [simpl; lia|by repeat constructor|]. intros _. eexists. split; [vm_compute; reflexivity|done].
  - intros v h' (-> & outs & Ho & Hp). split; [done|].
    rewrite Hnames in Ho.
    assert (filter visible (drop (Z.to_nat (w_index (text_world []))) [[46]; bytes_of_string "notes"; bytes_of_string "rtc"])
      = [bytes_of_string "notes"; bytes_of_string "rtc"]) as E by (vm_compute; reflexivity).
    rewrite E in Ho. apply Forall2_cons_inv_l in Ho as (o1 & os1 & H1 & Ho & ->).
    apply Forall2_cons_inv_l in Ho as (o2 & os2 & H2 & Ho & ->). apply Forall2_nil_inv_l in Ho as ->.
    assert (ascii (w_arg (text_world []))) as Ha by by repeat constructor.
    specialize (H1 (bytes_of_string "the motd
nothing
more motds") ltac:(vm_compute; reflexivity) Ha). specialize (H2 [] ltac:(vm_compute; reflexivity) Ha).
    rewrite H1, H2 in Hp by (split; refine (bool_decide_unpack _ _); vm_compute; exact I). exact Hp.
Defined.

(** C20: pingpong on the kernel never ends: however many rounds one waits for, it gets to the
    start of the next one, having drawn the row of each step of the rounds - the letter from
    the left wall to the right one and back, the letters from A to Z and again from A -
    and nothing else. Without the clock it runs the same. *)
Theorem pingpong_bounces `{!Layout} `{!Overread} `{!Device} m img n N D pid term frame h w buf garbage k :
  served img n N D -> quiet -> hosts img n N pid term frame h w -> length buf = 81%nat ->
  vol_node (volume_of img n) (bytes_of_string "rtc") = Some ClockNode \/
  vol_node (volume_of img n) (bytes_of_string "rtc") = None ->
  let '(fd, w1) := clock_opened (volume_of img n) w in
  exists buf0 h',
    steps (kernel_calls m) (loop (pingpong_round fd) (letter k, (array_after buf0 k, garbage))) h'
      (pingpong_main buf garbage) h /\
    printed img n N pid term frame (bounces k) w1 h'.
Proof.
  intros Hd Hq Hh Hl Hrtc. pose proof (rp_length _ _ _ _ _ _ _ _ (proj1 Hh)) as Hch.
  destruct (pingpong_steps (volume_of img n) buf garbage w k Hl Hch Hrtc) as (buf0 & out & _ & Hout & Hst).
  destruct (clock_opened _ w) as [fd w1]. destruct (kernel_steps m _ _ _ _ _ _ _ h w _ _ _ Hd Hq Hh Hst) as (h' & Hh' & Hst').
  exists buf0, h'. split; [exact Hst'|]. exists out. split; [done|]. split; [done|].
  destruct Hh' as [(page' & Hcon & _ & Htty)%rp_screen _]. by exists page'.
Qed.

Lemma pingpong_bounces_witness :
  exists buf0 h',
    steps (@kernel_calls demo_layout demo_overread demo_device demo_machine)
      (loop (pingpong_round 2) (67, (array_after buf0 2, [1; 2; 3; 4]))) h'
      (pingpong_main (replicate 81 7) [1; 2; 3; 4]) (text_host []) /\
    printed text_image 3 1 1 0 0 (bounce 65 ++ bounce 66 ++ []) (set_chan 2 ClockChan (text_world [])) h'.
Proof.
  apply (@pingpong_bounces demo_layout demo_overread demo_device demo_machine text_image 3 1 1 1 0 0
    (text_host []) (text_world []) (replicate 81 7) [1; 2; 3; 4] 2 text_served demo_quiet (text_hosts []) eq_refl).
  left. vm_compute. reflexivity.
Defined.
