(* ===== verification/FishKernel.v ===== *)
(** * fish on the kernel

    What fish of Fish.v does when it runs on the kernel, with the pictures of
    [src/fish] as the example. *)
From S2P Require Import Kernel Terminal Syscall Keyboard Typing Interrupts Exec Process FileCalls Calls Service KernelCalls.
From S2P Require Import Utilities Fish.

(** C14: fish on the kernel. In a fresh process of a kernel whose file system has the two
    pictures and the clock, fish ends with 0. It has put on the screen of its terminal,
    by way of vidmap and the processor's page tables, exactly what the list of blinking
    characters draws: the pictures, 200 ticks, the sign, 200 ticks, the sign in phase
    with the corner of the pictures, 200 ticks, and 2000 more; its files are closed, and
    nothing else has changed in what the kernel shows a program. *)
Theorem fish_shows `{!Layout} `{!Overread} `{!Device} m img n N D pid term frame h w l0 l1 va garbage st sign :
  served img n N D -> quiet -> screen_hosts img n N pid term frame h w -> w_chans w = replicate 6 Closed ->
  vol_node (volume_of img n) (bytes_of_string "rtc") = Some ClockNode ->
  vol_node (volume_of img n) (bytes_of_string "frame0.txt") = Some (FileNode l0) ->
  vol_node (volume_of img n) (bytes_of_string "frame1.txt") = Some (FileNode l1) ->
  fits l0 -> fits l1 -> bytes l0 -> bytes l1 -> 0x8000000 <= va -> va + 4 <= 0x8400000 ->
  let ps := drawn_by (show st sign l0 l1) in
  runs (kernel_calls m)
    (fun r h' => r = 0 /\ screen_hosts img n N pid term frame h' (drawn_on ps w) /\
       exists page, console (h_kernel h') frame page /\ text page = put_chars ps (tty_text (w_tty w)))
    (fish_main va garbage st sign) h.
Proof.
  intros Hd Hq Hh Hc Hrtc Hf0 Hf1 F0 F1 B0 B1 Hlo Hhi ps.
  destruct (pictures_drawn st l0 l1 0 (replicate 2000 0) F0 F1 B0 B1 eq_refl) as [Hv _].
  eapply runs_mono; [by eapply (screen_runs img n N D pid term frame m h w), fish_runs|].
  intros r h' (w' & Hh' & -> & ->). split; [done|]. split; [done|].
  destruct Hh' as [[(page & Hcon & _ & Htty)%rp_screen _] _]. exists page. split; [done|].
  change (tty_text (tty_of (h_kernel h') page) = put_chars ps (tty_text (w_tty w))). by rewrite Htty.
Qed.

(** The pictures of the repository, and an image with them. *)
Definition frame0 : list Z := bytes_of_string "/\/\/\/\/\/\/\/\/\/\/\/\
         o
           o    o
       o
             o
        o     O
    _    \
 |\/.\   | \/  /  /
 |=  _>   \|   \ /
 |/\_/    |/   |/
----------M----M--------
".
Definition frame1 : list Z := bytes_of_string "\/\/\/\/\/\/\/\/\/\/\/\/
           o    o
       o
             o
        o     o

    _   /
 |\/.\  \ \/  \  /
 |=  _>  \ \   \|
 |/\_>    |/   |/
----------M----M--------
".

Definition fish_image : list Z :=
  mk_boot [mk_dentry "frame0.txt" 2 0; mk_dentry "frame1.txt" 2 1; mk_dentry "rtc" 0 2] 3 2
  ++ mk_inode 187 [0] ++ mk_inode 174 [1] ++ mk_inode 0 [] ++ pad_to 4096 frame0 ++ pad_to 4096 frame1.

Lemma fish_served : served fish_image 3 3 2.
Proof. apply check_served_sound; [apply check_image_sound|]; vm_compute; reflexivity. Qed.

Lemma check_fits l :
  (length (rows l) <=? 25)%nat && forallb (fun a => length a <=? 40)%nat (rows l) = true -> fits l.
Proof.
  intros [H1%Nat.leb_le H2]%andb_true_iff. split; [done|]. rewrite forallb_forall in H2.
  apply Forall_forall. intros a Ha%list_elem_of_In. by apply Nat.leb_le, H2.
Qed.

Lemma fish_host : screen_hosts fish_image 3 3 1 0 0 (user_host fish_image []) (text_world []).
Proof. split; [by apply user_hosts|]. exists VIDEO_MEM. exact (demo_maps 1). Qed.

(** The screen's top left corner of the pictures at the end: the 2600 ticks end in the second
    half of a period. *)
Lemma fish_shows_witness :
  runs (@kernel_calls demo_layout demo_overread demo_device demo_machine)
    (fun r h' => r = 0 /\ exists page, @console demo_layout (h_kernel h') 0 page /\ load (text page) 40 = Some 92)
    (fish_main 0x8050000 [0; 0; 0; 0] (demo_char 0) (demo_char 0)) (user_host fish_image []).
Proof.
  eapply runs_mono.
  - apply (@fish_shows demo_layout demo_overread demo_device demo_machine fish_image 3 3 2 1 0 0 (user_host fish_image [])
      (text_world []) frame0 frame1); [exact fish_served|exact demo_quiet|exact fish_host|reflexivity|
      vm_compute; reflexivity|vm_compute; reflexivity|vm_compute; reflexivity|apply check_fits; vm_compute; reflexivity|
      apply check_fits; vm_compute; reflexivity|apply bytes_of_string_bytes|apply bytes_of_string_bytes|lia|lia].
  - intros r h' (-> & _ & page & Hcon & Ht). split; [reflexivity|]. exists page. split; [exact Hcon|]. rewrite Ht.
    vm_compute. reflexivity.
Defined.
