(* ===== verification/Sigtest.v ===== *)
(** * sigtest

    [src/syscalls/ece391sigtest.c]: a test of signals, which this kernel does not have.
    The kernel cannot install the handlers of the signals, so nothing calls them. *)
From S2P Require Import Kernel Terminal Syscall Keyboard Typing Interrupts Exec Process Paging FileCalls Calls Service KernelCalls.
From S2P Require Import Programs Console Vidmap Utilities.

(** ** The program *)

(** [badbuf]: NULL, or the address of charbuf; the handlers can set it. *)
Definition poke_badbuf (badbuf : option unit) (v : Z) : option Z :=
  match badbuf with Some _ => Some v | None => None end.

(** The store of 1 through badbuf, and what comes behind it. *)
Definition sigtest_tail (badbuf : option unit) (cnt : Z) (buf : list Z) : prog Z :=
  charbuf ← inside (poke_badbuf badbuf 1);
  buf ← inside (store buf cnt 0);
  _ ← ece391_fdputs 1 (cstring "Hello, ");
  _ ← ece391_fdputs 1 buf;
  _ ← (if bool_decide (charbuf = 1) then ece391_fdputs 1 (cstring "success
") else ece391_fdputs 1 (cstring "failure
"));
  mret 0.

(** [switch (signum)]: its text, in both handlers. *)
Definition signum_text (signum : Z) : list Z :=
  match signum with
  | 0 => cstring "0
"
  | 1 => cstring "1
"
  | 2 => cstring "2
"
  | 3 => cstring "3
"
  | _ => cstring "invalid
"
  end.

(** [buf]: a byte on the stack. badbuf is charbuf's address afterwards, and so is the EAX that
    the program goes on with. *)
Definition segfault_sighandler (signum buf : Z) : prog (option unit) :=
  _ ← ece391_fdputs 1 (cstring "Segfault signal handler called, signum: ");
  _ ← ece391_fdputs 1 (signum_text signum);
  _ ← ece391_fdputs 1 (cstring "Press enter to continue...
");
  _ ← ece391_read 0 [buf] 1;
  _ ← ece391_fdputs 1 (cstring "Signal handler returning
");
  mret (Some tt).

Definition alarm_sighandler (signum : Z) : prog unit :=
  _ ← ece391_fdputs 1 (cstring "Alarm signal handler called, signum: ");
  ece391_fdputs 1 (signum_text signum).

Definition SYS_SET_HANDLER : Z := 9.

(** [buf]: the array, BUFSIZE bytes. badbuf is still NULL, as no handler has run. *)
Definition sigtest_main (buf : list Z) : prog Z :=
  '(r, buf) ← ece391_getargs buf BUFSIZE;
  if bool_decide (0 <> r) then
    _ ← ece391_fdputs 1 (cstring "could not read argument
");
    mret 3
  else
    c ← inside (load buf 0);
    _ ← (if bool_decide (c = 49) then
           _ ← ece391_fdputs 1 (cstring "Installing signal handlers
");
           _ ← call (Sys_number SYS_SET_HANDLER);
           _ ← call (Sys_number SYS_SET_HANDLER);
           mret tt
         else mret tt);
    _ ← ece391_fdputs 1 (cstring "Hi, what's your name? ");
    '(cnt, buf) ← ece391_read 0 buf (BUFSIZE - 1);
    if bool_decide (-1 = cnt) then
      _ ← ece391_fdputs 1 (cstring "Can't read name from keyboard.
");
      mret 3
    else sigtest_tail None cnt buf.

(** ** Over the service *)

(** The program is at an access outside its objects. *)
Definition faults {A} (t : prog A) : Prop := exists k : Empty_set -> prog A, ITreeDefinition.observe t = ITreeDefinition.VisF Fault k.

(** What it prints, with or without handlers to install. *)
Definition greeting (arg : list Z) : list (bool * list Z) :=
  (if bool_decide (head arg = Some 49) then [(false, bytes_of_string "Installing signal handlers
")] else [])
  ++ [(false, bytes_of_string "Hi, what's your name? ")].

Section Sigtest.
Context (vol : volume).
Abbreviation runs' := (runs (service vol)).

Lemma fdputs_prints (s : string) w :
  len (bytes_of_string s) <= 80 -> Forall (fun c => c <> 0) (bytes_of_string s) ->
  runs' (fun _ w' => w' = print false (bytes_of_string s) w) (ece391_fdputs 1 (cstring s)) w.
Proof.
  intros Hl Hz. assert (until0 (cstring s) = Some (bytes_of_string s)) as Hu by by apply until0_app.
  eapply runs_inside; [by rewrite ece391_strlen_eq, (strlen_Some _ _ Hu)|].
  eapply runs_call; [by apply service_print, Hu; apply cstring_bytes|]. apply runs_ret.
  by rewrite bool_decide_false, Nat2Z.id, take_ge by lia.
Qed.

(** The installation of the handlers is refused. *)
Lemma installs_runs c w :
  runs' (fun _ w' => w' = prints (if bool_decide (c = 49) then [(false, bytes_of_string "Installing signal handlers
")] else []) w)
    (if bool_decide (c = 49) then
       _ ← ece391_fdputs 1 (cstring "Installing signal handlers
");
       _ ← call (Sys_number SYS_SET_HANDLER);
       _ ← call (Sys_number SYS_SET_HANDLER);
       mret tt
     else mret tt) w.
Proof.
  case_bool_decide; [|apply runs_ret; by rewrite prints_nil]. apply runs_bind.
  eapply runs_mono; [apply fdputs_prints; [cbn; lia|by repeat constructor]|]. intros _ w1 ->.
  do 2 (eapply runs_call; [reflexivity|]). by apply runs_ret.
Qed.

(** What the handlers would do: the alarm's prints its number, and behind the store that the other one
    is for, sigtest greets the user and reports success. *)
Lemma alarm_prints signum w :
  0 <= signum < 4 ->
  runs' (fun _ w' => w' = prints [(false, bytes_of_string "Alarm signal handler called, signum: "); (false, [48 + signum; 10])] w)
    (alarm_sighandler signum) w.
Proof.
  intros Hs. apply runs_bind. eapply runs_mono; [apply fdputs_prints; [cbn; lia|by repeat constructor]|]. intros _ w1 ->.
  assert (exists s, signum_text signum = cstring s /\ bytes_of_string s = [48 + signum; 10]) as (s & -> & Es).
  { assert (signum = 0 \/ signum = 1 \/ signum = 2 \/ signum = 3) as [-> |[-> |[-> | ->]]] by lia; by eexists. }
  assert (Forall (fun c => c <> 0) [48 + signum; 10]) by (repeat apply Forall_cons_2; [lia|lia|constructor]).
  eapply runs_mono; [apply fdputs_prints; rewrite Es; [cbn; lia|done]|]. intros _ w2 ->. by rewrite Es, prints_app.
Qed.

Lemma tail_succeeds name rest w :
  Forall (fun c => c <> 0) name -> bytes (name ++ rest) -> len name <= 80 -> (0 < length rest)%nat ->
  runs' (fun r w' => r = 0 /\ w' = prints [(false, bytes_of_string "Hello, "); (false, name); (false, bytes_of_string "success
")] w)
    (sigtest_tail (Some tt) (len name) (name ++ rest)) w.
Proof.
  intros Hn Hb Hl Hr. destruct rest as [|x rest]; [cbn in Hr; lia|]. unfold sigtest_tail.
  eapply runs_inside; [reflexivity|]. eapply runs_inside; [by apply store_middle|].
  apply runs_bind. eapply runs_mono; [apply fdputs_prints; [cbn; lia|by repeat constructor]|]. intros _ w1 ->.
  assert (until0 (name ++ 0 :: rest) = Some name) as Hu by by apply until0_app.
  apply (fdputs_runs vol _ _ name); [|done|lia|].
  { apply Forall_app in Hb as [? Hb]. inv Hb. apply Forall_app. split; [done|]. constructor; [unfold byte; lia|done]. }
  rewrite (bool_decide_false (80 < len name)) by lia. rewrite bool_decide_true by done.
  apply runs_bind. eapply runs_mono; [apply fdputs_prints; [cbn; lia|by repeat constructor]|]. intros _ w2 ->.
  apply runs_ret. split; [done|]. by rewrite !prints_app.
Qed.

Lemma sigtest_steps buf w keys rest line :
  let w0 := prints (greeting (w_arg w)) w in
  length buf = 1024%nat -> len (w_arg w) < 128 -> w_keys w = keys :: rest -> line_typed w0 keys line ->
  exists t', faults t' /\
    steps (service vol) t' (set_session (key_step (typing w0 keys) 0x1C) rest w0) (sigtest_main buf) w.
Proof.
  intros w0 Hl Ha Hk Hty. destruct (line_text _ _ _ Hty) as (_ & _ & Hll).
  set (buf1 := w_arg w ++ 0 :: drop (S (length (w_arg w))) buf).
  assert (exists c, load buf1 0 = Some c /\ (c = 49 <-> head (w_arg w) = Some 49)) as (c & Hc & Hc49).
  { unfold buf1. destruct (w_arg w) as [|c arg]; [by exists 0|]. exists c. split; [done|]. cbn. split; congruence. }
  exists (sigtest_tail None (len line + 1) (line_buf line buf1)). split.
  { eexists. unfold sigtest_tail, inside, poke_badbuf. rewrite !observe_bind. cbn. reflexivity. }
  unfold sigtest_main. eapply steps_call; [apply service_getargs_eq; unfold BUFSIZE; lia|]. fold buf1. cbn beta iota.
  rewrite bool_decide_false by lia. apply steps_bind. rewrite Hc. apply runs_ret. apply steps_bind.
  eapply runs_mono; [apply installs_runs|]. intros _ w1 ->. apply steps_bind.
  eapply runs_mono; [apply fdputs_prints; [cbn; lia|by repeat constructor]|]. intros _ w1 ->.
  rewrite (bool_decide_ext _ _ Hc49). rewrite prints_app. fold (greeting (w_arg w)). fold w0.
  eapply steps_call.
  { apply (service_read_line vol w0 buf1 _ keys rest line Hk Hty). unfold buf1. rewrite length_app. cbn [length]. rewrite length_drop. lia. }
  cbn beta iota. rewrite bool_decide_false by lia. by apply steps_here.
Qed.
End Sigtest.

(** ** Properties *)

(** C30: sigtest on the kernel. It prints its greeting - with the argument "1..." first that it
    installs its handlers, which the kernel refuses twice - and reads the line that the user
    types; then it stores through a null pointer. No handler can be called: it comes to the
    store, and in the page tables of its process the address 0 is not there, for a store or
    a load, so what happens is the page fault that stops the machine. *)
Theorem sigtest_faults `{!Layout} `{!Overread} `{!Device} m img n N D pid term frame h w buf keys rest line :
  let w0 := prints (greeting (w_arg w)) w in
  served img n N D -> quiet -> screen_hosts img n N pid term frame h w ->
  length buf = 1024%nat -> len (w_arg w) < 128 -> w_keys w = keys :: rest -> line_typed w0 keys line ->
  exists t' h', faults t' /\ steps (kernel_calls m) t' h' (sigtest_main buf) h /\
    hosts img n N pid term frame h' (set_session (key_step (typing w0 keys) 0x1C) rest w0) /\
    forall wr, translate (k_paging (h_kernel h')) true wr 0 = None.
Proof.
  intros w0 Hd Hq Hh Hl Ha Hk Hty. destruct (sigtest_steps (volume_of img n) buf w keys rest line Hl Ha Hk Hty) as (t' & Hf & Hst).
  destruct (steps_simulation (kernel_calls m) (service (volume_of img n)) (screen_hosts img n N pid term frame)
    (sigtest_main buf) t' h w _ (fun T e => service_serves img n N D pid term frame m T e Hd Hq) Hh Hst)
    as (h' & [Hh' [f Hm]] & Hst').
  exists t', h'. split; [done|]. split; [done|]. split; [done|]. intros wr. destruct Hh' as [[[Hcr Hpid _] _ _ _ _ _ _ _ _ _ _ _ _] _].
  rewrite (translate_task _ pid f) by (done || lia). reflexivity.
Qed.

Lemma sigtest_faults_witness :
  let w0 := prints [(false, bytes_of_string "Hi, what's your name? ")] (text_world [[0x1E; 0x30]]) in
  exists t' h', faults t' /\
    steps (@kernel_calls demo_layout demo_overread demo_device demo_machine) t' h' (sigtest_main (replicate 1024 0)) (text_host [[0x1E; 0x30]]) /\
    hosts text_image 3 1 1 0 0 h' (set_session (key_step (typing w0 [0x1E; 0x30]) 0x1C) [] w0) /\
    forall wr, translate (k_paging (h_kernel h')) true wr 0 = None.
Proof.
  apply (@sigtest_faults demo_layout demo_overread demo_device demo_machine text_image 3 1 1 1 0 0 (text_host [[0x1E; 0x30]])
    (text_world [[0x1E; 0x30]]) (replicate 1024 0) [0x1E; 0x30] [] (bytes_of_string "ab"));
    [exact text_served|exact demo_quiet| |reflexivity|reflexivity|reflexivity|].
  - split; [apply text_hosts|]. exists VIDEO_MEM. exact (demo_maps 1).
  - split; try reflexivity; refine (bool_decide_unpack _ _); vm_compute; exact I.
Defined.
