(* ===== verification/Jobs.v ===== *)
(** * Programs that start programs

    The abstract service of execute and halt: a process with a fresh set of channels runs a
    file's program, and its parent goes on with the status. The kernel, whose execute and
    halt are in Exec.v, implements it. *)
From ITree Require Import Core.ITreeDefinition.
From S2P Require Import Kernel Terminal Scheduler Syscall Exec Process Keyboard Typing Interrupts FileCalls Calls Service KernelCalls.

(** ** The service *)

(** The process that executes, the arguments of those that wait for it, from its parent
    up, and how many more can be started. *)
Record jobs := Jobs { j_world : world; j_args : list (list Z); j_free : nat }.
#[export] Program Instance jobs_world : Lens jobs world := {|
  lget := j_world;
  lset w j := Jobs w (j_args j) (j_free j);
|}.
Solve Obligations with (by intros; repeat match goal with s : jobs |- _ => destruct s end).

Fixpoint word_of (l : list Z) : list Z * list Z :=
  match l with
  | [] => ([], [])
  | c :: l' =>
      if bool_decide (stops c) then ([], l) else let '(w, rest) := word_of l' in (c :: w, rest)
  end.
Definition parse_command (command : list Z) : option (list Z * list Z) :=
  rest ← skip_spaces command;
  let '(name, rest) := word_of rest in
  rest ← skip_spaces rest;
  let '(arg, rest) := word_of rest in
  match rest with [] => None | _ => Some (name, arg) end.

(** [w] for another process on the same terminal. *)
Definition fresh_world (arg : list Z) (w : world) : world :=
  World (replicate 6 Closed) (w_index w) arg (w_tty w) (w_kbd w) (w_keys w) (w_out w).

Section Service.
Context (vol : volume) (text : list Z -> prog Z).

Definition job_calls : handler jobs := fun T e => zoom (service vol T e).

(** A regular file of at least 40 bytes that fits the program's page is refused or runs its
    program, [text l] for the contents [l]; a name that is not in the directory is refused. The service says
    nothing about other files and about more processes than there are. *)
Definition service_enter (command : list Z) : M jobs (Z + prog Z) :=
  '(name, arg) ← lift (parse_command command);
  if bool_decide (bytes command) && bool_decide (0 < length name <= 31)%nat && bool_decide (length arg <= 127)%nat then
    match vol_node vol name with
    | None => mret (inl (-1))
    | Some (FileNode l) =>
        if bool_decide (40 <= len l <= 0x3B8000) then
          j ← get;
          match elf_entry (take 40 l), j_free j with
          | None, _ => mret (inl (-1))
          | Some _, S free =>
              modify (fun _ => Jobs (fresh_world arg (j_world j)) (w_arg (j_world j) :: j_args j) free) ;;
              mret (inr (text l))
          | Some _, O => undef
          end
        else undef
    | Some _ => undef
    end
  else undef.

(** The files of the parent are closed (Process.halt_closes_parents_files). The kernel does
    not free the last channel of a process that it starts: the service says nothing
    about a program that ends with it in use. *)
Definition service_leave (status : Z) : M jobs Z :=
  j ← get;
  match load (w_chans (j_world j)) 5, j_args j with
  | Some Closed, arg :: args =>
      modify (fun _ => Jobs (fresh_world arg (j_world j)) args (S (j_free j))) ;;
      mret (u8 status)
  | _, _ => undef
  end.

Definition job_service (fuel : nat) : handler jobs := processes job_calls service_enter service_leave fuel.
End Service.

(** ** The kernel *)

#[export] Program Instance host_kernel : Lens host kernel := {|
  lget := h_kernel;
  lset s h := Host s (h_keys h);
|}.
Solve Obligations with (by intros; repeat match goal with s : host |- _ => destruct s end).

(** [code page eip]: what the processor does from [eip] on with the bytes of the program's
    page. [frame_of pid]: the stack registers where execute stores them on the kernel
    stack of process [pid]. *)
Section Host.
Context `{!Layout} `{!Overread} `{!Device} (m : machine) (frame_of : Z -> Z * Z) (code : (Z -> Z) -> Z -> prog Z).

Definition kernel_enter (command : list Z) : M host (Z + prog Z) := zoom (
  pid ← find_programid;
  c ← execute (Some command) (m_stack m) (fst (frame_of pid)) (snd (frame_of pid));
  match c with
  | Returns v => mret (inl v)
  | Iret eip _ => pid ← find_programid; s ← get; mret (inr (code (k_programs s pid) eip))
  | _ => undef
  end).

(** halt jumps into execute with the stack registers that the parent stored: they must
    be those of its own stack. *)
Definition kernel_leave (status : Z) : M host Z := zoom (
  c ← halt status;
  pid ← find_programid;
  match c with
  | HaltRet esp ebp => if bool_decide ((esp, ebp) = frame_of pid) then halt_ret else undef
  | _ => undef
  end).

Definition kernel_jobs (fuel : nat) : handler host := processes (kernel_calls m) kernel_enter kernel_leave fuel.
End Host.

(** ** Parsing *)

#[export] Instance stops_dec c : Decision (stops c).
Proof. unfold stops. apply _. Defined.

Lemma word_of_spec l w rest :
  word_of l = (w, rest) -> l = w ++ rest /\ word w /\ match rest with [] => True | c :: _ => stops c end.
Proof.
  revert w rest. induction l as [|c l IH]; intros w rest; cbn [word_of].
  - intros [= <- <-]. split; [done|]. by split; [constructor|].
  - case_bool_decide; [intros [= <- <-]; split; [done|]; by split; [constructor|]|].
    destruct (word_of l) as [w' rest']. intros [= <- <-]. destruct (IH w' rest' eq_refl) as (-> & ? & ?).
    split; [done|]. split; [by constructor|done].
Qed.

Lemma skip_spaces_inv l r :
  skip_spaces l = Some r -> exists a, l = replicate a 32 ++ r /\ match r with [] => False | c :: _ => c <> 32 end.
Proof.
  induction l as [|c l IH]; cbn [skip_spaces]; [done|]. case_bool_decide as Hc.
  - intros (a & -> & ?)%IH. exists (S a). by rewrite Hc.
  - intros [= <-]. by exists 0%nat.
Qed.

Lemma parse_command_line command name arg :
  parse_command command = Some (name, arg) -> name <> [] -> command_line command name arg.
Proof.
  unfold parse_command. intros (r1 & H1 & H)%bind_Some Hne. apply skip_spaces_inv in H1 as (a & -> & _).
  destruct (word_of r1) as [w r2] eqn:E1. apply word_of_spec in E1 as (-> & Hw & Hs2).
  apply bind_Some in H as (r3 & H2 & H). apply skip_spaces_inv in H2 as (b & -> & Hh).
  destruct (word_of r3) as [w' r4] eqn:E2. apply word_of_spec in E2 as (-> & Hw' & Hs4).
  destruct r4 as [|e rest]; [done|]. injection H as -> ->. exists a, b, e, rest. split_and!; try done.
  - intros ->. destruct arg as [|c arg]; [done|]. exfalso. apply Forall_inv in Hw'. by apply Hw'.
  - by intros ->.
Qed.
