(* ===== verification/Sessions.v ===== *)
(** * The kernel implements the service of processes

    execute and halt of Exec.v do what Jobs.v's service does: the relation between the
    kernel's state, with all processes of a terminal, and the service's; that calls, the
    start of a program and its end preserve it. *)
From ITree Require Import Core.ITreeDefinition.
From S2P Require Import Kernel Terminal Scheduler Syscall Exec Process Keyboard Typing Interrupts FileCalls Calls Service KernelCalls Jobs.

Section Sessions.
Context `{HL : !Layout} `{HO : !Overread} `{HD : !Device} (img : list Z) (n N D term fr frame : Z).
Context (m : machine) (frame_of : Z -> Z * Z) (code : (Z -> Z) -> Z -> prog Z) (text : list Z -> prog Z).
Abbreviation vol := (volume_of img n).
Implicit Types (s : kernel) (w : world) (j : jobs) (h : host) (pid q : Z).

(** ** The relation *)

(** Process [p] waits in execute, with its argument [a]. *)
Definition waits s p (a : list Z) : Prop :=
  exists b, load (pcbs (k_procs s)) (p - 1) = Some b /\ (p_esp b, p_ebp b) = frame_of p /\
    until0 (argument b) = Some a /\
    forall i, i = 0 \/ i = 1 -> exists f, load (fds b) i = Some f /\ flags f <> 0 /\ sysops_ptr f = TerminalOps.

(** [ps] are the parents of [child]; nothing is said about the parent of the last. *)
Fixpoint waiting s child (ps : list Z) (args : list (list Z)) : Prop :=
  match ps, args with
  | [], [] => load (openTasks (k_procs s)) child <> Some (-1)
  | p :: ps, a :: args => load (openTasks (k_procs s)) child = Some p /\ waits s p a /\ waiting s p ps args
  | _, _ => False
  end.

Definition is_free s q : Prop := 1 <= q <= 6 /\ load (openTasks (k_procs s)) q = Some (-1).
#[local] Instance is_free_dec s q : Decision (is_free s q).
Proof. unfold is_free. apply _. Defined.
Definition free_pids s : list Z := filter (is_free s) (seqZ 1 6).

Record tree pid ps h j : Prop := {
  tr_hosts : hosts img n N pid term frame h (j_world j);
  tr_ready : kernel_ready (h_kernel h) pid;
  tr_old : old_terminal (k_terms (h_kernel h)) = term;
  tr_flag : newterminal_flag (k_terms (h_kernel h)) <> 1;
  tr_maps q : 1 <= q <= 6 -> maps (k_paging (h_kernel h)) q fr;
  tr_distinct : NoDup (pid :: ps);
  tr_range : Forall (fun q => 1 <= q <= 6) (pid :: ps);
  tr_waiting : waiting (h_kernel h) pid ps (j_args j);
  tr_last q : is_free (h_kernel h) q -> flags <$> fd_of (h_kernel h) q 7 = Some 0;
  tr_count : length (free_pids (h_kernel h)) = j_free j;
  tr_others i t : i <> term -> load (terminals (k_terms (h_kernel h))) i = Some t ->
    ~ is_free (h_kernel h) (program_id t) /\ program_id t ∉ pid :: ps;
}.
Definition tree_of h j : Prop := exists pid ps, tree pid ps h j.

(** ** Frames *)

Lemma waiting_active s child ps args : 1 <= child <= 6 -> Forall (fun q => 1 <= q <= 6) ps ->
  waiting s child ps args -> ~ is_free s child.
Proof.
  intros Hc Hps. destruct ps as [|p ps], args; cbn [waiting]; try done.
  - intros Hne [_ Hf]. done.
  - intros [E _] [_ Hf]. apply Forall_inv in Hps. rewrite E in Hf. injection Hf. lia.
Qed.

Lemma waiting_frame s s' child ps args :
  (forall p, p ∈ child :: ps -> load (openTasks (k_procs s')) p = load (openTasks (k_procs s)) p) ->
  (forall p a, p ∈ ps -> waits s p a -> waits s' p a) ->
  waiting s child ps args -> waiting s' child ps args.
Proof.
  revert child args. induction ps as [|p ps IH]; intros child [|a args] Ho Hp; cbn [waiting]; try done.
  - by rewrite Ho by left.
  - intros (E & Hw & H). split; [by rewrite Ho by left|]. split.
    + apply Hp; [by left|done].
    + apply IH; [| |done]; intros q; [intros Hq; apply Ho|intros a' Hq; apply Hp]; by right.
Qed.

Lemma waits_frame s s' p a :
  load (pcbs (k_procs s')) (p - 1) = load (pcbs (k_procs s)) (p - 1) -> waits s p a -> waits s' p a.
Proof. intros E (b & Hb & Hw). exists b. by rewrite E. Qed.

Lemma waiting_all_active s child ps args q :
  Forall (fun q => 1 <= q <= 6) (child :: ps) -> waiting s child ps args -> q ∈ child :: ps -> ~ is_free s q.
Proof.
  revert child args. induction ps as [|p ps IH]; intros child args Hr Hw Hq.
  - apply list_elem_of_singleton in Hq as ->. eapply waiting_active; [by apply Forall_inv in Hr| |exact Hw]. by constructor.
  - apply elem_of_cons in Hq as [->|Hq].
    { eapply waiting_active; [by apply Forall_inv in Hr|by apply Forall_inv_tail in Hr|exact Hw]. }
    destruct args as [|a args]; [done|]. destruct Hw as (_ & _ & Hw). apply Forall_inv_tail in Hr. by eapply IH.
Qed.

Lemma ready_steady pid s s' w :
  represents img n N pid term frame s' w -> steady pid s s' -> kernel_ready s pid -> kernel_ready s' pid.
Proof.
  intros Hr [Hpg Hsch Htk _ Hold _ Hids] [Hc ? Ht Ho Hq Hi Hop _].
  split; rewrite ?Hpg, ?Hsch, ?Htk, ?Hold; try done.
  - apply (f_equal length) in Hids. rewrite !length_fmap in Hids. by rewrite Hids.
  - apply Hr.
Qed.

(** The calls keep it. *)
Lemma tree_steady pid ps h h' j w' :
  tree pid ps h j -> hosts img n N pid term frame h' w' -> steady pid (h_kernel h) (h_kernel h') ->
  tree pid ps h' (lset w' j).
Proof.
  intros [Hh Hr Hold Hfl Hm Hnd Hrg Hw Hlast Hcnt Hoth] Hh' Hst. pose proof Hst as [Hpg Hsch Htk Hpc Hol Hflg Hids].
  assert (forall q, is_free (h_kernel h') q <-> is_free (h_kernel h) q) as Hfree.
  { intros q. unfold is_free. by rewrite Htk. }
  split; try done.
  - destruct Hh' as [Hrep _]. by eapply ready_steady.
  - by rewrite Hol.
  - by rewrite Hflg.
  - by rewrite Hpg.
  - eapply waiting_frame; [by intros; rewrite Htk| |exact Hw]. intros p a Hp. apply waits_frame, Hpc.
    intros ->. by apply NoDup_cons in Hnd as [? _].
  - intros q Hq. apply Hfree in Hq. rewrite <-(Hlast q Hq). unfold fd_of. rewrite Hpc; [done|]. intros ->.
    by eapply (waiting_all_active _ pid); [exact Hrg|exact Hw|left|].
  - cbn [lset jobs_world j_free]. rewrite <-Hcnt. unfold free_pids. f_equal. by apply list_filter_iff.
  - intros i t Hi Ht.
    assert (program_id <$> load (terminals (k_terms (h_kernel h))) i = Some (program_id t)) as E.
    { pose proof (load_inv _ _ _ Ht) as [Hir Hl]. rewrite load_nonneg by lia.
      rewrite <-list_lookup_fmap, <-Hids, list_lookup_fmap, Hl. done. }
    apply fmap_Some in E as (t0 & Ht0 & E). rewrite Hfree, E. by apply (Hoth i).
Qed.

(** The page that the video memory is mapped to. *)
Definition video_page : Prop := fr `mod` 4096 = 0 /\ frame_number fr = Some frame.
Hypothesis Hframe : video_page.

(** ** The screen of a process *)

Lemma video_frame_task s q :
  maps (k_paging s) q fr -> cr3 (k_paging s) = dir_addr q -> 1 <= q <= 6 -> video_frame s = Some frame.
Proof using Hframe.
  intros Hm Hc Hq. unfold video_frame. rewrite (translate_task _ q fr) by (done || unfold VIDEO_MEM; lia).
  unfold task_space, VIDEO_MEM. rewrite bool_decide_false, bool_decide_true by lia. cbn [mbind option_bind].
  rewrite Z.sub_diag, Z.add_0_r. apply Hframe.
Qed.

Lemma terminal_of_only s q i t :
  0 <= i < 3 -> load (terminals (k_terms s)) i = Some t -> program_id t = q ->
  (forall k t', k <> i -> load (terminals (k_terms s)) k = Some t' -> program_id t' <> q) -> terminal_of s q = Some i.
Proof.
  intros Hi Ht Hq Ho. unfold terminal_of.
  assert (forall k, program_id <$> load (terminals (k_terms s)) k = Some q <-> k = i) as Hk.
  { intros k. split; [|intros ->; by rewrite Ht, <-Hq]. intros (t' & Ht' & E)%fmap_Some. destruct (decide (k = i)) as [|Hne]; [done|].
    by destruct (Ho k t' Hne Ht'). }
  rewrite (list_filter_iff _ (fun k => k = i) _ Hk).
  assert (i = 0 \/ i = 1 \/ i = 2) as [-> | [-> | ->]] by lia; reflexivity.
Qed.

(** What execute and halt do not touch. *)
Record display_same s s' : Prop := {
  ds_cursor : k_cursor s' = k_cursor s;
  ds_frames : k_frames s' = k_frames s;
  ds_kbd : k_kbd s' = k_kbd s;
  ds_fs : k_fs s' = k_fs s;
  ds_old : old_terminal (k_terms s') = old_terminal (k_terms s);
}.

Lemma entered_display cur new contents arg e esp ebp s :
  display_same s (entered cur new contents (prepared cur new arg e esp ebp s)).
Proof.
  unfold prepared, saved_caller, first_shell, claimed.
  destruct (bool_decide (cur = 0)), (bool_decide (newterminal_flag _ = 1)), (bool_decide (cur <> 0)); by split.
Qed.

Lemma entered_flag cur new contents arg e esp ebp s :
  newterminal_flag (k_terms s) <> 1 ->
  newterminal_flag (k_terms (entered cur new contents (prepared cur new arg e esp ebp s))) <> 1.
Proof.
  intros Hf. unfold prepared, saved_caller, first_shell, claimed.
  destruct (bool_decide (cur = 0)), (bool_decide (newterminal_flag _ = 1)), (bool_decide (cur <> 0)); done.
Qed.

(** The screen, as a process of the terminal sees it. *)
Lemma console_task s q page :
  maps (k_paging s) q fr -> cr3 (k_paging s) = dir_addr q -> 1 <= q <= 6 ->
  load (k_frames s) frame = Some page -> length page = 4096%nat -> bytes page -> console s frame page.
Proof using Hframe. intros Hm Hc Hq Hp Hl Hb. split; try done. by eapply video_frame_task. Qed.

Lemma console_same s s' q page :
  display_same s s' -> maps (k_paging s') q fr -> cr3 (k_paging s') = dir_addr q -> 1 <= q <= 6 ->
  console s frame page -> console s' frame page /\ tty_of s' page = tty_of s page.
Proof using Hframe.
  intros [Hcu Hfr _ _ _] Hm Hc Hq [_ Hp Hl Hb]. split.
  - by apply (console_task s' q); rewrite ?Hfr.
  - unfold tty_of. by rewrite Hcu.
Qed.

Hypothesis Hserved : served img n N D.
Hypothesis Hquiet : quiet.
(** The loaded program does what the file's program does. *)
Hypothesis Hcode : forall page l e,
  (forall i x, load l i = Some x -> page (program_offset + i) = x) -> elf_entry (take 40 l) = Some e ->
  40 <= len l -> code page e = text l.

Lemma calls_simulate T (e : sys T) : simulates tree_of (kernel_calls m T e) (job_calls vol T e).
Proof using Hserved Hquiet.
  intros h j x j' (pid & ps & Ht) Hj. unfold job_calls in Hj. apply zoom_inv in Hj as (w' & Hw & ->).
  destruct (host_serves m img n N D pid term frame T e h (j_world j) x w' Hserved Hquiet (tr_hosts _ _ _ _ Ht) Hw)
    as (h' & Hh & Hh' & Hst). exists h'. split; [done|]. exists pid, ps. by eapply tree_steady.
Qed.

(** ** Starting a program *)

(** The control block of a new process. *)
Lemma entered_last cur new contents arg e esp ebp s b :
  0 <= cur <= 6 -> 1 <= new <= 6 -> new <> cur -> load (pcbs (k_procs s)) (new - 1) = Some b ->
  load (pcbs (k_procs (entered cur new contents (prepared cur new arg e esp ebp s)))) (new - 1)
  = Some ((set_parent (MB_8 - KB_8 * cur) cur ∘ set_cr3 (dir_addr new)) (fresh_pcb arg b)).
Proof.
  intros Hc Hn Hne Hb. destruct (prepared_pcbs cur new arg e esp ebp s) as (Hq & _); try done.
  rewrite Hb in Hq. set (s0 := prepared _ _ _ _ _ _ _) in *.
  exact (load_altered_pcb new _ (set_programs (programs_with new program_offset contents (k_programs s0)) (with_cr3 new s0)) _ Hq).
Qed.

Lemma free_pids_less s s' q :
  is_free s q -> (forall p, is_free s' p <-> is_free s p /\ p <> q) -> length (free_pids s) = S (length (free_pids s')).
Proof.
  intros Hq Hf. eapply filter_less; [apply NoDup_seqZ| |exact Hq|exact Hf]. destruct Hq as [? _]. apply elem_of_seqZ. lia.
Qed.

Lemma free_pid_first s q : free_pids s = q :: tail (free_pids s) -> free_pid s = Some q.
Proof.
  intros E. unfold free_pid.
  assert (filter (fun i => load (openTasks (k_procs s)) i = Some (-1)) (seqZ 1 6) = free_pids s) as ->; [|by rewrite E].
  unfold free_pids. apply filter_ext_in. intros z Hz%elem_of_seqZ. unfold is_free. intuition lia.
Qed.
(** The state behind execute. *)
Definition launched pid new (l arg : list Z) e s : kernel :=
  entered pid new l (prepared pid new arg e (fst (frame_of pid)) (snd (frame_of pid)) s).

Definition arg_ok (arg : list Z) : Prop := word arg /\ (length arg <= 127)%nat.

Section Launch.
Context (pid : Z) (ps : list Z) (h : host) (j : jobs) (new : Z) (l arg : list Z) (e : Z).
Hypothesis Htree : tree pid ps h j.
Hypothesis Hnew : free_pid (h_kernel h) = Some new.
Hypothesis Harg : arg_ok arg.
Abbreviation s := (h_kernel h).
Abbreviation s' := (launched pid new l arg e s).

Lemma launch_range : 1 <= pid <= 6 /\ is_free s new /\ new ∉ pid :: ps.
Proof using Htree Hnew.
  pose proof (tr_range _ _ _ _ Htree) as Hr. pose proof (Forall_inv Hr) as Hp. cbn in Hp.
  apply free_pid_inv in Hnew as (Hn & Hf & _). split; [lia|]. split; [by split|]. intros Hin.
  by eapply (waiting_all_active s pid ps); [exact Hr|apply Htree|exact Hin|].
Qed.

Lemma launch_started :
  started s pid new arg l (fst (frame_of pid)) (snd (frame_of pid)) s' /\ kernel_ready s' new /\ display_same s s' /\
  newterminal_flag (k_terms s') <> 1.
Proof using Htree Hnew Harg.
  destruct launch_range as (Hp & [Hn _] & Hne), Harg as [Hw Hl].
  assert (new <> pid) by (intros ->; apply Hne; left).
  split; [by apply entered_started; try apply Htree|]. split; [by apply started_ready; try apply Htree|].
  split; [apply entered_display|]. by apply entered_flag, Htree.
Qed.

Lemma launch_tasks q :
  load (openTasks (k_procs s')) q = if bool_decide (q = new) then Some pid else load (openTasks (k_procs s)) q.
Proof using Htree Hnew Harg.
  destruct launch_started as (Hst & _). destruct launch_range as (Hp & [Hn _] & Hne).
  rewrite (st_table _ _ _ _ _ _ _ _ Hst), (bool_decide_false (newterminal_flag _ = 1)) by apply Htree.
  pose proof (kr_openTasks _ _ (tr_ready _ _ _ _ Htree)). case_bool_decide as Hq.
  - subst q. by apply load_insert_eq; lia.
  - by apply load_insert_ne; lia.
Qed.

Lemma launch_free q : is_free s' q <-> is_free s q /\ q <> new.
Proof using Htree Hnew Harg.
  destruct launch_range as (Hp & _ & _). unfold is_free. rewrite launch_tasks. case_bool_decide as Hq.
  - split; [|tauto]. intros [_ [= E]]. lia.
  - tauto.
Qed.

Lemma launch_waiting : waiting s' new (pid :: ps) (w_arg (j_world j) :: j_args j).
Proof using Htree Hnew Harg.
  destruct launch_started as (Hst & _). destruct launch_range as (Hp & [Hn _] & Hne).
  rewrite not_elem_of_cons in Hne. destruct Hne as [Hne1 Hne2].
  pose proof Htree as [[Hrep _] _ _ _ _ Hnd _ Hw _ _ _]. cbn [waiting]. split.
  { by rewrite launch_tasks, bool_decide_true. }
  split.
  - destruct (rp_argument _ _ _ _ _ _ _ _ Hrep) as (b & Hb & Ha).
    exists (set_saved (dir_addr pid) (fst (frame_of pid)) (snd (frame_of pid)) b).
    rewrite (st_caller _ _ _ _ _ _ _ _ Hst), Hb by lia. split; [done|]. cbn [set_saved p_esp p_ebp argument fds].
    split; [by destruct (frame_of pid)|]. split; [done|]. intros i Hi.
    destruct (rp_std _ _ _ _ _ _ _ _ Hrep i Hi) as (f & Hf & Hfl). exists f. split; [|done].
    unfold fd_of in Hf. by rewrite Hb in Hf.
  - eapply waiting_frame; [| |exact Hw].
    + intros q Hq. rewrite launch_tasks, bool_decide_false; [done|]. intros ->.
      apply elem_of_cons in Hq as [->|Hq]; done.
    + intros q a Hq. apply waits_frame. apply NoDup_cons in Hnd as [Hpid _].
      apply (st_others _ _ _ _ _ _ _ _ Hst); intros ->; done.
Qed.

Lemma launch_others i t :
  i <> term -> load (terminals (k_terms s')) i = Some t -> ~ is_free s' (program_id t) /\ program_id t ∉ new :: pid :: ps.
Proof using Htree Hnew Harg.
  destruct launch_started as (Hst & _). destruct launch_range as (_ & Hn & _).
  pose proof (kr_old _ _ (tr_ready _ _ _ _ Htree)) as Hold. rewrite (tr_old _ _ _ _ Htree) in Hold. intros Hi.
  rewrite (st_terminals _ _ _ _ _ _ _ _ Hst), (tr_old _ _ _ _ Htree), load_alter_ne by (done || lia).
  intros [Hf Hin]%(tr_others _ _ _ _ Htree); [|done]. rewrite launch_free, not_elem_of_cons. split; [tauto|].
  split; [|done]. intros E. apply Hf. by rewrite E.
Qed.

Lemma launch_terminal :
  exists t, load (terminals (k_terms s')) term = Some (set_program_id new t) /\
    load (terminals (k_terms s)) term = Some t /\ terminal_of s' new = Some term.
Proof using Htree Hnew Harg.
  destruct launch_started as (Hst & _). pose proof (rp_line _ _ _ _ _ _ _ _ (proj1 (tr_hosts _ _ _ _ Htree))) as (t & Ht & _).
  pose proof (kr_old _ _ (tr_ready _ _ _ _ Htree)) as Hold. rewrite (tr_old _ _ _ _ Htree) in Hold.
  assert (load (terminals (k_terms s')) term = Some (set_program_id new t)) as Ht'.
  { rewrite (st_terminals _ _ _ _ _ _ _ _ Hst), (tr_old _ _ _ _ Htree). by apply load_alter_eq. }
  exists t. split; [done|]. split; [done|]. eapply terminal_of_only; [exact Hold|exact Ht'|done|].
  intros i t' Hi Hti. destruct (launch_others i t' Hi Hti) as [_ Hin]. intros E. apply Hin. rewrite E. left.
Qed.

Lemma launch_maps q : 1 <= q <= 6 -> maps (k_paging s') q fr.
Proof using Htree Hnew Harg.
  destruct launch_started as (Hst & _). rewrite (st_paging _ _ _ _ _ _ _ _ Hst). apply (tr_maps _ _ _ _ Htree).
Qed.

(** All its channels are closed. *)
Lemma launch_channels i : 2 <= i < 8 -> flags <$> fd_of s' new i = Some 0.
Proof using Htree Hnew Harg.
  destruct launch_started as (Hst & _). destruct launch_range as (_ & Hn & Hne). intros Hi.
  destruct (st_new _ _ _ _ _ _ _ _ Hst) as (b0 & b & Hb0 & Hb & Hfb). unfold fd_of. rewrite Hb. cbn [mbind option_bind].
  destruct (decide (i = 7)) as [->|].
  - assert (new <> pid) as Hpid by (intros ->; apply Hne; left).
    pose proof (tr_last _ _ _ _ Htree new Hn) as Hlast. unfold fd_of in Hlast.
    rewrite Hb0 in Hlast. by rewrite (fp_last _ _ _ _ _ Hfb).
  - destruct (fp_free _ _ _ _ _ Hfb i) as (f & -> & Hf); [lia|]. cbn. by rewrite Hf.
Qed.

Lemma launch_represents : represents img n N new term frame s' (fresh_world arg (j_world j)).
Proof using Htree Hnew Harg Hframe.
  destruct launch_started as (Hst & Hr & Hds & _). destruct launch_range as (_ & [Hn _] & _).
  destruct launch_terminal as (t & Ht' & Ht & Hterm). pose proof Hst as [_ _ _ _ (b0 & b & _ & Hb & Hfb) _ _ _ _].
  destruct (tr_hosts _ _ _ _ Htree) as [[_ _ Himg Hidx Hrange _ _ _ _ (page & Hcon & Htok & Htty) Hkbd _ Hline] _].
  pose proof Hds as [_ _ Hkb Hfs Hold]. destruct Hr as [Hcr _ Htl _ _ _ _ Hprocs].
  split; rewrite ?Hfs, ?Hkb; try done.
  - split; [done|lia|done|done].
  - exists b. split; [done|]. apply Hfb.
  - intros i Hi. destruct (fp_std _ _ _ _ _ Hfb i) as (f & Hf & Hfl & Hops); [lia|]. exists f.
    unfold fd_of. rewrite Hb. split; [done|]. by rewrite Hfl.
  - intros i c Hi. cbn [fresh_world w_chans]. rewrite load_replicate by lia. intros [= <-].
    pose proof (launch_channels i Hi) as (f & Hf & Hfl)%fmap_Some. by exists f.
  - destruct (console_same s s' new page Hds (launch_maps new Hn) Hcr Hn Hcon) as [Hcon' Htty'].
    exists page. by rewrite Htty'.
  - intros _. rewrite Hold. exact (tr_old _ _ _ _ Htree).
  - destruct Hline as (t0 & Ht0 & Hl0). rewrite Ht in Ht0. injection Ht0 as <-. by exists (set_program_id new t).
Qed.

Lemma launch_tree free keys :
  j_free j = S free -> keys = h_keys h ->
  tree new (pid :: ps) (Host s' keys) (Jobs (fresh_world arg (j_world j)) (w_arg (j_world j) :: j_args j) free).
Proof using Htree Hnew Harg Hframe.
  intros Hfree ->. destruct launch_started as (Hst & Hr & [_ _ _ _ Hold] & Hfl). destruct launch_range as (Hp & Hn & Hne).
  split; cbn [h_kernel h_keys j_world j_args j_free].
  - split; [exact launch_represents|]. apply (tr_hosts _ _ _ _ Htree).
  - done.
  - rewrite Hold. exact (tr_old _ _ _ _ Htree).
  - done.
  - apply launch_maps.
  - apply NoDup_cons. split; [done|apply Htree].
  - apply Forall_cons. split; [apply Hn|apply Htree].
  - exact launch_waiting.
  - intros q [Hq Hqn]%launch_free. rewrite <-(tr_last _ _ _ _ Htree q Hq). unfold fd_of.
    rewrite (st_others _ _ _ _ _ _ _ _ Hst); [done|done|]. intros ->.
    eapply (waiting_all_active s pid ps); [apply Htree|apply Htree|left|done].
  - apply eq_add_S. rewrite <-Hfree, <-(tr_count _ _ _ _ Htree). symmetry. by apply (free_pids_less s _ new); [|apply launch_free].
  - apply launch_others.
Qed.
End Launch.


(** The array of execute for a file's header. *)
Definition stack_ok : Prop := length (m_stack m) = 40%nat.
Hypothesis Hstack : stack_ok.

(** The volume's regular files are those of the image. *)
Lemma vol_file_names name l :
  vol_node vol name = Some (FileNode l) ->
  exists ino L, names_file img name N ino L /\ l = file_contents img ino /\ len l = L.
Proof using Hserved.
  intros (k & d & Hk & Hd & Hkr & Hty & Hnd)%vol_node_inv. pose proof (sd_wf _ _ _ _ Hserved) as Hwf.
  case_bool_decide; [done|]. case_bool_decide; [done|]. injection Hnd as ->.
  destruct (sd_types _ _ _ _ Hserved k d Hkr Hd) as [_ Hino]. specialize (Hino ltac:(lia)).
  destruct (wf_file_length _ _ _ _ Hwf _ Hino) as (L & HLen & HLr).
  exists (d_inodeNum d), L. split; [by exists k, d|]. split; [done|]. rewrite (file_contents_length _ _ _ HLen) by lia. lia.
Qed.

Lemma header_long l stack : 40 <= len l -> length stack = 40%nat -> header l stack = take 40 l.
Proof. intros Hl Hs. unfold header. rewrite drop_ge, app_nil_r; [done|]. rewrite length_take. lia. Qed.

(** execute returns to its caller. *)
Lemma enter_refused pid h command :
  process (h_kernel h) pid ->
  execute (Some command) (m_stack m) (fst (frame_of pid)) (snd (frame_of pid)) (h_kernel h) = Ret (Returns (-1)) (h_kernel h) ->
  kernel_enter m frame_of code command h = Ret (inl (-1)) h.
Proof using HL.
  intros Hp He. unfold kernel_enter. rewrite (zoom_Ret _ h (inl (-1)) (h_kernel h)); [by destruct h|]. change (lget h) with (h_kernel h).
  rewrite (bind_Ret _ _ _ _ _ (process_find _ _ Hp)). by rewrite (bind_Ret _ _ _ _ _ He).
Qed.

(** execute enters a program. *)
Lemma enter_launched pid h command new l arg e :
  process (h_kernel h) pid -> 1 <= new <= 6 -> 40 <= len l -> len l <= 0x3B8000 -> elf_entry (take 40 l) = Some e ->
  let s' := launched pid new l arg e (h_kernel h) in
  execute (Some command) (m_stack m) (fst (frame_of pid)) (snd (frame_of pid)) (h_kernel h) = Ret (Iret e 0x83FFFFC) s' ->
  k_programs s' = programs_with new program_offset l (k_programs (h_kernel h)) -> cr3 (k_paging s') = dir_addr new ->
  kernel_enter m frame_of code command h = Ret (inr (text l)) (Host s' (h_keys h)).
Proof using HL Hcode.
  intros Hp Hn Hl40 Hlmax He s' Hex Hmem Hcr. unfold kernel_enter. rewrite (zoom_Ret _ h (inr (text l)) s'); [done|].
  change (lget h) with (h_kernel h). rewrite (bind_Ret _ _ _ _ _ (process_find _ _ Hp)).
  rewrite (bind_Ret _ _ _ _ _ Hex). rewrite (bind_Ret _ _ _ _ _ (find_programid_eq new s' Hcr ltac:(lia))).
  unfold mbind, M_bind, get, mret, M_ret. do 2 f_equal. rewrite Hmem. apply Hcode; [|done|done].
  intros i x Hx. pose proof (load_inv _ _ _ Hx) as [Hi _]. unfold programs_with, program_offset.
  rewrite bool_decide_true by lia. replace (0x48000 + i - 0x48000) with i by lia. by rewrite Hx.
Qed.

Lemma enter_simulates command : simulates tree_of (kernel_enter m frame_of code command) (service_enter vol text command).
Proof using Hserved Hstack Hframe Hcode HL.
  intros h j x j' (pid & ps & Ht) H. pose proof (sd_wf _ _ _ _ Hserved) as Hwf.
  pose proof (tr_hosts _ _ _ _ Ht) as [Hrep _]. pose proof (rp_process _ _ _ _ _ _ _ _ Hrep) as Hp.
  pose proof (rp_image _ _ _ _ _ _ _ _ Hrep) as Himg.
  unfold service_enter in H. apply bind_inv in H as ([name arg] & j1 & Hpar & H). unfold lift in Hpar.
  destruct (parse_command command) as [na|] eqn:Hparse; [|done]. injection Hpar as -> <-.
  destruct (_ && _) eqn:Hb; [|done]. rewrite !andb_true_iff, !bool_decide_eq_true in Hb. destruct Hb as [[Hb Hl] Hla].
  assert (command_line command name arg) as Hcmd by (apply parse_command_line; [done|by intros ->; simpl in Hl; lia]).
  destruct (vol_node vol name) as [nd|] eqn:Hnd.
  2: { injection H as <- <-. exists h. split; [|by exists pid, ps]. apply (enter_refused pid); [done|].
       eapply (execute_refused img n N D); [done..|lia|done|]. left. by eapply vol_node_None. }
  destruct nd as [| |l]; [done..|]. case_bool_decide as Hlen; [|done]. unfold mbind at 1, M_bind at 1, get at 1 in H.
  destruct (vol_file_names name l Hnd) as (ino & L & Hfile & -> & HL').
  pose proof (header_long (file_contents img ino) (m_stack m) ltac:(lia) Hstack) as Hhead.
  destruct (elf_entry (take 40 _)) as [e|] eqn:He.
  2: { injection H as <- <-. exists h. split; [|by exists pid, ps]. apply (enter_refused pid); [done|].
       eapply (execute_refused img n N D); [done..|lia|done|]. right. exists ino, L. split; [done|]. split; [done|].
       by rewrite Hhead. }
  destruct (j_free j) as [|free] eqn:Hfree; [done|]. injection H as <- <-.
  destruct (free_pids (h_kernel h)) as [|new rest] eqn:Efree; [pose proof (tr_count _ _ _ _ Ht) as Hc; rewrite Efree, Hfree in Hc; done|].
  assert (free_pid (h_kernel h) = Some new) as Hnew by (apply free_pid_first; by rewrite Efree).
  destruct (command_words _ _ _ Hcmd Hb) as (_ & Hwa & _).
  pose proof (launch_range pid ps h j new Ht Hnew) as (Hpr & [Hnr _] & Hne).
  assert (new <> pid) as Hnp by (intros ->; apply Hne; left).
  pose proof (launch_started pid ps h j new (file_contents img ino) arg e Ht Hnew (conj Hwa Hla)) as (Hst & Hr & _ & _).
  pose proof (launch_tree pid ps h j new (file_contents img ino) arg e Ht Hnew (conj Hwa Hla) free (h_keys h) Hfree eq_refl) as Htree.
  eexists. split; [|by exists new, (pid :: ps)].
  apply (enter_launched pid h command new _ arg e); try done; try lia.
  - eapply (execute_runs img n N D (h_kernel h) pid new fr command name arg ino L e); try done.
    + apply Ht.
    + by apply (tr_maps _ _ _ _ Ht).
    + lia.
    + lia.
    + by rewrite Hhead.
  - apply Hst.
Qed.

(** ** The end of a program *)

Lemma closing_argument k i b : argument (closing k i b) = argument b.
Proof. revert i b. induction k as [|k IH]; intros i b; cbn [closing]; [done|]. by rewrite IH. Qed.

Lemma closing_ok k i b : pcb_ok b -> pcb_ok (closing k i b).
Proof.
  revert i b. induction k as [|k IH]; intros i b Hb; cbn [closing]; [done|]. apply IH.
  apply pcb_ok_change_fd; [|done]. intros. by apply name_ok_closed.
Qed.

Section Landing.
Context (pid p : Z) (ps : list Z) (h : host) (j : jobs) (a : list Z) (args : list (list Z)) (status : Z).
Hypothesis Htree : tree pid (p :: ps) h j.
Hypothesis Hargs : j_args j = a :: args.
Hypothesis Hlast : load (w_chans (j_world j)) 5 = Some Closed.
Abbreviation s := (h_kernel h).
Abbreviation s' := (halted pid p status s).

Lemma land_facts :
  (1 <= pid <= 6 /\ 1 <= p <= 6) /\ pid ∉ p :: ps /\ load (openTasks (k_procs s)) pid = Some p /\
  waits s p a /\ waiting s p ps args.
Proof using Htree Hargs.
  destruct Htree as [_ _ _ _ _ Hnd Hr Hw _ _ _]. rewrite Hargs in Hw. destruct Hw as (Hpar & Hwp & Hw).
  apply NoDup_cons in Hnd as [Hne _]. apply Forall_cons in Hr as [Hp Hr]. apply Forall_inv in Hr. cbn in Hp, Hr.
  split; [done|]. split; [done|]. done.
Qed.

Lemma land_display : display_same s s'.
Proof. by split. Qed.

Lemma land_tasks q :
  load (openTasks (k_procs s')) q = if bool_decide (q = pid) then Some (-1) else load (openTasks (k_procs s)) q.
Proof using Htree Hargs.
  destruct land_facts as ((Hp & _) & _). pose proof (kr_openTasks _ _ (tr_ready _ _ _ _ Htree)).
  change (openTasks (k_procs s')) with (<[Z.to_nat pid := -1]> (openTasks (k_procs s))). case_bool_decide as Hq.
  - subst q. by apply load_insert_eq; lia.
  - by apply load_insert_ne; lia.
Qed.

Lemma land_free q : is_free s q -> is_free s' q.
Proof using Htree Hargs.
  intros [Hq Hf]. split; [done|]. rewrite land_tasks, Hf. by case_bool_decide.
Qed.
Lemma land_free_iff q : is_free s q <-> is_free s' q /\ q <> pid.
Proof using Htree Hargs.
  split.
  - intros Hq. split; [by apply land_free|]. intros ->.
    eapply (waiting_all_active s pid (p :: ps)); [apply Htree|apply Htree|left|done].
  - intros [[Hq Hf] Hne]. split; [done|]. by rewrite land_tasks, bool_decide_false in Hf.
Qed.
Lemma land_freed : is_free s' pid.
Proof using Htree Hargs. destruct land_facts as ((Hp & _) & _). split; [done|]. by rewrite land_tasks, bool_decide_true. Qed.

Lemma land_pcb b :
  load (pcbs (k_procs s)) (p - 1) = Some b -> load (pcbs (k_procs s')) (p - 1) = Some (all_closed b).
Proof.
  intros Hb. unfold halted. change (pcbs (k_procs (lset _ ?s4))) with (pcbs (k_procs s4)). by apply load_altered_pcb.
Qed.
Lemma land_pcb_ne q : q <> p -> load (pcbs (k_procs s')) (q - 1) = load (pcbs (k_procs s)) (q - 1).
Proof using Htree Hargs.
  destruct land_facts as ((_ & Hp) & _). intros Hq. unfold halted.
  change (pcbs (k_procs (lset _ ?s4))) with (pcbs (k_procs s4)). by rewrite load_altered_pcb_ne by lia.
Qed.

Lemma land_ready : kernel_ready s' p.
Proof using Htree Hargs.
  destruct land_facts as ((Hp & Hpp) & _ & Htk & _). destruct (tr_ready _ _ _ _ Htree) as [Hc Hcur Ht Ho Hq Hi Hop [Hlp Hep]].
  split; try done; try lia.
  - change (terminals (k_terms s')) with (alter (set_program_id p) (Z.to_nat (old_terminal (k_terms s))) (terminals (k_terms s))).
    by rewrite length_alter.
  - destruct (reschedule_eq pid p pid (with_halted status s) p) as [_ Hlen]; try done; lia.
  - change (openTasks (k_procs s')) with (<[Z.to_nat pid := -1]> (openTasks (k_procs s))). by rewrite length_insert.
  - assert (procs_ok (altered_pcb p all_closed s)) as [? ?]; [|by split].
    apply procs_ok_altered; [|by split]. intros. by apply closing_ok.
Qed.

Lemma land_terminal t :
  load (terminals (k_terms s)) term = Some t -> load (terminals (k_terms s')) term = Some (set_program_id p t).
Proof using Htree.
  intros Ht. change (terminals (k_terms s')) with (alter (set_program_id p) (Z.to_nat (old_terminal (k_terms s))) (terminals (k_terms s))).
  rewrite (tr_old _ _ _ _ Htree). by apply load_alter_eq.
Qed.

Lemma land_others i t :
  i <> term -> load (terminals (k_terms s')) i = Some t -> ~ is_free s' (program_id t) /\ program_id t ∉ p :: ps.
Proof using Htree Hargs.
  pose proof (kr_old _ _ (tr_ready _ _ _ _ Htree)) as Hold. intros Hi.
  change (terminals (k_terms s')) with (alter (set_program_id p) (Z.to_nat (old_terminal (k_terms s))) (terminals (k_terms s))).
  rewrite (tr_old _ _ _ _ Htree) in *. rewrite load_alter_ne by (done || lia).
  intros [Hf Hin]%(tr_others _ _ _ _ Htree); [|done]. rewrite land_free_iff in Hf. rewrite not_elem_of_cons in Hin. tauto.
Qed.

Lemma land_closed i : 2 <= i < 8 -> flags <$> fd_of s' p i = Some 0.
Proof using Htree Hargs.
  destruct land_facts as ((Hp & Hpp) & _ & _ & (b & Hb & _) & _). intros Hi.
  destruct (load_pcb s p (kr_procs _ _ (tr_ready _ _ _ _ Htree)) Hpp) as (b' & Hb' & Hl & _).
  rewrite Hb in Hb'. injection Hb' as <-. destruct (load_Some (fds b) i) as [f Hf]; [lia|].
  unfold fd_of. rewrite (land_pcb b Hb). cbn [mbind option_bind]. unfold all_closed. rewrite (load_closing 6 2 b i f) by done || lia.
  rewrite bool_decide_true by lia. cbn. unfold closed. by case_bool_decide as Hfl; [rewrite Hfl|].
Qed.

Lemma land_represents : represents img n N p term frame s' (fresh_world a (j_world j)).
Proof using Htree Hargs Hframe.
  destruct land_facts as ((Hp & Hpp) & _ & _ & (b & Hb & _ & Ha & Hstd) & _). pose proof land_ready as [Hcr _ Htl _ _ _ _ Hprocs].
  pose proof land_display as Hds. pose proof Hds as [_ _ Hkb Hfs Hold].
  destruct (tr_hosts _ _ _ _ Htree) as [[_ _ Himg Hidx Hrange _ _ _ _ (page & Hcon & Htok & Htty) Hkbd _ (t & Ht & Hline)] _].
  pose proof (land_terminal t Ht) as Ht'. pose proof (land_pcb b Hb) as Hb'.
  pose proof (kr_old _ _ (tr_ready _ _ _ _ Htree)) as Hor. rewrite (tr_old _ _ _ _ Htree) in Hor.
  split; rewrite ?Hfs, ?Hkb; try done.
  - split; [done|lia|done|]. eapply terminal_of_only; [exact Hor|exact Ht'|done|].
    intros i t' Hi Hti. destruct (land_others i t' Hi Hti) as [_ Hin]. intros E. apply Hin. rewrite E. left.
  - exists (all_closed b). split; [done|]. unfold all_closed. by rewrite closing_argument.
  - intros i Hi. destruct (Hstd i Hi) as (f & Hf & Hfl). exists f. unfold fd_of. rewrite Hb'. split; [|done].
    cbn [mbind option_bind]. unfold all_closed. rewrite (load_closing 6 2 b i f) by done || lia.
    by rewrite bool_decide_false by lia.
  - intros i c Hi. cbn [fresh_world w_chans]. rewrite load_replicate by lia. intros [= <-].
    pose proof (land_closed i Hi) as (f & Hf & Hfl)%fmap_Some. by exists f.
  - destruct (console_same s s' p page Hds (tr_maps _ _ _ _ Htree p Hpp) Hcr Hpp Hcon) as [Hcon' Htty'].
    exists page. by rewrite Htty'.
  - intros _. rewrite Hold. exact (tr_old _ _ _ _ Htree).
  - by exists (set_program_id p t).
Qed.

Lemma land_tree :
  tree p ps (Host s' (h_keys h)) (Jobs (fresh_world a (j_world j)) args (S (j_free j))).
Proof using Htree Hargs Hframe Hlast.
  destruct land_facts as ((Hp & Hpp) & Hne & Htk & Hwp & Hw).
  pose proof (tr_distinct _ _ _ _ Htree) as Hnd. apply NoDup_cons in Hnd as [_ Hnd].
  split; cbn [h_kernel h_keys j_world j_args j_free].
  - split; [exact land_represents|]. apply (tr_hosts _ _ _ _ Htree).
  - exact land_ready.
  - exact (tr_old _ _ _ _ Htree).
  - exact (tr_flag _ _ _ _ Htree).
  - exact (tr_maps _ _ _ _ Htree).
  - done.
  - pose proof (tr_range _ _ _ _ Htree) as Hr. by apply Forall_inv_tail in Hr.
  - eapply waiting_frame; [| |exact Hw].
    + intros q Hq. rewrite land_tasks, bool_decide_false; [done|]. by intros ->.
    + intros q a' Hq. apply waits_frame, land_pcb_ne. intros ->. by apply NoDup_cons in Hnd as [? _].
  - intros q Hq. destruct (decide (q = pid)) as [->|Hqp].
    + destruct (represents_fd_of _ _ _ _ _ _ _ _ 7 _ (proj1 (tr_hosts _ _ _ _ Htree)) ltac:(lia) Hlast)
        as (f & Hf & _ & _ & Hfl). unfold fd_of in Hf |- *. rewrite land_pcb_ne by (intros ->; apply Hne; left).
      rewrite Hf. cbn. f_equal. by apply Hfl.
    + assert (is_free s q) as Hqs by (apply land_free_iff; done). rewrite <-(tr_last _ _ _ _ Htree q Hqs).
      unfold fd_of. rewrite land_pcb_ne; [done|]. intros ->.
      eapply (waiting_all_active s pid (p :: ps)); [apply Htree|apply Htree|right; left|done].
  - rewrite <-(tr_count _ _ _ _ Htree). apply (free_pids_less s' s pid); [exact land_freed|exact land_free_iff].
  - exact land_others.
Qed.
End Landing.

Lemma leave_simulates status : simulates tree_of (kernel_leave frame_of status) (service_leave status).
Proof using Hframe HL.
  intros h j x j' (pid & ps & Ht) H. unfold service_leave in H. unfold mbind at 1, M_bind at 1, get at 1 in H.
  destruct (load (w_chans (j_world j)) 5) as [[]|] eqn:Hlast; try done.
  destruct (j_args j) as [|a args] eqn:Hargs; [done|]. injection H as <- <-.
  pose proof (tr_waiting _ _ _ _ Ht) as Hw. rewrite Hargs in Hw. destruct ps as [|p ps]; [done|]. clear Hw.
  destruct (land_facts pid p ps h j a args Ht Hargs) as ((Hp & Hpp) & Hne & Htk & (b & Hb & Hfr & _) & _).
  exists (Host (halted pid p status (h_kernel h)) (h_keys h)). split.
  - unfold kernel_leave. rewrite (zoom_Ret _ h (u8 status) (halted pid p status (h_kernel h))); [done|].
    change (lget h) with (h_kernel h).
    rewrite (bind_Ret _ _ _ _ _ (halt_runs (h_kernel h) pid p status b (tr_ready _ _ _ _ Ht) Htk Hpp Hb)).
    pose proof (land_ready pid p ps h j a args status Ht Hargs) as Hr.
    rewrite (bind_Ret _ _ _ _ _ (find_programid_eq p _ (kr_cr3 _ _ Hr) ltac:(lia))). rewrite bool_decide_true by done.
    unfold halt_ret, gets. f_equal. change (s32 (u8 status) = u8 status). pose proof (u8_range status). apply s32_small. lia.
  - exists p, ps. by apply (land_tree pid).
Qed.

(** A program and those that it starts run on the kernel as over the service. *)
Lemma jobs_run fuel {A} (t : prog A) Q h j :
  tree_of h j -> runs (job_service vol text fuel) Q t j ->
  runs (kernel_jobs m frame_of code fuel) (fun a h' => exists j', tree_of h' j' /\ Q a j') t h.
Proof using Hserved Hquiet Hstack Hframe Hcode.
  apply runs_simulation. apply processes_simulates; [apply calls_simulate|apply enter_simulates|apply leave_simulates].
Qed.
End Sessions.
