(* ===== verification/Shell.v ===== *)
(** * The shell

    [src/syscalls/ece391shell.c] over the service of processes: what a user's session of
    commands does, until he types exit. *)
From ITree Require Import Core.ITreeDefinition.
From S2P Require Import Kernel Keyboard Typing Interrupts Exec Process Programs Console Jobs.

(** ** The program *)

(** The result of execute. *)
Definition shell_report (rval : Z) : prog unit :=
  if bool_decide (-1 = rval) then ece391_fdputs 1 (cstring "no such command
")
  else if bool_decide (256 = rval) then ece391_fdputs 1 (cstring "program terminated by exception
")
  else if bool_decide (0 <> rval) then ece391_fdputs 1 (cstring "program terminated abnormally
")
  else mret tt.

(** A line that was read. *)
Definition shell_command (buf : list Z) : prog (list Z + Z) :=
  r ← inside (ece391_strcmp buf (cstring "exit"));
  if bool_decide (0 = r) then mret (inr 0)
  else
    c ← inside (load buf 0);
    if bool_decide (0 = c) then mret (inl buf)
    else
      rval ← ece391_execute buf;
      _ ← shell_report rval;
      mret (inl buf).

Definition shell_round (buf : list Z) : prog (list Z + Z) :=
  _ ← ece391_fdputs 1 (cstring "391OS> ");
  '(cnt, buf) ← ece391_read 0 buf (BUFSIZE - 1);
  if bool_decide (-1 = cnt) then
    _ ← ece391_fdputs 1 (cstring "read from keyboard failed
");
    mret (inr 3)
  else
    last ← (if bool_decide (cnt > 0) then inside (load buf (cnt - 1)) else mret 0);
    let cnt := if bool_decide (cnt > 0) && bool_decide (10 = last) then cnt - 1 else cnt in
    buf ← inside (store buf cnt 0);
    shell_command buf.

(** [buf]: the array, BUFSIZE bytes. *)
Definition shell_main (buf : list Z) : prog Z :=
  _ ← ece391_fdputs 1 (cstring "Starting 391 Shell
");
  loop shell_round buf.

(** ** Sessions *)

Definition puts_job (line : string) (j : jobs) : jobs := lset (print false (bytes_of_string line) (j_world j)) j.

(** The user types [line] at the prompt. *)
Inductive reads (j : jobs) (line : list Z) : jobs -> Prop :=
| Reads keys rest :
    w_keys (j_world j) = keys :: rest -> line_typed (j_world (puts_job "391OS> " j)) keys line ->
    reads j line (lset (set_session (key_step (typing (j_world (puts_job "391OS> " j)) keys) 0x1C) rest
                          (j_world (puts_job "391OS> " j))) j).

Definition report (v : Z) (j : jobs) : jobs :=
  if bool_decide (v = -1) then puts_job "no such command
" j
  else if bool_decide (v = 256) then puts_job "program terminated by exception
" j
  else if bool_decide (v <> 0) then puts_job "program terminated abnormally
" j
  else j.

Section Session.
Context (vol : volume) (text : list Z -> prog Z).
Abbreviation jobs_of := (job_service vol text).

(** From the prompt to exit: a command is executed, and its result is reported. *)
Inductive session : jobs -> jobs -> Prop :=
| session_exit j j1 : reads j (bytes_of_string "exit") j1 -> session j j1
| session_empty j j1 j' : reads j [] j1 -> session j1 j' -> session j j'
| session_command j line j1 n v j2 j' :
    reads j line j1 -> line <> [] -> line <> bytes_of_string "exit" ->
    jobs_of n _ (Sys_execute (line ++ [0])) j1 = Ret v j2 -> session (report v j2) j' -> session j j'.

(** ** Lemmas *)

(** A program that starts no other runs as over the file service. *)
Lemma job_runs n {A} (Q : A -> world -> Prop) (t : prog A) j :
  runs (service vol) Q t (j_world j) ->
  runs (jobs_of n) (fun a j' => exists w', j' = lset w' j /\ Q a w') t j.
Proof.
  intros H. eapply runs_mono.
  { apply (runs_simulation _ (service vol) (fun j' w => j' = lset w j) Q t j (j_world j)); [|by destruct j|exact H].
    intros T e j1 w x w' -> Hw.
    assert (jobs_of n T e (lset w j) = zoom (service vol T e) (lset w j)) as ->.
    { destruct n, e; reflexivity || done. }
    exists (lset w' j). split; [|done]. exact (zoom_Ret (service vol T e) (lset w j) x w' Hw). }
  intros a j' (w' & -> & HQ). by exists w'.
Qed.

Lemma job_puts n {A} (Q : A -> jobs -> Prop) line (k : unit -> prog A) j :
  until0 (cstring line) = Some (bytes_of_string line) -> len (bytes_of_string line) <= 80 ->
  runs (jobs_of n) Q (k tt) (puts_job line j) -> runs (jobs_of n) Q (ece391_fdputs 1 (cstring line) ≫= k) j.
Proof.
  intros Hu Hl Hk. apply runs_bind.
  eapply runs_mono; [apply (job_runs n (fun _ w' => w' = print false (bytes_of_string line) (j_world j)))|].
  - unfold ece391_fdputs.
    apply runs_inside with (len (bytes_of_string line)); [by rewrite ece391_strlen_eq, (strlen_Some _ _ Hu)|].
    eapply runs_call; [by apply service_print; [apply cstring_bytes|]|]. rewrite Nat2Z.id, take_ge by lia.
    rewrite bool_decide_false by lia. by apply runs_ret.
  - intros [] j' (w' & -> & ->). exact Hk.
Qed.

Lemma job_reads n j line j1 buf m :
  reads j line j1 -> len line + 2 <= len buf ->
  jobs_of n _ (Sys_read 0 buf m) (puts_job "391OS> " j)
  = Ret (len line + 1, line ++ 10 :: 0 :: drop (length line + 2) buf) j1.
Proof.
  intros [keys rest Hk Hty] Hl. 
  assert (jobs_of n _ (Sys_read 0 buf m) (puts_job "391OS> " j)
    = zoom (service vol _ (Sys_read 0 buf m)) (puts_job "391OS> " j)) as -> by by destruct n.
  rewrite (zoom_Ret _ (puts_job "391OS> " j) _ _ (service_read_line vol (j_world (puts_job "391OS> " j)) buf m keys rest line Hk Hty Hl)). done.
Qed.

Lemma reads_line j line j1 :
  reads j line j1 -> bytes line /\ Forall (fun c => c <> 0) line /\ (length line <= 127)%nat.
Proof. intros [keys rest Hk Hty]. by eapply line_text. Qed.

(** execute does not look behind the command's NUL. *)
Lemma skip_spaces_nul l : exists l', forall r, skip_spaces (l ++ 0 :: r) = Some (l' ++ 0 :: r).
Proof.
  induction l as [|c l [l' IH]]; [by exists []|]. cbn [app skip_spaces].
  case_bool_decide; [by exists l'|]. by exists (c :: l).
Qed.

Lemma word_of_nul l : exists w l', forall r, word_of (l ++ 0 :: r) = (w, l' ++ 0 :: r).
Proof.
  induction l as [|c l (w & l' & IH)].
  - exists [], []. intros r. cbn [app word_of]. rewrite bool_decide_true; [done|]. by right; right.
  - cbn [app word_of]. case_bool_decide; [by exists [], (c :: l)|]. exists (c :: w), l'. intros r. by rewrite IH.
Qed.

Lemma parse_command_nul l : exists na, forall r, parse_command (l ++ 0 :: r) = Some na.
Proof.
  unfold parse_command. destruct (skip_spaces_nul l) as [l1 H1], (word_of_nul l1) as (w & l2 & H2),
    (skip_spaces_nul l2) as [l3 H3], (word_of_nul l3) as (w' & l4 & H4). exists (w, w'). intros r.
  rewrite H1. cbn [mbind option_bind]. rewrite H2, H3. cbn [mbind option_bind]. rewrite H4. by destruct l4.
Qed.

Lemma execute_line n line r j :
  bytes line -> bytes r ->
  jobs_of n _ (Sys_execute (line ++ 0 :: r)) j = jobs_of n _ (Sys_execute (line ++ [0])) j.
Proof.
  intros Hl Hr. destruct n as [|n]; [done|]. unfold job_service. cbn [processes].
  assert (service_enter vol text (line ++ 0 :: r) j = service_enter vol text (line ++ [0]) j) as E.
  { unfold service_enter. destruct (parse_command_nul line) as [na Hna]. rewrite !Hna. unfold mbind at 1 2, M_bind at 1 2, lift.
    destruct na as [name arg]. assert (bytes (line ++ 0 :: r) /\ bytes (line ++ [0])) as [H1 H2].
    { split; (apply Forall_app; split; [done|]; constructor; [unfold byte; lia|done]). }
    by rewrite (bool_decide_true (bytes (line ++ 0 :: r))), (bool_decide_true (bytes (line ++ [0]))). }
  unfold mbind, M_bind. by rewrite E.
Qed.

(** ** The shell *)

Definition shell_array (buf : list Z) : Prop := length buf = 1024%nat /\ bytes buf.

Lemma shell_reads n (Q : list Z + Z -> jobs -> Prop) buf j line j1 :
  shell_array buf -> reads j line j1 ->
  (forall r, shell_array (line ++ 0 :: r) -> bytes r -> runs (jobs_of n) Q (shell_command (line ++ 0 :: r)) j1) ->
  runs (jobs_of n) Q (shell_round buf) j.
Proof.
  intros [Hl Hb] Hr Hk. destruct (reads_line _ _ _ Hr) as (Hlb & Hz & Hll). unfold shell_round.
  apply job_puts; [done|simpl; lia|]. eapply runs_call; [by apply job_reads; [exact Hr|lia]|]. cbn beta iota.
  rewrite bool_decide_false by lia. rewrite (bool_decide_true (_ > 0)) by lia.
  assert (load (line ++ 10 :: 0 :: drop (length line + 2) buf) (len line + 1 - 1) = Some 10) as Hlast.
  { replace (len line + 1 - 1) with (len line) by lia. rewrite load_lookup. by rewrite list_lookup_middle. }
  eapply runs_inside; [exact Hlast|]. rewrite bool_decide_true by done. cbn [andb].
  replace (len line + 1 - 1) with (len line) by lia.
  eapply runs_inside; [by apply store_middle|]. apply Hk; [split; [lens|]|].
  - apply Forall_app. split; [done|]. do 2 (constructor; [unfold byte; lia|]). by apply Forall_drop.
  - constructor; [unfold byte; lia|]. by apply Forall_drop.
Qed.

(** What is printed behind a command. *)
Lemma shell_reports n {A} (Q : A -> jobs -> Prop) v (k : unit -> prog A) j :
  runs (jobs_of n) Q (k tt) (report v j) -> runs (jobs_of n) Q (shell_report v ≫= k) j.
Proof.
  unfold report, shell_report. rewrite !(bool_decide_ext (_ = v) (v = _)) by done.
  rewrite (bool_decide_ext (0 <> v) (v <> 0)) by (split; congruence).
  repeat case_bool_decide; intros Hk; try (by apply job_puts; [done|simpl; lia|]). by apply runs_bind, runs_ret.
Qed.

Lemma shell_loop_runs j j' :
  session j j' ->
  exists n, forall buf, shell_array buf -> runs (jobs_of n) (fun v j'' => v = 0 /\ j'' = j') (loop shell_round buf) j.
Proof.
  intros Hs. induction Hs as [j j1 Hr|j j1 j' Hr _ [n IH]|j line j1 n1 v j2 j' Hr Hne Hnx Hv _ [n2 IH]].
  - exists 0%nat. intros buf Hb. apply runs_loop. eapply shell_reads; [done|exact Hr|]. intros r _ _.
    destruct (ece391_strcmp_eq (bytes_of_string "exit" ++ 0 :: r) (cstring "exit") (bytes_of_string "exit") (bytes_of_string "exit"))
      as (d & Hc & Hd); [by apply until0_app; apply reads_line in Hr as (_ & ? & _)|done|].
    eapply runs_inside; [exact Hc|]. rewrite bool_decide_true by (symmetry; by apply Hd). by apply runs_ret.
  - exists n. intros buf Hb. apply runs_loop. eapply shell_reads; [done|exact Hr|]. intros r Hb' _.
    destruct (ece391_strcmp_eq ([] ++ 0 :: r) (cstring "exit") [] (bytes_of_string "exit")) as (d & Hc & Hd); [done..|].
    eapply runs_inside; [exact Hc|]. rewrite bool_decide_false by (intros <-; by specialize (proj1 Hd eq_refl)). eapply runs_inside; [reflexivity|].
    rewrite bool_decide_true by done. apply runs_ret. by apply IH.
  - exists (n1 + n2)%nat. intros buf Hb. apply runs_loop. eapply shell_reads; [done|exact Hr|]. intros r Hb' Hbr.
    destruct (reads_line _ _ _ Hr) as (Hlb & Hz & Hll).
    destruct (ece391_strcmp_eq (line ++ 0 :: r) (cstring "exit") line (bytes_of_string "exit"))
      as (d & Hc & Hd); [by apply until0_app|done|].
    eapply runs_inside; [exact Hc|]. rewrite bool_decide_false by (intros <-; by apply Hnx, Hd).
    destruct line as [|c line]; [done|]. eapply runs_inside; [reflexivity|].
    rewrite bool_decide_false by (intros <-; by apply Forall_inv in Hz).
    rewrite <-(execute_line _ _ r) in Hv by done.
    eapply runs_call; [eapply (processes_below _ _ _ n1 (n1 + n2)); [lia|exact Hv]|].
    apply shell_reports, runs_ret. eapply runs_below; [apply (processes_below _ _ _ n2 (n1 + n2)); lia|]. by apply IH.
Qed.

Lemma shell_runs buf j j' :
  shell_array buf -> session (puts_job "Starting 391 Shell
" j) j' ->
  exists n, runs (jobs_of n) (fun v j'' => v = 0 /\ j'' = j') (shell_main buf) j.
Proof.
  intros Hb [n Hn]%shell_loop_runs. exists n. apply job_puts; [done|simpl; lia|]. by apply Hn.
Qed.
End Session.
