(* ===== verification/System.v ===== *)
(** * The system

    The kernel, its processes and the user's programs together: programs that start
    programs, the shell, and the way from the boot loader to a session of commands. *)
From ITree Require Import Core.ITreeDefinition.
From S2P Require Import Kernel Terminal Scheduler Syscall Exec Process Keyboard Typing Interrupts FileCalls.
From S2P Require Import Descriptors Boot Startup Calls Service KernelCalls Programs Console Jobs Sessions Shell Utilities.

(** The loaded bytes determine what a program does: [code] on a page that holds the file
    [l] is the program [text l]. *)
Definition loads (code : (Z -> Z) -> Z -> prog Z) (text : list Z -> prog Z) : Prop :=
  forall page l e, (forall i x, load l i = Some x -> page (program_offset + i) = x) ->
    elf_entry (take 40 l) = Some e -> 40 <= len l -> code page e = text l.

(** C2: execute and halt, with the other system calls, implement the service of processes:
    a program that starts programs, which may start others, does on the kernel what it does
    over the service. Each runs in an address space of its own, with its argument, fresh
    descriptors and the terminal; its parent goes on on its own kernel stack with the low
    byte of the status; and the process table, the control blocks, the page directories
    and the screen represent the service's state again. *)
Theorem kernel_refines_processes `{!Layout} `{!Overread} `{!Device} m frame_of code text img n N D term fr frame fuel
    {A} (t : prog A) Q h j :
  served img n N D -> quiet -> stack_ok m -> video_page fr frame -> loads code text ->
  tree_of img n N term fr frame frame_of h j -> runs (job_service (volume_of img n) text fuel) Q t j ->
  runs (kernel_jobs m frame_of code fuel) (fun a h' => exists j', tree_of img n N term fr frame frame_of h' j' /\ Q a j') t h.
Proof. intros. by eapply jobs_run. Qed.

(** ** An image with programs, for the examples *)

Definition elf_file (c : Z) : list Z :=
  [0x7F; 0x45; 0x4C; 0x46] ++ replicate 20 0 ++ enc32 0x8048020 ++ replicate 12 c.
Definition sys_image : list Z :=
  mk_boot [mk_dentry "." 1 0; mk_dentry "shell" 2 0; mk_dentry "cat" 2 1; mk_dentry "motd" 2 2] 3 3
  ++ mk_inode 40 [0] ++ mk_inode 40 [1] ++ mk_inode 14 [2]
  ++ pad_to 4096 (elf_file 1) ++ pad_to 4096 (elf_file 2) ++ pad_to 4096 (bytes_of_string "hello, world!
").

Lemma sys_image_wf : wf_image sys_image 4 3 3.
Proof. apply check_image_sound. vm_compute. reflexivity. Qed.

Definition demo_text (l : list Z) : prog Z :=
  if bool_decide (take 40 l = elf_file 2) then cat_main (replicate 1024 0) demo_behind else shell_main (replicate 1024 0).
Definition demo_code (page : Z -> Z) (_ : Z) : prog Z :=
  demo_text ((fun i => page (program_offset + i)) <$> seqZ 0 40).

Lemma demo_loads : loads demo_code demo_text.
Proof.
  intros page l e Hp _ Hl. unfold demo_code, demo_text.
  assert (take 40 ((fun i => page (program_offset + i)) <$> seqZ 0 40) = take 40 l) as ->; [|done].
  rewrite (take_ge (_ <$> _)) by (rewrite length_fmap, length_seqZ; lia). apply list_eq. intros i.
  rewrite list_lookup_fmap. destruct (decide (i < 40)%nat) as [Hi|Hi].
  - rewrite lookup_seqZ_lt, lookup_take_lt by lia. destruct (lookup_lt_is_Some_2 l i) as [x Hx]; [lia|]. rewrite Hx. cbn.
    f_equal. rewrite Z.add_0_l. apply Hp. by rewrite load_lookup.
  - rewrite lookup_seqZ_ge, lookup_take_ge by lia. done.
Qed.

Lemma sys_served : served sys_image 4 3 3.
Proof. apply check_served_sound; [exact sys_image_wf|vm_compute; reflexivity]. Qed.

(** Process 1, with three free process numbers. *)
Definition sys_host (keys : list (list Z)) : host := user_host sys_image keys.
Definition sys_jobs (keys : list (list Z)) : jobs := Jobs (text_world keys) [] 3.
Definition demo_stack (pid : Z) : Z * Z := (0x7FF000 - 0x2000 * pid, 0x7FF010 - 0x2000 * pid).
Definition sys_machine : machine := Machine (replicate 40 0) 111 222.

Lemma sys_tree keys : tree_of sys_image 4 3 0 VIDEO_MEM 0 demo_stack (sys_host keys) (sys_jobs keys).
Proof.
  exists 1, []. split.
  - by apply user_hosts.
  - destruct (user_hosts sys_image 4 3 keys ltac:(lia)) as [[[_ _ Hok] _ _ _ _ _ _ _ _ _ _ _ _] _].
    split; try reflexivity; try (cbn; lia). exact Hok.
  - reflexivity.
  - done.
  - intros q Hq. apply demo_maps.
  - by apply NoDup_singleton.
  - by repeat constructor.
  - done.
  - intros q [Hq Hf]. assert (q = 1 \/ q = 2 \/ q = 3 \/ q = 4 \/ q = 5 \/ q = 6) as [-> | [-> | [-> | [-> | [-> | ->]]]]] by lia;
      done.
  - reflexivity.
  - intros i t Hi Ht. pose proof (load_inv _ _ _ Ht) as [Hr _]. change (0 <= i < 3) in Hr.
    assert (i = 1 \/ i = 2) as [-> | ->] by lia; injection Ht as <-; split; (by intros [_ ?]) || by rewrite elem_of_cons, elem_of_nil; intros [?|?].
Qed.

Definition keys_of_cat_motd : list Z := [0x2E; 0x1E; 0x14; 0x39; 0x32; 0x18; 0x14; 0x20].

Lemma kernel_refines_processes_witness :
  runs (@kernel_jobs demo_layout demo_overread demo_device sys_machine demo_stack demo_code 20)
    (fun v h' => exists j', tree_of sys_image 4 3 0 VIDEO_MEM 0 demo_stack h' j' /\
       (v = 0 /\ exists long, w_out (j_world j') = [(long, bytes_of_string "hello, world!
")])) (ece391_execute (cstring "cat motd")) (sys_host []).
Proof.
  apply (@kernel_refines_processes demo_layout demo_overread demo_device sys_machine demo_stack demo_code demo_text
    sys_image 4 3 3 0 VIDEO_MEM 0 20 Z (ece391_execute (cstring "cat motd"))
    (fun v j' => v = 0 /\ exists long, w_out (j_world j') = [(long, bytes_of_string "hello, world!
")]) (sys_host []) (sys_jobs []));
    [exact sys_served|exact demo_quiet|reflexivity|split; reflexivity|exact demo_loads|exact (sys_tree [])|].
  apply runs_exec. exists 3%nat. eexists _, _. split; [vm_compute; reflexivity|]. split; [reflexivity|]. eexists. vm_compute. reflexivity.
Defined.

(** What the screen shows, in terms of the service. *)
Lemma tree_displays `{!Layout} img n N term fr frame frame_of h j :
  tree_of img n N term fr frame frame_of h j -> displays frame h (w_tty (j_world j)).
Proof.
  intros (pid & ps & Ht). destruct (rp_screen _ _ _ _ _ _ _ _ (proj1 (tr_hosts _ _ _ _ _ _ _ _ _ _ _ Ht))) as (page & Hc & _ & Htty).
  by exists page.
Qed.

(** C3: the shell on the kernel: for every session in which the user types commands, each
    of which runs a program that ends or is refused, empty lines and at last exit, the shell
    ends with status 0 in the session's final state: each command was executed once, in
    order, with its argument, and was followed by the line that reports its result; the screen shows
    the terminal of that state. *)
Theorem shell_runs_session `{!Layout} `{!Overread} `{!Device} m frame_of code text img n N D term fr frame h j j' buf :
  served img n N D -> quiet -> stack_ok m -> video_page fr frame -> loads code text ->
  tree_of img n N term fr frame frame_of h j -> shell_array buf ->
  session (volume_of img n) text (puts_job "Starting 391 Shell
" j) j' ->
  exists fuel, runs (kernel_jobs m frame_of code fuel)
    (fun v h' => v = 0 /\ tree_of img n N term fr frame frame_of h' j' /\ displays frame h' (w_tty (j_world j')))
    (shell_main buf) h.
Proof.
  intros Hd Hq Hst Hvp Hl Ht Hb (fuel & Hrun)%(shell_runs _ _ buf); [|done]. exists fuel.
  eapply runs_mono; [by eapply jobs_run|]. intros v h' (j'' & Ht' & -> & ->).
  split; [done|]. split; [done|]. by eapply tree_displays.
Qed.

(** *** A session in the examples: "cat motd" and "exit" *)

Definition keys_of_exit : list Z := [0x12; 0x2D; 0x17; 0x14].
Definition session_keys : list (list Z) := [keys_of_cat_motd; keys_of_exit].
Definition session_start : jobs := puts_job "Starting 391 Shell
" (sys_jobs session_keys).

(** The service's states behind the lines. *)
Definition typed_line (keys : list Z) (rest : list (list Z)) (j : jobs) : jobs :=
  let w := j_world (puts_job "391OS> " j) in lset (set_session (key_step (typing w keys) 0x1C) rest w) j.
Definition run_command (line : list Z) (j : jobs) : jobs :=
  match job_service (volume_of sys_image 4) demo_text 20 _ (Sys_execute (line ++ [0])) j with
  | Ret v j' => report v j'
  | _ => j
  end.
Definition session_end : jobs :=
  typed_line keys_of_exit [] (run_command (bytes_of_string "cat motd") (typed_line keys_of_cat_motd [keys_of_exit] session_start)).

Lemma demo_session : session (volume_of sys_image 4) demo_text session_start session_end.
Proof.
  set (j1 := typed_line keys_of_cat_motd [keys_of_exit] session_start).
  assert (exists v j2, job_service (volume_of sys_image 4) demo_text 20 _ (Sys_execute (bytes_of_string "cat motd" ++ [0])) j1 = Ret v j2)
    as (v & j2 & Hrun).
  { destruct (job_service _ _ _ _ _ j1) as [v j2| |] eqn:E; [by exists v, j2|..].
    all: exfalso; revert E; vm_compute; discriminate. }
  apply (session_command _ _ _ (bytes_of_string "cat motd") j1 20 v j2).
  - apply Reads; [reflexivity|]. typed.
  - done.
  - done.
  - exact Hrun.
  - assert (report v j2 = run_command (bytes_of_string "cat motd") j1) as ->.
    { unfold run_command. by rewrite Hrun. }
    apply session_exit. apply Reads; [vm_compute; reflexivity|]. typed.
Qed.

Lemma shell_runs_session_witness :
  exists fuel, runs (@kernel_jobs demo_layout demo_overread demo_device sys_machine demo_stack demo_code fuel)
    (fun v h' => v = 0 /\ tree_of sys_image 4 3 0 VIDEO_MEM 0 demo_stack h' session_end /\
       displays 0 h' (w_tty (j_world session_end))) (shell_main (replicate 1024 0)) (sys_host session_keys).
Proof.
  apply (@shell_runs_session demo_layout demo_overread demo_device sys_machine demo_stack demo_code demo_text
    sys_image 4 3 3 0 VIDEO_MEM 0 (sys_host session_keys) (sys_jobs session_keys) session_end (replicate 1024 0));
    [exact sys_served|exact demo_quiet|reflexivity|split; reflexivity|exact demo_loads|exact (sys_tree _)| |exact demo_session].
  split; [reflexivity|]. apply Forall_replicate. unfold byte. lia.
Defined.

(** ** From the boot loader to a session *)

(** The shell as the first process: what is left of the boot is a blank screen. *)
Definition first_jobs (t : tty) (kbd : keyboard) (keys : list (list Z)) : jobs :=
  Jobs (World (replicate 6 Closed) 0 [] t kbd keys []) [] 5.

Section First.
Context `{HL : !Layout} `{HK : !Linked} `{HD : !Device} (p0 : pics) (temp : module) (bs : list pcb) (k : kernel).
Context (contents : list Z) (e esp ebp n N : Z) (frame_of : Z -> Z * Z).
Hypothesis Hconf : configured p0 temp bs k.
Hypothesis Hlast : forall q, 1 <= q <= 6 -> exists b d, load bs (q - 1) = Some b /\ load (fds b) 7 = Some d /\ flags d = 0.
Abbreviation k' := (entered 0 1 contents (prepared 0 1 [] e esp ebp k)).

Lemma first_started :
  started k 0 1 [] contents esp ebp k' /\ kernel_ready k' 1 /\ display_same k k' /\ newterminal_flag (k_terms k') <> 1.
Proof using Hconf.
  pose proof (cf_ready _ _ _ _ Hconf) as Hr. assert (newterminal_flag (k_terms k) <> 1) by by rewrite (cf_flag _ _ _ _ Hconf).
  split; [apply entered_started; try done; simpl; lia || constructor|]. split; [apply started_ready; try done; simpl; lia|].
  split; [apply entered_display|by apply entered_flag].
Qed.

Lemma first_ids : program_id <$> terminals (k_terms k') = [1; 0; 0].
Proof using Hconf.
  destruct first_started as (Hst & _). rewrite (st_terminals _ _ _ _ _ _ _ _ Hst), (cf_old _ _ _ _ Hconf).
  pose proof (cf_ids _ _ _ _ Hconf) as Hi. destruct (terminals (k_terms k)) as [|t0 [|t1 [|t2 [|]]]]; try done.
  injection Hi as _ H1 H2. change ([1; program_id t1; program_id t2] = [1; 0; 0]). by rewrite H1, H2.
Qed.

Lemma first_tasks q : 1 <= q <= 6 -> load (openTasks (k_procs k')) q = Some (if bool_decide (q = 1) then 0 else -1).
Proof using Hconf.
  destruct first_started as (Hst & _). intros Hq.
  rewrite (st_table _ _ _ _ _ _ _ _ Hst), (cf_flag _ _ _ _ Hconf), (cf_openTasks _ _ _ _ Hconf), bool_decide_false by done.
  assert (q = 1 \/ q = 2 \/ q = 3 \/ q = 4 \/ q = 5 \/ q = 6) as [-> | [-> | [-> | [-> | [-> | ->]]]]] by lia; reflexivity.
Qed.

Lemma first_free q : is_free k' q <-> 2 <= q <= 6.
Proof using Hconf.
  unfold is_free. split.
  - intros [Hq Hf]. rewrite first_tasks in Hf by done. case_bool_decide; [done|lia].
  - intros Hq. split; [lia|]. by rewrite first_tasks, bool_decide_false by lia.
Qed.

Lemma first_channels q : 1 <= q <= 6 -> exists d, fd_of k' q 7 = Some d /\ flags d = 0.
Proof using Hconf Hlast.
  destruct first_started as (Hst & _). intros Hq. destruct (Hlast q Hq) as (b & d & Hb & Hd & Hf). exists d.
  rewrite <-(cf_pcbs _ _ _ _ Hconf) in Hb. unfold fd_of. destruct (decide (q = 1)) as [->|Hne].
  - rewrite (entered_last 0 1 contents [] e esp ebp k b) by (done || lia). split; [|done].
    change (load (fds (fresh_pcb [] b)) 7 = Some d). by rewrite fresh_last.
  - rewrite (st_others _ _ _ _ _ _ _ _ Hst) by lia. by rewrite Hb.
Qed.

Lemma first_represents page keys :
  0 <= n -> load (k_frames k) 0 = Some page -> length page = 4096%nat -> bytes page -> tty_ok (tty_of k page) ->
  represents (mod_image temp) n N 1 0 0 k' (j_world (first_jobs (tty_of k page) (k_kbd k') keys)).
Proof using Hconf Hlast.
  intros Hn Hp Hl Hb Htok. destruct first_started as (Hst & [Hcr _ Htl _ _ _ _ Hprocs] & [Hcu Hfr Hkb Hfs Hold] & _).
  pose proof (st_new _ _ _ _ _ _ _ _ Hst) as (b0 & b & _ & Hb1 & Hfb).
  split; rewrite ?Hfs; cbn [first_jobs j_world w_chans w_index w_arg w_tty w_kbd w_keys]; try done.
  - split; [done|lia|done|]. by rewrite (terminal_of_ids k' 1 1 0 0 first_ids).
  - apply (cf_image _ _ _ _ Hconf).
  - apply (cf_index _ _ _ _ Hconf).
  - exists b. split; [done|]. apply Hfb.
  - intros i Hi. destruct (fp_std _ _ _ _ _ Hfb i) as (f & Hf & Hfl & Hops); [lia|]. exists f.
    unfold fd_of. rewrite Hb1. split; [done|]. by rewrite Hfl.
  - intros i c Hi. rewrite load_replicate by lia. intros [= <-]. destruct (decide (i = 7)) as [->|].
    + destruct (first_channels 1) as (d & Hd & Hf); [lia|]. by exists d.
    + destruct (fp_free _ _ _ _ _ Hfb i) as (f & Hf & Hfl); [lia|]. exists f. unfold fd_of. by rewrite Hb1.
  - exists page. split; [|by unfold tty_of; rewrite Hcu].
    apply (console_task VIDEO_MEM 0 ltac:(by split) k' 1); rewrite ?Hfr; try done.
    rewrite (st_paging _ _ _ _ _ _ _ _ Hst). apply (cf_maps _ _ _ _ Hconf). lia.
  - exists (check_enter (k_kbd k')). by destruct (k_kbd k').
  - intros _. rewrite Hold. apply (cf_old _ _ _ _ Hconf).
  - destruct (cf_line _ _ _ _ Hconf) as (t & Ht & Hlt & Hbi). exists (set_program_id 1 t).
    rewrite (st_terminals _ _ _ _ _ _ _ _ Hst), (cf_old _ _ _ _ Hconf). split; [by apply load_alter_eq|].
    cbn [set_program_id line_buffer buffer_i]. by rewrite Hbi; split; [|lia].
Qed.

Lemma first_tree page keys :
  0 <= n -> load (k_frames k) 0 = Some page -> length page = 4096%nat -> bytes page -> tty_ok (tty_of k page) ->
  tree_of (mod_image temp) n N 0 VIDEO_MEM 0 frame_of (Host k' keys) (first_jobs (tty_of k page) (k_kbd k') keys).
Proof using Hconf Hlast.
  intros Hn Hp Hl Hb Htok. destruct first_started as (Hst & Hr & [_ _ _ _ Hold] & Hfl). exists 1, [].
  split; cbn [h_kernel h_keys first_jobs j_world j_args j_free].
  - split; [by apply first_represents|done].
  - done.
  - rewrite Hold. apply (cf_old _ _ _ _ Hconf).
  - done.
  - intros q Hq. rewrite (st_paging _ _ _ _ _ _ _ _ Hst). by apply (cf_maps _ _ _ _ Hconf).
  - apply NoDup_singleton.
  - by constructor; [lia|].
  - cbn [waiting]. by rewrite first_tasks by lia.
  - intros q Hq%first_free. destruct (first_channels q) as (d & -> & Hd); [lia|]. cbn. by rewrite Hd.
  - unfold free_pids. rewrite (filter_ext_in _ (fun q => 2 <= q <= 6)); [done|]. intros q _. apply first_free.
  - intros i t Hi Ht. pose proof (load_inv _ _ _ Ht) as [Hir Hlt].
    assert ((program_id <$> terminals (k_terms k')) !! Z.to_nat i = Some (program_id t)) as E by (by rewrite list_lookup_fmap, Hlt).
    rewrite first_ids in E.
    assert (program_id t = 0) as ->.
    { destruct (Z.to_nat i) as [|[|[|]]] eqn:Ei; [lia|by injection E|by injection E|done]. }
    rewrite first_free, list_elem_of_singleton. lia.
Qed.
End First.

(** C1: from the boot loader to the user: a kernel that starts with zeroed control blocks on a
    served image whose "shell" is the shell's program enters it on a blank screen, and
    for every session that the user types there, the shell ends in the session's final
    state, with the screen that belongs to it. *)
Theorem boot_to_session `{!Layout} `{!Linked} `{!Overread} `{!Device} p0 `{!PicDevice p0} m ldt tss lo hi magic mbi temp
    n N D ino L e k frame_of code text buf :
  powered_on k ->
  (forall q, 1 <= q <= 6 -> exists b d, load (pcbs (k_procs k)) (q - 1) = Some b /\ load (fds b) 7 = Some d /\ flags d = 0) ->
  info_ok magic mbi temp -> served (mod_image temp) n N D -> quiet -> stack_ok m -> loads code text ->
  names_file (mod_image temp) (bytes_of_string "shell") N ino L -> 40 <= L <= 0x3B8000 ->
  elf_entry (take 40 (file_contents (mod_image temp) ino)) = Some e ->
  text (file_contents (mod_image temp) ino) = shell_main buf -> shell_array buf ->
  exists s' t, entry m ldt tss lo hi magic mbi (start_state k) = Ret (Started (Iret e 0x83FFFFC)) s' /\
    tty_text t = replicate 2000 32 /\ tty_ok t /\
    forall keys j',
      session (volume_of (mod_image temp) n) text
        (puts_job "Starting 391 Shell
" (first_jobs t (k_kbd (b_kernel s')) keys)) j' ->
      exists fuel, runs (kernel_jobs m frame_of code fuel)
        (fun v h' => v = 0 /\ tree_of (mod_image temp) n N 0 VIDEO_MEM 0 frame_of h' j' /\ displays 0 h' (w_tty (j_world j')))
        (code (k_programs (b_kernel s') 1) e) (Host (b_kernel s') keys).
Proof.
  intros Hk Hlast Hinfo Hd Hq Hst Hl Hfile HL He Ht Hb. pose proof (sd_wf _ _ _ _ Hd) as Hwf.
  destruct Hfile as (i & d & Hi & Hdi & Hino & Hinr & HLen).
  destruct (wf_file_length _ _ _ _ Hwf _ Hinr) as (L' & HL' & HLr). rewrite HLen in HL'. injection HL' as <-.
  pose proof (file_contents_length _ _ _ HLen ltac:(lia)) as Hlen.
  destruct (boot_reaches p0 m ldt tss lo hi magic mbi temp n N D ino L e k) as (k3 & s' & Hc & Hrun & Hs' & _); try done.
  { by exists i, d. } { lia. } { by rewrite (header_long (file_contents (mod_image temp) ino) (m_stack m) ltac:(lia) Hst). }
  destruct (cf_screen _ _ _ _ Hc) as (page & Hp & Hpl & Hpb & Hpt & Htok).
  exists s', (tty_of k3 page). split; [done|]. split; [done|]. split; [done|]. intros keys j' Hsess.
  assert (code (k_programs (b_kernel s') 1) e = shell_main buf) as ->.
  { rewrite <-Ht. apply Hl; [|done|lia]. intros a x Hx. rewrite Hs'.
    pose proof (entered_started k3 0 1 [] (file_contents (mod_image temp) ino) e (m_esp m) (m_ebp m)
      (cf_ready _ _ _ _ Hc) ltac:(lia) ltac:(lia) (Forall_nil_2 _) ltac:(simpl; lia)) as Hstarted.
    rewrite (st_memory _ _ _ _ _ _ _ _ Hstarted). pose proof (load_inv _ _ _ Hx) as [? _].
    unfold programs_with, program_offset. rewrite bool_decide_true by lia.
    replace (0x48000 + a - 0x48000) with a by lia. by rewrite Hx. }
  apply (shell_runs _ _ buf) in Hsess as [fuel Hrun']; [|done]. exists fuel.
  assert (tree_of (mod_image temp) n N 0 VIDEO_MEM 0 frame_of (Host (b_kernel s') keys)
    (first_jobs (tty_of k3 page) (k_kbd (b_kernel s')) keys)) as Htree.
  { rewrite Hs'. eapply first_tree; try done. destruct (wf_dirs _ _ _ _ Hwf). lia. }
  eapply runs_mono; [eapply jobs_run; try done; by split|]. intros v h' (j'' & Ht' & -> & ->).
  split; [done|]. split; [done|]. by eapply tree_displays.
Qed.

Definition sys_module : module := Mod 0x500000 0x508000 sys_image.
Definition sys_info : multiboot_info :=
  MultibootInfo 0x4F 639 65000 0x8000FFFF (cstring "bootimg") [sys_module] 0 0 0 0 48 0x9000
    (fun a => MemoryMap 20 0 0 0x9FC00 0 1).

Lemma sys_info_ok : info_ok 0x2BADB002 sys_info sys_module.
Proof.
  split.
  - reflexivity.
  - reflexivity.
  - reflexivity.
  - constructor; [|constructor]. apply Nat.leb_le. vm_compute. reflexivity.
  - intros _. exists (bytes_of_string "bootimg"). split; [reflexivity|]. by repeat constructor.
  - intros _. split; [cbn; lia|]. cbn. intros a Ha. lia.
Qed.

Lemma sys_shell : names_file sys_image (bytes_of_string "shell") 3 0 40.
Proof.
  exists 1, (Dentry (pad_to 32 (bytes_of_string "shell")) 2 0 (replicate 24 0)).
  split; [vm_compute; reflexivity|]. split; [vm_compute; reflexivity|]. split; [done|]. split; [lia|].
  vm_compute. reflexivity.
Qed.

Lemma boot_to_session_witness :
  exists s' t, @entry demo_layout demo_linked chips sys_machine 0x412340 0x412280 0 0 0x2BADB002 sys_info (start_state dark_kernel)
      = Ret (Started (Iret 0x8048020 0x83FFFFC)) s' /\
    tty_text t = replicate 2000 32 /\ tty_ok t /\
    forall keys j',
      session (volume_of sys_image 4) demo_text (puts_job "Starting 391 Shell
" (first_jobs t (k_kbd (b_kernel s')) keys)) j' ->
      exists fuel, runs (@kernel_jobs demo_layout demo_overread chips sys_machine demo_stack demo_code fuel)
        (fun v h' => v = 0 /\ tree_of sys_image 4 3 0 VIDEO_MEM 0 demo_stack h' j' /\ displays 0 h' (w_tty (j_world j')))
        (demo_code (k_programs (b_kernel s') 1) 0x8048020) (Host (b_kernel s') keys).
Proof.
  apply (@boot_to_session demo_layout demo_linked demo_overread chips demo_pics chips_answer sys_machine
    0x412340 0x412280 0 0 0x2BADB002 sys_info sys_module 4 3 3 0 40 0x8048020 dark_kernel demo_stack demo_code demo_text
    (replicate 1024 0));
    [exact dark_powered| |exact sys_info_ok|exact sys_served|exact demo_quiet|reflexivity|exact demo_loads|exact sys_shell
    |lia|vm_compute; reflexivity| |].
  - intros q Hq. assert (q = 1 \/ q = 2 \/ q = 3 \/ q = 4 \/ q = 5 \/ q = 6) as [-> | [-> | [-> | [-> | [-> | ->]]]]] by lia;
      eexists _, _; (split; [reflexivity|split; reflexivity]).
  - assert (take 40 (file_contents sys_image 0) = elf_file 1) as E by (vm_compute; reflexivity).
    unfold demo_text. cbn [sys_module mod_image]. by rewrite E.
  - split; [reflexivity|]. apply Forall_replicate. unfold byte. lia.
Defined.
